(* ===== verification/_CoqProject ===== *)
-Q . S2P
Prelude.v
Text.v
Base64.v
Schema.v
Evolve.v
QUsers.v
QAccess.v
QSecrets.v
QAudit.v
Json.v
Protocol.v
Crypto.v
Password.v
World.v
Http.v
Pagination.v
Perms.v
Grants.v
Accounts.v
Auth.v
Secrets.v
Hosts.v
Sets.v
Groups.v
Upgrades.v
Listings.v
Link.v
Router.v
Daemon.v
Agent.v
Demo.v
Scenario.v
Runs.v
Wp.v
Conn.v
RateLimit.v
Settings.v
Fs.v
Update.v
Install.v
HostTools.v
Commands.v
Cli.v
Serving.v
DaemonProps.v
AgentProps.v
Trail.v
HostProps.v
Deployment.v
SystemProps.v
AccessProps.v
Routing.v
GrantProps.v
SecretProps.v
EndToEnd.v
Interleaving.v
AccountProps.v
AuthProps.v
AuditProps.v
Delivery.v
Wire.v
Lifecycle.v
SignIn.v
CommandProps.v
Startup.v
CryptoProps.v
System.v
