(* ===== verification/Prelude.v ===== *)
(** * custos: a verification of the control plane and the host agent

    custos gives people SSH access to hosts, and people and hosts access to
    secrets.  A _control plane_ (an HTTP server on PostgreSQL,
    [internal/controlplane]) keeps users, grants, hosts, secrets and audit
    logs.  A _daemon_ on each host ([internal/daemon]) keeps a websocket to the
    control plane, receives signed snapshots of the keys allowed on its host
    and sealed bundles of secret sets, and answers sshd and [custosd exec] on
    two local sockets, from memory or from its last-known-good file.

    ** How the parts interact, and which file models which

    - [Prelude]: the state-and-error monad [M], its notations, the tactics and
      hint databases, lemmas on lists, options and integers.
    - [Text], [Base64], [Json]: what the sources use of Go's [strings],
      [encoding/hex], [encoding/binary], [encoding/base64], [encoding/json];
      [uuidString] of [http.go].
    - [Schema]: the rows of [db/models.go], the tables of
      [migrations/0001_init.sql] as the record [DB], and statements as functions
      [now -> fresh id -> DB -> error + (result, DB)].
      [QUsers], [QAccess], [QSecrets], [QAudit]: one definition per function
      of [db/*.sql.go], with the constraint violations it can raise.
      A Go time is stored to the microsecond ([pg_time]).
      [Evolve]: every key, unique, check and foreign-key constraint of the
      schema as the invariant [db_wf], and the relation [evolves] between the
      database before and after a statement.
    - [Protocol]: [internal/protocol]: messages, their JSON forms, signed bytes.
      [Crypto]: modules [Identity], [Hybrid], [Vault], [SshKey] for
      [internal/{identity,hybrid,vault,sshkey}], and [token.go].
      [Password]: [internal/password].
    - [World]: the state a handler runs on (committed database, open
      transaction, hub of [hub.go], outgoing mail, checksum cache) and its
      effects: [pool] (a query that commits by itself), [Begin], [inTx],
      [Commit], [deferRollback], the clock, random bytes.
    - [Http]: requests, responses, [transport.go], [middleware.go].
      [Perms] ([perms.go]) with the specification [holds]; [Grants]
      ([grants.go], snapshots of [daemon_ws.go]); [Accounts] ([users.go],
      [keys.go]); [Auth] ([auth.go], [invitations.go], [password_reset.go]);
      [Secrets], [Hosts] ([hosts.go], [enroll.go], [enroll_tokens.go],
      [reads.go]), [Sets] ([secret_sets.go]), [Groups], [Upgrades];
      [Pagination] ([pagination.go]) and [Listings] (the audit listings of
      [audit.go], [access_audit.go] and [hosts.go]); [Link] (the connection of
      [daemon_ws.go]); [Conn]: the goroutines of one connection (reader,
      writer with its ping ticker, flush) as a step relation.  [Wire]:
      envelopes as the text of websocket messages, the read limits and the
      read loops on them.
    - [RateLimit] ([ratelimit.go]) and [Settings] ([config.go], the sender of
      [internal/email], [gen-keys], the allowed origins).
    - [Router]: the routes of [server.go] behind their middleware, and the
      step relation [cp_step] of the running server: a request, a daemon
      connecting, a message read, an envelope written, a connection closed, an
      admin created, a restart.  [Routing]: the registered patterns and the
      dispatch of a request by method and path, the websocket handshake on
      [/daemon] and the rate limiter in front of the public routes included.
      [Serving]: [custos serve] and
      [Serve] until the process ends, [custos migrate].
    - [Daemon]: cache, store, secret store, dispatcher, sockets, enrollment and
      start of the agent.  [Agent]: [Client.Run] with its goroutines as the
      step relation [agent_step]: reconnects, the read loop, the writer, the
      log forwarder, the report buffers, the status file.
    - [HostTools]: the clients of the daemon's sockets ([custosd authkeys],
      [custosd exec]) and of the control plane (enrolling, decommissioning).
      [Fs]: the files of a host as system calls that may fail midway, and
      [atomicWrite] on them; on it [Update] ([update.go], [applyupdate.go]),
      [Install] ([sshd.go], [install.go], [uninstall.go]) and the sockets of
      [run.go].  [Commands]: [custosd status], [custosd enroll] and
      [custos create-admin].  [Cli]: Go's [flag] package, the flags of every
      command and both [main]s.  [Startup]: [custosd run] from its files and
      system calls to the running client.  [Deployment]: an installed host as sshd and
      systemd start the program on it.
    - [System]: the control plane with an adversarial network and the agent of
      one host.
    - [Demo], [Scenario]: a concrete platform that satisfies every assumed law
      and a small deployment on it; the witnesses run there.
    - [Runs], [Wp]: reasoning about complete runs of handlers, shared by the
      files of theorems.

    ** What is a parameter

    Everything outside the sources is an argument.  [Env]: for each external
    step, whether the database call fails ([FailBefore]: not executed;
    [FailAfter]: executed, answer lost), what [now()], [gen_random_uuid()] and
    [crypto/rand] return; the theorems quantify over it, so they hold under
    every schedule of faults.  [Crypto], [JsonText], [TimeFormat],
    [Collation]: the primitives of Go's libraries and the database's order on
    text, with the documented laws named in [CryptoLaws], [JsonTextLaws],
    [TimeFormatLaws] (signing with a key verifies with its public key, opening
    what was sealed gives it back, and so on).  No law says that signatures
    cannot be forged or ciphertexts not be read: where that matters a theorem
    speaks of what verifies or opens.  The websocket peer, the release server,
    the disk's faults ([Disk], [SysEnv]), the programs a command runs, the tar
    reader ([TarGz]), the raw members of a JSON text ([RawText]) and the
    frames of [wsjson] ([WsJson]), the token bucket of [x/time/rate]
    ([RateLib]), the router go-chi ([Chi]), whether sshd's configuration
    takes the drop-in ([sys_takes]), how sshd and systemd read theirs
    ([HostPrograms], whose laws cover the lines the documentation fixes), the HTTP client, the kernel's answer on a socket peer and
    the results of the calls that harden memory are arguments of the
    definitions that use them.

    ** Requests at the same time

    [Env] also says what others (other requests, connections) committed and
    queued since the request's last database call; a transaction sees what is
    committed by each statement with its own changes made on top, which is
    PostgreSQL's default level, READ COMMITTED.  A statement's change is
    computed again over what others committed, as if its conditions were
    evaluated at the commit; row locks, which make one of two conflicting
    transactions wait, are not modelled, so schedules that they exclude are
    included.  The hub is shared the same way: what others queued is seen at
    the next database call.  [World.w_changes] lists the commits of a run.

    Three kinds of theorems result.  What each commit satisfies by itself
    holds of every interleaving ([Interleaving.history]).  [SystemProps]
    assumes of others only that they evolve the database ([OthersEvolve]).
    The functional theorems on handlers say what one does when no other
    request commits while it is served ([Alone]); of some of them
    [Interleaving] shows that this is needed.

    What a daemon does with a published envelope is stated of daemons whose
    last applied number is not above the host's counter: every daemon but one
    that was re-enrolled as another host and kept its cache, which ignores
    the envelope ([DaemonProps.reenrolled_daemon_ignores_low_snapshots]).

    ** What the theorems show

    - [SystemProps]: for every run of [cp_step], others committing in between:
      every constraint of the schema holds, no transaction is left open, the hub is
      well formed; snapshot numbers strictly increase; a push reaches the
      current connection.
    - [Interleaving]: over every interleaving of commits audit logs only grow,
      revocations and spent tokens are final.
    - [System]: whatever the network delivers and whatever interleaves, a host
      lets in only keys that a grant gave access at some time.
    - [Conn]: a connection writes what was queued for it, in order and once.
      [Delivery]: a created or revoked grant and the removal of a user reach
      queues of the connected hosts, whose agents, once they processed them,
      decide by the grants there are.
    - [Wire]: a message is read as it was written, its signature included, up
      to the reader's limit.
    - [Trail]: the audit rows a host causes are those of queries its agent
      answered, once each, login times to the microsecond; a report that is
      read is recorded.
    - [Routing]: a request is served by the handler of its pattern, behind the
      session it needs; the nine open patterns are listed, with what they can
      do.  [Serving]: when the process ends.
    - [Deployment]: on an installed host whose sshd takes the drop-in, sshd's
      questions are answered by the last snapshot.
    - [AccessProps]: the permission checks decide [holds]; routes refuse,
      without any effect, a caller without the permission they ask for.
    - [GrantProps]: grants change as the request says and together with their
      audit rows, and nothing else but the snapshot numbers of hosts; a
      snapshot lists exactly the keys allowed.
    - [DaemonProps]: the cache changes only by a signed, fresh snapshot;
      replays are ignored; the fallback from disk agrees with the daemon; a
      purge authorizes no one; backoff bounds; scoped secrets.
    - [EndToEnd]: control plane and daemon composed: SSH access is what the
      grants say, secret sets are what the bindings say, the handshake accepts
      active hosts and only those, a revoked host is cut off and a purge
      queued for it.
    - [SecretProps]: what is stored opens to what was submitted.
    - [AccountProps], [AuthProps]: what removal, suspension and group deletion
      take away; tokens that work once; logins, lockout and refresh.
      [SignIn]: the right password gets in, in particular the first admin's,
      whose access token then passes as long as session and user last.
    - [AuditProps]: following the cursors of a listing ends and shows each
      entry once; the access audits list exactly who has access.
    - [RateLimit]: evicting idle visitors changes no decision; a limited
      server's runs are runs of [cp_step].  [Settings]: loaded settings are
      usable, and those [gen-keys] prints load.
    - [AgentProps]: over every interleaving of the agent's goroutines, it
      authorizes only what signed snapshots list, reports at most once, and
      keeps its buffers and delays within bounds.
    - [Fs], [Update], [Install]: with calls failing anywhere, files of the
      state directory are replaced whole or not at all, the installed binary
      stays authentic, sshd loads only drop-ins it accepted.
    - [HostProps], [Lifecycle], [CommandProps]: logins without the daemon,
      [exec] with the whole set or not at all, enrollment and decommissioning
      end to end over HTTP, what [status] shows.  [Startup]: a daemon starts
      with the state on disk, its memory hardened, as far as the
      calls for it succeed, before there is a store for secrets, and its
      sockets shut to others; sets scoped to a user go to that user's processes only.
    - [CryptoProps]: the signed bytes determine the message; a sealed message
      opens for its recipient.

    Eleven theorems record weaknesses of the code: a re-enrolled daemon ignores
    the first snapshots of its new host
    ([DaemonProps.reenrolled_daemon_ignores_low_snapshots]), a group's
    manager can extend their own reach
    ([AccountProps.group_managers_extend_their_own_reach]), a ping that meets
    a full queue and a stopped writer blocks the agent for ever
    ([AgentProps.full_send_queue_wedges_the_agent]), and uninstalling removes
    the binary although sshd could not be reloaded
    ([Install.uninstall_removes_hook_and_binary]), a final purge can be lost
    ([Conn.disconnect_can_lose_the_purge]), the report of a login can be lost
    ([Trail.reports_can_be_lost]), and a shutdown cuts off requests
    ([Serving.shutdown_cuts_off_requests]); and four races in [Interleaving]:
    one token enrolls two hosts, an older snapshot undoes a revocation, a host
    revoked during its handshake stays connected, parallel wrong passwords
    count as one.

    ** Bounds, integers, termination

    Definitions are structurally recursive.  Three loops take fuel: [FetchSet]
    retries until its deadline, and [timeout / 500ms + 2] attempts are proved
    to be enough; [walk], the reader who follows a listing's cursors, needs
    one more request than the table has rows; [ParseDuration] takes a byte in
    every round.  Loops of the
    sources over connections that never end are the inputs they read:
    [readLoop] and [readDaemon] take the list of messages that arrived before
    the link failed.  The [bigint] counters of a host are bounded by
    [int64_max] and raise [numeric_out_of_range] past it; sequence numbers on
    the wire are converted modulo 2^64 ([to_uint64]); [ttl_hours] wraps at 64
    bits ([wrap_int64]); times are nanoseconds in [Z].

    ** What is not modelled

    Not modelled: log lines and terminal messages, the generated handle around
    pgx ([db.go]; its effect is [pool] and [inTx]), the migrations' SQL (the schema they make is
    the invariant [db_wf]), and wiping keys from memory.  [internal/domain]
    declares types that no other package uses. *)
From Stdlib Require Export Lia.
From stdpp Require Export base gmap strings sorting numbers list.
Export list.

(** ** Scope of the development's notations *)

Declare Scope custos_scope.
Delimit Scope custos_scope with custos.
Global Open Scope custos_scope.
Global Open Scope Z_scope.
Global Open Scope list_scope.

(** ** The state-and-error monad

    A Go function that reads and writes shared state and returns
    [(value, error)] is a computation [M S E A]: it takes the state [S],
    returns either an error of type [E] or a value of type [A], and the new
    state.  An HTTP handler is a computation whose error type is the
    response: an early [return] after [http.Error] is a [throw]. *)

Definition M (S E A : Type) : Type := S → (E + A) * S.

Definition ret {S E A} (a : A) : M S E A := λ s, (inr a, s).
Definition throw {S E A} (e : E) : M S E A := λ s, (inl e, s).
Definition bind {S E A B} (m : M S E A) (k : A → M S E B) : M S E B := λ s,
  match m s with
  | (inl e, s') => (inl e, s')
  | (inr a, s') => k a s'
  end.

(** [m <!> h]: the value of [m], or [h err] when [m] returns an error; this is
    the [if err != nil { ... }] that follows a call. *)
Definition onerr {S E E' A} (m : M S E A) (h : E → M S E' A) : M S E' A := λ s,
  match m s with
  | (inl e, s') => h e s'
  | (inr a, s') => (inr a, s')
  end.

(** [attempt m] never fails: the caller inspects the error as a value. *)
Definition attempt {S E E' A} (m : M S E A) : M S E' (E + A) := λ s,
  let '(r, s') := m s in (inr r, s').

(** [ignore m]: a call whose results are both dropped. *)
Definition ignore {S E E' A} (m : M S E A) : M S E' unit := λ s, (inr tt, (m s).2).

Definition gets {S E A} (f : S → A) : M S E A := λ s, (inr (f s), s).
Definition modify {S E} (f : S → S) : M S E unit := λ s, (inr tt, f s).

(** [for _, x := range l { f x }] whose body may return early. *)
Fixpoint foreach {S E A} (l : list A) (f : A → M S E unit) : M S E unit :=
  match l with
  | [] => ret tt
  | x :: l' => bind (f x) (λ _, foreach l' f)
  end.

(** [for _, x := range l { out = append(out, f x) }]. *)
Fixpoint map_each {S E A B} (f : A → M S E B) (l : list A) : M S E (list B) :=
  match l with
  | [] => ret []
  | x :: l' => bind (f x) (λ y, bind (map_each f l') (λ ys, ret (y :: ys)))
  end.

(** [when b m]: [if b { m }]. *)
Definition when {S E} (b : bool) (m : M S E unit) : M S E unit :=
  if b then m else ret tt.

Notation "x <- m ;; k" := (bind m (λ x, k))
  (at level 100, m at next level, right associativity) : custos_scope.
Notation "m ;;; k" := (bind m (λ _, k))
  (at level 100, right associativity) : custos_scope.
Notation "m <!> h" := (onerr m h) (at level 60, right associativity) : custos_scope.

(** ** Errors

    The errors a query or a control-plane function returns: [pgx.ErrNoRows], a
    [pgconn.PgError] with its SQLSTATE code, the failure of [Commit] on an
    aborted transaction, any other database failure, and [errors.New]. *)
Inductive error :=
  | ErrNoRows
  | PgError (code : string)
  | ErrTxCommitRollback
  | ErrConn (what : string)
  | ErrMsg (what : string).
#[export] Instance error_eq_dec : EqDecision error.
Proof. solve_decision. Defined.

(** ** Two-state specifications

    [preserves R m]: whatever [m] returns, the state before and the state
    after are related by [R].  For a preorder [R] the rules below are
    compositional, so a handler's specification follows from those of the
    database and hub operations it performs, on every branch and for every
    pattern of failures. *)

Definition preserves {S E A} (R : S → S → Prop) (m : M S E A) : Prop :=
  ∀ s, R s (m s).2.

Section preserves.
Context {S : Type} (R : S → S → Prop) `{!PreOrder R}.

Lemma preserves_ret {E A} (a : A) : preserves R (ret a : M S E A).
Proof. intros s. reflexivity. Qed.

Lemma preserves_throw {E A} (e : E) : preserves R (throw e : M S E A).
Proof. intros s. reflexivity. Qed.

Lemma preserves_gets {E A} (f : S → A) : preserves R (gets f : M S E A).
Proof. intros s. reflexivity. Qed.

Lemma preserves_bind {E A B} (m : M S E A) (k : A → M S E B) :
  preserves R m → (∀ a, preserves R (k a)) → preserves R (bind m k).
Proof.
  intros Hm Hk s. unfold bind. specialize (Hm s).
  destruct (m s) as [[e|a] s'] eqn:E1; simpl in *; [done|].
  etransitivity; [exact Hm | apply Hk].
Qed.

(** At one state, with what the first computation returned. *)
Lemma bind_at {E A B} (m : M S E A) (k : A → M S E B) s :
  R s (m s).2 → (∀ a s', m s = (inr a, s') → R s' (k a s').2) → R s (bind m k s).2.
Proof.
  intros Hm Hk. unfold bind. destruct (m s) as [[e|a] s'] eqn:E1; simpl in *; [done|].
  etransitivity; [exact Hm | by apply Hk].
Qed.

Lemma preserves_onerr {E E' A} (m : M S E A) (h : E → M S E' A) :
  preserves R m → (∀ e, preserves R (h e)) → preserves R (onerr m h).
Proof.
  intros Hm Hh s. unfold onerr. specialize (Hm s).
  destruct (m s) as [[e|a] s'] eqn:E1; simpl in *; [|done].
  etransitivity; [exact Hm | apply Hh].
Qed.

Lemma preserves_attempt {E E' A} (m : M S E A) :
  preserves R m → preserves R (attempt m : M S E' _).
Proof. intros Hm s. unfold attempt. specialize (Hm s). by destruct (m s). Qed.

Lemma preserves_ignore {E E' A} (m : M S E A) :
  preserves R m → preserves R (ignore m : M S E' _).
Proof. intros Hm s. exact (Hm s). Qed.

Lemma preserves_foreach {E A} (l : list A) (f : A → M S E unit) :
  (∀ x, preserves R (f x)) → preserves R (foreach l f).
Proof.
  intros Hf. induction l as [|x l IH]; simpl; [apply preserves_ret|].
  apply preserves_bind; auto.
Qed.

Lemma preserves_map_each {E A B} (f : A → M S E B) (l : list A) :
  (∀ x, preserves R (f x)) → preserves R (map_each f l).
Proof.
  intros Hf. induction l as [|x l IH]; simpl; [apply preserves_ret|].
  apply preserves_bind; [done|]; intros y.
  apply preserves_bind; [done|]; intros ys. apply preserves_ret.
Qed.

Lemma preserves_when {E} (b : bool) (m : M S E unit) :
  preserves R m → preserves R (when b m).
Proof. destruct b; [done|]. intros _. apply preserves_ret. Qed.

(** From states that satisfy [P]. *)
Definition guarded (P : S → Prop) (s s' : S) : Prop := P s → R s s'.
Lemma guarded_preorder (P : S → Prop) : (∀ s s', P s → R s s' → P s') → PreOrder (guarded P).
Proof.
  intros HP. split; [intros s _; reflexivity|]. intros s1 s2 s3 H1 H2 Hp.
  etransitivity; [by apply H1|apply H2]. eauto.
Qed.
Lemma preserves_guarded {E A} (P : S → Prop) (m : M S E A) :
  preserves R m → preserves (guarded P) m.
Proof. intros Hm s _. apply Hm. Qed.
End preserves.

Create HintDb preserve discriminated.
#[export] Hint Resolve preserves_ret preserves_throw preserves_gets : preserve.

(** One step of the compositional rules: a bind, an error branch, a loop or a
    case split of the program text. *)
Ltac preserve_step :=
  lazymatch goal with
  | |- ∀ _, _ => intro
  | |- preserves _ (bind _ _) => apply (preserves_bind _)
  | |- preserves _ (onerr _ _) => apply (preserves_onerr _)
  | |- preserves _ (attempt _) => apply (preserves_attempt _)
  | |- preserves _ (ignore _) => apply (preserves_ignore _)
  | |- preserves _ (foreach _ _) => apply (preserves_foreach _)
  | |- preserves _ (map_each _ _) => apply (preserves_map_each _)
  | |- preserves _ (when _ _) => apply (preserves_when _)
  | |- preserves _ (ret _) => apply (preserves_ret _)
  | |- preserves _ (throw _) => apply (preserves_throw _)
  | |- preserves _ (gets _) => apply (preserves_gets _)
  | |- preserves _ (match ?x with _ => _ end) => destruct x eqn:?
  end.

Ltac solve_preserves := repeat first [preserve_step | by eauto with preserve].

(** ** Generic lemmas *)

(** Splitting the result of a run into its components. *)
Lemma bind_inr {S E A B} (m : M S E A) (k : A → M S E B) s b s' :
  bind m k s = (inr b, s') ↔
  ∃ a s1, m s = (inr a, s1) ∧ k a s1 = (inr b, s').
Proof.
  unfold bind. split.
  - destruct (m s) as [[e|a] s1]; [done|]. eauto.
  - intros (a & s1 & -> & H). done.
Qed.

Lemma bind_ret_l {S E A B} (a : A) (k : A → M S E B) s : bind (ret a) k s = k a s.
Proof. done. Qed.

Lemma onerr_inr {S E E' A} (m : M S E A) (h : E → M S E' A) s a s' :
  m s = (inr a, s') → onerr m h s = (inr a, s').
Proof. unfold onerr. by intros ->. Qed.

(** A [bind] whose first computation is known to succeed. *)
Lemma bind_run {S E A B} (m : M S E A) (k : A → M S E B) s a s1 :
  m s = (inr a, s1) → bind m k s = k a s1.
Proof. unfold bind. by intros ->. Qed.

(** ** A small program logic

    [wp m s Qe Qo]: the run of [m] from [s] ends with an error and a state
    satisfying [Qe], or with a value and a state satisfying [Qo].  The rules
    follow the program text. *)

Definition wp {S E A} (m : M S E A) (s : S) (Qe : E → S → Prop) (Qo : A → S → Prop) : Prop :=
  match m s with (inl e, s') => Qe e s' | (inr a, s') => Qo a s' end.

Section wp.
Context {S E A B : Type}.

Lemma wp_bind (m : M S E A) (k : A → M S E B) s Qe Qo :
  wp m s Qe (λ a s1, wp (k a) s1 Qe Qo) → wp (bind m k) s Qe Qo.
Proof. unfold wp, bind. by destruct (m s) as [[e|a] s1]. Qed.
Lemma wp_onerr {E'} (m : M S E' A) (h : E' → M S E A) s Qe Qo :
  wp m s (λ e s1, wp (h e) s1 Qe Qo) Qo → wp (onerr m h) s Qe Qo.
Proof. unfold wp, onerr. by destruct (m s) as [[e|a] s1]. Qed.
Lemma wp_attempt {E'} (m : M S E' A) s Qe (Qo : E' + A → S → Prop) :
  wp m s (λ e, Qo (inl e)) (λ a, Qo (inr a)) → wp (attempt m : M S E _) s Qe Qo.
Proof. unfold wp, attempt. by destruct (m s) as [[e|a] s1]. Qed.
Lemma wp_ignore {E'} (m : M S E' A) s Qe (Qo : unit → S → Prop) :
  wp m s (λ _, Qo tt) (λ _, Qo tt) → wp (ignore m : M S E _) s Qe Qo.
Proof. unfold wp, ignore. by destruct (m s) as [[e|a] s1]. Qed.
Lemma wp_ret (a : A) s (Qe : E → S → Prop) Qo : Qo a s → wp (ret a) s Qe Qo.
Proof. done. Qed.
Lemma wp_throw e s (Qe : E → S → Prop) (Qo : A → S → Prop) :
  Qe e s → wp (throw e) s Qe Qo.
Proof. done. Qed.
Lemma wp_mono (m : M S E A) s (Qe Qe' : E → S → Prop) (Qo Qo' : A → S → Prop) :
  wp m s Qe Qo → (∀ e s1, Qe e s1 → Qe' e s1) → (∀ a s1, Qo a s1 → Qo' a s1) →
  wp m s Qe' Qo'.
Proof. unfold wp. destruct (m s) as [[e|a] s1]; auto. Qed.
Lemma wp_preserves R (m : M S E A) s (Qe : E → S → Prop) Qo :
  preserves R m → (∀ e s1, R s s1 → Qe e s1) → (∀ a s1, R s s1 → Qo a s1) → wp m s Qe Qo.
Proof.
  intros Hm He Ho. unfold wp. specialize (Hm s). destruct (m s) as [[e|a] s1]; auto.
Qed.
End wp.

(** ** Lists as tables *)

Lemma filter_all {A} (P : A → Prop) `{∀ x, Decision (P x)} l : Forall P l → filter P l = l.
Proof.
  induction 1 as [|x l Hx _ IH]; [done|]. rewrite filter_cons_True by done. by rewrite IH.
Qed.
Lemma filter_none {A} (P : A → Prop) `{∀ x, Decision (P x)} (l : list A) :
  (∀ x, x ∈ l → ¬ P x) → filter P l = [].
Proof.
  induction l as [|x l IH]; [done|]. intros Hl. rewrite filter_cons_False by (apply Hl; left).
  apply IH. intros y Hy. apply Hl. by right.
Qed.

(** The first row satisfying a predicate: what a [:one] query returns. *)
Definition first_row {A} (P : A → Prop) `{∀ x, Decision (P x)} (l : list A) : option A :=
  head (filter P l).

(** Two rows of a table with the same value of a unique key are the same. *)
Lemma unique_key {A K} (key : A → K) l x y :
  NoDup (key <$> l) → x ∈ l → y ∈ l → key x = key y → x = y.
Proof.
  intros Hnd Hx Hy Hk. apply list_elem_of_lookup in Hx as [i Hi].
  apply list_elem_of_lookup in Hy as [j Hj].
  assert (i = j) as ->; [|congruence].
  eapply (NoDup_lookup (key <$> l)); [done| |].
  - by rewrite list_lookup_fmap, Hi.
  - rewrite list_lookup_fmap, Hj. simpl. by rewrite Hk.
Qed.

Lemma Forall2_elem_l {A B} (P : A → B → Prop) l k x :
  Forall2 P l k → x ∈ l → ∃ y, y ∈ k ∧ P x y.
Proof.
  induction 1 as [|a b l k Hab _ IH]; [by intros ?%elem_of_nil|].
  intros [->|Hx]%elem_of_cons; [exists b; split; [constructor|done]|].
  destruct (IH Hx) as (y & Hy & HP). exists y. split; [by constructor|done].
Qed.
Lemma Forall2_elem_r {A B} (P : A → B → Prop) l k y :
  Forall2 P l k → y ∈ k → ∃ x, x ∈ l ∧ P x y.
Proof. intros HP. apply (Forall2_elem_l (flip P)). by apply Forall2_flip. Qed.

(** A Go map filled in a loop: [for _, x := range l { m[key(x)] = val(x) }]. *)
Section index_by.
Context {A B : Type} (key : A → string) (val : A → B).

Definition index_by (l : list A) : gmap string B := foldl (λ m x, <[key x := val x]> m) ∅ l.

Lemma index_by_snoc l x : index_by (l ++ [x]) = <[key x := val x]> (index_by l).
Proof. unfold index_by. by rewrite foldl_app. Qed.

Lemma index_by_elem l k b : index_by l !! k = Some b → ∃ x, x ∈ l ∧ key x = k ∧ val x = b.
Proof.
  induction l as [|x l IH] using rev_ind; [done|]. rewrite index_by_snoc, lookup_insert.
  case_decide; intros; simplify_eq.
  - exists x. split_and!; try done. apply elem_of_app. right. by apply list_elem_of_singleton.
  - destruct IH as (y & Hy & ?); [done|]. exists y. by rewrite elem_of_app; auto.
Qed.

(** Entries that share a key agree, so the last one wins harmlessly. *)
Lemma index_by_functional l x :
  (∀ y, y ∈ l → key y = key x → val y = val x) → x ∈ l → index_by l !! key x = Some (val x).
Proof.
  intros Hf Hx. assert (is_Some (index_by l !! key x)) as [b Hb].
  - clear Hf. induction l as [|y l IH] using rev_ind; [by apply elem_of_nil in Hx|].
    rewrite index_by_snoc. apply lookup_insert_is_Some'.
    apply elem_of_app in Hx as [Hx|Hx%list_elem_of_singleton]; subst; auto.
  - rewrite Hb. f_equal. apply index_by_elem in Hb as (y & Hy & Hk & <-). auto.
Qed.
End index_by.

Section tables.
Context {A : Type} (P : A → Prop) `{∀ x, Decision (P x)}.

Lemma first_row_Some l x : first_row P l = Some x → x ∈ l ∧ P x.
Proof.
  unfold first_row. intros Hh.
  assert (x ∈ filter P l) as Hin.
  { destruct (filter P l); simplify_eq/=. constructor. }
  apply list_elem_of_filter in Hin. tauto.
Qed.

Lemma first_row_None l : first_row P l = None ↔ ∀ x, x ∈ l → ¬ P x.
Proof.
  unfold first_row. split.
  - intros Hh x Hx HP. assert (x ∈ filter P l) as Hin.
    { by apply list_elem_of_filter. }
    destruct (filter P l); [by apply elem_of_nil in Hin | done].
  - intros Hn. destruct (filter P l) as [|y l'] eqn:E; [done|].
    assert (y ∈ filter P l) as Hin by (rewrite E; constructor).
    apply list_elem_of_filter in Hin as [HP Hy]. by destruct (Hn y Hy).
Qed.

(** With a key that is unique in the table, the row is determined. *)
Lemma first_row_unique {K} (key : A → K) l x :
  NoDup (key <$> l) → x ∈ l → P x → (∀ y, P y → key y = key x) →
  first_row P l = Some x.
Proof.
  intros Hnd Hx HPx Hkey. destruct (first_row P l) as [y|] eqn:E.
  - apply first_row_Some in E as [Hy HPy].
    f_equal. eapply (unique_key key l); auto.
  - exfalso. by eapply first_row_None.
Qed.
Lemma filter_unique {K} (key : A → K) l x :
  NoDup (key <$> l) → x ∈ l → P x → (∀ y, P y → key y = key x) → filter P l = [x].
Proof.
  intros Hnd Hx HPx Hkey. apply list_elem_of_split in Hx as (l1 & l2 & ->).
  rewrite fmap_app, fmap_cons in Hnd. apply NoDup_app in Hnd as (_ & Hd & [Hn _]%NoDup_cons).
  rewrite filter_app, filter_cons_True by done.
  rewrite (filter_none P l1), (filter_none P l2); [done|..].
  - intros y Hy HPy. apply Hn. rewrite <-(Hkey y HPy). by apply list_elem_of_fmap_2.
  - intros y Hy HPy. apply (Hd (key x)); [rewrite <-(Hkey y HPy); by apply list_elem_of_fmap_2|left].
Qed.
End tables.

(** [update ... set ... where P]: rows satisfying [P] are rewritten. *)
Definition update_where {A} (P : A → Prop) `{∀ x, Decision (P x)} (f : A → A)
    (l : list A) : list A :=
  (λ x, if decide (P x) then f x else x) <$> l.

(** [delete ... where P]: rows satisfying [P] are dropped. *)
Definition delete_where {A} (P : A → Prop) `{∀ x, Decision (P x)} (l : list A) : list A :=
  filter (λ x, ¬ P x) l.

(** The number of rows a statement affects ([:execrows]). *)
Definition count_where {A} (P : A → Prop) `{∀ x, Decision (P x)} (l : list A) : Z :=
  Z.of_nat (length (filter P l)).

Section update_delete.
Context {A : Type} (P : A → Prop) `{∀ x, Decision (P x)}.

Lemma elem_of_update_where f l y :
  y ∈ update_where P f l ↔ ∃ x, x ∈ l ∧ y = (if decide (P x) then f x else x).
Proof. unfold update_where. rewrite list_elem_of_fmap. firstorder. Qed.

Lemma elem_of_delete_where l x : x ∈ delete_where P l ↔ x ∈ l ∧ ¬ P x.
Proof. unfold delete_where. rewrite list_elem_of_filter. tauto. Qed.

Lemma update_where_key {K} (key : A → K) f l :
  (∀ x, P x → key (f x) = key x) → key <$> update_where P f l = key <$> l.
Proof.
  intros Hf. unfold update_where. rewrite <-list_fmap_compose.
  apply list_fmap_ext. intros i x _. simpl. case_decide; auto.
Qed.

Lemma length_update_where f l : length (update_where P f l) = length l.
Proof. unfold update_where. apply length_fmap. Qed.

Lemma delete_where_NoDup {K} (key : A → K) l :
  NoDup (key <$> l) → NoDup (key <$> delete_where P l).
Proof.
  unfold delete_where. induction l as [|x l IH]; [done|].
  rewrite fmap_cons. intros [Hx Hl]%NoDup_cons.
  rewrite filter_cons. case_decide; [|by apply IH].
  rewrite fmap_cons. apply NoDup_cons. split; [|by apply IH].
  contradict Hx. apply list_elem_of_fmap in Hx as (y & -> & Hy).
  apply list_elem_of_filter in Hy as [_ Hy]. apply list_elem_of_fmap. eauto.
Qed.

Lemma count_where_0 l : count_where P l = 0 ↔ ∀ x, x ∈ l → ¬ P x.
Proof.
  unfold count_where. rewrite <-first_row_None. unfold first_row.
  assert (∀ k : list A, Z.of_nat (length k) = 0 ↔ head k = None) as Hk.
  { intros [|y k]; simpl; split; intros; (congruence || lia). }
  apply Hk.
Qed.
End update_delete.

(** Table-wide facts under the three kinds of statement. *)
Section table_facts.
Context {A : Type}.

Lemma NoDup_insert {K} (key : A → K) l x :
  key x ∉ key <$> l → NoDup (key <$> l) → NoDup (key <$> (l ++ [x])).
Proof.
  intros Hx Hl. rewrite fmap_app. apply NoDup_app. split; [done|]. split.
  - intros y Hy. simpl. rewrite list_elem_of_singleton. by intros ->.
  - apply NoDup_singleton.
Qed.

Lemma Forall_insert (Q : A → Prop) l x : Forall Q l → Q x → Forall Q (l ++ [x]).
Proof. intros Hl Hx. apply Forall_app. by split; [|apply Forall_singleton]. Qed.

Lemma Forall_update_where (Q P : A → Prop) `{∀ x, Decision (P x)} f l :
  (∀ x, x ∈ l → Q x → P x → Q (f x)) → Forall Q l → Forall Q (update_where P f l).
Proof.
  rewrite !Forall_forall. intros Hf Hl y Hy.
  apply elem_of_update_where in Hy as (x & Hx & ->). case_decide; auto.
Qed.

Lemma Forall_delete_where (Q P : A → Prop) `{∀ x, Decision (P x)} l :
  Forall Q l → Forall Q (delete_where P l).
Proof.
  rewrite !Forall_forall. intros Hl x Hx. apply elem_of_delete_where in Hx as [Hx _]. auto.
Qed.

(** A foreign key: every value of the column is a key of the other table. *)
Definition references {K} (col : A → K) (l : list A) (keys : list K) : Prop :=
  Forall (λ x, col x ∈ keys) l.

Lemma references_weaken {K} (col : A → K) l keys keys' :
  (∀ k, k ∈ keys → k ∈ keys') → references col l keys → references col l keys'.
Proof. intros Hk. unfold references. rewrite !Forall_forall. auto. Qed.

(** No row of [l] is lost: each has a successor in [l'] related by [le]. *)
Definition rows_le (le : A → A → Prop) (l l' : list A) : Prop :=
  ∀ x, x ∈ l → ∃ y, y ∈ l' ∧ le x y.

#[export] Instance rows_le_preorder le : PreOrder le → PreOrder (rows_le le).
Proof.
  intros Hle. split.
  - intros l x Hx. exists x. by split.
  - intros l1 l2 l3 H12 H23 x Hx. destruct (H12 x Hx) as (y & Hy & Hxy).
    destruct (H23 y Hy) as (z & Hz & Hyz). exists z. split; [done|]. by etransitivity.
Qed.

Lemma rows_le_insert le l x : Reflexive le → rows_le le l (l ++ [x]).
Proof. intros Hle y Hy. exists y. split; [|reflexivity]. apply elem_of_app. auto. Qed.

Lemma rows_le_update le (P : A → Prop) `{∀ x, Decision (P x)} f l :
  Reflexive le → (∀ x, P x → le x (f x)) → rows_le le l (update_where P f l).
Proof.
  intros Hle Hf x Hx. exists (if decide (P x) then f x else x).
  split; [apply elem_of_update_where; eauto|]. case_decide; auto.
Qed.
End table_facts.

Create Rewrite HintDb table.
#[export] Hint Rewrite @list_elem_of_filter @list_elem_of_fmap @elem_of_update_where
  @elem_of_delete_where @elem_of_app @list_elem_of_singleton : table.

(** A nullable id column compared with a set of ids: null is in no set. *)
Definition opt_in {A} (o : option A) (l : list A) : Prop :=
  match o with Some x => x ∈ l | None => False end.
#[export] Instance opt_in_dec {A} `{EqDecision A} (o : option A) (l : list A) :
  Decision (opt_in o l).
Proof. destruct o; simpl; apply _. Defined.

Lemma opt_in_spec {A} (o : option A) l : opt_in o l ↔ ∃ x, o = Some x ∧ x ∈ l.
Proof. destruct o; simpl; firstorder congruence. Qed.

(** A nullable foreign key: null, or a key of the other table. *)
Definition opt_ref {A} (o : option A) (l : list A) : Prop :=
  match o with Some x => x ∈ l | None => True end.
#[export] Instance opt_ref_dec {A} `{EqDecision A} (o : option A) (l : list A) :
  Decision (opt_ref o l).
Proof. destruct o; simpl; apply _. Defined.

(** The constraint for a whole table. *)
Definition may_reference {A K} (col : A → option K) (l : list A) (keys : list K) : Prop :=
  Forall (λ x, opt_ref (col x) keys) l.

Lemma may_reference_weaken {A K} (col : A → option K) l keys keys' :
  (∀ k, k ∈ keys → k ∈ keys') → may_reference col l keys → may_reference col l keys'.
Proof.
  intros Hk Hl. apply (Forall_impl _ _ _ Hl). intros x. destruct (col x); simpl; auto.
Qed.
