(* ===== verification/Text.v ===== *)
(** Byte strings: what the sources use of Go's [encoding/binary], [fmt]'s
    [%x] verb, [encoding/base64] and [strings], and the textual form of a
    UUID ([internal/controlplane/http.go]).

    A Go [string] and a Go [[]byte] are both the Rocq [string] of their bytes
    (an [ascii] is one byte). *)
From Stdlib Require Import Ascii.
From S2P Require Import Prelude.

Abbreviation bytes := string (only parsing).

(** ** Bytes and lists *)

Fixpoint explode (s : string) : list ascii :=
  match s with "" => [] | String c s' => c :: explode s' end.
Fixpoint implode (l : list ascii) : string :=
  match l with [] => "" | c :: l' => String c (implode l') end.

Lemma implode_explode s : implode (explode s) = s.
Proof. induction s as [|c s IH]; simpl; congruence. Qed.

Lemma explode_implode l : explode (implode l) = l.
Proof. induction l as [|c l IH]; simpl; congruence. Qed.

#[export] Instance explode_inj : Inj (=) (=) explode.
Proof. intros s t H. by rewrite <-(implode_explode s), <-(implode_explode t), H. Qed.

Lemma explode_app s t : explode (s +:+ t) = explode s ++ explode t.
Proof. induction s as [|c s IH]; simpl; [done|]. by rewrite <-IH. Qed.

Lemma length_explode s : length (explode s) = String.length s.
Proof. induction s; simpl; auto. Qed.

Lemma string_app_nil_r s : s +:+ "" = s.
Proof. apply (inj explode). by rewrite explode_app, app_nil_r. Qed.

Lemma string_app_assoc s t u : (s +:+ t) +:+ u = s +:+ t +:+ u.
Proof. apply (inj explode). by rewrite !explode_app, app_assoc. Qed.

Lemma string_length_app s t :
  String.length (s +:+ t) = (String.length s + String.length t)%nat.
Proof. by rewrite <-!length_explode, explode_app, length_app. Qed.

(** Two concatenations with first parts of the same length. *)
Lemma string_app_inj_l s1 s2 t1 t2 :
  String.length s1 = String.length s2 → s1 +:+ t1 = s2 +:+ t2 → s1 = s2 ∧ t1 = t2.
Proof.
  intros Hl H. apply (f_equal explode) in H. rewrite !explode_app in H.
  apply app_inj_1 in H as [H1 H2]; [|by rewrite !length_explode].
  split; by apply (inj explode).
Qed.

(** Slices [b[:n]] and [b[n:]]. *)
Definition btake (n : nat) (s : string) : string := implode (take n (explode s)).
Definition bdrop (n : nat) (s : string) : string := implode (drop n (explode s)).

Lemma btake_bdrop n s : btake n s +:+ bdrop n s = s.
Proof.
  apply (inj explode). unfold btake, bdrop.
  by rewrite explode_app, !explode_implode, take_drop.
Qed.

Lemma btake_app n s t : String.length s = n → btake n (s +:+ t) = s.
Proof.
  intros <-. apply (inj explode). unfold btake.
  by rewrite explode_implode, explode_app, <-length_explode, take_app_length.
Qed.

Lemma bdrop_app n s t : String.length s = n → bdrop n (s +:+ t) = t.
Proof.
  intros <-. apply (inj explode). unfold bdrop.
  by rewrite explode_implode, explode_app, <-length_explode, drop_app_length.
Qed.

Lemma length_btake n s : (n ≤ String.length s)%nat → String.length (btake n s) = n.
Proof.
  intros H. rewrite <-length_explode. unfold btake.
  rewrite explode_implode, length_take, length_explode. lia.
Qed.

(** ** Big-endian integers ([binary.BigEndian.PutUint16/PutUint64]) *)

(** The [n]-byte big-endian form of [v] (the low [8*n] bits). *)
Fixpoint be_bytes (n : nat) (v : Z) : string :=
  match n with
  | O => ""
  | S n' => be_bytes n' (v / 256) +:+ String (ascii_of_N (Z.to_N (v mod 256))) ""
  end.

Lemma length_be_bytes n v : String.length (be_bytes n v) = n.
Proof.
  revert v. induction n as [|n IH]; intros v; simpl; [done|].
  rewrite string_length_app, IH. simpl. lia.
Qed.

Lemma byte_inj a b :
  0 ≤ a < 256 → 0 ≤ b < 256 →
  ascii_of_N (Z.to_N a) = ascii_of_N (Z.to_N b) → a = b.
Proof.
  intros Ha Hb H. apply (f_equal N_of_ascii) in H.
  rewrite !N_ascii_embedding in H by lia. lia.
Qed.

Lemma be_bytes_inj n v w :
  0 ≤ v < 256 ^ Z.of_nat n → 0 ≤ w < 256 ^ Z.of_nat n →
  be_bytes n v = be_bytes n w → v = w.
Proof.
  revert v w. induction n as [|n IH]; intros v w Hv Hw; simpl.
  - rewrite Z.pow_0_r in *. lia.
  - rewrite Nat2Z.inj_succ, Z.pow_succ_r in Hv, Hw by lia. intros H.
    apply string_app_inj_l in H as [H1 H2]; [|by rewrite !length_be_bytes].
    apply IH in H1; [|split; [apply Z.div_pos; lia | apply Z.div_lt_upper_bound; lia]..].
    injection H2 as H2. apply byte_inj in H2; [|apply Z.mod_pos_bound; lia..].
    rewrite (Z.div_mod v 256), (Z.div_mod w 256) by lia. congruence.
Qed.

(** ** Hexadecimal ([%x], [hex.EncodeToString]) *)

Definition hex_digit (n : N) : ascii :=
  if decide (n < 10)%N then ascii_of_N (48 + n) else ascii_of_N (87 + n).

Fixpoint hex (s : string) : string :=
  match s with
  | "" => ""
  | String c s' =>
      String (hex_digit (N_of_ascii c / 16)) (String (hex_digit (N_of_ascii c mod 16)) (hex s'))
  end.

Lemma hex_digit_inj a b : (a < 16)%N → (b < 16)%N → hex_digit a = hex_digit b → a = b.
Proof.
  intros Ha Hb H. apply (f_equal N_of_ascii) in H. unfold hex_digit in H.
  repeat case_decide; rewrite !N_ascii_embedding in H by lia; lia.
Qed.

#[export] Instance hex_inj : Inj (=) (=) hex.
Proof.
  intros s. induction s as [|c s IH]; intros [|c' s'] H; simpl in *; try done.
  injection H as H1 H2 H3. apply IH in H3 as ->. f_equal.
  pose proof (N_ascii_bounded c). pose proof (N_ascii_bounded c').
  apply hex_digit_inj in H1; [|apply N.Div0.div_lt_upper_bound; lia..].
  apply hex_digit_inj in H2; [|apply N.mod_lt; lia..].
  rewrite <-(ascii_N_embedding c), <-(ascii_N_embedding c'). f_equal.
  rewrite (N.div_mod (N_of_ascii c) 16), (N.div_mod (N_of_ascii c') 16) by lia. congruence.
Qed.

Lemma length_hex s : String.length (hex s) = (2 * String.length s)%nat.
Proof. induction s as [|c s IH]; simpl; lia. Qed.

(** ** UUIDs

    A non-null [pgtype.UUID] is the 128-bit number its sixteen bytes spell in
    big-endian order; a nullable one is an [option]. *)
Abbreviation uuid := N (only parsing).

Definition uuid_wf (u : uuid) : Prop := (u < 2 ^ 128)%N.

Definition uuid_bytes (u : uuid) : string := be_bytes 16 (Z.of_N u).

(** [b[i:j]] *)
Definition bslice (i j : nat) (s : string) : string := btake (j - i) (bdrop i s).

(** [uuidString] on a valid UUID. *)
Definition uuidString (u : uuid) : string :=
  let b := uuid_bytes u in
  hex (bslice 0 4 b) +:+ "-" +:+ hex (bslice 4 6 b) +:+ "-" +:+ hex (bslice 6 8 b)
    +:+ "-" +:+ hex (bslice 8 10 b) +:+ "-" +:+ hex (bslice 10 16 b).

(** [uuidString] on a nullable UUID: an invalid one prints as "". *)
Definition uuidString_opt (u : option uuid) : string :=
  match u with Some u => uuidString u | None => "" end.

Lemma length_bslice i j s :
  (i ≤ j)%nat → (j ≤ String.length s)%nat → String.length (bslice i j s) = (j - i)%nat.
Proof.
  intros Hij Hj. unfold bslice. apply length_btake. rewrite <-length_explode.
  unfold bdrop. rewrite explode_implode, length_drop, length_explode. lia.
Qed.

Lemma explode_bslice i j s : explode (bslice i j s) = take (j - i) (drop i (explode s)).
Proof. unfold bslice, btake, bdrop. by rewrite !explode_implode. Qed.

Lemma uuidString_inj u v :
  uuid_wf u → uuid_wf v → uuidString u = uuidString v → u = v.
Proof.
  unfold uuid_wf, uuidString. intros Hu Hv H.
  assert (∀ w, String.length (uuid_bytes w) = 16%nat) as Hlen by (intros; apply length_be_bytes).
  set (b := uuid_bytes u) in *. set (c := uuid_bytes v) in *.
  assert (String.length b = 16%nat) as Hb by apply Hlen.
  assert (String.length c = 16%nat) as Hc by apply Hlen.
  repeat (apply string_app_inj_l in H as [?H H];
    [|by rewrite ?length_hex, ?length_bslice by lia]).
  apply (inj hex) in H, H0, H2, H4, H6. clear H1 H3 H5.
  assert (b = c) as Heq.
  { apply (inj explode).
    apply (f_equal explode) in H, H0, H2, H4, H6. rewrite !explode_bslice in *.
    rewrite <-length_explode in Hb, Hc.
    destruct (explode b) as [|b0 [|b1 [|b2 [|b3 [|b4 [|b5 [|b6 [|b7 [|b8 [|b9 [|b10 [|b11 [|b12
      [|b13 [|b14 [|b15 [|]]]]]]]]]]]]]]]]]; try discriminate Hb.
    destruct (explode c) as [|c0 [|c1 [|c2 [|c3 [|c4 [|c5 [|c6 [|c7 [|c8 [|c9 [|c10 [|c11 [|c12
      [|c13 [|c14 [|c15 [|]]]]]]]]]]]]]]]]]; try discriminate Hc.
    cbn in *. by simplify_eq. }
  unfold b, c, uuid_bytes in Heq. apply be_bytes_inj in Heq; [lia|..];
    change (256 ^ Z.of_nat 16) with (Z.of_N (2 ^ 128)); lia.
Qed.

Lemma length_uuidString u : String.length (uuidString u) = 36%nat.
Proof.
  unfold uuidString. assert (String.length (uuid_bytes u) = 16%nat) as Hb by apply length_be_bytes.
  rewrite !string_length_app, !length_hex, !length_bslice by lia. done.
Qed.

(** ** White space ([strings.Fields], [strings.TrimSpace]) *)

(** The number of bytes of the white space character ([unicode.IsSpace]) a
    UTF-8 text starts with, 0 if it starts with another character. *)
Definition space_width (l : list ascii) : nat :=
  match N_of_ascii <$> take 3 l with
  | (9 | 10 | 11 | 12 | 13 | 32) :: _ => 1%nat
  | 0xC2 :: (0x85 | 0xA0) :: _ => 2%nat
  | [0xE1; 0x9A; 0x80] | [0xE2; 0x81; 0x9F] | [0xE3; 0x80; 0x80] => 3%nat
  | [0xE2; 0x80; b] =>
      if bool_decide (0x80 <= b <= 0x8A \/ b = 0xA8 \/ b = 0xA9 \/ b = 0xAF) then 3%nat else 0%nat
  | _ => 0%nat
  end%N.

(** [strings.Fields]: [cur] is the field being read, reversed; [skip] bytes
    of the white space character being read are left. *)
Fixpoint fields_aux (skip : nat) (cur : list ascii) (l : list ascii) : list string :=
  match l with
  | [] => match cur with [] => [] | _ => [implode (reverse cur)] end
  | c :: l' =>
      match skip with
      | S n => fields_aux n cur l'
      | O =>
          match space_width l with
          | O => fields_aux 0 (c :: cur) l'
          | S n => match cur with
                   | [] => fields_aux n [] l'
                   | _ => implode (reverse cur) :: fields_aux n [] l'
                   end
          end
      end
  end.
Definition Fields (s : string) : list string := fields_aux 0 [] (explode s).

(** [strings.TrimSpace] *)
Fixpoint trim_start (skip : nat) (l : list ascii) : list ascii :=
  match l with
  | [] => []
  | c :: l' =>
      match skip with
      | S n => trim_start n l'
      | O => match space_width l with O => l | S n => trim_start n l' end
      end
  end.
(** [pending]: white space read since the last other character. *)
Fixpoint trim_end (skip : nat) (pending : list ascii) (l : list ascii) : list ascii :=
  match l with
  | [] => []
  | c :: l' =>
      match skip with
      | S n => trim_end n (pending ++ [c]) l'
      | O => match space_width l with
             | O => pending ++ c :: trim_end 0 [] l'
             | S n => trim_end n (pending ++ [c]) l'
             end
      end
  end.
Definition TrimSpace (s : string) : string :=
  implode (trim_end 0 [] (trim_start 0 (explode s))).

(** [strings.CutPrefix] *)
Fixpoint CutPrefix (s p : string) : option string :=
  match p, s with
  | "", _ => Some s
  | String a p', String b s' => if Ascii.eqb a b then CutPrefix s' p' else None
  | String _ _, "" => None
  end.

Lemma CutPrefix_app p s : CutPrefix (p +:+ s) p = Some s.
Proof.
  induction p as [|c p IH]; simpl; [by destruct s|]. by rewrite Ascii.eqb_refl.
Qed.

(** [strings.ToLower] on ASCII letters. *)
Definition lower_char (c : ascii) : ascii :=
  if bool_decide (65 <= N_of_ascii c <= 90)%N then ascii_of_N (N_of_ascii c + 32) else c.
Definition ToLowerASCII (s : string) : string := implode (lower_char <$> explode s).

(** [strings.Split(s, string(sep))] for a one-byte separator. *)
Fixpoint split_aux (sep : ascii) (cur : list ascii) (l : list ascii) : list string :=
  match l with
  | [] => [implode (reverse cur)]
  | c :: l' => if Ascii.eqb c sep then implode (reverse cur) :: split_aux sep [] l'
               else split_aux sep (c :: cur) l'
  end.
Definition Split (s : string) (sep : ascii) : list string := split_aux sep [] (explode s).

Lemma split_aux_app sep cur p l :
  sep ∉ p → split_aux sep cur (p ++ sep :: l) = implode (reverse cur ++ p) :: split_aux sep [] l.
Proof.
  revert cur. induction p as [|c p IH]; intros cur Hp; simpl.
  - rewrite Ascii.eqb_refl, app_nil_r. done.
  - apply not_elem_of_cons in Hp as [Hc Hp].
    destruct (Ascii.eqb_spec c sep) as [->|]; [done|].
    rewrite IH by done. by rewrite reverse_cons, <-app_assoc.
Qed.
Lemma split_aux_end sep cur p : sep ∉ p → split_aux sep cur p = [implode (reverse cur ++ p)].
Proof.
  revert cur. induction p as [|c p IH]; intros cur Hp; simpl; [by rewrite app_nil_r|].
  apply not_elem_of_cons in Hp as [Hc Hp].
  destruct (Ascii.eqb_spec c sep) as [->|]; [done|].
  rewrite IH by done. by rewrite reverse_cons, <-app_assoc.
Qed.

(** The first piece, and the rest. *)
Lemma Split_cons p sep s :
  sep ∉ explode p → Split (p +:+ String sep s) sep = p :: Split s sep.
Proof.
  intros Hp. unfold Split. rewrite explode_app. simpl.
  rewrite split_aux_app by done. simpl. by rewrite implode_explode.
Qed.
Lemma Split_one p sep : sep ∉ explode p → Split p sep = [p].
Proof. intros Hp. unfold Split. rewrite split_aux_end by done. simpl. by rewrite implode_explode. Qed.

(** [strings.Cut(s, string(sep))] for a one-byte separator. *)
Fixpoint Cut (sep : ascii) (s : string) : option (string * string) :=
  match s with
  | "" => None
  | String ch s' =>
      if Ascii.eqb ch sep then Some ("", s')
      else match Cut sep s' with Some (a, b) => Some (String ch a, b) | None => None end
  end.

Lemma Cut_app sep a b : sep ∉ explode a → Cut sep (a +:+ String sep b) = Some (a, b).
Proof.
  induction a as [|x a IH]; intros Ha; simpl in *; [by rewrite Ascii.eqb_refl|].
  apply not_elem_of_cons in Ha as [Hx Ha].
  destruct (Ascii.eqb_spec x sep) as [->|]; [done|].
  change (String.app a (String sep b)) with (a +:+ String sep b). by rewrite IH.
Qed.

(** [strings.HasPrefix], [strings.Contains] *)
Definition HasPrefix (s p : string) : bool := bool_decide (is_Some (CutPrefix s p)).
Fixpoint Contains (s sub : string) : bool :=
  HasPrefix s sub || match s with "" => false | String _ s' => Contains s' sub end.

(** [strings.TrimRight(s, string(c))] for one byte. *)
Fixpoint drop_while_eq (c : ascii) (l : list ascii) : list ascii :=
  match l with x :: l' => if Ascii.eqb x c then drop_while_eq c l' else l | [] => [] end.
Definition TrimRight (s : string) (c : ascii) : string :=
  implode (reverse (drop_while_eq c (reverse (explode s)))).

(** ** Numbers and booleans ([strconv]) *)

Definition is_digit (c : ascii) : bool :=
  ((48 <=? N_of_ascii c) && (N_of_ascii c <=? 57))%N.
Definition digit_val (c : ascii) : Z := Z.of_N (N_of_ascii c - 48).

(** A non-empty run of decimal digits and nothing else. *)
Definition parse_digits (l : list ascii) : option Z :=
  if decide (l = []) then None
  else if forallb is_digit l then Some (foldl (λ a c, a * 10 + digit_val c) 0 l) else None.

(** [strconv.Atoi]: an optional sign and digits, within an [int64]. *)
Definition Atoi (s : string) : option Z :=
  let '(negative, l) :=
    match explode s with
    | "+"%char :: l => (false, l)
    | "-"%char :: l => (true, l)
    | l => (false, l)
    end in
  n ← parse_digits l;
  let z := if negative : bool then - n else n in
  if decide (- 2 ^ 63 ≤ z < 2 ^ 63) then Some z else None.

(** [strconv.ParseBool] *)
Definition ParseBool (s : string) : option bool :=
  if decide (s ∈ ["1"; "t"; "T"; "TRUE"; "true"; "True"]) then Some true
  else if decide (s ∈ ["0"; "f"; "F"; "FALSE"; "false"; "False"]) then Some false
  else None.

(** [io.LimitReader]: at most [n] bytes. *)
Fixpoint limit_bytes (n : N) (s : string) : string :=
  match s with
  | "" => ""
  | String c s' => if decide (n = 0)%N then "" else String c (limit_bytes (N.pred n) s')
  end.
