(* ===== verification/Base64.v ===== *)
(** [encoding/base64] as the sources use it: [StdEncoding] (padded),
    [RawStdEncoding] and [RawURLEncoding] (unpadded), with the round trip of
    each and the fact that an encoding is built from the alphabet only. *)
From Stdlib Require Import Ascii.
From S2P Require Import Prelude Text.

(** ** Alphabets *)

Inductive alphabet := StdAlphabet | URLAlphabet.

Definition digits62 : string :=
  "ABCDEFGHIJKLMNOPQRSTUVWXYZabcdefghijklmnopqrstuvwxyz0123456789".
Definition alphabet_chars (a : alphabet) : list ascii :=
  explode (digits62 +:+ match a with StdAlphabet => "+/" | URLAlphabet => "-_" end).

Definition enc_digit (a : alphabet) (n : N) : ascii :=
  default zero (alphabet_chars a !! N.to_nat n).
Definition dec_digit (a : alphabet) (c : ascii) : option N :=
  N.of_nat <$> (fst <$> list_find (.= c) (alphabet_chars a)).

(* Symbolic execution of the codec stops at the arithmetic of one digit. *)
#[local] Arguments enc_digit : simpl never.
#[local] Arguments dec_digit : simpl never.
#[local] Arguments ascii_of_N : simpl never.
#[local] Arguments N_of_ascii : simpl never.
#[local] Arguments N.div : simpl never.
#[local] Arguments N.modulo : simpl never.
#[local] Arguments N.mul : simpl never.
#[local] Arguments N.add : simpl never.

Lemma dec_enc_digit a n : (n < 64)%N → dec_digit a (enc_digit a n) = Some n.
Proof.
  intros Hn.
  assert (Forall (λ k, dec_digit a (enc_digit a k) = Some k) (N.of_nat <$> seq 0 64)) as H.
  { apply (bool_decide_unpack _). destruct a; vm_cast_no_check I. }
  rewrite Forall_forall in H. apply H, list_elem_of_fmap. exists (N.to_nat n).
  split; [lia|]. apply elem_of_seq. lia.
Qed.

(** ** Encoding *)

Record encoding := { enc_alphabet : alphabet; enc_pad : bool }.
Definition StdEncoding := {| enc_alphabet := StdAlphabet; enc_pad := true |}.
Definition RawStdEncoding := {| enc_alphabet := StdAlphabet; enc_pad := false |}.
Definition RawURLEncoding := {| enc_alphabet := URLAlphabet; enc_pad := false |}.

Section codec.
Context (e : encoding).
Let d := enc_digit (enc_alphabet e).
Let padding (n : nat) : list ascii := if enc_pad e then replicate n "="%char else [].

Fixpoint encode_chars (l : list ascii) : list ascii :=
  match l with
  | [] => []
  | [x] =>
      let a := N_of_ascii x in
      d (a / 4) :: d (a mod 4 * 16) :: padding 2
  | [x; y] =>
      let a := N_of_ascii x in let b := N_of_ascii y in
      d (a / 4) :: d (a mod 4 * 16 + b / 16) :: d (b mod 16 * 4) :: padding 1
  | x :: y :: z :: l' =>
      let a := N_of_ascii x in let b := N_of_ascii y in let c := N_of_ascii z in
      d (a / 4) :: d (a mod 4 * 16 + b / 16) :: d (b mod 16 * 4 + c / 64)
        :: d (c mod 64) :: encode_chars l'
  end%N.

Definition EncodeToString (s : bytes) : string := implode (encode_chars (explode s)).
End codec.

(** ** Decoding

    The decoder skips carriage returns and newlines, then reads groups of
    four characters; the last group may be short (or padded). *)

Section decode.
Context (e : encoding).
Let v := dec_digit (enc_alphabet e).
Let byte (n : N) : ascii := ascii_of_N n.
Local Open Scope N_scope.

Definition two_digits (p q : ascii) : option (list ascii) :=
  match v p, v q with
  | Some a, Some b => Some [byte (a * 4 + b / 16)]
  | _, _ => None
  end.
Definition three_digits (p q r : ascii) : option (list ascii) :=
  match v p, v q, v r with
  | Some a, Some b, Some c =>
      Some [byte (a * 4 + b / 16); byte (b mod 16 * 16 + c / 4)]
  | _, _, _ => None
  end.

Fixpoint decode_chars (l : list ascii) : option (list ascii) :=
  match l with
  | [] => Some []
  | [p; q] => if enc_pad e then None else two_digits p q
  | [p; q; r] => if enc_pad e then None else three_digits p q r
  | p :: q :: r :: s :: l' =>
      match v p, v q, v r, v s with
      | Some a, Some b, Some c, Some f =>
          (λ t, byte (a * 4 + b / 16) :: byte (b mod 16 * 16 + c / 4)
                  :: byte (c mod 4 * 64 + f) :: t) <$> decode_chars l'
      | _, _, _, _ =>
          if enc_pad e then
            match l' with
            | [] => if decide (s = "="%char)
                    then if decide (r = "="%char) then two_digits p q else three_digits p q r
                    else None
            | _ => None
            end
          else None
      end
  | _ => None
  end.

Definition not_newline (c : ascii) : Prop := c ≠ "010"%char ∧ c ≠ "013"%char.
Definition DecodeString (s : string) : option bytes :=
  implode <$> decode_chars (filter not_newline (explode s)).
End decode.

(** ** Round trip *)

Create HintDb digits.

Section roundtrip.
Context (e : encoding).
Local Open Scope N_scope.

Lemma dec_pad : dec_digit (enc_alphabet e) "="%char = None.
Proof. destruct (enc_alphabet e); reflexivity. Qed.

(** The shifts and masks of one, two and three bytes. *)
Ltac euclid := intros; zify; Z.to_euclidean_division_equations; lia.

Lemma hi6 a : a < 256 → a / 4 < 64.
Proof. euclid. Qed.
Lemma lo2 a : a mod 4 * 16 < 64.
Proof. euclid. Qed.
Lemma lo2_hi4 a b : b < 256 → a mod 4 * 16 + b / 16 < 64.
Proof. euclid. Qed.
Lemma lo4 b : b mod 16 * 4 < 64.
Proof. euclid. Qed.
Lemma lo4_hi2 b c : c < 256 → b mod 16 * 4 + c / 64 < 64.
Proof. euclid. Qed.
Lemma lo6 c : c mod 64 < 64.
Proof. euclid. Qed.
Lemma join_1 a : a / 4 * 4 + a mod 4 * 16 / 16 = a.
Proof. euclid. Qed.
Lemma join_1' a b : b < 256 → a / 4 * 4 + (a mod 4 * 16 + b / 16) / 16 = a.
Proof. euclid. Qed.
Lemma join_2 a b : b < 256 → (a mod 4 * 16 + b / 16) mod 16 * 16 + b mod 16 * 4 / 4 = b.
Proof. euclid. Qed.
Lemma join_2' a b c : b < 256 → c < 256 →
  (a mod 4 * 16 + b / 16) mod 16 * 16 + (b mod 16 * 4 + c / 64) / 4 = b.
Proof. euclid. Qed.
Lemma join_3 b c : c < 256 → (b mod 16 * 4 + c / 64) mod 4 * 64 + c mod 64 = c.
Proof. euclid. Qed.

Hint Resolve hi6 lo2 lo2_hi4 lo4 lo4_hi2 lo6 N_ascii_bounded : digits.
Ltac digits := rewrite !dec_enc_digit by eauto with digits.
Ltac joined := rewrite ?join_1, ?join_1', ?join_2, ?join_2', ?join_3, ?ascii_N_embedding
  by eauto with digits; reflexivity.

Lemma decode_encode_chars l : decode_chars e (encode_chars e l) = Some l.
Proof.
  assert (∀ n k, (length k < n)%nat → decode_chars e (encode_chars e k) = Some k) as H.
  { induction n as [|n IH]; intros k Hk; [lia|].
    destruct k as [|x [|y [|z k]]].
    - done.
    - cbn. destruct (enc_pad e) eqn:Ep; cbn; rewrite ?Ep, ?dec_pad;
        unfold two_digits; digits; joined.
    - cbn. destruct (enc_pad e) eqn:Ep; cbn; rewrite ?Ep, ?dec_pad;
        unfold three_digits; digits; [|joined].
      destruct (decide (enc_digit _ _ = "="%char)) as [Heq|_]; [exfalso|joined].
      apply (f_equal (dec_digit (enc_alphabet e))) in Heq.
      rewrite dec_enc_digit, dec_pad in Heq by eauto with digits. done.
    - cbn. digits. rewrite IH by (simpl in Hk; lia). cbn. joined. }
  eauto.
Qed.

(** The characters of an encoding are digits of the alphabet and padding. *)
Lemma enc_digit_Forall (P : ascii → Prop) n :
  Forall P (alphabet_chars (enc_alphabet e)) → P "000"%char ∨ (n < 64)%N →
  P (enc_digit (enc_alphabet e) n).
Proof.
  intros H Hn. unfold enc_digit. rewrite Forall_forall in H.
  destruct (_ !! _) as [c|] eqn:E; simpl; [apply H; by eapply list_elem_of_lookup_2|].
  destruct Hn as [?|Hn]; [done|]. apply lookup_ge_None in E.
  assert (length (alphabet_chars (enc_alphabet e)) = 64%nat) as Hl
    by (destruct (enc_alphabet e); reflexivity). lia.
Qed.

Lemma encode_chars_Forall (P : ascii → Prop) l :
  Forall P (alphabet_chars (enc_alphabet e)) → P "="%char → P "000"%char →
  Forall P (encode_chars e l).
Proof.
  intros Ha Hp H0.
  assert (∀ n k, (length k < n)%nat → Forall P (encode_chars e k)) as H; [|eauto].
  assert (∀ n, Forall P (if enc_pad e then replicate n "="%char else [])) as Hpad.
  { intros n. destruct (enc_pad e); [|constructor]. by apply Forall_replicate. }
  induction n as [|n IH]; intros k Hk; [lia|].
  destruct k as [|x [|y [|z k]]]; simpl; [constructor|..];
    repeat (constructor; [by apply enc_digit_Forall; [|left]|]).
  - apply (Hpad 2%nat).
  - apply (Hpad 1%nat).
  - apply IH. simpl in Hk. lia.
Qed.

(** An encoding contains no newline, so the decoder's filter is the identity. *)
Lemma encode_chars_not_newline l : Forall not_newline (encode_chars e l).
Proof.
  apply encode_chars_Forall; [|split; discriminate..].
  unfold not_newline. apply (bool_decide_unpack _). destruct (enc_alphabet e); vm_cast_no_check I.
Qed.

Theorem DecodeString_EncodeToString (s : bytes) :
  DecodeString e (EncodeToString e s) = Some s.
Proof.
  unfold DecodeString, EncodeToString. rewrite explode_implode.
  rewrite filter_all by (apply encode_chars_not_newline).
  rewrite decode_encode_chars. simpl. by rewrite implode_explode.
Qed.

#[export] Instance EncodeToString_inj : Inj (=) (=) (EncodeToString e).
Proof.
  intros s t H. apply (f_equal (DecodeString e)) in H.
  rewrite !DecodeString_EncodeToString in H. congruence.
Qed.
End roundtrip.
