(* ===== verification/Schema.v ===== *)
(** The control plane's database: the rows of
    [internal/controlplane/db/models.go], the tables of
    [migrations/0001_init.sql], and the statements the generated query
    functions are built from.

    A row type has the fields of its Go struct, prefixed with the struct's
    name.  A nullable column is an [option]; a [timestamptz] is an integer
    count of nanoseconds; a [uuid] is its 128-bit number.  The [set_T_F]
    functions replace one field. *)
From S2P Require Import Prelude Text.

(** ** Rows *)

Record AccessToken := { AccessToken_ID : uuid; AccessToken_SessionID : uuid;
   AccessToken_TokenHash : string; AccessToken_ExpiresAt : Z; AccessToken_CreatedAt : Z }.
#[export] Instance AccessToken_eq_dec : EqDecision AccessToken.
Proof. solve_decision. Defined.

Record EnrollmentToken := { EnrollmentToken_ID : uuid; EnrollmentToken_TokenHash : string;
   EnrollmentToken_Label : option string; EnrollmentToken_Accounts : list string;
   EnrollmentToken_CreatedBy : option uuid; EnrollmentToken_ExpiresAt : Z;
   EnrollmentToken_UsedAt : option Z; EnrollmentToken_HostID : option uuid;
   EnrollmentToken_CreatedAt : Z }.
#[export] Instance EnrollmentToken_eq_dec : EqDecision EnrollmentToken.
Proof. solve_decision. Defined.
Definition set_EnrollmentToken_UsedAt (v : option Z) (r : EnrollmentToken) : EnrollmentToken := {|
   EnrollmentToken_ID := EnrollmentToken_ID r;
   EnrollmentToken_TokenHash := EnrollmentToken_TokenHash r;
   EnrollmentToken_Label := EnrollmentToken_Label r;
   EnrollmentToken_Accounts := EnrollmentToken_Accounts r;
   EnrollmentToken_CreatedBy := EnrollmentToken_CreatedBy r;
   EnrollmentToken_ExpiresAt := EnrollmentToken_ExpiresAt r; EnrollmentToken_UsedAt := v;
   EnrollmentToken_HostID := EnrollmentToken_HostID r;
   EnrollmentToken_CreatedAt := EnrollmentToken_CreatedAt r |}.
Definition set_EnrollmentToken_HostID (v : option uuid) (r : EnrollmentToken) : EnrollmentToken := {|
   EnrollmentToken_ID := EnrollmentToken_ID r;
   EnrollmentToken_TokenHash := EnrollmentToken_TokenHash r;
   EnrollmentToken_Label := EnrollmentToken_Label r;
   EnrollmentToken_Accounts := EnrollmentToken_Accounts r;
   EnrollmentToken_CreatedBy := EnrollmentToken_CreatedBy r;
   EnrollmentToken_ExpiresAt := EnrollmentToken_ExpiresAt r;
   EnrollmentToken_UsedAt := EnrollmentToken_UsedAt r; EnrollmentToken_HostID := v;
   EnrollmentToken_CreatedAt := EnrollmentToken_CreatedAt r |}.

Record Grant := { Grant_ID : uuid; Grant_UserID : uuid; Grant_Permission : string;
   Grant_TargetKind : string; Grant_TargetID : option uuid; Grant_GrantedBy : option uuid;
   Grant_CreatedAt : Z; Grant_RevokedAt : option Z }.
#[export] Instance Grant_eq_dec : EqDecision Grant.
Proof. solve_decision. Defined.
Definition set_Grant_RevokedAt (v : option Z) (r : Grant) : Grant := {| Grant_ID := Grant_ID r;
   Grant_UserID := Grant_UserID r; Grant_Permission := Grant_Permission r;
   Grant_TargetKind := Grant_TargetKind r; Grant_TargetID := Grant_TargetID r;
   Grant_GrantedBy := Grant_GrantedBy r; Grant_CreatedAt := Grant_CreatedAt r;
   Grant_RevokedAt := v |}.

Record GrantAuditLog := { GrantAuditLog_ID : uuid; GrantAuditLog_Action : string;
   GrantAuditLog_GrantID : option uuid; GrantAuditLog_ActorID : option uuid;
   GrantAuditLog_ActorEmail : string; GrantAuditLog_SubjectID : option uuid;
   GrantAuditLog_SubjectEmail : string; GrantAuditLog_Permission : string;
   GrantAuditLog_TargetKind : string; GrantAuditLog_TargetID : option uuid; GrantAuditLog_At : Z }.
#[export] Instance GrantAuditLog_eq_dec : EqDecision GrantAuditLog.
Proof. solve_decision. Defined.

Record GroupResource := { GroupResource_GroupID : uuid; GroupResource_ResourceKind : string;
   GroupResource_ResourceID : uuid; GroupResource_AddedAt : Z }.
#[export] Instance GroupResource_eq_dec : EqDecision GroupResource.
Proof. solve_decision. Defined.

Record Host := { Host_ID : uuid; Host_Name : string; Host_Hostname : string;
   Host_IdentityKey : string; Host_EncryptionKey : string; Host_Accounts : list string;
   Host_Status : string; Host_MachineID : option string; Host_LastSeq : Z; Host_LastSetSeq : Z;
   Host_AgentVersion : string; Host_DesiredVersion : string; Host_EnrolledAt : Z;
   Host_LastSeenAt : option Z }.
#[export] Instance Host_eq_dec : EqDecision Host.
Proof. solve_decision. Defined.
Definition set_Host_LastSeq (v : Z) (r : Host) : Host := {| Host_ID := Host_ID r;
   Host_Name := Host_Name r; Host_Hostname := Host_Hostname r;
   Host_IdentityKey := Host_IdentityKey r; Host_EncryptionKey := Host_EncryptionKey r;
   Host_Accounts := Host_Accounts r; Host_Status := Host_Status r;
   Host_MachineID := Host_MachineID r; Host_LastSeq := v; Host_LastSetSeq := Host_LastSetSeq r;
   Host_AgentVersion := Host_AgentVersion r; Host_DesiredVersion := Host_DesiredVersion r;
   Host_EnrolledAt := Host_EnrolledAt r; Host_LastSeenAt := Host_LastSeenAt r |}.
Definition set_Host_LastSetSeq (v : Z) (r : Host) : Host := {| Host_ID := Host_ID r;
   Host_Name := Host_Name r; Host_Hostname := Host_Hostname r;
   Host_IdentityKey := Host_IdentityKey r; Host_EncryptionKey := Host_EncryptionKey r;
   Host_Accounts := Host_Accounts r; Host_Status := Host_Status r;
   Host_MachineID := Host_MachineID r; Host_LastSeq := Host_LastSeq r; Host_LastSetSeq := v;
   Host_AgentVersion := Host_AgentVersion r; Host_DesiredVersion := Host_DesiredVersion r;
   Host_EnrolledAt := Host_EnrolledAt r; Host_LastSeenAt := Host_LastSeenAt r |}.
Definition set_Host_DesiredVersion (v : string) (r : Host) : Host := {| Host_ID := Host_ID r;
   Host_Name := Host_Name r; Host_Hostname := Host_Hostname r;
   Host_IdentityKey := Host_IdentityKey r; Host_EncryptionKey := Host_EncryptionKey r;
   Host_Accounts := Host_Accounts r; Host_Status := Host_Status r;
   Host_MachineID := Host_MachineID r; Host_LastSeq := Host_LastSeq r;
   Host_LastSetSeq := Host_LastSetSeq r; Host_AgentVersion := Host_AgentVersion r;
   Host_DesiredVersion := v; Host_EnrolledAt := Host_EnrolledAt r;
   Host_LastSeenAt := Host_LastSeenAt r |}.
Definition set_Host_Status (v : string) (r : Host) : Host := {| Host_ID := Host_ID r;
   Host_Name := Host_Name r; Host_Hostname := Host_Hostname r;
   Host_IdentityKey := Host_IdentityKey r; Host_EncryptionKey := Host_EncryptionKey r;
   Host_Accounts := Host_Accounts r; Host_Status := v; Host_MachineID := Host_MachineID r;
   Host_LastSeq := Host_LastSeq r; Host_LastSetSeq := Host_LastSetSeq r;
   Host_AgentVersion := Host_AgentVersion r; Host_DesiredVersion := Host_DesiredVersion r;
   Host_EnrolledAt := Host_EnrolledAt r; Host_LastSeenAt := Host_LastSeenAt r |}.
Definition set_Host_AgentVersion (v : string) (r : Host) : Host := {| Host_ID := Host_ID r;
   Host_Name := Host_Name r; Host_Hostname := Host_Hostname r;
   Host_IdentityKey := Host_IdentityKey r; Host_EncryptionKey := Host_EncryptionKey r;
   Host_Accounts := Host_Accounts r; Host_Status := Host_Status r;
   Host_MachineID := Host_MachineID r; Host_LastSeq := Host_LastSeq r;
   Host_LastSetSeq := Host_LastSetSeq r; Host_AgentVersion := v;
   Host_DesiredVersion := Host_DesiredVersion r; Host_EnrolledAt := Host_EnrolledAt r;
   Host_LastSeenAt := Host_LastSeenAt r |}.
Definition set_Host_LastSeenAt (v : option Z) (r : Host) : Host := {| Host_ID := Host_ID r;
   Host_Name := Host_Name r; Host_Hostname := Host_Hostname r;
   Host_IdentityKey := Host_IdentityKey r; Host_EncryptionKey := Host_EncryptionKey r;
   Host_Accounts := Host_Accounts r; Host_Status := Host_Status r;
   Host_MachineID := Host_MachineID r; Host_LastSeq := Host_LastSeq r;
   Host_LastSetSeq := Host_LastSetSeq r; Host_AgentVersion := Host_AgentVersion r;
   Host_DesiredVersion := Host_DesiredVersion r; Host_EnrolledAt := Host_EnrolledAt r;
   Host_LastSeenAt := v |}.

Record HostSetBinding := { HostSetBinding_HostID : uuid; HostSetBinding_SetID : uuid;
   HostSetBinding_AsUser : option string; HostSetBinding_GrantedBy : option uuid;
   HostSetBinding_CreatedAt : Z; HostSetBinding_RevokedAt : option Z }.
#[export] Instance HostSetBinding_eq_dec : EqDecision HostSetBinding.
Proof. solve_decision. Defined.
Definition set_HostSetBinding_AsUser (v : option string) (r : HostSetBinding) : HostSetBinding := {|
   HostSetBinding_HostID := HostSetBinding_HostID r;
   HostSetBinding_SetID := HostSetBinding_SetID r; HostSetBinding_AsUser := v;
   HostSetBinding_GrantedBy := HostSetBinding_GrantedBy r;
   HostSetBinding_CreatedAt := HostSetBinding_CreatedAt r;
   HostSetBinding_RevokedAt := HostSetBinding_RevokedAt r |}.
Definition set_HostSetBinding_GrantedBy (v : option uuid) (r : HostSetBinding) : HostSetBinding := {|
   HostSetBinding_HostID := HostSetBinding_HostID r;
   HostSetBinding_SetID := HostSetBinding_SetID r;
   HostSetBinding_AsUser := HostSetBinding_AsUser r; HostSetBinding_GrantedBy := v;
   HostSetBinding_CreatedAt := HostSetBinding_CreatedAt r;
   HostSetBinding_RevokedAt := HostSetBinding_RevokedAt r |}.
Definition set_HostSetBinding_RevokedAt (v : option Z) (r : HostSetBinding) : HostSetBinding := {|
   HostSetBinding_HostID := HostSetBinding_HostID r;
   HostSetBinding_SetID := HostSetBinding_SetID r;
   HostSetBinding_AsUser := HostSetBinding_AsUser r;
   HostSetBinding_GrantedBy := HostSetBinding_GrantedBy r;
   HostSetBinding_CreatedAt := HostSetBinding_CreatedAt r; HostSetBinding_RevokedAt := v |}.

Record Identity := { Identity_ID : uuid; Identity_UserID : uuid; Identity_Provider : string;
   Identity_ExternalID : string; Identity_PasswordHash : option string; Identity_CreatedAt : Z;
   Identity_LastLoginAt : option Z; Identity_FailedLogins : Z; Identity_LastFailedAt : option Z;
   Identity_LockedUntil : option Z }.
#[export] Instance Identity_eq_dec : EqDecision Identity.
Proof. solve_decision. Defined.
Definition set_Identity_PasswordHash (v : option string) (r : Identity) : Identity := {|
   Identity_ID := Identity_ID r; Identity_UserID := Identity_UserID r;
   Identity_Provider := Identity_Provider r; Identity_ExternalID := Identity_ExternalID r;
   Identity_PasswordHash := v; Identity_CreatedAt := Identity_CreatedAt r;
   Identity_LastLoginAt := Identity_LastLoginAt r;
   Identity_FailedLogins := Identity_FailedLogins r;
   Identity_LastFailedAt := Identity_LastFailedAt r;
   Identity_LockedUntil := Identity_LockedUntil r |}.
Definition set_Identity_LastLoginAt (v : option Z) (r : Identity) : Identity := {|
   Identity_ID := Identity_ID r; Identity_UserID := Identity_UserID r;
   Identity_Provider := Identity_Provider r; Identity_ExternalID := Identity_ExternalID r;
   Identity_PasswordHash := Identity_PasswordHash r; Identity_CreatedAt := Identity_CreatedAt r;
   Identity_LastLoginAt := v; Identity_FailedLogins := Identity_FailedLogins r;
   Identity_LastFailedAt := Identity_LastFailedAt r;
   Identity_LockedUntil := Identity_LockedUntil r |}.
Definition set_Identity_FailedLogins (v : Z) (r : Identity) : Identity := {|
   Identity_ID := Identity_ID r; Identity_UserID := Identity_UserID r;
   Identity_Provider := Identity_Provider r; Identity_ExternalID := Identity_ExternalID r;
   Identity_PasswordHash := Identity_PasswordHash r; Identity_CreatedAt := Identity_CreatedAt r;
   Identity_LastLoginAt := Identity_LastLoginAt r; Identity_FailedLogins := v;
   Identity_LastFailedAt := Identity_LastFailedAt r;
   Identity_LockedUntil := Identity_LockedUntil r |}.
Definition set_Identity_LastFailedAt (v : option Z) (r : Identity) : Identity := {|
   Identity_ID := Identity_ID r; Identity_UserID := Identity_UserID r;
   Identity_Provider := Identity_Provider r; Identity_ExternalID := Identity_ExternalID r;
   Identity_PasswordHash := Identity_PasswordHash r; Identity_CreatedAt := Identity_CreatedAt r;
   Identity_LastLoginAt := Identity_LastLoginAt r;
   Identity_FailedLogins := Identity_FailedLogins r; Identity_LastFailedAt := v;
   Identity_LockedUntil := Identity_LockedUntil r |}.
Definition set_Identity_LockedUntil (v : option Z) (r : Identity) : Identity := {|
   Identity_ID := Identity_ID r; Identity_UserID := Identity_UserID r;
   Identity_Provider := Identity_Provider r; Identity_ExternalID := Identity_ExternalID r;
   Identity_PasswordHash := Identity_PasswordHash r; Identity_CreatedAt := Identity_CreatedAt r;
   Identity_LastLoginAt := Identity_LastLoginAt r;
   Identity_FailedLogins := Identity_FailedLogins r;
   Identity_LastFailedAt := Identity_LastFailedAt r; Identity_LockedUntil := v |}.

Record Invitation := { Invitation_ID : uuid; Invitation_Email : string;
   Invitation_Role : string; Invitation_TokenHash : string; Invitation_InvitedBy : option uuid;
   Invitation_ExpiresAt : Z; Invitation_AcceptedAt : option Z; Invitation_CreatedAt : Z }.
#[export] Instance Invitation_eq_dec : EqDecision Invitation.
Proof. solve_decision. Defined.
Definition set_Invitation_AcceptedAt (v : option Z) (r : Invitation) : Invitation := {|
   Invitation_ID := Invitation_ID r; Invitation_Email := Invitation_Email r;
   Invitation_Role := Invitation_Role r; Invitation_TokenHash := Invitation_TokenHash r;
   Invitation_InvitedBy := Invitation_InvitedBy r;
   Invitation_ExpiresAt := Invitation_ExpiresAt r; Invitation_AcceptedAt := v;
   Invitation_CreatedAt := Invitation_CreatedAt r |}.
Definition set_Invitation_TokenHash (v : string) (r : Invitation) : Invitation := {|
   Invitation_ID := Invitation_ID r; Invitation_Email := Invitation_Email r;
   Invitation_Role := Invitation_Role r; Invitation_TokenHash := v;
   Invitation_InvitedBy := Invitation_InvitedBy r;
   Invitation_ExpiresAt := Invitation_ExpiresAt r;
   Invitation_AcceptedAt := Invitation_AcceptedAt r;
   Invitation_CreatedAt := Invitation_CreatedAt r |}.
Definition set_Invitation_ExpiresAt (v : Z) (r : Invitation) : Invitation := {|
   Invitation_ID := Invitation_ID r; Invitation_Email := Invitation_Email r;
   Invitation_Role := Invitation_Role r; Invitation_TokenHash := Invitation_TokenHash r;
   Invitation_InvitedBy := Invitation_InvitedBy r; Invitation_ExpiresAt := v;
   Invitation_AcceptedAt := Invitation_AcceptedAt r;
   Invitation_CreatedAt := Invitation_CreatedAt r |}.

Record PasswordReset := { PasswordReset_ID : uuid; PasswordReset_UserID : uuid;
   PasswordReset_TokenHash : string; PasswordReset_ExpiresAt : Z;
   PasswordReset_UsedAt : option Z; PasswordReset_CreatedAt : Z }.
#[export] Instance PasswordReset_eq_dec : EqDecision PasswordReset.
Proof. solve_decision. Defined.
Definition set_PasswordReset_UsedAt (v : option Z) (r : PasswordReset) : PasswordReset := {|
   PasswordReset_ID := PasswordReset_ID r; PasswordReset_UserID := PasswordReset_UserID r;
   PasswordReset_TokenHash := PasswordReset_TokenHash r;
   PasswordReset_ExpiresAt := PasswordReset_ExpiresAt r; PasswordReset_UsedAt := v;
   PasswordReset_CreatedAt := PasswordReset_CreatedAt r |}.

Record Permission := { Permission_Key : string; Permission_Description : string }.
#[export] Instance Permission_eq_dec : EqDecision Permission.
Proof. solve_decision. Defined.

Record PublicKey := { PublicKey_ID : uuid; PublicKey_UserID : uuid; PublicKey_Label : string;
   PublicKey_KeyType : string; PublicKey_KeyBlob : string; PublicKey_Fingerprint : string;
   PublicKey_CreatedAt : Z }.
#[export] Instance PublicKey_eq_dec : EqDecision PublicKey.
Proof. solve_decision. Defined.

Record ResourceGroup := { ResourceGroup_ID : uuid; ResourceGroup_Name : string;
   ResourceGroup_Description : string; ResourceGroup_CreatedAt : Z }.
#[export] Instance ResourceGroup_eq_dec : EqDecision ResourceGroup.
Proof. solve_decision. Defined.
Definition set_ResourceGroup_Name (v : string) (r : ResourceGroup) : ResourceGroup := {|
   ResourceGroup_ID := ResourceGroup_ID r; ResourceGroup_Name := v;
   ResourceGroup_Description := ResourceGroup_Description r;
   ResourceGroup_CreatedAt := ResourceGroup_CreatedAt r |}.
Definition set_ResourceGroup_Description (v : string) (r : ResourceGroup) : ResourceGroup := {|
   ResourceGroup_ID := ResourceGroup_ID r; ResourceGroup_Name := ResourceGroup_Name r;
   ResourceGroup_Description := v; ResourceGroup_CreatedAt := ResourceGroup_CreatedAt r |}.

Record Secret := { Secret_ID : uuid; Secret_Label : string; Secret_Url : option string;
   Secret_Username : option string; Secret_OtpRecipient : option string;
   Secret_Ciphertext : option bytes; Secret_Nonce : option bytes;
   Secret_WrappedKey : option bytes; Secret_CreatedBy : option uuid;
   Secret_UpdatedBy : option uuid; Secret_CreatedAt : Z; Secret_UpdatedAt : Z }.
#[export] Instance Secret_eq_dec : EqDecision Secret.
Proof. solve_decision. Defined.
Definition set_Secret_Label (v : string) (r : Secret) : Secret := {| Secret_ID := Secret_ID r;
   Secret_Label := v; Secret_Url := Secret_Url r; Secret_Username := Secret_Username r;
   Secret_OtpRecipient := Secret_OtpRecipient r; Secret_Ciphertext := Secret_Ciphertext r;
   Secret_Nonce := Secret_Nonce r; Secret_WrappedKey := Secret_WrappedKey r;
   Secret_CreatedBy := Secret_CreatedBy r; Secret_UpdatedBy := Secret_UpdatedBy r;
   Secret_CreatedAt := Secret_CreatedAt r; Secret_UpdatedAt := Secret_UpdatedAt r |}.
Definition set_Secret_Url (v : option string) (r : Secret) : Secret := {|
   Secret_ID := Secret_ID r; Secret_Label := Secret_Label r; Secret_Url := v;
   Secret_Username := Secret_Username r; Secret_OtpRecipient := Secret_OtpRecipient r;
   Secret_Ciphertext := Secret_Ciphertext r; Secret_Nonce := Secret_Nonce r;
   Secret_WrappedKey := Secret_WrappedKey r; Secret_CreatedBy := Secret_CreatedBy r;
   Secret_UpdatedBy := Secret_UpdatedBy r; Secret_CreatedAt := Secret_CreatedAt r;
   Secret_UpdatedAt := Secret_UpdatedAt r |}.
Definition set_Secret_Username (v : option string) (r : Secret) : Secret := {|
   Secret_ID := Secret_ID r; Secret_Label := Secret_Label r; Secret_Url := Secret_Url r;
   Secret_Username := v; Secret_OtpRecipient := Secret_OtpRecipient r;
   Secret_Ciphertext := Secret_Ciphertext r; Secret_Nonce := Secret_Nonce r;
   Secret_WrappedKey := Secret_WrappedKey r; Secret_CreatedBy := Secret_CreatedBy r;
   Secret_UpdatedBy := Secret_UpdatedBy r; Secret_CreatedAt := Secret_CreatedAt r;
   Secret_UpdatedAt := Secret_UpdatedAt r |}.
Definition set_Secret_OtpRecipient (v : option string) (r : Secret) : Secret := {|
   Secret_ID := Secret_ID r; Secret_Label := Secret_Label r; Secret_Url := Secret_Url r;
   Secret_Username := Secret_Username r; Secret_OtpRecipient := v;
   Secret_Ciphertext := Secret_Ciphertext r; Secret_Nonce := Secret_Nonce r;
   Secret_WrappedKey := Secret_WrappedKey r; Secret_CreatedBy := Secret_CreatedBy r;
   Secret_UpdatedBy := Secret_UpdatedBy r; Secret_CreatedAt := Secret_CreatedAt r;
   Secret_UpdatedAt := Secret_UpdatedAt r |}.
Definition set_Secret_Ciphertext (v : option bytes) (r : Secret) : Secret := {|
   Secret_ID := Secret_ID r; Secret_Label := Secret_Label r; Secret_Url := Secret_Url r;
   Secret_Username := Secret_Username r; Secret_OtpRecipient := Secret_OtpRecipient r;
   Secret_Ciphertext := v; Secret_Nonce := Secret_Nonce r;
   Secret_WrappedKey := Secret_WrappedKey r; Secret_CreatedBy := Secret_CreatedBy r;
   Secret_UpdatedBy := Secret_UpdatedBy r; Secret_CreatedAt := Secret_CreatedAt r;
   Secret_UpdatedAt := Secret_UpdatedAt r |}.
Definition set_Secret_Nonce (v : option bytes) (r : Secret) : Secret := {|
   Secret_ID := Secret_ID r; Secret_Label := Secret_Label r; Secret_Url := Secret_Url r;
   Secret_Username := Secret_Username r; Secret_OtpRecipient := Secret_OtpRecipient r;
   Secret_Ciphertext := Secret_Ciphertext r; Secret_Nonce := v;
   Secret_WrappedKey := Secret_WrappedKey r; Secret_CreatedBy := Secret_CreatedBy r;
   Secret_UpdatedBy := Secret_UpdatedBy r; Secret_CreatedAt := Secret_CreatedAt r;
   Secret_UpdatedAt := Secret_UpdatedAt r |}.
Definition set_Secret_WrappedKey (v : option bytes) (r : Secret) : Secret := {|
   Secret_ID := Secret_ID r; Secret_Label := Secret_Label r; Secret_Url := Secret_Url r;
   Secret_Username := Secret_Username r; Secret_OtpRecipient := Secret_OtpRecipient r;
   Secret_Ciphertext := Secret_Ciphertext r; Secret_Nonce := Secret_Nonce r;
   Secret_WrappedKey := v; Secret_CreatedBy := Secret_CreatedBy r;
   Secret_UpdatedBy := Secret_UpdatedBy r; Secret_CreatedAt := Secret_CreatedAt r;
   Secret_UpdatedAt := Secret_UpdatedAt r |}.
Definition set_Secret_UpdatedBy (v : option uuid) (r : Secret) : Secret := {|
   Secret_ID := Secret_ID r; Secret_Label := Secret_Label r; Secret_Url := Secret_Url r;
   Secret_Username := Secret_Username r; Secret_OtpRecipient := Secret_OtpRecipient r;
   Secret_Ciphertext := Secret_Ciphertext r; Secret_Nonce := Secret_Nonce r;
   Secret_WrappedKey := Secret_WrappedKey r; Secret_CreatedBy := Secret_CreatedBy r;
   Secret_UpdatedBy := v; Secret_CreatedAt := Secret_CreatedAt r;
   Secret_UpdatedAt := Secret_UpdatedAt r |}.
Definition set_Secret_UpdatedAt (v : Z) (r : Secret) : Secret := {| Secret_ID := Secret_ID r;
   Secret_Label := Secret_Label r; Secret_Url := Secret_Url r;
   Secret_Username := Secret_Username r; Secret_OtpRecipient := Secret_OtpRecipient r;
   Secret_Ciphertext := Secret_Ciphertext r; Secret_Nonce := Secret_Nonce r;
   Secret_WrappedKey := Secret_WrappedKey r; Secret_CreatedBy := Secret_CreatedBy r;
   Secret_UpdatedBy := Secret_UpdatedBy r; Secret_CreatedAt := Secret_CreatedAt r;
   Secret_UpdatedAt := v |}.

Record SecretAuditLog := { SecretAuditLog_ID : uuid; SecretAuditLog_SecretID : option uuid;
   SecretAuditLog_SecretName : string; SecretAuditLog_Action : string;
   SecretAuditLog_UserID : option uuid; SecretAuditLog_At : Z }.
#[export] Instance SecretAuditLog_eq_dec : EqDecision SecretAuditLog.
Proof. solve_decision. Defined.

Record SecretSet := { SecretSet_ID : uuid; SecretSet_Name : string;
   SecretSet_CreatedBy : option uuid; SecretSet_CreatedAt : Z; SecretSet_UpdatedAt : Z }.
#[export] Instance SecretSet_eq_dec : EqDecision SecretSet.
Proof. solve_decision. Defined.
Definition set_SecretSet_Name (v : string) (r : SecretSet) : SecretSet := {|
   SecretSet_ID := SecretSet_ID r; SecretSet_Name := v;
   SecretSet_CreatedBy := SecretSet_CreatedBy r; SecretSet_CreatedAt := SecretSet_CreatedAt r;
   SecretSet_UpdatedAt := SecretSet_UpdatedAt r |}.
Definition set_SecretSet_UpdatedAt (v : Z) (r : SecretSet) : SecretSet := {|
   SecretSet_ID := SecretSet_ID r; SecretSet_Name := SecretSet_Name r;
   SecretSet_CreatedBy := SecretSet_CreatedBy r; SecretSet_CreatedAt := SecretSet_CreatedAt r;
   SecretSet_UpdatedAt := v |}.

Record SecretSetEntry := { SecretSetEntry_SetID : uuid; SecretSetEntry_Key : string;
   SecretSetEntry_Ciphertext : bytes; SecretSetEntry_Nonce : bytes;
   SecretSetEntry_WrappedKey : bytes; SecretSetEntry_CreatedAt : Z; SecretSetEntry_UpdatedAt : Z }.
#[export] Instance SecretSetEntry_eq_dec : EqDecision SecretSetEntry.
Proof. solve_decision. Defined.
Definition set_SecretSetEntry_Ciphertext (v : bytes) (r : SecretSetEntry) : SecretSetEntry := {|
   SecretSetEntry_SetID := SecretSetEntry_SetID r; SecretSetEntry_Key := SecretSetEntry_Key r;
   SecretSetEntry_Ciphertext := v; SecretSetEntry_Nonce := SecretSetEntry_Nonce r;
   SecretSetEntry_WrappedKey := SecretSetEntry_WrappedKey r;
   SecretSetEntry_CreatedAt := SecretSetEntry_CreatedAt r;
   SecretSetEntry_UpdatedAt := SecretSetEntry_UpdatedAt r |}.
Definition set_SecretSetEntry_Nonce (v : bytes) (r : SecretSetEntry) : SecretSetEntry := {|
   SecretSetEntry_SetID := SecretSetEntry_SetID r; SecretSetEntry_Key := SecretSetEntry_Key r;
   SecretSetEntry_Ciphertext := SecretSetEntry_Ciphertext r; SecretSetEntry_Nonce := v;
   SecretSetEntry_WrappedKey := SecretSetEntry_WrappedKey r;
   SecretSetEntry_CreatedAt := SecretSetEntry_CreatedAt r;
   SecretSetEntry_UpdatedAt := SecretSetEntry_UpdatedAt r |}.
Definition set_SecretSetEntry_WrappedKey (v : bytes) (r : SecretSetEntry) : SecretSetEntry := {|
   SecretSetEntry_SetID := SecretSetEntry_SetID r; SecretSetEntry_Key := SecretSetEntry_Key r;
   SecretSetEntry_Ciphertext := SecretSetEntry_Ciphertext r;
   SecretSetEntry_Nonce := SecretSetEntry_Nonce r; SecretSetEntry_WrappedKey := v;
   SecretSetEntry_CreatedAt := SecretSetEntry_CreatedAt r;
   SecretSetEntry_UpdatedAt := SecretSetEntry_UpdatedAt r |}.
Definition set_SecretSetEntry_UpdatedAt (v : Z) (r : SecretSetEntry) : SecretSetEntry := {|
   SecretSetEntry_SetID := SecretSetEntry_SetID r; SecretSetEntry_Key := SecretSetEntry_Key r;
   SecretSetEntry_Ciphertext := SecretSetEntry_Ciphertext r;
   SecretSetEntry_Nonce := SecretSetEntry_Nonce r;
   SecretSetEntry_WrappedKey := SecretSetEntry_WrappedKey r;
   SecretSetEntry_CreatedAt := SecretSetEntry_CreatedAt r; SecretSetEntry_UpdatedAt := v |}.

Record Session := { Session_ID : uuid; Session_UserID : uuid; Session_TokenHash : string;
   Session_ClientPublicKey : option bytes; Session_CreatedAt : Z; Session_ExpiresAt : Z;
   Session_RevokedAt : option Z }.
#[export] Instance Session_eq_dec : EqDecision Session.
Proof. solve_decision. Defined.
Definition set_Session_TokenHash (v : string) (r : Session) : Session := {|
   Session_ID := Session_ID r; Session_UserID := Session_UserID r; Session_TokenHash := v;
   Session_ClientPublicKey := Session_ClientPublicKey r;
   Session_CreatedAt := Session_CreatedAt r; Session_ExpiresAt := Session_ExpiresAt r;
   Session_RevokedAt := Session_RevokedAt r |}.
Definition set_Session_ClientPublicKey (v : option bytes) (r : Session) : Session := {|
   Session_ID := Session_ID r; Session_UserID := Session_UserID r;
   Session_TokenHash := Session_TokenHash r; Session_ClientPublicKey := v;
   Session_CreatedAt := Session_CreatedAt r; Session_ExpiresAt := Session_ExpiresAt r;
   Session_RevokedAt := Session_RevokedAt r |}.
Definition set_Session_RevokedAt (v : option Z) (r : Session) : Session := {|
   Session_ID := Session_ID r; Session_UserID := Session_UserID r;
   Session_TokenHash := Session_TokenHash r;
   Session_ClientPublicKey := Session_ClientPublicKey r;
   Session_CreatedAt := Session_CreatedAt r; Session_ExpiresAt := Session_ExpiresAt r;
   Session_RevokedAt := v |}.

Record SetAuditLog := { SetAuditLog_ID : uuid; SetAuditLog_SetID : option uuid;
   SetAuditLog_SetName : string; SetAuditLog_EntryKey : option string;
   SetAuditLog_HostID : option uuid; SetAuditLog_Action : string;
   SetAuditLog_Actor : option uuid; SetAuditLog_At : Z }.
#[export] Instance SetAuditLog_eq_dec : EqDecision SetAuditLog.
Proof. solve_decision. Defined.

Record SshAccessLog := { SshAccessLog_ID : uuid; SshAccessLog_HostID : uuid;
   SshAccessLog_Hostname : string; SshAccessLog_PublicKeyID : option uuid;
   SshAccessLog_Account : string; SshAccessLog_Allowed : bool; SshAccessLog_At : Z;
   SshAccessLog_Fingerprint : string }.
#[export] Instance SshAccessLog_eq_dec : EqDecision SshAccessLog.
Proof. solve_decision. Defined.

Record User := { User_ID : uuid; User_Email : string; User_Name : string;
   User_DisplayName : option string; User_Role : string; User_Status : string;
   User_CreatedAt : Z }.
#[export] Instance User_eq_dec : EqDecision User.
Proof. solve_decision. Defined.
Definition set_User_Status (v : string) (r : User) : User := {| User_ID := User_ID r;
   User_Email := User_Email r; User_Name := User_Name r; User_DisplayName := User_DisplayName r;
   User_Role := User_Role r; User_Status := v; User_CreatedAt := User_CreatedAt r |}.
Definition set_User_DisplayName (v : option string) (r : User) : User := {|
   User_ID := User_ID r; User_Email := User_Email r; User_Name := User_Name r;
   User_DisplayName := v; User_Role := User_Role r; User_Status := User_Status r;
   User_CreatedAt := User_CreatedAt r |}.
Definition set_User_Name (v : string) (r : User) : User := {| User_ID := User_ID r;
   User_Email := User_Email r; User_Name := v; User_DisplayName := User_DisplayName r;
   User_Role := User_Role r; User_Status := User_Status r; User_CreatedAt := User_CreatedAt r |}.

(** ** The database *)

Record DB := { users : list User; identities : list Identity; invitations : list Invitation;
   sessions : list Session; access_tokens : list AccessToken;
   password_resets : list PasswordReset; public_keys : list PublicKey; hosts : list Host;
   enrollment_tokens : list EnrollmentToken; secrets : list Secret;
   resource_groups : list ResourceGroup; group_resources : list GroupResource;
   permissions : list Permission; grants : list Grant; secret_sets : list SecretSet;
   secret_set_entries : list SecretSetEntry; host_set_bindings : list HostSetBinding;
   secret_audit_logs : list SecretAuditLog; ssh_access_logs : list SshAccessLog;
   grant_audit_logs : list GrantAuditLog; set_audit_logs : list SetAuditLog }.
Definition on_users (f : list User → list User) (d : DB) : DB := {| users := f (users d);
   identities := identities d; invitations := invitations d; sessions := sessions d;
   access_tokens := access_tokens d; password_resets := password_resets d;
   public_keys := public_keys d; hosts := hosts d; enrollment_tokens := enrollment_tokens d;
   secrets := secrets d; resource_groups := resource_groups d;
   group_resources := group_resources d; permissions := permissions d; grants := grants d;
   secret_sets := secret_sets d; secret_set_entries := secret_set_entries d;
   host_set_bindings := host_set_bindings d; secret_audit_logs := secret_audit_logs d;
   ssh_access_logs := ssh_access_logs d; grant_audit_logs := grant_audit_logs d;
   set_audit_logs := set_audit_logs d |}.
Definition on_identities (f : list Identity → list Identity) (d : DB) : DB := {|
   users := users d; identities := f (identities d); invitations := invitations d;
   sessions := sessions d; access_tokens := access_tokens d;
   password_resets := password_resets d; public_keys := public_keys d; hosts := hosts d;
   enrollment_tokens := enrollment_tokens d; secrets := secrets d;
   resource_groups := resource_groups d; group_resources := group_resources d;
   permissions := permissions d; grants := grants d; secret_sets := secret_sets d;
   secret_set_entries := secret_set_entries d; host_set_bindings := host_set_bindings d;
   secret_audit_logs := secret_audit_logs d; ssh_access_logs := ssh_access_logs d;
   grant_audit_logs := grant_audit_logs d; set_audit_logs := set_audit_logs d |}.
Definition on_invitations (f : list Invitation → list Invitation) (d : DB) : DB := {|
   users := users d; identities := identities d; invitations := f (invitations d);
   sessions := sessions d; access_tokens := access_tokens d;
   password_resets := password_resets d; public_keys := public_keys d; hosts := hosts d;
   enrollment_tokens := enrollment_tokens d; secrets := secrets d;
   resource_groups := resource_groups d; group_resources := group_resources d;
   permissions := permissions d; grants := grants d; secret_sets := secret_sets d;
   secret_set_entries := secret_set_entries d; host_set_bindings := host_set_bindings d;
   secret_audit_logs := secret_audit_logs d; ssh_access_logs := ssh_access_logs d;
   grant_audit_logs := grant_audit_logs d; set_audit_logs := set_audit_logs d |}.
Definition on_sessions (f : list Session → list Session) (d : DB) : DB := {| users := users d;
   identities := identities d; invitations := invitations d; sessions := f (sessions d);
   access_tokens := access_tokens d; password_resets := password_resets d;
   public_keys := public_keys d; hosts := hosts d; enrollment_tokens := enrollment_tokens d;
   secrets := secrets d; resource_groups := resource_groups d;
   group_resources := group_resources d; permissions := permissions d; grants := grants d;
   secret_sets := secret_sets d; secret_set_entries := secret_set_entries d;
   host_set_bindings := host_set_bindings d; secret_audit_logs := secret_audit_logs d;
   ssh_access_logs := ssh_access_logs d; grant_audit_logs := grant_audit_logs d;
   set_audit_logs := set_audit_logs d |}.
Definition on_access_tokens (f : list AccessToken → list AccessToken) (d : DB) : DB := {|
   users := users d; identities := identities d; invitations := invitations d;
   sessions := sessions d; access_tokens := f (access_tokens d);
   password_resets := password_resets d; public_keys := public_keys d; hosts := hosts d;
   enrollment_tokens := enrollment_tokens d; secrets := secrets d;
   resource_groups := resource_groups d; group_resources := group_resources d;
   permissions := permissions d; grants := grants d; secret_sets := secret_sets d;
   secret_set_entries := secret_set_entries d; host_set_bindings := host_set_bindings d;
   secret_audit_logs := secret_audit_logs d; ssh_access_logs := ssh_access_logs d;
   grant_audit_logs := grant_audit_logs d; set_audit_logs := set_audit_logs d |}.
Definition on_password_resets (f : list PasswordReset → list PasswordReset) (d : DB) : DB := {|
   users := users d; identities := identities d; invitations := invitations d;
   sessions := sessions d; access_tokens := access_tokens d;
   password_resets := f (password_resets d); public_keys := public_keys d; hosts := hosts d;
   enrollment_tokens := enrollment_tokens d; secrets := secrets d;
   resource_groups := resource_groups d; group_resources := group_resources d;
   permissions := permissions d; grants := grants d; secret_sets := secret_sets d;
   secret_set_entries := secret_set_entries d; host_set_bindings := host_set_bindings d;
   secret_audit_logs := secret_audit_logs d; ssh_access_logs := ssh_access_logs d;
   grant_audit_logs := grant_audit_logs d; set_audit_logs := set_audit_logs d |}.
Definition on_public_keys (f : list PublicKey → list PublicKey) (d : DB) : DB := {|
   users := users d; identities := identities d; invitations := invitations d;
   sessions := sessions d; access_tokens := access_tokens d;
   password_resets := password_resets d; public_keys := f (public_keys d); hosts := hosts d;
   enrollment_tokens := enrollment_tokens d; secrets := secrets d;
   resource_groups := resource_groups d; group_resources := group_resources d;
   permissions := permissions d; grants := grants d; secret_sets := secret_sets d;
   secret_set_entries := secret_set_entries d; host_set_bindings := host_set_bindings d;
   secret_audit_logs := secret_audit_logs d; ssh_access_logs := ssh_access_logs d;
   grant_audit_logs := grant_audit_logs d; set_audit_logs := set_audit_logs d |}.
Definition on_hosts (f : list Host → list Host) (d : DB) : DB := {| users := users d;
   identities := identities d; invitations := invitations d; sessions := sessions d;
   access_tokens := access_tokens d; password_resets := password_resets d;
   public_keys := public_keys d; hosts := f (hosts d); enrollment_tokens := enrollment_tokens d;
   secrets := secrets d; resource_groups := resource_groups d;
   group_resources := group_resources d; permissions := permissions d; grants := grants d;
   secret_sets := secret_sets d; secret_set_entries := secret_set_entries d;
   host_set_bindings := host_set_bindings d; secret_audit_logs := secret_audit_logs d;
   ssh_access_logs := ssh_access_logs d; grant_audit_logs := grant_audit_logs d;
   set_audit_logs := set_audit_logs d |}.
Definition on_enrollment_tokens (f : list EnrollmentToken → list EnrollmentToken) (d : DB) : DB := {|
   users := users d; identities := identities d; invitations := invitations d;
   sessions := sessions d; access_tokens := access_tokens d;
   password_resets := password_resets d; public_keys := public_keys d; hosts := hosts d;
   enrollment_tokens := f (enrollment_tokens d); secrets := secrets d;
   resource_groups := resource_groups d; group_resources := group_resources d;
   permissions := permissions d; grants := grants d; secret_sets := secret_sets d;
   secret_set_entries := secret_set_entries d; host_set_bindings := host_set_bindings d;
   secret_audit_logs := secret_audit_logs d; ssh_access_logs := ssh_access_logs d;
   grant_audit_logs := grant_audit_logs d; set_audit_logs := set_audit_logs d |}.
Definition on_secrets (f : list Secret → list Secret) (d : DB) : DB := {| users := users d;
   identities := identities d; invitations := invitations d; sessions := sessions d;
   access_tokens := access_tokens d; password_resets := password_resets d;
   public_keys := public_keys d; hosts := hosts d; enrollment_tokens := enrollment_tokens d;
   secrets := f (secrets d); resource_groups := resource_groups d;
   group_resources := group_resources d; permissions := permissions d; grants := grants d;
   secret_sets := secret_sets d; secret_set_entries := secret_set_entries d;
   host_set_bindings := host_set_bindings d; secret_audit_logs := secret_audit_logs d;
   ssh_access_logs := ssh_access_logs d; grant_audit_logs := grant_audit_logs d;
   set_audit_logs := set_audit_logs d |}.
Definition on_resource_groups (f : list ResourceGroup → list ResourceGroup) (d : DB) : DB := {|
   users := users d; identities := identities d; invitations := invitations d;
   sessions := sessions d; access_tokens := access_tokens d;
   password_resets := password_resets d; public_keys := public_keys d; hosts := hosts d;
   enrollment_tokens := enrollment_tokens d; secrets := secrets d;
   resource_groups := f (resource_groups d); group_resources := group_resources d;
   permissions := permissions d; grants := grants d; secret_sets := secret_sets d;
   secret_set_entries := secret_set_entries d; host_set_bindings := host_set_bindings d;
   secret_audit_logs := secret_audit_logs d; ssh_access_logs := ssh_access_logs d;
   grant_audit_logs := grant_audit_logs d; set_audit_logs := set_audit_logs d |}.
Definition on_group_resources (f : list GroupResource → list GroupResource) (d : DB) : DB := {|
   users := users d; identities := identities d; invitations := invitations d;
   sessions := sessions d; access_tokens := access_tokens d;
   password_resets := password_resets d; public_keys := public_keys d; hosts := hosts d;
   enrollment_tokens := enrollment_tokens d; secrets := secrets d;
   resource_groups := resource_groups d; group_resources := f (group_resources d);
   permissions := permissions d; grants := grants d; secret_sets := secret_sets d;
   secret_set_entries := secret_set_entries d; host_set_bindings := host_set_bindings d;
   secret_audit_logs := secret_audit_logs d; ssh_access_logs := ssh_access_logs d;
   grant_audit_logs := grant_audit_logs d; set_audit_logs := set_audit_logs d |}.
Definition on_grants (f : list Grant → list Grant) (d : DB) : DB := {| users := users d;
   identities := identities d; invitations := invitations d; sessions := sessions d;
   access_tokens := access_tokens d; password_resets := password_resets d;
   public_keys := public_keys d; hosts := hosts d; enrollment_tokens := enrollment_tokens d;
   secrets := secrets d; resource_groups := resource_groups d;
   group_resources := group_resources d; permissions := permissions d; grants := f (grants d);
   secret_sets := secret_sets d; secret_set_entries := secret_set_entries d;
   host_set_bindings := host_set_bindings d; secret_audit_logs := secret_audit_logs d;
   ssh_access_logs := ssh_access_logs d; grant_audit_logs := grant_audit_logs d;
   set_audit_logs := set_audit_logs d |}.
Definition on_secret_sets (f : list SecretSet → list SecretSet) (d : DB) : DB := {|
   users := users d; identities := identities d; invitations := invitations d;
   sessions := sessions d; access_tokens := access_tokens d;
   password_resets := password_resets d; public_keys := public_keys d; hosts := hosts d;
   enrollment_tokens := enrollment_tokens d; secrets := secrets d;
   resource_groups := resource_groups d; group_resources := group_resources d;
   permissions := permissions d; grants := grants d; secret_sets := f (secret_sets d);
   secret_set_entries := secret_set_entries d; host_set_bindings := host_set_bindings d;
   secret_audit_logs := secret_audit_logs d; ssh_access_logs := ssh_access_logs d;
   grant_audit_logs := grant_audit_logs d; set_audit_logs := set_audit_logs d |}.
Definition on_secret_set_entries (f : list SecretSetEntry → list SecretSetEntry) (d : DB) : DB := {|
   users := users d; identities := identities d; invitations := invitations d;
   sessions := sessions d; access_tokens := access_tokens d;
   password_resets := password_resets d; public_keys := public_keys d; hosts := hosts d;
   enrollment_tokens := enrollment_tokens d; secrets := secrets d;
   resource_groups := resource_groups d; group_resources := group_resources d;
   permissions := permissions d; grants := grants d; secret_sets := secret_sets d;
   secret_set_entries := f (secret_set_entries d); host_set_bindings := host_set_bindings d;
   secret_audit_logs := secret_audit_logs d; ssh_access_logs := ssh_access_logs d;
   grant_audit_logs := grant_audit_logs d; set_audit_logs := set_audit_logs d |}.
Definition on_host_set_bindings (f : list HostSetBinding → list HostSetBinding) (d : DB) : DB := {|
   users := users d; identities := identities d; invitations := invitations d;
   sessions := sessions d; access_tokens := access_tokens d;
   password_resets := password_resets d; public_keys := public_keys d; hosts := hosts d;
   enrollment_tokens := enrollment_tokens d; secrets := secrets d;
   resource_groups := resource_groups d; group_resources := group_resources d;
   permissions := permissions d; grants := grants d; secret_sets := secret_sets d;
   secret_set_entries := secret_set_entries d; host_set_bindings := f (host_set_bindings d);
   secret_audit_logs := secret_audit_logs d; ssh_access_logs := ssh_access_logs d;
   grant_audit_logs := grant_audit_logs d; set_audit_logs := set_audit_logs d |}.
Definition on_secret_audit_logs (f : list SecretAuditLog → list SecretAuditLog) (d : DB) : DB := {|
   users := users d; identities := identities d; invitations := invitations d;
   sessions := sessions d; access_tokens := access_tokens d;
   password_resets := password_resets d; public_keys := public_keys d; hosts := hosts d;
   enrollment_tokens := enrollment_tokens d; secrets := secrets d;
   resource_groups := resource_groups d; group_resources := group_resources d;
   permissions := permissions d; grants := grants d; secret_sets := secret_sets d;
   secret_set_entries := secret_set_entries d; host_set_bindings := host_set_bindings d;
   secret_audit_logs := f (secret_audit_logs d); ssh_access_logs := ssh_access_logs d;
   grant_audit_logs := grant_audit_logs d; set_audit_logs := set_audit_logs d |}.
Definition on_ssh_access_logs (f : list SshAccessLog → list SshAccessLog) (d : DB) : DB := {|
   users := users d; identities := identities d; invitations := invitations d;
   sessions := sessions d; access_tokens := access_tokens d;
   password_resets := password_resets d; public_keys := public_keys d; hosts := hosts d;
   enrollment_tokens := enrollment_tokens d; secrets := secrets d;
   resource_groups := resource_groups d; group_resources := group_resources d;
   permissions := permissions d; grants := grants d; secret_sets := secret_sets d;
   secret_set_entries := secret_set_entries d; host_set_bindings := host_set_bindings d;
   secret_audit_logs := secret_audit_logs d; ssh_access_logs := f (ssh_access_logs d);
   grant_audit_logs := grant_audit_logs d; set_audit_logs := set_audit_logs d |}.
Definition on_grant_audit_logs (f : list GrantAuditLog → list GrantAuditLog) (d : DB) : DB := {|
   users := users d; identities := identities d; invitations := invitations d;
   sessions := sessions d; access_tokens := access_tokens d;
   password_resets := password_resets d; public_keys := public_keys d; hosts := hosts d;
   enrollment_tokens := enrollment_tokens d; secrets := secrets d;
   resource_groups := resource_groups d; group_resources := group_resources d;
   permissions := permissions d; grants := grants d; secret_sets := secret_sets d;
   secret_set_entries := secret_set_entries d; host_set_bindings := host_set_bindings d;
   secret_audit_logs := secret_audit_logs d; ssh_access_logs := ssh_access_logs d;
   grant_audit_logs := f (grant_audit_logs d); set_audit_logs := set_audit_logs d |}.
Definition on_set_audit_logs (f : list SetAuditLog → list SetAuditLog) (d : DB) : DB := {|
   users := users d; identities := identities d; invitations := invitations d;
   sessions := sessions d; access_tokens := access_tokens d;
   password_resets := password_resets d; public_keys := public_keys d; hosts := hosts d;
   enrollment_tokens := enrollment_tokens d; secrets := secrets d;
   resource_groups := resource_groups d; group_resources := group_resources d;
   permissions := permissions d; grants := grants d; secret_sets := secret_sets d;
   secret_set_entries := secret_set_entries d; host_set_bindings := host_set_bindings d;
   secret_audit_logs := secret_audit_logs d; ssh_access_logs := ssh_access_logs d;
   grant_audit_logs := grant_audit_logs d; set_audit_logs := f (set_audit_logs d) |}.

(** The rows the migration seeds [permissions] with. *)
Definition permission_catalogue : list Permission :=
  (λ '(k, d), {| Permission_Key := k; Permission_Description := d |}) <$>
  [("secret.add", "Create secrets"); ("group.create", "Create resource groups");
   ("host.add", "Create host enrollment tokens"); ("set.add", "Create machine secret sets");
   ("secret.read", "View a secret value"); ("secret.update", "Modify secrets");
   ("secret.delete", "Delete secrets"); ("host.access", "SSH access to a host");
   ("host.revoke", "Revoke/decommission a host"); ("host.upgrade", "Upgrade a host agent");
   ("host.audit", "View host access audit"); ("group.read", "View a group and its members");
   ("group.manage", "Rename, delete, or change membership of a group");
   ("set.read", "View a set and its keys"); ("set.manage", "Edit, delete, or bind a set")].

(** The database right after the migration. *)
Definition empty_db : DB := {|
   users := []; identities := []; invitations := []; sessions := []; access_tokens := [];
   password_resets := []; public_keys := []; hosts := []; enrollment_tokens := [];
   secrets := []; resource_groups := []; group_resources := [];
   permissions := permission_catalogue; grants := []; secret_sets := [];
   secret_set_entries := []; host_set_bindings := []; secret_audit_logs := [];
   ssh_access_logs := []; grant_audit_logs := []; set_audit_logs := [] |}.

(** ** SQLSTATE codes *)

Definition unique_violation := "23505".
Definition foreign_key_violation := "23503".
Definition check_violation := "23514".
Definition numeric_out_of_range := "22003".

(** The largest [bigint]. *)
Definition int64_max : Z := 2 ^ 63 - 1.

(** A [timestamptz] counts microseconds: pgx drops the rest of the nanoseconds
    of a Go time that is written to a column.  [now()] is such a value already. *)
Definition pg_time (t : Z) : Z := t / 1000 * 1000.

Lemma pg_time_le t : pg_time t ≤ t.
Proof. unfold pg_time. pose proof (Z.mul_div_le t 1000). lia. Qed.
Lemma pg_time_close t : t - 1000 < pg_time t.
Proof. unfold pg_time. pose proof (Z.mod_pos_bound t 1000). pose proof (Z.div_mod t 1000). lia. Qed.

(** ** Statements

    A statement maps a database to an error or to a result with the database
    it leaves; a failing statement changes nothing.  A query is a statement
    that also depends on [now()] and on the value [gen_random_uuid()] gives. *)
Definition Stmt (A : Type) : Type := DB → error + (A * DB).
Definition Query (A : Type) : Type := Z → uuid → Stmt A.

(** A constraint of the schema, checked before the statement takes effect. *)
Definition check {A} (P : DB → Prop) `{∀ d, Decision (P d)} (code : string)
    (q : Stmt A) : Stmt A :=
  λ d, if decide (P d) then q d else inl (PgError code).
(** [... returning row] *)
Definition returning {A} (a : A) (f : DB → DB) : Stmt A := λ d, inr (a, f d).
(** [:exec] *)
Definition execute (f : DB → DB) : Stmt unit := λ d, inr (tt, f d).
(** [:execrows] *)
Definition execrows (n : DB → Z) (f : DB → DB) : Stmt Z := λ d, inr (n d, f d).
(** [:many] *)
Definition select {A} (f : DB → A) : Stmt A := λ d, inr (f d, d).
(** [:one]; no row is [ErrNoRows]. *)
Definition select_one {A} (f : DB → option A) : Stmt A := λ d,
  match f d with Some a => inr (a, d) | None => inl ErrNoRows end.
(** [update ... returning], [:one]: the row as it is after the update. *)
Definition update_returning {A B} (before : DB → option A) (after : A → B) (f : DB → DB) : Stmt B :=
  λ d, match before d with Some a => inr (after a, f d) | None => inl ErrNoRows end.

(** [order by]: the order of rows that compare equal is unspecified in SQL and
    is that of the table here. *)
Definition order_by {A} (le : A → A → Prop) `{∀ x y, Decision (le x y)} (l : list A) : list A :=
  merge_sort le l.

Lemma elem_of_order_by {A} (le : A → A → Prop) `{∀ x y, Decision (le x y)} l x :
  x ∈ order_by le l ↔ x ∈ l.
Proof. unfold order_by. by rewrite merge_sort_Permutation. Qed.

(** The database's collation: how [order by] and [<] compare two texts. *)
Class Collation := text_le : string → string → bool.

(** The comparison of a deterministic collation is a total order. *)
Class CollationLaws `{Collation} : Prop := {
  text_le_total : ∀ x y, text_le x y = true ∨ text_le y x = true;
  text_le_trans : ∀ x y z, text_le x y = true → text_le y z = true → text_le x z = true;
  text_le_antisym : ∀ x y, text_le x y = true → text_le y x = true → x = y }.

(** The database's [ilike], pattern first. *)
Class TextMatch := ilike : string → string → bool.

Definition by_text {A} `{Collation} (key : A → string) (x y : A) : Prop :=
  text_le (key x) (key y) = true.
#[export] Instance by_text_dec {A} `{Collation} (key : A → string) x y :
  Decision (by_text key x y).
Proof. unfold by_text. apply _. Defined.
Definition by_time {A} (key : A → Z) (x y : A) : Prop := key x ≤ key y.
#[export] Instance by_time_dec {A} (key : A → Z) x y : Decision (by_time key x y).
Proof. unfold by_time. apply _. Defined.
Definition by_time_desc {A} (key : A → Z) (x y : A) : Prop := key y ≤ key x.
#[export] Instance by_time_desc_dec {A} (key : A → Z) x y : Decision (by_time_desc key x y).
Proof. unfold by_time_desc. apply _. Defined.
