(* ===== verification/Evolve.v ===== *)
(** What every statement of the control plane keeps: the schema's constraints
    as an invariant of the database ([db_wf]), and the relation [evolves]
    between the database before and after: constraints stay true, audit
    logs only grow, users keep their id, e-mail and role, a revoked grant or
    session stays revoked, access tokens stay as they were issued, a revoked
    host stays revoked, a host's sequence counters never go back, a spent token
    stays spent. *)
From S2P Require Import Prelude Text Schema.

(** ** Constraints of the schema *)

Definition user_roles := ["admin"; "member"].
Definition user_statuses := ["active"; "suspended"; "removed"].
Definition host_statuses := ["active"; "revoked"].
Definition resource_kinds := ["secret"; "host"; "set"].
Definition target_kinds := ["secret"; "host"; "group"; "set"; "global"].
Definition secret_actions := ["read"; "add"; "update"; "delete"].
Definition grant_actions := ["grant"; "revoke"].
Definition set_actions := ["create"; "edit"; "rename"; "deliver"; "machine_read"; "delete"].

Definition Identity_login (i : Identity) := (Identity_Provider i, Identity_ExternalID i).
Definition GroupResource_key (r : GroupResource) :=
  (GroupResource_GroupID r, GroupResource_ResourceKind r, GroupResource_ResourceID r).
Definition SecretSetEntry_key (e : SecretSetEntry) :=
  (SecretSetEntry_SetID e, SecretSetEntry_Key e).
Definition HostSetBinding_key (b : HostSetBinding) :=
  (HostSetBinding_HostID b, HostSetBinding_SetID b).

(** The partial unique index [hosts_machine_id_active]. *)
Definition active_machine (h : Host) : option string :=
  if decide (Host_Status h = "active") then Host_MachineID h else None.
Definition active_machines (l : list Host) : list string := omap active_machine l.

(** [check ((target_kind = 'global') = (target_id is null))] *)
Definition target_ok (kind : string) (id : option uuid) : Prop := kind = "global" ↔ id = None.
#[export] Instance target_ok_dec kind id : Decision (target_ok kind id).
Proof. unfold target_ok. apply _. Defined.

(** The counters are [bigint not null default 0] and only incremented. *)
Definition host_seq_ok (h : Host) : Prop :=
  0 ≤ Host_LastSeq h ≤ int64_max ∧ 0 ≤ Host_LastSetSeq h ≤ int64_max.

(** Every constraint of [migrations/0001_init.sql]: primary keys, [unique],
    [check] and [references], on nullable columns too ([may_reference]).  The
    audit tables have keys and checks and, as the schema says, no [references].
    The columns have the types of the records in [Schema]. *)
Record db_wf (d : DB) : Prop := {
  wf_user_id : NoDup (User_ID <$> users d);
  wf_user_email : NoDup (User_Email <$> users d);
  wf_user_role : Forall (λ u, User_Role u ∈ user_roles) (users d);
  wf_user_status : Forall (λ u, User_Status u ∈ user_statuses) (users d);
  wf_identity_id : NoDup (Identity_ID <$> identities d);
  wf_identity_login : NoDup (Identity_login <$> identities d);
  wf_identity_user : references Identity_UserID (identities d) (User_ID <$> users d);
  wf_invitation_id : NoDup (Invitation_ID <$> invitations d);
  wf_invitation_role : Forall (λ i, Invitation_Role i ∈ user_roles) (invitations d);
  wf_invitation_by : may_reference Invitation_InvitedBy (invitations d) (User_ID <$> users d);
  wf_session_id : NoDup (Session_ID <$> sessions d);
  wf_session_token : NoDup (Session_TokenHash <$> sessions d);
  wf_session_user : references Session_UserID (sessions d) (User_ID <$> users d);
  wf_access_token_id : NoDup (AccessToken_ID <$> access_tokens d);
  wf_access_token_token : NoDup (AccessToken_TokenHash <$> access_tokens d);
  wf_access_token_session :
    references AccessToken_SessionID (access_tokens d) (Session_ID <$> sessions d);
  wf_reset_id : NoDup (PasswordReset_ID <$> password_resets d);
  wf_reset_token : NoDup (PasswordReset_TokenHash <$> password_resets d);
  wf_reset_user : references PasswordReset_UserID (password_resets d) (User_ID <$> users d);
  wf_key_id : NoDup (PublicKey_ID <$> public_keys d);
  wf_key_fingerprint : NoDup (PublicKey_Fingerprint <$> public_keys d);
  wf_key_user : references PublicKey_UserID (public_keys d) (User_ID <$> users d);
  wf_host_id : NoDup (Host_ID <$> hosts d);
  wf_host_identity : NoDup (Host_IdentityKey <$> hosts d);
  wf_host_machine : NoDup (active_machines (hosts d));
  wf_host_status : Forall (λ h, Host_Status h ∈ host_statuses) (hosts d);
  wf_host_seq : Forall host_seq_ok (hosts d);
  wf_enroll_id : NoDup (EnrollmentToken_ID <$> enrollment_tokens d);
  wf_enroll_token : NoDup (EnrollmentToken_TokenHash <$> enrollment_tokens d);
  wf_enroll_by :
    may_reference EnrollmentToken_CreatedBy (enrollment_tokens d) (User_ID <$> users d);
  wf_enroll_host :
    may_reference EnrollmentToken_HostID (enrollment_tokens d) (Host_ID <$> hosts d);
  wf_secret_id : NoDup (Secret_ID <$> secrets d);
  wf_secret_created : may_reference Secret_CreatedBy (secrets d) (User_ID <$> users d);
  wf_secret_updated : may_reference Secret_UpdatedBy (secrets d) (User_ID <$> users d);
  wf_group_id : NoDup (ResourceGroup_ID <$> resource_groups d);
  wf_member_key : NoDup (GroupResource_key <$> group_resources d);
  wf_member_group :
    references GroupResource_GroupID (group_resources d) (ResourceGroup_ID <$> resource_groups d);
  wf_member_kind : Forall (λ r, GroupResource_ResourceKind r ∈ resource_kinds) (group_resources d);
  wf_permission_key : NoDup (Permission_Key <$> permissions d);
  wf_grant_id : NoDup (Grant_ID <$> grants d);
  wf_grant_user : references Grant_UserID (grants d) (User_ID <$> users d);
  wf_grant_permission :
    references Grant_Permission (grants d) (Permission_Key <$> permissions d);
  wf_grant_kind : Forall (λ g, Grant_TargetKind g ∈ target_kinds) (grants d);
  wf_grant_target : Forall (λ g, target_ok (Grant_TargetKind g) (Grant_TargetID g)) (grants d);
  wf_grant_by : may_reference Grant_GrantedBy (grants d) (User_ID <$> users d);
  wf_set_id : NoDup (SecretSet_ID <$> secret_sets d);
  wf_set_name : NoDup (SecretSet_Name <$> secret_sets d);
  wf_set_by : may_reference SecretSet_CreatedBy (secret_sets d) (User_ID <$> users d);
  wf_entry_key : NoDup (SecretSetEntry_key <$> secret_set_entries d);
  wf_entry_set :
    references SecretSetEntry_SetID (secret_set_entries d) (SecretSet_ID <$> secret_sets d);
  wf_binding_key : NoDup (HostSetBinding_key <$> host_set_bindings d);
  wf_binding_host : references HostSetBinding_HostID (host_set_bindings d) (Host_ID <$> hosts d);
  wf_binding_set :
    references HostSetBinding_SetID (host_set_bindings d) (SecretSet_ID <$> secret_sets d);
  wf_binding_by : may_reference HostSetBinding_GrantedBy (host_set_bindings d) (User_ID <$> users d);
  wf_secret_log_id : NoDup (SecretAuditLog_ID <$> secret_audit_logs d);
  wf_secret_log_action :
    Forall (λ l, SecretAuditLog_Action l ∈ secret_actions) (secret_audit_logs d);
  wf_ssh_log_id : NoDup (SshAccessLog_ID <$> ssh_access_logs d);
  wf_grant_log_id : NoDup (GrantAuditLog_ID <$> grant_audit_logs d);
  wf_grant_log_action :
    Forall (λ l, GrantAuditLog_Action l ∈ grant_actions) (grant_audit_logs d);
  wf_set_log_id : NoDup (SetAuditLog_ID <$> set_audit_logs d);
  wf_set_log_action : Forall (λ l, SetAuditLog_Action l ∈ set_actions) (set_audit_logs d) }.

Lemma empty_db_wf : db_wf empty_db.
Proof.
  constructor; simpl; unfold references, may_reference; try constructor.
  all: apply (bool_decide_unpack _); vm_compute; exact I.
Qed.

(** ** How rows may change *)

(** A nullable timestamp that, once set, stays set. *)
Definition once {A} (o o' : option A) : Prop := is_Some o → is_Some o'.

Definition user_le (u v : User) : Prop :=
  User_ID u = User_ID v ∧ User_Email u = User_Email v ∧ User_Role u = User_Role v.
Definition session_le (s t : Session) : Prop :=
  Session_ID s = Session_ID t ∧ Session_UserID s = Session_UserID t ∧
  Session_ExpiresAt s = Session_ExpiresAt t ∧ once (Session_RevokedAt s) (Session_RevokedAt t).
Definition reset_le (s t : PasswordReset) : Prop :=
  PasswordReset_ID s = PasswordReset_ID t ∧ PasswordReset_UserID s = PasswordReset_UserID t ∧
  PasswordReset_TokenHash s = PasswordReset_TokenHash t ∧
  once (PasswordReset_UsedAt s) (PasswordReset_UsedAt t).
Definition enroll_le (s t : EnrollmentToken) : Prop :=
  EnrollmentToken_ID s = EnrollmentToken_ID t ∧
  EnrollmentToken_TokenHash s = EnrollmentToken_TokenHash t ∧
  once (EnrollmentToken_UsedAt s) (EnrollmentToken_UsedAt t).
Definition host_le (h k : Host) : Prop :=
  Host_ID h = Host_ID k ∧ Host_IdentityKey h = Host_IdentityKey k ∧
  Host_EncryptionKey h = Host_EncryptionKey k ∧ Host_Accounts h = Host_Accounts k ∧
  Host_LastSeq h ≤ Host_LastSeq k ∧ Host_LastSetSeq h ≤ Host_LastSetSeq k ∧
  (Host_Status h = "revoked" → Host_Status k = "revoked").
Definition grant_le (g h : Grant) : Prop :=
  Grant_ID g = Grant_ID h ∧ Grant_UserID g = Grant_UserID h ∧
  Grant_Permission g = Grant_Permission h ∧ Grant_TargetKind g = Grant_TargetKind h ∧
  Grant_TargetID g = Grant_TargetID h ∧ once (Grant_RevokedAt g) (Grant_RevokedAt h).

Record evolves (d d' : DB) : Prop := {
  ev_wf : db_wf d → db_wf d';
  ev_users : rows_le user_le (users d) (users d');
  ev_sessions : rows_le session_le (sessions d) (sessions d');
  ev_access_tokens : rows_le eq (access_tokens d) (access_tokens d');
  ev_resets : rows_le reset_le (password_resets d) (password_resets d');
  ev_enroll : rows_le enroll_le (enrollment_tokens d) (enrollment_tokens d');
  ev_hosts : rows_le host_le (hosts d) (hosts d');
  ev_grants : rows_le grant_le (grants d) (grants d');
  ev_permissions : permissions d' = permissions d;
  ev_secret_log : secret_audit_logs d `prefix_of` secret_audit_logs d';
  ev_ssh_log : ssh_access_logs d `prefix_of` ssh_access_logs d';
  ev_grant_log : grant_audit_logs d `prefix_of` grant_audit_logs d';
  ev_set_log : set_audit_logs d `prefix_of` set_audit_logs d' }.

Ltac unfold_le :=
  unfold user_le, session_le, reset_le, enroll_le, host_le, grant_le, once in *.
Ltac le_preorder := split;
  [ intros ?; unfold_le; repeat split; try reflexivity; auto
  | intros ? ? ?; unfold_le; intros; destruct_and?; repeat split; try congruence; auto; lia ].

#[export] Instance user_le_preorder : PreOrder user_le.
Proof. le_preorder. Qed.
#[export] Instance session_le_preorder : PreOrder session_le.
Proof. le_preorder. Qed.
#[export] Instance reset_le_preorder : PreOrder reset_le.
Proof. le_preorder. Qed.
#[export] Instance enroll_le_preorder : PreOrder enroll_le.
Proof. le_preorder. Qed.
#[export] Instance host_le_preorder : PreOrder host_le.
Proof. le_preorder. Qed.
#[export] Instance grant_le_preorder : PreOrder grant_le.
Proof. le_preorder. Qed.

#[export] Instance evolves_preorder : PreOrder evolves.
Proof.
  split.
  - intros d. constructor; auto; reflexivity.
  - intros d1 d2 d3 [] []. constructor; auto; try congruence; by etransitivity.
Qed.

(** ** Automation: a statement evolves the database *)

(** [query_rel R q]: whatever [q] returns when it succeeds, the databases
    before and after are related by [R]. *)
Definition query_rel {A} (R : DB → DB → Prop) (q : Query A) : Prop :=
  ∀ now id d a d', q now id d = inr (a, d') → R d d'.

Lemma keys_insert {A K} (key : A → K) l x k :
  k ∈ key <$> l → k ∈ key <$> (l ++ [x]).
Proof. rewrite fmap_app, elem_of_app. auto. Qed.

Lemma active_machines_update (P : Host → Prop) `{∀ x, Decision (P x)} f l :
  (∀ h, active_machine (f h) = active_machine h) →
  active_machines (update_where P f l) = active_machines l.
Proof.
  intros Hf. induction l as [|h l IH]; [done|]. simpl.
  assert (active_machine (if decide (P h) then f h else h) = active_machine h) as ->
    by (case_decide; auto).
  destruct (active_machine h); [f_equal|]; exact IH.
Qed.

(** [on delete cascade]: referring rows go with the rows they refer to. *)
Lemma references_cascade {A B K} `{EqDecision K} (col : A → K) (key : B → K) l l' k :
  references col l (key <$> l') →
  references col (delete_where (λ x, col x = k) l) (key <$> delete_where (λ y, key y = k) l').
Proof.
  unfold references. rewrite !Forall_forall. intros Hl x Hx.
  apply elem_of_delete_where in Hx as [Hx Hk]. specialize (Hl x Hx).
  apply list_elem_of_fmap in Hl as (y & Hy & Hin). apply list_elem_of_fmap.
  exists y. split; [done|]. apply elem_of_delete_where. split; congruence.
Qed.

(** A check on the new value of an update's rows, vacuous when it has none. *)
Lemma updated_row_checked {A K} (key : A → K) (P : Prop) (l : list A) k x :
  P ∨ k ∉ key <$> l → x ∈ l → key x = k → P.
Proof. intros [HP|Hk] Hx <-; [done|]. destruct Hk. apply list_elem_of_fmap. eauto. Qed.

(** The goals a statement leaves: one per constraint and per retention rule.
    Tables the statement does not touch are closed by assumption or
    reflexivity; the others by the lemma for an insert, update or delete. *)
Ltac table_step :=
  lazymatch goal with
  | |- NoDup (active_machines (update_where _ _ _)) => rewrite active_machines_update
  | |- references _ (delete_where _ _) (_ <$> delete_where _ _) => apply references_cascade
  | |- NoDup (_ <$> (_ ++ [_])) => apply NoDup_insert
  | |- NoDup (_ <$> update_where _ _ _) => rewrite update_where_key
  | |- NoDup (_ <$> delete_where _ _) => apply delete_where_NoDup
  | |- references _ _ (_ <$> (_ ++ [_])) =>
      eapply references_weaken; [intros; apply keys_insert; eassumption|]
  | |- references _ _ (_ <$> update_where _ _ _) => rewrite update_where_key
  | |- may_reference _ _ (_ <$> (_ ++ [_])) =>
      eapply may_reference_weaken; [intros; apply keys_insert; eassumption|]
  | |- may_reference _ _ (_ <$> update_where _ _ _) => rewrite update_where_key
  | |- may_reference _ (_ ++ [_]) _ => apply Forall_insert
  | |- may_reference _ (update_where _ _ _) _ => apply Forall_update_where
  | |- may_reference _ (delete_where _ _) _ => apply Forall_delete_where
  | |- references _ (_ ++ [_]) _ => apply Forall_insert
  | |- references _ (update_where _ _ _) _ => apply Forall_update_where
  | |- references _ (delete_where _ _) _ => apply Forall_delete_where
  | |- Forall _ (_ ++ [_]) => apply Forall_insert
  | |- Forall _ (update_where _ _ _) => apply Forall_update_where
  | |- Forall _ (delete_where _ _) => apply Forall_delete_where
  | |- rows_le _ _ (_ ++ [_]) => apply (rows_le_insert _)
  | |- rows_le _ _ (update_where _ _ _) => apply (rows_le_update _)
  | |- prefix _ (_ ++ _) => eexists
  end.

Ltac close_row := intros; solve
  [ eapply updated_row_checked; eassumption
  | assumption | unfold host_seq_ok, int64_max in *; simpl; auto; lia | apply (bool_decide_unpack _); exact I
  | unfold_le; simpl; repeat split; auto; try reflexivity; lia ].

Ltac solve_tables :=
  simpl; try assumption; try reflexivity;
  repeat (table_step; simpl; try assumption); try reflexivity; try close_row.

(** Runs the statement: its constraints become hypotheses. *)
Ltac run_query H :=
  unfold check, returning, execute, execrows, select, select_one, update_returning in H;
  repeat (first [case_decide | case_match]; try discriminate H);
  injection H as ? ?; subst.

Create HintDb evolve discriminated.

Ltac head_of t := lazymatch t with ?f _ => head_of f | _ => t end.

Ltac unfold_query H :=
  match type of H with ?q = _ => let h := head_of q in unfold h in H end.

Ltac solve_evolves :=
  let H := fresh "Hrun" in
  intros now id d a d' H; unfold_query H; run_query H; intros;
  first [reflexivity | constructor; [intros []; constructor|..]; solve_tables].
