(* ===== verification/QUsers.v ===== *)
(** The generated query functions on accounts:
    [internal/controlplane/db/{users,identities,sessions,access_tokens,
    password_resets,invitations,public_keys}.sql.go].  A query function takes
    the fields of its parameter struct in their order. *)
From S2P Require Import Prelude Text Schema Evolve.

(** ** users.sql.go *)

Definition CountActiveAdmins : Query Z := λ _ _,
  select (λ d, count_where (λ u, User_Role u = "admin" ∧ User_Status u = "active") (users d)).

Definition CreateUser (Email Name : string) (DisplayName : option string) (Role : string) :
    Query User := λ now id,
  let row := {| User_ID := id; User_Email := Email; User_Name := Name;
                User_DisplayName := DisplayName; User_Role := Role;
                User_Status := "active"; User_CreatedAt := now |} in
  check (λ _, Role ∈ user_roles) check_violation $
  check (λ d, id ∉ User_ID <$> users d) unique_violation $
  check (λ d, Email ∉ User_Email <$> users d) unique_violation $
  returning row (on_users (λ l, l ++ [row])).

Definition DeleteUserIdentities (userID : uuid) : Query unit := λ _ _,
  execute (on_identities (delete_where (λ i, Identity_UserID i = userID))).

Definition GetUserByEmail (email : string) : Query User := λ _ _,
  select_one (λ d, first_row (λ u, User_Email u = email) (users d)).

Definition GetUserByID (id : uuid) : Query User := λ _ _,
  select_one (λ d, first_row (λ u, User_ID u = id) (users d)).

Definition ListUsers `{Collation} : Query (list User) := λ _ _,
  select (λ d, order_by (by_text User_Email) (users d)).

Definition RevokeAllUserGrants (userID : uuid) : Query unit := λ now _,
  execute (on_grants (update_where (λ g, Grant_UserID g = userID ∧ Grant_RevokedAt g = None)
                        (set_Grant_RevokedAt (Some now)))).

Definition SetUserStatus (ID : uuid) (Status : string) : Query Z := λ _ _,
  check (λ d, Status ∈ user_statuses ∨ ID ∉ User_ID <$> users d) check_violation $
  execrows (λ d, count_where (λ u, User_ID u = ID) (users d))
    (on_users (update_where (λ u, User_ID u = ID) (set_User_Status Status))).

Definition UpdateUserDisplayName (ID : uuid) (DisplayName : option string) : Query unit := λ _ _,
  execute (on_users (update_where (λ u, User_ID u = ID) (set_User_DisplayName DisplayName))).

Definition UpdateUserName (ID : uuid) (Name : string) : Query unit := λ _ _,
  execute (on_users (update_where (λ u, User_ID u = ID) (set_User_Name Name))).


(** ** identities.sql.go *)

Definition CreateIdentity (UserID : uuid) (Provider ExternalID : string)
    (PasswordHash : option string) : Query Identity := λ now id,
  let row := {| Identity_ID := id; Identity_UserID := UserID; Identity_Provider := Provider;
                Identity_ExternalID := ExternalID; Identity_PasswordHash := PasswordHash;
                Identity_CreatedAt := now; Identity_LastLoginAt := None;
                Identity_FailedLogins := 0; Identity_LastFailedAt := None;
                Identity_LockedUntil := None |} in
  check (λ d, id ∉ Identity_ID <$> identities d) unique_violation $
  check (λ d, (Provider, ExternalID) ∉ Identity_login <$> identities d) unique_violation $
  check (λ d, UserID ∈ User_ID <$> users d) foreign_key_violation $
  returning row (on_identities (λ l, l ++ [row])).

Definition GetIdentity (Provider ExternalID : string) : Query Identity := λ _ _,
  select_one (λ d, first_row (λ i, Identity_Provider i = Provider ∧
                                   Identity_ExternalID i = ExternalID) (identities d)).

Definition ResetLoginFailures (id : uuid) : Query unit := λ _ _,
  execute (on_identities (update_where (λ i, Identity_ID i = id)
    (λ i, set_Identity_FailedLogins 0 (set_Identity_LockedUntil None i)))).

Definition SetLoginFailure (ID : uuid) (FailedLogins : Z) (LockedUntil : option Z) :
    Query unit := λ now _,
  execute (on_identities (update_where (λ i, Identity_ID i = ID)
    (λ i, set_Identity_FailedLogins FailedLogins (set_Identity_LockedUntil (pg_time <$> LockedUntil)
            (set_Identity_LastFailedAt (Some now) i))))).

Definition TouchIdentityLogin (id : uuid) : Query unit := λ now _,
  execute (on_identities (update_where (λ i, Identity_ID i = id)
    (set_Identity_LastLoginAt (Some now)))).

Definition UpdatePasswordIdentity (UserID : uuid) (PasswordHash : option string) :
    Query unit := λ _ _,
  execute (on_identities (update_where
    (λ i, Identity_UserID i = UserID ∧ Identity_Provider i = "password")
    (set_Identity_PasswordHash PasswordHash))).

(** ** sessions.sql.go *)

Definition CreateSession (UserID : uuid) (TokenHash : string) (ClientPublicKey : option bytes)
    (ExpiresAt : Z) : Query Session := λ now id,
  let row := {| Session_ID := id; Session_UserID := UserID; Session_TokenHash := TokenHash;
                Session_ClientPublicKey := ClientPublicKey; Session_CreatedAt := now;
                Session_ExpiresAt := pg_time ExpiresAt; Session_RevokedAt := None |} in
  check (λ d, id ∉ Session_ID <$> sessions d) unique_violation $
  check (λ d, TokenHash ∉ Session_TokenHash <$> sessions d) unique_violation $
  check (λ d, UserID ∈ User_ID <$> users d) foreign_key_violation $
  returning row (on_sessions (λ l, l ++ [row])).

Definition GetSessionByTokenHash (tokenHash : string) : Query Session := λ now _,
  select_one (λ d, first_row (λ s, Session_TokenHash s = tokenHash ∧
    Session_RevokedAt s = None ∧ now < Session_ExpiresAt s) (sessions d)).

Definition RevokeAllUserSessions (userID : uuid) : Query unit := λ now _,
  execute (on_sessions (update_where
    (λ s, Session_UserID s = userID ∧ Session_RevokedAt s = None)
    (set_Session_RevokedAt (Some now)))).

Definition RevokeSession (id : uuid) : Query unit := λ now _,
  execute (on_sessions (update_where (λ s, Session_ID s = id) (set_Session_RevokedAt (Some now)))).

Definition RotateSessionToken (ID : uuid) (TokenHash : string) : Query unit := λ _ _,
  let update := update_where (λ s, Session_ID s = ID) (set_Session_TokenHash TokenHash) in
  check (λ d, NoDup (Session_TokenHash <$> update (sessions d))) unique_violation $
  execute (on_sessions update).

Definition UpdateSessionClientKey (ID : uuid) (ClientPublicKey : option bytes) :
    Query unit := λ _ _,
  execute (on_sessions (update_where (λ s, Session_ID s = ID)
    (set_Session_ClientPublicKey ClientPublicKey))).

(** ** access_tokens.sql.go *)

Definition CreateAccessToken (SessionID : uuid) (TokenHash : string) (ExpiresAt : Z) :
    Query AccessToken := λ now id,
  let row := {| AccessToken_ID := id; AccessToken_SessionID := SessionID;
                AccessToken_TokenHash := TokenHash; AccessToken_ExpiresAt := pg_time ExpiresAt;
                AccessToken_CreatedAt := now |} in
  check (λ d, id ∉ AccessToken_ID <$> access_tokens d) unique_violation $
  check (λ d, TokenHash ∉ AccessToken_TokenHash <$> access_tokens d) unique_violation $
  check (λ d, SessionID ∈ Session_ID <$> sessions d) foreign_key_violation $
  returning row (on_access_tokens (λ l, l ++ [row])).

Record GetAccessContextRow := {
  GetAccessContextRow_SessionID : uuid; GetAccessContextRow_ClientPublicKey : option bytes;
  GetAccessContextRow_UserID : uuid; GetAccessContextRow_Role : string;
  GetAccessContextRow_Status : string }.

(** The join of a token, its session and its user. *)
Definition access_contexts (now : Z) (tokenHash : string) (d : DB) : list GetAccessContextRow :=
  t ← filter (λ t, AccessToken_TokenHash t = tokenHash ∧ now < AccessToken_ExpiresAt t)
        (access_tokens d);
  s ← filter (λ s, Session_ID s = AccessToken_SessionID t ∧ Session_RevokedAt s = None ∧
                   now < Session_ExpiresAt s) (sessions d);
  u ← filter (λ u, User_ID u = Session_UserID s) (users d);
  [{| GetAccessContextRow_SessionID := Session_ID s;
      GetAccessContextRow_ClientPublicKey := Session_ClientPublicKey s;
      GetAccessContextRow_UserID := User_ID u; GetAccessContextRow_Role := User_Role u;
      GetAccessContextRow_Status := User_Status u |}].
Definition GetAccessContext (tokenHash : string) : Query GetAccessContextRow := λ now _,
  select_one (λ d, head (access_contexts now tokenHash d)).

(** ** password_resets.sql.go *)

Definition CreatePasswordReset (UserID : uuid) (TokenHash : string) (ExpiresAt : Z) :
    Query PasswordReset := λ now id,
  let row := {| PasswordReset_ID := id; PasswordReset_UserID := UserID;
                PasswordReset_TokenHash := TokenHash; PasswordReset_ExpiresAt := pg_time ExpiresAt;
                PasswordReset_UsedAt := None; PasswordReset_CreatedAt := now |} in
  check (λ d, id ∉ PasswordReset_ID <$> password_resets d) unique_violation $
  check (λ d, TokenHash ∉ PasswordReset_TokenHash <$> password_resets d) unique_violation $
  check (λ d, UserID ∈ User_ID <$> users d) foreign_key_violation $
  returning row (on_password_resets (λ l, l ++ [row])).

Definition GetPasswordReset (tokenHash : string) : Query PasswordReset := λ _ _,
  select_one (λ d, first_row (λ r, PasswordReset_TokenHash r = tokenHash) (password_resets d)).

Definition MarkPasswordResetUsed (id : uuid) : Query unit := λ now _,
  execute (on_password_resets (update_where (λ r, PasswordReset_ID r = id)
    (set_PasswordReset_UsedAt (Some now)))).

(** ** invitations.sql.go *)

Definition CreateInvitation (Email Role TokenHash : string) (InvitedBy : option uuid)
    (ExpiresAt : Z) : Query Invitation := λ now id,
  let row := {| Invitation_ID := id; Invitation_Email := Email; Invitation_Role := Role;
                Invitation_TokenHash := TokenHash; Invitation_InvitedBy := InvitedBy;
                Invitation_ExpiresAt := pg_time ExpiresAt; Invitation_AcceptedAt := None;
                Invitation_CreatedAt := now |} in
  check (λ _, Role ∈ user_roles) check_violation $
  check (λ d, id ∉ Invitation_ID <$> invitations d) unique_violation $
  check (λ d, opt_ref InvitedBy (User_ID <$> users d)) foreign_key_violation $
  returning row (on_invitations (λ l, l ++ [row])).

Definition DeleteInvitation (id : uuid) : Query Z := λ _ _,
  execrows (λ d, count_where (λ i, Invitation_ID i = id ∧ Invitation_AcceptedAt i = None)
                   (invitations d))
    (on_invitations (delete_where (λ i, Invitation_ID i = id ∧ Invitation_AcceptedAt i = None))).

Definition GetInvitationByTokenHash (tokenHash : string) : Query Invitation := λ _ _,
  select_one (λ d, first_row (λ i, Invitation_TokenHash i = tokenHash) (invitations d)).

Definition ListPendingInvitations : Query (list Invitation) := λ now _,
  select (λ d, order_by (by_time_desc Invitation_CreatedAt)
    (filter (λ i, Invitation_AcceptedAt i = None ∧ now < Invitation_ExpiresAt i) (invitations d))).

Definition MarkInvitationAccepted (id : uuid) : Query unit := λ now _,
  execute (on_invitations (update_where (λ i, Invitation_ID i = id)
    (set_Invitation_AcceptedAt (Some now)))).

Definition RefreshInvitationToken (ID : uuid) (TokenHash : string) (ExpiresAt : Z) :
    Query Invitation := λ _ _,
  let pending i := Invitation_ID i = ID ∧ Invitation_AcceptedAt i = None in
  let renew i := set_Invitation_TokenHash TokenHash (set_Invitation_ExpiresAt (pg_time ExpiresAt) i) in
  update_returning (λ d, first_row pending (invitations d)) renew
    (on_invitations (update_where pending renew)).

(** ** public_keys.sql.go *)

Definition CreatePublicKey (UserID : uuid) (Label KeyType KeyBlob Fingerprint : string) :
    Query PublicKey := λ now id,
  let row := {| PublicKey_ID := id; PublicKey_UserID := UserID; PublicKey_Label := Label;
                PublicKey_KeyType := KeyType; PublicKey_KeyBlob := KeyBlob;
                PublicKey_Fingerprint := Fingerprint; PublicKey_CreatedAt := now |} in
  check (λ d, id ∉ PublicKey_ID <$> public_keys d) unique_violation $
  check (λ d, Fingerprint ∉ PublicKey_Fingerprint <$> public_keys d) unique_violation $
  check (λ d, UserID ∈ User_ID <$> users d) foreign_key_violation $
  returning row (on_public_keys (λ l, l ++ [row])).

Definition DeletePublicKey (ID UserID : uuid) : Query Z := λ _ _,
  let mine k := PublicKey_ID k = ID ∧ PublicKey_UserID k = UserID in
  execrows (λ d, count_where mine (public_keys d)) (on_public_keys (delete_where mine)).

Definition ListUserPublicKeys (userID : uuid) : Query (list PublicKey) := λ _ _,
  select (λ d, order_by (by_time PublicKey_CreatedAt)
    (filter (λ k, PublicKey_UserID k = userID) (public_keys d))).

(** ** Every query evolves the database *)

Lemma CountActiveAdmins_ev : query_rel evolves CountActiveAdmins.
Proof. solve_evolves. Qed.
Lemma CreateUser_ev a0 a1 a2 a3 : query_rel evolves (CreateUser a0 a1 a2 a3).
Proof. solve_evolves. Qed.
Lemma DeleteUserIdentities_ev a0 : query_rel evolves (DeleteUserIdentities a0).
Proof. solve_evolves. Qed.
Lemma GetUserByEmail_ev a0 : query_rel evolves (GetUserByEmail a0).
Proof. solve_evolves. Qed.
Lemma GetUserByID_ev a0 : query_rel evolves (GetUserByID a0).
Proof. solve_evolves. Qed.
Lemma ListUsers_ev `{Collation} : query_rel evolves ListUsers.
Proof. solve_evolves. Qed.
Lemma RevokeAllUserGrants_ev a0 : query_rel evolves (RevokeAllUserGrants a0).
Proof. solve_evolves. Qed.
Lemma SetUserStatus_ev a0 a1 : query_rel evolves (SetUserStatus a0 a1).
Proof. solve_evolves. Qed.
Lemma UpdateUserDisplayName_ev a0 a1 : query_rel evolves (UpdateUserDisplayName a0 a1).
Proof. solve_evolves. Qed.
Lemma UpdateUserName_ev a0 a1 : query_rel evolves (UpdateUserName a0 a1).
Proof. solve_evolves. Qed.
Lemma CreateIdentity_ev a0 a1 a2 a3 : query_rel evolves (CreateIdentity a0 a1 a2 a3).
Proof. solve_evolves. Qed.
Lemma GetIdentity_ev a0 a1 : query_rel evolves (GetIdentity a0 a1).
Proof. solve_evolves. Qed.
Lemma ResetLoginFailures_ev a0 : query_rel evolves (ResetLoginFailures a0).
Proof. solve_evolves. Qed.
Lemma SetLoginFailure_ev a0 a1 a2 : query_rel evolves (SetLoginFailure a0 a1 a2).
Proof. solve_evolves. Qed.
Lemma TouchIdentityLogin_ev a0 : query_rel evolves (TouchIdentityLogin a0).
Proof. solve_evolves. Qed.
Lemma UpdatePasswordIdentity_ev a0 a1 : query_rel evolves (UpdatePasswordIdentity a0 a1).
Proof. solve_evolves. Qed.
Lemma CreateSession_ev a0 a1 a2 a3 : query_rel evolves (CreateSession a0 a1 a2 a3).
Proof. solve_evolves. Qed.
Lemma GetSessionByTokenHash_ev a0 : query_rel evolves (GetSessionByTokenHash a0).
Proof. solve_evolves. Qed.
Lemma RevokeAllUserSessions_ev a0 : query_rel evolves (RevokeAllUserSessions a0).
Proof. solve_evolves. Qed.
Lemma RevokeSession_ev a0 : query_rel evolves (RevokeSession a0).
Proof. solve_evolves. Qed.
Lemma RotateSessionToken_ev a0 a1 : query_rel evolves (RotateSessionToken a0 a1).
Proof. solve_evolves. Qed.
Lemma UpdateSessionClientKey_ev a0 a1 : query_rel evolves (UpdateSessionClientKey a0 a1).
Proof. solve_evolves. Qed.
Lemma CreateAccessToken_ev a0 a1 a2 : query_rel evolves (CreateAccessToken a0 a1 a2).
Proof. solve_evolves. Qed.
Lemma GetAccessContext_ev a0 : query_rel evolves (GetAccessContext a0).
Proof. solve_evolves. Qed.
Lemma CreatePasswordReset_ev a0 a1 a2 : query_rel evolves (CreatePasswordReset a0 a1 a2).
Proof. solve_evolves. Qed.
Lemma GetPasswordReset_ev a0 : query_rel evolves (GetPasswordReset a0).
Proof. solve_evolves. Qed.
Lemma MarkPasswordResetUsed_ev a0 : query_rel evolves (MarkPasswordResetUsed a0).
Proof. solve_evolves. Qed.
Lemma CreateInvitation_ev a0 a1 a2 a3 a4 : query_rel evolves (CreateInvitation a0 a1 a2 a3 a4).
Proof. solve_evolves. Qed.
Lemma DeleteInvitation_ev a0 : query_rel evolves (DeleteInvitation a0).
Proof. solve_evolves. Qed.
Lemma GetInvitationByTokenHash_ev a0 : query_rel evolves (GetInvitationByTokenHash a0).
Proof. solve_evolves. Qed.
Lemma ListPendingInvitations_ev : query_rel evolves ListPendingInvitations.
Proof. solve_evolves. Qed.
Lemma MarkInvitationAccepted_ev a0 : query_rel evolves (MarkInvitationAccepted a0).
Proof. solve_evolves. Qed.
Lemma RefreshInvitationToken_ev a0 a1 a2 : query_rel evolves (RefreshInvitationToken a0 a1 a2).
Proof. solve_evolves. Qed.
Lemma CreatePublicKey_ev a0 a1 a2 a3 a4 : query_rel evolves (CreatePublicKey a0 a1 a2 a3 a4).
Proof. solve_evolves. Qed.
Lemma DeletePublicKey_ev a0 a1 : query_rel evolves (DeletePublicKey a0 a1).
Proof. solve_evolves. Qed.
Lemma ListUserPublicKeys_ev a0 : query_rel evolves (ListUserPublicKeys a0).
Proof. solve_evolves. Qed.

#[export] Hint Resolve CountActiveAdmins_ev CreateUser_ev DeleteUserIdentities_ev GetUserByEmail_ev
  GetUserByID_ev ListUsers_ev RevokeAllUserGrants_ev SetUserStatus_ev
  UpdateUserDisplayName_ev UpdateUserName_ev CreateIdentity_ev GetIdentity_ev
  ResetLoginFailures_ev SetLoginFailure_ev TouchIdentityLogin_ev UpdatePasswordIdentity_ev
  CreateSession_ev GetSessionByTokenHash_ev RevokeAllUserSessions_ev RevokeSession_ev
  RotateSessionToken_ev UpdateSessionClientKey_ev CreateAccessToken_ev GetAccessContext_ev
  CreatePasswordReset_ev GetPasswordReset_ev MarkPasswordResetUsed_ev CreateInvitation_ev
  DeleteInvitation_ev GetInvitationByTokenHash_ev ListPendingInvitations_ev
  MarkInvitationAccepted_ev RefreshInvitationToken_ev CreatePublicKey_ev
  DeletePublicKey_ev ListUserPublicKeys_ev : evolve.
