(* ===== verification/QAccess.v ===== *)
(** The generated query functions on access: [internal/controlplane/db/
    {hosts,enrollment,groups,grants,permissions,snapshot}.sql.go] and the
    joins of [users.sql.go] on grants. *)
From S2P Require Import Prelude Text Schema Evolve.

(** ** Grants that reach a resource

    The condition the permission queries share: a live grant of [permission]
    to the user, on the resource itself or on a group it belongs to. *)

Definition live (g : Grant) : Prop := Grant_RevokedAt g = None.

(** [select group_id from group_resources where resource_kind = k and
    resource_id = r] *)
Definition groups_of (kind : string) (r : uuid) (d : DB) : list uuid :=
  GroupResource_GroupID <$>
    filter (λ m, GroupResource_ResourceKind m = kind ∧ GroupResource_ResourceID m = r)
      (group_resources d).

Definition reaches (d : DB) (kind : string) (r : uuid) (g : Grant) : Prop :=
  (Grant_TargetKind g = kind ∧ Grant_TargetID g = Some r) ∨
  (Grant_TargetKind g = "group" ∧ opt_in (Grant_TargetID g) (groups_of kind r d)).

#[export] Instance live_dec g : Decision (live g).
Proof. unfold live. apply _. Defined.
#[export] Instance reaches_dec d kind r g : Decision (reaches d kind r g).
Proof. unfold reaches. apply _. Defined.

(** ** permissions.sql.go: permission checks *)

Definition UserHasGlobalPermission (UserID : uuid) (Permission : string) : Query bool := λ _ _,
  select (λ d, bool_decide (Exists (λ g, Grant_UserID g = UserID ∧
    Grant_Permission g = Permission ∧ Grant_TargetKind g = "global" ∧ live g) (grants d))).

Definition UserHasGroupPermission (UserID : uuid) (Permission : string) (GroupID : uuid) :
    Query bool := λ _ _,
  select (λ d, bool_decide (Exists (λ g, Grant_UserID g = UserID ∧
    Grant_Permission g = Permission ∧ live g ∧ Grant_TargetKind g = "group" ∧
    Grant_TargetID g = Some GroupID) (grants d))).

Definition UserHasHostPermission (UserID : uuid) (Permission : string) (HostID : uuid) :
    Query bool := λ _ _,
  select (λ d, bool_decide (Exists (λ g, Grant_UserID g = UserID ∧
    Grant_Permission g = Permission ∧ live g ∧ reaches d "host" HostID g) (grants d))).

Definition UserHasSecretPermission (UserID : uuid) (Permission : string) (SecretID : uuid) :
    Query bool := λ _ _,
  select (λ d, bool_decide (Exists (λ g, Grant_UserID g = UserID ∧
    Grant_Permission g = Permission ∧ live g ∧ reaches d "secret" SecretID g) (grants d))).

Definition UserHasSetPermission (UserID : uuid) (Permission : string) (SetID : uuid) :
    Query bool := λ _ _,
  select (λ d, bool_decide (Exists (λ g, Grant_UserID g = UserID ∧
    Grant_Permission g = Permission ∧ live g ∧ reaches d "set" SetID g) (grants d))).

(** ** permissions.sql.go: lists of global permissions *)

Definition ListGlobalPermissions `{Collation} : Query (list Permission) := λ _ _,
  select (λ d, order_by (by_text Permission_Key)
    (filter (λ p, Permission_Key p ∈ ["secret.add"; "group.create"; "host.add"; "set.add"])
      (permissions d))).

Record ListUserGlobalPermissionsRow := {
  ListUserGlobalPermissionsRow_GrantID : uuid; ListUserGlobalPermissionsRow_Permission : Permission;
  ListUserGlobalPermissionsRow_GrantedAt : Z }.
Definition row_key (r : ListUserGlobalPermissionsRow) : string :=
  Permission_Key (ListUserGlobalPermissionsRow_Permission r).

Definition ListUserGlobalPermissions `{Collation} (userID : uuid) :
    Query (list ListUserGlobalPermissionsRow) := λ _ _,
  select (λ d, order_by (by_text row_key) (
    g ← filter (λ g, Grant_UserID g = userID ∧ Grant_TargetKind g = "global" ∧ live g) (grants d);
    p ← filter (λ p, Permission_Key p = Grant_Permission g) (permissions d);
    [{| ListUserGlobalPermissionsRow_GrantID := Grant_ID g;
        ListUserGlobalPermissionsRow_Permission := p;
        ListUserGlobalPermissionsRow_GrantedAt := Grant_CreatedAt g |}])).

(** ** snapshot.sql.go *)

Record HostAccessKeysRow := {
  HostAccessKeysRow_UserID : uuid; HostAccessKeysRow_KeyType : string;
  HostAccessKeysRow_KeyBlob : string; HostAccessKeysRow_Fingerprint : string }.
#[export] Instance HostAccessKeysRow_eq_dec : EqDecision HostAccessKeysRow.
Proof. solve_decision. Defined.

(** [select distinct ... from grants g join users u ... join public_keys pk]. *)
Definition host_access_rows (targetID : uuid) (d : DB) : list HostAccessKeysRow :=
  g ← filter (λ g, Grant_Permission g = "host.access" ∧ live g ∧ reaches d "host" targetID g)
        (grants d);
  u ← filter (λ u, User_ID u = Grant_UserID g ∧ User_Status u = "active") (users d);
  pk ← filter (λ pk, PublicKey_UserID pk = Grant_UserID g) (public_keys d);
  [{| HostAccessKeysRow_UserID := PublicKey_UserID pk;
      HostAccessKeysRow_KeyType := PublicKey_KeyType pk;
      HostAccessKeysRow_KeyBlob := PublicKey_KeyBlob pk;
      HostAccessKeysRow_Fingerprint := PublicKey_Fingerprint pk |}].
Definition HostAccessKeys (targetID : uuid) : Query (list HostAccessKeysRow) := λ _ _,
  select (λ d, remove_dups (host_access_rows targetID d)).

(** ** users.sql.go, the join on hosts *)

Definition UserGrantedHostIDs (userID : uuid) : Query (list uuid) := λ _ _,
  select (λ d, remove_dups (
    h ← hosts d;
    g ← filter (λ g, Grant_UserID g = userID ∧ Grant_Permission g = "host.access" ∧ live g ∧
                     reaches d "host" (Host_ID h) g) (grants d);
    [Host_ID h])).

(** ** grants.sql.go *)

Definition CreateGrant (UserID : uuid) (Permission TargetKind : string)
    (TargetID GrantedBy : option uuid) : Query Grant := λ now id,
  let row := {| Grant_ID := id; Grant_UserID := UserID; Grant_Permission := Permission;
                Grant_TargetKind := TargetKind; Grant_TargetID := TargetID;
                Grant_GrantedBy := GrantedBy; Grant_CreatedAt := now;
                Grant_RevokedAt := None |} in
  check (λ _, TargetKind ∈ target_kinds) check_violation $
  check (λ _, target_ok TargetKind TargetID) check_violation $
  check (λ d, id ∉ Grant_ID <$> grants d) unique_violation $
  check (λ d, UserID ∈ User_ID <$> users d) foreign_key_violation $
  check (λ d, Permission ∈ Permission_Key <$> permissions d) foreign_key_violation $
  check (λ d, opt_ref GrantedBy (User_ID <$> users d)) foreign_key_violation $
  returning row (on_grants (λ l, l ++ [row])).

Definition GroupHostIDs (groupID : uuid) : Query (list uuid) := λ _ _,
  select (λ d, GroupResource_ResourceID <$>
    filter (λ m, GroupResource_GroupID m = groupID ∧ GroupResource_ResourceKind m = "host")
      (group_resources d)).

Definition InsertGrantAudit (Action : string) (GrantID ActorID : option uuid)
    (ActorEmail : string) (SubjectID : option uuid) (SubjectEmail Permission TargetKind : string)
    (TargetID : option uuid) : Query unit := λ now id,
  let row := {| GrantAuditLog_ID := id; GrantAuditLog_Action := Action;
                GrantAuditLog_GrantID := GrantID; GrantAuditLog_ActorID := ActorID;
                GrantAuditLog_ActorEmail := ActorEmail; GrantAuditLog_SubjectID := SubjectID;
                GrantAuditLog_SubjectEmail := SubjectEmail;
                GrantAuditLog_Permission := Permission; GrantAuditLog_TargetKind := TargetKind;
                GrantAuditLog_TargetID := TargetID; GrantAuditLog_At := now |} in
  check (λ _, Action ∈ grant_actions) check_violation $
  check (λ d, id ∉ GrantAuditLog_ID <$> grant_audit_logs d) unique_violation $
  execute (on_grant_audit_logs (λ l, l ++ [row])).

Definition RevokeGrant (id : uuid) : Query Grant := λ now _,
  let mine g := Grant_ID g = id ∧ live g in
  let revoke := set_Grant_RevokedAt (Some now) in
  update_returning (λ d, first_row mine (grants d)) revoke (on_grants (update_where mine revoke)).

Record ListGrantsRow := {
  ListGrantsRow_ID : uuid; ListGrantsRow_Permission : string; ListGrantsRow_TargetKind : string;
  ListGrantsRow_TargetID : option uuid; ListGrantsRow_CreatedAt : Z;
  ListGrantsRow_UserID : uuid; ListGrantsRow_UserEmail : string }.

Definition ListGrants : Query (list ListGrantsRow) := λ _ _,
  select (λ d, order_by (by_time_desc ListGrantsRow_CreatedAt) (
    g ← filter live (grants d);
    u ← filter (λ u, User_ID u = Grant_UserID g) (users d);
    [{| ListGrantsRow_ID := Grant_ID g; ListGrantsRow_Permission := Grant_Permission g;
        ListGrantsRow_TargetKind := Grant_TargetKind g; ListGrantsRow_TargetID := Grant_TargetID g;
        ListGrantsRow_CreatedAt := Grant_CreatedAt g; ListGrantsRow_UserID := User_ID u;
        ListGrantsRow_UserEmail := User_Email u |}])).

(** ** hosts.sql.go *)

Definition CreateHost (Name Hostname IdentityKey : string) (Accounts : list string)
    (MachineID : option string) (EncryptionKey : string) : Query Host := λ now id,
  let row := {| Host_ID := id; Host_Name := Name; Host_Hostname := Hostname;
                Host_IdentityKey := IdentityKey; Host_EncryptionKey := EncryptionKey;
                Host_Accounts := Accounts; Host_Status := "active";
                Host_MachineID := MachineID; Host_LastSeq := 0; Host_LastSetSeq := 0;
                Host_AgentVersion := ""; Host_DesiredVersion := "";
                Host_EnrolledAt := now; Host_LastSeenAt := None |} in
  check (λ d, id ∉ Host_ID <$> hosts d) unique_violation $
  check (λ d, IdentityKey ∉ Host_IdentityKey <$> hosts d) unique_violation $
  check (λ d, NoDup (active_machines (hosts d ++ [row]))) unique_violation $
  returning row (on_hosts (λ l, l ++ [row])).

(** A null argument matches no row ([machine_id = null] is not true). *)
Definition GetActiveHostByMachineID (machineID : option string) : Query Host := λ _ _,
  select_one (λ d, first_row (λ h, is_Some machineID ∧ Host_MachineID h = machineID ∧
    Host_Status h = "active") (hosts d)).

Definition GetHostByID (id : uuid) : Query Host := λ _ _,
  select_one (λ d, first_row (λ h, Host_ID h = id) (hosts d)).

Definition ListActiveHosts `{Collation} : Query (list Host) := λ _ _,
  select (λ d, order_by (by_text Host_Name) (filter (λ h, Host_Status h = "active") (hosts d))).

Definition ListHosts `{Collation} : Query (list Host) := λ _ _,
  select (λ d, order_by (by_text Host_Name) (filter (λ h, Host_Status h = "active") (hosts d))).

(** [select distinct]: the selected columns contain the primary key, so the
    distinct rows are the distinct hosts. *)
Definition ListReadableHosts `{Collation} (userID : uuid) : Query (list Host) := λ _ _,
  select (λ d, order_by (by_text Host_Name) (remove_dups (
    h ← filter (λ h, Host_Status h = "active") (hosts d);
    g ← filter (λ g, Grant_UserID g = userID ∧ Grant_Permission g = "host.access" ∧ live g ∧
                     reaches d "host" (Host_ID h) g) (grants d);
    [h]))).

Definition NextHostSeq (id : uuid) : Query Z := λ _ _,
  let bump h := set_Host_LastSeq (Host_LastSeq h + 1) h in
  check (λ d, Forall (λ h, Host_ID h = id → Host_LastSeq h < int64_max) (hosts d))
    numeric_out_of_range $
  update_returning (λ d, first_row (λ h, Host_ID h = id) (hosts d)) (λ h, Host_LastSeq h + 1)
    (on_hosts (update_where (λ h, Host_ID h = id) bump)).

Definition NextHostSetSeq (id : uuid) : Query Z := λ _ _,
  let bump h := set_Host_LastSetSeq (Host_LastSetSeq h + 1) h in
  check (λ d, Forall (λ h, Host_ID h = id → Host_LastSetSeq h < int64_max) (hosts d))
    numeric_out_of_range $
  update_returning (λ d, first_row (λ h, Host_ID h = id) (hosts d)) (λ h, Host_LastSetSeq h + 1)
    (on_hosts (update_where (λ h, Host_ID h = id) bump)).

Definition SetHostDesiredVersion (ID : uuid) (DesiredVersion : string) : Query unit := λ _ _,
  execute (on_hosts (update_where (λ h, Host_ID h = ID) (set_Host_DesiredVersion DesiredVersion))).

Definition SetHostStatus (ID : uuid) (Status : string) : Query Z := λ _ _,
  let update := update_where (λ h, Host_ID h = ID) (set_Host_Status Status) in
  check (λ d, Status ∈ host_statuses ∨ ID ∉ Host_ID <$> hosts d) check_violation $
  check (λ d, NoDup (active_machines (update (hosts d)))) unique_violation $
  execrows (λ d, count_where (λ h, Host_ID h = ID) (hosts d)) (on_hosts update).

Definition SetHostVersion (ID : uuid) (AgentVersion : string) : Query unit := λ _ _,
  execute (on_hosts (update_where (λ h, Host_ID h = ID) (set_Host_AgentVersion AgentVersion))).

Definition TouchHostSeen (id : uuid) : Query unit := λ now _,
  execute (on_hosts (update_where (λ h, Host_ID h = id) (set_Host_LastSeenAt (Some now)))).

(** ** enrollment.sql.go *)

Definition CreateEnrollmentToken (TokenHash : string) (Label : option string)
    (Accounts : list string) (CreatedBy : option uuid) (ExpiresAt : Z) :
    Query EnrollmentToken := λ now id,
  let row := {| EnrollmentToken_ID := id; EnrollmentToken_TokenHash := TokenHash;
                EnrollmentToken_Label := Label; EnrollmentToken_Accounts := Accounts;
                EnrollmentToken_CreatedBy := CreatedBy; EnrollmentToken_ExpiresAt := pg_time ExpiresAt;
                EnrollmentToken_UsedAt := None; EnrollmentToken_HostID := None;
                EnrollmentToken_CreatedAt := now |} in
  check (λ d, id ∉ EnrollmentToken_ID <$> enrollment_tokens d) unique_violation $
  check (λ d, TokenHash ∉ EnrollmentToken_TokenHash <$> enrollment_tokens d) unique_violation $
  check (λ d, opt_ref CreatedBy (User_ID <$> users d)) foreign_key_violation $
  returning row (on_enrollment_tokens (λ l, l ++ [row])).

Definition GetEnrollmentToken (tokenHash : string) : Query EnrollmentToken := λ _ _,
  select_one (λ d, first_row (λ t, EnrollmentToken_TokenHash t = tokenHash) (enrollment_tokens d)).

Definition MarkTokenUsed (ID : uuid) (HostID : option uuid) : Query unit := λ now _,
  check (λ d, opt_ref HostID (Host_ID <$> hosts d) ∨
              ID ∉ EnrollmentToken_ID <$> enrollment_tokens d) foreign_key_violation $
  execute (on_enrollment_tokens (update_where (λ t, EnrollmentToken_ID t = ID)
    (λ t, set_EnrollmentToken_UsedAt (Some now) (set_EnrollmentToken_HostID HostID t)))).

(** ** groups.sql.go *)

Definition AddGroupResource (GroupID : uuid) (ResourceKind : string) (ResourceID : uuid) :
    Query unit := λ now _ d,
  let row := {| GroupResource_GroupID := GroupID; GroupResource_ResourceKind := ResourceKind;
                GroupResource_ResourceID := ResourceID; GroupResource_AddedAt := now |} in
  check (λ _, ResourceKind ∈ resource_kinds) check_violation
  (λ d, if decide (GroupResource_key row ∈ GroupResource_key <$> group_resources d)
        then inr (tt, d)     (* on conflict do nothing *)
        else check (λ d, GroupID ∈ ResourceGroup_ID <$> resource_groups d) foreign_key_violation
               (execute (on_group_resources (λ l, l ++ [row]))) d) d.

Definition CreateGroup (Name Description : string) : Query ResourceGroup := λ now id,
  let row := {| ResourceGroup_ID := id; ResourceGroup_Name := Name;
                ResourceGroup_Description := Description; ResourceGroup_CreatedAt := now |} in
  check (λ d, id ∉ ResourceGroup_ID <$> resource_groups d) unique_violation $
  returning row (on_resource_groups (λ l, l ++ [row])).

(** Membership rows are deleted with their group ([on delete cascade]). *)
Definition DeleteGroup (id : uuid) : Query Z := λ _ _,
  execrows (λ d, count_where (λ g, ResourceGroup_ID g = id) (resource_groups d))
    (λ d, on_group_resources (delete_where (λ m, GroupResource_GroupID m = id))
            (on_resource_groups (delete_where (λ g, ResourceGroup_ID g = id)) d)).

Definition GetGroup (id : uuid) : Query ResourceGroup := λ _ _,
  select_one (λ d, first_row (λ g, ResourceGroup_ID g = id) (resource_groups d)).

Record ListGroupMembersRow := {
  ListGroupMembersRow_UserID : uuid; ListGroupMembersRow_Email : string;
  ListGroupMembersRow_Name : string; ListGroupMembersRow_DisplayName : option string;
  ListGroupMembersRow_Role : string; ListGroupMembersRow_Status : string;
  ListGroupMembersRow_GrantID : uuid; ListGroupMembersRow_Permission : string;
  ListGroupMembersRow_GrantedAt : Z }.

(** [order by u.email, g.permission] *)
Definition member_le `{Collation} (x y : ListGroupMembersRow) : Prop :=
  if decide (ListGroupMembersRow_Email x = ListGroupMembersRow_Email y)
  then by_text ListGroupMembersRow_Permission x y
  else by_text ListGroupMembersRow_Email x y.
#[export] Instance member_le_dec `{Collation} x y : Decision (member_le x y).
Proof. unfold member_le. case_decide; apply _. Defined.

Definition ListGroupMembers `{Collation} (targetID : uuid) :
    Query (list ListGroupMembersRow) := λ _ _,
  select (λ d, order_by member_le (
    g ← filter (λ g, Grant_TargetKind g = "group" ∧ Grant_TargetID g = Some targetID ∧ live g)
          (grants d);
    u ← filter (λ u, User_ID u = Grant_UserID g) (users d);
    [{| ListGroupMembersRow_UserID := User_ID u; ListGroupMembersRow_Email := User_Email u;
        ListGroupMembersRow_Name := User_Name u;
        ListGroupMembersRow_DisplayName := User_DisplayName u;
        ListGroupMembersRow_Role := User_Role u; ListGroupMembersRow_Status := User_Status u;
        ListGroupMembersRow_GrantID := Grant_ID g;
        ListGroupMembersRow_Permission := Grant_Permission g;
        ListGroupMembersRow_GrantedAt := Grant_CreatedAt g |}])).

Definition ListGroups `{Collation} : Query (list ResourceGroup) := λ _ _,
  select (λ d, order_by (by_text ResourceGroup_Name) (resource_groups d)).

Definition ListGroupsForResource `{Collation} (ResourceKind : string) (ResourceID : uuid) :
    Query (list ResourceGroup) := λ _ _,
  select (λ d, order_by (by_text ResourceGroup_Name) (
    m ← filter (λ m, GroupResource_ResourceKind m = ResourceKind ∧
                     GroupResource_ResourceID m = ResourceID) (group_resources d);
    filter (λ g, ResourceGroup_ID g = GroupResource_GroupID m) (resource_groups d))).

Definition group_reader (userID : uuid) (rg : ResourceGroup) (g : Grant) : Prop :=
  Grant_Permission g = "group.read" ∧ live g ∧ Grant_TargetKind g = "group" ∧
  Grant_TargetID g = Some (ResourceGroup_ID rg) ∧ Grant_UserID g = userID.
#[export] Instance group_reader_dec userID rg g : Decision (group_reader userID rg g).
Proof. unfold group_reader. apply _. Defined.

Definition ListReadableGroups `{Collation} (userID : uuid) : Query (list ResourceGroup) := λ _ _,
  select (λ d, order_by (by_text ResourceGroup_Name) (remove_dups (
    rg ← resource_groups d; g ← filter (group_reader userID rg) (grants d); [rg]))).

Definition ListReadableGroupsForResource `{Collation} (UserID : uuid) (ResourceKind : string)
    (ResourceID : uuid) : Query (list ResourceGroup) := λ _ _,
  select (λ d, order_by (by_text ResourceGroup_Name) (remove_dups (
    m ← filter (λ m, GroupResource_ResourceKind m = ResourceKind ∧
                     GroupResource_ResourceID m = ResourceID) (group_resources d);
    rg ← filter (λ g, ResourceGroup_ID g = GroupResource_GroupID m) (resource_groups d);
    g ← filter (group_reader UserID rg) (grants d); [rg]))).

Definition RemoveGroupResource (GroupID : uuid) (ResourceKind : string) (ResourceID : uuid) :
    Query Z := λ _ _,
  let row m := GroupResource_GroupID m = GroupID ∧ GroupResource_ResourceKind m = ResourceKind ∧
               GroupResource_ResourceID m = ResourceID in
  execrows (λ d, count_where row (group_resources d)) (on_group_resources (delete_where row)).

Definition RevokeGroupGrants (id : uuid) : Query unit := λ now _,
  execute (on_grants (update_where
    (λ g, Grant_TargetKind g = "group" ∧ Grant_TargetID g = Some id ∧ live g)
    (set_Grant_RevokedAt (Some now)))).

Definition UpdateGroup (ID : uuid) (Name Description : string) : Query ResourceGroup := λ _ _,
  let rename g := set_ResourceGroup_Name Name (set_ResourceGroup_Description Description g) in
  update_returning (λ d, first_row (λ g, ResourceGroup_ID g = ID) (resource_groups d)) rename
    (on_resource_groups (update_where (λ g, ResourceGroup_ID g = ID) rename)).

(** ** Every query evolves the database *)

Lemma UserHasGlobalPermission_ev a0 a1 : query_rel evolves (UserHasGlobalPermission a0 a1).
Proof. solve_evolves. Qed.
Lemma UserHasGroupPermission_ev a0 a1 a2 : query_rel evolves (UserHasGroupPermission a0 a1 a2).
Proof. solve_evolves. Qed.
Lemma UserHasHostPermission_ev a0 a1 a2 : query_rel evolves (UserHasHostPermission a0 a1 a2).
Proof. solve_evolves. Qed.
Lemma UserHasSecretPermission_ev a0 a1 a2 : query_rel evolves (UserHasSecretPermission a0 a1 a2).
Proof. solve_evolves. Qed.
Lemma UserHasSetPermission_ev a0 a1 a2 : query_rel evolves (UserHasSetPermission a0 a1 a2).
Proof. solve_evolves. Qed.
Lemma ListGlobalPermissions_ev `{Collation} : query_rel evolves ListGlobalPermissions.
Proof. solve_evolves. Qed.
Lemma ListUserGlobalPermissions_ev `{Collation} a0 : query_rel evolves (ListUserGlobalPermissions a0).
Proof. solve_evolves. Qed.
Lemma HostAccessKeys_ev a0 : query_rel evolves (HostAccessKeys a0).
Proof. solve_evolves. Qed.
Lemma UserGrantedHostIDs_ev a0 : query_rel evolves (UserGrantedHostIDs a0).
Proof. solve_evolves. Qed.
Lemma CreateGrant_ev a0 a1 a2 a3 a4 : query_rel evolves (CreateGrant a0 a1 a2 a3 a4).
Proof. solve_evolves. Qed.
Lemma GroupHostIDs_ev a0 : query_rel evolves (GroupHostIDs a0).
Proof. solve_evolves. Qed.
Lemma InsertGrantAudit_ev a0 a1 a2 a3 a4 a5 a6 a7 a8 : query_rel evolves (InsertGrantAudit a0 a1 a2 a3 a4 a5 a6 a7 a8).
Proof. solve_evolves. Qed.
Lemma RevokeGrant_ev a0 : query_rel evolves (RevokeGrant a0).
Proof. solve_evolves. Qed.
Lemma ListGrants_ev : query_rel evolves ListGrants.
Proof. solve_evolves. Qed.
Lemma CreateHost_ev a0 a1 a2 a3 a4 a5 : query_rel evolves (CreateHost a0 a1 a2 a3 a4 a5).
Proof. solve_evolves. Qed.
Lemma GetActiveHostByMachineID_ev a0 : query_rel evolves (GetActiveHostByMachineID a0).
Proof. solve_evolves. Qed.
Lemma GetHostByID_ev a0 : query_rel evolves (GetHostByID a0).
Proof. solve_evolves. Qed.
Lemma ListActiveHosts_ev `{Collation} : query_rel evolves ListActiveHosts.
Proof. solve_evolves. Qed.
Lemma ListHosts_ev `{Collation} : query_rel evolves ListHosts.
Proof. solve_evolves. Qed.
Lemma ListReadableHosts_ev `{Collation} a0 : query_rel evolves (ListReadableHosts a0).
Proof. solve_evolves. Qed.
Lemma NextHostSeq_ev a0 : query_rel evolves (NextHostSeq a0).
Proof.
  solve_evolves. intros k Hk ? ?.
  match goal with H : Forall (λ h, Host_ID h = _ → _) _ |- _ =>
    rewrite Forall_forall in H; specialize (H k Hk) end.
  unfold host_seq_ok, int64_max in *. simpl. lia.
Qed.
Lemma NextHostSetSeq_ev a0 : query_rel evolves (NextHostSetSeq a0).
Proof.
  solve_evolves. intros k Hk ? ?.
  match goal with H : Forall (λ h, Host_ID h = _ → _) _ |- _ =>
    rewrite Forall_forall in H; specialize (H k Hk) end.
  unfold host_seq_ok, int64_max in *. simpl. lia.
Qed.
Lemma SetHostDesiredVersion_ev a0 a1 : query_rel evolves (SetHostDesiredVersion a0 a1).
Proof. solve_evolves. Qed.
(** The only status the sources set is [revoked]. *)
Lemma SetHostStatus_ev a0 : query_rel evolves (SetHostStatus a0 "revoked").
Proof. solve_evolves. Qed.
Lemma SetHostVersion_ev a0 a1 : query_rel evolves (SetHostVersion a0 a1).
Proof. solve_evolves. Qed.
Lemma TouchHostSeen_ev a0 : query_rel evolves (TouchHostSeen a0).
Proof. solve_evolves. Qed.
Lemma CreateEnrollmentToken_ev a0 a1 a2 a3 a4 : query_rel evolves (CreateEnrollmentToken a0 a1 a2 a3 a4).
Proof. solve_evolves. Qed.
Lemma GetEnrollmentToken_ev a0 : query_rel evolves (GetEnrollmentToken a0).
Proof. solve_evolves. Qed.
Lemma MarkTokenUsed_ev a0 a1 : query_rel evolves (MarkTokenUsed a0 a1).
Proof. solve_evolves. Qed.
Lemma AddGroupResource_ev a0 a1 a2 : query_rel evolves (AddGroupResource a0 a1 a2).
Proof. solve_evolves. Qed.
Lemma CreateGroup_ev a0 a1 : query_rel evolves (CreateGroup a0 a1).
Proof. solve_evolves. Qed.
Lemma DeleteGroup_ev a0 : query_rel evolves (DeleteGroup a0).
Proof. solve_evolves. Qed.
Lemma GetGroup_ev a0 : query_rel evolves (GetGroup a0).
Proof. solve_evolves. Qed.
Lemma ListGroupMembers_ev `{Collation} a0 : query_rel evolves (ListGroupMembers a0).
Proof. solve_evolves. Qed.
Lemma ListGroups_ev `{Collation} : query_rel evolves ListGroups.
Proof. solve_evolves. Qed.
Lemma ListGroupsForResource_ev `{Collation} a0 a1 : query_rel evolves (ListGroupsForResource a0 a1).
Proof. solve_evolves. Qed.
Lemma ListReadableGroups_ev `{Collation} a0 : query_rel evolves (ListReadableGroups a0).
Proof. solve_evolves. Qed.
Lemma ListReadableGroupsForResource_ev `{Collation} a0 a1 a2 : query_rel evolves (ListReadableGroupsForResource a0 a1 a2).
Proof. solve_evolves. Qed.
Lemma RemoveGroupResource_ev a0 a1 a2 : query_rel evolves (RemoveGroupResource a0 a1 a2).
Proof. solve_evolves. Qed.
Lemma RevokeGroupGrants_ev a0 : query_rel evolves (RevokeGroupGrants a0).
Proof. solve_evolves. Qed.
Lemma UpdateGroup_ev a0 a1 a2 : query_rel evolves (UpdateGroup a0 a1 a2).
Proof. solve_evolves. Qed.

#[export] Hint Resolve UserHasGlobalPermission_ev UserHasGroupPermission_ev UserHasHostPermission_ev
  UserHasSecretPermission_ev UserHasSetPermission_ev ListGlobalPermissions_ev
  ListUserGlobalPermissions_ev HostAccessKeys_ev UserGrantedHostIDs_ev CreateGrant_ev
  GroupHostIDs_ev InsertGrantAudit_ev RevokeGrant_ev ListGrants_ev CreateHost_ev
  GetActiveHostByMachineID_ev GetHostByID_ev ListActiveHosts_ev ListHosts_ev
  ListReadableHosts_ev NextHostSeq_ev NextHostSetSeq_ev SetHostDesiredVersion_ev
  SetHostStatus_ev SetHostVersion_ev TouchHostSeen_ev CreateEnrollmentToken_ev
  GetEnrollmentToken_ev MarkTokenUsed_ev AddGroupResource_ev CreateGroup_ev DeleteGroup_ev
  GetGroup_ev ListGroupMembers_ev ListGroups_ev ListGroupsForResource_ev
  ListReadableGroups_ev ListReadableGroupsForResource_ev RemoveGroupResource_ev
  RevokeGroupGrants_ev UpdateGroup_ev : evolve.
