(* ===== verification/QSecrets.v ===== *)
(** The generated query functions on vault secrets, machine secret sets and
    SSH access logs: [internal/controlplane/db/{secrets,secret_sets,
    access_logs}.sql.go]. *)
From S2P Require Import Prelude Text Schema Evolve QAccess.

(** ** secrets.sql.go *)

Definition CreateSecret (Label : string) (Url Username OtpRecipient : option string)
    (Ciphertext Nonce WrappedKey : option bytes) (CreatedBy UpdatedBy : option uuid) :
    Query Secret := λ now id,
  let row := {| Secret_ID := id; Secret_Label := Label; Secret_Url := Url;
                Secret_Username := Username; Secret_OtpRecipient := OtpRecipient;
                Secret_Ciphertext := Ciphertext; Secret_Nonce := Nonce;
                Secret_WrappedKey := WrappedKey; Secret_CreatedBy := CreatedBy;
                Secret_UpdatedBy := UpdatedBy; Secret_CreatedAt := now;
                Secret_UpdatedAt := now |} in
  check (λ d, id ∉ Secret_ID <$> secrets d) unique_violation $
  check (λ d, opt_ref CreatedBy (User_ID <$> users d)) foreign_key_violation $
  check (λ d, opt_ref UpdatedBy (User_ID <$> users d)) foreign_key_violation $
  returning row (on_secrets (λ l, l ++ [row])).

Definition DeleteSecret (id : uuid) : Query unit := λ _ _,
  execute (on_secrets (delete_where (λ s, Secret_ID s = id))).

(** [left join users u on u.id = o]: the user's row, if there is one. *)
Definition join_user (o : option uuid) (d : DB) : option User :=
  id ← o; first_row (λ u, User_ID u = id) (users d).

(** A secret with the rows of the users who created and last updated it; the
    Go row has their name, display name and e-mail. *)
Record GetSecretRow := {
  GetSecretRow_Secret : Secret; GetSecretRow_CreatedByUser : option User;
  GetSecretRow_UpdatedByUser : option User }.

Definition secret_row (d : DB) (s : Secret) : GetSecretRow :=
  {| GetSecretRow_Secret := s; GetSecretRow_CreatedByUser := join_user (Secret_CreatedBy s) d;
     GetSecretRow_UpdatedByUser := join_user (Secret_UpdatedBy s) d |}.

Definition GetSecret (id : uuid) : Query GetSecretRow := λ _ _,
  select_one (λ d, secret_row d <$> first_row (λ s, Secret_ID s = id) (secrets d)).

Definition InsertSecretAudit (SecretID : option uuid) (SecretName Action : string)
    (UserID : option uuid) : Query unit := λ now id,
  let row := {| SecretAuditLog_ID := id; SecretAuditLog_SecretID := SecretID;
                SecretAuditLog_SecretName := SecretName; SecretAuditLog_Action := Action;
                SecretAuditLog_UserID := UserID; SecretAuditLog_At := now |} in
  check (λ _, Action ∈ secret_actions) check_violation $
  check (λ d, id ∉ SecretAuditLog_ID <$> secret_audit_logs d) unique_violation $
  execute (on_secret_audit_logs (λ l, l ++ [row])).

Definition ListAllSecrets `{Collation} : Query (list GetSecretRow) := λ _ _,
  select (λ d, secret_row d <$> order_by (by_text Secret_Label) (secrets d)).

Definition ListReadableSecrets `{Collation} (userID : uuid) : Query (list GetSecretRow) := λ _ _,
  select (λ d, secret_row d <$> order_by (by_text Secret_Label) (remove_dups (
    s ← secrets d;
    g ← filter (λ g, Grant_Permission g = "secret.read" ∧ live g ∧
                     reaches d "secret" (Secret_ID s) g ∧ Grant_UserID g = userID) (grants d);
    [s]))).

Definition secret_log_rows (P : SecretAuditLog → Prop) `{∀ x, Decision (P x)} (d : DB) :
    list (SecretAuditLog * option User) :=
  (λ a, (a, join_user (SecretAuditLog_UserID a) d)) <$>
    order_by (by_time_desc SecretAuditLog_At) (filter P (secret_audit_logs d)).

Definition ListAllSecretAudit (limit : Z) : Query (list (SecretAuditLog * option User)) := λ _ _,
  select (λ d, take (Z.to_nat limit) (secret_log_rows (λ _, True) d)).

Definition ListSecretAudit (secretID : uuid) : Query (list (SecretAuditLog * option User)) := λ _ _,
  select (secret_log_rows (λ a, SecretAuditLog_SecretID a = Some secretID)).

Definition UpdateSecret (ID : uuid) (Label : string) (Url Username OtpRecipient : option string)
    (Ciphertext Nonce WrappedKey : option bytes) (UpdatedBy : option uuid) : Query Secret := λ now _,
  let edit s :=
    set_Secret_Label Label (set_Secret_Url Url (set_Secret_Username Username
      (set_Secret_OtpRecipient OtpRecipient (set_Secret_Ciphertext Ciphertext
        (set_Secret_Nonce Nonce (set_Secret_WrappedKey WrappedKey
          (set_Secret_UpdatedBy UpdatedBy (set_Secret_UpdatedAt now s)))))))) in
  check (λ d, opt_ref UpdatedBy (User_ID <$> users d) ∨ ID ∉ Secret_ID <$> secrets d)
    foreign_key_violation $
  update_returning (λ d, first_row (λ s, Secret_ID s = ID) (secrets d)) edit
    (on_secrets (update_where (λ s, Secret_ID s = ID) edit)).

(** ** secret_sets.sql.go *)

Definition BindSet (HostID SetID : uuid) (AsUser : option string) (GrantedBy : option uuid) :
    Query unit := λ now _,
  let row := {| HostSetBinding_HostID := HostID; HostSetBinding_SetID := SetID;
                HostSetBinding_AsUser := AsUser; HostSetBinding_GrantedBy := GrantedBy;
                HostSetBinding_CreatedAt := now; HostSetBinding_RevokedAt := None |} in
  let rebind b := set_HostSetBinding_AsUser AsUser (set_HostSetBinding_GrantedBy GrantedBy
                    (set_HostSetBinding_RevokedAt None b)) in
  check (λ d, HostID ∈ Host_ID <$> hosts d) foreign_key_violation $
  check (λ d, SetID ∈ SecretSet_ID <$> secret_sets d) foreign_key_violation $
  check (λ d, opt_ref GrantedBy (User_ID <$> users d)) foreign_key_violation $
  (λ d, if decide (HostSetBinding_key row ∈ HostSetBinding_key <$> host_set_bindings d)
        then execute (on_host_set_bindings
               (update_where (λ b, HostSetBinding_key b = HostSetBinding_key row) rebind)) d
        else execute (on_host_set_bindings (λ l, l ++ [row])) d).

Definition CreateSet (Name : string) (CreatedBy : option uuid) : Query SecretSet := λ now id,
  let row := {| SecretSet_ID := id; SecretSet_Name := Name; SecretSet_CreatedBy := CreatedBy;
                SecretSet_CreatedAt := now; SecretSet_UpdatedAt := now |} in
  check (λ d, id ∉ SecretSet_ID <$> secret_sets d) unique_violation $
  check (λ d, Name ∉ SecretSet_Name <$> secret_sets d) unique_violation $
  check (λ d, opt_ref CreatedBy (User_ID <$> users d)) foreign_key_violation $
  returning row (on_secret_sets (λ l, l ++ [row])).

Definition new_entry (now : Z) (SetID : uuid) (Key : string) (Ciphertext Nonce WrappedKey : bytes) :
    SecretSetEntry :=
  {| SecretSetEntry_SetID := SetID; SecretSetEntry_Key := Key;
     SecretSetEntry_Ciphertext := Ciphertext; SecretSetEntry_Nonce := Nonce;
     SecretSetEntry_WrappedKey := WrappedKey; SecretSetEntry_CreatedAt := now;
     SecretSetEntry_UpdatedAt := now |}.

Definition CreateSetEntry (SetID : uuid) (Key : string) (Ciphertext Nonce WrappedKey : bytes) :
    Query unit := λ now _,
  let row := new_entry now SetID Key Ciphertext Nonce WrappedKey in
  check (λ d, (SetID, Key) ∉ SecretSetEntry_key <$> secret_set_entries d) unique_violation $
  check (λ d, SetID ∈ SecretSet_ID <$> secret_sets d) foreign_key_violation $
  execute (on_secret_set_entries (λ l, l ++ [row])).

(** Entries and bindings are deleted with their set ([on delete cascade]). *)
Definition DeleteSet (id : uuid) : Query Z := λ _ _,
  execrows (λ d, count_where (λ s, SecretSet_ID s = id) (secret_sets d))
    (λ d, on_secret_set_entries (delete_where (λ e, SecretSetEntry_SetID e = id))
            (on_host_set_bindings (delete_where (λ b, HostSetBinding_SetID b = id))
              (on_secret_sets (delete_where (λ s, SecretSet_ID s = id)) d))).

Definition DeleteSetEntries (setID : uuid) : Query unit := λ _ _,
  execute (on_secret_set_entries (delete_where (λ e, SecretSetEntry_SetID e = setID))).

Definition DeleteSetEntry (SetID : uuid) (Key : string) : Query Z := λ _ _,
  let row e := SecretSetEntry_SetID e = SetID ∧ SecretSetEntry_Key e = Key in
  execrows (λ d, count_where row (secret_set_entries d)) (on_secret_set_entries (delete_where row)).

Definition GetSet (id : uuid) : Query SecretSet := λ _ _,
  select_one (λ d, first_row (λ s, SecretSet_ID s = id) (secret_sets d)).

Definition GetSetByName (name : string) : Query SecretSet := λ _ _,
  select_one (λ d, first_row (λ s, SecretSet_Name s = name) (secret_sets d)).

Definition GetSetEntries `{Collation} (setID : uuid) : Query (list SecretSetEntry) := λ _ _,
  select (λ d, order_by (by_text SecretSetEntry_Key)
    (filter (λ e, SecretSetEntry_SetID e = setID) (secret_set_entries d))).

Definition HostsForSet (setID : uuid) : Query (list uuid) := λ _ _,
  select (λ d, HostSetBinding_HostID <$>
    filter (λ b, HostSetBinding_SetID b = setID ∧ HostSetBinding_RevokedAt b = None)
      (host_set_bindings d)).

Definition InsertSetAudit (SetID : option uuid) (SetName : string) (EntryKey : option string)
    (HostID : option uuid) (Action : string) (Actor : option uuid) : Query unit := λ now id,
  let row := {| SetAuditLog_ID := id; SetAuditLog_SetID := SetID; SetAuditLog_SetName := SetName;
                SetAuditLog_EntryKey := EntryKey; SetAuditLog_HostID := HostID;
                SetAuditLog_Action := Action; SetAuditLog_Actor := Actor;
                SetAuditLog_At := now |} in
  check (λ _, Action ∈ set_actions) check_violation $
  check (λ d, id ∉ SetAuditLog_ID <$> set_audit_logs d) unique_violation $
  execute (on_set_audit_logs (λ l, l ++ [row])).

Definition ListSetKeys `{Collation} (setID : uuid) : Query (list string) := λ _ _,
  select (λ d, SecretSetEntry_Key <$> order_by (by_text SecretSetEntry_Key)
    (filter (λ e, SecretSetEntry_SetID e = setID) (secret_set_entries d))).

(** [left join (select set_id, count( * ) ... group by set_id)]: a set with the
    number of its entries. *)
Record ListSetsRow := { ListSetsRow_Set : SecretSet; ListSetsRow_KeyCount : Z }.
#[export] Instance ListSetsRow_eq_dec : EqDecision ListSetsRow.
Proof. solve_decision. Defined.
Definition set_with_count (d : DB) (ss : SecretSet) : ListSetsRow :=
  {| ListSetsRow_Set := ss;
     ListSetsRow_KeyCount :=
       count_where (λ e, SecretSetEntry_SetID e = SecretSet_ID ss) (secret_set_entries d) |}.
Definition by_set_name (r : ListSetsRow) : string := SecretSet_Name (ListSetsRow_Set r).

Definition ListSets `{Collation} : Query (list ListSetsRow) := λ _ _,
  select (λ d, order_by (by_text by_set_name) (set_with_count d <$> secret_sets d)).

Definition ListReadableSets `{Collation} (userID : uuid) : Query (list ListSetsRow) := λ _ _,
  select (λ d, order_by (by_text by_set_name) (remove_dups (
    ss ← secret_sets d;
    g ← filter (λ g, Grant_Permission g = "set.read" ∧ live g ∧
                     reaches d "set" (SecretSet_ID ss) g ∧ Grant_UserID g = userID) (grants d);
    [set_with_count d ss]))).

Record ListHostsForSetRow := {
  ListHostsForSetRow_Host : Host; ListHostsForSetRow_AsUser : option string;
  ListHostsForSetRow_BoundAt : Z }.
Definition by_host_name (r : ListHostsForSetRow) : string := Host_Name (ListHostsForSetRow_Host r).

Definition ListHostsForSet `{Collation} (setID : uuid) : Query (list ListHostsForSetRow) := λ _ _,
  select (λ d, order_by (by_text by_host_name) (
    b ← filter (λ b, HostSetBinding_SetID b = setID ∧ HostSetBinding_RevokedAt b = None)
          (host_set_bindings d);
    h ← filter (λ h, Host_ID h = HostSetBinding_HostID b) (hosts d);
    [{| ListHostsForSetRow_Host := h; ListHostsForSetRow_AsUser := HostSetBinding_AsUser b;
        ListHostsForSetRow_BoundAt := HostSetBinding_CreatedAt b |}])).

Definition ListSetAudit (SetID : uuid) (SetName : string) :
    Query (list (SetAuditLog * option User)) := λ _ _,
  select (λ d, take 100 ((λ a, (a, join_user (SetAuditLog_Actor a) d)) <$>
    order_by (by_time_desc SetAuditLog_At)
      (filter (λ a, SetAuditLog_SetID a = Some SetID ∨
                    (SetAuditLog_SetID a = None ∧ SetAuditLog_SetName a = SetName))
        (set_audit_logs d)))).

Record SetsForHostRow := {
  SetsForHostRow_ID : uuid; SetsForHostRow_Name : string; SetsForHostRow_UpdatedAt : Z;
  SetsForHostRow_AsUser : option string }.

Definition SetsForHost `{Collation} (hostID : uuid) : Query (list SetsForHostRow) := λ _ _,
  select (λ d, order_by (by_text SetsForHostRow_Name) (
    b ← filter (λ b, HostSetBinding_HostID b = hostID ∧ HostSetBinding_RevokedAt b = None)
          (host_set_bindings d);
    ss ← filter (λ s, SecretSet_ID s = HostSetBinding_SetID b) (secret_sets d);
    [{| SetsForHostRow_ID := SecretSet_ID ss; SetsForHostRow_Name := SecretSet_Name ss;
        SetsForHostRow_UpdatedAt := SecretSet_UpdatedAt ss;
        SetsForHostRow_AsUser := HostSetBinding_AsUser b |}])).

Definition TouchSet (id : uuid) : Query unit := λ now _,
  execute (on_secret_sets (update_where (λ s, SecretSet_ID s = id) (set_SecretSet_UpdatedAt now))).

Definition UnbindSet (HostID SetID : uuid) : Query Z := λ _ _,
  let row b := HostSetBinding_HostID b = HostID ∧ HostSetBinding_SetID b = SetID in
  execrows (λ d, count_where row (host_set_bindings d)) (on_host_set_bindings (delete_where row)).

Definition UpdateSetName (ID : uuid) (Name : string) : Query SecretSet := λ now _,
  let rename s := set_SecretSet_Name Name (set_SecretSet_UpdatedAt now s) in
  let update := update_where (λ s, SecretSet_ID s = ID) rename in
  check (λ d, NoDup (SecretSet_Name <$> update (secret_sets d))) unique_violation $
  update_returning (λ d, first_row (λ s, SecretSet_ID s = ID) (secret_sets d)) rename
    (on_secret_sets update).

Definition UpsertSetEntry (SetID : uuid) (Key : string) (Ciphertext Nonce WrappedKey : bytes) :
    Query unit := λ now _,
  let row := new_entry now SetID Key Ciphertext Nonce WrappedKey in
  let edit e := set_SecretSetEntry_Ciphertext Ciphertext (set_SecretSetEntry_Nonce Nonce
                  (set_SecretSetEntry_WrappedKey WrappedKey (set_SecretSetEntry_UpdatedAt now e))) in
  check (λ d, SetID ∈ SecretSet_ID <$> secret_sets d) foreign_key_violation $
  (λ d, if decide ((SetID, Key) ∈ SecretSetEntry_key <$> secret_set_entries d)
        then execute (on_secret_set_entries
               (update_where (λ e, SecretSetEntry_key e = (SetID, Key)) edit)) d
        else execute (on_secret_set_entries (λ l, l ++ [row])) d).

(** ** groups.sql.go, the join on the resources

    A membership row with the host, secret or set it names, when there is one. *)
Record ListGroupResourcesRow := {
  ListGroupResourcesRow_Member : GroupResource; ListGroupResourcesRow_Host : option Host;
  ListGroupResourcesRow_Secret : option Secret; ListGroupResourcesRow_Set : option ListSetsRow }.

Definition group_resource_row (d : DB) (m : GroupResource) : ListGroupResourcesRow :=
  let kind := GroupResource_ResourceKind m in
  let id := GroupResource_ResourceID m in
  {| ListGroupResourcesRow_Member := m;
     ListGroupResourcesRow_Host := first_row (λ h, kind = "host" ∧ Host_ID h = id) (hosts d);
     ListGroupResourcesRow_Secret := first_row (λ s, kind = "secret" ∧ Secret_ID s = id) (secrets d);
     ListGroupResourcesRow_Set :=
       set_with_count d <$> first_row (λ s, kind = "set" ∧ SecretSet_ID s = id) (secret_sets d) |}.

Definition ListGroupResources (groupID : uuid) : Query (list ListGroupResourcesRow) := λ _ _,
  select (λ d, group_resource_row d <$> order_by (by_time GroupResource_AddedAt)
    (filter (λ m, GroupResource_GroupID m = groupID) (group_resources d))).

(** ** access_logs.sql.go *)

Definition GetPublicKeyByFingerprint (fingerprint : string) : Query PublicKey := λ _ _,
  select_one (λ d, first_row (λ k, PublicKey_Fingerprint k = fingerprint) (public_keys d)).

Definition InsertSSHAccessLog (HostID : uuid) (Hostname : string) (PublicKeyID : option uuid)
    (Account : string) (Allowed : bool) (At : Z) (Fingerprint : string) : Query unit := λ _ id,
  let row := {| SshAccessLog_ID := id; SshAccessLog_HostID := HostID;
                SshAccessLog_Hostname := Hostname; SshAccessLog_PublicKeyID := PublicKeyID;
                SshAccessLog_Account := Account; SshAccessLog_Allowed := Allowed;
                SshAccessLog_At := pg_time At; SshAccessLog_Fingerprint := Fingerprint |} in
  check (λ d, id ∉ SshAccessLog_ID <$> ssh_access_logs d) unique_violation $
  execute (on_ssh_access_logs (λ l, l ++ [row])).

(** ** Every query evolves the database *)

Lemma CreateSecret_ev a0 a1 a2 a3 a4 a5 a6 a7 a8 : query_rel evolves (CreateSecret a0 a1 a2 a3 a4 a5 a6 a7 a8).
Proof. solve_evolves. Qed.
Lemma DeleteSecret_ev a0 : query_rel evolves (DeleteSecret a0).
Proof. solve_evolves. Qed.
Lemma GetSecret_ev a0 : query_rel evolves (GetSecret a0).
Proof. solve_evolves. Qed.
Lemma InsertSecretAudit_ev a0 a1 a2 a3 : query_rel evolves (InsertSecretAudit a0 a1 a2 a3).
Proof. solve_evolves. Qed.
Lemma ListAllSecrets_ev `{Collation} : query_rel evolves ListAllSecrets.
Proof. solve_evolves. Qed.
Lemma ListReadableSecrets_ev `{Collation} a0 : query_rel evolves (ListReadableSecrets a0).
Proof. solve_evolves. Qed.
Lemma ListAllSecretAudit_ev a0 : query_rel evolves (ListAllSecretAudit a0).
Proof. solve_evolves. Qed.
Lemma ListSecretAudit_ev a0 : query_rel evolves (ListSecretAudit a0).
Proof. solve_evolves. Qed.
Lemma UpdateSecret_ev a0 a1 a2 a3 a4 a5 a6 a7 a8 : query_rel evolves (UpdateSecret a0 a1 a2 a3 a4 a5 a6 a7 a8).
Proof. solve_evolves. Qed.
Lemma BindSet_ev a0 a1 a2 a3 : query_rel evolves (BindSet a0 a1 a2 a3).
Proof. solve_evolves. Qed.
Lemma CreateSet_ev a0 a1 : query_rel evolves (CreateSet a0 a1).
Proof. solve_evolves. Qed.
Lemma CreateSetEntry_ev a0 a1 a2 a3 a4 : query_rel evolves (CreateSetEntry a0 a1 a2 a3 a4).
Proof. solve_evolves. Qed.
Lemma DeleteSet_ev a0 : query_rel evolves (DeleteSet a0).
Proof. solve_evolves. Qed.
Lemma DeleteSetEntries_ev a0 : query_rel evolves (DeleteSetEntries a0).
Proof. solve_evolves. Qed.
Lemma DeleteSetEntry_ev a0 a1 : query_rel evolves (DeleteSetEntry a0 a1).
Proof. solve_evolves. Qed.
Lemma GetSet_ev a0 : query_rel evolves (GetSet a0).
Proof. solve_evolves. Qed.
Lemma GetSetByName_ev a0 : query_rel evolves (GetSetByName a0).
Proof. solve_evolves. Qed.
Lemma GetSetEntries_ev `{Collation} a0 : query_rel evolves (GetSetEntries a0).
Proof. solve_evolves. Qed.
Lemma HostsForSet_ev a0 : query_rel evolves (HostsForSet a0).
Proof. solve_evolves. Qed.
Lemma InsertSetAudit_ev a0 a1 a2 a3 a4 a5 : query_rel evolves (InsertSetAudit a0 a1 a2 a3 a4 a5).
Proof. solve_evolves. Qed.
Lemma ListSetKeys_ev `{Collation} a0 : query_rel evolves (ListSetKeys a0).
Proof. solve_evolves. Qed.
Lemma ListSets_ev `{Collation} : query_rel evolves ListSets.
Proof. solve_evolves. Qed.
Lemma ListReadableSets_ev `{Collation} a0 : query_rel evolves (ListReadableSets a0).
Proof. solve_evolves. Qed.
Lemma ListHostsForSet_ev `{Collation} a0 : query_rel evolves (ListHostsForSet a0).
Proof. solve_evolves. Qed.
Lemma ListSetAudit_ev a0 a1 : query_rel evolves (ListSetAudit a0 a1).
Proof. solve_evolves. Qed.
Lemma SetsForHost_ev `{Collation} a0 : query_rel evolves (SetsForHost a0).
Proof. solve_evolves. Qed.
Lemma TouchSet_ev a0 : query_rel evolves (TouchSet a0).
Proof. solve_evolves. Qed.
Lemma UnbindSet_ev a0 a1 : query_rel evolves (UnbindSet a0 a1).
Proof. solve_evolves. Qed.
Lemma UpdateSetName_ev a0 a1 : query_rel evolves (UpdateSetName a0 a1).
Proof. solve_evolves. Qed.
Lemma UpsertSetEntry_ev a0 a1 a2 a3 a4 : query_rel evolves (UpsertSetEntry a0 a1 a2 a3 a4).
Proof. solve_evolves. Qed.
Lemma ListGroupResources_ev a0 : query_rel evolves (ListGroupResources a0).
Proof. solve_evolves. Qed.
Lemma GetPublicKeyByFingerprint_ev a0 : query_rel evolves (GetPublicKeyByFingerprint a0).
Proof. solve_evolves. Qed.
Lemma InsertSSHAccessLog_ev a0 a1 a2 a3 a4 a5 a6 : query_rel evolves (InsertSSHAccessLog a0 a1 a2 a3 a4 a5 a6).
Proof. solve_evolves. Qed.

#[export] Hint Resolve CreateSecret_ev DeleteSecret_ev GetSecret_ev InsertSecretAudit_ev ListAllSecrets_ev
  ListReadableSecrets_ev ListAllSecretAudit_ev ListSecretAudit_ev UpdateSecret_ev
  BindSet_ev CreateSet_ev CreateSetEntry_ev DeleteSet_ev DeleteSetEntries_ev
  DeleteSetEntry_ev GetSet_ev GetSetByName_ev GetSetEntries_ev HostsForSet_ev
  InsertSetAudit_ev ListSetKeys_ev ListSets_ev ListReadableSets_ev ListHostsForSet_ev
  ListSetAudit_ev SetsForHost_ev TouchSet_ev UnbindSet_ev UpdateSetName_ev
  UpsertSetEntry_ev ListGroupResources_ev GetPublicKeyByFingerprint_ev
  InsertSSHAccessLog_ev : evolve.
