(* ===== verification/QAudit.v ===== *)
(** The generated query functions of the audit listings: who can reach a
    resource ([internal/controlplane/db/permissions.sql.go]), the pages of a
    host's access log ([access_logs.sql.go]) and the log of grant changes
    ([grants.sql.go]).

    A row of a join holds the rows it joins; the Go row has a selection of
    their columns. *)
From S2P Require Import Prelude Text Schema Evolve QAccess QSecrets.

(** ** Ordering on several columns *)

(** [order by key, ...]: [le2] decides between rows with the same key. *)
Definition by_then {A K} `{EqDecision K} (key : A → K) (le1 le2 : A → A → Prop) (x y : A) : Prop :=
  if decide (key x = key y) then le2 x y else le1 x y.
#[export] Instance by_then_dec {A K} `{EqDecision K} (key : A → K) (le1 le2 : A → A → Prop)
  `{∀ x y, Decision (le1 x y)} `{∀ x y, Decision (le2 x y)} x y : Decision (by_then key le1 le2 x y).
Proof. unfold by_then. case_decide; apply _. Defined.

(** UUIDs compare as their bytes do. *)
Definition by_uuid {A} (key : A → uuid) (x y : A) : Prop := (key x ≤ key y)%N.
#[export] Instance by_uuid_dec {A} (key : A → uuid) x y : Decision (by_uuid key x y).
Proof. unfold by_uuid. apply _. Defined.
Definition by_uuid_desc {A} (key : A → uuid) (x y : A) : Prop := (key y ≤ key x)%N.
#[export] Instance by_uuid_desc_dec {A} (key : A → uuid) x y : Decision (by_uuid_desc key x y).
Proof. unfold by_uuid_desc. apply _. Defined.

(** ** permissions.sql.go: who can reach a resource *)

Definition ListActiveAdmins `{Collation} : Query (list User) := λ _ _,
  select (λ d, order_by (by_text User_Email)
    (filter (λ u, User_Role u = "admin" ∧ User_Status u = "active") (users d))).

Record ListHostAccessPathsForUsersRow := {
  path_UserID : uuid; path_GrantID : uuid; path_Permission : string; path_CreatedAt : Z;
  path_Via : string; path_GroupID : option uuid; path_GroupName : string }.

Definition direct_path (g : Grant) : ListHostAccessPathsForUsersRow :=
  {| path_UserID := Grant_UserID g; path_GrantID := Grant_ID g;
     path_Permission := Grant_Permission g; path_CreatedAt := Grant_CreatedAt g;
     path_Via := "direct"; path_GroupID := None; path_GroupName := "" |}.
Definition group_path (g : Grant) (rg : ResourceGroup) : ListHostAccessPathsForUsersRow :=
  {| path_UserID := Grant_UserID g; path_GrantID := Grant_ID g;
     path_Permission := Grant_Permission g; path_CreatedAt := Grant_CreatedAt g;
     path_Via := "group"; path_GroupID := Some (ResourceGroup_ID rg);
     path_GroupName := ResourceGroup_Name rg |}.

(** [join resource_groups rg on rg.id = g.target_id] *)
Definition joined_groups (g : Grant) (d : DB) : list ResourceGroup :=
  filter (λ rg, Grant_TargetID g = Some (ResourceGroup_ID rg)) (resource_groups d).

Definition host_paths (hostID : uuid) (userIDs : list uuid) (d : DB) :
    list ListHostAccessPathsForUsersRow :=
  (g ← filter (λ g, live g ∧ Grant_Permission g = "host.access" ∧ Grant_TargetKind g = "host" ∧
                    Grant_TargetID g = Some hostID ∧ Grant_UserID g ∈ userIDs) (grants d);
   [direct_path g]) ++
  (g ← filter (λ g, live g ∧ Grant_Permission g = "host.access" ∧ Grant_TargetKind g = "group" ∧
                    Grant_UserID g ∈ userIDs) (grants d);
   rg ← filter (λ rg, ResourceGroup_ID rg ∈ groups_of "host" hostID d) (joined_groups g d);
   [group_path g rg]).

(** [order by user_id, via, group_name, created_at, grant_id] *)
Definition path_le `{Collation} : relation ListHostAccessPathsForUsersRow :=
  by_then path_UserID (by_uuid path_UserID)
    (by_then path_Via (by_text path_Via)
      (by_then path_GroupName (by_text path_GroupName)
        (by_then path_CreatedAt (by_time path_CreatedAt) (by_uuid path_GrantID)))).
#[export] Instance path_le_dec `{Collation} x y : Decision (path_le x y).
Proof. unfold path_le. apply _. Defined.

Definition ListHostAccessPathsForUsers `{Collation} (HostID : uuid) (UserIds : list uuid) :
    Query (list ListHostAccessPathsForUsersRow) := λ _ _,
  select (λ d, order_by path_le (host_paths HostID UserIds d)).

(** The common table expression [access_users]. *)
Definition access_users (hostID : uuid) (d : DB) : list User :=
  remove_dups (
    g ← filter (λ g, live g ∧ Grant_Permission g = "host.access" ∧ reaches d "host" hostID g)
          (grants d);
    filter (λ u, User_ID u = Grant_UserID g ∧ User_Status u = "active") (users d)).

(** The fingerprints of a user's keys, in order. *)
Definition user_fingerprints `{Collation} (u : User) (d : DB) : list string :=
  order_by (by_text id) (PublicKey_Fingerprint <$>
    filter (λ pk, PublicKey_UserID pk = User_ID u) (public_keys d)).

Record ListHostAccessUsersRow := {
  accessUser_User : User; accessUser_Fingerprints : list string }.

(** [order by email, user_id], and the row comparison
    [(email, user_id) > (CursorEmail, CursorID)]: on equal e-mails a null id
    compares as null. *)
Definition user_key_le `{Collation} : relation User :=
  by_then User_Email (by_text User_Email) (by_uuid User_ID).
#[export] Instance user_key_le_dec `{Collation} x y : Decision (user_key_le x y).
Proof. unfold user_key_le. apply _. Defined.
Definition user_after `{Collation} (email : string) (id : option uuid) (u : User) : Prop :=
  if decide (email = User_Email u) then match id with Some i => (i < User_ID u)%N | None => False end
  else text_le email (User_Email u) = true.
#[export] Instance user_after_dec `{Collation} email id u : Decision (user_after email id u).
Proof. unfold user_after. case_decide; [destruct id|]; apply _. Defined.

(** [array_agg(distinct pk.fingerprint order by pk.fingerprint)] *)
Definition ListHostAccessUsers `{Collation} (CursorEmail : string) (CursorID : option uuid)
    (PageLimit : Z) (HostID : uuid) : Query (list ListHostAccessUsersRow) := λ _ _,
  select (λ d, (λ u, {| accessUser_User := u;
                        accessUser_Fingerprints := remove_dups (user_fingerprints u d) |}) <$>
    take (Z.to_nat PageLimit) (order_by user_key_le
      (filter (λ u, CursorEmail = "" ∨ user_after CursorEmail CursorID u) (access_users HostID d)))).

(** [join users u on u.id = g.user_id and u.status = 'active'] *)
Definition joined_active (g : Grant) (d : DB) : list User :=
  filter (λ u, User_ID u = Grant_UserID g ∧ User_Status u = "active") (users d).
Definition joined_users (g : Grant) (d : DB) : list User :=
  filter (λ u, User_ID u = Grant_UserID g) (users d).

Record ListHostDirectAccessRow := {
  hostDirect_Grant : Grant; hostDirect_User : User; hostDirect_Fingerprints : list string }.
Definition ListHostDirectAccess `{Collation} (hostID : uuid) :
    Query (list ListHostDirectAccessRow) := λ _ _,
  select (λ d, order_by (by_text (λ x, User_Email (hostDirect_User x))) (
    g ← filter (λ g, live g ∧ Grant_Permission g = "host.access" ∧ Grant_TargetKind g = "host" ∧
                     Grant_TargetID g = Some hostID) (grants d);
    u ← joined_active g d;
    [{| hostDirect_Grant := g; hostDirect_User := u;
        hostDirect_Fingerprints := user_fingerprints u d |}])).

Record ListHostGroupAccessRow := {
  hostGroup_Grant : Grant; hostGroup_User : User; hostGroup_Group : ResourceGroup;
  hostGroup_Fingerprints : list string }.
Definition ListHostGroupAccess `{Collation} (hostID : uuid) :
    Query (list ListHostGroupAccessRow) := λ _ _,
  select (λ d, order_by (by_then (λ x, ResourceGroup_Name (hostGroup_Group x))
      (by_text (λ x, ResourceGroup_Name (hostGroup_Group x)))
      (by_text (λ x, User_Email (hostGroup_User x)))) (
    g ← filter (λ g, live g ∧ Grant_Permission g = "host.access" ∧ Grant_TargetKind g = "group")
          (grants d);
    u ← joined_active g d;
    rg ← filter (λ rg, ResourceGroup_ID rg ∈ groups_of "host" hostID d) (joined_groups g d);
    [{| hostGroup_Grant := g; hostGroup_User := u; hostGroup_Group := rg;
        hostGroup_Fingerprints := user_fingerprints u d |}])).

Record ListSecretDirectAccessRow := {
  secretDirect_Grant : Grant; secretDirect_User : User }.
Definition ListSecretDirectAccess `{Collation} (secretID : uuid) :
    Query (list ListSecretDirectAccessRow) := λ _ _,
  select (λ d, order_by (by_text (λ x, User_Email (secretDirect_User x))) (
    g ← filter (λ g, live g ∧ Grant_TargetKind g = "secret" ∧ Grant_TargetID g = Some secretID)
          (grants d);
    u ← joined_users g d;
    [{| secretDirect_Grant := g; secretDirect_User := u |}])).

Record ListSecretGroupAccessRow := {
  secretGroup_Grant : Grant; secretGroup_User : User; secretGroup_Group : ResourceGroup }.
Definition ListSecretGroupAccess `{Collation} (secretID : uuid) :
    Query (list ListSecretGroupAccessRow) := λ _ _,
  select (λ d, order_by (by_then (λ x, ResourceGroup_Name (secretGroup_Group x))
      (by_text (λ x, ResourceGroup_Name (secretGroup_Group x)))
      (by_text (λ x, User_Email (secretGroup_User x)))) (
    g ← filter (λ g, live g ∧ Grant_TargetKind g = "group") (grants d);
    u ← joined_users g d;
    rg ← filter (λ rg, ResourceGroup_ID rg ∈ groups_of "secret" secretID d) (joined_groups g d);
    [{| secretGroup_Grant := g; secretGroup_User := u; secretGroup_Group := rg |}])).

(** ** access_logs.sql.go: a host's access log *)

Record ListHostAccessLogsParams := {
  logs_HostID : uuid; logs_CursorAt : option Z; logs_CursorID : option uuid;
  logs_From : option Z; logs_To : option Z; logs_Allowed : option bool;
  logs_UserID : option uuid; logs_Search : option string; logs_PageLimit : Z }.

(** A log row with the owner of the key it names, if the key is still known
    (fingerprints are unique among the keys). *)
Definition ListHostAccessLogsRow : Type := SshAccessLog * option User.

Definition log_row (d : DB) (l : SshAccessLog) : ListHostAccessLogsRow :=
  (l, pk ← first_row (λ pk, PublicKey_Fingerprint pk = SshAccessLog_Fingerprint l) (public_keys d);
      join_user (Some (PublicKey_UserID pk)) d).

(** A nullable argument disables its condition. *)
Definition if_given {A} (o : option A) (P : A → Prop) : Prop :=
  match o with Some a => P a | None => True end.
#[export] Instance if_given_dec {A} (o : option A) (P : A → Prop) `{∀ a, Decision (P a)} :
  Decision (if_given o P).
Proof. destruct o; simpl; apply _. Defined.

(** [text ilike '%' || q || '%'] *)
Definition matches_search `{TextMatch} (q text : string) : Prop :=
  ilike ("%" +:+ q +:+ "%") text = true.
#[export] Instance matches_search_dec `{TextMatch} q text : Decision (matches_search q text).
Proof. unfold matches_search. apply _. Defined.

Definition log_matches `{TextMatch} (a : ListHostAccessLogsParams) (row : ListHostAccessLogsRow) : Prop :=
  let '(l, u) := row in
  SshAccessLog_HostID l = logs_HostID a ∧
  if_given (logs_From a) (λ t, t ≤ SshAccessLog_At l) ∧
  if_given (logs_To a) (λ t, SshAccessLog_At l ≤ t) ∧
  if_given (logs_Allowed a) (λ b, SshAccessLog_Allowed l = b) ∧
  if_given (logs_UserID a) (λ i, User_ID <$> u = Some i) ∧
  if_given (logs_Search a) (λ q,
    matches_search q (SshAccessLog_Account l) ∨ matches_search q (SshAccessLog_Fingerprint l) ∨
    match u with
    | Some u => matches_search q (User_Email u) ∨ matches_search q (User_Name u)
    | None => False
    end).
#[export] Instance log_matches_dec `{TextMatch} a row : Decision (log_matches a row).
Proof.
  destruct row as [l u]. unfold log_matches.
  repeat apply and_dec; try apply _. apply if_given_dec. intros q.
  repeat apply or_dec; try apply _. destruct u; apply _.
Defined.

(** [(l.at, l.id) < (at, id)]: on equal times a null id compares as null. *)
Definition log_before (at_ : Z) (id : option uuid) (row : ListHostAccessLogsRow) : Prop :=
  if decide (SshAccessLog_At row.1 = at_)
  then match id with Some i => (SshAccessLog_ID row.1 < i)%N | None => False end
  else SshAccessLog_At row.1 < at_.
#[export] Instance log_before_dec at_ id row : Decision (log_before at_ id row).
Proof. unfold log_before. case_decide; [destruct id|]; apply _. Defined.

(** [order by l.at desc, l.id desc] *)
Definition log_le : relation ListHostAccessLogsRow :=
  by_then (λ r, SshAccessLog_At r.1) (by_time_desc (λ r, SshAccessLog_At r.1))
    (by_uuid_desc (λ r, SshAccessLog_ID r.1)).
#[export] Instance log_le_dec x y : Decision (log_le x y).
Proof. unfold log_le. apply _. Defined.

Definition ListHostAccessLogs `{TextMatch} (a : ListHostAccessLogsParams) :
    Query (list ListHostAccessLogsRow) := λ _ _,
  select (λ d, take (Z.to_nat (logs_PageLimit a)) (order_by log_le
    (filter (λ row, if_given (logs_CursorAt a) (λ t, log_before t (logs_CursorID a) row) ∧
                    log_matches a row)
      (log_row d <$> ssh_access_logs d)))).

(** ** grants.sql.go: the log of grant changes *)

Definition ListGrantAudit : Query (list (GrantAuditLog * option User * option User)) := λ _ _,
  select (λ d, take 100 ((λ a, (a, join_user (GrantAuditLog_ActorID a) d,
                                   join_user (GrantAuditLog_SubjectID a) d)) <$>
    order_by (by_time_desc GrantAuditLog_At) (grant_audit_logs d))).

(** ** Every query evolves the database *)

Lemma ListActiveAdmins_ev `{Collation} : query_rel evolves ListActiveAdmins.
Proof. solve_evolves. Qed.
Lemma ListHostAccessPathsForUsers_ev `{Collation} a0 a1 :
  query_rel evolves (ListHostAccessPathsForUsers a0 a1).
Proof. solve_evolves. Qed.
Lemma ListHostAccessUsers_ev `{Collation} a0 a1 a2 a3 :
  query_rel evolves (ListHostAccessUsers a0 a1 a2 a3).
Proof. solve_evolves. Qed.
Lemma ListHostDirectAccess_ev `{Collation} a0 : query_rel evolves (ListHostDirectAccess a0).
Proof. solve_evolves. Qed.
Lemma ListHostGroupAccess_ev `{Collation} a0 : query_rel evolves (ListHostGroupAccess a0).
Proof. solve_evolves. Qed.
Lemma ListSecretDirectAccess_ev `{Collation} a0 : query_rel evolves (ListSecretDirectAccess a0).
Proof. solve_evolves. Qed.
Lemma ListSecretGroupAccess_ev `{Collation} a0 : query_rel evolves (ListSecretGroupAccess a0).
Proof. solve_evolves. Qed.
Lemma ListHostAccessLogs_ev `{TextMatch} a0 : query_rel evolves (ListHostAccessLogs a0).
Proof. solve_evolves. Qed.
Lemma ListGrantAudit_ev : query_rel evolves ListGrantAudit.
Proof. solve_evolves. Qed.

#[export] Hint Resolve ListActiveAdmins_ev ListHostAccessPathsForUsers_ev ListHostAccessUsers_ev
  ListHostDirectAccess_ev ListHostGroupAccess_ev ListSecretDirectAccess_ev
  ListSecretGroupAccess_ev ListHostAccessLogs_ev ListGrantAudit_ev : evolve.
