(* ===== verification/Json.v ===== *)
(** [encoding/json] as the sources use it: the value tree, the decoding of a
    value into the field types of the request, response and protocol structs,
    and the interface of the text layer.

    The text layer ([json.Marshal] of a tree to bytes, parsing of bytes to a
    tree) is the class [JsonText]; the theorems that need it rely on the round
    trip stated in [JsonTextLaws]. *)
From Stdlib Require Import Ascii.
From S2P Require Import Prelude Text Base64.

(** ** Values *)

Set Warnings "-register-all".

(** A number literal that is not an integer is kept as text: no struct of the
    program has a field that accepts one. *)
Inductive json :=
  | JNull
  | JBool (b : bool)
  | JInt (z : Z)
  | JFloat (lit : string)
  | JStr (s : string)
  | JArr (l : list json)
  | JObj (l : list (string * json)).

(** ** UTF-8 ([unicode/utf8.ValidString])

    [json.Marshal] replaces the bytes of an invalid sequence, so only valid
    strings survive a round trip. *)
Section utf8.
Local Open Scope N_scope.

Definition in_range (lo hi : N) (c : ascii) : bool :=
  (lo <=? N_of_ascii c) && (N_of_ascii c <=? hi).
Definition cont : ascii → bool := in_range 0x80 0xBF.

Fixpoint utf8_valid (l : list ascii) : bool :=
  match l with
  | [] => true
  | a :: l1 =>
      if in_range 0 0x7F a then utf8_valid l1 else
      match l1 with
      | [] => false
      | b :: l2 =>
          if in_range 0xC2 0xDF a then cont b && utf8_valid l2 else
          match l2 with
          | [] => false
          | c :: l3 =>
              if in_range 0xE0 0xE0 a then in_range 0xA0 0xBF b && cont c && utf8_valid l3 else
              if in_range 0xED 0xED a then in_range 0x80 0x9F b && cont c && utf8_valid l3 else
              if in_range 0xE1 0xEF a then cont b && cont c && utf8_valid l3 else
              match l3 with
              | [] => false
              | d :: l4 =>
                  if in_range 0xF0 0xF0 a
                  then in_range 0x90 0xBF b && cont c && cont d && utf8_valid l4 else
                  if in_range 0xF1 0xF3 a then cont b && cont c && cont d && utf8_valid l4 else
                  if in_range 0xF4 0xF4 a
                  then in_range 0x80 0x8F b && cont c && cont d && utf8_valid l4 else false
              end
          end
      end
  end.
End utf8.

Definition valid_text (s : string) : bool := utf8_valid (explode s).

Definition is_ascii (c : ascii) : bool := in_range 0 0x7F c.

Lemma ascii_valid s : Forall (λ c, is_ascii c = true) (explode s) → valid_text s = true.
Proof.
  unfold valid_text. induction 1 as [|c l Hc Hl IH]; [done|].
  simpl. unfold is_ascii in Hc. by rewrite Hc.
Qed.

(** The texts the program generates itself are ASCII. *)
Definition ascii_text (s : string) : Prop := Forall (λ c, is_ascii c = true) (explode s).

Lemma ascii_text_app a b : ascii_text a → ascii_text b → ascii_text (a +:+ b).
Proof. unfold ascii_text. rewrite explode_app. apply Forall_app_2. Qed.

Lemma EncodeToString_ascii e b : ascii_text (EncodeToString e b).
Proof.
  unfold ascii_text, EncodeToString. rewrite explode_implode.
  apply encode_chars_Forall; [|done..]. apply (bool_decide_unpack _).
  destruct (enc_alphabet e); vm_compute; exact I.
Qed.

Lemma hex_ascii s : ascii_text (hex s).
Proof.
  assert (∀ n, (n < 16)%N → is_ascii (hex_digit n) = true) as Hd.
  { intros n Hn. unfold is_ascii, in_range, hex_digit.
    case_decide; rewrite N_ascii_embedding by lia; apply andb_true_intro;
      split; apply N.leb_le; lia. }
  induction s as [|c s IH]; [constructor|]. pose proof (N_ascii_bounded c).
  constructor; [|constructor; [|exact IH]]; apply Hd.
  - apply N.Div0.div_lt_upper_bound. lia.
  - apply N.mod_lt. lia.
Qed.

Lemma uuidString_ascii u : ascii_text (uuidString u).
Proof.
  unfold uuidString. repeat apply ascii_text_app; try apply hex_ascii; repeat constructor.
Qed.

Lemma EncodeToString_valid e b : valid_text (EncodeToString e b) = true.
Proof. apply ascii_valid, EncodeToString_ascii. Qed.
Lemma uuidString_valid u : valid_text (uuidString u) = true.
Proof. apply ascii_valid, uuidString_ascii. Qed.

(** A tree the program marshals: every string is valid UTF-8, every number an
    integer. *)
Fixpoint json_valid (j : json) : bool :=
  match j with
  | JNull | JBool _ | JInt _ => true
  | JFloat _ => false
  | JStr s => valid_text s
  | JArr l => forallb json_valid l
  | JObj l => forallb (λ kv, valid_text kv.1 && json_valid kv.2) l
  end.

(** [json_first] is the value a [json.Decoder] reads from the start of a
    stream, whatever follows it; [json_parse] accepts nothing after the value. *)
Class JsonText := {
  json_print : json → string;
  json_parse : string → option json;
  json_first : string → option json }.

(** Marshalling then unmarshalling a tree of valid strings and integers gives
    it back, and the newline an encoder appends is not part of the value. *)
Class JsonTextLaws `{JsonText} : Prop := {
  json_parse_print : ∀ j, json_valid j = true → json_parse (json_print j) = Some j;
  json_first_parse : ∀ s j, json_parse s = Some j → json_first s = Some j;
  json_first_newline : ∀ s j, json_first s = Some j → json_first (s +:+ String "010"%char "") = Some j }.

(** ** Decoding into struct fields

    A member sets the field whose name it equals up to case; members are taken
    in order, [null] leaves the field as it is, and a value of another type is
    an error. *)

Definition fold_case (c : ascii) : ascii :=
  if in_range 65 90 c then ascii_of_N (N_of_ascii c + 32) else c.
Fixpoint same_name (a b : string) : bool :=
  match a, b with
  | "", "" => true
  | String c a', String d b' => Ascii.eqb (fold_case c) (fold_case d) && same_name a' b'
  | _, _ => false
  end.

Fixpoint members (name : string) (o : list (string * json)) : list json :=
  match o with
  | [] => []
  | (k, v) :: o' => if same_name k name then v :: members name o' else members name o'
  end.

#[global] Arguments same_name : simpl never.

(** Evaluates a decoder on an object with literal member names. *)
Ltac json_names := repeat match goal with
  | |- context [same_name ?a ?b] =>
      let r := eval vm_compute in (same_name a b) in change (same_name a b) with r
  end.
Ltac json_decode := repeat (progress (cbn; json_names)).

(** The value of a field of type [A] with zero value [zero], decoded by [dec]. *)
Definition decode_field {A} (dec : json → option A) (zero : A) (name : string)
    (o : list (string * json)) : option A :=
  foldl (λ acc j, a ← acc; match j with JNull => Some a | _ => dec j end) (Some zero)
    (members name o).

Definition as_string (j : json) : option string :=
  match j with JStr s => Some s | _ => None end.
Definition as_bool (j : json) : option bool :=
  match j with JBool b => Some b | _ => None end.
(** A [uint64] field. *)
Definition as_uint64 (j : json) : option Z :=
  match j with JInt z => if decide (0 ≤ z < 2 ^ 64) then Some z else None | _ => None end.
(** A [[]byte] field: standard base64. *)
Definition as_bytes (j : json) : option bytes :=
  match j with JStr s => DecodeString StdEncoding s | _ => None end.
(** An element that is [null] is the zero value. *)
Definition or_null {A} (zero : A) (dec : json → option A) (j : json) : option A :=
  match j with JNull => Some zero | _ => dec j end.
Definition as_list {A} (zero : A) (dec : json → option A) (j : json) : option (list A) :=
  match j with JArr l => mapM (or_null zero dec) l | _ => None end.
Definition as_strings : json → option (list string) := as_list "" as_string.
(** A [map[string]string] field; a later member replaces an earlier one. *)
Definition as_string_map (j : json) : option (gmap string string) :=
  match j with
  | JObj o => foldl (λ acc kv, m ← acc; v ← or_null "" as_string kv.2; Some (<[kv.1 := v]> m))
                (Some ∅) o
  | _ => None
  end.
(** [json.Unmarshal(data, &v)] for a struct: [null] leaves it zero. *)
Definition as_struct {A} (zero : A) (dec : list (string * json) → option A) (j : json) : option A :=
  match j with JObj o => dec o | JNull => Some zero | _ => None end.

Definition unmarshal `{JsonText} {A} (dec : json → option A) (s : string) : option A :=
  j ← json_parse s; dec j.

(** [json.NewDecoder(r).Decode(&v)] *)
Definition decode_stream `{JsonText} {A} (dec : json → option A) (s : string) : option A :=
  j ← json_first s; dec j.

Lemma unmarshal_print `{JsonText, !JsonTextLaws} {A} (dec : json → option A) j :
  json_valid j = true → unmarshal dec (json_print j) = dec j.
Proof. intros Hj. unfold unmarshal. by rewrite json_parse_print. Qed.

(** A value sent as a request body or as a line is decoded from the stream. *)
Lemma decode_stream_print `{JsonText, !JsonTextLaws} {A} (dec : json → option A) j :
  json_valid j = true → decode_stream dec (json_print j) = dec j.
Proof.
  intros Hj. unfold decode_stream. by rewrite (json_first_parse _ j) by by apply json_parse_print.
Qed.
Lemma decode_stream_line `{JsonText, !JsonTextLaws} {A} (dec : json → option A) j :
  json_valid j = true → decode_stream dec (json_print j +:+ String "010"%char "") = dec j.
Proof.
  intros Hj. unfold decode_stream. rewrite (json_first_newline _ j); [done|].
  by apply json_first_parse, json_parse_print.
Qed.

(** ** Printing of maps

    [json.Marshal] writes the members of a map in the order of its keys. *)
Definition json_string_map (m : gmap string string) : json :=
  JObj ((λ kv, (kv.1, JStr kv.2)) <$> merge_sort (λ a b, String.leb a.1 b.1) (map_to_list m)).

(** A string member tagged [omitempty]. *)
Definition omitempty (name s : string) : list (string * json) :=
  if decide (s = "") then [] else [(name, JStr s)].
