(* ===== verification/Protocol.v ===== *)
(** The messages between the daemon and the control plane
    ([internal/protocol/protocol.go]): their structs with the JSON forms of
    their tags, the envelope, and the bytes that get signed.  The theorems show
    that the signed bytes determine every signed field and that no snapshot
    input is a secret-set input. *)
From Stdlib Require Import Ascii.
From S2P Require Import Prelude Text Base64 Json.

(** ** Time

    A [time.Time] is its count of nanoseconds since the Unix epoch.  The
    RFC 3339 form with nanoseconds in UTC is a parameter: [time.Format] and
    [time.Parse]. *)
Class TimeFormat := {
  time_print : Z → string;
  time_parse : string → option Z;    (* time.Time.UnmarshalJSON *)
  time_Parse : string → option Z }.  (* time.Parse with an RFC 3339 layout *)
(** What a formatted time is made of. *)
Definition time_char (c : ascii) : bool :=
  is_digit c || bool_decide (c ∈ ["-"; ":"; "."; "T"; "Z"]%char).
(** The years 0 to 9999, which the format can express. *)
Definition time_in_range (t : Z) : Prop :=
  -62167219200 * 10 ^ 9 ≤ t < 253402300800 * 10 ^ 9.
(** Formatting such a time in UTC then parsing it, either way, gives it back;
    the text is made of digits and separators. *)
Class TimeFormatLaws `{TimeFormat} : Prop := {
  time_parse_print : ∀ t, time_in_range t → time_parse (time_print t) = Some t;
  time_Parse_print : ∀ t, time_in_range t → time_Parse (time_print t) = Some t;
  time_print_chars : ∀ t, time_in_range t → Forall (λ c, time_char c = true) (explode (time_print t)) }.

(** The zero [time.Time]: January 1, year 1 UTC. *)
Definition time_zero : Z := -62135596800 * 10 ^ 9.
Definition as_time `{TimeFormat} (j : json) : option Z :=
  match j with JStr s => time_parse s | _ => None end.

Definition second : Z := 10 ^ 9.
Definition minute : Z := 60 * second.
Definition hour : Z := 60 * minute.

(** ** Enrollment *)

Record EnrollRequest := {
  EnrollRequest_Token : string; EnrollRequest_Hostname : string;
  EnrollRequest_PublicKey : string; EnrollRequest_EncryptionKey : string;
  EnrollRequest_MachineID : string; EnrollRequest_PriorHostID : string }.
Definition EnrollRequest_of_json : json → option EnrollRequest :=
  as_struct (Build_EnrollRequest "" "" "" "" "" "") (λ o,
    t ← decode_field as_string "" "token" o; h ← decode_field as_string "" "hostname" o;
    p ← decode_field as_string "" "public_key" o; e ← decode_field as_string "" "encryption_key" o;
    m ← decode_field as_string "" "machine_id" o; i ← decode_field as_string "" "prior_host_id" o;
    Some (Build_EnrollRequest t h p e m i)).
(** [omitempty] drops the last member when it is the empty string. *)
Definition EnrollRequest_json (r : EnrollRequest) : json :=
  JObj ([("token", JStr (EnrollRequest_Token r)); ("hostname", JStr (EnrollRequest_Hostname r));
         ("public_key", JStr (EnrollRequest_PublicKey r));
         ("encryption_key", JStr (EnrollRequest_EncryptionKey r));
         ("machine_id", JStr (EnrollRequest_MachineID r))] ++
        if decide (EnrollRequest_PriorHostID r = "") then []
        else [("prior_host_id", JStr (EnrollRequest_PriorHostID r))]).

Record EnrollResponse := {
  EnrollResponse_HostID : string; EnrollResponse_SigningPublicKey : string }.
Definition EnrollResponse_json (r : EnrollResponse) : json :=
  JObj [("host_id", JStr (EnrollResponse_HostID r));
        ("signing_public_key", JStr (EnrollResponse_SigningPublicKey r))].

Record DecommissionRequest := {
  DecommissionRequest_At : Z; DecommissionRequest_Signature : bytes }.
Definition DecommissionRequest_of_json `{TimeFormat} : json → option DecommissionRequest :=
  as_struct (Build_DecommissionRequest time_zero "") (λ o,
    t ← decode_field as_time time_zero "at" o; s ← decode_field as_bytes "" "signature" o;
    Some (Build_DecommissionRequest t s)).
Definition DecommissionRequest_json `{TimeFormat} (r : DecommissionRequest) : json :=
  JObj [("at", JStr (time_print (DecommissionRequest_At r)));
        ("signature", JStr (EncodeToString StdEncoding (DecommissionRequest_Signature r)))].

Definition DecommissionSigningInput `{TimeFormat} (hostID : string) (at_ : Z) : bytes :=
  "custos-host-decommission:v1:" +:+ hostID +:+ ":" +:+ time_print at_.

(** ** Envelopes *)

Abbreviation MessageType := string (only parsing).

(** Control plane to daemon, then daemon to control plane. *)
Definition TypeChallenge : MessageType := "challenge".
Definition TypeSnapshot : MessageType := "snapshot".
Definition TypeGrant : MessageType := "grant".
Definition TypeRevoke : MessageType := "revoke".
Definition TypePing : MessageType := "ping".
Definition TypeUpgrade : MessageType := "upgrade".
Definition TypeSecretSets : MessageType := "secret_sets".
Definition TypeAuth : MessageType := "auth".
Definition TypeAccessLog : MessageType := "access_log".
Definition TypeSecretRead : MessageType := "secret_read".
Definition TypePong : MessageType := "pong".

(** The frame of every websocket message.  [Data] is the raw JSON text of the
    payload, empty for ping and pong. *)
Record Envelope := {
  Envelope_Type : MessageType; Envelope_Data : bytes;
  Envelope_Seq : Z; Envelope_Sig : bytes }.
#[export] Instance Envelope_eq_dec : EqDecision Envelope.
Proof. solve_decision. Defined.

Definition NewEnvelope `{JsonText} (t : MessageType) (payload : option json) : Envelope :=
  match payload with
  | None => {| Envelope_Type := t; Envelope_Data := ""; Envelope_Seq := 0; Envelope_Sig := "" |}
  | Some v => {| Envelope_Type := t; Envelope_Data := json_print v;
                 Envelope_Seq := 0; Envelope_Sig := "" |}
  end.

(** ** What is signed *)

Definition snapshotSigTag := "custos-snapshot:v1".
Definition setsSigTag := "custos-sets:v1".

(** [PutUint16(uint16(len(hostID)))] and [PutUint64(seq)] write the low 16 and
    64 bits. *)
Definition signingInput (tag hostID : string) (seq : Z) (data : bytes) : bytes :=
  tag +:+ be_bytes 2 (Z.of_nat (String.length hostID)) +:+ hostID +:+ be_bytes 8 seq +:+ data.

Definition SnapshotSigningInput (hostID : string) (seq : Z) (data : bytes) : bytes :=
  signingInput snapshotSigTag hostID seq data.
Definition SecretSetsSigningInput (hostID : string) (seq : Z) (data : bytes) : bytes :=
  signingInput setsSigTag hostID seq data.

Lemma signingInput_fields tag h1 h2 s1 s2 d1 d2 :
  Z.of_nat (String.length h1) < 2 ^ 16 → Z.of_nat (String.length h2) < 2 ^ 16 →
  0 ≤ s1 < 2 ^ 64 → 0 ≤ s2 < 2 ^ 64 →
  signingInput tag h1 s1 d1 = signingInput tag h2 s2 d2 → h1 = h2 ∧ s1 = s2 ∧ d1 = d2.
Proof.
  unfold signingInput. intros Hh1 Hh2 Hs1 Hs2 H.
  apply string_app_inj_l in H as [_ H]; [|done].
  apply string_app_inj_l in H as [Hl H]; [|by rewrite !length_be_bytes].
  apply be_bytes_inj in Hl; [|change (256 ^ Z.of_nat 2) with (2 ^ 16); lia..].
  apply string_app_inj_l in H as [-> H]; [|lia].
  apply string_app_inj_l in H as [Hs ->]; [|by rewrite !length_be_bytes].
  apply be_bytes_inj in Hs; [done|change (256 ^ Z.of_nat 8) with (2 ^ 64); lia..].
Qed.

(** ** Payloads *)

Record Challenge := { Challenge_Nonce : bytes }.
Definition Challenge_json (c : Challenge) : json :=
  JObj [("nonce", JStr (EncodeToString StdEncoding (Challenge_Nonce c)))].
Definition Challenge_of_json : json → option Challenge :=
  as_struct (Build_Challenge "") (λ o,
    n ← decode_field as_bytes "" "nonce" o; Some (Build_Challenge n)).

Record Auth := { Auth_HostID : string; Auth_Signature : bytes; Auth_Version : string }.
Definition Auth_json (a : Auth) : json :=
  JObj ([("host_id", JStr (Auth_HostID a));
         ("signature", JStr (EncodeToString StdEncoding (Auth_Signature a)))] ++
        if decide (Auth_Version a = "") then [] else [("version", JStr (Auth_Version a))]).
Definition Auth_of_json : json → option Auth :=
  as_struct (Build_Auth "" "" "") (λ o,
    h ← decode_field as_string "" "host_id" o; s ← decode_field as_bytes "" "signature" o;
    v ← decode_field as_string "" "version" o; Some (Build_Auth h s v)).

Record Upgrade := { Upgrade_Version : string; Upgrade_SHA256 : gmap string string }.
Definition Upgrade_json (u : Upgrade) : json :=
  JObj [("version", JStr (Upgrade_Version u)); ("sha256", json_string_map (Upgrade_SHA256 u))].
Definition Upgrade_of_json : json → option Upgrade :=
  as_struct (Build_Upgrade "" ∅) (λ o,
    v ← decode_field as_string "" "version" o; m ← decode_field as_string_map ∅ "sha256" o;
    Some (Build_Upgrade v m)).

Record AccessEntry := {
  AccessEntry_UserID : string; AccessEntry_KeyType : string; AccessEntry_KeyBlob : string;
  AccessEntry_Fingerprint : string; AccessEntry_Accounts : list string }.
#[export] Instance AccessEntry_eq_dec : EqDecision AccessEntry.
Proof. solve_decision. Defined.
Definition AccessEntry_json (e : AccessEntry) : json :=
  JObj [("user_id", JStr (AccessEntry_UserID e)); ("key_type", JStr (AccessEntry_KeyType e));
        ("key_blob", JStr (AccessEntry_KeyBlob e));
        ("fingerprint", JStr (AccessEntry_Fingerprint e));
        ("accounts", JArr (JStr <$> AccessEntry_Accounts e))].
Definition AccessEntry_zero := Build_AccessEntry "" "" "" "" [].
Definition AccessEntry_of_json : json → option AccessEntry :=
  as_struct AccessEntry_zero (λ o,
    u ← decode_field as_string "" "user_id" o; t ← decode_field as_string "" "key_type" o;
    b ← decode_field as_string "" "key_blob" o; f ← decode_field as_string "" "fingerprint" o;
    a ← decode_field as_strings [] "accounts" o; Some (Build_AccessEntry u t b f a)).

Record Snapshot := { Snapshot_Entries : list AccessEntry }.
Definition Snapshot_json (s : Snapshot) : json :=
  JObj [("entries", JArr (AccessEntry_json <$> Snapshot_Entries s))].
Definition Snapshot_of_json : json → option Snapshot :=
  as_struct (Build_Snapshot []) (λ o,
    l ← decode_field (as_list AccessEntry_zero AccessEntry_of_json) [] "entries" o;
    Some (Build_Snapshot l)).

(** One secret set in clear ([protocol.SecretSet]). *)
Record ClearSet := {
  ClearSet_Name : string; ClearSet_AsUser : string; ClearSet_Version : Z;
  ClearSet_Values : gmap string string }.
#[export] Instance ClearSet_eq_dec : EqDecision ClearSet.
Proof. solve_decision. Defined.
Definition ClearSet_json (s : ClearSet) : json :=
  JObj ([("name", JStr (ClearSet_Name s))] ++
        (if decide (ClearSet_AsUser s = "") then [] else [("as_user", JStr (ClearSet_AsUser s))]) ++
        [("version", JInt (ClearSet_Version s)); ("values", json_string_map (ClearSet_Values s))]).
Definition ClearSet_zero := Build_ClearSet "" "" 0 ∅.
Definition ClearSet_of_json : json → option ClearSet :=
  as_struct ClearSet_zero (λ o,
    n ← decode_field as_string "" "name" o; u ← decode_field as_string "" "as_user" o;
    v ← decode_field as_uint64 0 "version" o; m ← decode_field as_string_map ∅ "values" o;
    Some (Build_ClearSet n u v m)).

Record SecretSets := { SecretSets_Sets : list ClearSet }.
Definition SecretSets_json (s : SecretSets) : json :=
  JObj [("sets", JArr (ClearSet_json <$> SecretSets_Sets s))].
Definition SecretSets_of_json : json → option SecretSets :=
  as_struct (Build_SecretSets []) (λ o,
    l ← decode_field (as_list ClearSet_zero ClearSet_of_json) [] "sets" o;
    Some (Build_SecretSets l)).

Record SealedSecretSets := { SealedSecretSets_Sealed : bytes }.
Definition SealedSecretSets_json (s : SealedSecretSets) : json :=
  JObj [("sealed", JStr (EncodeToString StdEncoding (SealedSecretSets_Sealed s)))].
Definition SealedSecretSets_of_json : json → option SealedSecretSets :=
  as_struct (Build_SealedSecretSets "") (λ o,
    b ← decode_field as_bytes "" "sealed" o; Some (Build_SealedSecretSets b)).

Record SecretRead := { SecretRead_SetName : string; SecretRead_At : Z }.
Definition SecretRead_json `{TimeFormat} (r : SecretRead) : json :=
  JObj [("set_name", JStr (SecretRead_SetName r)); ("at", JStr (time_print (SecretRead_At r)))].
Definition SecretRead_of_json `{TimeFormat} : json → option SecretRead :=
  as_struct (Build_SecretRead "" time_zero) (λ o,
    n ← decode_field as_string "" "set_name" o; t ← decode_field as_time time_zero "at" o;
    Some (Build_SecretRead n t)).

Record AccessLog := {
  AccessLog_Fingerprint : string; AccessLog_Account : string; AccessLog_Allowed : bool;
  AccessLog_At : Z }.
Definition AccessLog_json `{TimeFormat} (l : AccessLog) : json :=
  JObj [("fingerprint", JStr (AccessLog_Fingerprint l)); ("account", JStr (AccessLog_Account l));
        ("allowed", JBool (AccessLog_Allowed l)); ("at", JStr (time_print (AccessLog_At l)))].
Definition AccessLog_of_json `{TimeFormat} : json → option AccessLog :=
  as_struct (Build_AccessLog "" "" false time_zero) (λ o,
    f ← decode_field as_string "" "fingerprint" o; a ← decode_field as_string "" "account" o;
    b ← decode_field as_bool false "allowed" o; t ← decode_field as_time time_zero "at" o;
    Some (Build_AccessLog f a b t)).

(** ** The JSON forms read back *)

Lemma mapM_fmap_Some {A B} (f : A → B) (g : B → option A) (l : list A) :
  (∀ x, g (f x) = Some x) → mapM g (f <$> l) = Some l.
Proof.
  intros Hfg. induction l as [|x l IH]; [done|]. rewrite fmap_cons. simpl.
  rewrite Hfg. simpl. by rewrite IH.
Qed.

#[local] Arguments as_strings : simpl never.
#[local] Arguments as_list : simpl never.
#[local] Arguments as_bytes : simpl never.
#[local] Arguments EncodeToString : simpl never.

Lemma as_bytes_roundtrip b : as_bytes (JStr (EncodeToString StdEncoding b)) = Some b.
Proof. apply DecodeString_EncodeToString. Qed.

Lemma as_strings_roundtrip l : as_strings (JArr (JStr <$> l)) = Some l.
Proof. apply mapM_fmap_Some. done. Qed.

Lemma AccessEntry_roundtrip e : AccessEntry_of_json (AccessEntry_json e) = Some e.
Proof.
  destruct e as [u t b f a]. unfold AccessEntry_of_json. json_decode.
  by rewrite as_strings_roundtrip.
Qed.

Lemma Snapshot_roundtrip s : Snapshot_of_json (Snapshot_json s) = Some s.
Proof.
  destruct s as [l]. unfold Snapshot_of_json. json_decode. unfold as_list.
  rewrite mapM_fmap_Some; [done|]. intros e. apply AccessEntry_roundtrip.
Qed.

Lemma SealedSecretSets_roundtrip s : SealedSecretSets_of_json (SealedSecretSets_json s) = Some s.
Proof. destruct s as [b]. unfold SealedSecretSets_of_json. json_decode. by rewrite as_bytes_roundtrip. Qed.

Lemma Challenge_roundtrip c : Challenge_of_json (Challenge_json c) = Some c.
Proof. destruct c as [b]. unfold Challenge_of_json. json_decode. by rewrite as_bytes_roundtrip. Qed.

Lemma Auth_roundtrip a : Auth_of_json (Auth_json a) = Some a.
Proof.
  destruct a as [h b v]. unfold Auth_json. json_decode.
  case_decide; subst; json_decode; by rewrite as_bytes_roundtrip.
Qed.

Lemma AccessLog_roundtrip `{TimeFormat, !TimeFormatLaws} l :
  time_in_range (AccessLog_At l) → AccessLog_of_json (AccessLog_json l) = Some l.
Proof.
  destruct l as [f a b t]. intros Ht. unfold AccessLog_of_json. json_decode.
  by rewrite time_parse_print.
Qed.

(** A map is read back from its members, in whatever order they are written. *)
Lemma string_map_members (l : list (string * string)) (m : gmap string string) :
  foldl (λ acc kv, m ← acc; v ← or_null "" as_string kv.2; Some (<[kv.1 := v]> m)) (Some m)
    ((λ kv, (kv.1, JStr kv.2)) <$> l) =
  Some (foldl (λ (m : gmap string string) kv, <[kv.1 := kv.2]> m) m l).
Proof. revert m. induction l as [|[k v] l IH]; intros m; [done|]. rewrite fmap_cons. simpl. apply IH. Qed.

Lemma foldl_insert_list_to_map (l : list (string * string)) :
  foldl (λ (m : gmap string string) kv, <[kv.1 := kv.2]> m) ∅ l = (list_to_map (reverse l) : gmap string string).
Proof.
  induction l as [|[k v] l IH] using rev_ind; [done|].
  rewrite foldl_app, reverse_app, IH. done.
Qed.

Lemma as_string_map_roundtrip m : as_string_map (json_string_map m) = Some m.
Proof.
  unfold json_string_map, as_string_map. rewrite string_map_members, foldl_insert_list_to_map.
  f_equal. set (l := merge_sort _ _). assert (l ≡ₚ map_to_list m) as Hl by apply merge_sort_Permutation.
  rewrite <-(list_to_map_to_list m). apply list_to_map_proper.
  - rewrite reverse_Permutation, Hl. apply NoDup_fst_map_to_list.
  - by rewrite reverse_Permutation.
Qed.

#[local] Arguments as_string_map : simpl never.
#[local] Arguments json_string_map : simpl never.

Lemma ClearSet_roundtrip s :
  0 ≤ ClearSet_Version s < 2 ^ 64 → ClearSet_of_json (ClearSet_json s) = Some s.
Proof.
  destruct s as [n u v m]. simpl. intros Hv. unfold ClearSet_json. json_decode.
  assert (as_uint64 (JInt v) = Some v) as Hu by (unfold as_uint64; by rewrite decide_True).
  case_decide; subst; json_decode; rewrite ?decide_True by done; json_decode;
    by rewrite as_string_map_roundtrip.
Qed.

Lemma SecretSets_roundtrip b :
  Forall (λ x, 0 ≤ ClearSet_Version x < 2 ^ 64) (SecretSets_Sets b) →
  SecretSets_of_json (SecretSets_json b) = Some b.
Proof.
  destruct b as [l]. simpl. intros Hl. unfold SecretSets_of_json. json_decode. unfold as_list.
  assert (mapM (or_null ClearSet_zero ClearSet_of_json) (ClearSet_json <$> l) = Some l) as ->; [|done].
  induction Hl as [|x l Hx Hl IH]; [done|]. rewrite fmap_cons. apply mapM_Some.
  constructor; [by apply ClearSet_roundtrip|]. by apply mapM_Some.
Qed.
