(* ===== verification/Crypto.v ===== *)
(** The cryptographic packages: [internal/identity], [internal/hybrid],
    [internal/vault], [internal/sshkey] and [internal/controlplane/token.go].

    The primitives of Go's [crypto/...] are the class [Crypto]; what the code
    relies on is [CryptoLaws]: signing with a generated key verifies, X25519
    agreement is symmetric, GCM opens what it sealed, and the lengths.  Random
    bytes are arguments here and come from the environment in the handlers
    ([crypto/rand.Read] of the Go version the module requires never fails). *)
From Stdlib Require Import Ascii.
From S2P Require Import Prelude Text Base64.

Class Crypto := {
  sha256 : bytes → bytes;
  ed25519_public : bytes → bytes;                  (* public key of a 32-byte seed *)
  ed25519_sign : bytes → bytes → bytes;            (* private key, message *)
  ed25519_verify : bytes → bytes → bytes → bool;   (* public key, message, signature *)
  x25519_public : bytes → bytes;
  x25519_shared : bytes → bytes → option bytes;    (* private, public; None: low-order point *)
  hkdf_sha256 : bytes → bytes → string → nat → bytes;  (* secret, salt, info, length *)
  gcm_seal : bytes → bytes → bytes → bytes;        (* key, nonce, plaintext *)
  gcm_open : bytes → bytes → bytes → option bytes; (* key, nonce, ciphertext *)
  argon2_IDKey : bytes → bytes → Z → Z → Z → nat → bytes
    (* password, salt, time, memory, threads, key length *) }.

(** An ed25519 private key is the seed followed by the public key. *)
Definition ed25519_key `{Crypto} (seed : bytes) : bytes := seed +:+ ed25519_public seed.

Class CryptoLaws `{Crypto} : Prop := {
  sha256_length : ∀ m, String.length (sha256 m) = 32%nat;
  ed25519_public_length : ∀ s, String.length (ed25519_public s) = 32%nat;
  ed25519_verify_sign : ∀ seed m, String.length seed = 32%nat →
    ed25519_verify (ed25519_public seed) m (ed25519_sign (ed25519_key seed) m) = true;
  x25519_public_length : ∀ s, String.length (x25519_public s) = 32%nat;
  x25519_comm : ∀ a b, String.length a = 32%nat → String.length b = 32%nat →
    x25519_shared a (x25519_public b) = x25519_shared b (x25519_public a);
  hkdf_length : ∀ k s i n, (n ≤ 255 * 32)%nat → String.length (hkdf_sha256 k s i n) = n;
  gcm_open_seal : ∀ k n p, String.length k = 32%nat → String.length n = 12%nat →
    gcm_open k n (gcm_seal k n p) = Some p;
  argon2_length : ∀ p s t m h n, 1 ≤ t → 1 ≤ h → String.length (argon2_IDKey p s t m h n) = n }.

Definition gcmNonceSize : nat := 12.

(** [aes.NewCipher]: a key of another length is an error. *)
Definition aes_key_ok (key : bytes) : bool :=
  bool_decide (String.length key ∈ [16%nat; 24%nat; 32%nat]).

(** ** internal/identity *)
Module Identity.
Section identity.
Context `{Crypto}.

Definition authContext := "custos-host-auth:v1:".
Definition challengeSize : nat := 32.
Definition PrivateKeySize : nat := 64.
Definition PublicKeySize : nat := 32.

Record KeyPair := { priv : bytes; pub : bytes }.

Definition GenerateKeyPair (seed : bytes) : KeyPair :=
  {| priv := ed25519_key seed; pub := ed25519_public seed |}.

Definition LoadKeyPair (privateKey : string) : error + KeyPair :=
  match DecodeString StdEncoding privateKey with
  | None => inl (ErrMsg "illegal base64 data")
  | Some raw =>
      if decide (String.length raw = PrivateKeySize)
      then inr {| priv := raw; pub := bdrop 32 raw |}
      else inl (ErrMsg "invalid private key length")
  end.

Definition PublicKey (k : KeyPair) : string := EncodeToString StdEncoding (pub k).
Definition PrivateKey (k : KeyPair) : string := EncodeToString StdEncoding (priv k).

Definition message (challenge : bytes) : bytes := authContext +:+ challenge.

Definition Sign (k : KeyPair) (challenge : bytes) : bytes :=
  ed25519_sign (priv k) (message challenge).

Definition Verify (publicKey : string) (challenge signature : bytes) : error + unit :=
  match DecodeString StdEncoding publicKey with
  | None => inl (ErrMsg "illegal base64 data")
  | Some raw =>
      if negb (bool_decide (String.length raw = PublicKeySize))
      then inl (ErrMsg "invalid public key length")
      else if negb (ed25519_verify raw (message challenge) signature)
      then inl (ErrMsg "signature verification failed")
      else inr tt
  end.

(** The keypair survives its persisted form. *)
Lemma LoadKeyPair_PrivateKey `{!CryptoLaws} seed :
  String.length seed = 32%nat →
  LoadKeyPair (PrivateKey (GenerateKeyPair seed)) = inr (GenerateKeyPair seed).
Proof.
  intros Hs. unfold LoadKeyPair, PrivateKey, GenerateKeyPair, ed25519_key. simpl.
  rewrite DecodeString_EncodeToString. rewrite decide_True.
  - by rewrite bdrop_app.
  - rewrite string_length_app, Hs, ed25519_public_length. done.
Qed.

Lemma Verify_Sign `{!CryptoLaws} seed challenge :
  String.length seed = 32%nat →
  let k := GenerateKeyPair seed in Verify (PublicKey k) challenge (Sign k challenge) = inr tt.
Proof.
  intros Hs. unfold Verify, PublicKey, Sign. simpl.
  rewrite DecodeString_EncodeToString, bool_decide_true by apply ed25519_public_length.
  simpl. by rewrite ed25519_verify_sign.
Qed.
End identity.
End Identity.

(** ** internal/hybrid *)
Module Hybrid.
Section hybrid.
Context `{Crypto}.

Definition keySize : nat := 32.
Definition hkdfInfo := "custos-hybrid:v1".

(** [NewKeyPair], [LoadKeyPair]: a private key of 32 bytes, raw or in base64. *)
Definition NewKeyPair (privateKey : bytes) : error + bytes :=
  if decide (String.length privateKey = keySize) then inr privateKey
  else inl (ErrMsg "crypto/ecdh: invalid private key size").
Definition LoadKeyPair (privateKey : string) : error + bytes :=
  match DecodeString StdEncoding privateKey with
  | None => inl (ErrMsg "illegal base64 data")
  | Some raw => NewKeyPair raw
  end.
Definition PublicKey (k : bytes) : string := EncodeToString StdEncoding (x25519_public k).
Definition PrivateKey (k : bytes) : string := EncodeToString StdEncoding k.

(** [deriveGCM]: the AES-256 key; HKDF's errors do not occur at this length. *)
Definition deriveGCM (shared ephemeralPub recipientPub : bytes) : bytes :=
  hkdf_sha256 shared (ephemeralPub +:+ recipientPub) hkdfInfo keySize.

(** [ephemeral] and [nonce] are the random bytes the call draws. *)
Definition Seal (ephemeral nonce recipientPublic plaintext : bytes) : error + bytes :=
  if negb (bool_decide (String.length recipientPublic = keySize))
  then inl (ErrMsg "invalid recipient public key") else
  match x25519_shared ephemeral recipientPublic with
  | None => inl (ErrMsg "bad X25519 remote ECDH input: low order point")
  | Some shared =>
      let ephemeralPub := x25519_public ephemeral in
      let key := deriveGCM shared ephemeralPub recipientPublic in
      inr (ephemeralPub +:+ nonce +:+ gcm_seal key nonce plaintext)
  end.

Definition Open (recipientPrivate sealed : bytes) : error + bytes :=
  if negb (bool_decide (String.length recipientPrivate = keySize))
  then inl (ErrMsg "invalid recipient private key") else
  if bool_decide (String.length sealed < keySize)%nat
  then inl (ErrMsg "sealed message too short") else
  let ephemeralPub := btake keySize sealed in
  let rest := bdrop keySize sealed in
  match x25519_shared recipientPrivate ephemeralPub with
  | None => inl (ErrMsg "bad X25519 remote ECDH input: low order point")
  | Some shared =>
      let key := deriveGCM shared ephemeralPub (x25519_public recipientPrivate) in
      if bool_decide (String.length rest < gcmNonceSize)%nat
      then inl (ErrMsg "sealed message too short") else
      match gcm_open key (btake gcmNonceSize rest) (bdrop gcmNonceSize rest) with
      | None => inl (ErrMsg "hybrid decryption failed")
      | Some plaintext => inr plaintext
      end
  end.

(** Opening what was sealed to one's public key gives the plaintext. *)
Lemma Open_Seal `{!CryptoLaws} sk eph nonce p sealed :
  String.length sk = keySize → String.length eph = keySize →
  String.length nonce = gcmNonceSize →
  Seal eph nonce (x25519_public sk) p = inr sealed → Open sk sealed = inr p.
Proof.
  intros Hsk Heph Hn HS. unfold Seal in HS.
  rewrite bool_decide_true in HS by apply x25519_public_length. simpl in HS.
  destruct (x25519_shared eph (x25519_public sk)) as [z|] eqn:Hz; [|done].
  injection HS as <-. unfold Open. rewrite (bool_decide_true _ Hsk). simpl.
  rewrite bool_decide_false by (rewrite string_length_app, x25519_public_length; unfold keySize; lia).
  rewrite btake_app, bdrop_app by apply x25519_public_length.
  rewrite x25519_comm by done. rewrite Hz.
  rewrite bool_decide_false by (rewrite string_length_app; lia).
  rewrite btake_app, bdrop_app by done.
  by rewrite gcm_open_seal by (done || (apply hkdf_length; unfold keySize; lia)).
Qed.
End hybrid.
End Hybrid.

(** ** internal/vault *)
Module Vault.

(** The interface behind which the master key lives; [Wrap] draws a nonce. *)
Record KeyWrapper := {
  Wrap : bytes → bytes → error + bytes;      (* random nonce, data key *)
  Unwrap : bytes → error + bytes }.

(** What [Seal] and [Open] need of a wrapper: a wrapped data key unwraps. *)
Class KeyWrapperLaws (kw : KeyWrapper) : Prop :=
  Unwrap_Wrap : ∀ nonce k w, String.length nonce = gcmNonceSize → String.length k = 32%nat →
    Wrap kw nonce k = inr w → Unwrap kw w = inr k.

(** The stored form of a secret. *)
Record Sealed := { Ciphertext : bytes; Nonce : bytes; WrappedKey : bytes }.

Section vault.
Context `{Crypto}.

Definition keySize : nat := 32.

(** [newGCM]: the key is accepted or not. *)
Definition newGCM (key : bytes) : error + bytes :=
  if aes_key_ok key then inr key else inl (ErrMsg "crypto/aes: invalid key size").

(** [dataKey], [nonce] and [wrapNonce] are the random bytes the call draws. *)
Definition Seal (kw : KeyWrapper) (dataKey nonce wrapNonce plaintext : bytes) : error + Sealed :=
  match newGCM dataKey with
  | inl e => inl e
  | inr gcm =>
      let ciphertext := gcm_seal gcm nonce plaintext in
      match Wrap kw wrapNonce dataKey with
      | inl e => inl (ErrMsg "wrap data key")
      | inr wrapped =>
          inr {| Ciphertext := ciphertext; Nonce := nonce; WrappedKey := wrapped |}
      end
  end.

Definition Open (kw : KeyWrapper) (s : Sealed) : error + bytes :=
  match Unwrap kw (WrappedKey s) with
  | inl e => inl (ErrMsg "unwrap data key")
  | inr dataKey =>
      match newGCM dataKey with
      | inl e => inl e
      | inr gcm =>
          match gcm_open gcm (Nonce s) (Ciphertext s) with
          | None => inl (ErrMsg "secret decryption failed")
          | Some plaintext => inr plaintext
          end
      end
  end.

Lemma newGCM_32 key : String.length key = 32%nat → newGCM key = inr key.
Proof. intros Hk. unfold newGCM, aes_key_ok. rewrite Hk. done. Qed.

Lemma Vault_Open_Seal `{!CryptoLaws} kw `{!KeyWrapperLaws kw} dataKey nonce wn p s :
  String.length dataKey = keySize → String.length nonce = gcmNonceSize →
  String.length wn = gcmNonceSize →
  Seal kw dataKey nonce wn p = inr s → Open kw s = inr p.
Proof.
  intros Hk Hn Hw. unfold Seal, Open. rewrite newGCM_32 by done.
  destruct (Wrap kw wn dataKey) as [e|w] eqn:HW; [done|]. intros [= <-]. simpl.
  rewrite (Unwrap_Wrap wn dataKey w) by done. rewrite newGCM_32 by done.
  by rewrite gcm_open_seal.
Qed.

(** *** wrapper_aes.go *)

Definition AES_Wrap (master nonce dataKey : bytes) : error + bytes :=
  match newGCM master with
  | inl e => inl e
  | inr gcm => inr (nonce +:+ gcm_seal gcm nonce dataKey)
  end.

Definition AES_Unwrap (master wrapped : bytes) : error + bytes :=
  match newGCM master with
  | inl e => inl e
  | inr gcm =>
      if bool_decide (String.length wrapped < gcmNonceSize)%nat
      then inl (ErrMsg "wrapped key too short") else
      match gcm_open gcm (btake gcmNonceSize wrapped) (bdrop gcmNonceSize wrapped) with
      | None => inl (ErrMsg "cipher: message authentication failed")
      | Some dataKey => inr dataKey
      end
  end.

Definition AESWrapper (master : bytes) : KeyWrapper :=
  {| Wrap := AES_Wrap master; Unwrap := AES_Unwrap master |}.

Definition NewAESWrapper (masterKey : bytes) : error + KeyWrapper :=
  if decide (String.length masterKey = keySize) then inr (AESWrapper masterKey)
  else inl (ErrMsg "master key must be 32 bytes").

(** The in-process wrapper implements the interface. *)
Lemma NewAESWrapper_laws `{!CryptoLaws} masterKey kw :
  NewAESWrapper masterKey = inr kw → KeyWrapperLaws kw.
Proof.
  unfold NewAESWrapper. case_decide as Hm; [|done]. intros [= <-] nonce k w Hn Hk. simpl.
  unfold AES_Wrap, AES_Unwrap. rewrite newGCM_32 by done. intros [= <-].
  rewrite bool_decide_false by (rewrite string_length_app; lia).
  rewrite btake_app, bdrop_app by done. by rewrite gcm_open_seal.
Qed.
End vault.
End Vault.

(** ** internal/sshkey *)
Module SshKey.
Section sshkey.
Context `{Crypto}.

Definition ParseAuthorizedKey (line : string) : error + (string * string) :=
  match Fields line with
  | keyType :: blob :: _ =>
      match DecodeString StdEncoding blob with
      | None => inl (ErrMsg "invalid key blob")
      | Some _ => inr (keyType, blob)
      end
  | _ => inl (ErrMsg "invalid authorized key")
  end.

Definition Fingerprint (blob : string) : error + string :=
  match DecodeString StdEncoding blob with
  | None => inl (ErrMsg "invalid key blob")
  | Some raw => inr ("SHA256:" +:+ EncodeToString RawStdEncoding (sha256 raw))
  end.
End sshkey.
End SshKey.

(** ** internal/controlplane/token.go *)

Definition HashToken `{Crypto} (raw : string) : string := hex (sha256 raw).

(** [b] is the 32 random bytes the call draws. *)
Definition GenerateToken `{Crypto} (b : bytes) : string * string :=
  let raw := EncodeToString RawURLEncoding b in (raw, HashToken raw).
