(* ===== verification/Password.v ===== *)
(** Password hashes ([internal/password/password.go]): argon2id in the PHC
    string format, with [fmt.Sscanf] of its parameters. *)
From Stdlib Require Import Ascii.
From S2P Require Import Prelude Text Base64 Crypto.

(** ** fmt.Sscanf with literals and %d *)

(** Literal characters of the format must match. *)
Fixpoint scan_literal (lit l : list ascii) : option (list ascii) :=
  match lit, l with
  | [], _ => Some l
  | c :: lit', d :: l' => if Ascii.eqb c d then scan_literal lit' l' else None
  | _ :: _, [] => None
  end.

(** Leading white space is skipped; a newline is an error.  [skip] bytes of
    the current space character are left. *)
Fixpoint skip_space (skip : nat) (l : list ascii) : option (list ascii) :=
  match l with
  | [] => Some []
  | c :: l' =>
      match skip with
      | S n => skip_space n l'
      | O =>
          if Ascii.eqb c "010"%char then None else
          if Ascii.eqb c "013"%char && bool_decide (head l' = Some "010"%char)
          then skip_space 0 l' else
          match space_width l with O => Some l | S n => skip_space n l' end
      end
  end.

Fixpoint scan_digits (acc : Z) (l : list ascii) : Z * list ascii :=
  match l with
  | c :: l' => if is_digit c then scan_digits (acc * 10 + digit_val c) l' else (acc, l)
  | [] => (acc, [])
  end.

(** An unsigned number below [bound]. *)
Definition scan_uint (bound : Z) (l : list ascii) : option (Z * list ascii) :=
  l ← skip_space 0 l;
  match l with
  | c :: _ =>
      if is_digit c then
        let '(z, rest) := scan_digits 0 l in
        if decide (z < bound) then Some (z, rest) else None
      else None
  | [] => None
  end.

(** An [int]: an optional sign, then digits. *)
Definition scan_int (l : list ascii) : option (Z * list ascii) :=
  l ← skip_space 0 l;
  let '(negative, l) :=
    match l with
    | "+"%char :: l' => (false, l')
    | "-"%char :: l' => (true, l')
    | _ => (false, l)
    end in
  match l with
  | c :: _ =>
      if is_digit c then
        let '(z, rest) := scan_digits 0 l in
        let z := if negative : bool then - z else z in
        if decide (- 2 ^ 63 ≤ z < 2 ^ 63) then Some (z, rest) else None
      else None
  | [] => None
  end.

Module Password.
Section password.
Context `{Crypto}.

Definition time : Z := 3.
Definition memory : Z := 65536.
Definition threads : Z := 2.
Definition keyLen : nat := 32.
Definition saltLen : nat := 16.
Definition Version : Z := 19.   (* argon2.Version *)

(** [salt] is the random bytes the call draws; the parameters are printed in
    decimal. *)
Definition Hash (salt : bytes) (plain : string) : string :=
  let key := argon2_IDKey plain salt time memory threads keyLen in
  "$argon2id$v=19$m=65536,t=3,p=2$" +:+ EncodeToString RawStdEncoding salt +:+ "$" +:+
  EncodeToString RawStdEncoding key.

Definition errFormat := ErrMsg "invalid password hash format".
Definition errVersion := ErrMsg "incompatible argon2 version".
Definition errScan := ErrMsg "scan".
Definition errBase64 := ErrMsg "illegal base64 data".

(** [fmt.Sscanf(s, "v=%d", &version)] *)
Definition scan_version (s : string) : option Z :=
  l ← scan_literal (explode "v=") (explode s);
  r ← scan_int l; Some (r.1).
(** [fmt.Sscanf(s, "m=%d,t=%d,p=%d", &m, &t, &p)] *)
Definition scan_params (s : string) : option (Z * Z * Z) :=
  l ← scan_literal (explode "m=") (explode s);
  m ← scan_uint (2 ^ 32) l;
  l ← scan_literal (explode ",t=") (m.2);
  t ← scan_uint (2 ^ 32) l;
  l ← scan_literal (explode ",p=") (t.2);
  p ← scan_uint (2 ^ 8) l;
  Some (m.1, t.1, p.1).

Definition Verify (encoded plain : string) : error + bool :=
  match Split encoded "$"%char with
  | [_; alg; v; params; salt64; want64] =>
      if negb (bool_decide (alg = "argon2id")) then inl errFormat else
      match scan_version v with
      | None => inl errScan
      | Some version =>
          if negb (bool_decide (version = Version)) then inl errVersion else
          match scan_params params with
          | None => inl errScan
          | Some (m, t, p) =>
              match DecodeString RawStdEncoding salt64, DecodeString RawStdEncoding want64 with
              | Some salt, Some want =>
                  inr (bool_decide (argon2_IDKey plain salt t m p (String.length want) = want))
              | _, _ => inl errBase64
              end
          end
      end
  | _ => inl errFormat
  end.

(** ** A hash verifies exactly the passwords with the same derived key *)

Lemma no_dollar s : "$"%char ∉ explode (EncodeToString RawStdEncoding s).
Proof.
  unfold EncodeToString. rewrite explode_implode. intros Hin.
  assert (Forall (λ c, c ≠ "$"%char) (encode_chars RawStdEncoding (explode s))) as Hf.
  { apply encode_chars_Forall; [|discriminate..].
    apply (bool_decide_unpack _). vm_cast_no_check I. }
  rewrite Forall_forall in Hf. by apply (Hf _ Hin).
Qed.

Lemma Split_Hash salt plain :
  Split (Hash salt plain) "$"%char =
  [""; "argon2id"; "v=19"; "m=65536,t=3,p=2"; EncodeToString RawStdEncoding salt;
   EncodeToString RawStdEncoding (argon2_IDKey plain salt time memory threads keyLen)].
Proof.
  unfold Hash. set (tl := EncodeToString RawStdEncoding salt +:+ _).
  change ("$argon2id$v=19$m=65536,t=3,p=2$" +:+ tl) with
    ("" +:+ String "$" ("argon2id" +:+ String "$" ("v=19" +:+ String "$"
       ("m=65536,t=3,p=2" +:+ String "$" tl)))).
  rewrite !Split_cons by (apply (bool_decide_unpack _); exact I). do 4 f_equal. subst tl.
  change ("$" +:+ ?x) with (String "$" x).
  rewrite Split_cons by apply no_dollar. by rewrite Split_one by apply no_dollar.
Qed.

Lemma Verify_Hash_eq `{!CryptoLaws} salt plain attempt :
  Verify (Hash salt plain) attempt =
  inr (bool_decide (argon2_IDKey attempt salt time memory threads keyLen =
                    argon2_IDKey plain salt time memory threads keyLen)).
Proof.
  unfold Verify. rewrite Split_Hash. simpl negb.
  change (scan_version "v=19") with (Some 19).
  change (scan_params "m=65536,t=3,p=2") with (Some (65536, 3, 2)).
  cbn match. rewrite !DecodeString_EncodeToString. by rewrite argon2_length by done.
Qed.
End password.
End Password.
