(* ===== verification/World.v ===== *)
(** The state the control plane's handlers run on, and its effects: database
    calls on the pool and inside a transaction, the hub of live daemon
    connections ([internal/controlplane/hub.go]), the clock, random bytes and
    outgoing mail; HTTP requests and responses
    ([internal/controlplane/{http,transport,logging}.go]).

    Everything the environment decides is an oracle ([Env]) indexed by the
    number of external steps taken so far: whether a database call fails and
    whether it took effect before the failure was reported, what [now()],
    [gen_random_uuid()] and [crypto/rand] return, and what other requests
    committed since the last database call.  Theorems quantify over the oracle,
    so they hold under every schedule of faults.

    Requests are served concurrently, and a transaction runs at PostgreSQL's
    default level, READ COMMITTED: each statement sees what is committed by
    then, with the transaction's own changes made on top of it.  PostgreSQL's
    row locks make a statement wait for the other transaction instead, or fail
    at once where here the transaction fails at its next call; they take
    schedules away and add none.  [Alone] says that no other request commits
    while one is served. *)
From S2P Require Import Prelude Text Base64 Json Protocol Crypto Schema Evolve QAccess.

(** What becomes of a database call. *)
Inductive Fault :=
  | NoFault
  | FailBefore (e : error)    (* the statement was not executed *)
  | FailAfter (e : error).    (* it was, but its result was lost *)

(** ** hub.go *)

(** A live connection: its outbound channel and its cancel function, made
    together by [handleDaemon], are both named by the channel's number. *)
Record Hub := {
  conns : gmap string nat;             (* host id -> current connection *)
  chans : gmap nat (list Envelope);    (* channel -> queued envelopes *)
  cancelled : gset nat;                (* connections whose cancel was called *)
  next_chan : nat }.

Definition newHub : Hub := {| conns := ∅; chans := ∅; cancelled := ∅; next_chan := 0 |}.

(** [make(chan protocol.Envelope, 32)] *)
Definition chan_cap : nat := 32.
Definition make_chan (h : Hub) : nat * Hub :=
  (next_chan h, {| conns := conns h; chans := <[next_chan h := []]> (chans h);
                   cancelled := cancelled h; next_chan := S (next_chan h) |}).

Definition set_conns (m : gmap string nat) (h : Hub) : Hub :=
  {| conns := m; chans := chans h; cancelled := cancelled h; next_chan := next_chan h |}.
Definition set_chans (m : gmap nat (list Envelope)) (h : Hub) : Hub :=
  {| conns := conns h; chans := m; cancelled := cancelled h; next_chan := next_chan h |}.
Definition cancel (c : nat) (h : Hub) : Hub :=
  {| conns := conns h; chans := chans h; cancelled := {[c]} ∪ cancelled h;
     next_chan := next_chan h |}.

Definition register (hostID : string) (send : nat) (h : Hub) : Hub :=
  set_conns (<[hostID := send]> (conns h)) h.

(** Only the connection that is still current is removed. *)
Definition unregister (hostID : string) (send : nat) (h : Hub) : Hub :=
  if decide (conns h !! hostID = Some send) then set_conns (delete hostID (conns h)) h else h.

Definition online (hostID : string) (h : Hub) : bool := bool_decide (is_Some (conns h !! hostID)).

(** The non-blocking send: [select { case c <- env: default: }]. *)
Definition try_send (c : nat) (env : Envelope) (h : Hub) : Hub :=
  match chans h !! c with
  | Some q => if decide (length q < chan_cap)%nat then set_chans (<[c := q ++ [env]]> (chans h)) h else h
  | None => h
  end.

Definition push (hostID : string) (env : Envelope) (h : Hub) : Hub :=
  match conns h !! hostID with None => h | Some c => try_send c env h end.

Definition disconnect (hostID : string) (final : Envelope) (h : Hub) : Hub :=
  match conns h !! hostID with None => h | Some c => cancel c (try_send c final h) end.

(** ** Hub lemmas *)

(** A dying connection's cleanup never evicts a newer connection. *)
Lemma unregister_other hostID k send h c :
  conns h !! k = Some c → (k ≠ hostID ∨ c ≠ send) → conns (unregister hostID send h) !! k = Some c.
Proof.
  intros Hk Hne. unfold unregister. case_decide as Hd; simpl; [|done].
  apply lookup_delete_Some. destruct (decide (hostID = k)) as [->|]; [|done].
  destruct Hne; congruence.
Qed.

Lemma push_conns hostID env h : conns (push hostID env h) = conns h.
Proof.
  unfold push, try_send. destruct (conns h !! hostID); [|done].
  destruct (chans h !! n); [|done]. by case_decide.
Qed.

(** Queues never exceed the channel's capacity. *)
Definition hub_wf (h : Hub) : Prop :=
  (∀ c q, chans h !! c = Some q → (length q ≤ chan_cap)%nat) ∧
  (∀ k c, conns h !! k = Some c → is_Some (chans h !! c)) ∧
  (∀ c, is_Some (chans h !! c) → (c < next_chan h)%nat).

Lemma try_send_wf c env h : hub_wf h → hub_wf (try_send c env h).
Proof.
  intros (H1 & H2 & H3). unfold try_send. destruct (chans h !! c) as [q|] eqn:E; [|by split_and!].
  case_decide; [|by split_and!]. split_and!; simpl.
  - intros c' q'. rewrite lookup_insert. case_decide; intros; simplify_eq; [|eauto].
    rewrite length_app. simpl. lia.
  - intros k c' Hk. rewrite lookup_insert_is_Some'. right. eauto.
  - intros c'. rewrite lookup_insert_is_Some'. intros [<-|Hc]; eauto.
Qed.

Lemma push_wf hostID env h : hub_wf h → hub_wf (push hostID env h).
Proof. unfold push. destruct (conns h !! hostID); [apply try_send_wf | done]. Qed.

Lemma disconnect_wf hostID env h : hub_wf h → hub_wf (disconnect hostID env h).
Proof.
  unfold disconnect. destruct (conns h !! hostID) as [c|]; [|done].
  intros Hwf%(try_send_wf c env). exact Hwf.
Qed.

Lemma unregister_wf hostID c h : hub_wf h → hub_wf (unregister hostID c h).
Proof.
  intros (H1 & H2 & H3). unfold unregister. case_decide; [|done]. split_and!; try done.
  intros k c' Hk. simpl in Hk. apply lookup_delete_Some in Hk as [_ Hk]. eauto.
Qed.

(** A new connection's channel is fresh, so its registration replaces the
    host's previous connection only. *)
Lemma register_make_chan_wf hostID h c h' :
  make_chan h = (c, h') → hub_wf h → hub_wf (register hostID c h').
Proof.
  intros [= <- <-] (H1 & H2 & H3). split_and!; simpl.
  - intros c q. rewrite lookup_insert. case_decide; intros; simplify_eq; [simpl; lia|eauto].
  - intros k c. rewrite lookup_insert_is_Some', lookup_insert. case_decide; intros; simplify_eq; eauto.
  - intros c. rewrite lookup_insert_is_Some'. intros [<-|Hc]; [lia|]. specialize (H3 c Hc). lia.
Qed.

Create HintDb hub discriminated.
#[export] Hint Resolve push_wf disconnect_wf try_send_wf unregister_wf : hub.

(** ** The oracle *)

(** What other requests and connections did. *)
Definition Others : Type := DB → Hub → DB * Hub.

Class Env := {
  env_fault : nat → Fault;
  env_now : nat → Z;
  env_uuid : nat → uuid;
  env_rand : nat → nat → bytes;        (* step, length *)
  env_others : nat → option Others;    (* what others did just before *)
  uuid_scan : string → option uuid     (* pgtype.UUID.Scan *) }.

Class EnvLaws `{Env} : Prop := {
  env_rand_length : ∀ t n, String.length (env_rand t n) = n;
  env_uuid_wf : ∀ t, uuid_wf (env_uuid t);
  uuid_scan_wf : ∀ s u, uuid_scan s = Some u → uuid_wf u;
  uuid_scan_print : ∀ u, uuid_wf u → uuid_scan (uuidString u) = Some u }.

(** One request at a time. *)
Class Alone `{Env} : Prop := alone : ∀ t, env_others t = None.
(** What others commit evolves the database and keeps the hub in order. *)
Class OthersEvolve `{Env} : Prop := {
  others_evolve : ∀ t (f : Others) d h, env_others t = Some f → evolves d (f d h).1;
  others_hub_wf : ∀ t (f : Others) d h, env_others t = Some f → hub_wf h → hub_wf (f d h).2 }.
#[export] Instance alone_evolves `{Env, !Alone} : OthersEvolve.
Proof. split; intros t f x; by rewrite alone. Qed.

(** ** State *)

(** An open transaction: its own changes, which make its view of the database
    out of the committed one, its [now()], and whether a statement of it has
    failed. *)
Record Tx := { tx_redo : DB → error + DB; tx_now : Z; tx_aborted : bool }.

(** A change of the committed database: by the running request or by others. *)
Record Change := { ch_own : bool; ch_from : DB; ch_to : DB }.

Record World := {
  w_db : DB;                                      (* committed *)
  w_tx : option Tx;
  w_hub : Hub;
  w_tick : nat;
  w_mail : list (string * string * string);       (* to, subject, text *)
  w_checksums : gmap string (gmap string string); (* Server.checksums *)
  w_changes : list Change;                        (* of [w_db], so far *)
  w_signed : list bytes                           (* by the server, so far *) }.

(** The committed database changes. *)
Definition changed (own : bool) (d : DB) (w : World) : World :=
  {| w_db := d; w_tx := w_tx w; w_hub := w_hub w; w_tick := w_tick w; w_mail := w_mail w;
     w_checksums := w_checksums w;
     w_changes := w_changes w ++ [{| ch_own := own; ch_from := w_db w; ch_to := d |}];
     w_signed := w_signed w |}.
Definition with_db (d : DB) (w : World) : World := changed true d w.
Definition with_tx (x : option Tx) (w : World) : World :=
  {| w_db := w_db w; w_tx := x; w_hub := w_hub w; w_tick := w_tick w; w_mail := w_mail w;
     w_checksums := w_checksums w; w_changes := w_changes w; w_signed := w_signed w |}.
Definition with_hub (h : Hub) (w : World) : World :=
  {| w_db := w_db w; w_tx := w_tx w; w_hub := h; w_tick := w_tick w; w_mail := w_mail w;
     w_checksums := w_checksums w; w_changes := w_changes w; w_signed := w_signed w |}.
Definition with_mail (m : list (string * string * string)) (w : World) : World :=
  {| w_db := w_db w; w_tx := w_tx w; w_hub := w_hub w; w_tick := w_tick w; w_mail := m;
     w_checksums := w_checksums w; w_changes := w_changes w; w_signed := w_signed w |}.
Definition with_checksums (m : gmap string (gmap string string)) (w : World) : World :=
  {| w_db := w_db w; w_tx := w_tx w; w_hub := w_hub w; w_tick := w_tick w; w_mail := w_mail w;
     w_checksums := m; w_changes := w_changes w; w_signed := w_signed w |}.
Definition step (w : World) : World :=
  {| w_db := w_db w; w_tx := w_tx w; w_hub := w_hub w; w_tick := S (w_tick w);
     w_mail := w_mail w; w_checksums := w_checksums w; w_changes := w_changes w; w_signed := w_signed w |}.

Definition initial_world (d : DB) : World :=
  {| w_db := d; w_tx := None; w_hub := newHub; w_tick := 0; w_mail := []; w_checksums := ∅;
     w_changes := []; w_signed := [] |}.

Definition with_signed (msg : bytes) (w : World) : World :=
  {| w_db := w_db w; w_tx := w_tx w; w_hub := w_hub w; w_tick := w_tick w; w_mail := w_mail w;
     w_checksums := w_checksums w; w_changes := w_changes w; w_signed := w_signed w ++ [msg] |}.

(** A function of the control plane that returns [(A, error)]. *)
Definition IO (A : Type) : Type := M World error A.

Section effects.
Context `{Env}.

(** What others committed in the meantime becomes visible. *)
Definition catch_up (w : World) : World :=
  match env_others (w_tick w) with
  | None => w
  | Some f => let '(d, h) := f (w_db w) (w_hub w) in with_hub h (changed false d w)
  end.

(** A query on the pool: it commits by itself. *)
Definition pool {A} (q : Query A) : IO A := λ w0,
  let w := catch_up w0 in
  let t := w_tick w in
  let run := q (env_now t) (env_uuid t) (w_db w) in
  match env_fault t with
  | FailBefore e => (inl e, step w)
  | FailAfter e =>
      match run with
      | inl e' => (inl e', step w)
      | inr (_, d) => (inl e, with_db d (step w))
      end
  | NoFault =>
      match run with
      | inl e => (inl e, step w)
      | inr (a, d) => (inr a, with_db d (step w))
      end
  end.

(** [pool.Begin] *)
Definition Begin : IO unit := λ w0,
  let w := catch_up w0 in
  let t := w_tick w in
  match env_fault t with
  | NoFault => (inr tt, with_tx (Some {| tx_redo := inr; tx_now := env_now t;
                                         tx_aborted := false |}) (step w))
  | FailBefore e | FailAfter e => (inl e, step w)
  end.

(** The change of a statement of a transaction, made on a view; a statement
    that finds no row changes nothing. *)
Definition redo_stmt {A} (q : Query A) (now : Z) (id : uuid) (d : DB) : error + DB :=
  match q now id d with
  | inl e => if decide (e = ErrNoRows) then inr d else inl e
  | inr (_, d') => inr d'
  end.
Definition redo_then (f g : DB → error + DB) (d : DB) : error + DB :=
  match f d with inl e => inl e | inr d' => g d' end.

(** A query on [db.New(tx)]; after a failed statement the transaction refuses
    everything (SQLSTATE 25P02).  A statement that returns no row has not
    failed. *)
Definition inTx {A} (q : Query A) : IO A := λ w0,
  let w := catch_up w0 in
  let t := w_tick w in
  match w_tx w with
  | None => (inl (ErrConn "tx is closed"), step w)
  | Some x =>
      if tx_aborted x then (inl (PgError "25P02"), step w) else
      let abort := with_tx (Some {| tx_redo := tx_redo x; tx_now := tx_now x;
                                    tx_aborted := true |}) (step w) in
      match env_fault t with
      | FailBefore e | FailAfter e => (inl e, abort)
      | NoFault =>
          match tx_redo x (w_db w) with
          | inl e => (inl e, abort)
          | inr d =>
              match q (tx_now x) (env_uuid t) d with
              | inl e => (inl e, if decide (e = ErrNoRows) then step w else abort)
              | inr (a, _) =>
                  (inr a, with_tx (Some {|
                     tx_redo := redo_then (tx_redo x) (redo_stmt q (tx_now x) (env_uuid t));
                     tx_now := tx_now x; tx_aborted := false |}) (step w))
              end
          end
      end
  end.

(** [tx.Commit]; [FailAfter] is a commit whose acknowledgement is lost. *)
Definition Commit : IO unit := λ w0,
  let w := catch_up w0 in
  match w_tx w with
  | None => (inl (ErrConn "tx is closed"), step w)
  | Some x =>
      let closed := with_tx None (step w) in
      if tx_aborted x then (inl ErrTxCommitRollback, closed) else
      match env_fault (w_tick w), tx_redo x (w_db w) with
      | FailBefore e, _ | _, inl e => (inl e, closed)
      | FailAfter e, inr d => (inl e, with_db d closed)
      | NoFault, inr d => (inr tt, with_db d closed)
      end
  end.

(** [defer tx.Rollback(ctx)] around the rest of the function. *)
Definition deferRollback {E A} (m : M World E A) : M World E A := λ w,
  let '(r, w') := m w in (r, with_tx None w').

Definition timeNow {E} : M World E Z := λ w, (inr (env_now (w_tick w)), step w).
Definition randBytes {E} (n : nat) : M World E bytes := λ w,
  (inr (env_rand (w_tick w) n), step w).

(** A call that returns [error + A] without touching the state. *)
Definition lift {E A} (r : E + A) : M World E A := λ w, (r, w).
(** A message is signed; no code reads the record of it. *)
Definition signing {E} (msg : bytes) : M World E unit := modify (with_signed msg).
Definition onHub {E} (f : Hub → Hub) : M World E unit := modify (λ w, with_hub (f (w_hub w)) w).
End effects.

(** ** Two-state specifications *)

(** Making an open transaction's changes on any database satisfies [R]. *)
Definition tx_ok (R : DB → DB → Prop) (w : World) : Prop :=
  ∀ x, w_tx w = Some x → ∀ d d', tx_redo x d = inr d' → R d d'.

(** Changes that lead from one database to another. *)
Fixpoint linked (d : DB) (cs : list Change) (d' : DB) : Prop :=
  match cs with
  | [] => d' = d
  | c :: cs' => ch_from c = d ∧ linked (ch_to c) cs' d'
  end.
Lemma linked_app d cs1 d1 cs2 d2 :
  linked d cs1 d1 → linked d1 cs2 d2 → linked d (cs1 ++ cs2) d2.
Proof.
  revert d. induction cs1 as [|c cs1 IH]; simpl; intros d; [by intros ->|].
  intros [? ?] ?. split; [done|]. by apply IH.
Qed.

(** The committed databases of a run. *)
Definition visited (w : World) : list DB := (ch_from <$> w_changes w) ++ [w_db w].

(** The entry of a key that has access to a host, for the host's accounts. *)
Definition snapshot_entry (host : Host) (k : HostAccessKeysRow) : AccessEntry :=
  {| AccessEntry_UserID := uuidString (HostAccessKeysRow_UserID k);
     AccessEntry_KeyType := HostAccessKeysRow_KeyType k;
     AccessEntry_KeyBlob := HostAccessKeysRow_KeyBlob k;
     AccessEntry_Fingerprint := HostAccessKeysRow_Fingerprint k;
     AccessEntry_Accounts := Host_Accounts host |}.

(** [host] is a row of one of the databases [ds]. *)
Definition known (host : Host) (ds : list DB) : Prop := ∃ d, d ∈ ds ∧ host ∈ hosts d.
(** [e] is the entry of a key that had access to the host in one of [ds]. *)
Definition listed (ds : list DB) (hostID : uuid) (e : AccessEntry) : Prop :=
  ∃ host d row, known host ds ∧ Host_ID host = hostID ∧ d ∈ ds ∧ row ∈ host_access_rows hostID d ∧
    e = snapshot_entry host row.

(** What the server signs: a snapshot whose keys had access at one of the
    databases [ds], or sealed secret sets. *)
Inductive vouched `{JsonText} (ds : list DB) (msg : bytes) : Prop :=
  | vouched_snapshot hostID seq snap :
      0 ≤ seq < 2 ^ 64 →
      msg = SnapshotSigningInput (uuidString hostID) seq (json_print (Snapshot_json snap)) →
      (∀ e, e ∈ Snapshot_Entries snap → listed ds hostID e) → vouched ds msg
  | vouched_sets host seq data : msg = SecretSetsSigningInput host seq data → vouched ds msg.
Definition signed_ok `{JsonText} (w : World) : Prop := Forall (vouched (visited w)) (w_signed w).

Lemma listed_mono ds ds' hostID e : ds ⊆ ds' → listed ds hostID e → listed ds' hostID e.
Proof.
  intros Hds (host & d & row & (dh & Hdh & Hin) & Hid & Hd & Hrow & He).
  exists host, d, row. split_and!; try done; [exists dh; split; [by apply Hds|done]|by apply Hds].
Qed.
Lemma vouched_mono `{JsonText} ds ds' msg : ds ⊆ ds' → vouched ds msg → vouched ds' msg.
Proof.
  intros Hds [hostID seq snap Hseq Hmsg Hin|host seq data Hmsg].
  - eapply vouched_snapshot; [done..|]. intros e He. eapply listed_mono; [exact Hds|auto].
  - by eapply vouched_sets.
Qed.

(** A database that was committed once stays visited. *)
Lemma visited_grows w w' cs :
  w_changes w' = w_changes w ++ cs → linked (w_db w) cs (w_db w') → visited w ⊆ visited w'.
Proof.
  intros Hc Hl d. unfold visited. rewrite Hc, fmap_app, !elem_of_app, !list_elem_of_singleton.
  intros [Hd| ->]; [by left; left|]. destruct cs as [|c cs]; simpl in Hl; [by right|].
  left. right. rewrite fmap_cons. destruct Hl as [<- _]. by left.
Qed.

Section effect.
Context `{Env, JsonText} (R : DB → DB → Prop).

(** The request's own changes satisfy [R]; the rest is what others did. *)
Definition change_ok (c : Change) : Prop :=
  if ch_own c then R (ch_from c) (ch_to c)
  else ∃ t (f : Others) h, env_others t = Some f ∧ ch_to c = (f (ch_from c) h).1.

(** Others keep the hub in order. *)
Definition orderly_others : Prop :=
  ∀ t (f : Others) d h, env_others t = Some f → hub_wf h → hub_wf (f d h).2.

(** [effect]: the changes made to the committed database satisfy [R], whatever
    faults occur, whatever others commit meanwhile and whether the computation
    commits or not; a computation that starts outside a transaction leaves none
    open; the hub stays well formed; what is signed is true of a database that
    was committed. *)
Record effect (w w' : World) : Prop := {
  eff_redo : tx_ok R w → tx_ok R w';
  eff_changes : ∃ cs, w_changes w' = w_changes w ++ cs ∧ linked (w_db w) cs (w_db w') ∧
                  (tx_ok R w → Forall change_ok cs);
  eff_tx : w_tx w = None → w_tx w' = None;
  eff_hub : orderly_others → hub_wf (w_hub w) → hub_wf (w_hub w');
  eff_signed : signed_ok w → signed_ok w' }.

#[export] Instance effect_preorder : PreOrder effect.
Proof.
  split.
  - intros w. split; try done. exists []. by rewrite app_nil_r.
  - intros w1 w2 w3 [Hr1 (cs1 & E1 & Hl1 & Hf1) ? ? ?] [Hr2 (cs2 & E2 & Hl2 & Hf2) ? ? ?].
    split; [auto| |auto..]. exists (cs1 ++ cs2).
    split_and!; [by rewrite E2, E1, app_assoc|by eapply linked_app|]. intros Hx. apply Forall_app. auto.
Qed.

(** A computation that signs nothing. *)
Lemma effect_unsigned w w' cs :
  (tx_ok R w → tx_ok R w') →
  w_changes w' = w_changes w ++ cs → linked (w_db w) cs (w_db w') → (tx_ok R w → Forall change_ok cs) →
  (w_tx w = None → w_tx w' = None) → (orderly_others → hub_wf (w_hub w) → hub_wf (w_hub w')) →
  w_signed w' = w_signed w → effect w w'.
Proof.
  intros Hr Hc Hl Hf Hx Hh Hs. split; [done|by exists cs|done..|].
  unfold signed_ok. rewrite Hs. intros Hok. eapply Forall_impl; [exact Hok|]. intros msg.
  by eapply vouched_mono, visited_grows.
Qed.

Lemma effect_visited w w' : effect w w' → visited w ⊆ visited w'.
Proof. intros [_ (cs & Hc & Hl & _) _ _ _]. by eapply visited_grows. Qed.

(** A computation that leaves the database as it is. *)
Lemma effect_same w w' :
  w_db w' = w_db w → w_changes w' = w_changes w → w_signed w' = w_signed w →
  (w_tx w' = w_tx w ∨ w_tx w' = None) → (hub_wf (w_hub w) → hub_wf (w_hub w')) → effect w w'.
Proof.
  intros Hd Hc Hs Hx Hh. apply (effect_unsigned _ _ []); try done.
  - intros Hok x. destruct Hx as [-> | ->]; [apply Hok|done].
  - by rewrite app_nil_r.
  - by destruct Hx as [-> | ->].
Qed.
(** The request changes the committed database. *)
Lemma effect_changed d w : R (w_db w) d → effect w (with_db d w).
Proof. intros Hd. eapply effect_unsigned; try done. intros _. by constructor. Qed.
Lemma catch_up_effect w : effect w (catch_up w).
Proof.
  unfold catch_up. destruct (env_others _) as [f|] eqn:Hf; [|reflexivity].
  destruct (f _ _) as [d h] eqn:Hd. eapply effect_unsigned; try done.
  - intros _. constructor; [|done]. exists (w_tick w), f, (w_hub w). simpl. by rewrite Hd.
  - intros Ho Hh. eapply (Ho (w_tick w) f (w_db w)) in Hh; [|done]. by rewrite Hd in Hh.
Qed.
(** A message is signed that is true of the committed database. *)
Lemma effect_signing msg w : vouched (visited w) msg → effect w (with_signed msg w).
Proof.
  intros Hv. split; try done; [exists []; by rewrite app_nil_r|].
  intros Hok. apply Forall_app. split; [exact Hok|]. by constructor.
Qed.
End effect.

Lemma linked_rel `{Env, JsonText} R `{!PreOrder R} d cs d' :
  (∀ t (f : Others) d h, env_others t = Some f → R d (f d h).1) → linked d cs d' → Forall (change_ok R) cs → R d d'.
Proof.
  intros Ho. revert d. induction cs as [|[own d1 d2] cs IH]; simpl; intros d; [by intros ->|].
  intros [-> Hl] [Hc Hcs]%Forall_cons. etransitivity; [|by apply IH].
  destruct own; simpl in Hc; [done|]. destruct Hc as (t & f & h & Hf & Hto). simpl in Hto. rewrite Hto. eauto.
Qed.

(** What [effect] says of a handler, which starts outside any transaction:
    when others satisfy [R] too, so does the request as a whole. *)
Lemma effect_committed `{Env, JsonText} R `{!PreOrder R} w w' :
  (∀ t (f : Others) d h, env_others t = Some f → R d (f d h).1) →
  w_tx w = None → effect R w w' → R (w_db w) (w_db w').
Proof.
  intros Ho Hx [_ (cs & _ & Hl & Hf) _ _ _]. eapply linked_rel; [done|done|exact Hl|].
  apply Hf. intros x. congruence.
Qed.

Corollary effect_alone `{Env, !Alone, JsonText} R `{!PreOrder R} w w' :
  w_tx w = None → effect R w w' → R (w_db w) (w_db w').
Proof. apply (effect_committed R). intros t f d h. by rewrite alone. Qed.

Section effects_rel.
Context `{Env, JsonText} (R : DB → DB → Prop) `{!PreOrder R}.

Lemma pool_rel {A} (q : Query A) : query_rel R q → preserves (effect R) (pool q).
Proof.
  intros Hq w. unfold pool. etransitivity; [apply catch_up_effect|].
  set (w1 := catch_up w). transitivity (step w1); [by apply effect_same; auto|].
  destruct (q _ _ _) as [e'|[a d]] eqn:E; destruct (env_fault _); try reflexivity;
    apply effect_changed; by eapply Hq.
Qed.

Lemma redo_stmt_rel {A} (q : Query A) now id d d' :
  query_rel R q → redo_stmt q now id d = inr d' → R d d'.
Proof.
  intros Hq. unfold redo_stmt. destruct (q now id d) as [e|[a d1]] eqn:E.
  - case_decide; [|done]. by intros [= ->].
  - intros [= ->]. by eapply Hq.
Qed.

(** A step that changes only the open transaction. *)
Lemma effect_tx x w :
  (∀ y, w_tx w = Some y → tx_ok R w → ∀ d d', tx_redo x d = inr d' → R d d') → w_tx w ≠ None →
  effect R w (with_tx (Some x) w).
Proof.
  intros Hx Hn. apply (effect_unsigned _ _ _ []); try done; [|by rewrite app_nil_r].
  intros Hok y [= <-]. destruct (w_tx w) as [y|] eqn:Hy; [|done]. by eapply Hx.
Qed.

Lemma inTx_rel {A} (q : Query A) : query_rel R q → preserves (effect R) (inTx q).
Proof.
  intros Hq w. unfold inTx. etransitivity; [apply catch_up_effect|].
  set (w1 := catch_up w). transitivity (step w1); [by apply effect_same; auto|].
  destruct (w_tx w1) as [x|] eqn:Hx; [|reflexivity]. destruct (tx_aborted x); [reflexivity|].
  assert (∀ b, effect R (step w1) (with_tx (Some {| tx_redo := tx_redo x; tx_now := tx_now x;
    tx_aborted := b |}) (step w1))) as Habort.
  { intros b. apply effect_tx; simpl; [|congruence]. rewrite Hx. intros y [= <-] Hok.
    by apply (Hok x). }
  destruct (env_fault _); [|apply Habort..]. destruct (tx_redo x _) as [e|d] eqn:Hr; [apply Habort|].
  destruct (q _ _ _) as [e|[a d2]] eqn:E; [case_decide; [reflexivity|apply Habort]|].
  apply effect_tx; simpl; [|congruence]. rewrite Hx. intros y [= <-] Hok d0 d'.
  unfold redo_then. destruct (tx_redo x d0) as [e|d1] eqn:H1; [done|]. intros H2.
  transitivity d1; [by apply (Hok x)|by eapply redo_stmt_rel].
Qed.

Lemma Commit_rel : preserves (effect R) Commit.
Proof.
  intros w. unfold Commit. etransitivity; [apply catch_up_effect|].
  set (w1 := catch_up w). destruct (w_tx w1) as [x|] eqn:Hx; [|by apply effect_same; auto].
  assert (∀ d, tx_redo x (w_db w1) = inr d →
    effect R w1 (with_db d (with_tx None (step w1)))) as Hcommit.
  { intros d Hr. eapply effect_unsigned; try done. intros Hok. constructor; [|done].
    simpl. by apply (Hok x). }
  assert (effect R w1 (with_tx None (step w1))) as Hclosed by (by apply effect_same; auto).
  destruct (tx_aborted x); [done|].
  destruct (env_fault _), (tx_redo x (w_db w1)) as [e'|d]; try done; by apply Hcommit.
Qed.

(** A transaction around [m], from its start to its rollback or commit. *)
Lemma deferRollback_rel {E A} (m : M World E A) x w :
  preserves (effect R) m → (∀ d d', tx_redo x d = inr d' → R d d') →
  effect R w (deferRollback m (with_tx (Some x) w)).2.
Proof.
  intros Hm Hx. unfold deferRollback. specialize (Hm (with_tx (Some x) w)).
  destruct (m _) as [r w'], Hm as [_ (cs & Hc & Hl & Hf) _ Hh Hs]. simpl in *. split; simpl; try done.
  exists cs. split_and!; [done..|]. intros _. apply Hf. intros y [= <-]. exact Hx.
Qed.

(** [tx, err := Begin; if err != nil { return ... }; defer tx.Rollback(...)]:
    the only way the sources open a transaction. *)
Lemma transaction_rel {E A} (h : error → E) (m : M World E A) :
  preserves (effect R) m →
  preserves (effect R) (bind (onerr Begin (λ e, throw (h e))) (λ _, deferRollback m)).
Proof.
  intros Hm w. unfold bind, onerr, throw, Begin. etransitivity; [apply (catch_up_effect R)|].
  set (w1 := catch_up w). transitivity (step w1); [by apply effect_same; auto|].
  destruct (env_fault _); try reflexivity. apply deferRollback_rel; [done|]. by intros d d' [= ->].
Qed.

Lemma transaction_rel' {A} (m : IO A) :
  preserves (effect R) m → preserves (effect R) (bind Begin (λ _, deferRollback m)).
Proof.
  intros Hm w. pose proof (transaction_rel id m Hm w) as H'.
  unfold bind, onerr, throw in *. by destruct (Begin w) as [[e|u] w1].
Qed.

Lemma timeNow_rel {E} : preserves (effect R) (timeNow : M World E Z).
Proof. intros w. by apply effect_same; auto. Qed.
Lemma randBytes_rel {E} n : preserves (effect R) (randBytes n : M World E bytes).
Proof. intros w. by apply effect_same; auto. Qed.
Lemma lift_rel {E A} (r : E + A) : preserves (effect R) (lift r).
Proof. intros w. by apply effect_same; auto. Qed.
Lemma signing_sets_rel {E} h n d :
  preserves (effect R) (signing (SecretSetsSigningInput h n d) : M World E unit).
Proof. intros w. apply effect_signing. by eapply vouched_sets. Qed.
Lemma onHub_rel {E} f :
  (∀ h, hub_wf h → hub_wf (f h)) → preserves (effect R) (onHub f : M World E unit).
Proof. intros Hf w. apply effect_same; auto. apply Hf. Qed.
End effects_rel.

(** A computation whose queries satisfy [R] satisfies [effect R]. *)
Ltac effect_step :=
  lazymatch goal with
  | |- preserves _ (pool _) => apply pool_rel; first [solve [apply _] | eauto with evolve]
  | |- preserves _ (inTx _) => apply inTx_rel; first [solve [apply _] | eauto with evolve]
  | |- preserves _ Commit => apply Commit_rel; apply _
  | |- preserves _ timeNow => apply timeNow_rel
  | |- preserves _ (randBytes _) => apply randBytes_rel
  | |- preserves _ (lift _) => apply lift_rel
  | |- preserves _ (signing (SecretSetsSigningInput _ _ _)) => apply signing_sets_rel
  | |- preserves _ (onHub _) => apply onHub_rel; eauto with hub
  | |- preserves _ (bind (onerr Begin _) (λ _, deferRollback _)) => apply transaction_rel; [apply _ |]
  | |- preserves _ (bind Begin (λ _, deferRollback _)) => apply transaction_rel'; [apply _ |]
  end.

Ltac solve_rel := repeat first [solve [eauto 2 with preserve nocore] | effect_step | preserve_step].

(** Every function of the control plane evolves the database, closes its
    transactions and keeps the hub well formed. *)
Abbreviation evolving m := (preserves (effect evolves) m).

(** Nothing but the step counter changed. *)
Record quiet (w w' : World) : Prop := {
  quiet_db : w_db w' = w_db w; quiet_tx : w_tx w' = w_tx w; quiet_hub : w_hub w' = w_hub w;
  quiet_mail : w_mail w' = w_mail w; quiet_checksums : w_checksums w' = w_checksums w }.
#[export] Instance quiet_preorder : PreOrder quiet.
Proof. split; [by intros w|]. intros w1 w2 w3 [] []. split; congruence. Qed.

Abbreviation reading m := (preserves quiet m).
