(* ===== verification/Http.v ===== *)
(** HTTP requests and responses, the server's configuration, request decoding
    and response encoding, and the session middleware:
    [internal/controlplane/{config,http,transport,logging,middleware}.go] and
    the [Server] of [server.go]. *)
From Stdlib Require Import Ascii.
From S2P Require Import Prelude Text Base64 Json Protocol Crypto Schema Evolve QUsers World.

(** Everything outside the sources, bundled: the oracle, the JSON text layer,
    time formatting, cryptographic primitives, the database's collation and
    pattern matching. *)
Class Platform := {
  platform_env :: Env; platform_json :: JsonText; platform_time :: TimeFormat;
  platform_crypto :: Crypto; platform_collation :: Collation; platform_match :: TextMatch }.
Class PlatformLaws `{Platform} : Prop := {
  platform_env_laws :: EnvLaws; platform_json_laws :: JsonTextLaws;
  platform_time_laws :: TimeFormatLaws; platform_crypto_laws :: CryptoLaws;
  platform_collation_laws :: CollationLaws }.

(** ** Configuration and server *)

Record Config := {
  cfg_DatabaseURL : string; cfg_ListenAddr : string;
  cfg_MasterKey : bytes; cfg_SigningKey : string; cfg_HybridPrivateKey : bytes;
  cfg_EncryptionEnabled : bool; cfg_ResendAPIKey : string; cfg_EmailFrom : string;
  cfg_AppURL : string; cfg_CorsOrigins : list string }.

Record Server := {
  cfg : Config;
  wrapper : option Vault.KeyWrapper;     (* nil: secrets endpoints answer 503 *)
  signer : option Identity.KeyPair }.

Definition NewServer `{Crypto} (c : Config) : Server :=
  {| cfg := c;
     wrapper := match Vault.NewAESWrapper (cfg_MasterKey c) with inr w => Some w | inl _ => None end;
     signer := match Identity.LoadKeyPair (cfg_SigningKey c) with inr k => Some k | inl _ => None end |}.

(** ** Requests and responses *)

Record Request := {
  URLParam : string → string;           (* chi route parameters *)
  r_query : string → string;            (* r.URL.Query().Get *)
  r_body : bytes;
  r_authorization : string }.           (* the Authorization header *)

Record Response := { resp_status : Z; resp_body : bytes }.

Definition StatusOK := 200.
Definition StatusNoContent := 204.
Definition StatusBadRequest := 400.
Definition StatusUnauthorized := 401.
Definition StatusForbidden := 403.
Definition StatusNotFound := 404.
Definition StatusConflict := 409.
Definition StatusTooManyRequests := 429.
Definition StatusInternalServerError := 500.
Definition StatusServiceUnavailable := 503.

Definition newline : string := String "010"%char "".
(** [http.Error] *)
Definition httpError (msg : string) (code : Z) : Response :=
  {| resp_status := code; resp_body := msg +:+ newline |}.
(** [serverError] (its log line is not modelled). *)
Definition serverError (msg : string) : Response := httpError msg StatusInternalServerError.
(** [w.WriteHeader(http.StatusNoContent)] *)
Definition noContent : Response := {| resp_status := StatusNoContent; resp_body := "" |}.

(** A handler: an early [return] throws the response already written. *)
Definition Handler : Type := M World Response Response.

(** [http.Handler.ServeHTTP]: the response and the state it leaves. *)
Definition serve (h : Handler) (w : World) : Response * World :=
  match h w with (inl r, w') | (inr r, w') => (r, w') end.

(** [if !b { http.Error(...); return }] *)
Definition require (b : bool) (r : Response) : M World Response unit :=
  if b then ret tt else throw r.
(** [x, err := ...; if err != nil { http.Error(...); return }] *)
Definition orFail {A} (o : option A) (r : Response) : M World Response A :=
  match o with Some a => ret a | None => throw r end.

(** A query whose failure is answered: [onNoRows] for [pgx.ErrNoRows], [other]
    for the rest. *)
Definition answer {A} (onNoRows other : Response) (e : error) : M World Response A :=
  throw (if decide (e = ErrNoRows) then onNoRows else other).
Definition answerAll {A} (r : Response) (_ : error) : M World Response A := throw r.

Definition isUniqueViolation (e : error) : bool := bool_decide (e = PgError unique_violation).

(** [textString], [pgText] *)
Definition textString (t : option string) : string := default "" t.
Definition pgText (s : string) : option string := if decide (s = "") then None else Some s.

Section transport.
Context `{Platform} (s : Server).

Definition parseUUID (u : string) : option uuid := uuid_scan u.

Definition maxBody : N := 1048576.  (* 1 << 20 *)

(** [readRequest]: the body, opened when encryption is on, decoded. *)
Definition readRequest {A} (dec : json → option A) (r : Request) : option A :=
  let body := limit_bytes maxBody (r_body r) in
  if cfg_EncryptionEnabled (cfg s)
  then match Hybrid.Open (cfg_HybridPrivateKey (cfg s)) body with
       | inr body' => unmarshal dec body'
       | inl _ => None
       end
  else unmarshal dec body.

(** [writeResponse]: sealed to the client's key when encryption is on. *)
Definition writeResponse (clientPublic : option bytes) (v : json) : Handler :=
  let data := json_print v in
  if negb (cfg_EncryptionEnabled (cfg s))
  then ret {| resp_status := StatusOK; resp_body := data |}
  else
    ephemeral <- randBytes 32;;
    nonce <- randBytes gcmNonceSize;;
    match Hybrid.Seal ephemeral nonce (default "" clientPublic) data with
    | inl _ => throw (httpError "internal error" StatusInternalServerError)
    | inr sealed => ret {| resp_status := StatusOK; resp_body := sealed |}
    end.

(** [writeJSON]: the encoder appends a newline. *)
Definition writeJSON (v : json) : Response :=
  {| resp_status := StatusOK; resp_body := json_print v +:+ newline |}.

(** ** middleware.go *)

Record authInfo := {
  auth_SessionID : uuid; auth_UserID : uuid; auth_Role : string;
  auth_ClientPublicKey : option bytes }.

Definition bearerToken (r : Request) : string :=
  match CutPrefix (r_authorization r) "Bearer " with
  | Some after => TrimSpace after
  | None => ""
  end.

Definition unauthorized := httpError "unauthorized" StatusUnauthorized.
Definition forbidden := httpError "forbidden" StatusForbidden.

Definition requireAuth (next : authInfo → Request → Handler) (r : Request) : Handler :=
  let token := bearerToken r in
  require (negb (bool_decide (token = ""))) unauthorized;;;
  row <- (pool (GetAccessContext (HashToken token)) <!> answerAll unauthorized);;
  require (bool_decide (GetAccessContextRow_Status row = "active")) forbidden;;;
  next {| auth_SessionID := GetAccessContextRow_SessionID row;
          auth_UserID := GetAccessContextRow_UserID row;
          auth_Role := GetAccessContextRow_Role row;
          auth_ClientPublicKey := GetAccessContextRow_ClientPublicKey row |} r.

Definition requireAdmin (next : authInfo → Request → Handler) : Request → Handler :=
  requireAuth (λ auth r,
    require (bool_decide (auth_Role auth = "admin")) forbidden;;;
    next auth r).
End transport.

(** ** Preservation *)

Section rel.
Context `{Platform} (s : Server).

Lemma require_rel b r : evolving (require b r).
Proof. unfold require. solve_rel. Qed.
Lemma orFail_rel {A} (o : option A) r : evolving (orFail o r).
Proof. unfold orFail. solve_rel. Qed.
Lemma answer_rel {A} n o e : evolving (answer n o e : M World Response A).
Proof. unfold answer. solve_rel. Qed.
Lemma answerAll_rel {A} r e : evolving (answerAll r e : M World Response A).
Proof. unfold answerAll. solve_rel. Qed.
Lemma writeResponse_rel k v : evolving (writeResponse s k v).
Proof. unfold writeResponse. solve_rel. Qed.
End rel.
#[export] Hint Resolve require_rel orFail_rel answer_rel answerAll_rel writeResponse_rel : preserve.

(** Handlers: unfold the definition, then follow its text. *)
Ltac solve_evolving :=
  intros;
  lazymatch goal with |- preserves _ ?m => let h := head_of m in unfold h end;
  cbv zeta; solve_rel.
