(* ===== verification/Pagination.v ===== *)
(** Keyset pagination: the query parameters, the filters and the cursors of
    [internal/controlplane/pagination.go], the way the audit handlers cut a
    page out of the rows they fetched, and why following the cursors visits
    every row once: the theory is over any strictly ordered listing. *)
From Stdlib Require Import Ascii.
From S2P Require Import Prelude Text Base64 Json Protocol Crypto Schema World Http.

(** ** Parameters *)

Definition defaultPageSize : Z := 10.
Definition maxPageSize : Z := 100.

(** A page of an audit response; an empty [NextCursor] ends the listing. *)
Record page (A : Type) := { Items : list A; NextCursor : string }.
Arguments Items {A} _.
Arguments NextCursor {A} _.

(** A cursor over rows ordered by (at, id) desc; nulls ask for the first page. *)
Record atCursor := { atCursor_At : option Z; atCursor_ID : option uuid }.
(** A cursor over rows ordered by (email, user_id) asc; so does "". *)
Record userCursor := { userCursor_Email : string; userCursor_ID : option uuid }.

Definition zero_atCursor := {| atCursor_At := None; atCursor_ID := None |}.
Definition zero_userCursor := {| userCursor_Email := ""; userCursor_ID := None |}.

(** A nullable filter is off when it is null. *)
Record auditFilters := {
  filter_From : option Z; filter_To : option Z; filter_Allowed : option bool;
  filter_UserID : option uuid; filter_Search : option string }.

Section params.
Context `{Platform}.

(** [strconv.Atoi] refuses what is not an [int]; below 1 is an error, above
    [maxPageSize] is cut. *)
Definition parseLimit (raw : string) : string + Z :=
  if decide (raw = "") then inr defaultPageSize else
  match Atoi raw with
  | None => inl "invalid limit"
  | Some n => if decide (n < 1) then inl "invalid limit"
              else inr (if decide (n > maxPageSize) then maxPageSize else n)
  end.

Definition encodeCursor (at_ : Z) (id : uuid) : string :=
  EncodeToString RawURLEncoding (time_print at_ +:+ "|" +:+ uuidString id).

Definition decodeCursor (raw : string) : string + atCursor :=
  if decide (raw = "") then inr zero_atCursor else
  match DecodeString RawURLEncoding raw with
  | None => inl "invalid cursor"
  | Some b =>
      match Cut "|" b with
      | None => inl "invalid cursor"
      | Some (at_, id) =>
          match time_Parse at_ with
          | None => inl "invalid cursor"
          | Some t =>
              match parseUUID id with
              | None => inl "invalid cursor"
              | Some uid => inr {| atCursor_At := Some t; atCursor_ID := Some uid |}
              end
          end
      end
  end.

Definition encodeUserCursor (email : string) (id : uuid) : string :=
  EncodeToString RawURLEncoding (email +:+ String "000" (uuidString id)).

Definition decodeUserCursor (raw : string) : string + userCursor :=
  if decide (raw = "") then inr zero_userCursor else
  match DecodeString RawURLEncoding raw with
  | None => inl "invalid cursor"
  | Some b =>
      match Cut "000" b with
      | None => inl "invalid cursor"
      | Some (email, id) =>
          if decide (email = "") then inl "invalid cursor" else
          match parseUUID id with
          | None => inl "invalid cursor"
          | Some uid => inr {| userCursor_Email := email; userCursor_ID := Some uid |}
          end
      end
  end.

Definition pageParams (r : Request) : string + (Z * atCursor) :=
  match parseLimit (r_query r "limit") with
  | inl e => inl e
  | inr limit =>
      match decodeCursor (r_query r "cursor") with
      | inl e => inl e
      | inr cur => inr (limit, cur)
      end
  end.

Definition userPageParams (r : Request) : string + (Z * userCursor) :=
  match parseLimit (r_query r "limit") with
  | inl e => inl e
  | inr limit =>
      match decodeUserCursor (r_query r "cursor") with
      | inl e => inl e
      | inr cur => inr (limit, cur)
      end
  end.

(** An absent parameter is null; a malformed one is an error. *)
Definition parseTimeParam (raw : string) : option (option Z) :=
  if decide (raw = "") then Some None else Some <$> time_Parse raw.
Definition parseBoolParam (raw : string) : option (option bool) :=
  if decide (raw = "") then Some None else Some <$> ParseBool raw.
Definition parseUUIDParam (raw : string) : option (option uuid) :=
  if decide (raw = "") then Some None else Some <$> parseUUID raw.

Definition parseAuditFilters (r : Request) : string + auditFilters :=
  match parseTimeParam (r_query r "from") with
  | None => inl "invalid from"
  | Some from =>
      match parseTimeParam (r_query r "to") with
      | None => inl "invalid to"
      | Some to =>
          match parseBoolParam (r_query r "success") with
          | None => inl "invalid success"
          | Some allowed =>
              match parseUUIDParam (r_query r "user_id") with
              | None => inl "invalid user_id"
              | Some user =>
                  inr {| filter_From := from; filter_To := to; filter_Allowed := allowed;
                         filter_UserID := user;
                         filter_Search := pgText (TrimSpace (r_query r "q")) |}
              end
          end
      end
  end.
End params.

(** ** Cutting a page

    The handlers fetch [limit + 1] rows: a row too many means another page,
    whose cursor is the last row kept. *)
Definition splitPage {A} (limit : Z) (cursor : A → string) (rows : list A) : page A :=
  if decide (limit < Z.of_nat (length rows))
  then {| Items := take (Z.to_nat limit) rows;
          NextCursor := from_option cursor "" (rows !! Z.to_nat (limit - 1)) |}
  else {| Items := rows; NextCursor := "" |}.

Lemma splitPage_fmap {A B} (f : A → B) limit (cursor : B → string) rows :
  splitPage limit cursor (f <$> rows) =
  {| Items := f <$> Items (splitPage limit (λ x, cursor (f x)) rows);
     NextCursor := NextCursor (splitPage limit (λ x, cursor (f x)) rows) |}.
Proof.
  unfold splitPage. rewrite length_fmap. case_decide; simpl; [|done].
  rewrite <-fmap_take, list_lookup_fmap. f_equal. by destruct (rows !! _).
Qed.
Lemma splitPage_sublist {A} limit (cursor : A → string) rows :
  Items (splitPage limit cursor rows) `sublist_of` rows.
Proof. unfold splitPage. case_decide; simpl; [apply sublist_take|done]. Qed.

(** ** The limit and the cursors *)

Lemma parseLimit_bounds raw n : parseLimit raw = inr n → 1 ≤ n ≤ maxPageSize.
Proof.
  unfold parseLimit, defaultPageSize, maxPageSize. intros Hl.
  repeat case_match; simplify_eq; lia.
Qed.

Section cursors.
Context `{HP : Platform, !PlatformLaws}.

Lemma time_print_no_bar t : time_in_range t → "|"%char ∉ explode (time_print t).
Proof.
  intros Ht Hin. pose proof (time_print_chars t Ht) as Hc.
  rewrite Forall_forall in Hc. apply Hc in Hin. done.
Qed.

Lemma encodeCursor_ne at_ id : encodeCursor at_ id ≠ "".
Proof.
  intros Heq. unfold encodeCursor in Heq.
  pose proof (DecodeString_EncodeToString RawURLEncoding
    (time_print at_ +:+ "|" +:+ uuidString id)) as Hd.
  rewrite Heq in Hd. injection Hd as Hd. apply (f_equal String.length) in Hd.
  rewrite !string_length_app, length_uuidString in Hd. simpl in Hd. lia.
Qed.
Lemma encodeUserCursor_ne email id : encodeUserCursor email id ≠ "".
Proof.
  intros Heq. unfold encodeUserCursor in Heq.
  pose proof (DecodeString_EncodeToString RawURLEncoding
    (email +:+ String "000" (uuidString id))) as Hd.
  rewrite Heq in Hd. injection Hd as Hd. apply (f_equal String.length) in Hd.
  rewrite !string_length_app in Hd. simpl in Hd. lia.
Qed.

(** The server reads back the cursor it gave out. *)
Lemma decode_encodeCursor at_ id :
  time_in_range at_ → uuid_wf id →
  decodeCursor (encodeCursor at_ id) = inr {| atCursor_At := Some at_; atCursor_ID := Some id |}.
Proof.
  intros Ht Hid. unfold decodeCursor. rewrite decide_False by apply encodeCursor_ne.
  unfold encodeCursor. rewrite DecodeString_EncodeToString.
  change ("|" +:+ uuidString id) with (String "|" (uuidString id)).
  rewrite Cut_app by by apply time_print_no_bar.
  rewrite time_Parse_print by done. unfold parseUUID. by rewrite uuid_scan_print.
Qed.
Lemma decode_encodeUserCursor email id :
  email ≠ "" → "000"%char ∉ explode email → uuid_wf id →
  decodeUserCursor (encodeUserCursor email id) =
    inr {| userCursor_Email := email; userCursor_ID := Some id |}.
Proof.
  intros He Hn Hid. unfold decodeUserCursor. rewrite decide_False by apply encodeUserCursor_ne.
  unfold encodeUserCursor. rewrite DecodeString_EncodeToString, Cut_app by done.
  rewrite decide_False by done. unfold parseUUID. by rewrite uuid_scan_print.
Qed.
End cursors.

(** ** Listings in a strict order *)

Section keyset.
Context {A : Type} (R : A → A → Prop) `{∀ x y, Decision (R x y)}.
Context (R_irrefl : ∀ x, ¬ R x x) (R_trans : ∀ x y z, R x y → R y z → R x z).

(** What is selected after a row of the listing is what follows it. *)
Lemma filter_after pre x post :
  StronglySorted R (pre ++ x :: post) → filter (R x) (pre ++ x :: post) = post.
Proof using R_irrefl R_trans.
  intros (Hpre & _ & (Hpost & _)%StronglySorted_cons)%StronglySorted_app.
  rewrite filter_app, filter_cons_False by apply R_irrefl.
  rewrite (filter_all _ post) by done.
  rewrite (filter_none _ pre); [done|]. intros y Hy Hxy.
  apply (R_irrefl y), (R_trans y x y); [|done]. apply Hpre; [done|constructor].
Qed.

(** Pages: the first [n] rows of [l], then what is selected after the last of
    them. *)
Lemma filter_after_page n l x :
  StronglySorted R l → l !! n = Some x → filter (R x) l = drop (S n) l.
Proof using R_irrefl R_trans.
  intros Hs Hx. rewrite <-(take_drop_middle l n x Hx) at 1.
  rewrite filter_after; [done|]. by rewrite take_drop_middle.
Qed.
End keyset.

(** [order by] a total order whose ties are equal rows: selecting before or
    after sorting is the same. *)
Section sorted.
Context {A : Type} (le : A → A → Prop) `{∀ x y, Decision (le x y)}.
Context `{!Transitive le, !Total le}.

Lemma order_by_sorted l : StronglySorted le (order_by le l).
Proof. apply StronglySorted_merge_sort; apply _. Qed.

Lemma StronglySorted_filter (P : A → Prop) `{∀ x, Decision (P x)} l :
  StronglySorted le l → StronglySorted le (filter P l).
Proof.
  induction l as [|x l IH]; [done|]. intros [Hx Hl]%StronglySorted_cons.
  rewrite filter_cons. case_decide; [|auto]. apply StronglySorted_cons. split; [|auto].
  rewrite Forall_forall in *. intros y [_ Hy]%list_elem_of_filter. auto.
Qed.

Lemma order_by_filter (P : A → Prop) `{∀ x, Decision (P x)} l :
  (∀ x y, x ∈ l → y ∈ l → le x y → le y x → x = y) →
  order_by le (filter P l) = filter P (order_by le l).
Proof.
  intros Hanti. apply (StronglySorted_unique_strong le).
  - intros x y Hx Hy. apply elem_of_order_by, list_elem_of_filter in Hx as [_ Hx].
    apply list_elem_of_filter in Hy as [_ Hy]. apply elem_of_order_by in Hy. auto.
  - apply order_by_sorted.
  - apply StronglySorted_filter, order_by_sorted.
  - unfold order_by. by rewrite !merge_sort_Permutation.
Qed.

(** The strict part of the order. *)
Lemma order_by_strict (R : A → A → Prop) l :
  NoDup l → (∀ x y, x ∈ l → y ∈ l → x ≠ y → le x y → R x y) → StronglySorted R (order_by le l).
Proof.
  intros Hnd HR. assert (NoDup (order_by le l)) as Hnd'.
  { unfold order_by. by rewrite merge_sort_Permutation. }
  assert (∀ x, x ∈ order_by le l → x ∈ l) as Hin by (intros x; by rewrite elem_of_order_by).
  pose proof (order_by_sorted l) as Hs. revert Hnd' Hin Hs.
  induction (order_by le l) as [|x l' IH]; [constructor|].
  intros [Hx Hnd']%NoDup_cons Hin [Hxl Hs]%StronglySorted_cons.
  apply StronglySorted_cons. split; [|apply IH; auto; intros; apply Hin; by right].
  rewrite Forall_forall in *. intros y Hy. apply HR; [apply Hin; left|apply Hin; by right| |by apply Hxl].
  by intros ->.
Qed.
End sorted.

(** ** Following the cursors *)

Section walk.
Context {A : Type} (fetch : string → World → option (page A * World)).

(** A client that asks for the next page while there is one. *)
Fixpoint walk (fuel : nat) (cursor : string) (w : World) : option (list A * World) :=
  match fuel with
  | O => None
  | S fuel' =>
      match fetch cursor w with
      | None => None
      | Some (p, w') =>
          if decide (NextCursor p = "") then Some (Items p, w') else
          match walk fuel' (NextCursor p) w' with
          | None => None
          | Some (rest, w'') => Some (Items p ++ rest, w'')
          end
      end
  end.
End walk.

Section paging.
Context {A B : Type} (R : A → A → Prop) `{∀ x y, Decision (R x y)}.
Context (R_irrefl : ∀ x, ¬ R x x) (R_trans : ∀ x y z, R x y → R y z → R x z).
Context (limit : Z) (limit_pos : 1 ≤ limit).
Context (cursor : A → string) (cursor_ne : ∀ x, cursor x ≠ "").
Context (rows : list A) (rows_sorted : StronglySorted R rows).
Context (view : A → B) (ok : World → Prop) (fetch : string → World → option (page B * World)).

(** What a page of the rows after [x] (of all rows, when there is no [x])
    answers. *)
Definition after (x : option A) : list A :=
  match x with None => rows | Some x => filter (R x) rows end.
Definition page_after (x : option A) : page B :=
  let p := splitPage limit cursor (take (Z.to_nat (limit + 1)) (after x)) in
  {| Items := view <$> Items p; NextCursor := NextCursor p |}.

Context (fetch_ok : ∀ x w, ok w → (∀ y, x = Some y → y ∈ rows) →
  ∃ w', fetch (from_option cursor "" x) w = Some (page_after x, w') ∧ ok w').

Lemma after_sorted x : StronglySorted R (after x).
Proof using rows_sorted. destruct x; [by apply StronglySorted_filter|done]. Qed.
Lemma after_sub x y : y ∈ after x → y ∈ rows.
Proof. destruct x; simpl; [by intros [_ ?]%list_elem_of_filter|done]. Qed.

Lemma after_sublist x : after x `sublist_of` rows.
Proof. destruct x; simpl; [apply sublist_filter|done]. Qed.
Lemma page_sublist x :
  Items (splitPage limit cursor (take (Z.to_nat (limit + 1)) (after x))) `sublist_of` rows.
Proof.
  etransitivity; [apply splitPage_sublist|]. etransitivity; [apply sublist_take|apply after_sublist].
Qed.

(** A short page is the last one; a full one is followed by what its cursor
    selects. *)
Lemma page_after_spec x :
  (page_after x = {| Items := view <$> after x; NextCursor := "" |}) ∨
  (∃ y, y ∈ rows ∧
     page_after x = {| Items := view <$> take (Z.to_nat limit) (after x); NextCursor := cursor y |} ∧
     after (Some y) = drop (Z.to_nat limit) (after x) ∧
     (Z.to_nat limit < length (after x))%nat).
Proof using limit_pos R_irrefl R_trans rows_sorted.
  unfold page_after, splitPage. rewrite length_take. case_decide as Hd; simpl.
  - right. destruct (lookup_lt_is_Some_2 (after x) (Z.to_nat (limit - 1))) as [y Hy]; [lia|].
    exists y. rewrite lookup_take_lt by lia. rewrite Hy. simpl.
    rewrite take_take, Nat.min_l by lia. split_and!; [|done| |lia].
    + eapply after_sub. by eapply list_elem_of_lookup_2.
    + pose proof (filter_after_page R R_irrefl R_trans _ _ _ (after_sorted x) Hy) as Hf.
      replace (S (Z.to_nat (limit - 1))) with (Z.to_nat limit) in Hf by lia. rewrite <-Hf.
      destruct x as [x|]; simpl in *; [|done]. rewrite list_filter_filter.
      apply list_filter_iff. intros z. split; [|tauto]. intros Hyz. split; [done|].
      eapply R_trans; [|exact Hyz]. apply list_elem_of_lookup_2 in Hy.
      by apply list_elem_of_filter in Hy as [? _].
  - left. by rewrite take_ge by lia.
Qed.

(** The walk ends, and yields every row once, in order. *)
Lemma walk_after fuel x w :
  (length (after x) < fuel)%nat → ok w → (∀ y, x = Some y → y ∈ rows) →
  ∃ w', walk fetch fuel (from_option cursor "" x) w = Some (view <$> after x, w') ∧ ok w'.
Proof using R_irrefl R_trans limit_pos cursor_ne rows_sorted fetch_ok.
  revert x w. induction fuel as [|fuel IH]; intros x w Hf Hw Hx; [lia|]. simpl.
  destruct (fetch_ok x w Hw Hx) as (w1 & -> & Hw1).
  destruct (page_after_spec x) as [->|(y & Hy & -> & Hrest & Hlen)]; cbn [Items NextCursor].
  - rewrite decide_True by done. eauto.
  - rewrite decide_False by apply cursor_ne.
    destruct (IH (Some y) w1) as (w2 & Hwalk & Hw2); [|done|by intros ? [= <-]|].
    { rewrite Hrest, length_drop. lia. }
    cbn [from_option] in Hwalk. rewrite Hwalk, Hrest. exists w2. split; [|done].
    by rewrite <-fmap_app, take_drop.
Qed.

Lemma walk_all fuel w :
  (length rows < fuel)%nat → ok w →
  ∃ w', walk fetch fuel "" w = Some (view <$> rows, w') ∧ ok w'.
Proof using R_irrefl R_trans limit_pos cursor_ne rows_sorted fetch_ok.
  intros Hf Hw. by apply (walk_after fuel None).
Qed.
End paging.
