(* ===== verification/Perms.v ===== *)
(** Permission checks ([internal/controlplane/perms.go]) and their abstract
    specification: [holds d u p t], an inductive definition of when user [u]
    holds permission [p] on target [t] in database [d].  The checks the
    handlers run decide exactly this relation (for a non-admin, when the
    database answers), and fail closed when it does not. *)
From S2P Require Import Prelude Text Base64 Json Protocol Crypto Schema Evolve QUsers QAccess World Http.

(** ** The permission catalogue *)

Definition allGlobalPermissions := ["group.create"; "host.add"; "secret.add"; "set.add"].
Definition allGroupPermissions := ["group.read"; "group.manage"].
Definition allHostPermissions := ["host.access"; "host.audit"; "host.revoke"; "host.upgrade"].
Definition allSecretPermissions := ["secret.read"; "secret.update"; "secret.delete"].
Definition allSetPermissions := ["set.read"; "set.manage"].

Definition permSet (lists : list (list string)) : gset string := list_to_set (concat lists).

Definition grantablePermissions : gmap string (gset string) :=
  list_to_map
    [("global", permSet [allGlobalPermissions]);
     ("group", permSet [allGroupPermissions; allHostPermissions; allSecretPermissions;
                        allSetPermissions]);
     ("host", permSet [allHostPermissions]);
     ("secret", permSet [allSecretPermissions]);
     ("set", permSet [allSetPermissions])].

(** A missing kind reads as the empty set. *)
Definition validGrant (targetKind permission : string) : bool :=
  bool_decide (permission ∈ default ∅ (grantablePermissions !! targetKind)).

(** ** Checks *)

Section checks.
Context `{Platform}.

(** [ok, err := query; return err == nil && ok] *)
Definition granted {E} (q : Query bool) : M World E bool :=
  r <- attempt (pool q);;
  ret (match r with inr ok => ok | inl _ => false end).

Definition isAdmin (a : authInfo) : bool := bool_decide (auth_Role a = "admin").

Definition canGlobal {E} (a : authInfo) (permission : string) : M World E bool :=
  if isAdmin a then ret true
  else granted (UserHasGlobalPermission (auth_UserID a) permission).
Definition canSecret {E} (a : authInfo) (permission : string) (secretID : uuid) : M World E bool :=
  if isAdmin a then ret true
  else granted (UserHasSecretPermission (auth_UserID a) permission secretID).
Definition canHost {E} (a : authInfo) (permission : string) (hostID : uuid) : M World E bool :=
  if isAdmin a then ret true
  else granted (UserHasHostPermission (auth_UserID a) permission hostID).
Definition canGroup {E} (a : authInfo) (permission : string) (groupID : uuid) : M World E bool :=
  if isAdmin a then ret true
  else granted (UserHasGroupPermission (auth_UserID a) permission groupID).
Definition canSet {E} (a : authInfo) (permission : string) (setID : uuid) : M World E bool :=
  if isAdmin a then ret true
  else granted (UserHasSetPermission (auth_UserID a) permission setID).

Fixpoint filterPermissions {E} (candidates : list string) (allowed : string → M World E bool) :
    M World E (list string) :=
  match candidates with
  | [] => ret []
  | p :: l =>
      ok <- allowed p;;
      rest <- filterPermissions l allowed;;
      ret (if ok : bool then p :: rest else rest)
  end.

Definition groupPermissions {E} (a : authInfo) (id : uuid) : M World E (list string) :=
  filterPermissions allGroupPermissions (λ p, canGroup a p id).
Definition hostPermissions {E} (a : authInfo) (id : uuid) : M World E (list string) :=
  filterPermissions allHostPermissions (λ p, canHost a p id).
Definition secretPermissions {E} (a : authInfo) (id : uuid) : M World E (list string) :=
  filterPermissions allSecretPermissions (λ p, canSecret a p id).
Definition setPermissions {E} (a : authInfo) (id : uuid) : M World E (list string) :=
  filterPermissions allSetPermissions (λ p, canSet a p id).
End checks.

(** ** Specification *)

Inductive target := TGlobal | TGroup (id : uuid) | TResource (kind : string) (id : uuid).

(** A user holds a permission through a live grant on the target itself, or on
    a group the resource is a member of. *)
Inductive holds (d : DB) (u : uuid) (p : string) : target → Prop :=
  | holds_global g :
      g ∈ grants d → Grant_UserID g = u → Grant_Permission g = p → live g →
      Grant_TargetKind g = "global" → holds d u p TGlobal
  | holds_group g grp :
      g ∈ grants d → Grant_UserID g = u → Grant_Permission g = p → live g →
      Grant_TargetKind g = "group" → Grant_TargetID g = Some grp → holds d u p (TGroup grp)
  | holds_direct g kind r :
      g ∈ grants d → Grant_UserID g = u → Grant_Permission g = p → live g →
      Grant_TargetKind g = kind → Grant_TargetID g = Some r → holds d u p (TResource kind r)
  | holds_member m kind r :
      holds d u p (TGroup (GroupResource_GroupID m)) →
      m ∈ group_resources d → GroupResource_ResourceKind m = kind →
      GroupResource_ResourceID m = r → holds d u p (TResource kind r).

Lemma reaches_holds d u p kind r :
  (∃ g, g ∈ grants d ∧ Grant_UserID g = u ∧ Grant_Permission g = p ∧ live g ∧ reaches d kind r g)
  ↔ holds d u p (TResource kind r).
Proof.
  split.
  - intros (g & Hg & Hu & Hp & Hl & [[Hk Ht]|[Hk Ht]]); [by eapply holds_direct|].
    apply opt_in_spec in Ht as (grp & Hid & Hin). unfold groups_of in Hin.
    apply list_elem_of_fmap in Hin as (m & -> & Hm).
    apply list_elem_of_filter in Hm as [[Hmk Hmr] Hm].
    eapply holds_member; [|done..]. by eapply holds_group.
  - inversion 1 as [|?|g ? ? Hg Hu Hp Hl Hk Ht|m ? ? Hgrp Hm Hmk Hmr]; subst.
    + exists g. split_and!; try done. left. done.
    + inversion Hgrp as [|g ? Hg Hu Hp Hl Hk Ht| |]; subst.
      exists g. split_and!; try done. right. split; [done|]. apply opt_in_spec.
      eexists. split; [done|]. unfold groups_of. apply list_elem_of_fmap. exists m.
      split; [done|]. by apply list_elem_of_filter.
Qed.

(** ** The checks implement the specification *)

Lemma holds_global_iff d u p :
  Exists (λ g, Grant_UserID g = u ∧ Grant_Permission g = p ∧ Grant_TargetKind g = "global" ∧ live g)
    (grants d) ↔ holds d u p TGlobal.
Proof.
  rewrite list.Exists_exists. split.
  - intros (g & Hg & ?). destruct_and?. by eapply holds_global.
  - inversion 1; subst. eauto 10.
Qed.

Lemma holds_group_iff d u p grp :
  Exists (λ g, Grant_UserID g = u ∧ Grant_Permission g = p ∧ live g ∧ Grant_TargetKind g = "group" ∧
               Grant_TargetID g = Some grp) (grants d) ↔ holds d u p (TGroup grp).
Proof.
  rewrite list.Exists_exists. split.
  - intros (g & Hg & ?). destruct_and?. by eapply holds_group.
  - inversion 1; subst. eauto 10.
Qed.

Lemma holds_resource_iff d u p kind r :
  Exists (λ g, Grant_UserID g = u ∧ Grant_Permission g = p ∧ live g ∧ reaches d kind r g)
    (grants d) ↔ holds d u p (TResource kind r).
Proof. rewrite list.Exists_exists, <-reaches_holds. done. Qed.

(** What a session may do: anything for an admin, what it holds otherwise. *)
Definition authorized (d : DB) (a : authInfo) (p : string) (t : target) : Prop :=
  auth_Role a = "admin" ∨ holds d (auth_UserID a) p t.

(** The check a handler runs for a target. *)
Definition can `{Platform} {E} (a : authInfo) (p : string) (t : target) : M World E bool :=
  match t with
  | TGlobal => canGlobal a p
  | TGroup id => canGroup a p id
  | TResource kind id =>
      if decide (kind = "host") then canHost a p id
      else if decide (kind = "secret") then canSecret a p id
      else canSet a p id
  end.

(** The targets the handlers check. *)
Definition target_known (t : target) : Prop :=
  match t with TResource kind _ => kind ∈ resource_kinds | _ => True end.

(** A check run at [w] with verdict [b]: it changes nothing but the step
    counter, allows only what is authorized, and allows all of it when the
    database answers. *)
Record check_ok `{Platform} {E} (m : M World E bool) (w : World) (a : authInfo) (p : string)
    (t : target) (b : bool) (w' : World) : Prop := {
  check_run : m w = (inr b, w');
  check_frame : quiet w w';
  check_sound : b = true → authorized (w_db w) a p t;
  check_complete : env_fault (w_tick w) = NoFault → authorized (w_db w) a p t → b = true }.

Section spec.
Context `{Platform, !Alone}.

Lemma granted_run {E} (q : Query bool) (P : Prop) `{Decision P} w :
  (∀ now id, q now id (w_db w) = inr (bool_decide P, w_db w)) →
  ∃ b w', (granted q : M World E bool) w = (inr b, w') ∧ quiet w w' ∧
       (b = true → P) ∧ (env_fault (w_tick w) = NoFault → P → b = true).
Proof.
  intros Hq. unfold granted, attempt, bind, pool, catch_up. rewrite alone, Hq.
  destruct (env_fault (w_tick w)) eqn:Ef.
  - eexists (bool_decide P), _. split_and!; [reflexivity|done| |].
    + apply bool_decide_eq_true.
    + intros _. apply bool_decide_eq_true.
  - eexists false, _. split_and!; [reflexivity|done..].
  - eexists false, _. split_and!; [reflexivity|done..].
Qed.

Lemma check_granted {E} (q : Query bool) (P : Prop) `{Decision P} w a p t :
  (∀ now id, q now id (w_db w) = inr (bool_decide P, w_db w)) →
  (P ↔ holds (w_db w) (auth_UserID a) p t) →
  ∃ b w', check_ok (if isAdmin a then ret true else granted q : M World E bool) w a p t b w'.
Proof.
  intros Hq HP. destruct (isAdmin a) eqn:Hadm; [apply bool_decide_eq_true in Hadm|apply bool_decide_eq_false in Hadm].
  - exists true, w. constructor; [reflexivity|done|by left|done].
  - destruct (granted_run (E:=E) q P w Hq) as (b & w' & Hrun & Hw & Hs & Hc).
    exists b, w'. constructor; [done|done| |].
    + intros Hb. right. apply HP. auto.
    + intros Hf [?|Hh]; [done|]. apply Hc; [done|]. by apply HP.
Qed.

Lemma can_ok {E} a p t w :
  target_known t → ∃ b w', check_ok (can a p t : M World E bool) w a p t b w'.
Proof.
  intros Hk. destruct t as [|grp|kind r]; simpl.
  - eapply check_granted; [|apply holds_global_iff]. done.
  - eapply check_granted; [|apply holds_group_iff]. done.
  - repeat case_decide; subst.
    + eapply check_granted; [|apply holds_resource_iff]. done.
    + eapply check_granted; [|apply holds_resource_iff]. done.
    + assert (kind = "set") as ->.
      { unfold target_known, resource_kinds in Hk. rewrite !elem_of_cons in Hk.
        destruct Hk as [?|[?|[?|Hk]]]; try done. by apply elem_of_nil in Hk. }
      eapply check_granted; [|apply holds_resource_iff]. done.
Qed.

(** Checks evolve nothing. *)
Lemma granted_rel {E} (q : Query bool) :
  query_rel evolves q → evolving (granted q : M World E bool).
Proof. intros Hq. unfold granted. solve_rel. Qed.
End spec.
#[export] Hint Extern 2 (preserves _ (granted _)) => apply granted_rel; eauto with evolve : preserve.

Section rel.
Context `{Platform}.
Lemma canGlobal_rel {E} a p : evolving (canGlobal a p : M World E bool).
Proof. solve_evolving. Qed.
Lemma canSecret_rel {E} a p id : evolving (canSecret a p id : M World E bool).
Proof. solve_evolving. Qed.
Lemma canHost_rel {E} a p id : evolving (canHost a p id : M World E bool).
Proof. solve_evolving. Qed.
Lemma canGroup_rel {E} a p id : evolving (canGroup a p id : M World E bool).
Proof. solve_evolving. Qed.
Lemma canSet_rel {E} a p id : evolving (canSet a p id : M World E bool).
Proof. solve_evolving. Qed.
Lemma filterPermissions_rel {E} l (f : string → M World E bool) :
  (∀ p, evolving (f p)) → evolving (filterPermissions l f).
Proof. intros Hf. induction l as [|p l IH]; simpl; solve_rel; auto. Qed.
End rel.
#[export] Hint Resolve canGlobal_rel canSecret_rel canHost_rel canGroup_rel canSet_rel : preserve.

Section rel2.
Context `{Platform}.
Lemma groupPermissions_rel {E} a id : evolving (groupPermissions a id : M World E _).
Proof. apply filterPermissions_rel. auto with preserve. Qed.
Lemma hostPermissions_rel {E} a id : evolving (hostPermissions a id : M World E _).
Proof. apply filterPermissions_rel. auto with preserve. Qed.
Lemma secretPermissions_rel {E} a id : evolving (secretPermissions a id : M World E _).
Proof. apply filterPermissions_rel. auto with preserve. Qed.
Lemma setPermissions_rel {E} a id : evolving (setPermissions a id : M World E _).
Proof. apply filterPermissions_rel. auto with preserve. Qed.
End rel2.
#[export] Hint Resolve groupPermissions_rel hostPermissions_rel secretPermissions_rel
  setPermissions_rel : preserve.
