(* ===== verification/Grants.v ===== *)
(** Grants and the snapshots they produce ([internal/controlplane/grants.go],
    and [buildSnapshot], [snapshotEnvelope] of [daemon_ws.go]).

    A change of a [host.access] grant is committed together with its audit row,
    then a signed snapshot is pushed to every host it affects. *)
From S2P Require Import Prelude Text Base64 Json Protocol Crypto Schema Evolve QUsers QAccess QSecrets World Http Perms.

Section grants.
Context `{Platform} (s : Server).

(** ** Snapshots *)

Definition buildSnapshot (host : Host) : IO Snapshot :=
  rows <- pool (HostAccessKeys (Host_ID host));;
  ret {| Snapshot_Entries := snapshot_entry host <$> rows |}.

(** [uint64(seq)] *)
Definition to_uint64 (z : Z) : Z := z mod 2 ^ 64.

Definition signed_envelope (t : MessageType) (data : bytes) (kp : Identity.KeyPair) (seq : Z)
    (input : bytes) : Envelope :=
  {| Envelope_Type := t; Envelope_Data := data; Envelope_Seq := seq;
     Envelope_Sig := Identity.Sign kp input |}.

(** An unset signer yields an unsigned envelope with sequence number 0. *)
Definition snapshotEnvelope (hostID : uuid) (snap : Snapshot) : IO Envelope :=
  let data := json_print (Snapshot_json snap) in
  match signer s with
  | None => ret {| Envelope_Type := TypeSnapshot; Envelope_Data := data;
                   Envelope_Seq := 0; Envelope_Sig := "" |}
  | Some kp =>
      n <- pool (NextHostSeq hostID);;
      let seq := to_uint64 n in
      let input := SnapshotSigningInput (uuidString hostID) seq data in
      signing input;;;
      ret (signed_envelope TypeSnapshot data kp seq input)
  end.

(** The function's own [return]s on error are silent. *)
Definition pushSnapshot {E} (hostID : uuid) : M World E unit :=
  ignore (
    host <- pool (GetHostByID hostID);;
    snapshot <- buildSnapshot host;;
    env <- snapshotEnvelope hostID snapshot;;
    (onHub (push (uuidString hostID) env) : IO unit)).

Definition pushToHosts {E} (hosts : list uuid) : M World E unit :=
  foreach hosts pushSnapshot.

Definition pushIfHostGrant {E} (permission targetKind : string) (targetID : option uuid) :
    M World E unit :=
  if negb (bool_decide (permission = "host.access")) then ret tt else
  if decide (targetKind = "host") then
    match targetID with Some h => foreach [h] pushSnapshot | None => ret tt end
  else if decide (targetKind = "group") then
    match targetID with
    | Some g =>
        r <- attempt (pool (GroupHostIDs g));;
        match r with inl _ => ret tt | inr ids => foreach ids pushSnapshot end
    | None => ret tt
    end
  else ret tt.

(** ** Audit *)

Definition emailOf {E} (id : uuid) : M World E string :=
  r <- attempt (pool (GetUserByID id));;
  ret (match r with inr u => User_Email u | inl _ => "" end).

Definition auditGrant (action : string) (grant : Grant) (actorID : uuid) : IO unit :=
  actorEmail <- emailOf actorID;;
  subjectEmail <- emailOf (Grant_UserID grant);;
  inTx (InsertGrantAudit action (Some (Grant_ID grant)) (Some actorID) actorEmail
          (Some (Grant_UserID grant)) subjectEmail (Grant_Permission grant)
          (Grant_TargetKind grant) (Grant_TargetID grant)).

(** ** Handlers *)

Record createGrantRequest := {
  req_UserID : string; req_Permission : string; req_TargetKind : string; req_TargetID : string }.
Definition createGrantRequest_of_json : json → option createGrantRequest :=
  as_struct (Build_createGrantRequest "" "" "" "") (λ o,
    u ← decode_field as_string "" "user_id" o; p ← decode_field as_string "" "permission" o;
    k ← decode_field as_string "" "target_kind" o; t ← decode_field as_string "" "target_id" o;
    Some (Build_createGrantRequest u p k t)).

Definition badRequest (msg : string) : Response := httpError msg StatusBadRequest.

Definition handleCreateGrant (auth : authInfo) (r : Request) : Handler :=
  req <- orFail (readRequest s createGrantRequest_of_json r) (badRequest "invalid request");;
  require (negb (bool_decide (req_UserID req = "" ∨ req_Permission req = "" ∨
                              req_TargetKind req = "")))
    (badRequest "user_id, permission and target_kind are required");;;
  require (validGrant (req_TargetKind req) (req_Permission req))
    (badRequest "invalid permission for target_kind");;;
  userID <- orFail (parseUUID (req_UserID req)) (badRequest "invalid user_id");;
  targetID <- (if decide (req_TargetKind req = "global") then ret None
               else t <- orFail (parseUUID (req_TargetID req)) (badRequest "invalid target_id");;
                    ret (Some t));;
  (Begin <!> answerAll (serverError "could not create grant"));;;
  deferRollback (
    grant <- (inTx (CreateGrant userID (req_Permission req) (req_TargetKind req) targetID
                      (Some (auth_UserID auth)))
              <!> answerAll (badRequest "could not create grant"));;
    (auditGrant "grant" grant (auth_UserID auth)
       <!> answerAll (serverError "could not record grant"));;;
    (Commit <!> answerAll (serverError "could not create grant"));;;
    pushIfHostGrant (Grant_Permission grant) (Grant_TargetKind grant) (Grant_TargetID grant);;;
    writeResponse s (auth_ClientPublicKey auth)
      (JObj [("id", JStr (uuidString (Grant_ID grant)))])).

(** Runs inside the caller's transaction. *)
Definition grantOwner (userID : uuid) (kind : string) (targetID : uuid) (perms : list string) :
    IO unit :=
  foreach perms (λ p,
    inTx (CreateGrant userID p kind (Some targetID) (Some userID));;; ret tt).

Definition handleRevokeGrant (auth : authInfo) (r : Request) : Handler :=
  grantID <- orFail (parseUUID (URLParam r "id")) (badRequest "invalid grant id");;
  (Begin <!> answerAll (serverError "could not revoke grant"));;;
  deferRollback (
    grant <- (inTx (RevokeGrant grantID)
              <!> answer (httpError "grant not found" StatusNotFound)
                         (serverError "could not revoke grant"));;
    (auditGrant "revoke" grant (auth_UserID auth)
       <!> answerAll (serverError "could not record revoke"));;;
    (Commit <!> answerAll (serverError "could not revoke grant"));;;
    pushIfHostGrant (Grant_Permission grant) (Grant_TargetKind grant) (Grant_TargetID grant);;;
    ret noContent).

(** ** Every function evolves the database *)

(** A snapshot lists keys that had access when they were read, and is signed
    for the host they were read for. *)
Section signed.
Context (R : DB → DB → Prop) `{!PreOrder R}.
Context (Hkeys : ∀ h, query_rel R (HostAccessKeys h)) (Hseq : ∀ h, query_rel R (NextHostSeq h))
  (Hget : ∀ h, query_rel R (GetHostByID h)).

Lemma buildSnapshot_effect h : preserves (effect R) (buildSnapshot h).
Proof using R PreOrder0 Hkeys. unfold buildSnapshot. solve_rel. Qed.
Lemma buildSnapshot_listed host w snap w1 :
  known host (visited w) → buildSnapshot host w = (inr snap, w1) →
  ∀ e, e ∈ Snapshot_Entries snap → listed (visited w1) (Host_ID host) e.
Proof using R PreOrder0 Hkeys.
  intros (dh & Hdh & Hin) Hr. pose proof (effect_visited _ _ _ (buildSnapshot_effect host w)) as Hv.
  rewrite Hr in Hv. simpl in Hv. revert Hr.
  unfold buildSnapshot, bind, pool, ret. destruct (env_fault _); intros Hr; simplify_eq/=.
  intros e (row & -> & Hrow)%list_elem_of_fmap. rewrite elem_of_remove_dups in Hrow.
  exists host, (w_db (catch_up w)), row. split_and!; try done; [exists dh; split; [by apply Hv|done]|].
  apply elem_of_app. right. by apply list_elem_of_singleton.
Qed.

Lemma snapshotEnvelope_effect h snap w :
  (∀ e, e ∈ Snapshot_Entries snap → listed (visited w) h e) →
  effect R w (snapshotEnvelope h snap w).2.
Proof using R PreOrder0 Hseq.
  intros Hl. unfold snapshotEnvelope. destruct (signer s) as [kp|]; [|reflexivity].
  apply (bind_at (effect R)); [by apply pool_rel|]. intros n w1 Hp.
  pose proof (effect_visited _ _ _ (pool_rel R (NextHostSeq h) (Hseq h) w)) as Hv. rewrite Hp in Hv.
  apply effect_signing. apply (vouched_snapshot _ _ h (to_uint64 n) snap); [by apply Z.mod_pos_bound|done|].
  intros e He. eapply listed_mono; [exact Hv|auto].
Qed.

Lemma snapshot_then {E A} host (m : M World E Snapshot) (sign : Snapshot → M World E Envelope)
    (k : Snapshot → Envelope → M World E A) :
  (∀ w, (m w).2 = (buildSnapshot host w).2) →
  (∀ w snap w1, m w = (inr snap, w1) → buildSnapshot host w = (inr snap, w1)) →
  (∀ snap w, (sign snap w).2 = (snapshotEnvelope (Host_ID host) snap w).2) →
  (∀ snap env, preserves (effect R) (k snap env)) →
  ∀ w, known host (visited w) → effect R w (bind m (λ snap, bind (sign snap) (k snap)) w).2.
Proof using R PreOrder0 Hkeys Hseq.
  intros Hm2 Hm Hs Hk w Hw. apply (bind_at (effect R)); [rewrite Hm2; apply buildSnapshot_effect|].
  intros snap w1 Hr%Hm. pose proof (buildSnapshot_listed host w snap w1 Hw Hr) as Hl.
  apply (bind_at (effect R)); [rewrite Hs; by apply snapshotEnvelope_effect|]. intros env w2 _. apply Hk.
Qed.

Lemma pool_host hostID w host w1 :
  pool (GetHostByID hostID) w = (inr host, w1) → Host_ID host = hostID ∧ known host (visited w1).
Proof using.
  unfold pool, GetHostByID, select_one.
  destruct (first_row _ _) as [h|] eqn:Hf; destruct (env_fault _); intros Hr; simplify_eq/=.
  apply first_row_Some in Hf as [Hin Hid]. split; [done|]. exists (w_db (catch_up w)). split; [|done].
  apply elem_of_app. right. by apply list_elem_of_singleton.
Qed.
Lemma pushSnapshot_effect {E} h : preserves (effect R) (pushSnapshot h : M World E unit).
Proof using R PreOrder0 Hkeys Hseq Hget.
  apply preserves_ignore. intros w. apply (bind_at (effect R)); [by apply pool_rel|].
  intros host w1 [<- Hk]%pool_host. apply (snapshot_then host); [done..| |done]. intros snap env. solve_rel.
Qed.
End signed.

Lemma buildSnapshot_rel h : evolving (buildSnapshot h).
Proof. apply (buildSnapshot_effect _). eauto with evolve. Qed.
(** The empty snapshot lists no key. *)
Lemma purge_rel h : evolving (snapshotEnvelope h {| Snapshot_Entries := [] |}).
Proof.
  intros w. apply (snapshotEnvelope_effect _); [eauto with evolve|]. by intros e ?%elem_of_nil.
Qed.
Lemma pushSnapshot_rel {E} h : evolving (pushSnapshot h : M World E unit).
Proof. apply (pushSnapshot_effect _); eauto with evolve. Qed.
Hint Resolve buildSnapshot_rel purge_rel pushSnapshot_rel : preserve.
Lemma pushToHosts_rel {E} l : evolving (pushToHosts l : M World E unit).
Proof. solve_evolving. Qed.
Lemma pushIfHostGrant_rel {E} p k t : evolving (pushIfHostGrant p k t : M World E unit).
Proof. solve_evolving. Qed.
Lemma emailOf_rel {E} u : evolving (emailOf u : M World E string).
Proof. solve_evolving. Qed.
Hint Resolve emailOf_rel pushIfHostGrant_rel : preserve.
Lemma auditGrant_rel a g u : evolving (auditGrant a g u).
Proof. solve_evolving. Qed.
Lemma grantOwner_rel u k t l : evolving (grantOwner u k t l).
Proof. solve_evolving. Qed.
Hint Resolve auditGrant_rel grantOwner_rel : preserve.
Lemma handleCreateGrant_rel a r : evolving (handleCreateGrant a r).
Proof. solve_evolving. Qed.
Lemma handleRevokeGrant_rel a r : evolving (handleRevokeGrant a r).
Proof. solve_evolving. Qed.
End grants.
#[export] Hint Resolve buildSnapshot_rel purge_rel pushSnapshot_rel pushToHosts_rel
  pushIfHostGrant_rel emailOf_rel auditGrant_rel grantOwner_rel handleCreateGrant_rel
  handleRevokeGrant_rel : preserve.
