(* ===== verification/Accounts.v ===== *)
(** User accounts and SSH keys: [internal/controlplane/users.go],
    [internal/controlplane/keys.go] and [CreateAdmin] of [store.go]. *)
From S2P Require Import Prelude Text Base64 Json Protocol Crypto Schema Evolve QUsers QAccess QSecrets World Http Perms Grants.

Section accounts.
Context `{Platform} (s : Server).

Definition json_time (t : Z) : json := JStr (time_print t).
Definition json_strings (l : list string) : json := JArr (JStr <$> l).

(** ** users.go *)

Definition userView (u : User) : json :=
  JObj [("id", JStr (uuidString (User_ID u))); ("email", JStr (User_Email u));
        ("name", JStr (User_Name u)); ("display_name", JStr (textString (User_DisplayName u)));
        ("role", JStr (User_Role u)); ("status", JStr (User_Status u));
        ("created_at", json_time (User_CreatedAt u))].

Definition handleListUsers (auth : authInfo) (r : Request) : Handler :=
  rows <- (pool ListUsers <!> answerAll (serverError "could not list users"));;
  writeResponse s (auth_ClientPublicKey auth) (JArr (userView <$> rows)).

(** Parses the id and refuses self-targeting. *)
Definition targetUser (auth : authInfo) (r : Request) : M World Response uuid :=
  userID <- orFail (parseUUID (URLParam r "id")) (badRequest "invalid user id");;
  require (negb (bool_decide (uuidString userID = uuidString (auth_UserID auth))))
    (badRequest "you cannot change your own account status");;;
  ret userID.

(** [hosts, _ := s.q.UserGrantedHostIDs(...)]: nil on error. *)
Definition grantedHosts {E} (userID : uuid) : M World E (list uuid) :=
  r <- attempt (pool (UserGrantedHostIDs userID));;
  ret (match r with inr l => l | inl _ => [] end).

Definition handleSuspendUser (auth : authInfo) (r : Request) : Handler :=
  userID <- targetUser auth r;;
  hosts <- grantedHosts userID;;
  n <- (pool (SetUserStatus userID "suspended") <!> answerAll (serverError "could not suspend user"));;
  require (negb (bool_decide (n = 0))) (httpError "user not found" StatusNotFound);;;
  ignore (pool (RevokeAllUserSessions userID));;;
  pushToHosts s hosts;;;
  ret noContent.

Definition handleActivateUser (auth : authInfo) (r : Request) : Handler :=
  userID <- targetUser auth r;;
  n <- (pool (SetUserStatus userID "active") <!> answerAll (serverError "could not activate user"));;
  require (negb (bool_decide (n = 0))) (httpError "user not found" StatusNotFound);;;
  hosts <- grantedHosts userID;;
  pushToHosts s hosts;;;
  ret noContent.

Definition handleRemoveUser (auth : authInfo) (r : Request) : Handler :=
  let failed := serverError "could not remove user" in
  userID <- targetUser auth r;;
  hosts <- grantedHosts userID;;
  (Begin <!> answerAll failed);;;
  deferRollback (
    n <- (inTx (SetUserStatus userID "removed") <!> answerAll failed);;
    require (negb (bool_decide (n = 0))) (httpError "user not found" StatusNotFound);;;
    (inTx (DeleteUserIdentities userID) <!> answerAll failed);;;
    (inTx (RevokeAllUserGrants userID) <!> answerAll failed);;;
    (inTx (RevokeAllUserSessions userID) <!> answerAll failed);;;
    (Commit <!> answerAll failed);;;
    pushToHosts s hosts;;;
    ret noContent).

(** ** keys.go *)

Record addKeyRequest := { addKey_Label : string; addKey_PublicKey : string }.
Definition addKeyRequest_of_json : json → option addKeyRequest :=
  as_struct (Build_addKeyRequest "" "") (λ o,
    l ← decode_field as_string "" "label" o; k ← decode_field as_string "" "public_key" o;
    Some (Build_addKeyRequest l k)).

Definition publicKeyView (k : PublicKey) : json :=
  JObj [("id", JStr (uuidString (PublicKey_ID k))); ("label", JStr (PublicKey_Label k));
        ("fingerprint", JStr (PublicKey_Fingerprint k));
        ("created_at", json_time (PublicKey_CreatedAt k))].

Definition orInvalid {A} (x : error + A) (r : Response) : M World Response A :=
  match x with inr a => ret a | inl _ => throw r end.

Definition handleAddKey (auth : authInfo) (r : Request) : Handler :=
  req <- orFail (readRequest s addKeyRequest_of_json r) (badRequest "invalid request");;
  parsed <- orInvalid (SshKey.ParseAuthorizedKey (addKey_PublicKey req))
              (badRequest "invalid public key");;
  let '(keyType, blob) := parsed in
  fingerprint <- orInvalid (SshKey.Fingerprint blob) (badRequest "invalid public key");;
  key <- (pool (CreatePublicKey (auth_UserID auth) (addKey_Label req) keyType blob fingerprint)
          <!> λ e, throw (if isUniqueViolation e
                          then httpError "key already registered" StatusConflict
                          else serverError "could not add key"));;
  hosts <- grantedHosts (auth_UserID auth);;
  pushToHosts s hosts;;;
  writeResponse s (auth_ClientPublicKey auth) (publicKeyView key).

Definition handleListKeys (auth : authInfo) (r : Request) : Handler :=
  rows <- (pool (ListUserPublicKeys (auth_UserID auth)) <!> answerAll (serverError "could not list keys"));;
  writeResponse s (auth_ClientPublicKey auth) (JArr (publicKeyView <$> rows)).

Definition handleDeleteKey (auth : authInfo) (r : Request) : Handler :=
  keyID <- orFail (parseUUID (URLParam r "id")) (badRequest "invalid key id");;
  n <- (pool (DeletePublicKey keyID (auth_UserID auth)) <!> answerAll (serverError "could not delete key"));;
  require (negb (bool_decide (n = 0))) (httpError "key not found" StatusNotFound);;;
  hosts <- grantedHosts (auth_UserID auth);;
  pushToHosts s hosts;;;
  ret noContent.

(** ** store.go: the first admin, made from the command line; [hash] is the
    password's hash. *)
Definition ErrEmailTaken := ErrMsg "a user with that email already exists".
Definition CreateAdmin (email hash : string) : IO unit :=
  Begin;;;
  deferRollback (
    user <- (inTx (CreateUser email "Admin" None "admin")
             <!> λ e, throw (if isUniqueViolation e then ErrEmailTaken
                             else ErrMsg "create admin user"));;
    (inTx (CreateIdentity (User_ID user) "password" email (Some hash))
       <!> λ e, throw (ErrMsg "create admin identity"));;;
    Commit).

(** ** Every handler evolves the database *)

Lemma handleListUsers_rel a r : evolving (handleListUsers a r).
Proof. solve_evolving. Qed.
Lemma targetUser_rel a r : evolving (targetUser a r).
Proof. solve_evolving. Qed.
Lemma grantedHosts_rel {E} u : evolving (grantedHosts u : M World E _).
Proof. solve_evolving. Qed.
Lemma orInvalid_rel {A} (x : error + A) r : evolving (orInvalid x r).
Proof. solve_evolving. Qed.
Hint Resolve targetUser_rel grantedHosts_rel orInvalid_rel : preserve.
Lemma handleSuspendUser_rel a r : evolving (handleSuspendUser a r).
Proof. solve_evolving. Qed.
Lemma handleActivateUser_rel a r : evolving (handleActivateUser a r).
Proof. solve_evolving. Qed.
Lemma handleRemoveUser_rel a r : evolving (handleRemoveUser a r).
Proof. solve_evolving. Qed.
Lemma handleAddKey_rel a r : evolving (handleAddKey a r).
Proof. solve_evolving. Qed.
Lemma handleListKeys_rel a r : evolving (handleListKeys a r).
Proof. solve_evolving. Qed.
Lemma handleDeleteKey_rel a r : evolving (handleDeleteKey a r).
Proof. solve_evolving. Qed.
Lemma CreateAdmin_rel e h : evolving (CreateAdmin e h).
Proof. solve_evolving. Qed.
End accounts.
#[export] Hint Resolve handleListUsers_rel targetUser_rel grantedHosts_rel orInvalid_rel
  handleSuspendUser_rel handleActivateUser_rel handleRemoveUser_rel handleAddKey_rel
  handleListKeys_rel handleDeleteKey_rel CreateAdmin_rel : preserve.
