(* ===== verification/Auth.v ===== *)
(** Sessions, invitations and password resets:
    [internal/controlplane/{auth,invitations,password_reset}.go] and the
    profile of [reads.go]. *)
From Stdlib Require Import Ascii.
From S2P Require Import Prelude Text Base64 Json Protocol Crypto Password Schema Evolve QUsers QAccess QSecrets World Http Perms Grants Accounts.

(** [strings.TrimRight(s, "/")] *)
Fixpoint drop_slashes (l : list ascii) : list ascii :=
  match l with c :: l' => if Ascii.eqb c "/"%char then drop_slashes l' else l | [] => [] end.
Definition TrimRightSlash (s : string) : string :=
  implode (reverse (drop_slashes (reverse (explode s)))).

(** A [[]byte] field that may be absent (nil). *)
Definition as_opt_bytes (j : json) : option (option bytes) := Some <$> as_bytes j.
Definition as_opt_string (j : json) : option (option string) := Some <$> as_string j.
(** [len(b) == 0] *)
Definition no_bytes (b : option bytes) : bool := bool_decide (default "" b = "").

Section auth.
Context `{Platform} (s : Server).

Definition accessTTL : Z := 15 * minute.
Definition refreshTTL : Z := 30 * 24 * hour.
Definition maxLoginFailures : Z := 5.
Definition loginWindow : Z := 15 * minute.
Definition lockDuration : Z := 15 * minute.
Definition inviteTTL : Z := 7 * 24 * hour.
Definition resetTTL : Z := hour.

Definition errBadCredentials := ErrMsg "invalid credentials".
Definition errTooManyAttempts := ErrMsg "too many failed login attempts".
Definition errInvalidInvite := ErrMsg "invalid or expired invitation".
Definition errInvalidReset := ErrMsg "invalid or expired reset token".

(** ** Helpers *)

Definition expiry {E} (d : Z) : M World E Z := now <- timeNow;; ret (now + d).
Definition newToken {E} : M World E (string * string) := b <- randBytes 32;; ret (GenerateToken b).
Definition hashPassword {E} (plain : string) : M World E string :=
  salt <- randBytes Password.saltLen;; ret (Password.Hash salt plain).

(** [email.Sender.Send]: delivered, or refused by the provider. *)
Definition sendEmail (to subject html : string) : IO unit := λ w,
  match env_fault (w_tick w) with
  | NoFault => (inr tt, with_mail (w_mail w ++ [(to, subject, html)]) (step w))
  | FailBefore e => (inl e, step w)
  | FailAfter e => (inl e, with_mail (w_mail w ++ [(to, subject, html)]) (step w))
  end.

(** [used.Valid || expiresAt.Before(time.Now())] *)
Definition spentOrExpired {E} (used : option Z) (expiresAt : Z) : M World E bool :=
  if decide (is_Some used) then ret true else
  now <- timeNow;;
  ret (bool_decide (expiresAt < now)).

(** ** auth.go *)

Record loginRequest := {
  login_Email : string; login_Password : string; login_ClientPublicKey : option bytes }.
Definition loginRequest_of_json : json → option loginRequest :=
  as_struct (Build_loginRequest "" "" None) (λ o,
    e ← decode_field as_string "" "email" o; p ← decode_field as_string "" "password" o;
    k ← decode_field as_opt_bytes None "client_public_key" o; Some (Build_loginRequest e p k)).

Record tokenPair := { AccessToken_ : string; RefreshToken_ : string }.
Definition tokenPair_json (p : tokenPair) : json :=
  JObj [("access_token", JStr (AccessToken_ p)); ("refresh_token", JStr (RefreshToken_ p))].

(** In the caller's transaction. *)
Definition mintAccessToken (sessionID : uuid) : IO string :=
  tok <- newToken;;
  let '(raw, hash) := tok in
  exp <- expiry accessTTL;;
  inTx (CreateAccessToken sessionID hash exp);;;
  ret raw.

(** The failure count and lock to store: a streak older than the window
    starts again, and the lock is set when the count reaches the limit. *)
Definition recordFailedLogin {E} (id : Identity) : M World E unit :=
  count <- (match Identity_LastFailedAt id with
            | None => ret (Identity_FailedLogins id + 1)
            | Some t =>
                now <- timeNow;;
                ret (if decide (now - t > loginWindow) then 1 else Identity_FailedLogins id + 1)
            end);;
  if decide (maxLoginFailures ≤ count) then
    until <- expiry lockDuration;;
    ignore (pool (SetLoginFailure (Identity_ID id) 0 (Some until)))
  else ignore (pool (SetLoginFailure (Identity_ID id) count None)).

(** [id.LockedUntil.Valid && id.LockedUntil.Time.After(time.Now())] *)
Definition locked {E} (id : Identity) : M World E bool :=
  match Identity_LockedUntil id with
  | None => ret false
  | Some t => now <- timeNow;; ret (bool_decide (now < t))
  end.

(** The session a verified login opens, and its tokens, in one transaction. *)
Definition openSession (id : Identity) (clientKey : option bytes) : IO tokenPair :=
  Begin;;;
  deferRollback (
    tok <- newToken;;
    let '(rawRefresh, refreshHash) := tok in
    exp <- expiry refreshTTL;;
    sess <- inTx (CreateSession (Identity_UserID id) refreshHash clientKey exp);;
    rawAccess <- mintAccessToken (Session_ID sess);;
    ignore (inTx (TouchIdentityLogin (Identity_ID id)));;;
    Commit;;;
    ret {| AccessToken_ := rawAccess; RefreshToken_ := rawRefresh |}).

(** The verifications against [dummyHash] only take time. *)
Definition login (req : loginRequest) : IO tokenPair :=
  id <- (pool (GetIdentity "password" (login_Email req))
         <!> λ e, throw (if decide (e = ErrNoRows) then errBadCredentials else e));;
  isLocked <- locked id;;
  (if isLocked : bool then throw errTooManyAttempts else ret tt);;;
  match Identity_PasswordHash id with
  | None => throw errBadCredentials
  | Some hash =>
      match Password.Verify hash (login_Password req) with
      | inr true =>
          ignore (pool (ResetLoginFailures (Identity_ID id)));;;
          openSession id (login_ClientPublicKey req)
      | inl _ | inr false => recordFailedLogin id;;; throw errBadCredentials
      end
  end.

Definition keyRequired := badRequest "client_public_key is required".

Definition handleLogin (r : Request) : Handler :=
  req <- orFail (readRequest s loginRequest_of_json r) (badRequest "invalid request");;
  require (negb (bool_decide (login_Email req = "" ∨ login_Password req = "")))
    (badRequest "email and password are required");;;
  require (negb (cfg_EncryptionEnabled (cfg s) && no_bytes (login_ClientPublicKey req)))
    keyRequired;;;
  tokens <- (login req <!> λ e, throw (
    if decide (e = errTooManyAttempts)
    then httpError "too many failed attempts; try again later" StatusTooManyRequests
    else if decide (e = errBadCredentials)
    then httpError "invalid credentials" StatusUnauthorized
    else serverError "login failed"));;
  writeResponse s (login_ClientPublicKey req) (tokenPair_json tokens).

Record refreshRequest := { refresh_Token : string; refresh_ClientPublicKey : option bytes }.
Definition refreshRequest_of_json : json → option refreshRequest :=
  as_struct (Build_refreshRequest "" None) (λ o,
    t ← decode_field as_string "" "refresh_token" o;
    k ← decode_field as_opt_bytes None "client_public_key" o; Some (Build_refreshRequest t k)).

(** Rotates the refresh token: the old one stops working. *)
Definition refresh (req : refreshRequest) : IO (tokenPair * option bytes) :=
  sess <- (pool (GetSessionByTokenHash (HashToken (refresh_Token req)))
           <!> λ e, throw (if decide (e = ErrNoRows) then errBadCredentials else e));;
  Begin;;;
  deferRollback (
    let fresh := negb (no_bytes (refresh_ClientPublicKey req)) in
    let clientPublic := if fresh then refresh_ClientPublicKey req else Session_ClientPublicKey sess in
    when fresh (inTx (UpdateSessionClientKey (Session_ID sess) clientPublic));;;
    tok <- newToken;;
    let '(rawRefresh, refreshHash) := tok in
    inTx (RotateSessionToken (Session_ID sess) refreshHash);;;
    rawAccess <- mintAccessToken (Session_ID sess);;
    Commit;;;
    ret ({| AccessToken_ := rawAccess; RefreshToken_ := rawRefresh |}, clientPublic)).

Definition handleRefresh (r : Request) : Handler :=
  req <- orFail (readRequest s refreshRequest_of_json r) (badRequest "invalid request");;
  require (negb (bool_decide (refresh_Token req = ""))) (badRequest "refresh_token is required");;;
  require (negb (cfg_EncryptionEnabled (cfg s) && no_bytes (refresh_ClientPublicKey req)))
    keyRequired;;;
  res <- (refresh req <!> λ e, throw (
    if decide (e = errBadCredentials) then httpError "invalid refresh token" StatusUnauthorized
    else serverError "refresh failed"));;
  let '(tokens, clientPublic) := res in
  writeResponse s clientPublic (tokenPair_json tokens).

Definition handleLogout (auth : authInfo) (r : Request) : Handler :=
  (pool (RevokeSession (auth_SessionID auth))
     <!> answerAll (httpError "logout failed" StatusInternalServerError));;;
  ret noContent.

(** ** reads.go: the caller's profile *)

Definition globalPermissionsFor (auth : authInfo) : IO (list string) :=
  if isAdmin auth then
    rows <- pool ListGlobalPermissions;; ret (Permission_Key <$> rows)
  else
    rows <- pool (ListUserGlobalPermissions (auth_UserID auth));; ret (row_key <$> rows).

Definition meView (u : User) (permissions : list string) : json :=
  JObj [("id", JStr (uuidString (User_ID u))); ("email", JStr (User_Email u));
        ("name", JStr (User_Name u)); ("display_name", JStr (textString (User_DisplayName u)));
        ("role", JStr (User_Role u)); ("global_permissions", json_strings permissions)].

Definition handleMe (auth : authInfo) (r : Request) : Handler :=
  user <- (pool (GetUserByID (auth_UserID auth)) <!> answerAll (serverError "could not load profile"));;
  permissions <- (globalPermissionsFor auth <!> answerAll (serverError "could not load permissions"));;
  writeResponse s (auth_ClientPublicKey auth) (meView user permissions).

Definition updateProfileRequest_of_json : json → option (option string * option string) :=
  as_struct (None, None) (λ o,
    n ← decode_field as_opt_string None "name" o;
    d ← decode_field as_opt_string None "display_name" o; Some (n, d)).

Definition handleUpdateProfile (auth : authInfo) (r : Request) : Handler :=
  let failed := serverError "could not update profile" in
  req <- orFail (readRequest s updateProfileRequest_of_json r) (badRequest "invalid request");;
  let '(name, displayName) := req in
  match name with
  | Some n =>
      require (negb (bool_decide (n = ""))) (badRequest "name cannot be empty");;;
      pool (UpdateUserName (auth_UserID auth) n) <!> answerAll failed
  | None => ret tt
  end;;;
  match displayName with
  | Some d => pool (UpdateUserDisplayName (auth_UserID auth) (pgText d)) <!> answerAll failed
  | None => ret tt
  end;;;
  handleMe auth r.

(** ** invitations.go *)

Definition invitesDisabled :=
  httpError "invites not configured (CUSTOS_APP_URL unset)" StatusServiceUnavailable.

Definition createInvitationRequest_of_json : json → option (string * string) :=
  as_struct ("", "") (λ o,
    e ← decode_field as_string "" "email" o; r ← decode_field as_string "" "role" o;
    Some (e, r)).

Definition invitationView (i : Invitation) : json :=
  JObj [("id", JStr (uuidString (Invitation_ID i))); ("email", JStr (Invitation_Email i));
        ("role", JStr (Invitation_Role i)); ("expires_at", json_time (Invitation_ExpiresAt i))].

(** [fmt.Sprintf] with a quoted attribute. *)
Definition quote : string := String "034"%char "".
Definition sendInvite (to token : string) : IO unit :=
  let link := TrimRightSlash (cfg_AppURL (cfg s)) +:+ "/accept?token=" +:+ token in
  sendEmail to "You're invited to custos"
    ("<p>You've been invited to custos.</p><p><a href=" +:+ quote +:+ link +:+ quote +:+
     ">Accept your invitation</a></p>").

Definition handleCreateInvitation (auth : authInfo) (r : Request) : Handler :=
  let failed := serverError "could not create invitation" in
  require (negb (bool_decide (cfg_AppURL (cfg s) = ""))) invitesDisabled;;;
  req <- orFail (readRequest s createInvitationRequest_of_json r) (badRequest "invalid request");;
  let '(email, asked) := req in
  require (negb (bool_decide (email = ""))) (badRequest "email is required");;;
  let role := if decide (asked = "") then "member" else asked in
  require (bool_decide (role = "admin" ∨ role = "member"))
    (badRequest "role must be admin or member");;;
  tok <- newToken;;
  let '(raw, hash) := tok in
  exp <- expiry inviteTTL;;
  inv <- (pool (CreateInvitation email role hash (Some (auth_UserID auth)) exp) <!> answerAll failed);;
  (sendInvite email raw
     <!> answerAll (serverError "invitation created but email failed to send"));;;
  writeResponse s (auth_ClientPublicKey auth) (invitationView inv).

Record acceptInvitationRequest := {
  accept_Token : string; accept_Name : string; accept_DisplayName : string;
  accept_Password : string }.
Definition acceptInvitationRequest_of_json : json → option acceptInvitationRequest :=
  as_struct (Build_acceptInvitationRequest "" "" "" "") (λ o,
    t ← decode_field as_string "" "token" o; n ← decode_field as_string "" "name" o;
    d ← decode_field as_string "" "display_name" o; p ← decode_field as_string "" "password" o;
    Some (Build_acceptInvitationRequest t n d p)).

Definition acceptInvitation (req : acceptInvitationRequest) : IO unit :=
  inv <- (pool (GetInvitationByTokenHash (HashToken (accept_Token req)))
          <!> λ e, throw (if decide (e = ErrNoRows) then errInvalidInvite else e));;
  spent <- spentOrExpired (Invitation_AcceptedAt inv) (Invitation_ExpiresAt inv);;
  (if spent : bool then throw errInvalidInvite else ret tt);;;
  hash <- hashPassword (accept_Password req);;
  Begin;;;
  deferRollback (
    user <- (inTx (CreateUser (Invitation_Email inv) (accept_Name req)
                     (pgText (accept_DisplayName req)) (Invitation_Role inv))
             <!> λ e, throw (if isUniqueViolation e then ErrEmailTaken else e));;
    inTx (CreateIdentity (User_ID user) "password" (Invitation_Email inv) (Some hash));;;
    inTx (MarkInvitationAccepted (Invitation_ID inv));;;
    Commit).

Definition handleAcceptInvitation (r : Request) : Handler :=
  req <- orFail (readRequest s acceptInvitationRequest_of_json r) (badRequest "invalid request");;
  require (negb (bool_decide (accept_Token req = "" ∨ accept_Name req = "" ∨
                              accept_Password req = "")))
    (badRequest "token, name and password are required");;;
  (acceptInvitation req <!> λ e, throw (
     if decide (e = errInvalidInvite)
     then httpError "invalid or expired invitation" StatusUnauthorized
     else if decide (e = ErrEmailTaken)
     then httpError "an account with that email already exists" StatusConflict
     else serverError "could not accept invitation"));;;
  ret noContent.

Definition inviteGone := httpError "invitation not found or already accepted" StatusNotFound.

Definition handleCancelInvitation (auth : authInfo) (r : Request) : Handler :=
  id <- orFail (parseUUID (URLParam r "id")) (badRequest "invalid invitation id");;
  n <- (pool (DeleteInvitation id) <!> answerAll (serverError "could not cancel invitation"));;
  require (negb (bool_decide (n = 0))) inviteGone;;;
  ret noContent.

Definition handleResendInvitation (auth : authInfo) (r : Request) : Handler :=
  require (negb (bool_decide (cfg_AppURL (cfg s) = ""))) invitesDisabled;;;
  id <- orFail (parseUUID (URLParam r "id")) (badRequest "invalid invitation id");;
  tok <- newToken;;
  let '(raw, hash) := tok in
  exp <- expiry inviteTTL;;
  inv <- (pool (RefreshInvitationToken id hash exp)
          <!> answer inviteGone (serverError "could not resend invitation"));;
  (sendInvite (Invitation_Email inv) raw
     <!> answerAll (serverError "invitation updated but email failed to send"));;;
  writeResponse s (auth_ClientPublicKey auth) (invitationView inv).

Definition handleListInvitations (auth : authInfo) (r : Request) : Handler :=
  rows <- (pool ListPendingInvitations <!> answerAll (serverError "could not list invitations"));;
  writeResponse s (auth_ClientPublicKey auth) (JArr (invitationView <$> rows)).

(** ** password_reset.go *)

Definition passwordResetRequest_of_json : json → option string :=
  as_struct "" (decode_field as_string "" "email").

Definition startPasswordReset {E} (addr : string) : M World E unit :=
  ignore (
    user <- pool (GetUserByEmail addr);;
    tok <- newToken;;
    let '(raw, hash) := tok in
    exp <- expiry resetTTL;;
    pool (CreatePasswordReset (User_ID user) hash exp);;;
    let link := TrimRightSlash (cfg_AppURL (cfg s)) +:+ "/reset?token=" +:+ raw in
    sendEmail addr "Reset your custos password"
      ("<p>Reset your custos password:</p><p><a href=" +:+ quote +:+ link +:+ quote +:+
       ">Choose a new password</a></p><p>This link expires in an hour.</p>")).

(** The reset runs in a goroutine of its own; here it runs to its end before
    the next step of the server.  The response does not wait for it. *)
Definition handlePasswordReset (r : Request) : Handler :=
  require (negb (bool_decide (cfg_AppURL (cfg s) = "")))
    (httpError "password reset not configured (CUSTOS_APP_URL unset)" StatusServiceUnavailable);;;
  email <- orFail (readRequest s passwordResetRequest_of_json r) (badRequest "invalid request");;
  require (negb (bool_decide (email = ""))) (badRequest "email is required");;;
  startPasswordReset email;;;
  ret noContent.

Record passwordResetConfirmRequest := { confirm_Token : string; confirm_Password : string }.
Definition passwordResetConfirmRequest_of_json : json → option passwordResetConfirmRequest :=
  as_struct (Build_passwordResetConfirmRequest "" "") (λ o,
    t ← decode_field as_string "" "token" o; p ← decode_field as_string "" "password" o;
    Some (Build_passwordResetConfirmRequest t p)).

Definition confirmPasswordReset (req : passwordResetConfirmRequest) : IO unit :=
  reset <- (pool (GetPasswordReset (HashToken (confirm_Token req)))
            <!> λ e, throw (if decide (e = ErrNoRows) then errInvalidReset else e));;
  spent <- spentOrExpired (PasswordReset_UsedAt reset) (PasswordReset_ExpiresAt reset);;
  (if spent : bool then throw errInvalidReset else ret tt);;;
  hash <- hashPassword (confirm_Password req);;
  Begin;;;
  deferRollback (
    inTx (UpdatePasswordIdentity (PasswordReset_UserID reset) (Some hash));;;
    inTx (MarkPasswordResetUsed (PasswordReset_ID reset));;;
    inTx (RevokeAllUserSessions (PasswordReset_UserID reset));;;
    Commit).

Definition handlePasswordResetConfirm (r : Request) : Handler :=
  req <- orFail (readRequest s passwordResetConfirmRequest_of_json r) (badRequest "invalid request");;
  require (negb (bool_decide (confirm_Token req = "" ∨ confirm_Password req = "")))
    (badRequest "token and password are required");;;
  (confirmPasswordReset req <!> λ e, throw (
     if decide (e = errInvalidReset)
     then httpError "invalid or expired reset token" StatusUnauthorized
     else serverError "could not reset password"));;;
  ret noContent.

(** ** Every handler evolves the database *)

Lemma expiry_rel {E} d : evolving (expiry d : M World E Z).
Proof. solve_evolving. Qed.
Lemma newToken_rel {E} : evolving (newToken : M World E _).
Proof. solve_evolving. Qed.
Lemma hashPassword_rel {E} p : evolving (hashPassword p : M World E _).
Proof. solve_evolving. Qed.
Lemma sendEmail_rel t u h : evolving (sendEmail t u h).
Proof.
  intros w. unfold sendEmail.
  destruct (env_fault _); by apply effect_same; auto.
Qed.
Lemma spentOrExpired_rel {E} u x : evolving (spentOrExpired u x : M World E _).
Proof. solve_evolving. Qed.
Hint Resolve expiry_rel newToken_rel hashPassword_rel sendEmail_rel spentOrExpired_rel : preserve.
Lemma mintAccessToken_rel i : evolving (mintAccessToken i).
Proof. solve_evolving. Qed.
Lemma recordFailedLogin_rel {E} i : evolving (recordFailedLogin i : M World E unit).
Proof. solve_evolving. Qed.
Lemma locked_rel {E} i : evolving (locked i : M World E bool).
Proof. solve_evolving. Qed.
Hint Resolve mintAccessToken_rel recordFailedLogin_rel locked_rel : preserve.
Lemma openSession_rel i k : evolving (openSession i k).
Proof. solve_evolving. Qed.
Hint Resolve openSession_rel : preserve.
Lemma login_rel q : evolving (login q).
Proof. solve_evolving. Qed.
Lemma refresh_rel q : evolving (refresh q).
Proof. solve_evolving. Qed.
Hint Resolve login_rel refresh_rel : preserve.
Lemma handleLogin_rel r : evolving (handleLogin r).
Proof. solve_evolving. Qed.
Lemma handleRefresh_rel r : evolving (handleRefresh r).
Proof. solve_evolving. Qed.
Lemma handleLogout_rel a r : evolving (handleLogout a r).
Proof. solve_evolving. Qed.
Lemma globalPermissionsFor_rel a : evolving (globalPermissionsFor a).
Proof. solve_evolving. Qed.
Hint Resolve globalPermissionsFor_rel : preserve.
Lemma handleMe_rel a r : evolving (handleMe a r).
Proof. solve_evolving. Qed.
Hint Resolve handleMe_rel : preserve.
Lemma handleUpdateProfile_rel a r : evolving (handleUpdateProfile a r).
Proof. solve_evolving. Qed.
Lemma sendInvite_rel t k : evolving (sendInvite t k).
Proof. solve_evolving. Qed.
Hint Resolve sendInvite_rel : preserve.
Lemma handleCreateInvitation_rel a r : evolving (handleCreateInvitation a r).
Proof. solve_evolving. Qed.
Lemma acceptInvitation_rel q : evolving (acceptInvitation q).
Proof. solve_evolving. Qed.
Hint Resolve acceptInvitation_rel : preserve.
Lemma handleAcceptInvitation_rel r : evolving (handleAcceptInvitation r).
Proof. solve_evolving. Qed.
Lemma handleCancelInvitation_rel a r : evolving (handleCancelInvitation a r).
Proof. solve_evolving. Qed.
Lemma handleResendInvitation_rel a r : evolving (handleResendInvitation a r).
Proof. solve_evolving. Qed.
Lemma handleListInvitations_rel a r : evolving (handleListInvitations a r).
Proof. solve_evolving. Qed.
Lemma startPasswordReset_rel {E} e : evolving (startPasswordReset e : M World E unit).
Proof. solve_evolving. Qed.
Lemma confirmPasswordReset_rel q : evolving (confirmPasswordReset q).
Proof. solve_evolving. Qed.
Hint Resolve startPasswordReset_rel confirmPasswordReset_rel : preserve.
Lemma handlePasswordReset_rel r : evolving (handlePasswordReset r).
Proof. solve_evolving. Qed.
Lemma handlePasswordResetConfirm_rel r : evolving (handlePasswordResetConfirm r).
Proof. solve_evolving. Qed.
End auth.
#[export] Hint Resolve expiry_rel newToken_rel hashPassword_rel sendEmail_rel spentOrExpired_rel
  mintAccessToken_rel recordFailedLogin_rel locked_rel openSession_rel login_rel refresh_rel
  handleLogin_rel handleRefresh_rel handleLogout_rel globalPermissionsFor_rel handleMe_rel
  handleUpdateProfile_rel sendInvite_rel handleCreateInvitation_rel acceptInvitation_rel
  handleAcceptInvitation_rel handleCancelInvitation_rel handleResendInvitation_rel
  handleListInvitations_rel startPasswordReset_rel confirmPasswordReset_rel
  handlePasswordReset_rel handlePasswordResetConfirm_rel : preserve.
