(* ===== verification/Secrets.v ===== *)
(** Vault secrets: [internal/controlplane/secrets.go].

    The password and notes of a secret are one JSON object, sealed by the vault
    (or absent when both are empty); label, url, username and recipient are
    stored in clear. *)
From S2P Require Import Prelude Text Base64 Json Protocol Crypto Schema Evolve QUsers QAccess QSecrets World Http Perms Grants Accounts.

Section secrets.
Context `{Platform} (s : Server).

(** ** Sealed fields *)

Record secretFields := { sf_Password : string; sf_Notes : string }.
Definition secretFields_zero : secretFields := {| sf_Password := ""; sf_Notes := "" |}.
Definition secretFields_json (f : secretFields) : json :=
  JObj (omitempty "password" (sf_Password f) ++ omitempty "notes" (sf_Notes f)).
Definition secretFields_of_json : json → option secretFields :=
  as_struct secretFields_zero (λ o,
    p ← decode_field as_string "" "password" o; n ← decode_field as_string "" "notes" o;
    Some (Build_secretFields p n)).

Definition fields_empty (f : secretFields) : bool :=
  bool_decide (sf_Password f = "" ∧ sf_Notes f = "").

Record createSecretRequest := {
  cs_Label : string; cs_URL : string; cs_Username : string; cs_OTPRecipient : string;
  cs_Password : string; cs_Notes : string }.
Definition createSecretRequest_of_json : json → option createSecretRequest :=
  as_struct (Build_createSecretRequest "" "" "" "" "" "") (λ o,
    l ← decode_field as_string "" "label" o; u ← decode_field as_string "" "url" o;
    n ← decode_field as_string "" "username" o; t ← decode_field as_string "" "otp_recipient" o;
    p ← decode_field as_string "" "password" o; q ← decode_field as_string "" "notes" o;
    Some (Build_createSecretRequest l u n t p q)).

(** [vault.Seal] draws its data key and the two nonces. *)
Definition vaultSeal (kw : Vault.KeyWrapper) (plaintext : bytes) : IO Vault.Sealed :=
  dataKey <- randBytes Vault.keySize;;
  nonce <- randBytes gcmNonceSize;;
  wrapNonce <- randBytes gcmNonceSize;;
  lift (Vault.Seal kw dataKey nonce wrapNonce plaintext).

(** The three nullable columns. *)
Definition sealFields (kw : Vault.KeyWrapper) (req : createSecretRequest) :
    IO (option Vault.Sealed) :=
  let f := {| sf_Password := cs_Password req; sf_Notes := cs_Notes req |} in
  if fields_empty f then ret None else
  sealed <- vaultSeal kw (json_print (secretFields_json f));;
  ret (Some sealed).

Definition openFields (kw : Vault.KeyWrapper) (ct nonce wrapped : option bytes) :
    error + secretFields :=
  match ct with
  | None => inr secretFields_zero
  | Some c =>
      match Vault.Open kw {| Vault.Ciphertext := c; Vault.Nonce := default "" nonce;
                             Vault.WrappedKey := default "" wrapped |} with
      | inl e => inl e
      | inr plaintext =>
          match unmarshal secretFields_of_json plaintext with
          | Some f => inr f
          | None => inl (ErrMsg "json")
          end
      end
  end.

Definition auditSecret {E} (secretID : option uuid) (label action : string) (userID : uuid) :
    M World E unit :=
  ignore (pool (InsertSecretAudit secretID label action (Some userID))).

(** ** Views *)

(** [actorOf]; the user's columns are null when the join found no row. *)
Definition actorOf (id : option uuid) (u : option User) : json :=
  match id with
  | None => JNull
  | Some i =>
      let text f := textString (u ≫= f) in
      JObj ([("id", JStr (uuidString i)); ("name", JStr (text (λ u, Some (User_Name u))))] ++
            omitempty "display_name" (text User_DisplayName) ++
            omitempty "email" (text (λ u, Some (User_Email u))))
  end.

Definition secretView (x : Secret) (createdBy updatedBy : json) (permissions : list string) :
    list (string * json) :=
  [("id", JStr (uuidString (Secret_ID x))); ("label", JStr (Secret_Label x));
   ("url", JStr (textString (Secret_Url x))); ("username", JStr (textString (Secret_Username x)));
   ("otp_recipient", JStr (textString (Secret_OtpRecipient x)));
   ("created_by", createdBy); ("updated_by", updatedBy);
   ("created_at", json_time (Secret_CreatedAt x)); ("updated_at", json_time (Secret_UpdatedAt x));
   ("permissions", json_strings permissions)].

Definition secretViewFromGet {E} (auth : authInfo) (row : GetSecretRow) :
    M World E (list (string * json)) :=
  let x := GetSecretRow_Secret row in
  permissions <- secretPermissions auth (Secret_ID x);;
  ret (secretView x (actorOf (Secret_CreatedBy x) (GetSecretRow_CreatedByUser row))
         (actorOf (Secret_UpdatedBy x) (GetSecretRow_UpdatedByUser row)) permissions).

(** ** Handlers *)

Definition vaultUnavailable := httpError "vault unavailable" StatusServiceUnavailable.
Definition secretNotFound := httpError "secret not found" StatusNotFound.

Definition respondSecret (auth : authInfo) (id : uuid) : Handler :=
  row <- (pool (GetSecret id) <!> answerAll (serverError "could not load secret"));;
  view <- secretViewFromGet auth row;;
  writeResponse s (auth_ClientPublicKey auth) (JObj view).

Definition handleCreateSecret (auth : authInfo) (r : Request) : Handler :=
  let failed := serverError "could not create secret" in
  kw <- orFail (wrapper s) vaultUnavailable;;
  ok <- canGlobal auth "secret.add";;
  require ok forbidden;;;
  req <- orFail (readRequest s createSecretRequest_of_json r) (badRequest "invalid request");;
  require (negb (bool_decide (cs_Label req = ""))) (badRequest "label is required");;;
  sealed <- (sealFields kw req <!> answerAll (serverError "could not seal secret"));;
  (Begin <!> answerAll failed);;;
  deferRollback (
    secret <- (inTx (CreateSecret (cs_Label req) (pgText (cs_URL req)) (pgText (cs_Username req))
                       (pgText (cs_OTPRecipient req)) (Vault.Ciphertext <$> sealed)
                       (Vault.Nonce <$> sealed) (Vault.WrappedKey <$> sealed)
                       (Some (auth_UserID auth)) (Some (auth_UserID auth)))
               <!> answerAll failed);;
    (inTx (InsertSecretAudit (Some (Secret_ID secret)) (Secret_Label secret) "add"
             (Some (auth_UserID auth))) <!> answerAll failed);;;
    (grantOwner (auth_UserID auth) "secret" (Secret_ID secret)
       ["secret.read"; "secret.update"; "secret.delete"] <!> answerAll failed);;;
    (Commit <!> answerAll failed);;;
    respondSecret auth (Secret_ID secret)).

Definition handleListSecrets (auth : authInfo) (r : Request) : Handler :=
  rows <- ((if isAdmin auth then pool ListAllSecrets
            else pool (ListReadableSecrets (auth_UserID auth)))
           <!> answerAll (serverError "could not list secrets"));;
  views <- map_each (secretViewFromGet auth) rows;;
  writeResponse s (auth_ClientPublicKey auth) (JArr (JObj <$> views)).

Definition handleGetSecret (auth : authInfo) (r : Request) : Handler :=
  secretID <- orFail (parseUUID (URLParam r "id")) (badRequest "invalid secret id");;
  ok <- canSecret auth "secret.read" secretID;;
  require ok forbidden;;;
  row <- (pool (GetSecret secretID)
          <!> answer secretNotFound (serverError "could not read secret"));;
  view <- secretViewFromGet auth row;;
  writeResponse s (auth_ClientPublicKey auth) (JObj view).

Definition handleRevealSecret (auth : authInfo) (r : Request) : Handler :=
  kw <- orFail (wrapper s) vaultUnavailable;;
  secretID <- orFail (parseUUID (URLParam r "id")) (badRequest "invalid secret id");;
  ok <- canSecret auth "secret.read" secretID;;
  require ok forbidden;;;
  row <- (pool (GetSecret secretID)
          <!> answer secretNotFound (serverError "could not read secret"));;
  let x := GetSecretRow_Secret row in
  fields <- orInvalid (openFields kw (Secret_Ciphertext x) (Secret_Nonce x) (Secret_WrappedKey x))
              (serverError "could not open secret");;
  auditSecret (Some (Secret_ID x)) (Secret_Label x) "read" (auth_UserID auth);;;
  view <- secretViewFromGet auth row;;
  writeResponse s (auth_ClientPublicKey auth)
    (JObj (view ++ [("password", JStr (sf_Password fields)); ("notes", JStr (sf_Notes fields))])).

Definition handleUpdateSecret (auth : authInfo) (r : Request) : Handler :=
  kw <- orFail (wrapper s) vaultUnavailable;;
  secretID <- orFail (parseUUID (URLParam r "id")) (badRequest "invalid secret id");;
  ok <- canSecret auth "secret.update" secretID;;
  require ok forbidden;;;
  req <- orFail (readRequest s createSecretRequest_of_json r) (badRequest "invalid request");;
  require (negb (bool_decide (cs_Label req = ""))) (badRequest "label is required");;;
  sealed <- (sealFields kw req <!> answerAll (serverError "could not seal secret"));;
  secret <- (pool (UpdateSecret secretID (cs_Label req) (pgText (cs_URL req))
                     (pgText (cs_Username req)) (pgText (cs_OTPRecipient req))
                     (Vault.Ciphertext <$> sealed) (Vault.Nonce <$> sealed)
                     (Vault.WrappedKey <$> sealed) (Some (auth_UserID auth)))
             <!> answer secretNotFound (serverError "could not update secret"));;
  auditSecret (Some (Secret_ID secret)) (Secret_Label secret) "update" (auth_UserID auth);;;
  respondSecret auth (Secret_ID secret).

Definition handleDeleteSecret (auth : authInfo) (r : Request) : Handler :=
  secretID <- orFail (parseUUID (URLParam r "id")) (badRequest "invalid secret id");;
  ok <- canSecret auth "secret.delete" secretID;;
  require ok forbidden;;;
  row <- (pool (GetSecret secretID)
          <!> answer secretNotFound (serverError "could not delete secret"));;
  (pool (DeleteSecret secretID) <!> answerAll (serverError "could not delete secret"));;;
  auditSecret None (Secret_Label (GetSecretRow_Secret row)) "delete" (auth_UserID auth);;;
  ret noContent.

(** ** Every handler evolves the database *)

Lemma vaultSeal_rel kw p : evolving (vaultSeal kw p).
Proof. solve_evolving. Qed.
Hint Resolve vaultSeal_rel : preserve.
Lemma sealFields_rel kw q : evolving (sealFields kw q).
Proof. solve_evolving. Qed.
Lemma auditSecret_rel {E} i l a u : evolving (auditSecret i l a u : M World E unit).
Proof. solve_evolving. Qed.
Lemma secretViewFromGet_rel {E} a row : evolving (secretViewFromGet a row : M World E _).
Proof. solve_evolving. Qed.
Hint Resolve sealFields_rel auditSecret_rel secretViewFromGet_rel : preserve.
Lemma respondSecret_rel a i : evolving (respondSecret a i).
Proof. solve_evolving. Qed.
Hint Resolve respondSecret_rel : preserve.
Lemma handleCreateSecret_rel a r : evolving (handleCreateSecret a r).
Proof. solve_evolving. Qed.
Lemma handleListSecrets_rel a r : evolving (handleListSecrets a r).
Proof. solve_evolving. Qed.
Lemma handleGetSecret_rel a r : evolving (handleGetSecret a r).
Proof. solve_evolving. Qed.
Lemma handleRevealSecret_rel a r : evolving (handleRevealSecret a r).
Proof. solve_evolving. Qed.
Lemma handleUpdateSecret_rel a r : evolving (handleUpdateSecret a r).
Proof. solve_evolving. Qed.
Lemma handleDeleteSecret_rel a r : evolving (handleDeleteSecret a r).
Proof. solve_evolving. Qed.
End secrets.
#[export] Hint Resolve vaultSeal_rel sealFields_rel auditSecret_rel secretViewFromGet_rel
  respondSecret_rel handleCreateSecret_rel handleListSecrets_rel handleGetSecret_rel
  handleRevealSecret_rel handleUpdateSecret_rel handleDeleteSecret_rel : preserve.
