(* ===== verification/Hosts.v ===== *)
(** Hosts and their enrollment: [internal/controlplane/{hosts,enroll,
    enroll_tokens}.go] and the host and grant lists of [reads.go]. *)
From S2P Require Import Prelude Text Base64 Json Protocol Crypto Schema Evolve QUsers QAccess QSecrets World Http Perms Grants Accounts.

(** Conversion of a product to a 64-bit signed integer. *)
Definition wrap_int64 (z : Z) : Z := (z + 2 ^ 63) mod 2 ^ 64 - 2 ^ 63.
(** An [int] field. *)
Definition as_int (j : json) : option Z :=
  match j with JInt z => if decide (- 2 ^ 63 ≤ z < 2 ^ 63) then Some z else None | _ => None end.

Section hosts.
Context `{Platform} (s : Server).

(** ** reads.go: views of hosts and grants *)

Definition hostStaleWindow : Z := 5 * minute.

Definition hostConnectionStatus {E} (id : uuid) (lastSeen : option Z) : M World E string :=
  up <- gets (λ w, online (uuidString id) (w_hub w));;
  if up : bool then ret "online" else
  match lastSeen with
  | None => ret "offline"
  | Some t =>
      now <- timeNow;;
      ret (if decide (now - t ≤ hostStaleWindow) then "stale" else "offline")
  end.

Definition nullTime (t : option Z) : json := match t with None => JNull | Some z => json_time z end.

Definition hostView {E} (auth : authInfo) (h : Host) : M World E (list (string * json)) :=
  status <- hostConnectionStatus (Host_ID h) (Host_LastSeenAt h);;
  permissions <- hostPermissions auth (Host_ID h);;
  ret [("id", JStr (uuidString (Host_ID h))); ("name", JStr (Host_Name h));
       ("hostname", JStr (Host_Hostname h)); ("accounts", json_strings (Host_Accounts h));
       ("status", JStr (Host_Status h)); ("connection_status", JStr status);
       ("agent_version", JStr (Host_AgentVersion h));
       ("desired_version", JStr (Host_DesiredVersion h));
       ("enrolled_at", json_time (Host_EnrolledAt h));
       ("last_seen_at", nullTime (Host_LastSeenAt h)); ("permissions", json_strings permissions)].

Definition handleListHosts (auth : authInfo) (r : Request) : Handler :=
  rows <- ((if isAdmin auth then pool ListHosts
            else pool (ListReadableHosts (auth_UserID auth)))
           <!> answerAll (serverError "could not list hosts"));;
  views <- map_each (hostView auth) rows;;
  writeResponse s (auth_ClientPublicKey auth) (JArr (JObj <$> views)).

(** [uuidString] of a null id is the empty string. *)
Definition optUuidString (id : option uuid) : string :=
  match id with Some i => uuidString i | None => "" end.

Definition grantView (g : ListGrantsRow) : json :=
  JObj [("id", JStr (uuidString (ListGrantsRow_ID g)));
        ("user_id", JStr (uuidString (ListGrantsRow_UserID g)));
        ("user_email", JStr (ListGrantsRow_UserEmail g));
        ("permission", JStr (ListGrantsRow_Permission g));
        ("target_kind", JStr (ListGrantsRow_TargetKind g));
        ("target_id", JStr (optUuidString (ListGrantsRow_TargetID g)));
        ("created_at", json_time (ListGrantsRow_CreatedAt g))].

Definition handleListGrants (auth : authInfo) (r : Request) : Handler :=
  rows <- (pool ListGrants <!> answerAll (serverError "could not list grants"));;
  writeResponse s (auth_ClientPublicKey auth) (JArr (grantView <$> rows)).

(** ** hosts.go *)

Definition hostNotFound := httpError "host not found" StatusNotFound.

Definition handleGetHost (auth : authInfo) (r : Request) : Handler :=
  hostID <- orFail (parseUUID (URLParam r "id")) (badRequest "invalid host id");;
  ok <- canHost auth "host.access" hostID;;
  require ok forbidden;;;
  host <- (pool (GetHostByID hostID) <!> answer hostNotFound (serverError "could not load host"));;
  rows <- attempt (pool (SetsForHost hostID));;
  let sets := match rows with inr l => SetsForHostRow_Name <$> l | inl _ => [] end in
  view <- hostView auth host;;
  connected <- gets (λ w, online (uuidString (Host_ID host)) (w_hub w));;
  writeResponse s (auth_ClientPublicKey auth)
    (JObj (view ++ [("connected", JBool connected);
                    ("encryption", JBool (negb (bool_decide (Host_EncryptionKey host = ""))));
                    ("sets", json_strings sets)])).

Definition handleRefreshHost (auth : authInfo) (r : Request) : Handler :=
  hostID <- orFail (parseUUID (URLParam r "id")) (badRequest "invalid host id");;
  ok <- canHost auth "host.access" hostID;;
  require ok forbidden;;;
  host <- (pool (GetHostByID hostID) <!> answer hostNotFound (serverError "could not load host"));;
  require (bool_decide (Host_Status host = "active")) (httpError "host not active" StatusConflict);;;
  snapshot <- (buildSnapshot host <!> answerAll (serverError "could not build snapshot"));;
  env <- (snapshotEnvelope s hostID snapshot <!> answerAll (serverError "could not sign snapshot"));;
  connected <- gets (λ w, online (uuidString hostID) (w_hub w));;
  when connected (onHub (push (uuidString hostID) env));;;
  writeResponse s (auth_ClientPublicKey auth)
    (JObj [("connected", JBool connected);
           ("key_count", JInt (Z.of_nat (length (Snapshot_Entries snapshot))));
           ("seq", JInt (Envelope_Seq env))]).

(** Marks the host revoked, then sends the empty snapshot as its last
    envelope and closes its connection. *)
Definition revokeHost (hostID : uuid) : IO unit :=
  n <- pool (SetHostStatus hostID "revoked");;
  (if decide (n = 0) then throw ErrNoRows else ret tt);;;
  purge <- snapshotEnvelope s hostID {| Snapshot_Entries := [] |};;
  onHub (disconnect (uuidString hostID) purge).

Definition handleRevokeHost (auth : authInfo) (r : Request) : Handler :=
  hostID <- orFail (parseUUID (URLParam r "id")) (badRequest "invalid host id");;
  ok <- canHost auth "host.revoke" hostID;;
  require ok forbidden;;;
  (revokeHost hostID <!> answer hostNotFound (serverError "could not revoke host"));;;
  ret noContent.

(** [req.At.IsZero() || time.Since(req.At) > 5*time.Minute ||
    time.Until(req.At) > 5*time.Minute] *)
Definition staleRequest {E} (at_ : Z) : M World E bool :=
  if decide (at_ = time_zero) then ret true else
  now <- timeNow;;
  if decide (now - at_ > 5 * minute) then ret true else
  now' <- timeNow;;
  ret (bool_decide (at_ - now' > 5 * minute)).

(** No session: the host proves itself by signing the request. *)
Definition handleDecommissionHost (r : Request) : Handler :=
  hostID <- orFail (parseUUID (URLParam r "id")) (badRequest "invalid host id");;
  host <- (pool (GetHostByID hostID)
           <!> answer hostNotFound (serverError "could not decommission host"));;
  require (bool_decide (Host_Status host = "active")) (httpError "host not active" StatusConflict);;;
  req <- orFail (decode_stream DecommissionRequest_of_json (r_body r)) (badRequest "invalid request");;
  let at_ := DecommissionRequest_At req in
  stale <- staleRequest at_;;
  require (negb stale) (httpError "stale decommission request" StatusUnauthorized);;;
  orInvalid (Identity.Verify (Host_IdentityKey host)
               (DecommissionSigningInput (uuidString hostID) at_) (DecommissionRequest_Signature req))
    (httpError "invalid signature" StatusUnauthorized);;;
  (revokeHost hostID <!> answerAll (serverError "could not decommission host"));;;
  ret noContent.

(** ** enroll.go *)

Definition errInvalidToken := ErrMsg "invalid or expired enrollment token".
Definition errAlreadyEnrolled := ErrMsg "host already enrolled".

Definition signingPublicKey : string :=
  match signer s with None => "" | Some kp => Identity.PublicKey kp end.

(** [if _, err := find; err == nil { if stop h { return errAlreadyEnrolled } }
    else if !errors.Is(err, pgx.ErrNoRows) { return err }] *)
Definition refuseEnrolled (find : Query Host) (stop : Host → bool) : IO unit :=
  r <- attempt (inTx find);;
  match r with
  | inr h => if stop h then throw errAlreadyEnrolled else ret tt
  | inl e => if decide (e = ErrNoRows) then ret tt else throw e
  end.

(** [tok.UsedAt.Valid || tok.ExpiresAt.Time.Before(time.Now())] *)
Definition tokenSpent {E} (tok : EnrollmentToken) : M World E bool :=
  if decide (is_Some (EnrollmentToken_UsedAt tok)) then ret true else
  now <- timeNow;;
  ret (bool_decide (EnrollmentToken_ExpiresAt tok < now)).

Definition enroll (req : EnrollRequest) : IO string :=
  Begin;;;
  deferRollback (
    tok <- (inTx (GetEnrollmentToken (HashToken (EnrollRequest_Token req)))
            <!> λ e, throw (if decide (e = ErrNoRows) then errInvalidToken else e));;
    spent <- tokenSpent tok;;
    (if spent : bool then throw errInvalidToken else ret tt);;;
    let machineID := pgText (EnrollRequest_MachineID req) in
    when (bool_decide (is_Some machineID))
      (refuseEnrolled (GetActiveHostByMachineID machineID) (λ _, true));;;
    (if decide (EnrollRequest_PriorHostID req = "") then ret tt else
     match parseUUID (EnrollRequest_PriorHostID req) with
     | None => ret tt
     | Some priorID =>
         refuseEnrolled (GetHostByID priorID) (λ h, bool_decide (Host_Status h = "active"))
     end);;;
    let label := textString (EnrollmentToken_Label tok) in
    let name := if decide (label = "") then EnrollRequest_Hostname req else label in
    host <- (inTx (CreateHost name (EnrollRequest_Hostname req) (EnrollRequest_PublicKey req)
                     (EnrollmentToken_Accounts tok) machineID (EnrollRequest_EncryptionKey req))
             <!> λ e, throw (if isUniqueViolation e then errAlreadyEnrolled else e));;
    inTx (MarkTokenUsed (EnrollmentToken_ID tok) (Some (Host_ID host)));;;
    Commit;;;
    ret (uuidString (Host_ID host))).

Definition handleEnroll (r : Request) : Handler :=
  req <- orFail (decode_stream EnrollRequest_of_json (r_body r)) (badRequest "invalid request");;
  require (negb (bool_decide (EnrollRequest_Token req = "" ∨ EnrollRequest_PublicKey req = "")))
    (badRequest "token and public_key are required");;;
  hostID <- (enroll req <!> λ e, throw (
    if decide (e = errInvalidToken) then httpError "invalid or expired token" StatusUnauthorized
    else if decide (e = errAlreadyEnrolled)
    then httpError "host already enrolled; revoke it before re-enrolling" StatusConflict
    else serverError "enrollment failed"));;
  ret (writeJSON (EnrollResponse_json {| EnrollResponse_HostID := hostID;
                                         EnrollResponse_SigningPublicKey := signingPublicKey |})).

(** ** enroll_tokens.go *)

Record createEnrollTokenRequest := {
  et_Accounts : list string; et_Label : string; et_TTLHours : Z }.
Definition createEnrollTokenRequest_of_json : json → option createEnrollTokenRequest :=
  as_struct (Build_createEnrollTokenRequest [] "" 0) (λ o,
    a ← decode_field as_strings [] "accounts" o; l ← decode_field as_string "" "label" o;
    t ← decode_field as_int 0 "ttl_hours" o; Some (Build_createEnrollTokenRequest a l t)).

(** [time.Duration(hours) * time.Hour], one hour when that is not positive. *)
Definition enrollTTL (hours : Z) : Z :=
  let ttl := wrap_int64 (hours * hour) in if decide (ttl ≤ 0) then hour else ttl.

Definition handleCreateEnrollToken (auth : authInfo) (r : Request) : Handler :=
  ok <- canGlobal auth "host.add";;
  require ok forbidden;;;
  req <- orFail (readRequest s createEnrollTokenRequest_of_json r) (badRequest "invalid request");;
  require (negb (bool_decide (et_Accounts req = []))) (badRequest "accounts are required");;;
  let ttl := enrollTTL (et_TTLHours req) in
  b <- randBytes 32;;
  let '(raw, hash) := GenerateToken b in
  now <- timeNow;;
  let expiresAt := now + ttl in
  (pool (CreateEnrollmentToken hash (pgText (et_Label req)) (et_Accounts req)
           (Some (auth_UserID auth)) expiresAt)
     <!> answerAll (serverError "could not create token"));;;
  writeResponse s (auth_ClientPublicKey auth)
    (JObj [("token", JStr raw); ("expires_at", json_time expiresAt)]).

(** ** Every handler evolves the database *)

Lemma hostConnectionStatus_rel {E} i t : evolving (hostConnectionStatus i t : M World E _).
Proof. solve_evolving. Qed.
Hint Resolve hostConnectionStatus_rel : preserve.
Lemma hostView_rel {E} a h : evolving (hostView a h : M World E _).
Proof. solve_evolving. Qed.
Hint Resolve hostView_rel : preserve.
Lemma handleListHosts_rel a r : evolving (handleListHosts a r).
Proof. solve_evolving. Qed.
Lemma handleListGrants_rel a r : evolving (handleListGrants a r).
Proof. solve_evolving. Qed.
Lemma handleGetHost_rel a r : evolving (handleGetHost a r).
Proof. solve_evolving. Qed.
Lemma handleRefreshHost_rel a r : evolving (handleRefreshHost a r).
Proof.
  unfold handleRefreshHost. do 3 (apply (preserves_bind _); [solve_rel|intros]). intros w.
  apply (bind_at (effect evolves)); [refine (preserves_onerr (effect evolves) _ _ _ _ w); solve_rel|]. intros host w1 Hr.
  assert (Host_ID host = a0 ∧ known host (visited w1)) as [<- Hk].
  { apply (pool_host _ w). unfold onerr, answer, throw in Hr. destruct (pool _ w) as [[e|h] w2]; congruence. }
  apply (bind_at (effect evolves)); [by unfold require; case_bool_decide|]. intros [] w2 Hq.
  assert (w2 = w1) as ->. { unfold require in Hq. case_bool_decide; by injection Hq. }
  apply (snapshot_then s evolves) with (host:=host); [eauto with evolve..| | | |intros; solve_rel|done].
  - intros w'. unfold onerr. by destruct (buildSnapshot host w') as [[e|sn] w2].
  - intros w' snap w2. unfold onerr. destruct (buildSnapshot host w') as [[e|sn] w3]; [done|congruence].
  - intros snap w'. unfold onerr. by destruct (snapshotEnvelope _ _ _ w') as [[e|sn] w2].
Qed.
Lemma revokeHost_rel h : evolving (revokeHost h).
Proof. solve_evolving. Qed.
Hint Resolve revokeHost_rel : preserve.
Lemma handleRevokeHost_rel a r : evolving (handleRevokeHost a r).
Proof. solve_evolving. Qed.
Lemma staleRequest_rel {E} t : evolving (staleRequest t : M World E bool).
Proof. solve_evolving. Qed.
Hint Resolve staleRequest_rel : preserve.
Lemma handleDecommissionHost_rel r : evolving (handleDecommissionHost r).
Proof. solve_evolving. Qed.
Lemma refuseEnrolled_rel q stop : query_rel evolves q → evolving (refuseEnrolled q stop).
Proof. solve_evolving. Qed.
Lemma tokenSpent_rel {E} tok : evolving (tokenSpent tok : M World E bool).
Proof. solve_evolving. Qed.
Hint Resolve tokenSpent_rel : preserve.
Hint Extern 2 (preserves _ (refuseEnrolled _ _)) =>
  apply refuseEnrolled_rel; eauto with evolve : preserve.
Lemma enroll_rel q : evolving (enroll q).
Proof. solve_evolving. Qed.
Hint Resolve enroll_rel : preserve.
Lemma handleEnroll_rel r : evolving (handleEnroll r).
Proof. solve_evolving. Qed.
Lemma handleCreateEnrollToken_rel a r : evolving (handleCreateEnrollToken a r).
Proof. solve_evolving. Qed.
End hosts.
#[export] Hint Resolve hostConnectionStatus_rel hostView_rel handleListHosts_rel
  handleListGrants_rel handleGetHost_rel handleRefreshHost_rel revokeHost_rel handleRevokeHost_rel
  handleDecommissionHost_rel tokenSpent_rel enroll_rel handleEnroll_rel
  handleCreateEnrollToken_rel : preserve.
