(* ===== verification/Sets.v ===== *)
(** Machine secret sets: [internal/controlplane/secret_sets.go].

    A set is a named map of keys to values, each value sealed by the vault at
    rest.  Binding a set to a host delivers it: the host's bundle is decrypted,
    sealed as a whole to the host's X25519 key, numbered and signed. *)
From S2P Require Import Prelude Text Base64 Json Protocol Crypto Schema Evolve QUsers QAccess QSecrets World Http Perms Grants Accounts Secrets Hosts.

Section sets.
Context `{Platform} (s : Server).

Record setEntryInput := { entry_Key : string; entry_Value : string }.
Definition setEntryInput_zero := {| entry_Key := ""; entry_Value := "" |}.
Definition setEntryInput_of_json : json → option setEntryInput :=
  as_struct setEntryInput_zero (λ o,
    k ← decode_field as_string "" "key" o; v ← decode_field as_string "" "value" o;
    Some (Build_setEntryInput k v)).

Record createSetRequest := { set_Name : string; set_Entries : list setEntryInput }.
Definition createSetRequest_of_json : json → option createSetRequest :=
  as_struct (Build_createSetRequest "" []) (λ o,
    n ← decode_field as_string "" "name" o;
    e ← decode_field (as_list setEntryInput_zero setEntryInput_of_json) [] "entries" o;
    Some (Build_createSetRequest n e)).

(** A request with one string member. *)
Definition one_string (name : string) : json → option string :=
  as_struct "" (decode_field as_string "" name).
Definition updateSetRequest_of_json := one_string "name".
Definition entryValue_of_json := one_string "value".

Definition bindSetRequest_of_json : json → option (string * string) :=
  as_struct ("", "") (λ o,
    i ← decode_field as_string "" "set_id" o; u ← decode_field as_string "" "as_user" o;
    Some (i, u)).

(** ** Entries *)

Fixpoint validateFrom (seen : gset string) (entries : list setEntryInput) : error + unit :=
  match entries with
  | [] => inr tt
  | e :: l =>
      if decide (entry_Key e = "") then inl (ErrMsg "entry key is required")
      else if decide (entry_Key e ∈ seen) then inl (ErrMsg ("duplicate key: " +:+ entry_Key e))
      else validateFrom ({[entry_Key e]} ∪ seen) l
  end.
Definition validateEntries (entries : list setEntryInput) : error + unit := validateFrom ∅ entries.

Definition entryKeys (entries : list setEntryInput) : list string := entry_Key <$> entries.

(** In the caller's transaction. *)
Definition sealEntries (kw : Vault.KeyWrapper) (setID : uuid) (entries : list setEntryInput) :
    IO unit :=
  foreach entries (λ e,
    sealed <- vaultSeal kw (entry_Value e);;
    inTx (CreateSetEntry setID (entry_Key e) (Vault.Ciphertext sealed) (Vault.Nonce sealed)
            (Vault.WrappedKey sealed))).

(** ** Delivery *)

Definition openEntry (kw : Vault.KeyWrapper) (e : SecretSetEntry) : error + bytes :=
  Vault.Open kw {| Vault.Ciphertext := SecretSetEntry_Ciphertext e;
                   Vault.Nonce := SecretSetEntry_Nonce e;
                   Vault.WrappedKey := SecretSetEntry_WrappedKey e |}.

(** [values[e.Key] = string(val)] over the entries. *)
Fixpoint openEntries (kw : Vault.KeyWrapper) (values : gmap string string)
    (entries : list SecretSetEntry) : error + gmap string string :=
  match entries with
  | [] => inr values
  | e :: l =>
      match openEntry kw e with
      | inl err => inl err
      | inr val => openEntries kw (<[SecretSetEntry_Key e := val]> values) l
      end
  end.

Definition buildSet (kw : Vault.KeyWrapper) (row : SetsForHostRow) : IO ClearSet :=
  entries <- pool (GetSetEntries (SetsForHostRow_ID row));;
  values <- lift (openEntries kw ∅ entries);;
  ret {| ClearSet_Name := SetsForHostRow_Name row;
         ClearSet_AsUser := textString (SetsForHostRow_AsUser row);
         ClearSet_Version := to_uint64 (SetsForHostRow_UpdatedAt row);
         ClearSet_Values := values |}.

(** [None]: the zero bundle, whose slice is nil, when there is no vault. *)
Definition buildSecretSets (host : Host) : IO (option SecretSets) :=
  match wrapper s with
  | None => ret None
  | Some kw =>
      rows <- pool (SetsForHost (Host_ID host));;
      sets <- map_each (buildSet kw) rows;;
      ret (Some {| SecretSets_Sets := sets |})
  end.
Definition marshalSets (o : option SecretSets) : bytes :=
  json_print (match o with Some b => SecretSets_json b | None => JObj [("sets", JNull)] end).

Definition secretSetsEnvelope (host : Host) (sets : option SecretSets) : IO Envelope :=
  match DecodeString StdEncoding (Host_EncryptionKey host) with
  | None => throw (ErrMsg "illegal base64 data")
  | Some recipient =>
      ephemeral <- randBytes 32;;
      nonce <- randBytes gcmNonceSize;;
      sealed <- lift (Hybrid.Seal ephemeral nonce recipient (marshalSets sets));;
      let data := json_print (SealedSecretSets_json {| SealedSecretSets_Sealed := sealed |}) in
      match signer s with
      | None => ret {| Envelope_Type := TypeSecretSets; Envelope_Data := data;
                       Envelope_Seq := 0; Envelope_Sig := "" |}
      | Some kp =>
          n <- pool (NextHostSetSeq (Host_ID host));;
          let seq := to_uint64 n in
          let input := SecretSetsSigningInput (uuidString (Host_ID host)) seq data in
          signing input;;;
          ret (signed_envelope TypeSecretSets data kp seq input)
      end
  end.

Definition pushSecretSets {E} (hostID : uuid) : M World E unit :=
  ignore (
    host <- pool (GetHostByID hostID);;
    (if decide (Host_EncryptionKey host = "") then throw (ErrMsg "no key") else ret tt);;;
    sets <- buildSecretSets host;;
    env <- secretSetsEnvelope host sets;;
    (onHub (push (uuidString hostID) env) : IO unit)).

Definition pushSetToHosts {E} (setID : uuid) : M World E unit :=
  r <- attempt (pool (HostsForSet setID));;
  match r with inl _ => ret tt | inr l => foreach l pushSecretSets end.

(** ** Views *)

Definition setView {E} (auth : authInfo) (x : SecretSet) (keys : list string) : M World E json :=
  permissions <- setPermissions auth (SecretSet_ID x);;
  ret (JObj [("id", JStr (uuidString (SecretSet_ID x))); ("name", JStr (SecretSet_Name x));
             ("keys", json_strings keys); ("created_at", json_time (SecretSet_CreatedAt x));
             ("updated_at", json_time (SecretSet_UpdatedAt x));
             ("permissions", json_strings permissions)]).

Definition setListView {E} (auth : authInfo) (row : ListSetsRow) : M World E json :=
  let x := ListSetsRow_Set row in
  permissions <- setPermissions auth (SecretSet_ID x);;
  ret (JObj [("id", JStr (uuidString (SecretSet_ID x))); ("name", JStr (SecretSet_Name x));
             ("key_count", JInt (ListSetsRow_KeyCount row));
             ("created_at", json_time (SecretSet_CreatedAt x));
             ("updated_at", json_time (SecretSet_UpdatedAt x));
             ("permissions", json_strings permissions)]).

Definition setHostView {E} (auth : authInfo) (row : ListHostsForSetRow) : M World E json :=
  view <- hostView auth (ListHostsForSetRow_Host row);;
  ret (JObj (view ++ omitempty "as_user" (textString (ListHostsForSetRow_AsUser row)) ++
             [("bound_at", json_time (ListHostsForSetRow_BoundAt row))])).

Definition setAuditView (row : SetAuditLog * option User) : json :=
  let '(a, u) := row in
  JObj ([("action", JStr (SetAuditLog_Action a)); ("set_name", JStr (SetAuditLog_SetName a))] ++
        omitempty "entry_key" (textString (SetAuditLog_EntryKey a)) ++
        omitempty "host_id" (optUuidString (SetAuditLog_HostID a)) ++
        omitempty "actor" (optUuidString (SetAuditLog_Actor a)) ++
        omitempty "actor_email" (textString (User_Email <$> u)) ++
        omitempty "actor_name" (textString (User_Name <$> u)) ++
        omitempty "actor_display_name" (textString (u ≫= User_DisplayName)) ++
        [("at", json_time (SetAuditLog_At a))]).

(** ** Handlers *)

Definition setNotFound := httpError "set not found" StatusNotFound.
Definition setNameTaken := httpError "a set with that name already exists" StatusConflict.
Definition loadSet (setID : uuid) (failed : Response) : M World Response SecretSet :=
  pool (GetSet setID) <!> answer setNotFound failed.
Definition setID_of (r : Request) (name : string) : M World Response uuid :=
  orFail (parseUUID (URLParam r name)) (badRequest "invalid set id").
Definition auditSet (x : SecretSet) (key : option string) (host : option uuid) (action : string)
    (auth : authInfo) : IO unit :=
  inTx (InsertSetAudit (Some (SecretSet_ID x)) (SecretSet_Name x) key host action
          (Some (auth_UserID auth))).

Definition handleCreateSet (auth : authInfo) (r : Request) : Handler :=
  let failed := serverError "could not create set" in
  kw <- orFail (wrapper s) vaultUnavailable;;
  ok <- canGlobal auth "set.add";;
  require ok forbidden;;;
  req <- orFail (readRequest s createSetRequest_of_json r) (badRequest "invalid request");;
  require (negb (bool_decide (set_Name req = ""))) (badRequest "name is required");;;
  (match validateEntries (set_Entries req) with
   | inl (ErrMsg msg) => throw (badRequest msg)
   | inl _ => throw (badRequest "")
   | inr _ => ret tt
   end);;;
  (Begin <!> answerAll failed);;;
  deferRollback (
    set <- (inTx (CreateSet (set_Name req) (Some (auth_UserID auth)))
            <!> λ e, throw (if isUniqueViolation e then setNameTaken else failed));;
    (sealEntries kw (SecretSet_ID set) (set_Entries req)
       <!> answerAll (serverError "could not seal entries"));;;
    (auditSet set None None "create" auth <!> answerAll failed);;;
    (grantOwner (auth_UserID auth) "set" (SecretSet_ID set) ["set.read"; "set.manage"]
       <!> answerAll failed);;;
    (Commit <!> answerAll failed);;;
    view <- setView auth set (entryKeys (set_Entries req));;
    writeResponse s (auth_ClientPublicKey auth) view).

Definition handleListSets (auth : authInfo) (r : Request) : Handler :=
  rows <- ((if isAdmin auth then pool ListSets else pool (ListReadableSets (auth_UserID auth)))
           <!> answerAll (serverError "could not list sets"));;
  views <- map_each (setListView auth) rows;;
  writeResponse s (auth_ClientPublicKey auth) (JArr views).

Definition handleGetSet (auth : authInfo) (r : Request) : Handler :=
  let failed := serverError "could not load set" in
  setID <- setID_of r "id";;
  ok <- canSet auth "set.read" setID;;
  require ok forbidden;;;
  set <- loadSet setID failed;;
  keys <- (pool (ListSetKeys setID) <!> answerAll failed);;
  view <- setView auth set keys;;
  writeResponse s (auth_ClientPublicKey auth) view.

Definition handleListSetHosts (auth : authInfo) (r : Request) : Handler :=
  setID <- setID_of r "id";;
  ok <- canSet auth "set.read" setID;;
  require ok forbidden;;;
  loadSet setID (serverError "could not load set");;;
  rows <- (pool (ListHostsForSet setID) <!> answerAll (serverError "could not list set hosts"));;
  views <- map_each (setHostView auth) rows;;
  writeResponse s (auth_ClientPublicKey auth) (JArr views).

Definition handleUpdateSet (auth : authInfo) (r : Request) : Handler :=
  let failed := serverError "could not update set" in
  setID <- setID_of r "id";;
  ok <- canSet auth "set.manage" setID;;
  require ok forbidden;;;
  name <- orFail (readRequest s updateSetRequest_of_json r) (badRequest "invalid request");;
  require (negb (bool_decide (name = ""))) (badRequest "name is required");;;
  loadSet setID (serverError "could not load set");;;
  (Begin <!> answerAll failed);;;
  deferRollback (
    updated <- (inTx (UpdateSetName setID name)
                <!> λ e, throw (if isUniqueViolation e then setNameTaken else failed));;
    (auditSet updated None None "rename" auth <!> answerAll failed);;;
    (Commit <!> answerAll failed);;;
    pushSetToHosts setID;;;
    keys <- (pool (ListSetKeys setID) <!> answerAll failed);;
    view <- setView auth updated keys;;
    writeResponse s (auth_ClientPublicKey auth) view).

Definition handleDeleteSet (auth : authInfo) (r : Request) : Handler :=
  let failed := serverError "could not delete set" in
  setID <- setID_of r "id";;
  ok <- canSet auth "set.manage" setID;;
  require ok forbidden;;;
  set <- loadSet setID failed;;
  bound <- attempt (pool (HostsForSet setID));;
  let hosts := match bound with inr l => l | inl _ => [] end in
  (Begin <!> answerAll failed);;;
  deferRollback (
    (inTx (DeleteSet setID) <!> answerAll failed);;;
    (auditSet set None None "delete" auth <!> answerAll failed);;;
    (Commit <!> answerAll failed);;;
    foreach hosts pushSecretSets;;;
    ret noContent).

(** [!s.canSet(...) || !s.canHost(...)] *)
Definition canBind {E} (auth : authInfo) (setID hostID : uuid) : M World E bool :=
  ok <- canSet auth "set.read" setID;;
  if ok : bool then canHost auth "host.access" hostID else ret false.

Definition handleBindSet (auth : authInfo) (r : Request) : Handler :=
  let failed := serverError "could not bind set" in
  hostID <- orFail (parseUUID (URLParam r "id")) (badRequest "invalid host id");;
  req <- orFail (readRequest s bindSetRequest_of_json r) (badRequest "invalid request");;
  let '(set_id, as_user) := req in
  setID <- orFail (parseUUID set_id) (badRequest "invalid set_id");;
  ok <- canBind auth setID hostID;;
  require ok forbidden;;;
  set <- loadSet setID failed;;
  (Begin <!> answerAll failed);;;
  deferRollback (
    (inTx (BindSet hostID setID (pgText as_user) (Some (auth_UserID auth))) <!> answerAll failed);;;
    (inTx (InsertSetAudit (Some setID) (SecretSet_Name set) None (Some hostID) "deliver"
             (Some (auth_UserID auth))) <!> answerAll failed);;;
    (Commit <!> answerAll failed);;;
    pushSecretSets hostID;;;
    ret noContent).

Definition handleUnbindSet (auth : authInfo) (r : Request) : Handler :=
  hostID <- orFail (parseUUID (URLParam r "id")) (badRequest "invalid host id");;
  setID <- setID_of r "setId";;
  ok <- canBind auth setID hostID;;
  require ok forbidden;;;
  n <- (pool (UnbindSet hostID setID) <!> answerAll (serverError "could not unbind set"));;
  require (negb (bool_decide (n = 0))) (httpError "binding not found" StatusNotFound);;;
  pushSecretSets hostID;;;
  ret noContent.

Definition handleUpsertSetEntry (auth : authInfo) (r : Request) : Handler :=
  let failed := serverError "could not update entry" in
  kw <- orFail (wrapper s) vaultUnavailable;;
  setID <- setID_of r "id";;
  let key := URLParam r "key" in
  require (negb (bool_decide (key = ""))) (badRequest "key is required");;;
  ok <- canSet auth "set.manage" setID;;
  require ok forbidden;;;
  set <- loadSet setID (serverError "could not load set");;
  value <- orFail (readRequest s entryValue_of_json r) (badRequest "invalid request");;
  sealed <- (vaultSeal kw value <!> answerAll (serverError "could not seal value"));;
  (Begin <!> answerAll failed);;;
  deferRollback (
    (inTx (UpsertSetEntry setID key (Vault.Ciphertext sealed) (Vault.Nonce sealed)
             (Vault.WrappedKey sealed)) <!> answerAll failed);;;
    (inTx (TouchSet setID) <!> answerAll failed);;;
    (inTx (InsertSetAudit (Some setID) (SecretSet_Name set) (pgText key) None "edit"
             (Some (auth_UserID auth))) <!> answerAll failed);;;
    (Commit <!> answerAll failed);;;
    pushSetToHosts setID;;;
    ret noContent).

Definition handleDeleteSetEntry (auth : authInfo) (r : Request) : Handler :=
  let failed := serverError "could not delete entry" in
  setID <- setID_of r "id";;
  let key := URLParam r "key" in
  ok <- canSet auth "set.manage" setID;;
  require ok forbidden;;;
  set <- loadSet setID (serverError "could not load set");;
  (Begin <!> answerAll failed);;;
  deferRollback (
    n <- (inTx (DeleteSetEntry setID key) <!> answerAll failed);;
    require (negb (bool_decide (n = 0))) (httpError "entry not found" StatusNotFound);;;
    (inTx (TouchSet setID) <!> answerAll failed);;;
    (inTx (InsertSetAudit (Some setID) (SecretSet_Name set) (pgText key) None "edit"
             (Some (auth_UserID auth))) <!> answerAll failed);;;
    (Commit <!> answerAll failed);;;
    pushSetToHosts setID;;;
    ret noContent).

Definition handleSetAudit (auth : authInfo) (r : Request) : Handler :=
  setID <- setID_of r "id";;
  ok <- canSet auth "set.read" setID;;
  require ok forbidden;;;
  set <- loadSet setID (serverError "could not load set");;
  rows <- (pool (ListSetAudit setID (SecretSet_Name set))
           <!> answerAll (serverError "could not load audit"));;
  writeResponse s (auth_ClientPublicKey auth) (JArr (setAuditView <$> rows)).

(** ** Every handler evolves the database *)

Lemma sealEntries_rel kw i l : evolving (sealEntries kw i l).
Proof. solve_evolving. Qed.
Lemma buildSet_rel kw row : evolving (buildSet kw row).
Proof. solve_evolving. Qed.
Hint Resolve sealEntries_rel buildSet_rel : preserve.
Lemma buildSecretSets_rel h : evolving (buildSecretSets h).
Proof. solve_evolving. Qed.
Lemma secretSetsEnvelope_rel h b : evolving (secretSetsEnvelope h b).
Proof. solve_evolving. Qed.
Hint Resolve buildSecretSets_rel secretSetsEnvelope_rel : preserve.
Lemma pushSecretSets_rel {E} h : evolving (pushSecretSets h : M World E unit).
Proof. solve_evolving. Qed.
Hint Resolve pushSecretSets_rel : preserve.
Lemma pushSetToHosts_rel {E} i : evolving (pushSetToHosts i : M World E unit).
Proof. solve_evolving. Qed.
Lemma setView_rel {E} a x k : evolving (setView a x k : M World E json).
Proof. solve_evolving. Qed.
Lemma setListView_rel {E} a x : evolving (setListView a x : M World E json).
Proof. solve_evolving. Qed.
Lemma setHostView_rel {E} a x : evolving (setHostView a x : M World E json).
Proof. solve_evolving. Qed.
Lemma loadSet_rel i f : evolving (loadSet i f).
Proof. solve_evolving. Qed.
Lemma setID_of_rel r n : evolving (setID_of r n).
Proof. solve_evolving. Qed.
Lemma auditSet_rel x k h a u : evolving (auditSet x k h a u).
Proof. solve_evolving. Qed.
Lemma canBind_rel {E} a i h : evolving (canBind a i h : M World E bool).
Proof. solve_evolving. Qed.
Hint Resolve pushSetToHosts_rel setView_rel setListView_rel setHostView_rel loadSet_rel
  setID_of_rel auditSet_rel canBind_rel : preserve.
Lemma handleCreateSet_rel a r : evolving (handleCreateSet a r).
Proof. solve_evolving. Qed.
Lemma handleListSets_rel a r : evolving (handleListSets a r).
Proof. solve_evolving. Qed.
Lemma handleGetSet_rel a r : evolving (handleGetSet a r).
Proof. solve_evolving. Qed.
Lemma handleListSetHosts_rel a r : evolving (handleListSetHosts a r).
Proof. solve_evolving. Qed.
Lemma handleUpdateSet_rel a r : evolving (handleUpdateSet a r).
Proof. solve_evolving. Qed.
Lemma handleDeleteSet_rel a r : evolving (handleDeleteSet a r).
Proof. solve_evolving. Qed.
Lemma handleBindSet_rel a r : evolving (handleBindSet a r).
Proof. solve_evolving. Qed.
Lemma handleUnbindSet_rel a r : evolving (handleUnbindSet a r).
Proof. solve_evolving. Qed.
Lemma handleUpsertSetEntry_rel a r : evolving (handleUpsertSetEntry a r).
Proof. solve_evolving. Qed.
Lemma handleDeleteSetEntry_rel a r : evolving (handleDeleteSetEntry a r).
Proof. solve_evolving. Qed.
Lemma handleSetAudit_rel a r : evolving (handleSetAudit a r).
Proof. solve_evolving. Qed.
End sets.
#[export] Hint Resolve sealEntries_rel buildSet_rel buildSecretSets_rel secretSetsEnvelope_rel
  pushSecretSets_rel pushSetToHosts_rel setView_rel setListView_rel setHostView_rel loadSet_rel
  setID_of_rel auditSet_rel canBind_rel handleCreateSet_rel handleListSets_rel handleGetSet_rel
  handleListSetHosts_rel handleUpdateSet_rel handleDeleteSet_rel handleBindSet_rel
  handleUnbindSet_rel handleUpsertSetEntry_rel handleDeleteSetEntry_rel handleSetAudit_rel
  : preserve.
