(* ===== verification/Groups.v ===== *)
(** Resource groups: [internal/controlplane/groups.go].

    A group collects hosts, secrets and sets; a grant on the group reaches
    every member. *)
From S2P Require Import Prelude Text Base64 Json Protocol Crypto Schema Evolve QUsers QAccess QSecrets World Http Perms Grants Accounts Secrets Hosts Sets.

Section groups.
Context `{Platform} (s : Server).

Record groupRequest := { group_Name : string; group_Description : string }.
(** [createGroupRequest] and [updateGroupRequest] have the same members. *)
Definition groupRequest_of_json : json → option groupRequest :=
  as_struct (Build_groupRequest "" "") (λ o,
    n ← decode_field as_string "" "name" o; d ← decode_field as_string "" "description" o;
    Some (Build_groupRequest n d)).
Definition resourceRequest_of_json : json → option (string * string) :=
  as_struct ("", "") (λ o,
    k ← decode_field as_string "" "resource_kind" o; i ← decode_field as_string "" "resource_id" o;
    Some (k, i)).

(** ** Views *)

Definition toGroupView {E} (auth : authInfo) (g : ResourceGroup) :
    M World E (list (string * json)) :=
  permissions <- groupPermissions auth (ResourceGroup_ID g);;
  ret [("id", JStr (uuidString (ResourceGroup_ID g))); ("name", JStr (ResourceGroup_Name g));
       ("description", JStr (ResourceGroup_Description g));
       ("created_at", json_time (ResourceGroup_CreatedAt g));
       ("permissions", json_strings permissions)].

(** The [display_name] and the nested view of the resource.  A kind the
    switch does not know, or a resource that is gone, has neither; a secret
    shown here has no [created_by] and [updated_by]. *)
Definition resourceDetails {E} (auth : authInfo) (row : ListGroupResourcesRow) :
    M World E (list (string * json)) :=
  let kind := GroupResource_ResourceKind (ListGroupResourcesRow_Member row) in
  if decide (kind = "host") then
    match ListGroupResourcesRow_Host row with
    | Some h =>
        v <- hostView auth h;;
        ret (omitempty "display_name" (Host_Name h) ++ [("host", JObj v)])
    | None => ret []
    end
  else if decide (kind = "secret") then
    match ListGroupResourcesRow_Secret row with
    | Some x =>
        permissions <- secretPermissions auth (Secret_ID x);;
        ret (omitempty "display_name" (Secret_Label x) ++
             [("secret", JObj (secretView x JNull JNull permissions))])
    | None => ret []
    end
  else if decide (kind = "set") then
    match ListGroupResourcesRow_Set row with
    | Some x =>
        v <- setListView auth x;;
        ret (omitempty "display_name" (SecretSet_Name (ListSetsRow_Set x)) ++ [("set", v)])
    | None => ret []
    end
  else ret [].

Definition toGroupResourceView {E} (auth : authInfo) (row : ListGroupResourcesRow) :
    M World E json :=
  let m := ListGroupResourcesRow_Member row in
  details <- resourceDetails auth row;;
  ret (JObj ([("resource_kind", JStr (GroupResource_ResourceKind m));
              ("resource_id", JStr (uuidString (GroupResource_ResourceID m)));
              ("added_at", json_time (GroupResource_AddedAt m))] ++ details)).

(** ** Members: the rows of one user are collected under one entry, in the
    order in which the users first appear. *)

Record groupMember := { gm_First : ListGroupMembersRow; gm_Rows : list ListGroupMembersRow }.

(** One iteration: [byUser] finds the entry of the row's user. *)
Fixpoint addMember (row : ListGroupMembersRow) (members : list groupMember) : list groupMember :=
  match members with
  | [] => [{| gm_First := row; gm_Rows := [row] |}]
  | m :: l =>
      if decide (uuidString (ListGroupMembersRow_UserID (gm_First m)) =
                 uuidString (ListGroupMembersRow_UserID row))
      then {| gm_First := gm_First m; gm_Rows := gm_Rows m ++ [row] |} :: l
      else m :: addMember row l
  end.
Definition groupMembers (rows : list ListGroupMembersRow) : list groupMember :=
  foldl (λ members row, addMember row members) [] rows.

Definition groupMemberView (m : groupMember) : json :=
  let u := gm_First m in
  JObj [("user_id", JStr (uuidString (ListGroupMembersRow_UserID u)));
        ("email", JStr (ListGroupMembersRow_Email u)); ("name", JStr (ListGroupMembersRow_Name u));
        ("display_name", JStr (textString (ListGroupMembersRow_DisplayName u)));
        ("role", JStr (ListGroupMembersRow_Role u)); ("status", JStr (ListGroupMembersRow_Status u));
        ("permissions", json_strings (ListGroupMembersRow_Permission <$> gm_Rows m));
        ("grants", JArr ((λ row,
           JObj [("id", JStr (uuidString (ListGroupMembersRow_GrantID row)));
                 ("permission", JStr (ListGroupMembersRow_Permission row));
                 ("granted_at", json_time (ListGroupMembersRow_GrantedAt row))]) <$> gm_Rows m))].

(** ** Handlers *)

Definition groupNotFound := httpError "group not found" StatusNotFound.
Definition groupID_of (r : Request) : M World Response uuid :=
  orFail (parseUUID (URLParam r "id")) (badRequest "invalid group id").
Definition respondGroup (auth : authInfo) (g : ResourceGroup) : Handler :=
  view <- toGroupView auth g;;
  writeResponse s (auth_ClientPublicKey auth) (JObj view).

Definition handleCreateGroup (auth : authInfo) (r : Request) : Handler :=
  let failed := serverError "could not create group" in
  ok <- canGlobal auth "group.create";;
  require ok forbidden;;;
  req <- orFail (readRequest s groupRequest_of_json r) (badRequest "invalid request");;
  require (negb (bool_decide (group_Name req = ""))) (badRequest "name is required");;;
  (Begin <!> answerAll failed);;;
  deferRollback (
    g <- (inTx (CreateGroup (group_Name req) (group_Description req)) <!> answerAll failed);;
    (grantOwner (auth_UserID auth) "group" (ResourceGroup_ID g) ["group.read"; "group.manage"]
       <!> answerAll failed);;;
    (Commit <!> answerAll failed);;;
    respondGroup auth g).

Definition respondGroups (auth : authInfo) (rows : list ResourceGroup) : Handler :=
  views <- map_each (toGroupView auth) rows;;
  writeResponse s (auth_ClientPublicKey auth) (JArr (JObj <$> views)).

Definition handleListGroups (auth : authInfo) (r : Request) : Handler :=
  rows <- ((if isAdmin auth then pool ListGroups else pool (ListReadableGroups (auth_UserID auth)))
           <!> answerAll (serverError "could not list groups"));;
  respondGroups auth rows.

Definition handleListGroupsForResource (auth : authInfo) (r : Request) : Handler :=
  let kind := URLParam r "kind" in
  require (bool_decide (kind = "host" ∨ kind = "secret" ∨ kind = "set"))
    (badRequest "resource kind must be host, secret or set");;;
  id <- orFail (parseUUID (URLParam r "resourceID")) (badRequest "invalid resource id");;
  rows <- ((if isAdmin auth then pool (ListGroupsForResource kind id)
            else pool (ListReadableGroupsForResource (auth_UserID auth) kind id))
           <!> answerAll (serverError "could not list resource groups"));;
  respondGroups auth rows.

Definition handleListGroupMembers (auth : authInfo) (r : Request) : Handler :=
  groupID <- groupID_of r;;
  ok <- canGroup auth "group.read" groupID;;
  require ok forbidden;;;
  (pool (GetGroup groupID) <!> answer groupNotFound (serverError "could not load group"));;;
  rows <- (pool (ListGroupMembers groupID) <!> answerAll (serverError "could not list group members"));;
  writeResponse s (auth_ClientPublicKey auth) (JArr (groupMemberView <$> groupMembers rows)).

Definition handleGetGroup (auth : authInfo) (r : Request) : Handler :=
  groupID <- groupID_of r;;
  ok <- canGroup auth "group.read" groupID;;
  require ok forbidden;;;
  g <- (pool (GetGroup groupID) <!> answer groupNotFound (serverError "could not load group"));;
  rows <- (pool (ListGroupResources groupID) <!> answerAll (serverError "could not load group"));;
  resources <- map_each (toGroupResourceView auth) rows;;
  view <- toGroupView auth g;;
  writeResponse s (auth_ClientPublicKey auth) (JObj (view ++ [("resources", JArr resources)])).

Definition handleUpdateGroup (auth : authInfo) (r : Request) : Handler :=
  groupID <- groupID_of r;;
  ok <- canGroup auth "group.manage" groupID;;
  require ok forbidden;;;
  req <- orFail (readRequest s groupRequest_of_json r) (badRequest "invalid request");;
  require (negb (bool_decide (group_Name req = ""))) (badRequest "name is required");;;
  g <- (pool (UpdateGroup groupID (group_Name req) (group_Description req))
        <!> answer groupNotFound (serverError "could not update group"));;
  respondGroup auth g.

Definition handleDeleteGroup (auth : authInfo) (r : Request) : Handler :=
  let failed := serverError "could not delete group" in
  groupID <- groupID_of r;;
  ok <- canGroup auth "group.manage" groupID;;
  require ok forbidden;;;
  members <- attempt (pool (GroupHostIDs groupID));;
  let hosts := match members with inr l => l | inl _ => [] end in
  (Begin <!> answerAll failed);;;
  deferRollback (
    (inTx (RevokeGroupGrants groupID) <!> answerAll failed);;;
    n <- (inTx (DeleteGroup groupID) <!> answerAll failed);;
    require (negb (bool_decide (n = 0))) groupNotFound;;;
    (Commit <!> answerAll failed);;;
    foreach hosts (pushSnapshot s);;;
    ret noContent).

(** The resource a request names. *)
Definition readResource (r : Request) : M World Response (string * uuid) :=
  req <- orFail (readRequest s resourceRequest_of_json r) (badRequest "invalid request");;
  let '(kind, id) := req in
  require (bool_decide (kind = "host" ∨ kind = "secret" ∨ kind = "set"))
    (badRequest "resource_kind must be host, secret or set");;;
  resourceID <- orFail (parseUUID id) (badRequest "invalid resource_id");;
  ret (kind, resourceID).

Definition handleAddGroupResource (auth : authInfo) (r : Request) : Handler :=
  groupID <- groupID_of r;;
  ok <- canGroup auth "group.manage" groupID;;
  require ok forbidden;;;
  resource <- readResource r;;
  let '(kind, resourceID) := resource in
  (pool (AddGroupResource groupID kind resourceID)
     <!> answerAll (serverError "could not add resource"));;;
  when (bool_decide (kind = "host")) (pushSnapshot s resourceID);;;
  ret noContent.

Definition handleRemoveGroupResource (auth : authInfo) (r : Request) : Handler :=
  groupID <- groupID_of r;;
  ok <- canGroup auth "group.manage" groupID;;
  require ok forbidden;;;
  resource <- readResource r;;
  let '(kind, resourceID) := resource in
  n <- (pool (RemoveGroupResource groupID kind resourceID)
        <!> answerAll (serverError "could not remove resource"));;
  require (negb (bool_decide (n = 0))) (httpError "resource not in group" StatusNotFound);;;
  when (bool_decide (kind = "host")) (pushSnapshot s resourceID);;;
  ret noContent.

(** ** Every handler evolves the database *)

Lemma toGroupView_rel {E} a g : evolving (toGroupView a g : M World E _).
Proof. solve_evolving. Qed.
Lemma resourceDetails_rel {E} a row : evolving (resourceDetails a row : M World E _).
Proof. solve_evolving. Qed.
Hint Resolve resourceDetails_rel : preserve.
Lemma toGroupResourceView_rel {E} a row : evolving (toGroupResourceView a row : M World E json).
Proof. solve_evolving. Qed.
Lemma groupID_of_rel r : evolving (groupID_of r).
Proof. solve_evolving. Qed.
Hint Resolve toGroupView_rel toGroupResourceView_rel groupID_of_rel : preserve.
Lemma respondGroup_rel a g : evolving (respondGroup a g).
Proof. solve_evolving. Qed.
Lemma respondGroups_rel a l : evolving (respondGroups a l).
Proof. solve_evolving. Qed.
Lemma readResource_rel r : evolving (readResource r).
Proof. solve_evolving. Qed.
Hint Resolve respondGroup_rel respondGroups_rel readResource_rel : preserve.
Lemma handleCreateGroup_rel a r : evolving (handleCreateGroup a r).
Proof. solve_evolving. Qed.
Lemma handleListGroups_rel a r : evolving (handleListGroups a r).
Proof. solve_evolving. Qed.
Lemma handleListGroupsForResource_rel a r : evolving (handleListGroupsForResource a r).
Proof. solve_evolving. Qed.
Lemma handleListGroupMembers_rel a r : evolving (handleListGroupMembers a r).
Proof. solve_evolving. Qed.
Lemma handleGetGroup_rel a r : evolving (handleGetGroup a r).
Proof. solve_evolving. Qed.
Lemma handleUpdateGroup_rel a r : evolving (handleUpdateGroup a r).
Proof. solve_evolving. Qed.
Lemma handleDeleteGroup_rel a r : evolving (handleDeleteGroup a r).
Proof. solve_evolving. Qed.
Lemma handleAddGroupResource_rel a r : evolving (handleAddGroupResource a r).
Proof. solve_evolving. Qed.
Lemma handleRemoveGroupResource_rel a r : evolving (handleRemoveGroupResource a r).
Proof. solve_evolving. Qed.
End groups.
#[export] Hint Resolve toGroupView_rel toGroupResourceView_rel groupID_of_rel respondGroup_rel
  respondGroups_rel readResource_rel handleCreateGroup_rel handleListGroups_rel
  handleListGroupsForResource_rel handleListGroupMembers_rel handleGetGroup_rel
  handleUpdateGroup_rel handleDeleteGroup_rel handleAddGroupResource_rel
  handleRemoveGroupResource_rel : preserve.
