(* ===== verification/Upgrades.v ===== *)
(** Agent upgrades: [internal/controlplane/upgrades.go].

    [http_get t url] is what the release server answers to the request made at
    step [t]: an error, or a status and a body. *)
From Stdlib Require Import Ascii.
From S2P Require Import Prelude Text Base64 Json Protocol Crypto Schema Evolve QUsers QAccess QSecrets World Http Perms Grants Accounts Hosts.

(** ** versionRe: ^v\d+\.\d+\.\d+$ *)

Definition ascii_digit (c : ascii) : bool := in_range 48 57 c.

(** [some]: a digit of the current number has been read; [left] numbers follow. *)
Fixpoint version_digits (some : bool) (left : nat) (l : list ascii) : bool :=
  match l with
  | [] => some && Nat.eqb left 0
  | c :: l' =>
      if ascii_digit c then version_digits true left l'
      else if Ascii.eqb c "."%char && some
      then match left with O => false | S n => version_digits false n l' end
      else false
  end.
Definition versionMatch (s : string) : bool :=
  match s with
  | String c rest => Ascii.eqb c "v"%char && version_digits false 2 (explode rest)
  | "" => false
  end.

(** ** bufio.Scanner over lines: a trailing carriage return is dropped, a line
    that fills the buffer is an error. *)

Definition maxToken : nat := Z.to_nat 65536.
Definition strip_cr (l : list ascii) : list ascii :=
  match reverse l with c :: l' => if Ascii.eqb c "013"%char then reverse l' else l | [] => [] end.
Definition scan_lines (body : bytes) : option (list string) :=
  let pieces := Split body "010"%char in
  (* the text after the last newline is a line only if it is not empty *)
  let lines := match reverse pieces with "" :: l => reverse l | _ => pieces end in
  if forallb (λ x, bool_decide (String.length x < maxToken)%nat) lines
  then Some ((λ x, implode (strip_cr (explode x))) <$> lines) else None.

Section upgrades.
Context `{Platform} (s : Server) (http_get : nat → string → error + (Z * bytes)).

Definition upgradeRepo := "tofunmiadewuyi/custos".
Definition upgradeArches := ["amd64"; "arm64"].

Definition tarball (version arch : string) : string :=
  "custosd_" +:+ version +:+ "_linux_" +:+ arch +:+ ".tar.gz".

(** One line of the checksums file. *)
Definition checksumLine (version : string) (out : gmap string string) (line : string) :
    gmap string string :=
  match Fields line with
  | [sum; name] =>
      match list_find (λ arch, tarball version arch = name) upgradeArches with
      | Some (_, arch) => <[arch := sum]> out
      | None => out
      end
  | _ => out
  end.

Definition parseChecksums (body : bytes) (version : string) : error + gmap string string :=
  match scan_lines body with
  | None => inl (ErrMsg "bufio.Scanner: token too long")
  | Some lines =>
      let out := foldl (checksumLine version) ∅ lines in
      if decide (out = ∅) then inl (ErrMsg "no custosd tarball digests") else inr out
  end.

(** The published checksums, fetched once per version. *)
Definition resolveChecksums (version : string) : IO (gmap string string) := λ w,
  match w_checksums w !! version with
  | Some m => (inr m, w)
  | None =>
      let url := "https://github.com/" +:+ upgradeRepo +:+ "/releases/download/custosd/" +:+
                 version +:+ "/custosd_" +:+ version +:+ "_checksums.txt" in
      match http_get (w_tick w) url with
      | inl e => (inl e, step w)
      | inr (status, body) =>
          if negb (bool_decide (status = StatusOK)) then (inl (ErrMsg "fetch checksums"), step w) else
          match parseChecksums body version with
          | inl e => (inl e, step w)
          | inr m => (inr m, with_checksums (<[version := m]> (w_checksums w)) (step w))
          end
      end
  end.

Definition buildUpgrade (version : string) : IO Upgrade :=
  sums <- resolveChecksums version;;
  ret {| Upgrade_Version := version; Upgrade_SHA256 := sums |}.

(** The outcome, as its JSON view. *)
Definition pushUpgrade {E} (h : Host) (target : string) (up : Upgrade) : M World E json :=
  let id := uuidString (Host_ID h) in
  let out outcome := JObj [("host_id", JStr id); ("hostname", JStr (Host_Hostname h));
                           ("outcome", JStr outcome)] in
  if decide (Host_AgentVersion h = target) then ret (out "already-current") else
  r <- attempt (pool (SetHostDesiredVersion (Host_ID h) target));;
  match r with
  | inl _ => ret (out "error")
  | inr _ =>
      let env := NewEnvelope TypeUpgrade (Some (Upgrade_json up)) in
      up <- gets (λ w, online id (w_hub w));;
      if up : bool then onHub (push id env);;; ret (out "pushed")
      else ret (out "offline-queued")
  end.

Definition upgradeRequest_of_json : json → option string :=
  as_struct "" (decode_field as_string "" "version").

Definition readVersion (r : Request) : M World Response string :=
  let bad := badRequest "version must look like vX.Y.Z" in
  v <- orFail (readRequest s upgradeRequest_of_json r) bad;;
  require (versionMatch v) bad;;;
  ret v.

Definition handleUpgradeHost (auth : authInfo) (r : Request) : Handler :=
  hostID <- orFail (parseUUID (URLParam r "id")) (badRequest "invalid host id");;
  ok <- canHost auth "host.upgrade" hostID;;
  require ok forbidden;;;
  version <- readVersion r;;
  host <- (pool (GetHostByID hostID) <!> answerAll hostNotFound);;
  require (bool_decide (Host_Status host = "active")) (httpError "host not active" StatusConflict);;;
  up <- (buildUpgrade version <!> answerAll (serverError "could not resolve release"));;
  out <- pushUpgrade host version up;;
  writeResponse s (auth_ClientPublicKey auth) out.

Definition handleUpgradeFleet (auth : authInfo) (r : Request) : Handler :=
  version <- readVersion r;;
  up <- (buildUpgrade version <!> answerAll (serverError "could not resolve release"));;
  hosts <- (pool ListActiveHosts <!> answerAll (serverError "could not list hosts"));;
  results <- map_each (λ h, pushUpgrade h version up) hosts;;
  writeResponse s (auth_ClientPublicKey auth) (JArr results).

(** ** Every handler evolves the database *)

Lemma resolveChecksums_rel v : evolving (resolveChecksums v).
Proof.
  intros w. unfold resolveChecksums. destruct (w_checksums w !! v); [reflexivity|].
  destruct (http_get _ _) as [e|[st b]]; [|case_match; [|destruct (parseChecksums b v)]];
    by apply effect_same; auto.
Qed.
Hint Resolve resolveChecksums_rel : preserve.
Lemma buildUpgrade_rel v : evolving (buildUpgrade v).
Proof. solve_evolving. Qed.
Lemma pushUpgrade_rel {E} h t u : evolving (pushUpgrade h t u : M World E json).
Proof. solve_evolving. Qed.
Lemma readVersion_rel r : evolving (readVersion r).
Proof. solve_evolving. Qed.
Hint Resolve buildUpgrade_rel pushUpgrade_rel readVersion_rel : preserve.
Lemma handleUpgradeHost_rel a r : evolving (handleUpgradeHost a r).
Proof. solve_evolving. Qed.
Lemma handleUpgradeFleet_rel a r : evolving (handleUpgradeFleet a r).
Proof. solve_evolving. Qed.
End upgrades.
#[export] Hint Resolve resolveChecksums_rel buildUpgrade_rel pushUpgrade_rel readVersion_rel
  handleUpgradeHost_rel handleUpgradeFleet_rel : preserve.
