(* ===== verification/Listings.v ===== *)
(** The audit listings: who read or changed a secret, which grants changed
    ([internal/controlplane/audit.go]), who can reach a secret or a host
    ([access_audit.go]) and the pages of a host's access log ([hosts.go]). *)
From S2P Require Import Prelude Text Base64 Json Protocol Crypto Schema Evolve QUsers QAccess QSecrets QAudit World Http Perms Grants Accounts Secrets Hosts Pagination.

Section audit.
Context `{Platform} (s : Server).

(** [if err != nil { http.Error(w, err.Error(), http.StatusBadRequest) }] *)
Definition orBadRequest {A} (x : string + A) : M World Response A :=
  match x with inr a => ret a | inl msg => throw (badRequest msg) end.

(** ** audit.go *)

Definition auditFeedLimit : Z := 100.

Definition auditEntry (row : SecretAuditLog * option User) : json :=
  let '(a, u) := row in
  JObj [("id", JStr (uuidString (SecretAuditLog_ID a)));
        ("action", JStr (SecretAuditLog_Action a)); ("at", json_time (SecretAuditLog_At a));
        ("secret_id", JStr (optUuidString (SecretAuditLog_SecretID a)));
        ("secret_name", JStr (SecretAuditLog_SecretName a));
        ("user_id", JStr (optUuidString (SecretAuditLog_UserID a)));
        ("user_email", JStr (textString (User_Email <$> u)));
        ("user_name", JStr (textString (User_Name <$> u)));
        ("user_display_name", JStr (textString (u ≫= User_DisplayName)))].

Definition handleSecretAudit (auth : authInfo) (r : Request) : Handler :=
  secretID <- orFail (parseUUID (URLParam r "id")) (badRequest "invalid secret id");;
  ok <- canSecret auth "secret.read" secretID;;
  require ok forbidden;;;
  rows <- (pool (ListSecretAudit secretID) <!> answerAll (serverError "could not load audit"));;
  writeResponse s (auth_ClientPublicKey auth) (JArr (auditEntry <$> rows)).

Definition handleAllAudit (auth : authInfo) (r : Request) : Handler :=
  rows <- (pool (ListAllSecretAudit auditFeedLimit)
           <!> answerAll (serverError "could not load audit"));;
  writeResponse s (auth_ClientPublicKey auth) (JArr (auditEntry <$> rows)).

Definition grantAuditEntry (row : GrantAuditLog * option User * option User) : json :=
  let '(a, actor, subject) := row in
  JObj [("id", JStr (uuidString (GrantAuditLog_ID a)));
        ("action", JStr (GrantAuditLog_Action a));
        ("grant_id", JStr (optUuidString (GrantAuditLog_GrantID a)));
        ("actor_id", JStr (optUuidString (GrantAuditLog_ActorID a)));
        ("actor_email", JStr (GrantAuditLog_ActorEmail a));
        ("actor_name", JStr (textString (User_Name <$> actor)));
        ("actor_display_name", JStr (textString (actor ≫= User_DisplayName)));
        ("subject_id", JStr (optUuidString (GrantAuditLog_SubjectID a)));
        ("subject_email", JStr (GrantAuditLog_SubjectEmail a));
        ("subject_name", JStr (textString (User_Name <$> subject)));
        ("subject_display_name", JStr (textString (subject ≫= User_DisplayName)));
        ("permission", JStr (GrantAuditLog_Permission a));
        ("target_kind", JStr (GrantAuditLog_TargetKind a));
        ("target_id", JStr (optUuidString (GrantAuditLog_TargetID a)));
        ("at", json_time (GrantAuditLog_At a))].

Definition handleGrantAudit (auth : authInfo) (r : Request) : Handler :=
  rows <- (pool ListGrantAudit <!> answerAll (serverError "could not load grant audit"));;
  writeResponse s (auth_ClientPublicKey auth) (JArr (grantAuditEntry <$> rows)).

(** ** access_audit.go: secrets *)

Record accessEntry := {
  access_UserID : string; access_Email : string; access_Name : string;
  access_DisplayName : string; access_Role : string; access_Status : string;
  access_Via : string; access_GrantID : string; access_Permission : string;
  access_GroupID : string; access_GroupName : string; access_GrantedAt : option Z }.

(** [Fingerprints] is never set on an entry of a secret, and is left out. *)
Definition accessEntry_json (e : accessEntry) : json :=
  JObj ([("user_id", JStr (access_UserID e)); ("email", JStr (access_Email e));
         ("name", JStr (access_Name e)); ("display_name", JStr (access_DisplayName e));
         ("role", JStr (access_Role e)); ("status", JStr (access_Status e));
         ("via", JStr (access_Via e))] ++
        omitempty "grant_id" (access_GrantID e) ++
        [("permission", JStr (access_Permission e))] ++
        omitempty "group_id" (access_GroupID e) ++ omitempty "group_name" (access_GroupName e) ++
        match access_GrantedAt e with Some t => [("granted_at", json_time t)] | None => [] end).

Definition directEntry (x : ListSecretDirectAccessRow) : accessEntry :=
  let g := secretDirect_Grant x in let u := secretDirect_User x in
  {| access_UserID := uuidString (User_ID u); access_Email := User_Email u;
     access_Name := User_Name u; access_DisplayName := textString (User_DisplayName u);
     access_Role := User_Role u; access_Status := User_Status u; access_Via := "direct";
     access_GrantID := uuidString (Grant_ID g); access_Permission := Grant_Permission g;
     access_GroupID := ""; access_GroupName := ""; access_GrantedAt := Some (Grant_CreatedAt g) |}.

Definition groupEntry (x : ListSecretGroupAccessRow) : accessEntry :=
  let g := secretGroup_Grant x in let u := secretGroup_User x in
  {| access_UserID := uuidString (User_ID u); access_Email := User_Email u;
     access_Name := User_Name u; access_DisplayName := textString (User_DisplayName u);
     access_Role := User_Role u; access_Status := User_Status u; access_Via := "group";
     access_GrantID := uuidString (Grant_ID g); access_Permission := Grant_Permission g;
     access_GroupID := uuidString (ResourceGroup_ID (secretGroup_Group x));
     access_GroupName := ResourceGroup_Name (secretGroup_Group x);
     access_GrantedAt := Some (Grant_CreatedAt g) |}.

Definition adminEntry (u : User) : accessEntry :=
  {| access_UserID := uuidString (User_ID u); access_Email := User_Email u;
     access_Name := User_Name u; access_DisplayName := textString (User_DisplayName u);
     access_Role := "admin"; access_Status := User_Status u; access_Via := "admin";
     access_GrantID := ""; access_Permission := "*"; access_GroupID := "";
     access_GroupName := ""; access_GrantedAt := None |}.

(** The three reads of [handleSecretAccessAudit], in order. *)
Definition secretAccessEntries (secretID : uuid) : M World Response (list accessEntry) :=
  let failed := serverError "could not load access" in
  direct <- (pool (ListSecretDirectAccess secretID) <!> answerAll failed);;
  group <- (pool (ListSecretGroupAccess secretID) <!> answerAll failed);;
  admins <- (pool ListActiveAdmins <!> answerAll failed);;
  ret ((directEntry <$> direct) ++ (groupEntry <$> group) ++ (adminEntry <$> admins)).

Definition handleSecretAccessAudit (auth : authInfo) (r : Request) : Handler :=
  secretID <- orFail (parseUUID (URLParam r "id")) (badRequest "invalid secret id");;
  row <- (pool (GetSecret secretID)
          <!> answer secretNotFound (serverError "could not load secret"));;
  entries <- secretAccessEntries secretID;;
  let secret := GetSecretRow_Secret row in
  writeResponse s (auth_ClientPublicKey auth)
    (JObj [("secret_id", JStr (uuidString (Secret_ID secret)));
           ("secret_name", JStr (Secret_Label secret));
           ("entries", JArr (accessEntry_json <$> entries))]).

(** ** access_audit.go: hosts *)

Record accessPath := {
  accessPath_Via : string; accessPath_GrantID : string; accessPath_Permission : string;
  accessPath_GroupID : string; accessPath_GroupName : string; accessPath_GrantedAt : Z }.

Definition accessPath_json (p : accessPath) : json :=
  JObj ([("via", JStr (accessPath_Via p)); ("grant_id", JStr (accessPath_GrantID p));
         ("permission", JStr (accessPath_Permission p))] ++
        omitempty "group_id" (accessPath_GroupID p) ++
        omitempty "group_name" (accessPath_GroupName p) ++
        [("granted_at", json_time (accessPath_GrantedAt p))]).

Record hostAccessEntry := {
  entry_UserID : string; entry_Email : string; entry_Name : string; entry_DisplayName : string;
  entry_Role : string; entry_Status : string; entry_Fingerprints : list string;
  entry_Paths : list accessPath }.

Definition hostAccessEntry_json (e : hostAccessEntry) : json :=
  JObj [("user_id", JStr (entry_UserID e)); ("email", JStr (entry_Email e));
        ("name", JStr (entry_Name e)); ("display_name", JStr (entry_DisplayName e));
        ("role", JStr (entry_Role e)); ("status", JStr (entry_Status e));
        ("fingerprints", json_strings (entry_Fingerprints e));
        ("paths", JArr (accessPath_json <$> entry_Paths e))].

Definition newEntry (row : ListHostAccessUsersRow) : hostAccessEntry :=
  let u := accessUser_User row in
  {| entry_UserID := uuidString (User_ID u); entry_Email := User_Email u;
     entry_Name := User_Name u; entry_DisplayName := textString (User_DisplayName u);
     entry_Role := User_Role u; entry_Status := User_Status u;
     entry_Fingerprints := accessUser_Fingerprints row; entry_Paths := [] |}.

Definition pathOf (row : ListHostAccessPathsForUsersRow) : accessPath :=
  {| accessPath_Via := path_Via row; accessPath_GrantID := uuidString (path_GrantID row);
     accessPath_Permission := path_Permission row;
     accessPath_GroupID := match path_GroupID row with Some i => uuidString i | None => "" end;
     accessPath_GroupName := match path_GroupID row with Some _ => path_GroupName row | None => "" end;
     accessPath_GrantedAt := path_CreatedAt row |}.

Definition addPath (p : accessPath) (e : hostAccessEntry) : hostAccessEntry :=
  {| entry_UserID := entry_UserID e; entry_Email := entry_Email e; entry_Name := entry_Name e;
     entry_DisplayName := entry_DisplayName e; entry_Role := entry_Role e;
     entry_Status := entry_Status e; entry_Fingerprints := entry_Fingerprints e;
     entry_Paths := entry_Paths e ++ [p] |}.

(** The loop over the page's users: the entries and [byUser], the index of
    each user's entry. *)
Definition entryLoop (users : list ListHostAccessUsersRow) :
    list hostAccessEntry * gmap string nat :=
  foldl (λ '(entries, byUser) user,
      (entries ++ [newEntry user], <[uuidString (User_ID (accessUser_User user)) := length entries]> byUser))
    ([], ∅) users.
(** The loop over the paths: each goes to its user's entry. *)
Definition pathLoop (byUser : gmap string nat) (entries : list hostAccessEntry)
    (paths : list ListHostAccessPathsForUsersRow) : list hostAccessEntry :=
  foldl (λ entries row,
      match byUser !! uuidString (path_UserID row) with
      | None => entries
      | Some idx => alter (addPath (pathOf row)) idx entries
      end) entries paths.

(** From the parameters to the page; the second query is skipped when there
    are no users. *)
Definition hostAccessPage (hostID : uuid) (r : Request) : M World Response (page hostAccessEntry) :=
  params <- orBadRequest (userPageParams r);;
  let '(limit, cur) := params in
  users <- (pool (ListHostAccessUsers (userCursor_Email cur) (userCursor_ID cur) (limit + 1) hostID)
            <!> answerAll (serverError "could not load access"));;
  let p := splitPage limit (λ row, encodeUserCursor (User_Email (accessUser_User row))
                                     (User_ID (accessUser_User row))) users in
  let '(entries, byUser) := entryLoop (Items p) in
  let userIDs := (λ row, User_ID (accessUser_User row)) <$> Items p in
  entries' <- (if decide (userIDs = []) then ret entries else
               paths <- (pool (ListHostAccessPathsForUsers hostID userIDs)
                         <!> answerAll (serverError "could not load access paths"));;
               ret (pathLoop byUser entries paths));;
  ret {| Items := entries'; NextCursor := NextCursor p |}.

Definition handleHostAccessAudit (auth : authInfo) (r : Request) : Handler :=
  hostID <- orFail (parseUUID (URLParam r "id")) (badRequest "invalid host id");;
  ok <- canHost auth "host.audit" hostID;;
  require ok forbidden;;;
  host <- (pool (GetHostByID hostID) <!> answer hostNotFound (serverError "could not load host"));;
  p <- hostAccessPage hostID r;;
  writeResponse s (auth_ClientPublicKey auth)
    (JObj ([("host_id", JStr (uuidString (Host_ID host))); ("host_name", JStr (Host_Name host));
            ("entries", JArr (hostAccessEntry_json <$> Items p))] ++
           omitempty "next_cursor" (NextCursor p))).

(** ** hosts.go: a host's access log *)

Definition hostAuditView (row : ListHostAccessLogsRow) : json :=
  let '(l, u) := row in
  JObj ([("account", JStr (SshAccessLog_Account l)); ("allowed", JBool (SshAccessLog_Allowed l));
         ("fingerprint", JStr (SshAccessLog_Fingerprint l)); ("at", json_time (SshAccessLog_At l))] ++
        omitempty "user_id" (match u with Some u => uuidString (User_ID u) | None => "" end) ++
        omitempty "user_email" (textString (User_Email <$> u)) ++
        omitempty "user_name" (textString (User_Name <$> u)) ++
        omitempty "user_display_name" (textString (u ≫= User_DisplayName)) ++
        omitempty "user_role" (textString (User_Role <$> u)) ++
        omitempty "user_status" (textString (User_Status <$> u))).

Definition hostLogsParams (hostID : uuid) (f : auditFilters) (cur : atCursor) (limit : Z) :
    ListHostAccessLogsParams :=
  {| logs_HostID := hostID; logs_CursorAt := atCursor_At cur; logs_CursorID := atCursor_ID cur;
     logs_From := filter_From f; logs_To := filter_To f; logs_Allowed := filter_Allowed f;
     logs_UserID := filter_UserID f; logs_Search := filter_Search f; logs_PageLimit := limit + 1 |}.

(** From the parameters to the page. *)
Definition hostAuditPage (hostID : uuid) (r : Request) : M World Response (page json) :=
  params <- orBadRequest (pageParams r);;
  let '(limit, cur) := params in
  filters <- orBadRequest (parseAuditFilters r);;
  rows <- (pool (ListHostAccessLogs (hostLogsParams hostID filters cur limit))
           <!> answerAll (serverError "could not load host audit"));;
  let p := splitPage limit (λ row, encodeCursor (SshAccessLog_At row.1) (SshAccessLog_ID row.1)) rows in
  ret {| Items := hostAuditView <$> Items p; NextCursor := NextCursor p |}.

Definition handleHostAudit (auth : authInfo) (r : Request) : Handler :=
  hostID <- orFail (parseUUID (URLParam r "id")) (badRequest "invalid host id");;
  ok <- canHost auth "host.access" hostID;;
  require ok forbidden;;;
  p <- hostAuditPage hostID r;;
  writeResponse s (auth_ClientPublicKey auth)
    (JObj ([("items", JArr (Items p))] ++ omitempty "next_cursor" (NextCursor p))).

(** ** The listings evolve the database (they change nothing in it) *)

Lemma orBadRequest_rel {A} (x : string + A) : evolving (orBadRequest x).
Proof. unfold orBadRequest. solve_rel. Qed.
Hint Resolve orBadRequest_rel : preserve.
Lemma secretAccessEntries_rel i : evolving (secretAccessEntries i).
Proof. solve_evolving. Qed.
Lemma hostAccessPage_rel i r : evolving (hostAccessPage i r).
Proof. solve_evolving. Qed.
Lemma hostAuditPage_rel i r : evolving (hostAuditPage i r).
Proof. solve_evolving. Qed.
Hint Resolve secretAccessEntries_rel hostAccessPage_rel hostAuditPage_rel : preserve.
Lemma handleSecretAudit_rel a r : evolving (handleSecretAudit a r).
Proof. solve_evolving. Qed.
Lemma handleAllAudit_rel a r : evolving (handleAllAudit a r).
Proof. solve_evolving. Qed.
Lemma handleGrantAudit_rel a r : evolving (handleGrantAudit a r).
Proof. solve_evolving. Qed.
Lemma handleSecretAccessAudit_rel a r : evolving (handleSecretAccessAudit a r).
Proof. solve_evolving. Qed.
Lemma handleHostAccessAudit_rel a r : evolving (handleHostAccessAudit a r).
Proof. solve_evolving. Qed.
Lemma handleHostAudit_rel a r : evolving (handleHostAudit a r).
Proof. solve_evolving. Qed.
End audit.
#[export] Hint Resolve orBadRequest_rel secretAccessEntries_rel hostAccessPage_rel hostAuditPage_rel
  handleSecretAudit_rel handleAllAudit_rel handleGrantAudit_rel handleSecretAccessAudit_rel
  handleHostAccessAudit_rel handleHostAudit_rel : preserve.
