(* ===== verification/Link.v ===== *)
(** The control plane's side of a daemon connection:
    [internal/controlplane/daemon_ws.go].

    The websocket library is a parameter: [peer] answers the challenge (the
    envelope [wsjson.Read] returned, or nothing when it failed), and the
    envelopes read afterwards are an input of [readDaemon]. *)
From S2P Require Import Prelude Text Base64 Json Protocol Crypto Schema Evolve QUsers QAccess QSecrets World Http Perms Grants Accounts Secrets Hosts Sets Upgrades.

Section link.
Context `{Platform} (s : Server) (http_get : nat → string → error + (Z * bytes)).

(** ** The handshake *)

Definition authenticateDaemon (peer : Envelope → option Envelope) : IO (Host * string) :=
  nonce <- randBytes Identity.challengeSize;;
  let challenge := NewEnvelope TypeChallenge (Some (Challenge_json {| Challenge_Nonce := nonce |})) in
  match peer challenge with
  | None => throw (ErrConn "websocket")
  | Some env =>
      if negb (bool_decide (Envelope_Type env = TypeAuth))
      then throw (ErrMsg "expected auth message") else
      match unmarshal Auth_of_json (Envelope_Data env) with
      | None => throw (ErrMsg "json")
      | Some auth =>
          match parseUUID (Auth_HostID auth) with
          | None => throw (ErrMsg "uuid")
          | Some hostID =>
              host <- pool (GetHostByID hostID);;
              (if decide (Host_Status host = "active") then ret tt
               else throw (ErrMsg "host not active"));;;
              lift (Identity.Verify (Host_IdentityKey host) nonce (Auth_Signature auth));;;
              ret (host, Auth_Version auth)
          end
      end
  end.

(** ** The connection *)

(** [send <- env] on the connection's own channel.  The send blocks on a full
    channel where [try_send] leaves the channel as it is.  The two agree unless
    other requests push so much between [register] and the start of the writer
    that no room of the 32 is left: the handler of the code then waits for ever
    with its envelope unsent, as nothing drains the channel yet, and here it
    goes on with the envelope unsent and the same full channel. *)
Definition enqueue {E} (c : nat) (env : Envelope) : M World E unit := onHub (try_send c env).

(** [send := make(chan ...); s.hub.register(hostID, send, cancel)] *)
Definition openLink {E} (hostID : string) : M World E nat := λ w,
  let '(c, h) := make_chan (w_hub w) in (inr c, with_hub (register hostID c h) w).

(** The part of [handleDaemon] between authentication and the read loop: the
    number of the connection's channel. *)
Definition connectDaemon {E} (host : Host) (version : string) : M World E nat :=
  let hostID := uuidString (Host_ID host) in
  ignore (pool (TouchHostSeen (Host_ID host)));;;
  let changed := negb (bool_decide (version = "")) &&
                 negb (bool_decide (version = Host_AgentVersion host)) in
  when changed (ignore (pool (SetHostVersion (Host_ID host) version)));;;
  let current := if changed then version else Host_AgentVersion host in
  c <- openLink hostID;;
  (* initial snapshot, sent first *)
  ignore (
    snapshot <- buildSnapshot host;;
    env <- snapshotEnvelope s (Host_ID host) snapshot;;
    enqueue c env);;;
  (* sealed secret sets bound to this host *)
  when (negb (bool_decide (Host_EncryptionKey host = ""))) (ignore (
    sets <- buildSecretSets s host;;
    env <- secretSetsEnvelope s host sets;;
    enqueue c env));;;
  (* a host behind its desired version *)
  when (negb (bool_decide (Host_DesiredVersion host = "")) &&
        negb (bool_decide (Host_DesiredVersion host = current))) (ignore (
    up <- buildUpgrade http_get (Host_DesiredVersion host);;
    enqueue c (NewEnvelope TypeUpgrade (Some (Upgrade_json up)))));;;
  ret c.

(** ** Messages from the daemon *)

Definition recordSecretRead {E} (host : Host) (rd : SecretRead) : M World E unit :=
  r <- attempt (pool (GetSetByName (SecretRead_SetName rd)));;
  let setID := match r with inr x => Some (SecretSet_ID x) | inl _ => None end in
  ignore (pool (InsertSetAudit setID (SecretRead_SetName rd) None (Some (Host_ID host))
                  "machine_read" None));;;
  ignore (pool (TouchHostSeen (Host_ID host))).

Definition recordAccessLog {E} (host : Host) (lg : AccessLog) : M World E unit :=
  r <- attempt (pool (GetPublicKeyByFingerprint (AccessLog_Fingerprint lg)));;
  let keyID := match r with inr k => Some (PublicKey_ID k) | inl _ => None end in
  ignore (pool (InsertSSHAccessLog (Host_ID host) (Host_Hostname host) keyID (AccessLog_Account lg)
                  (AccessLog_Allowed lg) (AccessLog_At lg) (AccessLog_Fingerprint lg)));;;
  ignore (pool (TouchHostSeen (Host_ID host))).

(** One iteration of [readDaemon]; other message types are ignored. *)
Definition readEnvelope {E} (host : Host) (env : Envelope) : M World E unit :=
  if decide (Envelope_Type env = TypeAccessLog) then
    match unmarshal AccessLog_of_json (Envelope_Data env) with
    | Some lg => recordAccessLog host lg
    | None => ret tt
    end
  else if decide (Envelope_Type env = TypeSecretRead) then
    match unmarshal SecretRead_of_json (Envelope_Data env) with
    | Some rd => recordSecretRead host rd
    | None => ret tt
    end
  else ret tt.

(** Until [wsjson.Read] fails. *)
Definition readDaemon {E} (host : Host) (inbound : list Envelope) : M World E unit :=
  foreach inbound (readEnvelope host).

(** ** writeDaemon and flushDaemon: one envelope taken from the queue. *)
Definition dequeue (c : nat) (h : Hub) : option (Envelope * Hub) :=
  match chans h !! c with
  | Some (env :: q) => Some (env, set_chans (<[c := q]> (chans h)) h)
  | _ => None
  end.

(** [flushDaemon]: what is written when every write succeeds. *)
Definition flushed (c : nat) (h : Hub) : list Envelope := default [] (chans h !! c).

(** ** handleDaemon, on a connection that nothing else interleaves with *)
Definition handleDaemon (peer : Envelope → option Envelope) (inbound : list Envelope) : IO unit :=
  auth <- authenticateDaemon peer;;
  let '(host, version) := auth in
  c <- connectDaemon host version;;
  readDaemon host inbound;;;
  onHub (unregister (uuidString (Host_ID host)) c).

(** ** Every step evolves the database *)

Lemma authenticateDaemon_rel peer : evolving (authenticateDaemon peer).
Proof. solve_evolving. Qed.
Lemma enqueue_rel {E} c e : evolving (enqueue c e : M World E unit).
Proof. solve_evolving. Qed.
Lemma openLink_rel {E} h : evolving (openLink h : M World E nat).
Proof.
  intros w. unfold openLink. destruct (make_chan (w_hub w)) as [c h'] eqn:Ec.
  apply effect_same; [done|done|done|by left|]. by eapply register_make_chan_wf.
Qed.
Hint Resolve authenticateDaemon_rel enqueue_rel openLink_rel : preserve.
(** The connection of a host that is known. *)
Definition connecting (host : Host) : World → World → Prop :=
  guarded (effect evolves) (λ w, known host (visited w)).
#[local] Instance connecting_preorder host : PreOrder (connecting host).
Proof.
  apply guarded_preorder; [apply _|]. intros w w' (d & Hd & Hin) Hv%effect_visited.
  exists d. split; [by apply Hv|done].
Qed.
Lemma initial_snapshot_rel h c :
  preserves (connecting h)
    (snapshot <- buildSnapshot h;; env <- snapshotEnvelope s (Host_ID h) snapshot;; enqueue c env).
Proof.
  intros w Hk. apply (snapshot_then s evolves) with (host:=h); [eauto with evolve..|done|done|done| |exact Hk].
  intros _ env. solve_rel.
Qed.
Lemma connectDaemon_known {E} h v : preserves (connecting h) (connectDaemon h v : M World E nat).
Proof.
  unfold connectDaemon. cbv zeta.
  repeat first [apply preserves_ignore, initial_snapshot_rel | apply preserves_guarded; solve [solve_rel]
               | preserve_step].
Qed.
Lemma recordSecretRead_rel {E} h r : evolving (recordSecretRead h r : M World E unit).
Proof. solve_evolving. Qed.
Lemma recordAccessLog_rel {E} h l : evolving (recordAccessLog h l : M World E unit).
Proof. solve_evolving. Qed.
Hint Resolve recordSecretRead_rel recordAccessLog_rel : preserve.
Lemma readEnvelope_rel {E} h e : evolving (readEnvelope h e : M World E unit).
Proof. solve_evolving. Qed.
Hint Resolve readEnvelope_rel : preserve.
Lemma readDaemon_rel {E} h l : evolving (readDaemon h l : M World E unit).
Proof. solve_evolving. Qed.
Hint Resolve readDaemon_rel : preserve.

(** A host that authenticated is a row of the database. *)
Lemma authenticateDaemon_known peer w host v w1 :
  authenticateDaemon peer w = (inr (host, v), w1) → known host (visited w1).
Proof.
  unfold authenticateDaemon. intros (n & w2 & [= <- <-] & Hr)%bind_inr.
  destruct (peer _) as [env|]; [|done]. destruct (negb _); [done|].
  destruct (unmarshal _ _) as [auth|]; [|done]. destruct (parseUUID _) as [id|]; [|done].
  apply bind_inr in Hr as (h & w3 & Hq & Hr). apply bind_inr in Hr as ([] & w4 & Hst & Hr).
  apply bind_inr in Hr as ([] & w5 & Hv & [= <- <- <-]).
  apply pool_host in Hq as [_ Hk]. case_decide; [|done]. injection Hst as <-. by injection Hv as _ <-.
Qed.
Lemma handleDaemon_rel peer l : evolving (handleDaemon peer l).
Proof.
  intros w. apply (bind_at (effect evolves)); [apply authenticateDaemon_rel|].
  intros [host v] w1 Hk%authenticateDaemon_known. apply (bind_at (effect evolves)); [by apply connectDaemon_known|].
  intros c w2 _. assert (evolving (readDaemon host l;;; (onHub (unregister (uuidString (Host_ID host)) c) : IO unit)))
    as Hr by solve_rel. apply Hr.
Qed.
End link.
#[export] Hint Resolve authenticateDaemon_rel enqueue_rel openLink_rel
  recordSecretRead_rel recordAccessLog_rel readEnvelope_rel readDaemon_rel handleDaemon_rel
  : preserve.
