(* ===== verification/Router.v ===== *)
(** The control plane as a whole: the routes of [internal/controlplane/
    server.go] with the sessions they require, and the steps of the running
    server.

    The rate limits on the public routes are in [RateLimit]; logging and CORS
    are not modelled. *)
From S2P Require Import Prelude Text Base64 Json Protocol Crypto Schema Evolve QUsers QAccess QSecrets World Http Perms Grants Accounts Auth Secrets Hosts Sets Groups Upgrades Listings Link.

Inductive PublicRoute :=
  | PostEnroll | PostDecommission | PostLogin | PostRefresh | PostInvitationsAccept
  | PostPasswordReset | PostPasswordResetConfirm.

Inductive UserRoute :=
  | GetMe | PatchMe | PostLogout | PostEnrollTokens
  | PostKeys | GetKeys | DeleteKey_
  | PostSecrets | GetSecrets | GetSecret_ | GetSecretReveal | GetSecretAudit | PutSecret | DeleteSecret_
  | PostGroups | GetGroups | GetGroupsForResource | GetGroupMembers | GetGroup_ | PutGroup
  | DeleteGroup_ | PostGroupResources | DeleteGroupResources
  | PostSets | GetSets | GetSet_ | GetSetHosts | GetSetAudit | PutSet | DeleteSet_
  | PutSetEntry | DeleteSetEntry_
  | GetHosts | GetHost_ | GetHostAudit | GetHostAccessAudit | PostHostRefresh | PostHostRevoke | PostHostUpgrade
  | PostHostSets | DeleteHostSet.

Inductive AdminRoute :=
  | PostUpgrade | PostInvitations | GetInvitations | DeleteInvitation_ | PostInvitationResend
  | GetUsers | PostUserSuspend | PostUserActivate | DeleteUser
  | GetGrants | PostGrants | DeleteGrant
  | GetAudit | GetGrantAudit | GetSecretAccessAudit.

Inductive Route := Public (p : PublicRoute) | User_ (u : UserRoute) | Admin (a : AdminRoute).

Section router.
Context `{Platform} (s : Server) (http_get : nat → string → error + (Z * bytes)).

Definition publicRoutes (p : PublicRoute) (r : Request) : Handler :=
  match p with
  | PostEnroll => handleEnroll s r
  | PostDecommission => handleDecommissionHost s r
  | PostLogin => handleLogin s r
  | PostRefresh => handleRefresh s r
  | PostInvitationsAccept => handleAcceptInvitation s r
  | PostPasswordReset => handlePasswordReset s r
  | PostPasswordResetConfirm => handlePasswordResetConfirm s r
  end.

Definition userRoutes (u : UserRoute) (auth : authInfo) (r : Request) : Handler :=
  match u with
  | GetMe => handleMe s auth r
  | PatchMe => handleUpdateProfile s auth r
  | PostLogout => handleLogout auth r
  | PostEnrollTokens => handleCreateEnrollToken s auth r
  | PostKeys => handleAddKey s auth r
  | GetKeys => handleListKeys s auth r
  | DeleteKey_ => handleDeleteKey s auth r
  | PostSecrets => handleCreateSecret s auth r
  | GetSecrets => handleListSecrets s auth r
  | GetSecret_ => handleGetSecret s auth r
  | GetSecretReveal => handleRevealSecret s auth r
  | GetSecretAudit => handleSecretAudit s auth r
  | PutSecret => handleUpdateSecret s auth r
  | DeleteSecret_ => handleDeleteSecret auth r
  | PostGroups => handleCreateGroup s auth r
  | GetGroups => handleListGroups s auth r
  | GetGroupsForResource => handleListGroupsForResource s auth r
  | GetGroupMembers => handleListGroupMembers s auth r
  | GetGroup_ => handleGetGroup s auth r
  | PutGroup => handleUpdateGroup s auth r
  | DeleteGroup_ => handleDeleteGroup s auth r
  | PostGroupResources => handleAddGroupResource s auth r
  | DeleteGroupResources => handleRemoveGroupResource s auth r
  | PostSets => handleCreateSet s auth r
  | GetSets => handleListSets s auth r
  | GetSet_ => handleGetSet s auth r
  | GetSetHosts => handleListSetHosts s auth r
  | GetSetAudit => handleSetAudit s auth r
  | PutSet => handleUpdateSet s auth r
  | DeleteSet_ => handleDeleteSet s auth r
  | PutSetEntry => handleUpsertSetEntry s auth r
  | DeleteSetEntry_ => handleDeleteSetEntry s auth r
  | GetHosts => handleListHosts s auth r
  | GetHost_ => handleGetHost s auth r
  | GetHostAudit => handleHostAudit s auth r
  | GetHostAccessAudit => handleHostAccessAudit s auth r
  | PostHostRefresh => handleRefreshHost s auth r
  | PostHostRevoke => handleRevokeHost s auth r
  | PostHostUpgrade => handleUpgradeHost s http_get auth r
  | PostHostSets => handleBindSet s auth r
  | DeleteHostSet => handleUnbindSet s auth r
  end.

Definition adminRoutes (a : AdminRoute) (auth : authInfo) (r : Request) : Handler :=
  match a with
  | PostUpgrade => handleUpgradeFleet s http_get auth r
  | PostInvitations => handleCreateInvitation s auth r
  | GetInvitations => handleListInvitations s auth r
  | DeleteInvitation_ => handleCancelInvitation auth r
  | PostInvitationResend => handleResendInvitation s auth r
  | GetUsers => handleListUsers s auth r
  | PostUserSuspend => handleSuspendUser s auth r
  | PostUserActivate => handleActivateUser s auth r
  | DeleteUser => handleRemoveUser s auth r
  | GetGrants => handleListGrants s auth r
  | PostGrants => handleCreateGrant s auth r
  | DeleteGrant => handleRevokeGrant s auth r
  | GetAudit => handleAllAudit s auth r
  | GetGrantAudit => handleGrantAudit s auth r
  | GetSecretAccessAudit => handleSecretAccessAudit s auth r
  end.

(** [Handler]: each tier behind its middleware. *)
Definition route (e : Route) (r : Request) : Handler :=
  match e with
  | Public p => publicRoutes p r
  | User_ u => requireAuth (userRoutes u) r
  | Admin a => requireAdmin (adminRoutes a) r
  end.

(** ** Steps of the running server

    A request is handled as one step; a crash inside it is covered by the
    fault oracle, which may fail every later call.  A daemon connection is
    opened by one step, then reads, queue writes and its end are steps that
    interleave with everything else.  [step_restart] loses what is in memory. *)
Inductive link_step : World → World → Prop :=
  | step_connect peer w host version w1 :
      authenticateDaemon peer w = (inr (host, version), w1) →
      link_step w (connectDaemon s http_get host version w1 : (Response + nat) * World).2
  | step_refuse peer w e w1 :
      authenticateDaemon peer w = (inl e, w1) → link_step w w1
  | step_read host env w :
      link_step w (readEnvelope host env w : (Response + unit) * World).2
  | step_write c env h w :
      dequeue c (w_hub w) = Some (env, h) → link_step w (with_hub h w)
  | step_close hostID c w : link_step w (with_hub (unregister hostID c (w_hub w)) w)
  | step_create_admin email hash w : link_step w (CreateAdmin email hash w).2
  | step_restart w :
      link_step w (with_tx None (with_hub newHub (with_checksums ∅ w))).

Inductive cp_step : World → World → Prop :=
  | step_request e r w : cp_step w (serve (route e r) w).2
  | step_link w w' : link_step w w' → cp_step w w'.

Definition cp_steps : World → World → Prop := rtc cp_step.

(** ** Every step is an [effect evolves] *)

Lemma requireAuth_rel next r :
  (∀ auth, evolving (next auth r)) → evolving (requireAuth next r).
Proof. intros Hn. unfold requireAuth. cbv zeta. solve_rel; apply Hn. Qed.
Lemma requireAdmin_rel next r :
  (∀ auth, evolving (next auth r)) → evolving (requireAdmin next r).
Proof. intros Hn. apply requireAuth_rel. intros auth. solve_rel; apply Hn. Qed.

Lemma publicRoutes_rel p r : evolving (publicRoutes p r).
Proof. destruct p; simpl; auto with preserve nocore. Qed.
Lemma userRoutes_rel u auth r : evolving (userRoutes u auth r).
Proof. destruct u; simpl; auto with preserve nocore. Qed.
Lemma adminRoutes_rel a auth r : evolving (adminRoutes a auth r).
Proof. destruct a; simpl; auto with preserve nocore. Qed.

Lemma route_rel e r : evolving (route e r).
Proof.
  destruct e; simpl; [apply publicRoutes_rel | apply requireAuth_rel | apply requireAdmin_rel];
    intros auth; [apply userRoutes_rel | apply adminRoutes_rel].
Qed.

Lemma serve_effect e r w : effect evolves w (serve (route e r) w).2.
Proof.
  pose proof (route_rel e r w) as Hr. unfold serve.
  by destruct (route e r w) as [[?|?] ?].
Qed.

Lemma dequeue_wf c env h h' : dequeue c h = Some (env, h') → hub_wf h → hub_wf h'.
Proof.
  unfold dequeue. destruct (chans h !! c) as [[|e q]|] eqn:Ec; intros [= <- <-] (H1 & H2 & H3).
  split_and!; simpl.
  - intros c' q'. rewrite lookup_insert. case_decide; intros; simplify_eq; [|eauto].
    apply H1 in Ec. simpl in Ec. lia.
  - intros k c' Hk. rewrite lookup_insert_is_Some'. eauto.
  - intros c'. rewrite lookup_insert_is_Some'. intros [<-|Hc]; eauto.
Qed.

Lemma newHub_wf : hub_wf newHub.
Proof.
  split_and!; simpl.
  - intros c q Hc. by rewrite lookup_empty in Hc.
  - intros k c Hc. by rewrite lookup_empty in Hc.
  - intros c [q Hc]. by rewrite lookup_empty in Hc.
Qed.

Lemma cp_step_effect w w' : cp_step w w' → effect evolves w w'.
Proof.
  destruct 1 as [e r w|w w' Hs]; [apply serve_effect|].
  destruct Hs as [peer w host version w1 Ha|peer w e w1 Ha|host env w
                 |c env h w Hd|hostID c w|email hash w|w].
  - pose proof (authenticateDaemon_rel peer w) as H1. rewrite Ha in H1.
    etransitivity; [exact H1 | by eapply connectDaemon_known, authenticateDaemon_known].
  - pose proof (authenticateDaemon_rel peer w) as H1. by rewrite Ha in H1.
  - apply readEnvelope_rel.
  - apply effect_same; [done|done|done|by left|]. intros Hh. by eapply dequeue_wf.
  - apply effect_same; [done|done|done|by left|]. apply unregister_wf.
  - apply CreateAdmin_rel.
  - apply effect_same; [done|done|done|by right|]. intros _. apply newHub_wf.
Qed.

Lemma cp_steps_effect w w' : cp_steps w w' → effect evolves w w'.
Proof.
  induction 1 as [|w1 w2 w3 H1 _ IH]; [reflexivity|].
  etransitivity; [by apply cp_step_effect | exact IH].
Qed.
End router.
