(* ===== verification/Daemon.v ===== *)
(** The per-host agent: the authorized-key cache and its last-known-good file
    ([internal/daemon/{cache,store}.go]), the in-memory secret store
    ([secretstore.go]), the message dispatcher of the control-plane link
    ([client.go]), and the sockets sshd and [custosd exec] query
    ([authserver.go], [authkeys.go], [secretsocket.go]).

    The sources guard the cache and the secret store with a mutex and change
    them from one goroutine; each operation is one atomic step here. *)
From Stdlib Require Import Ascii.
From S2P Require Import Prelude Text Base64 Json Protocol Crypto.

(** ** State *)

Record Cache := { c_seq : Z; c_entries : gmap string AccessEntry }.

Record openedSet := { os_asUser : string; os_version : Z; os_values : gmap string string }.
Record SecretStore := {
  ss_seq : Z; ss_ready : bool; ss_sets : gmap string openedSet;
  ss_key : option bytes (* X25519 private key; None: machine secrets disabled *) }.

(** [daemon.Config], written at enrollment. *)
Record DaemonConfig := {
  dc_ControlPlane : string; dc_HostID : string; dc_SigningPublicKey : string }.

Record Client := {
  cl_cfg : DaemonConfig;
  cl_identity : Identity.KeyPair;
  cl_cache : Cache;
  cl_secrets : option SecretStore;
  cl_disk : gmap string bytes;         (* the state directory *)
  cl_version : string;
  cl_upgrading : bool;
  cl_upgrades : list Upgrade;          (* background stagings started *)
  cl_sent : list Envelope;             (* queued on the connection's send channel *)
  cl_writes : nat }.                   (* file writes attempted *)

Definition set_cache (x : Cache) (c : Client) : Client :=
  {| cl_cfg := cl_cfg c; cl_identity := cl_identity c; cl_cache := x; cl_secrets := cl_secrets c;
     cl_disk := cl_disk c; cl_version := cl_version c; cl_upgrading := cl_upgrading c;
     cl_upgrades := cl_upgrades c; cl_sent := cl_sent c; cl_writes := cl_writes c |}.
Definition set_secrets (x : SecretStore) (c : Client) : Client :=
  {| cl_cfg := cl_cfg c; cl_identity := cl_identity c; cl_cache := cl_cache c;
     cl_secrets := Some x; cl_disk := cl_disk c; cl_version := cl_version c;
     cl_upgrading := cl_upgrading c; cl_upgrades := cl_upgrades c; cl_sent := cl_sent c;
     cl_writes := cl_writes c |}.
Definition set_disk (x : gmap string bytes) (c : Client) : Client :=
  {| cl_cfg := cl_cfg c; cl_identity := cl_identity c; cl_cache := cl_cache c;
     cl_secrets := cl_secrets c; cl_disk := x; cl_version := cl_version c;
     cl_upgrading := cl_upgrading c; cl_upgrades := cl_upgrades c; cl_sent := cl_sent c;
     cl_writes := S (cl_writes c) |}.
Definition start_upgrade (u : Upgrade) (c : Client) : Client :=
  {| cl_cfg := cl_cfg c; cl_identity := cl_identity c; cl_cache := cl_cache c;
     cl_secrets := cl_secrets c; cl_disk := cl_disk c; cl_version := cl_version c;
     cl_upgrading := true; cl_upgrades := cl_upgrades c ++ [u]; cl_sent := cl_sent c;
     cl_writes := cl_writes c |}.
Definition send_envelope (e : Envelope) (c : Client) : Client :=
  {| cl_cfg := cl_cfg c; cl_identity := cl_identity c; cl_cache := cl_cache c;
     cl_secrets := cl_secrets c; cl_disk := cl_disk c; cl_version := cl_version c;
     cl_upgrading := cl_upgrading c; cl_upgrades := cl_upgrades c;
     cl_sent := cl_sent c ++ [e]; cl_writes := cl_writes c |}.

(** Whether the [n]-th file write fails. *)
Class Disk := disk_fault : nat → option error.

Section daemon.
Context `{JsonText, TimeFormat, Crypto, Disk}.

(** ** store.go *)

Definition cacheFile := "cache.json".

(** [atomicWrite]: the file is replaced whole, or not at all. *)
Definition atomicWrite (path : string) (data : bytes) : M Client error unit := λ c,
  match disk_fault (cl_writes c) with
  | Some e => (inl e, set_disk (cl_disk c) c)
  | None => (inr tt, set_disk (<[path := data]> (cl_disk c)) c)
  end.

Definition configFile := "config.json".
Definition identityFile := "identity.key".
Definition encryptionFile := "encryption.key".

Definition DaemonConfig_json (c : DaemonConfig) : json :=
  JObj [("control_plane", JStr (dc_ControlPlane c)); ("host_id", JStr (dc_HostID c));
        ("signing_public_key", JStr (dc_SigningPublicKey c))].
Definition DaemonConfig_of_json : json → option DaemonConfig :=
  as_struct (Build_DaemonConfig "" "" "") (λ o,
    u ← decode_field as_string "" "control_plane" o; h ← decode_field as_string "" "host_id" o;
    k ← decode_field as_string "" "signing_public_key" o; Some (Build_DaemonConfig u h k)).

Definition readFile (disk : gmap string bytes) (path : string) : error + bytes :=
  match disk !! path with Some b => inr b | None => inl (ErrMsg "file does not exist") end.

Definition LoadConfig (disk : gmap string bytes) : error + DaemonConfig :=
  match readFile disk configFile with
  | inl e => inl e
  | inr data => match unmarshal DaemonConfig_of_json data with
                | Some c => inr c | None => inl (ErrMsg "invalid config file") end
  end.
(** The source indents this file; the text layer here prints it compactly. *)
Definition SaveConfig (c : DaemonConfig) : M Client error unit :=
  atomicWrite configFile (json_print (DaemonConfig_json c)).
Definition LoadIdentity (disk : gmap string bytes) : error + Identity.KeyPair :=
  match readFile disk identityFile with
  | inl e => inl e
  | inr data => Identity.LoadKeyPair data
  end.
Definition SaveIdentity (kp : Identity.KeyPair) : M Client error unit :=
  atomicWrite identityFile (Identity.PrivateKey kp).
Definition SaveEncryptionKey (key : bytes) : M Client error unit :=
  atomicWrite encryptionFile (Hybrid.PrivateKey key).
Definition LoadEncryptionKey (disk : gmap string bytes) : error + bytes :=
  match readFile disk encryptionFile with
  | inl e => inl e
  | inr data => Hybrid.LoadKeyPair data
  end.

(** ** cache.go *)

Record persistedCache := { pc_Seq : Z; pc_Entries : list AccessEntry }.
Definition persistedCache_json (p : persistedCache) : json :=
  JObj [("seq", JInt (pc_Seq p)); ("entries", JArr (AccessEntry_json <$> pc_Entries p))].
Definition persistedCache_of_json : json → option persistedCache :=
  as_struct (Build_persistedCache 0 []) (λ o,
    n ← decode_field as_uint64 0 "seq" o;
    l ← decode_field (as_list AccessEntry_zero AccessEntry_of_json) [] "entries" o;
    Some (Build_persistedCache n l)).

(** [for _, e := range entries { m[e.Fingerprint] = e }]: a later entry with
    the same fingerprint replaces an earlier one. *)
Definition index_entries (l : list AccessEntry) : gmap string AccessEntry :=
  foldl (λ m e, <[AccessEntry_Fingerprint e := e]> m) ∅ l.

Definition LoadCache (disk : gmap string bytes) : error + Cache :=
  match disk !! cacheFile with
  | None => inr {| c_seq := 0; c_entries := ∅ |}
  | Some data =>
      match unmarshal persistedCache_of_json data with
      | None => inl (ErrMsg "invalid cache file")
      | Some pc => inr {| c_seq := pc_Seq pc; c_entries := index_entries (pc_Entries pc) |}
      end
  end.

Definition Seq (c : Cache) : Z := c_seq c.
Definition Lookup (c : Cache) (fingerprint : string) : option AccessEntry :=
  c_entries c !! fingerprint.
Definition Len (c : Cache) : nat := size (c_entries c).

(** The order in which a Go map is ranged over is unspecified; this is one. *)
Definition cache_text (c : Cache) : bytes :=
  json_print (persistedCache_json
    {| pc_Seq := c_seq c; pc_Entries := snd <$> map_to_list (c_entries c) |}).

Definition persistLocked : M Client error unit := λ c,
  atomicWrite cacheFile (cache_text (cl_cache c)) c.

Definition Purge : M Client error unit :=
  modify (λ c, set_cache {| c_seq := c_seq (cl_cache c); c_entries := ∅ |} c);;;
  persistLocked.

Definition ApplySnapshot (snap : Snapshot) (seq : Z) : M Client error unit :=
  modify (set_cache {| c_seq := seq; c_entries := index_entries (Snapshot_Entries snap) |});;;
  persistLocked.

Definition ApplyGrant (e : AccessEntry) : M Client error unit :=
  modify (λ c, set_cache {| c_seq := c_seq (cl_cache c);
    c_entries := <[AccessEntry_Fingerprint e := e]> (c_entries (cl_cache c)) |} c);;;
  persistLocked.

Definition ApplyRevoke (fingerprint : string) : M Client error unit :=
  modify (λ c, set_cache {| c_seq := c_seq (cl_cache c);
    c_entries := delete fingerprint (c_entries (cl_cache c)) |} c);;;
  persistLocked.

(** ** secretstore.go *)

Definition NewSecretStore (key : option bytes) : SecretStore :=
  {| ss_seq := 0; ss_ready := false; ss_sets := ∅; ss_key := key |}.

Definition open_sets (l : list ClearSet) : gmap string openedSet :=
  foldl (λ m x, <[ClearSet_Name x := {| os_asUser := ClearSet_AsUser x;
                    os_version := ClearSet_Version x; os_values := ClearSet_Values x |}]> m) ∅ l.

Definition Apply (sealed : SealedSecretSets) (seq : Z) (ss : SecretStore) : error + SecretStore :=
  match ss_key ss with
  | None => inl (ErrMsg "no encryption key; machine secrets disabled")
  | Some key =>
      match Hybrid.Open key (SealedSecretSets_Sealed sealed) with
      | inl e => inl e
      | inr plaintext =>
          match unmarshal SecretSets_of_json plaintext with
          | None => inl (ErrMsg "invalid bundle")
          | Some bundle =>
              inr {| ss_seq := seq; ss_ready := true;
                     ss_sets := open_sets (SecretSets_Sets bundle); ss_key := ss_key ss |}
          end
      end
  end.

Definition Get (name : string) (ss : SecretStore) : option (gmap string string * string) :=
  (λ o, (os_values o, os_asUser o)) <$> ss_sets ss !! name.

(** ** client.go *)

Definition verifySnapshot (cfg : DaemonConfig) (env : Envelope) : error + unit :=
  if decide (dc_SigningPublicKey cfg = "") then inr tt
  else Identity.Verify (dc_SigningPublicKey cfg)
         (SnapshotSigningInput (dc_HostID cfg) (Envelope_Seq env) (Envelope_Data env))
         (Envelope_Sig env).

Definition verifySecretSets (cfg : DaemonConfig) (env : Envelope) : error + unit :=
  if decide (dc_SigningPublicKey cfg = "") then inr tt
  else Identity.Verify (dc_SigningPublicKey cfg)
         (SecretSetsSigningInput (dc_HostID cfg) (Envelope_Seq env) (Envelope_Data env))
         (Envelope_Sig env).

(** The staging itself runs in the background. *)
Definition handleUpgrade (up : Upgrade) : M Client error unit := λ c,
  if decide (Upgrade_Version up = "" ∨ Upgrade_Version up = cl_version c) then (inr tt, c)
  else if cl_upgrading c then (inr tt, c)
  else (inr tt, start_upgrade up c).

Definition dispatch (env : Envelope) : M Client error unit := λ c,
  let t := Envelope_Type env in
  if decide (t = TypeSnapshot) then
    match verifySnapshot (cl_cfg c) env with
    | inl _ => (inr tt, c)
    | inr _ =>
        if decide (Envelope_Seq env ≠ 0 ∧ Envelope_Seq env ≤ Seq (cl_cache c)) then (inr tt, c)
        else match unmarshal Snapshot_of_json (Envelope_Data env) with
             | None => (inl (ErrMsg "invalid snapshot"), c)
             | Some snap => ApplySnapshot snap (Envelope_Seq env) c
             end
    end
  else if decide (t = TypeSecretSets) then
    match cl_secrets c with
    | None => (inr tt, c)
    | Some ss =>
        match verifySecretSets (cl_cfg c) env with
        | inl _ => (inr tt, c)
        | inr _ =>
            if decide (Envelope_Seq env ≠ 0 ∧ Envelope_Seq env ≤ ss_seq ss) then (inr tt, c)
            else match unmarshal SealedSecretSets_of_json (Envelope_Data env) with
                 | None => (inl (ErrMsg "invalid secret sets"), c)
                 | Some sealed =>
                     match Apply sealed (Envelope_Seq env) ss with
                     | inl _ => (inr tt, c)
                     | inr ss' => (inr tt, set_secrets ss' c)
                     end
                 end
        end
    end
  else if decide (t = TypeUpgrade) then
    match unmarshal Upgrade_of_json (Envelope_Data env) with
    | None => (inl (ErrMsg "invalid upgrade"), c)
    | Some up => handleUpgrade up c
    end
  else if decide (t = TypePing) then
    (inr tt, send_envelope (NewEnvelope TypePong None) c)
  else (inr tt, c).

(** [readLoop]: messages until one makes [dispatch] fail or the link ends. *)
Fixpoint readLoop (msgs : list Envelope) : M Client error unit :=
  match msgs with
  | [] => ret tt
  | env :: rest => dispatch env;;; readLoop rest
  end.

(** [authenticate]: the answer to a challenge envelope. *)
Definition authenticate (c : Client) (env : Envelope) : error + Envelope :=
  if negb (bool_decide (Envelope_Type env = TypeChallenge))
  then inl (ErrMsg "expected challenge") else
  match unmarshal Challenge_of_json (Envelope_Data env) with
  | None => inl (ErrMsg "invalid challenge")
  | Some ch =>
      inr (NewEnvelope TypeAuth (Some (Auth_json
        {| Auth_HostID := dc_HostID (cl_cfg c);
           Auth_Signature := Identity.Sign (cl_identity c) (Challenge_Nonce ch);
           Auth_Version := cl_version c |})))
  end.

(** How a connection of [Run] ended; a policy-violation close is the control
    plane's rejection of this host. *)
Inductive link_end := LinkDropped | LinkRejected.
Definition maxBackoffAttempt : Z := 5.

(** The part of one [Run] iteration after [connectAndServe] returned: the
    purge on rejection and the next attempt number. *)
Definition afterLink (e : link_end) (attempt : Z) (c : Client) : Z * Client :=
  match e with
  | LinkRejected => (maxBackoffAttempt + 1, (Purge c).2)
  | LinkDropped => (attempt + 1, c)
  end.

(** [reconnectDelay], with [jitter] the value [rand.Int64N] returned. *)
Definition maxReconnect : Z := 30 * second.
Definition backoff (attempt : Z) : Z :=
  let d := Z.shiftl second (Z.min attempt 5) in
  if decide (maxReconnect < d) then maxReconnect else d.
Definition reconnectDelay (attempt jitter : Z) : Z := backoff attempt `quot` 2 + jitter.

(** ** enroll.go

    [seed] and [encKey] are the random bytes of the two fresh keypairs, [mID]
    the machine id read from the system, [post] the exchange with the control
    plane. *)
Definition Enroll (mID : string) (seed encKey : bytes)
    (post : EnrollRequest → error + EnrollResponse)
    (controlPlane token hostname : string) : M Client error unit := λ c,
  if decide (mID = "") then (inl (ErrMsg "no stable machine id"), c) else
  let kp := Identity.GenerateKeyPair seed in
  let priorHostID := match LoadConfig (cl_disk c) with inr cfg => dc_HostID cfg | inl _ => "" end in
  match post {| EnrollRequest_Token := token; EnrollRequest_Hostname := hostname;
                EnrollRequest_PublicKey := Identity.PublicKey kp;
                EnrollRequest_EncryptionKey := Hybrid.PublicKey encKey;
                EnrollRequest_MachineID := mID; EnrollRequest_PriorHostID := priorHostID |} with
  | inl e => (inl e, c)
  | inr resp =>
      (SaveIdentity kp;;; SaveEncryptionKey encKey;;;
       SaveConfig {| dc_ControlPlane := controlPlane; dc_HostID := EnrollResponse_HostID resp;
                     dc_SigningPublicKey := EnrollResponse_SigningPublicKey resp |}) c
  end.

(** ** cmd/daemon/run.go: the daemon's state when it starts *)
Definition cmdRun (disk : gmap string bytes) (version : string) : error + Client :=
  match disk !! identityFile, LoadConfig disk, LoadIdentity disk, LoadCache disk with
  | None, _, _, _ => inl (ErrMsg "not enrolled")
  | Some _, inl e, _, _ | Some _, inr _, inl e, _ | Some _, inr _, inr _, inl e => inl e
  | Some _, inr cfg, inr id, inr cache =>
      let encKey := match LoadEncryptionKey disk with inr k => Some k | inl _ => None end in
      inr {| cl_cfg := cfg; cl_identity := id; cl_cache := cache;
             cl_secrets := Some (NewSecretStore encKey); cl_disk := disk;
             cl_version := version; cl_upgrading := false; cl_upgrades := [];
             cl_sent := []; cl_writes := 0 |}
  end.

(** ** authserver.go, authkeys.go *)

Definition authorize (cache : Cache) (fingerprint account : string) : option AccessEntry :=
  match Lookup cache fingerprint with
  | None => None
  | Some entry => if decide (account ∈ AccessEntry_Accounts entry) then Some entry else None
  end.

(** [ReadString('\n')] without its newline; an error if there is none. *)
Fixpoint read_line (s : string) : option string :=
  match s with
  | "" => None
  | String ch s' => if Ascii.eqb ch "010"%char then Some "" else String ch <$> read_line s'
  end.

(** [handleAuth]: the reply on the socket and the audit record. *)
Definition handleAuth (input : bytes) (cache : Cache) (now : Z) : string * option AccessLog :=
  match read_line input with
  | None => ("", None)
  | Some line =>
      match Cut "009" line with
      | None => ("", None)
      | Some (fingerprint, account) =>
          let r := authorize cache fingerprint account in
          ((match r with
            | Some e => AccessEntry_KeyType e +:+ " " +:+ AccessEntry_KeyBlob e +:+
                        String "010"%char ""
            | None => ""
            end),
           Some {| AccessLog_Fingerprint := fingerprint; AccessLog_Account := account;
                   AccessLog_Allowed := bool_decide (is_Some r); AccessLog_At := now |})
      end
  end.

(** The query [querySocket] writes. *)
Definition authQuery (fingerprint account : string) : bytes :=
  fingerprint +:+ String "009"%char (account +:+ String "010"%char "").

(** [authorizeFromDisk]: the fallback when the daemon's socket is dead. *)
Definition authorizeFromDisk (disk : gmap string bytes) (fingerprint account : string) :
    error + string :=
  match LoadCache disk with
  | inl e => inl e
  | inr cache =>
      match authorize cache fingerprint account with
      | None => inr ""
      | Some e => inr (AccessEntry_KeyType e +:+ " " +:+ AccessEntry_KeyBlob e)
      end
  end.

(** [AuthorizedKey]; [socket] is the daemon's answer, [None] when all three
    attempts failed. *)
Definition AuthorizedKey (socket : string → string → option string) (disk : gmap string bytes)
    (keyBlob account : string) : error + string :=
  match SshKey.Fingerprint keyBlob with
  | inl e => inl e
  | inr fp =>
      match socket fp account with
      | Some line => inr line
      | None => authorizeFromDisk disk fp account
      end
  end.

(** ** secretsocket.go *)

Inductive secretResponse := SecretOK (values : gmap string string) | SecretError (msg : string).

(** [callerIs asUser] is the kernel's answer about the peer's uid. *)
Definition handleSecret (callerIs : string → bool) (input : bytes) (ss : SecretStore) (now : Z) :
    option secretResponse * option SecretRead :=
  match read_line input with
  | None => (None, None)
  | Some line =>
      let name := TrimSpace line in
      match Get name ss with
      | None => (Some (SecretError (if ss_ready ss then "no such set" else "not ready")), None)
      | Some (values, asUser) =>
          if negb (bool_decide (asUser = "")) && negb (callerIs asUser)
          then (Some (SecretError "forbidden"), None)
          else (Some (SecretOK values), Some {| SecretRead_SetName := name; SecretRead_At := now |})
      end
  end.

(** [fetchSetOnce] on a reply: the values, or whether to retry with the error. *)
Definition fetchReply (r : secretResponse) : (gmap string string) + (bool * string) :=
  match r with
  | SecretOK values => inl values
  | SecretError e =>
      if decide (e = "forbidden") then inr (false, e)
      else if decide (e = "no such set") then inr (false, e)
      else inr (true, e)
  end.
End daemon.
