(* ===== verification/Agent.v ===== *)
(** The running agent: [Client.Run] of [internal/daemon/client.go] with the
    goroutines of its connections, the two report buffers and the sockets that
    fill them, and the status file ([store.go]).

    A step is one action of one goroutine.  A connection has three: the read
    loop (which [connectAndServe] waits for), the writer and the log
    forwarder; a fourth cancels the connection once an upgrade is staged.
    Goroutines of a connection that is over keep running until they see its
    context cancelled, so the agent keeps all its connections.  The websocket
    library decides when a read or a write fails; the result of a staging is
    that of [stageUpgrade] in [Update.v]. *)
From Stdlib Require Import Ascii.
From S2P Require Import Prelude Text Base64 Json Protocol Crypto Daemon.

(** ** Buffers and messages *)

(** [logBufferSize]: the capacity of the three channels. *)
Definition logBufferSize : nat := 256.
Definition room {A} (ch : list A) : Prop := (length ch < logBufferSize)%nat.
#[export] Instance room_dec {A} (ch : list A) : Decision (room ch).
Proof. unfold room. apply _. Defined.

(** [select { case ch <- x: default: }] *)
Definition offer {A} (x : A) (ch : list A) : list A := if decide (room ch) then ch ++ [x] else ch.

(** ** State *)

Inductive reader := Reading | Pushing (env : Envelope) | ReaderDone (e : link_end).
Inductive forwarder := Idle | Holding (env : Envelope) | ForwarderDone.

(** One call of [connectAndServe]: its context, its goroutines and [send]. *)
Record Link := {
  lk_cancelled : bool; lk_reader : reader; lk_writing : bool; lk_forwarder : forwarder;
  lk_send : list Envelope }.
Definition newLink : Link :=
  {| lk_cancelled := false; lk_reader := Reading; lk_writing := true; lk_forwarder := Idle;
     lk_send := [] |}.

Definition cancel_link (l : Link) : Link :=
  {| lk_cancelled := true; lk_reader := lk_reader l; lk_writing := lk_writing l;
     lk_forwarder := lk_forwarder l; lk_send := lk_send l |}.
Definition set_reader (r : reader) (l : Link) : Link :=
  {| lk_cancelled := lk_cancelled l; lk_reader := r; lk_writing := lk_writing l;
     lk_forwarder := lk_forwarder l; lk_send := lk_send l |}.
Definition stop_writing (l : Link) : Link :=
  {| lk_cancelled := lk_cancelled l; lk_reader := lk_reader l; lk_writing := false;
     lk_forwarder := lk_forwarder l; lk_send := lk_send l |}.
Definition set_forwarder (f : forwarder) (l : Link) : Link :=
  {| lk_cancelled := lk_cancelled l; lk_reader := lk_reader l; lk_writing := lk_writing l;
     lk_forwarder := f; lk_send := lk_send l |}.
Definition set_send (q : list Envelope) (l : Link) : Link :=
  {| lk_cancelled := lk_cancelled l; lk_reader := lk_reader l; lk_writing := lk_writing l;
     lk_forwarder := lk_forwarder l; lk_send := q |}.

(** Where [Run] is: connecting, in [connectAndServe] on the [i]-th connection,
    waiting to reconnect, or returned (with [ErrRestart] or not). *)
Inductive phase := Dialling | Serving (i : nat) | Sleeping (delay : Z) | Exited (restart : bool).

Record Agent := {
  ag_client : Client; ag_logs : list AccessLog; ag_reads : list SecretRead;
  ag_restart : bool;                   (* [restart] is closed *)
  ag_stopped : bool;                   (* the context of [Run] is cancelled *)
  ag_attempt : Z; ag_phase : phase; ag_links : list Link }.

Definition set_client (c : Client) (a : Agent) : Agent :=
  {| ag_client := c; ag_logs := ag_logs a; ag_reads := ag_reads a; ag_restart := ag_restart a;
     ag_stopped := ag_stopped a; ag_attempt := ag_attempt a; ag_phase := ag_phase a;
     ag_links := ag_links a |}.
Definition set_buffers (logs : list AccessLog) (reads : list SecretRead) (a : Agent) : Agent :=
  {| ag_client := ag_client a; ag_logs := logs; ag_reads := reads; ag_restart := ag_restart a;
     ag_stopped := ag_stopped a; ag_attempt := ag_attempt a; ag_phase := ag_phase a;
     ag_links := ag_links a |}.
Definition set_run (attempt : Z) (p : phase) (a : Agent) : Agent :=
  {| ag_client := ag_client a; ag_logs := ag_logs a; ag_reads := ag_reads a;
     ag_restart := ag_restart a; ag_stopped := ag_stopped a; ag_attempt := attempt; ag_phase := p;
     ag_links := ag_links a |}.
Definition set_links (ls : list Link) (a : Agent) : Agent :=
  {| ag_client := ag_client a; ag_logs := ag_logs a; ag_reads := ag_reads a;
     ag_restart := ag_restart a; ag_stopped := ag_stopped a; ag_attempt := ag_attempt a;
     ag_phase := ag_phase a; ag_links := ls |}.
Definition set_flags (restart stopped : bool) (a : Agent) : Agent :=
  {| ag_client := ag_client a; ag_logs := ag_logs a; ag_reads := ag_reads a;
     ag_restart := restart; ag_stopped := stopped; ag_attempt := ag_attempt a;
     ag_phase := ag_phase a; ag_links := ag_links a |}.
Definition on_link (i : nat) (l : Link) (a : Agent) : Agent := set_links (<[i := l]> (ag_links a)) a.

Section agent.
Context `{JsonText, TimeFormat, Crypto, Disk}.

(** ** store.go: the status file *)

Definition statusFile := "status.json".
Record LiveStatus := { Connected : bool; LastSeq : Z; UpdatedAt : Z }.
Definition LiveStatus_json (s : LiveStatus) : json :=
  JObj [("connected", JBool (Connected s)); ("last_seq", JInt (LastSeq s));
        ("updated_at", JStr (time_print (UpdatedAt s)))].
Definition LiveStatus_of_json : json → option LiveStatus :=
  as_struct (Build_LiveStatus false 0 time_zero) (λ o,
    b ← decode_field as_bool false "connected" o; n ← decode_field as_uint64 0 "last_seq" o;
    t ← decode_field as_time time_zero "updated_at" o; Some (Build_LiveStatus b n t)).
Definition SaveStatus (s : LiveStatus) : M Client error unit :=
  atomicWrite statusFile (json_print (LiveStatus_json s)).
Definition LoadStatus (disk : gmap string bytes) : error + LiveStatus :=
  match readFile disk statusFile with
  | inl e => inl e
  | inr data => match unmarshal LiveStatus_of_json data with
                | Some s => inr s | None => inl (ErrMsg "invalid status file") end
  end.

(** ** client.go *)

Definition writeStatus (connected : bool) (now : Z) (c : Client) : Client :=
  (SaveStatus {| Connected := connected; LastSeq := Seq (cl_cache c); UpdatedAt := now |} c).2.

Definition RecordAccess (entry : AccessLog) (a : Agent) : Agent :=
  set_buffers (offer entry (ag_logs a)) (ag_reads a) a.
Definition RecordSecretRead (rd : SecretRead) (a : Agent) : Agent :=
  set_buffers (ag_logs a) (offer rd (ag_reads a)) a.

(** The envelopes [forward] makes. *)
Definition access_report (entry : AccessLog) : Envelope :=
  NewEnvelope TypeAccessLog (Some (AccessLog_json entry)).
Definition read_report (rd : SecretRead) : Envelope :=
  NewEnvelope TypeSecretRead (Some (SecretRead_json rd)).

(** [strings.Replace(s, old, new, 1)] *)
Fixpoint ReplaceFirst (old new s : string) : string :=
  match CutPrefix s old with
  | Some rest => new +:+ rest
  | None => match s with "" => "" | String ch s' => String ch (ReplaceFirst old new s') end
  end.
Definition wsURL (cfg : DaemonConfig) : string :=
  TrimRight (ReplaceFirst "http://" "ws://" (ReplaceFirst "https://" "wss://" (dc_ControlPlane cfg)))
    "/"%char +:+ "/daemon".

(** A message is dispatched; a pong is then pushed on [send], which blocks
    while the channel is full. *)
Definition clear_sent (c : Client) : Client :=
  {| cl_cfg := cl_cfg c; cl_identity := cl_identity c; cl_cache := cl_cache c;
     cl_secrets := cl_secrets c; cl_disk := cl_disk c; cl_version := cl_version c;
     cl_upgrading := cl_upgrading c; cl_upgrades := cl_upgrades c; cl_sent := [];
     cl_writes := cl_writes c |}.
Definition receive (env : Envelope) (c : Client) : reader * Client :=
  let '(r, c') := dispatch env (clear_sent c) in
  (match r, cl_sent c' with
   | inl _, _ => ReaderDone LinkDropped
   | inr _, [] => Reading
   | inr _, pong :: _ => Pushing pong
   end, clear_sent c').

(** The end of the staging goroutine of [handleUpgrade]. *)
Definition stage_failed (c : Client) : Client :=
  {| cl_cfg := cl_cfg c; cl_identity := cl_identity c; cl_cache := cl_cache c;
     cl_secrets := cl_secrets c; cl_disk := cl_disk c; cl_version := cl_version c;
     cl_upgrading := false; cl_upgrades := cl_upgrades c; cl_sent := cl_sent c;
     cl_writes := cl_writes c |}.

(** [NewClient] and [Run] up to its loop. *)
Definition startAgent (c : Client) : Agent :=
  {| ag_client := c; ag_logs := []; ag_reads := []; ag_restart := false; ag_stopped := false;
     ag_attempt := 0; ag_phase := Dialling; ag_links := [] |}.

(** [return], with the deferred [writeStatus(false)]. *)
Definition exitRun (restart : bool) (now : Z) (a : Agent) : Agent :=
  set_run (ag_attempt a) (Exited restart) (set_client (writeStatus false now (ag_client a)) a).
(** The checks at the head of the loop, and after a connection. *)
Definition unlessOver (now : Z) (k : Agent → Agent) (a : Agent) : Agent :=
  if ag_stopped a then exitRun false now a else if ag_restart a then exitRun true now a else k a.
Definition loopHead (now : Z) (a : Agent) : Agent :=
  unlessOver now (λ a, set_run (ag_attempt a) Dialling a) a.
(** [connectAndServe] after [authenticate]: [onReady] and the goroutines. *)
Definition serveLink (now : Z) (a : Agent) : Agent :=
  set_links (ag_links a ++ [newLink])
    (set_run 0 (Serving (length (ag_links a))) (set_client (writeStatus true now (ag_client a)) a)).
(** The rest of the loop's body once [connectAndServe] returned. *)
Definition linkOver (e : link_end) (now jitter : Z) (a : Agent) : Agent :=
  unlessOver now (λ a,
    let '(n, c) := afterLink e (ag_attempt a) (ag_client a) in
    set_run n (Sleeping (reconnectDelay n jitter)) (set_client c a))
    (set_client (writeStatus false now (ag_client a)) a).
Definition jitter_ok (e : link_end) (jitter : Z) (a : Agent) : Prop :=
  0 ≤ jitter ≤ backoff (afterLink e (ag_attempt a) (ag_client a)).1 `quot` 2.

(** ** Steps *)

Inductive event :=
  | Answered (reply : string) (log : AccessLog)          (* a login query *)
  | Served (values : gmap string string) (rd : SecretRead) (* a set given to an app *)
  | Dialled (url : string) (auth : Envelope)
  | Received (i : nat) (env : Envelope)
  | Wrote (i : nat) (env : Envelope)
  | Rejected
  | Tau.

Definition running (a : Agent) : Prop :=
  match ag_phase a with Exited _ => False | _ => True end.
Definition ctx_done (a : Agent) (l : Link) : Prop := ag_stopped a = true ∨ lk_cancelled l = true.
Definition over_event (e : link_end) : event :=
  match e with LinkRejected => Rejected | LinkDropped => Tau end.

Inductive agent_step (a : Agent) : event → Agent → Prop :=
  (* the sockets *)
  | step_login input now reply log :
      handleAuth input (cl_cache (ag_client a)) now = (reply, Some log) → running a →
      agent_step a (Answered reply log) (RecordAccess log a)
  | step_exec callerIs input ss now values rd :
      cl_secrets (ag_client a) = Some ss →
      handleSecret callerIs input ss now = (Some (SecretOK values), Some rd) → running a →
      agent_step a (Served values rd) (RecordSecretRead rd a)
  (* [forwardLogs] *)
  | step_take_log i l entry rest :
      ag_links a !! i = Some l → lk_forwarder l = Idle → ag_logs a = entry :: rest → running a →
      agent_step a Tau (on_link i (set_forwarder (Holding (access_report entry)) l)
                          (set_buffers rest (ag_reads a) a))
  | step_take_read i l rd rest :
      ag_links a !! i = Some l → lk_forwarder l = Idle → ag_reads a = rd :: rest → running a →
      agent_step a Tau (on_link i (set_forwarder (Holding (read_report rd)) l)
                          (set_buffers (ag_logs a) rest a))
  | step_put i l env :
      ag_links a !! i = Some l → lk_forwarder l = Holding env → room (lk_send l) → running a →
      agent_step a Tau (on_link i (set_forwarder Idle (set_send (lk_send l ++ [env]) l)) a)
  | step_drop i l env :
      ag_links a !! i = Some l → lk_forwarder l = Holding env → ctx_done a l → running a →
      agent_step a Tau (on_link i (set_forwarder Idle l) a)
  | step_forwarder_done i l :
      ag_links a !! i = Some l → lk_forwarder l = Idle → ctx_done a l → running a →
      agent_step a Tau (on_link i (set_forwarder ForwarderDone l) a)
  (* [writeLoop] *)
  | step_write i l env rest :
      ag_links a !! i = Some l → lk_writing l = true → lk_send l = env :: rest → running a →
      agent_step a (Wrote i env) (on_link i (set_send rest l) a)
  | step_write_failed i l env rest :
      ag_links a !! i = Some l → lk_writing l = true → lk_send l = env :: rest → running a →
      agent_step a Tau (on_link i (cancel_link (stop_writing (set_send rest l))) a)
  | step_writer_done i l :
      ag_links a !! i = Some l → lk_writing l = true → ctx_done a l → running a →
      agent_step a Tau (on_link i (stop_writing l) a)
  (* [readLoop] *)
  | step_read i l env r c :
      ag_links a !! i = Some l → lk_reader l = Reading → receive env (ag_client a) = (r, c) →
      running a →
      agent_step a (Received i env) (on_link i (set_reader r l) (set_client c a))
  | step_push i l env :
      ag_links a !! i = Some l → lk_reader l = Pushing env → room (lk_send l) → running a →
      agent_step a Tau (on_link i (set_reader Reading (set_send (lk_send l ++ [env]) l)) a)
  | step_read_failed i l e :
      ag_links a !! i = Some l → lk_reader l = Reading → running a →
      agent_step a Tau (on_link i (set_reader (ReaderDone e) l) a)
  (* the watcher of [connectAndServe] *)
  | step_watch i l :
      ag_links a !! i = Some l → ag_restart a = true → running a →
      agent_step a Tau (on_link i (cancel_link l) a)
  (* [Run] *)
  | step_dial challenge auth now :
      ag_phase a = Dialling → authenticate (ag_client a) challenge = inr auth →
      agent_step a (Dialled (wsURL (cl_cfg (ag_client a))) auth) (serveLink now a)
  | step_dial_failed e now jitter :
      ag_phase a = Dialling → jitter_ok e jitter a →
      agent_step a (over_event e) (linkOver e now jitter a)
  | step_return i l e now jitter :
      ag_phase a = Serving i → ag_links a !! i = Some l → lk_reader l = ReaderDone e →
      jitter_ok e jitter a →
      agent_step a (over_event e) (linkOver e now jitter (on_link i (cancel_link l) a))
  | step_wake now delay :
      ag_phase a = Sleeping delay → agent_step a Tau (loopHead now a)
  | step_interrupt now delay :
      ag_phase a = Sleeping delay → ag_stopped a = true → agent_step a Tau (exitRun false now a)
  | step_restart now delay :
      ag_phase a = Sleeping delay → ag_restart a = true → agent_step a Tau (exitRun true now a)
  (* a signal, and the end of a staging *)
  | step_signal : running a → agent_step a Tau (set_flags (ag_restart a) true a)
  | step_staged :
      cl_upgrading (ag_client a) = true → ag_restart a = false → running a →
      agent_step a Tau (set_flags true (ag_stopped a) a)
  | step_stage_failed :
      cl_upgrading (ag_client a) = true → ag_restart a = false → running a →
      agent_step a Tau (set_client (stage_failed (ag_client a)) a).

(** Runs, with their events in order. *)
Inductive agent_run (a : Agent) : list event → Agent → Prop :=
  | run_nil : agent_run a [] a
  | run_snoc t a1 ev a2 : agent_run a t a1 → agent_step a1 ev a2 → agent_run a (t ++ [ev]) a2.
End agent.
