(* ===== verification/Demo.v ===== *)
(** A concrete platform that satisfies every law the theorems assume: the
    hypotheses are consistent, and the witnesses run on it.  Its cryptography
    is a stand-in with the right shape (lengths, round trips), not a secure
    implementation. *)
From Stdlib Require Import Ascii.
From S2P Require Import Prelude Text Base64 Json Protocol Crypto Schema World Http Daemon.

(** ** Text encodings *)

(** A positive number as a string of bits, and back. *)
Fixpoint bits_of_pos (p : positive) : string :=
  match p with
  | xH => ""
  | xO p => String "0"%char (bits_of_pos p)
  | xI p => String "1"%char (bits_of_pos p)
  end.
Fixpoint pos_of_bits (s : string) : positive :=
  match s with
  | "" => xH
  | String c s => if Ascii.eqb c "0"%char then xO (pos_of_bits s) else xI (pos_of_bits s)
  end.
Lemma pos_of_bits_of_pos p : pos_of_bits (bits_of_pos p) = p.
Proof. induction p; simpl; congruence. Qed.
Lemma bits_time p : Forall (λ c, time_char c = true) (explode (bits_of_pos p)).
Proof. induction p; simpl; constructor; done. Qed.

(** The first line of a string. *)
Fixpoint first_line (s : string) : string :=
  match s with
  | "" => ""
  | String c s' => if Ascii.eqb c "010"%char then "" else String c (first_line s')
  end.
Lemma first_line_bits p : first_line (bits_of_pos p) = bits_of_pos p.
Proof. induction p; simpl; congruence. Qed.
Lemma first_line_newline s : first_line (s +:+ String "010"%char "") = first_line s.
Proof.
  induction s as [|c s IH]; [done|]. simpl. destruct (Ascii.eqb c "010"%char); [done|].
  by f_equal.
Qed.

(** JSON trees are countable, so they have a text. *)
Fixpoint json_tree (j : json) : gen_tree (bool + Z + string) :=
  match j with
  | JNull => GenNode 0 []
  | JBool b => GenNode 1 [GenLeaf (inl (inl b))]
  | JInt z => GenNode 2 [GenLeaf (inl (inr z))]
  | JFloat s => GenNode 3 [GenLeaf (inr s)]
  | JStr s => GenNode 4 [GenLeaf (inr s)]
  | JArr l => GenNode 5 (json_tree <$> l)
  | JObj l => GenNode 6 ((λ kv, GenNode 7 [GenLeaf (inr kv.1); json_tree kv.2]) <$> l)
  end.
Fixpoint tree_json (t : gen_tree (bool + Z + string)) : json :=
  match t with
  | GenNode 1 [GenLeaf (inl (inl b))] => JBool b
  | GenNode 2 [GenLeaf (inl (inr z))] => JInt z
  | GenNode 3 [GenLeaf (inr s)] => JFloat s
  | GenNode 4 [GenLeaf (inr s)] => JStr s
  | GenNode 5 l => JArr (tree_json <$> l)
  | GenNode 6 l =>
      JObj ((λ t, match t with
                  | GenNode 7 [GenLeaf (inr k); v] => (k, tree_json v)
                  | _ => ("", JNull)
                  end) <$> l)
  | _ => JNull
  end.

Lemma json_ind' (P : json → Prop) :
  P JNull → (∀ b, P (JBool b)) → (∀ z, P (JInt z)) → (∀ s, P (JFloat s)) → (∀ s, P (JStr s)) →
  (∀ l, Forall P l → P (JArr l)) → (∀ l, Forall (λ kv, P kv.2) l → P (JObj l)) → ∀ j, P j.
Proof.
  intros H1 H2 H3 H4 H5 H6 H7. fix IH 1.
  intros [|b|z|t|t|l|l]; [exact H1|apply H2|apply H3|apply H4|apply H5|apply H6|apply H7].
  - induction l as [|x l IHl]; constructor; [apply IH | exact IHl].
  - induction l as [|[k v] l IHl]; constructor; [apply IH | exact IHl].
Qed.

Lemma tree_json_tree j : tree_json (json_tree j) = j.
Proof.
  induction j as [| | | | |l IH|l IH] using json_ind'; try reflexivity; simpl; f_equal.
  - induction IH as [|x l Hx _ IHl]; [reflexivity|]. rewrite !fmap_cons, Hx, IHl. done.
  - induction IH as [|[k v] l Hx _ IHl]; [reflexivity|]. rewrite !fmap_cons. simpl in *.
    by rewrite Hx, IHl.
Qed.

#[local] Instance demo_json : JsonText := {|
  json_print j := bits_of_pos (encode (json_tree j));
  json_parse s := tree_json <$> decode (pos_of_bits (first_line s));
  json_first s := tree_json <$> decode (pos_of_bits (first_line s)) |}.
#[local] Instance demo_json_laws : JsonTextLaws.
Proof.
  split; [|done|].
  - intros j _. simpl. rewrite first_line_bits, pos_of_bits_of_pos, decode_encode. simpl.
    by rewrite tree_json_tree.
  - intros t j. simpl. by rewrite first_line_newline.
Qed.

#[local] Instance demo_time : TimeFormat := {|
  time_print t := bits_of_pos (encode t);
  time_parse s := decode (pos_of_bits s);
  time_Parse s := decode (pos_of_bits s) |}.
#[local] Instance demo_time_laws : TimeFormatLaws.
Proof.
  split; intros t _; simpl; [by rewrite pos_of_bits_of_pos, decode_encode.. | apply bits_time].
Qed.

(** ** Cryptography *)

Definition zeros (n : nat) : string := implode (replicate n "000"%char).
Definition pad32 (s : string) : string := btake 32 (s +:+ zeros 32).
Lemma length_zeros n : String.length (zeros n) = n.
Proof. unfold zeros. by rewrite <-length_explode, explode_implode, length_replicate. Qed.
Lemma length_pad32 s : String.length (pad32 s) = 32%nat.
Proof. apply length_btake. rewrite string_length_app, length_zeros. lia. Qed.
Lemma pad32_id s : String.length s = 32%nat → pad32 s = s.
Proof. intros Hs. unfold pad32. by apply btake_app. Qed.

#[local] Instance demo_crypto : Crypto := {|
  sha256 := pad32;
  ed25519_public := pad32;
  ed25519_sign k m := btake 32 k +:+ m;
  ed25519_verify p m g := bool_decide (g = p +:+ m);
  x25519_public := pad32;
  x25519_shared _ _ := Some (zeros 32);
  hkdf_sha256 _ _ _ n := zeros n;
  gcm_seal _ _ p := p;
  gcm_open _ _ c := Some c;
  argon2_IDKey p _ _ _ _ n := btake n (p +:+ zeros n) |}.
#[local] Instance demo_crypto_laws : CryptoLaws.
Proof.
  split; intros; simpl; auto using length_pad32, length_zeros;
    [|apply length_btake; rewrite string_length_app, length_zeros; lia].
  apply bool_decide_true. unfold ed25519_key. simpl. by rewrite btake_app, pad32_id.
Qed.

(** ** Environment *)

(** The number whose sixteen bytes the 36-character text spells. *)
Section uuid_scan.
Local Open Scope N_scope.

Definition unhex (c : ascii) : N :=
  let n := N_of_ascii c in if decide (n < 58) then n - 48 else n - 87.
Definition not_dash (c : ascii) : Prop := c ≠ "-"%char.
#[local] Instance not_dash_dec c : Decision (not_dash c).
Proof. unfold not_dash. apply _. Defined.
Definition hex_value (a : N) (l : list ascii) : N := foldl (λ a c, 16 * a + unhex c) a l.
Definition byte_value (a : N) (l : list ascii) : N := foldl (λ a c, 256 * a + N_of_ascii c) a l.

Definition demo_uuid_scan (s : string) : option uuid :=
  if decide (String.length s = 36%nat)
  then Some (hex_value 0 (filter not_dash (explode s)) mod 2 ^ 128) else None.

Lemma hex_digit_ok n : n < 16 → unhex (hex_digit n) = n ∧ not_dash (hex_digit n).
Proof.
  intros Hn.
  assert (Forall (λ n, unhex (hex_digit n) = n ∧ not_dash (hex_digit n)) (N.of_nat <$> seq 0 16))
    as Hall.
  { apply (bool_decide_unpack _). vm_compute. exact I. }
  rewrite Forall_forall in Hall. apply Hall, list_elem_of_fmap. exists (N.to_nat n).
  split; [lia|]. apply elem_of_seq. lia.
Qed.

Lemma byte_digits c : N_of_ascii c / 16 < 16 ∧ N_of_ascii c mod 16 < 16.
Proof.
  pose proof (N_ascii_bounded c). split; [apply N.Div0.div_lt_upper_bound; lia | by apply N.mod_lt].
Qed.

Lemma hex_not_dash s : Forall not_dash (explode (hex s)).
Proof.
  induction s as [|c s IH]; simpl; [constructor|]. destruct (byte_digits c).
  repeat constructor; [by apply hex_digit_ok..|done].
Qed.

Lemma hex_value_hex a s : hex_value a (explode (hex s)) = byte_value a (explode s).
Proof.
  revert a. induction s as [|c s IH]; intros a; simpl; [done|].
  unfold hex_value, byte_value in *. simpl. rewrite <-IH. f_equal.
  destruct (byte_digits c) as [H1 H2].
  rewrite (proj1 (hex_digit_ok _ H1)), (proj1 (hex_digit_ok _ H2)).
  rewrite (N.div_mod (N_of_ascii c) 16) at 3 by done. lia.
Qed.

Lemma byte_value_be n v a : (0 <= v)%Z →
  byte_value a (explode (be_bytes n v)) =
    a * 256 ^ N.of_nat n + Z.to_N (v mod 256 ^ Z.of_nat n)%Z.
Proof.
  revert v a. induction n as [|n IH]; intros v a Hv.
  - simpl. rewrite Z.mod_1_r. unfold byte_value. simpl. lia.
  - simpl be_bytes. rewrite explode_app. unfold byte_value in *. rewrite foldl_app, IH; [|apply Z.div_pos; lia].
    simpl. pose proof (Z.mod_pos_bound v 256 ltac:(lia)).
    rewrite N_ascii_embedding by lia.
    rewrite !Nat2N.inj_succ, N.pow_succ_r', Nat2Z.inj_succ, Z.pow_succ_r by lia.
    rewrite Z.rem_mul_r by lia. pose proof (Z.mod_pos_bound (v / 256) (256 ^ Z.of_nat n) ltac:(lia)).
    rewrite Z2N.inj_add, Z2N.inj_mul by lia. lia.
Qed.

Lemma hex_app s t : hex (s +:+ t) = hex s +:+ hex t.
Proof.
  apply (inj explode). induction s as [|c s IH]; [done|].
  change (hex (String c s +:+ t)) with
    (String (hex_digit (N_of_ascii c / 16)) (String (hex_digit (N_of_ascii c mod 16)) (hex (s +:+ t)))).
  simpl. by rewrite IH, explode_app.
Qed.

Lemma filter_dashes a b c d e :
  filter not_dash (explode (hex a +:+ "-" +:+ hex b +:+ "-" +:+ hex c +:+ "-" +:+ hex d +:+ "-" +:+ hex e)) =
  explode (hex (a +:+ b +:+ c +:+ d +:+ e)).
Proof.
  rewrite !hex_app, !explode_app, !filter_app.
  by rewrite !(filter_all not_dash (explode (hex _))) by apply hex_not_dash.
Qed.

Lemma slices_join b : String.length b = 16%nat →
  bslice 0 4 b +:+ bslice 4 6 b +:+ bslice 6 8 b +:+ bslice 8 10 b +:+ bslice 10 16 b = b.
Proof.
  intros Hb. apply (inj explode). rewrite <-length_explode in Hb.
  rewrite !explode_app, !explode_bslice. generalize dependent (explode b). intros l Hl.
  do 16 (destruct l as [|? l]; [discriminate Hl|]). by destruct l.
Qed.

Lemma demo_uuid_scan_print u : uuid_wf u → demo_uuid_scan (uuidString u) = Some u.
Proof.
  intros Hu. unfold demo_uuid_scan. rewrite decide_True by apply length_uuidString. f_equal.
  unfold uuidString. cbv zeta. rewrite filter_dashes, hex_value_hex.
  rewrite slices_join by apply length_be_bytes. unfold uuid_bytes.
  rewrite byte_value_be by lia. unfold uuid_wf in Hu.
  rewrite Z.mod_small by (change (256 ^ Z.of_nat 16)%Z with (Z.of_N (2 ^ 128)); lia).
  rewrite N2Z.id, N.mul_0_l, N.add_0_l. by apply N.mod_small.
Qed.
End uuid_scan.

(** No faults; the clock and the fresh ids advance with the step counter. *)
#[local] Instance demo_env : Env := {|
  env_fault _ := NoFault;
  env_now t := (1700000000 + Z.of_nat t) * second;
  env_uuid t := ((1000 + N.of_nat t) mod 2 ^ 128)%N;
  env_rand t n := btake n (be_bytes 4 (Z.of_nat t) +:+ zeros n);
  env_others _ := None;
  uuid_scan := demo_uuid_scan |}.
#[local] Instance demo_env_laws : EnvLaws.
Proof.
  split.
  - intros t n. simpl. apply length_btake. rewrite string_length_app, length_zeros. lia.
  - intros t. unfold uuid_wf, env_uuid. simpl. by apply N.mod_lt.
  - intros s u. simpl. unfold demo_uuid_scan. case_decide; [|done]. intros [= <-].
    unfold uuid_wf. by apply N.mod_lt.
  - apply demo_uuid_scan_print.
Qed.

#[local] Instance demo_collation : Collation := String.leb.

Lemma string_leb_trans x y z :
  String.leb x y = true → String.leb y z = true → String.leb x z = true.
Proof.
  unfold String.leb. revert y z. induction x as [|a x IH]; intros [|b y] [|c z]; simpl; try done.
  destruct (Ascii.compare a b) eqn:Hab; try done; intros Hxy;
    destruct (Ascii.compare b c) eqn:Hbc; try done; intros Hyz.
  all: unfold Ascii.compare in *.
  all: try apply N.compare_eq_iff in Hab; try apply N.compare_lt_iff in Hab;
    try apply N.compare_eq_iff in Hbc; try apply N.compare_lt_iff in Hbc.
  - rewrite Hab, Hbc, N.compare_refl. exact (IH _ _ Hxy Hyz).
  - rewrite Hab. by apply N.compare_lt_iff in Hbc as ->.
  - rewrite <-Hbc. by apply N.compare_lt_iff in Hab as ->.
  - pose proof (N.lt_trans _ _ _ Hab Hbc) as Hac. by apply N.compare_lt_iff in Hac as ->.
Qed.
#[local] Instance demo_collation_laws : CollationLaws.
Proof.
  split; [apply String.leb_total | apply string_leb_trans | apply String.leb_antisym].
Qed.

(** Of a pattern, what is between the two percent signs is searched for. *)
#[local] Instance demo_match : TextMatch := λ pattern s,
  Contains (ToLowerASCII s) (ToLowerASCII (btake (String.length pattern - 2) (bdrop 1 pattern))).

#[export] Instance demo_platform : Platform | 100 := {|
  platform_env := demo_env; platform_json := demo_json; platform_time := demo_time;
  platform_crypto := demo_crypto; platform_collation := demo_collation;
  platform_match := demo_match |}.
#[export] Instance demo_alone : Alone | 100.
Proof. intros t. reflexivity. Qed.
#[export] Instance demo_platform_laws : PlatformLaws | 100.
Proof. split; apply _. Qed.

#[export] Instance demo_disk : Disk | 100 := λ _, None.
