(* ===== verification/Scenario.v ===== *)
(** A small deployment on the platform of [Demo]: a server with a vault and a
    signing key, an admin and a member with an SSH key and a session each, one
    host, one group, one secret, one set.  The witnesses run on it. *)
From S2P Require Import Prelude Text Base64 Json Protocol Crypto Schema Evolve QUsers QAccess World Http Demo.

Definition demo_kp : Identity.KeyPair := Identity.GenerateKeyPair (zeros 32).
Definition demo_server : Server := NewServer {|
  cfg_DatabaseURL := "postgres://localhost/custos"; cfg_ListenAddr := ":8080";
  cfg_MasterKey := zeros 32; cfg_SigningKey := Identity.PrivateKey demo_kp;
  cfg_HybridPrivateKey := zeros 32; cfg_EncryptionEnabled := false;
  cfg_ResendAPIKey := ""; cfg_EmailFrom := ""; cfg_AppURL := "https://custos.example/";
  cfg_CorsOrigins := [] |}.

Definition admin_id : uuid := 1%N.
Definition alice_id : uuid := 2%N.
Definition host_id : uuid := 3%N.
Definition group_id : uuid := 4%N.
Definition secret_id : uuid := 5%N.
Definition set_id : uuid := 6%N.

Definition demo_user (id : uuid) (email role : string) : User :=
  {| User_ID := id; User_Email := email; User_Name := email; User_DisplayName := None;
     User_Role := role; User_Status := "active"; User_CreatedAt := 0 |}.
Definition demo_session (id user : uuid) : Session :=
  {| Session_ID := id; Session_UserID := user; Session_TokenHash := uuidString id;
     Session_ClientPublicKey := None; Session_CreatedAt := 0;
     Session_ExpiresAt := 2000000000 * second; Session_RevokedAt := None |}.
Definition demo_token (id session : uuid) (raw : string) : AccessToken :=
  {| AccessToken_ID := id; AccessToken_SessionID := session; AccessToken_TokenHash := HashToken raw;
     AccessToken_ExpiresAt := 2000000000 * second; AccessToken_CreatedAt := 0 |}.
Definition demo_host : Host :=
  {| Host_ID := host_id; Host_Name := "web"; Host_Hostname := "web.local";
     Host_IdentityKey := Identity.PublicKey demo_kp;
     Host_EncryptionKey := Hybrid.PublicKey (zeros 32);
     Host_Accounts := ["deploy"]; Host_Status := "active"; Host_MachineID := Some "m1";
     Host_LastSeq := 2; Host_LastSetSeq := 0; Host_AgentVersion := "v1.0.0";
     Host_DesiredVersion := ""; Host_EnrolledAt := 0; Host_LastSeenAt := None |}.
Definition demo_key : PublicKey :=
  {| PublicKey_ID := 20%N; PublicKey_UserID := alice_id; PublicKey_Label := "laptop";
     PublicKey_KeyType := "ssh-ed25519"; PublicKey_KeyBlob := "AAAA";
     PublicKey_Fingerprint := "SHA256:fp"; PublicKey_CreatedAt := 0 |}.
Definition demo_grant (id user : uuid) (permission kind : string) (target : option uuid) : Grant :=
  {| Grant_ID := id; Grant_UserID := user; Grant_Permission := permission;
     Grant_TargetKind := kind; Grant_TargetID := target; Grant_GrantedBy := Some admin_id;
     Grant_CreatedAt := 0; Grant_RevokedAt := None |}.

Definition demo_db : DB := {|
  users := [demo_user admin_id "admin@x" "admin"; demo_user alice_id "alice@x" "member"];
  identities := [{| Identity_ID := 21%N; Identity_UserID := alice_id; Identity_Provider := "password";
                    Identity_ExternalID := "alice@x"; Identity_PasswordHash := None;
                    Identity_CreatedAt := 0; Identity_LastLoginAt := None; Identity_FailedLogins := 0;
                    Identity_LastFailedAt := None; Identity_LockedUntil := None |}];
  invitations := [];
  sessions := [demo_session 7%N admin_id; demo_session 8%N alice_id];
  access_tokens := [demo_token 9%N 7%N "admintoken"; demo_token 10%N 8%N "alicetoken"];
  password_resets := []; public_keys := [demo_key]; hosts := [demo_host];
  enrollment_tokens := [];
  secrets := [{| Secret_ID := secret_id; Secret_Label := "db"; Secret_Url := None;
                 Secret_Username := None; Secret_OtpRecipient := None; Secret_Ciphertext := None;
                 Secret_Nonce := None; Secret_WrappedKey := None; Secret_CreatedBy := None;
                 Secret_UpdatedBy := None; Secret_CreatedAt := 0; Secret_UpdatedAt := 0 |}];
  resource_groups := [{| ResourceGroup_ID := group_id; ResourceGroup_Name := "prod";
                         ResourceGroup_Description := ""; ResourceGroup_CreatedAt := 0 |}];
  group_resources := [{| GroupResource_GroupID := group_id; GroupResource_ResourceKind := "host";
                         GroupResource_ResourceID := host_id; GroupResource_AddedAt := 0 |}];
  permissions := permission_catalogue;
  grants := [demo_grant 11%N alice_id "host.access" "group" (Some group_id);
             demo_grant 12%N alice_id "group.manage" "group" (Some group_id);
             demo_grant 13%N alice_id "secret.read" "group" (Some group_id)];
  secret_sets := [{| SecretSet_ID := set_id; SecretSet_Name := "app"; SecretSet_CreatedBy := None;
                     SecretSet_CreatedAt := 0; SecretSet_UpdatedAt := 0 |}];
  secret_set_entries := []; host_set_bindings := [];
  secret_audit_logs := []; ssh_access_logs := []; grant_audit_logs := []; set_audit_logs := [] |}.

Definition demo_world : World := initial_world demo_db.

Lemma demo_db_wf : db_wf demo_db.
Proof.
  constructor; unfold references, may_reference, host_seq_ok; apply (bool_decide_unpack _); vm_compute; exact I.
Qed.

(** A request with a bearer token, route parameters and a JSON body. *)
Definition demo_request (token : string) (params : list (string * string)) (body : json) : Request :=
  {| URLParam name := default "" ((list_to_map params : gmap string string) !! name);
     r_query _ := ""; r_body := json_print body;
     r_authorization := if decide (token = "") then "" else "Bearer " +:+ token |}.

(** A release server that is never reached. *)
Definition demo_get (_ : nat) (_ : string) : error + (Z * bytes) := inl (ErrConn "offline").

Definition demo_auth (id session : uuid) (role : string) : authInfo :=
  {| auth_SessionID := session; auth_UserID := id; auth_Role := role;
     auth_ClientPublicKey := None |}.
Definition admin_auth : authInfo := demo_auth admin_id 7%N "admin".
Definition alice_auth : authInfo := demo_auth alice_id 8%N "member".
