(* ===== verification/Runs.v ===== *)
(** Reasoning about complete runs of handlers: what a run that ended normally
    went through, which responses a run that ended early can carry, and
    frame conditions for the computations that only read the database or only
    advance the hosts' counters. *)
From S2P Require Import Prelude Text Base64 Json Protocol Crypto Schema Evolve QUsers QAccess QSecrets World Http Perms Grants Accounts Secrets Hosts Sets Groups.

(** ** Inversion of a run that ended normally *)

(** An error branch that never continues. *)
Definition throwing {E E' A} (h : E → M World E' A) : Prop :=
  ∀ e w a w', h e w ≠ (inr a, w').

Lemma onerr_inr_inv {E E' A} (m : M World E A) (h : E → M World E' A) w a w' :
  throwing h → onerr m h w = (inr a, w') → m w = (inr a, w').
Proof.
  intros Hh. unfold onerr. destruct (m w) as [[e|b] w1]; [|congruence].
  intros Hr. by destruct (Hh e w1 a w').
Qed.

Lemma attempt_inr {E E' A} (m : M World E A) w r w' :
  (attempt m : M World E' _) w = (inr r, w') → m w = (r, w').
Proof. unfold attempt. destruct (m w). congruence. Qed.

Lemma require_inr b r w u w' : require b r w = (inr u, w') → b = true ∧ w' = w.
Proof. unfold require, ret, throw. destruct b; by intros [= <-]. Qed.

Lemma orFail_inr {A} (o : option A) r w a w' :
  orFail o r w = (inr a, w') → o = Some a ∧ w' = w.
Proof. unfold orFail, ret, throw. destruct o; by intros [= <- <-]. Qed.

Lemma orInvalid_inr {A} (o : error + A) r w a w' :
  orInvalid o r w = (inr a, w') → o = inr a ∧ w' = w.
Proof. unfold orInvalid, ret, throw. destruct o; by intros [= <- <-]. Qed.

Section inversion.
Context `{Env, !Alone}.

Lemma catch_up_alone w : catch_up w = w.
Proof. unfold catch_up. by rewrite alone. Qed.

Lemma pool_inr {A} (q : Query A) w a w' :
  pool q w = (inr a, w') →
  env_fault (w_tick w) = NoFault ∧
  ∃ d, q (env_now (w_tick w)) (env_uuid (w_tick w)) (w_db w) = inr (a, d) ∧
       w' = with_db d (step w).
Proof.
  unfold pool. rewrite catch_up_alone.
  destruct (env_fault _), (q _ _ _) as [e'|[b d]]; intros Hr; simplify_eq; eauto.
Qed.

Lemma pool_ok {A} (q : Query A) w a d :
  env_fault (w_tick w) = NoFault →
  q (env_now (w_tick w)) (env_uuid (w_tick w)) (w_db w) = inr (a, d) →
  pool q w = (inr a, with_db d (step w)).
Proof. intros Hf Hq. unfold pool. rewrite catch_up_alone. by rewrite Hf, Hq. Qed.

Lemma Begin_inr w u w' :
  Begin w = (inr u, w') →
  w' = with_tx (Some {| tx_redo := inr; tx_now := env_now (w_tick w); tx_aborted := false |})
         (step w).
Proof. unfold Begin. rewrite catch_up_alone. destruct (env_fault _); [|done..]. by intros [= _ <-]. Qed.

Lemma Begin_ok w :
  env_fault (w_tick w) = NoFault →
  Begin w = (inr tt, with_tx (Some {| tx_redo := inr; tx_now := env_now (w_tick w);
                                      tx_aborted := false |}) (step w)).
Proof. intros Hf. unfold Begin. rewrite catch_up_alone. by rewrite Hf. Qed.

(** A transaction is open at time [now] with the view [d]. *)
Definition viewing (d : DB) (now : Z) (w : World) : Prop :=
  ∃ x, w_tx w = Some x ∧ tx_aborted x = false ∧ tx_now x = now ∧ tx_redo x (w_db w) = inr d.

(** A statement of a transaction leaves a transaction with its result. *)
Definition after_stmt {A} (q : Query A) (id : uuid) (x : Tx) : Tx :=
  {| tx_redo := redo_then (tx_redo x) (redo_stmt q (tx_now x) id); tx_now := tx_now x;
     tx_aborted := false |}.

Lemma viewing_after {A} (q : Query A) a d d' now id x w :
  w_tx w = Some x → tx_now x = now → tx_redo x (w_db w) = inr d → q now id d = inr (a, d') →
  viewing d' now (with_tx (Some (after_stmt q id x)) (step w)).
Proof.
  intros Hx Hn Hr Hq. exists (after_stmt q id x). split_and!; [done..|]. simpl.
  unfold redo_then, redo_stmt. by rewrite Hr, Hn, Hq.
Qed.

Lemma inTx_inr {A} (q : Query A) w a w' d now :
  viewing d now w → inTx q w = (inr a, w') →
  ∃ d', q now (env_uuid (w_tick w)) d = inr (a, d') ∧ viewing d' now w' ∧
    w_db w' = w_db w ∧ w_tick w' = S (w_tick w).
Proof.
  intros (x & Hx & Ha & Hn & Hr). unfold inTx. rewrite catch_up_alone, Hx, Ha, Hr, Hn.
  destruct (env_fault _); [|done..].
  destruct (q _ _ _) as [e|[b d']] eqn:Hq; [by case_decide|]. intros [= -> <-].
  exists d'. split; [done|]. split; [|done]. rewrite <-Hn. by eapply viewing_after; [..|rewrite Hn].
Qed.

Lemma inTx_view {A} (q : Query A) w a w' :
  inTx q w = (inr a, w') → ∃ d now, viewing d now w.
Proof.
  unfold inTx. rewrite catch_up_alone. destruct (w_tx w) as [x|] eqn:Hx; [|done].
  destruct (tx_aborted x) eqn:Ha; [done|]. destruct (env_fault _); [|done..].
  destruct (tx_redo x (w_db w)) as [e|d] eqn:Hr; [done|]. intros _. by exists d, (tx_now x), x.
Qed.

Lemma inTx_ok {A} (q : Query A) w a d d' now :
  env_fault (w_tick w) = NoFault → viewing d now w →
  q now (env_uuid (w_tick w)) d = inr (a, d') →
  ∃ w', inTx q w = (inr a, w') ∧ viewing d' now w' ∧ w_db w' = w_db w ∧
        w_tick w' = S (w_tick w).
Proof.
  intros Hf Hv Hq. pose proof Hv as (x & Hx & Ha & Hn & Hr). eexists. split.
  - unfold inTx. by rewrite catch_up_alone, Hx, Ha, Hf, Hr, Hn, Hq.
  - split; [|done]. rewrite <-Hn. by eapply viewing_after; [..|rewrite Hn].
Qed.

(** A call inside a transaction that did not succeed. *)
Lemma inTx_inl {A} (q : Query A) w e w' d now :
  viewing d now w → inTx q w = (inl e, w') →
  w_db w' = w_db w ∧ (viewing d now w' ∨ ∃ x, w_tx w' = Some x ∧ tx_aborted x = true).
Proof.
  intros Hv. pose proof Hv as (x & Hx & Ha & Hn & Hr).
  unfold inTx. rewrite catch_up_alone, Hx, Ha, Hr.
  destruct (env_fault _); [|intros [= _ <-]; simpl; split; [done|by right; eexists]..].
  destruct (q _ _ _) as [e'|[b d']]; [|done]. case_decide; intros [= _ <-]; simpl.
  - split; [done|]. left. by exists x.
  - split; [done|by right; eexists].
Qed.

(** A transaction that has just begun sees what is committed. *)
Lemma Begin_viewing w u w' :
  Begin w = (inr u, w') →
  viewing (w_db w) (env_now (w_tick w)) w' ∧ w_db w' = w_db w ∧ w_tick w' = S (w_tick w).
Proof. intros ->%Begin_inr. split; [|done]. by eexists. Qed.

Lemma Begin_run w :
  env_fault (w_tick w) = NoFault →
  ∃ w', Begin w = (inr tt, w') ∧ viewing (w_db w) (env_now (w_tick w)) w' ∧
        w_db w' = w_db w ∧ w_tick w' = S (w_tick w).
Proof. intros Hf. eexists. pose proof (Begin_ok w Hf) as Hb. split; [exact Hb|by eapply Begin_viewing]. Qed.

Lemma Commit_ok w d now :
  env_fault (w_tick w) = NoFault → viewing d now w →
  Commit w = (inr tt, with_db d (with_tx None (step w))).
Proof.
  intros Hf (x & Hx & Ha & _ & Hr). unfold Commit. by rewrite catch_up_alone, Hx, Ha, Hf, Hr.
Qed.

Lemma Commit_inr w u w' :
  Commit w = (inr u, w') →
  ∃ d now, viewing d now w ∧ w' = with_db d (with_tx None (step w)).
Proof.
  unfold Commit. rewrite catch_up_alone. destruct (w_tx w) as [x|] eqn:Hx; [|done].
  destruct (tx_aborted x) eqn:Ea; [done|].
  destruct (env_fault _), (tx_redo x (w_db w)) as [e'|d] eqn:Hr; try done.
  intros [= _ <-]. exists d, (tx_now x). split; [|done]. by exists x.
Qed.

Lemma viewing_functional d d' now now' w : viewing d now w → viewing d' now' w → d' = d ∧ now' = now.
Proof.
  intros (x & Hx & _ & Hn & Hr) (y & Hy & _ & Hn' & Hr'). rewrite Hx in Hy. injection Hy as <-.
  split; congruence.
Qed.

Lemma deferRollback_inr {E A} (m : M World E A) w a w' :
  deferRollback m w = (inr a, w') → ∃ w1, m w = (inr a, w1) ∧ w' = with_tx None w1.
Proof. unfold deferRollback. destruct (m w) as [r w1]. intros [= -> <-]. eauto. Qed.
End inversion.

(** Splits the hypothesis [H : m w = (inr a, w')] along the program text. *)
Ltac throwing_branch :=
  intros ? ? ? ?; unfold answer, answerAll, throw; congruence.
Ltac invert_step H :=
  let Hm := fresh "Hrun" in
  let w1 := fresh "w" in
  let a := fresh "v" in
  lazymatch type of H with
  | bind _ _ _ = (inr _, _) =>
      apply bind_inr in H as (a & w1 & Hm & H); invert_step Hm; cbv beta iota zeta in H
  | onerr _ _ _ = (inr _, _) =>
      apply onerr_inr_inv in H; [invert_step H | throwing_branch]
  | require _ _ _ = (inr _, _) => apply require_inr in H as [H ->]
  | orFail _ _ _ = (inr _, _) => apply orFail_inr in H as [H ->]
  | orInvalid _ _ _ = (inr _, _) => apply orInvalid_inr in H as [H ->]
  | attempt _ _ = (inr _, _) => apply attempt_inr in H
  | deferRollback _ _ = (inr _, _) =>
      let Hw := fresh "Hw" in apply deferRollback_inr in H as (w1 & H & Hw)
  | ret _ _ = (inr _, _) => unfold ret in H; injection H as ? ?; subst
  | signing _ _ = (inr _, _) => unfold signing, modify in H; injection H as ? ?; subst
  | _ => idtac
  end.
Ltac invert_run H := repeat (progress (invert_step H)).

(** ** Inversion of statements *)

Lemma check_ok {A} (P : DB → Prop) `{∀ d, Decision (P d)} code (k : Stmt A) d :
  P d → check P code k d = k d.
Proof. intros HP. unfold check. by rewrite decide_True. Qed.

Lemma check_inr {A} (P : DB → Prop) `{∀ d, Decision (P d)} code (k : Stmt A) d r :
  check P code k d = inr r → P d ∧ k d = inr r.
Proof. unfold check. by case_decide. Qed.
Lemma returning_inr {A} (a b : A) f d d' : returning a f d = inr (b, d') → b = a ∧ d' = f d.
Proof. by intros [= <- <-]. Qed.
Lemma execute_inr f d u d' : execute f d = inr (u, d') → d' = f d.
Proof. by intros [= _ <-]. Qed.
Lemma execrows_inr n f d k d' : execrows n f d = inr (k, d') → k = n d ∧ d' = f d.
Proof. by intros [= <- <-]. Qed.
Lemma select_one_inr {A} (f : DB → option A) d a d' :
  select_one f d = inr (a, d') → f d = Some a ∧ d' = d.
Proof. unfold select_one. destruct (f d); by intros [= <- <-]. Qed.
Lemma update_returning_inr {A B} (sel : DB → option A) (f : A → B) g d b d' :
  update_returning sel f g d = inr (b, d') → ∃ a, sel d = Some a ∧ b = f a ∧ d' = g d.
Proof. unfold update_returning. destruct (sel d); intros [= <- <-]; eauto. Qed.

(** Splits [H : statement d = inr (a, d')] into the constraints it met and its
    effect. *)
Ltac invert_stmt H :=
  let Hc := fresh "Hc" in
  lazymatch type of H with
  | check _ _ _ _ = inr _ => apply check_inr in H as [Hc H]; invert_stmt H
  | returning _ _ _ = inr _ => apply returning_inr in H as [? ?]; subst
  | execute _ _ = inr _ => apply execute_inr in H; subst
  | execrows _ _ _ = inr _ => apply execrows_inr in H as [? ?]; subst
  | select_one _ _ = inr _ => apply select_one_inr in H as [H ?]; subst
  | update_returning _ _ _ _ = inr _ =>
      let a := fresh "row" in apply update_returning_inr in H as (a & H & ? & ?); subst
  end.
Ltac invert_query H := unfold_query H; cbv zeta in H; invert_stmt H.

(** ** Responses of a run that ended early *)

Definition fails_with {E A} (P : E → Prop) (m : M World E A) : Prop :=
  ∀ w e w', m w = (inl e, w') → P e.

Lemma fails_bind {E A B} (P : E → Prop) (m : M World E A) (k : A → M World E B) :
  fails_with P m → (∀ a, fails_with P (k a)) → fails_with P (bind m k).
Proof.
  intros Hm Hk w e w'. unfold bind. destruct (m w) as [[e1|a] w1] eqn:E1.
  - intros [= <- <-]. eauto.
  - apply Hk.
Qed.
Lemma fails_onerr {E E' A} (P : E' → Prop) (m : M World E A) (h : E → M World E' A) :
  (∀ e, fails_with P (h e)) → fails_with P (onerr m h).
Proof.
  intros Hh w e w'. unfold onerr. destruct (m w) as [[e1|a] w1]; [|done]. apply Hh.
Qed.
Lemma fails_ret {E A} (P : E → Prop) (a : A) : fails_with P (ret a : M World E A).
Proof. by intros w e w'. Qed.
Lemma fails_throw {E A} (P : E → Prop) e : P e → fails_with P (throw e : M World E A).
Proof. intros He w e' w' [= <- _]. done. Qed.
Lemma fails_total {E A} (P : E → Prop) (m : M World E A) :
  (∀ w, is_Some (match (m w).1 with inr a => Some a | inl _ => None end)) → fails_with P m.
Proof. intros Hm w e w' Hr. destruct (Hm w) as [a Ha]. by rewrite Hr in Ha. Qed.
Lemma fails_attempt {E E' A} (P : E' → Prop) (m : M World E A) :
  fails_with P (attempt m : M World E' _).
Proof. intros w e w'. unfold attempt. by destruct (m w). Qed.
Lemma fails_ignore {E E' A} (P : E' → Prop) (m : M World E A) :
  fails_with P (ignore m : M World E' _).
Proof. by intros w e w'. Qed.
Lemma fails_foreach {E A} (P : E → Prop) (l : list A) (f : A → M World E unit) :
  (∀ x, fails_with P (f x)) → fails_with P (foreach l f).
Proof.
  intros Hf. induction l as [|x l IH]; simpl; [apply fails_ret|]. by apply fails_bind.
Qed.
Lemma fails_map_each {E A B} (P : E → Prop) (f : A → M World E B) l :
  (∀ x, fails_with P (f x)) → fails_with P (map_each f l).
Proof.
  intros Hf. induction l as [|x l IH]; simpl; [apply fails_ret|].
  apply fails_bind; [done|]; intros y. apply fails_bind; [done|]; intros ys. apply fails_ret.
Qed.
Lemma fails_deferRollback {E A} (P : E → Prop) (m : M World E A) :
  fails_with P m → fails_with P (deferRollback m).
Proof.
  intros Hm w e w'. unfold deferRollback. destruct (m w) as [r w1] eqn:E1. intros [= -> _]. eauto.
Qed.

(** The server's error responses: no success status. *)
Definition error_status (r : Response) : Prop := 400 ≤ resp_status r.
Lemma httpError_status msg code : 400 ≤ code → error_status (httpError msg code).
Proof. done. Qed.

Lemma serve_success h w resp w' :
  fails_with error_status h → serve h w = (resp, w') → resp_status resp < 400 →
  h w = (inr resp, w').
Proof.
  unfold serve. intros Hf. destruct (h w) as [[r|r] w1] eqn:E1; intros [= <- <-] Hs; [|done].
  apply Hf in E1. unfold error_status in E1. lia.
Qed.

(** ** Frames *)

Ltac solve_reads :=
  let H := fresh "Hrun" in
  intros ? ? ? ? ? H; unfold_query H; unfold select, select_one in H;
  repeat case_match; congruence.

Section quiet.
Context `{Env, !Alone}.

Lemma pool_quiet {A} (q : Query A) : query_rel eq q → reading (pool q).
Proof.
  intros Hq w. unfold pool. rewrite catch_up_alone.
  destruct (q _ _ _) as [e|[a d]] eqn:E; destruct (env_fault _); try done;
    apply Hq in E; by subst.
Qed.
Lemma timeNow_quiet {E} : reading (timeNow : M World E Z).
Proof. done. Qed.
Lemma randBytes_quiet {E} n : reading (randBytes n : M World E bytes).
Proof. done. Qed.
Lemma lift_quiet {E A} (r : E + A) : reading (lift r).
Proof. done. Qed.
End quiet.

Ltac quiet_step :=
  lazymatch goal with
  | |- preserves _ (pool _) => apply pool_quiet; solve [solve_reads]
  | |- preserves _ timeNow => apply timeNow_quiet
  | |- preserves _ (randBytes _) => apply randBytes_quiet
  | |- preserves _ (lift _) => apply lift_quiet
  | |- preserves _ (require _ _) => unfold require
  | |- preserves _ (orFail _ _) => unfold orFail
  | |- preserves _ (orInvalid _ _) => unfold orInvalid
  | |- preserves _ (answer _ _ _) => unfold answer
  | |- preserves _ (answerAll _ _) => unfold answerAll
  end.
Ltac solve_quiet :=
  intros;
  repeat first [solve [eauto 2 with preserve nocore] | quiet_step | preserve_step].
Ltac unfold_head :=
  lazymatch goal with |- preserves _ ?m => let h := head_of m in unfold h end; cbv zeta.

Section readers.
Context `{Platform, !Alone} (s : Server).

Lemma granted_quiet {E} (q : Query bool) :
  query_rel eq q → reading (granted q : M World E bool).
Proof.
  intros Hq. unfold granted. apply (preserves_bind _); [|intros ?; apply (preserves_ret _)].
  apply (preserves_attempt _). by apply pool_quiet.
Qed.
Lemma check_quiet {E} (a : authInfo) (q : Query bool) :
  query_rel eq q → reading (if isAdmin a then ret true else granted q : M World E bool).
Proof. intros Hq. destruct (isAdmin a); [apply (preserves_ret _)|]. by apply granted_quiet. Qed.
Lemma canGlobal_quiet {E} a p : reading (canGlobal a p : M World E bool).
Proof. apply check_quiet. solve_reads. Qed.
Lemma canSecret_quiet {E} a p i : reading (canSecret a p i : M World E bool).
Proof. apply check_quiet. solve_reads. Qed.
Lemma canHost_quiet {E} a p i : reading (canHost a p i : M World E bool).
Proof. apply check_quiet. solve_reads. Qed.
Lemma canGroup_quiet {E} a p i : reading (canGroup a p i : M World E bool).
Proof. apply check_quiet. solve_reads. Qed.
Lemma canSet_quiet {E} a p i : reading (canSet a p i : M World E bool).
Proof. apply check_quiet. solve_reads. Qed.
Lemma emailOf_quiet {E} u : reading (emailOf u : M World E string).
Proof. unfold_head. solve_quiet. Qed.
Lemma writeResponse_quiet k v : reading (writeResponse s k v).
Proof. unfold_head. solve_quiet. Qed.
Lemma grantedHosts_quiet {E} u : reading (grantedHosts u : M World E _).
Proof. unfold_head. solve_quiet. Qed.
End readers.
#[export] Hint Resolve canGlobal_quiet canSecret_quiet canHost_quiet canGroup_quiet canSet_quiet
  emailOf_quiet writeResponse_quiet grantedHosts_quiet : preserve.

(** Nothing is changed but the numbers of the hosts' last snapshots, and these
    only grow: each host keeps its row, with every other column as it was. *)
Definition counted (h k : Host) : Prop :=
  Host_LastSeq h ≤ Host_LastSeq k ∧ k = set_Host_LastSeq (Host_LastSeq k) h.
Record hosts_only (d d' : DB) : Prop := {
  ho_tables : d' = on_hosts (λ _, hosts d') d;
  ho_rows : Forall2 counted (hosts d) (hosts d') }.

#[export] Instance counted_preorder : PreOrder counted.
Proof.
  split; [intros []; split; [reflexivity|done]|].
  intros h [] k [Hle1 H1] [Hle2 H2]. injection H1 as ?. split; [lia|]. subst. by rewrite H2.
Qed.
#[export] Instance hosts_only_preorder : PreOrder hosts_only.
Proof.
  split; [by intros []; split|].
  intros d1 d2 d3 [H12 Hr12] [H23 Hr23]. split; [|by etransitivity].
  rewrite H23. rewrite H12. reflexivity.
Qed.

Lemma counted_update (P : Host → Prop) `{∀ h, Decision (P h)} f l :
  (∀ h, counted h (f h)) → Forall2 counted l (update_where P f l).
Proof.
  intros Hf. induction l as [|h l IH]; constructor; [|done]. case_decide; [apply Hf|reflexivity].
Qed.

Ltac solve_hosts_only :=
  let H := fresh "Hrun" in
  intros ? ? ? ? ? H; unfold_query H; run_query H;
  first [ reflexivity
        | split; [reflexivity|apply counted_update; intros []; split; simpl; [lia|reflexivity]] ].
Lemma NextHostSeq_counts id : query_rel hosts_only (NextHostSeq id).
Proof. solve_hosts_only. Qed.
#[export] Hint Extern 3 (query_rel hosts_only _) => solve [solve_hosts_only] : evolve.

(** Pushing a snapshot advances counters and fills a queue, no more. *)
Abbreviation counting m := (preserves (effect hosts_only) m).

Section pushes.
Context `{Platform} (s : Server).

Lemma buildSnapshot_counts h : counting (buildSnapshot h).
Proof. unfold_head. solve_rel. Qed.
Hint Resolve buildSnapshot_counts : preserve.
Lemma pushSnapshot_counts {E} h : counting (pushSnapshot s h : M World E unit).
Proof. apply (pushSnapshot_effect s hosts_only); eauto with evolve. Qed.
Hint Resolve pushSnapshot_counts : preserve.
Lemma pushToHosts_counts {E} l : counting (pushToHosts s l : M World E unit).
Proof. unfold_head. solve_rel. Qed.
Lemma pushIfHostGrant_counts {E} p k t : counting (pushIfHostGrant s p k t : M World E unit).
Proof. unfold_head. solve_rel. Qed.
Lemma writeResponse_counts k v : counting (writeResponse s k v).
Proof. unfold_head. solve_rel. Qed.
End pushes.
#[export] Hint Resolve buildSnapshot_counts pushSnapshot_counts
  pushToHosts_counts pushIfHostGrant_counts writeResponse_counts : preserve.

(** ** The errors of handlers are error responses *)

Ltac fails_step :=
  lazymatch goal with
  | |- ∀ _, _ => intro
  | |- fails_with _ (bind _ _) => apply fails_bind
  | |- fails_with _ (onerr _ _) => apply fails_onerr
  | |- fails_with _ (ret _) => apply fails_ret
  | |- fails_with _ (throw _) => apply fails_throw; try done
  | |- fails_with _ (attempt _) => apply fails_attempt
  | |- fails_with _ (ignore _) => apply fails_ignore
  | |- fails_with _ (foreach _ _) => apply fails_foreach
  | |- fails_with _ (map_each _ _) => apply fails_map_each
  | |- fails_with _ (deferRollback _) => apply fails_deferRollback
  | |- fails_with _ (require _ _) => unfold require
  | |- fails_with _ (orFail _ _) => unfold orFail
  | |- fails_with _ (orInvalid _ _) => unfold orInvalid
  | |- fails_with _ (answer _ _ _) => unfold answer
  | |- fails_with _ (answerAll _ _) => unfold answerAll
  | |- fails_with _ (when ?b _) => unfold when
  | |- fails_with _ (onHub _) => by intros ? ? ?
  | |- fails_with _ timeNow => by intros ? ? ?
  | |- fails_with _ (randBytes _) => by intros ? ? ?
  | |- fails_with _ (gets _) => by intros ? ? ?
  | |- fails_with _ (match ?x with _ => _ end) => destruct x
  end.
Ltac solve_fails := repeat first [solve [eauto 2 with fails nocore] | fails_step].
Ltac unfold_fails :=
  intros; lazymatch goal with |- fails_with _ ?m => let h := head_of m in unfold h end; cbv zeta.

Create HintDb fails discriminated.
Section fails.
Context `{Platform} (s : Server).
Lemma writeResponse_fails k v : fails_with error_status (writeResponse s k v).
Proof. unfold_fails. solve_fails. Qed.
Lemma pushSnapshot_fails P h : fails_with (P : Response → Prop) (pushSnapshot s h).
Proof. unfold_fails. solve_fails. Qed.
Hint Resolve pushSnapshot_fails : fails.
Lemma pushToHosts_fails P l : fails_with (P : Response → Prop) (pushToHosts s l).
Proof. unfold_fails. solve_fails. Qed.
Lemma pushIfHostGrant_fails P p k t : fails_with (P : Response → Prop) (pushIfHostGrant s p k t).
Proof. unfold_fails. solve_fails. Qed.
End fails.
#[export] Hint Resolve writeResponse_fails pushSnapshot_fails pushToHosts_fails
  pushIfHostGrant_fails : fails.
