(* ===== verification/Wp.v ===== *)
(** The program logic [wp] of [Prelude] for handlers: rules for the database,
    its transactions, the hub and the responses, on every branch and for every
    answer of the fault oracle. *)
From S2P Require Import Prelude Text Base64 Json Protocol Crypto Schema Evolve QUsers QAccess QSecrets World Http Perms Grants Accounts Runs.

(** Inside a transaction: the committed database, the open transaction's view
    of it and its time. *)
Record tx_at (d d' : DB) (now : Z) (h : Hub) (w : World) : Prop := {
  tx_committed : w_db w = d;
  tx_open : viewing d' now w;
  tx_hub : w_hub w = h }.
(** Outside any transaction. *)
Record no_tx (d : DB) (h : Hub) (w : World) : Prop := {
  no_tx_db : w_db w = d; no_tx_closed : w_tx w = None; no_tx_hub : w_hub w = h }.
(** Before the commit or after a rollback: the committed database. *)
Record committed (d : DB) (h : Hub) (w : World) : Prop := {
  committed_db : w_db w = d; committed_hub : w_hub w = h }.

Lemma wp_deferRollback {E A} (m : M World E A) w Qe Qo :
  wp m w (λ e w1, Qe e (with_tx None w1)) (λ a w1, Qo a (with_tx None w1)) →
  wp (deferRollback m) w Qe Qo.
Proof. unfold wp, deferRollback. by destruct (m w) as [[e|a] w1]. Qed.

Lemma wp_require b r w Qe (Qo : unit → World → Prop) :
  (b = false → Qe r w) → (b = true → Qo tt w) → wp (require b r) w Qe Qo.
Proof. unfold wp, require, ret, throw. destruct b; auto. Qed.
Lemma wp_orFail {A} (o : option A) r w Qe (Qo : A → World → Prop) :
  (o = None → Qe r w) → (∀ a, o = Some a → Qo a w) → wp (orFail o r) w Qe Qo.
Proof. unfold wp, orFail, ret, throw. destruct o; auto. Qed.
Lemma wp_orInvalid {A} (o : error + A) r w Qe (Qo : A → World → Prop) :
  (∀ e, o = inl e → Qe r w) → (∀ a, o = inr a → Qo a w) → wp (orInvalid o r) w Qe Qo.
Proof. unfold wp, orInvalid, ret, throw. destruct o; eauto. Qed.
Lemma wp_answerAll {A} r e w Qe (Qo : A → World → Prop) : Qe r w → wp (answerAll r e) w Qe Qo.
Proof. done. Qed.
Lemma wp_answer {A} r1 r2 e w Qe (Qo : A → World → Prop) :
  Qe r1 w → Qe r2 w → wp (answer r1 r2 e) w Qe Qo.
Proof. intros. unfold wp, answer, throw. by case_decide. Qed.

Lemma no_tx_quiet d h w w' : quiet w w' → no_tx d h w → no_tx d h w'.
Proof. intros [Hd Hx Hh _ _] []. split; congruence. Qed.
Lemma tx_at_quiet d d' now h w w' : quiet w w' → tx_at d d' now h w → tx_at d d' now h w'.
Proof.
  intros [Hd Hx Hh _ _] [? (x & ? & ? & ? & ?) ?]. split; [congruence| |congruence].
  exists x. rewrite Hd. split_and!; congruence.
Qed.
Lemma tx_at_committed d d' now h w : tx_at d d' now h w → committed d h w.
Proof. intros []. done. Qed.
Lemma no_tx_committed d h w : no_tx d h w → committed d h w.
Proof. intros []. done. Qed.
Lemma committed_rollback d h w : committed d h w → no_tx d h (with_tx None w).
Proof. intros []. done. Qed.

Section effects.
Context `{Env, !Alone, JsonText}.

Lemma wp_Begin d h w (Qe : error → World → Prop) (Qo : unit → World → Prop) :
  no_tx d h w → (∀ e w1, no_tx d h w1 → Qe e w1) →
  (∀ now w1, tx_at d d now h w1 → Qo tt w1) → wp Begin w Qe Qo.
Proof.
  intros [Hd Hx Hh] He Ho. unfold wp, Begin. rewrite catch_up_alone. destruct (env_fault _).
  - apply (Ho (env_now (w_tick w))). split; simpl; [done| |done].
    eexists. split_and!; [done..|]. by rewrite <-Hd.
  - apply He. by split.
  - apply He. by split.
Qed.

Lemma wp_inTx {A} (q : Query A) d d' now h w (Qe : error → World → Prop) Qo :
  tx_at d d' now h w → (∀ e w1, committed d h w1 → Qe e w1) →
  (∀ a d'' id w1, q now id d' = inr (a, d'') → tx_at d d'' now h w1 → Qo a w1) →
  wp (inTx q) w Qe Qo.
Proof.
  intros [Hd Hx Hh] He Ho. unfold wp, inTx. rewrite catch_up_alone.
  destruct Hx as (x & Hx & Ha & Hn & Hr). rewrite Hx, Ha. simpl.
  destruct (env_fault _); [|apply He; by split..]. rewrite Hr, Hn.
  destruct (q _ _ _) as [e|[a d'']] eqn:Hq.
  - case_decide; apply He; by split.
  - eapply Ho; [exact Hq|]. split; [done| |done]. rewrite <-Hn.
    by eapply (viewing_after q); [..|rewrite Hn].
Qed.

Lemma wp_Commit d d' now h w (Qe : error → World → Prop) (Qo : unit → World → Prop) :
  tx_at d d' now h w → (∀ e w1, no_tx d h w1 → Qe e w1) → (∀ e w1, no_tx d' h w1 → Qe e w1) →
  (∀ w1, no_tx d' h w1 → Qo tt w1) → wp Commit w Qe Qo.
Proof.
  intros [Hd Hx Hh] He He' Ho. unfold wp, Commit. rewrite catch_up_alone.
  destruct Hx as (x & Hx & Ha & Hn & Hr). rewrite Hx, Ha, Hr.
  destruct (env_fault _); [apply Ho|apply He|apply He']; by split.
Qed.

Lemma wp_pool {A} (q : Query A) d h w (Qe : error → World → Prop) Qo :
  no_tx d h w → (∀ e w1, no_tx d h w1 → Qe e w1) →
  (∀ e a d' w1, q (env_now (w_tick w)) (env_uuid (w_tick w)) d = inr (a, d') →
     no_tx d' h w1 → Qe e w1) →
  (∀ a d' w1, q (env_now (w_tick w)) (env_uuid (w_tick w)) d = inr (a, d') →
     no_tx d' h w1 → Qo a w1) →
  wp (pool q) w Qe Qo.
Proof.
  intros [Hd Hx Hh] He Hl Ho. unfold wp, pool. rewrite catch_up_alone, Hd.
  destruct (q _ _ d) as [e'|[a d']] eqn:Hq; destruct (env_fault _);
    first [eapply Hl; [done|by split] | eapply Ho; [done|by split] | eapply He; by split].
Qed.

Lemma wp_read {E A} (m : M World E A) d h w (Qe : E → World → Prop) Qo :
  reading m → no_tx d h w → (∀ e w1, no_tx d h w1 → Qe e w1) →
  (∀ a w1, no_tx d h w1 → Qo a w1) → wp m w Qe Qo.
Proof.
  intros Hm Hw He Ho. apply (wp_preserves quiet); [done|..]; intros x w1 Hq;
    [apply He|apply Ho]; by eapply no_tx_quiet.
Qed.
Lemma wp_read_tx {E A} (m : M World E A) d d' now h w (Qe : E → World → Prop) Qo :
  reading m → tx_at d d' now h w → (∀ e w1, committed d h w1 → Qe e w1) →
  (∀ a w1, tx_at d d' now h w1 → Qo a w1) → wp m w Qe Qo.
Proof.
  intros Hm Hw He Ho. apply (wp_preserves quiet); [done|..]; intros x w1 Hq;
    [apply He; eapply tx_at_committed|apply Ho]; by eapply tx_at_quiet.
Qed.

(** Outside a transaction, an effect that satisfies [R]. *)
Lemma wp_effect {E A} R `{!PreOrder R} (m : M World E A) d h w (Qe : E → World → Prop) Qo :
  preserves (effect R) m → no_tx d h w →
  (∀ e w1, R d (w_db w1) → w_tx w1 = None → Qe e w1) →
  (∀ a w1, R d (w_db w1) → w_tx w1 = None → Qo a w1) → wp m w Qe Qo.
Proof.
  intros Hm [Hd Hx Hh] He Ho. apply (wp_preserves (effect R)); [done|..]; intros x w1 Hr.
  - apply He; [rewrite <-Hd; by eapply effect_alone; [apply _|..]|by apply Hr].
  - apply Ho; [rewrite <-Hd; by eapply effect_alone; [apply _|..]|by apply Hr].
Qed.
End effects.

(** The same, for a computation whose errors satisfy [P]. *)
Lemma wp_effect_fails `{Env, !Alone, JsonText} {E A} R `{!PreOrder R} (P : E → Prop) (m : M World E A) d h w
    (Qe : E → World → Prop) Qo :
  preserves (effect R) m → fails_with P m → no_tx d h w →
  (∀ e w1, P e → R d (w_db w1) → w_tx w1 = None → Qe e w1) →
  (∀ a w1, R d (w_db w1) → w_tx w1 = None → Qo a w1) → wp m w Qe Qo.
Proof.
  intros Hm Hf Hw He Ho.
  assert (wp m w (λ _ w1, R d (w_db w1) ∧ w_tx w1 = None) (λ _ w1, R d (w_db w1) ∧ w_tx w1 = None))
    as Hr by (eapply (wp_effect R); eauto).
  unfold wp in *. destruct (m w) as [[e|a] w1] eqn:E1; destruct Hr as [? ?]; [|auto].
  apply Hf in E1. auto.
Qed.

(** What a served request leaves. *)
Lemma wp_serve (h : Handler) w (Qe Qo : Response → World → Prop) resp w' :
  wp h w Qe Qo → serve h w = (resp, w') → Qe resp w' ∨ Qo resp w'.
Proof. unfold wp, serve. destruct (h w) as [[r|r] w1]; intros ? [= <- <-]; auto. Qed.

(** One step along the program text. *)
Ltac wp_step :=
  lazymatch goal with
  | |- wp (bind _ _) _ _ _ => apply wp_bind
  | |- wp (onerr _ _) _ _ _ => apply wp_onerr
  | |- wp (attempt _) _ _ _ => apply wp_attempt
  | |- wp (ignore _) _ _ _ => apply wp_ignore
  | |- wp (ret _) _ _ _ => apply wp_ret
  | |- wp (throw _) _ _ _ => apply wp_throw
  | |- wp (answerAll _ _) _ _ _ => apply wp_answerAll
  | |- wp (answer _ _ _) _ _ _ => apply wp_answer
  | |- wp (require _ _) _ _ _ => apply wp_require; intros ?
  | |- wp (orFail _ _) _ _ _ => apply wp_orFail; [intros ?|intros ? ?]
  | |- wp (orInvalid _ _) _ _ _ => apply wp_orInvalid; intros ? ?
  | |- wp (deferRollback _) _ _ _ => apply wp_deferRollback
  | |- wp Begin _ _ _ => eapply wp_Begin; [eassumption|intros ? ? ?|intros ? ? ?]
  | |- wp (inTx _) _ _ _ => eapply wp_inTx; [eassumption|intros ? ? ?|intros ? ? ? ? ? ?]
  | |- wp Commit _ _ _ => eapply wp_Commit; [eassumption|intros ? ? ?|intros ? ? ?|intros ? ?]
  | |- wp (match ?x with _ => _ end) _ _ _ => destruct x eqn:?
  end.
(** A computation that only reads, inside or outside a transaction. *)
Ltac wp_reading :=
  first [ eapply wp_read_tx; [solve [eauto 2 with preserve nocore] | eassumption
                             | intros ? ? ? | intros ? ? ?]
        | eapply wp_read; [solve [eauto 2 with preserve nocore] | eassumption
                          | intros ? ? ? | intros ? ? ?] ].
Ltac wp_run := repeat (first [wp_step | wp_reading]; cbv beta zeta).

(** Rewrites the database of the goal's states with what is known of them. *)
Ltac known_db :=
  change (w_db (with_tx None ?x)) with (w_db x);
  repeat match goal with
  | H : no_tx _ _ ?w |- context [w_db ?w] => rewrite (no_tx_db _ _ _ H)
  | H : committed _ _ ?w |- context [w_db ?w] => rewrite (committed_db _ _ _ H)
  | H : tx_at _ _ _ _ ?w |- context [w_db ?w] => rewrite (tx_committed _ _ _ _ _ H)
  end.
