(* ===== verification/Conn.v ===== *)
(** The goroutines of one daemon connection on the control plane
    ([writeDaemon], [flushDaemon] and the read loop of [handleDaemon] in
    [internal/controlplane/daemon_ws.go]) as a step relation.  The queue [send]
    is filled by [hub.push] and [hub.disconnect] ([hub.go]) at any time, the
    context is cancelled by [disconnect], by a failed write or by the end of
    the read loop; [select] takes any of the cases that are ready, and the
    websocket library decides which writes and reads fail. *)
From S2P Require Import Prelude Text Base64 Json Protocol Schema World Http Link Demo.

(** Where [writeDaemon] is: in its loop, in [flushDaemon], or returned. *)
Inductive conn_writer := InLoop | InFlush | WriterStopped.
#[export] Instance conn_writer_eq_dec : EqDecision conn_writer.
Proof. solve_decision. Defined.

Record Conn := {
  cn_send : list Envelope;   (* the channel, of capacity [chan_cap] *)
  cn_done : bool;            (* the context is cancelled *)
  cn_writer : conn_writer;
  cn_reading : bool          (* [readDaemon] has not returned *) }.

(** As [handleDaemon] starts [writeDaemon]: what it queued before is there. *)
Definition newConn (queued : list Envelope) : Conn :=
  {| cn_send := queued; cn_done := false; cn_writer := InLoop; cn_reading := true |}.

Inductive conn_event :=
  | Queued (env : Envelope)      (* put on [send] *)
  | Refused (env : Envelope)     (* [default]: the channel is full *)
  | Written (env : Envelope)
  | Lost (env : Envelope)        (* taken from [send], then the write failed *)
  | Pinged                       (* a ping, which is not queued *)
  | PingFailed
  | Got (env : Envelope)         (* read from the daemon *)
  | Quiet.

Inductive conn_step (c : Conn) : conn_event → Conn → Prop :=
  (* [select { case c.send <- env: default: }] *)
  | conn_push env :
      (length (cn_send c) < chan_cap)%nat →
      conn_step c (Queued env) {| cn_send := cn_send c ++ [env]; cn_done := cn_done c;
                                  cn_writer := cn_writer c; cn_reading := cn_reading c |}
  | conn_full env :
      ¬ (length (cn_send c) < chan_cap)%nat → conn_step c (Refused env) c
  (* [cancel()] *)
  | conn_cancel :
      conn_step c Quiet {| cn_send := cn_send c; cn_done := true; cn_writer := cn_writer c;
                           cn_reading := cn_reading c |}
  (* [writeDaemon] *)
  | conn_done :
      cn_writer c = InLoop → cn_done c = true →
      conn_step c Quiet {| cn_send := cn_send c; cn_done := true; cn_writer := InFlush;
                           cn_reading := cn_reading c |}
  | conn_tick : cn_writer c = InLoop → conn_step c Pinged c
  | conn_tick_failed :
      cn_writer c = InLoop →
      conn_step c PingFailed {| cn_send := cn_send c; cn_done := true; cn_writer := WriterStopped;
                                cn_reading := cn_reading c |}
  | conn_write env rest :
      cn_writer c = InLoop → cn_send c = env :: rest →
      conn_step c (Written env) {| cn_send := rest; cn_done := cn_done c; cn_writer := InLoop;
                                   cn_reading := cn_reading c |}
  | conn_write_failed env rest :
      cn_writer c = InLoop → cn_send c = env :: rest →
      conn_step c (Lost env) {| cn_send := rest; cn_done := true; cn_writer := WriterStopped;
                                cn_reading := cn_reading c |}
  (* [flushDaemon] *)
  | conn_flush env rest :
      cn_writer c = InFlush → cn_send c = env :: rest →
      conn_step c (Written env) {| cn_send := rest; cn_done := cn_done c; cn_writer := InFlush;
                                   cn_reading := cn_reading c |}
  | conn_flush_failed env rest :
      cn_writer c = InFlush → cn_send c = env :: rest →
      conn_step c (Lost env) {| cn_send := rest; cn_done := cn_done c; cn_writer := WriterStopped;
                                cn_reading := cn_reading c |}
  | conn_flushed :
      cn_writer c = InFlush → cn_send c = [] →
      conn_step c Quiet {| cn_send := []; cn_done := cn_done c; cn_writer := WriterStopped;
                           cn_reading := cn_reading c |}
  (* [readDaemon]; when it returns, [handleDaemon] cancels *)
  | conn_read env : cn_reading c = true → conn_step c (Got env) c
  | conn_read_failed :
      cn_reading c = true →
      conn_step c Quiet {| cn_send := cn_send c; cn_done := true; cn_writer := cn_writer c;
                           cn_reading := false |}.

Inductive conn_run (c : Conn) : list conn_event → Conn → Prop :=
  | conn_nil : conn_run c [] c
  | conn_snoc t c1 ev c2 : conn_run c t c1 → conn_step c1 ev c2 → conn_run c (t ++ [ev]) c2.

Definition queued_of (ev : conn_event) : list Envelope :=
  match ev with Queued env => [env] | _ => [] end.
Definition written_of (ev : conn_event) : list Envelope :=
  match ev with Written env => [env] | _ => [] end.
Definition lost_of (ev : conn_event) : list Envelope :=
  match ev with Lost env => [env] | _ => [] end.

(** What was queued is what was written, then at most one lost envelope, then
    what is still queued; once one is lost the writer has stopped. *)
Record conn_inv (q : list Envelope) (t : list conn_event) (c : Conn) : Prop := {
  ci_order : q ++ (t ≫= queued_of) = (t ≫= written_of) ++ (t ≫= lost_of) ++ cn_send c;
  ci_lost : (t ≫= lost_of) ≠ [] → cn_writer c = WriterStopped;
  ci_once : (length (t ≫= lost_of) ≤ 1)%nat;
  ci_room : (length (cn_send c) ≤ chan_cap)%nat;
  ci_flush : cn_writer c = InFlush → cn_done c = true }.

Lemma conn_inv_step q t c ev c' :
  conn_step c ev c' → conn_inv q t c → conn_inv q (t ++ [ev]) c'.
Proof.
  intros Hs [Ho Hl Hn Hr Hf].
  assert (cn_writer c ≠ WriterStopped → t ≫= lost_of = []) as Hnone.
  { intros Hw. destruct (t ≫= lost_of); [done|]. by destruct Hw; apply Hl. }
  destruct Hs as [env Hroom|env _| |Hw Hd|Hw|Hw|env rest Hw Hq|env rest Hw Hq|env rest Hw Hq
    |env rest Hw Hq|Hw Hq|env _|_];
    split; rewrite ?bind_app, ?bind_singleton; simpl; rewrite ?app_nil_r; auto;
    try (rewrite (Hnone ltac:(congruence)) in *; simpl in *; try lia);
    try (rewrite Hq in *; simpl in *; try lia).
  all: try (by rewrite (assoc (++)), Ho, <-!(assoc (++))); try (by rewrite Ho, <-!(assoc (++))).
  all: try (rewrite ?length_app; simpl; lia); try congruence; try done.
Qed.

Lemma conn_inv_run q t c :
  (length q ≤ chan_cap)%nat → conn_run (newConn q) t c → conn_inv q t c.
Proof.
  intros Hq Hr. induction Hr as [|t c1 ev c2 _ IH Hs]; [|by eapply conn_inv_step].
  split; simpl; try done; [by rewrite app_nil_r|lia].
Qed.

(** No write of the connection failed. *)
Definition healthy (t : list conn_event) : Prop := t ≫= lost_of = [] ∧ (PingFailed ∉ t).

(** A writer that returned on a healthy connection had emptied the queue. *)
Lemma healthy_flush q t c :
  (length q ≤ chan_cap)%nat → conn_run (newConn q) t c → healthy t → cn_writer c = WriterStopped →
  ∃ t1 t2 c1, t = t1 ++ t2 ∧ conn_run (newConn q) t1 c1 ∧ cn_done c1 = true ∧ cn_send c1 = [] ∧
    t ≫= written_of = t1 ≫= written_of.
Proof.
  intros Hq Hr. induction Hr as [|t c1 ev c2 Hr IH Hs]; [by intros|].
  intros [Hl Hp] Hw. rewrite bind_app, bind_singleton in Hl. apply app_eq_nil in Hl as [Hl Hev].
  assert ((PingFailed ∉ t) ∧ ev ≠ PingFailed) as [Hpt Hpe].
  { split; [intros Hin; apply Hp, elem_of_app; by left|].
    intros ->. apply Hp, elem_of_app. right. by apply list_elem_of_singleton. }
  destruct (decide (cn_writer c1 = WriterStopped)) as [Hw1|Hw1].
  - destruct IH as (t1 & t2 & cx & -> & Hr1 & Hd & He & Ht); [done..|].
    exists t1, (t2 ++ [ev]), cx. rewrite (assoc (++)). split_and!; try done.
    rewrite bind_app, bind_singleton, Ht. destruct Hs; simpl in *; try congruence; by rewrite app_nil_r.
  - exists t, [ev], c1. pose proof (ci_flush _ _ _ (conn_inv_run _ _ _ Hq Hr)) as Hf.
    destruct Hs as [| | |Hi _|Hi|Hi|? ? Hi|? ? Hi|? ? Hi|? ? Hi|Hi He| |]; simpl in *; try congruence.
    split_and!; auto. by rewrite bind_app, bind_singleton, app_nil_r.
Qed.

(** ** Refinement *)

(** The queue of the connection is its channel in the hub. *)
Definition backs (k : nat) (h : Hub) (c : Conn) : Prop := chans h !! k = Some (cn_send c).

(** What a step of the connection does to the hub: a push is [try_send], a write
    takes the oldest envelope ([dequeue]), nothing else touches the queue. *)
Lemma conn_step_hub k h c ev c' :
  backs k h c → conn_step c ev c' →
  match ev with
  | Queued env | Refused env => backs k (try_send k env h) c'
  | Written env | Lost env => ∃ h', dequeue k h = Some (env, h') ∧ backs k h' c'
  | _ => backs k h c'
  end.
Proof.
  unfold backs. intros Hb Hs. destruct Hs as [env Hr|env Hr| | | | |env rest _ Hq|env rest _ Hq|env rest _ Hq
    |env rest _ Hq|_ Hq|env _|_]; simpl; try done.
  - unfold try_send. rewrite Hb, decide_True by done. apply lookup_insert_eq.
  - unfold try_send. by rewrite Hb, decide_False.
  - rewrite Hq in Hb. unfold dequeue. rewrite Hb. eexists. split; [done|apply lookup_insert_eq].
  - rewrite Hq in Hb. unfold dequeue. rewrite Hb. eexists. split; [done|apply lookup_insert_eq].
  - rewrite Hq in Hb. unfold dequeue. rewrite Hb. eexists. split; [done|apply lookup_insert_eq].
  - rewrite Hq in Hb. unfold dequeue. rewrite Hb. eexists. split; [done|apply lookup_insert_eq].
  - by rewrite Hb, Hq.
Qed.

(** The hub along the events of a connection. *)
Definition hub_event (k : nat) (h : Hub) (ev : conn_event) : Hub :=
  match ev with
  | Queued env | Refused env => try_send k env h
  | Written _ | Lost _ => match dequeue k h with Some (_, h') => h' | None => h end
  | _ => h
  end.

(** C28: what the daemon is sent is what was queued for it, in order and once:
    over every interleaving of pushes, pings, cancellation, failing reads and
    writes, the envelopes written on a connection are a prefix of those
    queued, at most the next one is lost, and the queue is the connection's
    channel in the hub, within its capacity.  If no write fails, a writer that
    has returned had written everything queued by some moment after the
    cancellation, a final purge included. *)
Theorem connections_deliver_in_order k h q t c :
  chans h !! k = Some q → (length q ≤ chan_cap)%nat → conn_run (newConn q) t c →
  (t ≫= written_of) `prefix_of` q ++ (t ≫= queued_of) ∧
  (length (q ++ (t ≫= queued_of)) ≤ length (t ≫= written_of) + 1 + length (cn_send c))%nat ∧
  (length (cn_send c) ≤ chan_cap)%nat ∧ chans (foldl (hub_event k) h t) !! k = Some (cn_send c) ∧
  (healthy t → cn_writer c = WriterStopped →
     ∃ t1 t2 c1, t = t1 ++ t2 ∧ conn_run (newConn q) t1 c1 ∧ cn_done c1 = true ∧
       t ≫= written_of = q ++ (t1 ≫= queued_of)).
Proof.
  intros Hk Hq Hr. pose proof (conn_inv_run q t c Hq Hr) as [Ho _ Hn Hroom _]. split_and!; try done.
  - rewrite Ho. by apply prefix_app_r.
  - rewrite Ho, !length_app. lia.
  - clear -Hk Hr. induction Hr as [|t c1 ev c2 _ IH Hs]; [done|]. rewrite foldl_app. simpl.
    pose proof (conn_step_hub k _ c1 ev c2 IH Hs) as Hb. destruct ev; try done; simpl.
    + by destruct Hb as (h' & -> & Hb).
    + by destruct Hb as (h' & -> & Hb).
  - intros Hh Hw. destruct (healthy_flush q t c Hq Hr Hh Hw) as (t1 & t2 & c1 & -> & Hr1 & Hd & He & Ht).
    exists t1, t2, c1. split_and!; try done. rewrite Ht.
    destruct (conn_inv_run q t1 c1 Hq Hr1) as [Ho1 _ _ _ _]. rewrite Ho1, He.
    assert (t1 ≫= lost_of = []) as ->; [|by rewrite !app_nil_r].
    destruct Hh as [Hl _]. rewrite bind_app in Hl. by apply app_eq_nil in Hl as [? _].
Qed.

(** [disconnect] queues the purge and cancels.  If [select] then takes the
    envelope before it looks at the context, the write is made with the
    cancelled context; when it fails the writer returns without flushing and
    the purge is lost, on a connection that is otherwise sound. *)
Theorem disconnect_can_lose_the_purge purge :
  ∃ c, conn_run (newConn []) [Queued purge; Quiet; Lost purge] c ∧ cn_writer c = WriterStopped ∧
    cn_send c = [].
Proof.
  eexists. split.
  - eapply (conn_snoc _ [_; _]); [eapply (conn_snoc _ [_]); [eapply (conn_snoc _ []); [constructor|]|]|].
    + apply conn_push. simpl. unfold chan_cap. lia.
    + apply conn_cancel.
    + by apply conn_write_failed with (env:=purge) (rest:=[]).
  - done.
Qed.

(** ** Witness *)

(** A revoked host's connection, up to the end of the flush. *)
Definition purge_flushed (purge : Envelope) : list conn_event :=
  [Queued purge; Quiet; Quiet; Written purge; Quiet].
Definition conn_over : Conn :=
  {| cn_send := []; cn_done := true; cn_writer := WriterStopped; cn_reading := true |}.

Lemma purge_flushed_run purge : conn_run (newConn []) (purge_flushed purge) conn_over.
Proof.
  eapply (conn_snoc _ [_; _; _; _]); [eapply (conn_snoc _ [_; _; _]);
    [eapply (conn_snoc _ [_; _]); [eapply (conn_snoc _ [_]); [eapply (conn_snoc _ []); [constructor|]|]|]|]|].
  - apply conn_push. simpl. unfold chan_cap. lia.
  - apply conn_cancel.
  - by apply conn_done.
  - by apply conn_flush with (env:=purge) (rest:=[]).
  - by apply conn_flushed.
Qed.

Lemma connections_deliver_in_order_witness :
  let purge := NewEnvelope TypeSnapshot None in
  chans (foldl (hub_event 0) (make_chan newHub).2 (purge_flushed purge)) !! 0%nat = Some [] ∧
  ∃ t1 t2 c1, purge_flushed purge = t1 ++ t2 ∧ cn_done c1 = true ∧
    purge_flushed purge ≫= written_of = t1 ≫= queued_of.
Proof.
  intros purge.
  destruct (connections_deliver_in_order 0 (make_chan newHub).2 [] (purge_flushed purge) conn_over)
    as (_ & _ & _ & Hh & Hf).
  - reflexivity.
  - simpl. lia.
  - apply purge_flushed_run.
  - split; [exact Hh|]. destruct Hf as (t1 & t2 & c1 & Ht & _ & Hd & Hw).
    + split; [reflexivity|]. unfold purge_flushed. rewrite !not_elem_of_cons.
      split_and!; try discriminate. apply not_elem_of_nil.
    + reflexivity.
    + exists t1, t2, c1. split; [exact Ht|]. split; [exact Hd|exact Hw].
Defined.
