(* ===== verification/RateLimit.v ===== *)
(** The per-IP rate limit of the public routes:
    [internal/controlplane/ratelimit.go] and its use in [server.go].

    [golang.org/x/time/rate] is a parameter ([RateLib]).  What the code relies
    on is that a bucket left alone long enough is full again ([refills]); the
    theorem is that evicting idle visitors is then unobservable: the decisions
    are those of one limiter per address that lives forever. *)
From Stdlib Require Import Ascii.
From S2P Require Import Prelude Text Base64 Json Protocol Crypto Schema World Http Perms Router Demo Scenario.

(** ** The library *)

Class RateLib := {
  Limit : Type;
  Every : Z → Limit;                      (* rate.Every *)
  Limiter : Type;
  NewLimiter : Limit → Z → Limiter;       (* rate.NewLimiter *)
  Allow : Z → Limiter → bool * Limiter }. (* Limiter.Allow, at a time *)

(** ** net.SplitHostPort *)

Fixpoint last_index (c : ascii) (l : list ascii) : option nat :=
  match l with
  | [] => None
  | x :: l' =>
      match last_index c l' with
      | Some i => Some (S i)
      | None => if Ascii.eqb x c then Some 0%nat else None
      end
  end.
Definition first_index (c : ascii) (l : list ascii) : option nat := fst <$> list_find (c =.) l.

(** The host of [host:port] or [[host]:port]; [None] is an error. *)
Definition SplitHost (hostport : string) : option string :=
  let l := explode hostport in
  i ← last_index ":" l;
  match l with
  | "["%char :: _ =>
      e ← first_index "]" l;
      if decide (S e = i) then
        if decide ("["%char ∈ drop 1 l ∨ "]"%char ∈ drop (S e) l) then None
        else Some (implode (take (e - 1) (drop 1 l)))
      else None
  | _ =>
      let host := take i l in
      if decide (":"%char ∈ host ∨ "["%char ∈ l ∨ "]"%char ∈ l) then None else Some (implode host)
  end.

(** ** ratelimit.go *)

Definition rlCleanupEvery : Z := 5 * minute.
Definition rlStaleAfter : Z := 10 * minute.

(** A request with what the limiter looks at: its headers and peer address. *)
Record Visit := { v_request : Request; v_header : string → string; v_remote : string }.

Definition clientIP (r : Visit) : string :=
  let cf := v_header r "CF-Connecting-IP" in
  if decide (cf ≠ "") then cf else
  let xr := v_header r "X-Real-IP" in
  if decide (xr ≠ "") then xr else
  let xff := v_header r "X-Forwarded-For" in
  if decide (xff ≠ "") then
    match Cut "," xff with
    | Some (first, _) => TrimSpace first
    | None => TrimSpace xff
    end
  else
  match SplitHost (v_remote r) with
  | Some host => host
  | None => v_remote r
  end.

(** The clock readings of one request, in the order the code takes them. *)
Record readings := {
  at_check : Z;               (* time.Since(rl.lastCleanup) *)
  at_evict : string → Z;      (* time.Since(v.lastSeen), for each visitor *)
  at_cleanup : Z;             (* rl.lastCleanup = time.Now() *)
  at_seen : Z;                (* v.lastSeen = time.Now() *)
  at_allow : Z }.             (* in Allow *)
Record readings_wf (t : readings) : Prop := {
  check_evict k : at_check t ≤ at_evict t k;
  evict_cleanup k : at_evict t k ≤ at_cleanup t;
  cleanup_seen : at_cleanup t ≤ at_seen t;
  seen_allow : at_seen t ≤ at_allow t }.

Section rate.
Context `{RateLib}.

Record visitor := { limiter : Limiter; lastSeen : Z }.
Record rateLimiter := {
  visitors : gmap string visitor; rl_rate : Limit; rl_burst : Z; lastCleanup : Z }.

Definition newRateLimiter (r : Limit) (burst now : Z) : rateLimiter :=
  {| visitors := ∅; rl_rate := r; rl_burst := burst; lastCleanup := now |}.

Definition set_visitors (m : gmap string visitor) (rl : rateLimiter) : rateLimiter :=
  {| visitors := m; rl_rate := rl_rate rl; rl_burst := rl_burst rl; lastCleanup := lastCleanup rl |}.

(** The eviction at the head of [limiterFor]. *)
Definition cleanup (t : readings) (rl : rateLimiter) : rateLimiter :=
  if decide (at_check t - lastCleanup rl > rlCleanupEvery) then
    {| visitors := filter (λ '(k, v), ¬ (at_evict t k - lastSeen v > rlStaleAfter)) (visitors rl);
       rl_rate := rl_rate rl; rl_burst := rl_burst rl; lastCleanup := at_cleanup t |}
  else rl.

(** [limiterFor]: the address's limiter, made if there is none, and its
    visitor marked as seen. *)
Definition limiterFor (t : readings) (ip : string) (rl : rateLimiter) : Limiter * rateLimiter :=
  let rl := cleanup t rl in
  let l := match visitors rl !! ip with
           | Some v => limiter v
           | None => NewLimiter (rl_rate rl) (rl_burst rl)
           end in
  (l, set_visitors (<[ip := {| limiter := l; lastSeen := at_seen t |}]> (visitors rl)) rl).

(** [limiterFor(ip).Allow()]: the limiter is shared, so the visitor has its
    new state.  The lock is held for [limiterFor] only; here both calls are one
    step, so requests are decided one after the other. *)
Definition allow (t : readings) (ip : string) (rl : rateLimiter) : bool * rateLimiter :=
  let '(l, rl) := limiterFor t ip rl in
  let '(b, l') := Allow (at_allow t) l in
  (b, set_visitors (alter (λ v, {| limiter := l'; lastSeen := lastSeen v |}) ip (visitors rl)) rl).

Definition tooManyRequests : Response := httpError "too many requests" StatusTooManyRequests.

(** [middleware]: what the next handler does when the request is let through. *)
Definition middleware (next : Request → World → Response * World) (t : readings) (r : Visit)
    (x : World * rateLimiter) : Response * (World * rateLimiter) :=
  let '(w, rl) := x in
  let '(b, rl') := allow t (clientIP r) rl in
  if b then let '(resp, w') := next (v_request r) w in (resp, (w', rl'))
  else (tooManyRequests, (w, rl')).

(** ** server.go: [newRateLimiter(rate.Every(6*time.Second), 10)] *)
Definition authRL (now : Z) : rateLimiter := newRateLimiter (Every (6 * second)) 10 now.

(** ** The specification: one limiter per address *)

(** A bucket that was last asked at [t]. *)
Inductive used (r : Limit) (burst : Z) : Limiter → Z → Prop :=
  | used_new t b l : Allow t (NewLimiter r burst) = (b, l) → used r burst l t
  | used_again l t t' b l' :
      used r burst l t → t ≤ t' → Allow t' l = (b, l') → used r burst l' t'.

(** Documented behaviour of a token bucket: [T] after its last use it answers
    as a new one does. *)
Definition refills (r : Limit) (burst T : Z) : Prop :=
  ∀ l t now, used r burst l t → T ≤ now - t → Allow now l = Allow now (NewLimiter r burst).

(** Each address has a bucket of its own, made at its first request. *)
Definition independent (r : Limit) (burst now : Z) (ip : string) (m : gmap string Limiter) :
    bool * gmap string Limiter :=
  let '(b, l) := Allow now (default (NewLimiter r burst) (m !! ip)) in (b, <[ip := l]> m).

Fixpoint decisions (visits : list (readings * string)) (rl : rateLimiter) : list bool :=
  match visits with
  | [] => []
  | (t, ip) :: visits' => let '(b, rl') := allow t ip rl in b :: decisions visits' rl'
  end.
Fixpoint ideal_decisions (r : Limit) (burst : Z) (visits : list (readings * string))
    (m : gmap string Limiter) : list bool :=
  match visits with
  | [] => []
  | (t, ip) :: visits' =>
      let '(b, m') := independent r burst (at_allow t) ip m in b :: ideal_decisions r burst visits' m'
  end.

(** A timeline: the readings go forward, and no request waits longer than
    [slack] between being seen and asking its bucket. *)
Fixpoint timeline (slack now : Z) (visits : list (readings * string)) : Prop :=
  match visits with
  | [] => True
  | (t, _) :: visits' =>
      now ≤ at_check t ∧ readings_wf t ∧ at_allow t ≤ at_seen t + slack ∧
      timeline slack (at_allow t) visits'
  end.

(** ** The simulation *)

Section simulation.
Context (r : Limit) (burst T : Z) (Hrefill : refills r burst T).
Let slack := rlStaleAfter - T.

(** At [now], the visitors kept have the bucket of the specification; a
    bucket that was evicted has been idle for [T]. *)
Record simulates (now : Z) (rl : rateLimiter) (m : gmap string Limiter) : Prop := {
  sim_rate : rl_rate rl = r;
  sim_burst : rl_burst rl = burst;
  sim_kept ip v : visitors rl !! ip = Some v →
    m !! ip = Some (limiter v) ∧
    ∃ t, used r burst (limiter v) t ∧ t ≤ now ∧ t ≤ lastSeen v + slack;
  sim_evicted ip l : visitors rl !! ip = None → m !! ip = Some l →
    ∃ t, used r burst l t ∧ T ≤ now - t }.

Lemma sim_later now now' rl m : now ≤ now' → simulates now rl m → simulates now' rl m.
Proof.
  intros Hle [Hr Hb Hk He]. split; [done..| |].
  - intros ip v (Hm & t & Hu & Ht & Hs)%Hk. split; [done|]. exists t. split_and!; [done|lia|done].
  - intros ip l Hn Hm. destruct (He ip l Hn Hm) as (t & Hu & Ht). exists t. split; [done|lia].
Qed.

(** Evicting a visitor loses a full bucket only. *)
Lemma sim_cleanup t rl m :
  readings_wf t → simulates (at_check t) rl m → simulates (at_cleanup t) (cleanup t rl) m.
Proof.
  intros Ht Hsim. pose proof (evict_cleanup _ Ht "") as H1. pose proof (check_evict _ Ht "") as H2.
  unfold cleanup. case_decide; [|eapply sim_later; [|done]; lia].
  destruct Hsim as [Hr Hb Hk He]. split; [done..| |]; simpl.
  - intros ip v [Hv _]%map_lookup_filter_Some. apply Hk in Hv as (Hm & t0 & Hu & Ht0 & Hs).
    split; [done|]. exists t0. split_and!; [done|lia|done].
  - intros ip l Hn Hm. destruct (visitors rl !! ip) as [v|] eqn:Hv.
    + destruct (Hk ip v Hv) as (Hm' & t0 & Hu & _ & Hs). assert (limiter v = l) as <- by congruence.
      exists t0. split; [done|]. pose proof (evict_cleanup _ Ht ip).
      apply map_lookup_filter_None in Hn as [Hn|Hn]; [congruence|]. specialize (Hn v Hv).
      simpl in Hn. assert (at_evict t ip - lastSeen v > rlStaleAfter) by (apply dec_stable; tauto).
      unfold slack in *. lia.
    + destruct (He ip l Hv Hm) as (t0 & Hu & Ht0). exists t0. split; [done|]. lia.
Qed.

(** One request: the same decision, and the states still correspond. *)
Lemma sim_allow t ip rl m now :
  readings_wf t → now ≤ at_check t → at_allow t ≤ at_seen t + slack → simulates now rl m →
  let '(b, rl') := allow t ip rl in
  let '(b', m') := independent r burst (at_allow t) ip m in
  b = b' ∧ simulates (at_allow t) rl' m'.
Proof using Hrefill.
  intros Ht Hnow Hslack Hsim.
  apply (sim_later _ (at_check t)) in Hsim; [|done]. apply (sim_cleanup t) in Hsim; [|done].
  pose proof (cleanup_seen _ Ht). pose proof (seen_allow _ Ht).
  unfold allow, limiterFor, independent. destruct Hsim as [Hr Hb Hk He].
  set (rl1 := cleanup t rl) in *. rewrite Hr, Hb.
  set (l := match visitors rl1 !! ip with Some v => limiter v | None => _ end).
  assert (Allow (at_allow t) l = Allow (at_allow t) (default (NewLimiter r burst) (m !! ip)) ∧
          ∀ b l', Allow (at_allow t) l = (b, l') → used r burst l' (at_allow t)) as [Hsame Hused].
  { subst l. destruct (visitors rl1 !! ip) as [v|] eqn:Hv.
    - destruct (Hk ip v Hv) as (-> & t0 & Hu & Ht0 & _). split; [done|]. intros b l' Ha.
      eapply used_again; [exact Hu|lia|done].
    - split; [|intros b l' Ha; by eapply used_new]. destruct (m !! ip) as [l0|] eqn:Hm; [|done].
      destruct (He ip l0 Hv Hm) as (t0 & Hu & Ht0). symmetry. eapply Hrefill; [done|]. lia. }
  rewrite <-Hsame. destruct (Allow (at_allow t) l) as [b l'] eqn:Ha. simpl. split; [done|].
  split; [done..| |]; simpl.
  - intros k v. rewrite alter_insert_eq. intros [[<- <-]|[Hne Hv]]%lookup_insert_Some.
    + rewrite lookup_insert_eq. split; [done|]. exists (at_allow t). simpl. split_and!; [eauto|lia|lia].
    + rewrite lookup_insert_ne by done. destruct (Hk k v Hv) as (Hm & t0 & Hu & Ht0 & Hs).
      split; [done|]. exists t0. split_and!; [done|lia|done].
  - intros k l0. rewrite alter_insert_eq. intros [Hv Hne]%lookup_insert_None.
    rewrite lookup_insert_ne by done. intros Hm. destruct (He k l0 Hv Hm) as (t0 & Hu & Ht0).
    exists t0. split; [done|]. lia.
Qed.

Lemma sim_decisions visits now rl m :
  timeline slack now visits → simulates now rl m →
  decisions visits rl = ideal_decisions r burst visits m.
Proof using Hrefill.
  revert now rl m. induction visits as [|[t ip] visits IH]; intros now rl m; [done|].
  intros (Hnow & Ht & Hs & Hrest) Hsim. simpl.
  pose proof (sim_allow t ip rl m now Ht Hnow Hs Hsim) as Hstep.
  destruct (allow t ip rl) as [b rl'], (independent r burst (at_allow t) ip m) as [b' m'].
  destruct Hstep as [-> Hsim']. f_equal. by eapply IH.
Qed.
End simulation.
End rate.

(** ** The server behind its limiter *)

Section server.
Context `{Platform, RateLib} (s : Server) (http_get : nat → string → error + (Z * bytes)).

(** The public routes go through the middleware; the routes of a session and
    the daemon links do not; a restart makes a new limiter. *)
Inductive limited_step : World * rateLimiter → World * rateLimiter → Prop :=
  | limited_public p t v x :
      limited_step x (middleware (λ r, serve (route s http_get (Public p) r)) t v x).2
  | limited_user u r w rl :
      limited_step (w, rl) ((serve (route s http_get (User_ u) r) w).2, rl)
  | limited_admin a r w rl :
      limited_step (w, rl) ((serve (route s http_get (Admin a) r) w).2, rl)
  | limited_link w w' rl : link_step s http_get w w' → limited_step (w, rl) (w', rl)
  | limited_restart now w w' rl :
      link_step s http_get w w' → limited_step (w, rl) (w', authRL now).
End server.

Section claims.
Context `{Platform, RateLib} (s : Server) (http_get : nat → string → error + (Z * bytes)).

(** C34: evicting idle visitors never changes a decision: if a bucket of ten
    requests refilled every six seconds is full again [T] after its last use,
    then on every timeline of requests, from any addresses in any order, each
    decided before the next is looked at, the limiter that drops visitors
    unseen for ten minutes allows and refuses exactly the requests that one bucket per address, never
    dropped, would; in particular no address spends another's budget. *)
Theorem evicting_visitors_is_unobservable T now visits :
  refills (Every (6 * second)) 10 T → timeline (rlStaleAfter - T) now visits →
  decisions visits (authRL now) = ideal_decisions (Every (6 * second)) 10 visits ∅.
Proof.
  intros Hr Ht. eapply sim_decisions; [done..|]. split; [done..| |]; simpl.
  - intros ip v. by rewrite lookup_empty.
  - intros ip l _. by rewrite lookup_empty.
Qed.

(** The limiter only ever holds requests back: a public request is
    answered by its route or refused with 429 leaving the database, the hub
    and everything else of the server untouched, so every run of the
    rate-limited server is a run of the server, with whatever invariants its
    runs have. *)
Theorem limited_runs_are_server_runs x y :
  rtc (limited_step s http_get) x y → cp_steps s http_get x.1 y.1.
Proof.
  assert (∀ x y, limited_step s http_get x y → cp_steps s http_get x.1 y.1) as Hone.
  { intros x' y' [p t v [w rl]|u r w rl|a r w rl|w w' rl Hs|now w w' rl Hs];
      [|by apply rtc_once; constructor..].
    unfold middleware. destruct (allow t (clientIP v) rl) as [[] rl']; simpl; [|reflexivity].
    pose proof (step_request s http_get (Public p) (v_request v) w) as Hs.
    destruct (serve _ w) as [resp w']. by apply rtc_once. }
  induction 1 as [|x1 x2 x3 H1 _ IH]; [reflexivity|]. etransitivity; eauto.
Qed.
End claims.

(** ** A token bucket *)

(** Credit in nanoseconds: a request costs [b_per]. *)
Record bucket := { b_per : Z; b_cap : Z; b_credit : Z; b_last : Z }.
Definition bucket_credit (now : Z) (b : bucket) : Z :=
  Z.min (b_cap b) (b_credit b + Z.max 0 (now - b_last b)).
#[export] Instance bucket_lib : RateLib | 100 := {|
  Limit := Z; Every d := d; Limiter := bucket;
  NewLimiter r burst := {| b_per := r; b_cap := burst * r; b_credit := burst * r; b_last := 0 |};
  Allow now b :=
    if decide (b_per b ≤ bucket_credit now b)
    then (true, {| b_per := b_per b; b_cap := b_cap b;
                   b_credit := bucket_credit now b - b_per b; b_last := now |})
    else (false, b) |}.

Lemma bucket_used b t :
  used (Every (6 * second)) 10 b t →
  b_per b = 6 * second ∧ b_cap b = 60 * second ∧ 0 ≤ b_credit b ≤ b_cap b ∧
  (b_last b ≤ t ∨ b_credit b = b_cap b).
Proof.
  induction 1 as [t ok b Ha|b t t' ok b' _ IH Ht Ha]; simpl in Ha; unfold bucket_credit in Ha;
    case_decide; simplify_eq/=; unfold second in *; lia.
Qed.

Lemma bucket_refills : refills (Every (6 * second)) 10 (60 * second).
Proof.
  intros b t now (Hp & Hc & Hcr & Hl)%bucket_used Hnow. simpl. unfold bucket_credit. simpl.
  rewrite Hp, Hc.
  assert (Z.min (60 * second) (b_credit b + Z.max 0 (now - b_last b)) = 60 * second) as ->
    by (unfold second in *; lia).
  assert (Z.min (10 * (6 * second)) (10 * (6 * second) + Z.max 0 (now - 0)) = 60 * second) as ->
    by (unfold second in *; lia).
  rewrite !decide_True by (unfold second; lia). by rewrite Z.mul_assoc.
Qed.

(** Two addresses, one of which comes back after it was evicted. *)
Definition instant (t : Z) : readings :=
  {| at_check := t; at_evict _ := t; at_cleanup := t; at_seen := t; at_allow := t |}.
Definition demo_visits : list (readings * string) :=
  [(instant 0, "10.0.0.1"); (instant 1, "10.0.0.2"); (instant (20 * minute), "10.0.0.2");
   (instant (20 * minute + 1), "10.0.0.1")].

Lemma evicting_visitors_is_unobservable_witness :
  decisions demo_visits (authRL 0) = [true; true; true; true].
Proof.
  rewrite (evicting_visitors_is_unobservable (60 * second) 0 demo_visits bucket_refills).
  - vm_compute. reflexivity.
  - unfold timeline, demo_visits, rlStaleAfter, minute, second.
    repeat split; simpl; intros; lia.
Defined.

(** A login attempt on the scenario. *)
Definition demo_visit : Visit :=
  {| v_request := demo_request "" [] JNull; v_header _ := ""; v_remote := "10.0.0.1:4000" |}.

Lemma limited_runs_are_server_runs_witness :
  cp_steps demo_server demo_get demo_world
    (middleware (λ r, serve (route demo_server demo_get (Public PostLogin) r)) (instant 0) demo_visit
       (demo_world, authRL 0)).2.1.
Proof.
  apply (limited_runs_are_server_runs demo_server demo_get (demo_world, authRL 0)).
  apply rtc_once, limited_public.
Defined.
