(* ===== verification/Settings.v ===== *)
(** How the control plane is configured: [internal/controlplane/config.go],
    the keys made by [cmd/api/genkeys.go], the mail provider chosen by
    [internal/email] and the CORS options of [server.go].  The theorems show
    that a configuration that loads is one the server can run on, and that the
    keys [gen-keys] prints load. *)
From Stdlib Require Import Ascii.
From stdpp Require Import pretty.
From S2P Require Import Prelude Text Base64 Json Protocol Crypto Schema World Http Demo.

(** ** config.go *)

Definition envDatabaseURL := "CUSTOS_DATABASE_URL".
Definition envListenAddr := "CUSTOS_LISTEN_ADDR".
Definition envMasterKey := "CUSTOS_MASTER_KEY".
Definition envSigningKey := "CUSTOS_SIGNING_PRIVATE_KEY".
Definition envClientKey := "CUSTOS_CLIENT_PRIVATE_KEY".
Definition envEncryption := "CUSTOS_ENCRYPTION".
Definition envEmailFrom := "CUSTOS_EMAIL_FROM".
Definition envAppURL := "CUSTOS_APP_URL".
Definition envCorsOrigins := "CUSTOS_CORS_ORIGINS".
Definition envResendKey := "RESEND_API_KEY".
Definition defaultListenAddr := ":8080".
Definition keySize : nat := 32.

(** [strings.Join] *)
Fixpoint Join (l : list string) (sep : string) : string :=
  match l with
  | [] => ""
  | [s] => s
  | s :: l' => s +:+ sep +:+ Join l' sep
  end.

Section config.
(** [os.Getenv]: an unset variable is empty. *)
Context (getenv : string → string).

(** [inr None] is a nil key: the variable is unset.  The wrapped cause of a
    base64 error is left out of the message. *)
Definition decodeKey (env : string) : error + option bytes :=
  let raw := getenv env in
  if decide (raw = "") then inr None else
  match DecodeString StdEncoding raw with
  | None => inl (ErrMsg (env +:+ ": invalid base64"))
  | Some key =>
      if decide (String.length key ≠ keySize)
      then inl (ErrMsg (env +:+ ": must decode to " +:+ pretty keySize +:+ " bytes, got "
                        +:+ pretty (String.length key)))
      else inr (Some key)
  end.

Definition splitCSV (s : string) : list string :=
  filter (λ p, p ≠ "") (TrimSpace <$> Split s ","%char).

Definition envEnabled (key : string) (def : bool) : bool :=
  let v := ToLowerASCII (TrimSpace (getenv key)) in
  if decide (v = "") then def
  else negb (bool_decide (v ∈ ["0"; "false"; "off"; "no"])).

(** [if b { missing = append(missing, name) }] *)
Definition missing_if (b : bool) (name : string) : list string := if b then [name] else [].

Definition LoadConfig : error + Config :=
  match decodeKey envMasterKey with
  | inl e => inl e
  | inr masterKey =>
      match decodeKey envClientKey with
      | inl e => inl e
      | inr clientKey =>
          let encryption := envEnabled envEncryption true in
          let missing :=
            missing_if (bool_decide (getenv envDatabaseURL = "")) envDatabaseURL ++
            missing_if (bool_decide (masterKey = None)) envMasterKey ++
            missing_if (bool_decide (getenv envSigningKey = "")) envSigningKey ++
            missing_if (encryption && bool_decide (clientKey = None)) envClientKey in
          if decide (missing ≠ [])
          then inl (ErrMsg ("missing required env vars: " +:+ Join missing ", "))
          else inr {|
            cfg_DatabaseURL := getenv envDatabaseURL;
            cfg_ListenAddr := if decide (getenv envListenAddr = "") then defaultListenAddr
                              else getenv envListenAddr;
            cfg_MasterKey := default "" masterKey;
            cfg_SigningKey := getenv envSigningKey;
            cfg_HybridPrivateKey := default "" clientKey;
            cfg_EncryptionEnabled := encryption;
            cfg_ResendAPIKey := getenv envResendKey;
            cfg_EmailFrom := getenv envEmailFrom;
            cfg_AppURL := getenv envAppURL;
            cfg_CorsOrigins := splitCSV (getenv envCorsOrigins) |}
      end
  end.
End config.

(** ** cmd/api/genkeys.go: the lines it prints, from the random bytes it draws *)
Definition cmdGenKeys `{Crypto} (master client signer : bytes) : list (string * string) :=
  [(envMasterKey, EncodeToString StdEncoding master);
   (envSigningKey, Identity.PrivateKey (Identity.GenerateKeyPair signer));
   (envClientKey, Hybrid.PrivateKey client);
   ("CUSTOS_CLIENT_PUBLIC_KEY", Hybrid.PublicKey client)].

(** ** internal/email *)

Record Message := { Msg_To : string; Msg_Subject : string; Msg_HTML : string }.
Inductive Sender := logSender | resendSender (apiKey from : string).

(** [email.New] *)
Definition NewSender (apiKey from : string) : Sender :=
  if decide (apiKey = "") then logSender else resendSender apiKey from.

(** The request to the provider: the authorization header and the body (the
    keys of a Go map are printed in order). *)
Definition resendRequest `{JsonText} (apiKey from : string) (msg : Message) : string * bytes :=
  ("Bearer " +:+ apiKey,
   json_print (JObj [("from", JStr from); ("html", JStr (Msg_HTML msg));
                     ("subject", JStr (Msg_Subject msg)); ("to", JArr [JStr (Msg_To msg)])])).

(** [post]: the provider's answer, a transport error or a status. *)
Definition Send `{JsonText} (post : string * bytes → error + Z) (sender : Sender) (msg : Message) :
    error + unit :=
  match sender with
  | logSender => inr tt
  | resendSender apiKey from =>
      match post (resendRequest apiKey from msg) with
      | inl e => inl e
      | inr status => if decide (300 ≤ status) then inl (ErrMsg "resend") else inr tt
      end
  end.

(** ** server.go: CORS *)
Definition corsOrigins (s : Server) : list string :=
  match cfg_CorsOrigins (cfg s) with [] => ["*"] | origins => origins end.

(** ** Lemmas *)

Lemma decodeKey_length getenv env key :
  decodeKey getenv env = inr (Some key) → String.length key = keySize.
Proof.
  unfold decodeKey. cbv zeta. case_decide; [done|]. destruct (DecodeString _ _); [|done].
  case_decide as Hl; [done|]. by intros [= ->].
Qed.
Lemma decodeKey_None getenv env : decodeKey getenv env = inr None → getenv env = "".
Proof.
  unfold decodeKey. cbv zeta. case_decide; [done|]. destruct (DecodeString _ _); [|done].
  by case_decide.
Qed.
Lemma decodeKey_encoded getenv env key :
  String.length key = keySize → getenv env = EncodeToString StdEncoding key →
  decodeKey getenv env = inr (Some key).
Proof.
  intros Hl He. unfold decodeKey. cbv zeta. rewrite He. rewrite decide_False.
  - rewrite DecodeString_EncodeToString. rewrite decide_False; [done|]. tauto.
  - intros Hn. pose proof (DecodeString_EncodeToString StdEncoding key) as Hd. rewrite Hn in Hd.
    injection Hd as <-. discriminate Hl.
Qed.

Lemma missing_if_nil b name : missing_if b name = [] ↔ b = false.
Proof. by destruct b. Qed.

(** What a configuration that loads went through. *)
Lemma LoadConfig_inr getenv c :
  LoadConfig getenv = inr c →
  ∃ masterKey clientKey,
    decodeKey getenv envMasterKey = inr (Some masterKey) ∧
    decodeKey getenv envClientKey = inr clientKey ∧
    getenv envDatabaseURL ≠ "" ∧ getenv envSigningKey ≠ "" ∧
    (envEnabled getenv envEncryption true = true → is_Some clientKey) ∧
    cfg_MasterKey c = masterKey ∧ cfg_HybridPrivateKey c = default "" clientKey ∧
    cfg_EncryptionEnabled c = envEnabled getenv envEncryption true ∧
    cfg_DatabaseURL c = getenv envDatabaseURL ∧ cfg_SigningKey c = getenv envSigningKey ∧
    cfg_ListenAddr c ≠ "" ∧ cfg_CorsOrigins c = splitCSV (getenv envCorsOrigins).
Proof.
  unfold LoadConfig. destruct (decodeKey getenv envMasterKey) as [e|masterKey] eqn:Hm; [done|].
  destruct (decodeKey getenv envClientKey) as [e|clientKey] eqn:Hk; [done|]. cbv zeta.
  case_decide as Hmiss; [done|]. intros Hc. injection Hc as <-. simpl.
  apply app_nil in Hmiss as [H1 Hmiss].
  apply app_nil in Hmiss as [H2 Hmiss]. apply app_nil in Hmiss as [H3 H4].
  apply missing_if_nil in H1, H2, H3, H4. apply bool_decide_eq_false in H1, H2, H3.
  destruct masterKey as [masterKey|]; [|done]. exists masterKey, clientKey.
  split_and!; try done.
  - intros Hen. rewrite Hen in H4. apply bool_decide_eq_false in H4. by destruct clientKey.
  - by case_decide.
Qed.

(** ** Claims *)

Section claims.
Context `{HP : Platform, HL : !PlatformLaws}.

(** C39: a configuration that loads is one the server can run on: the master
    key is 32 bytes, so the server built from it has its vault; request
    encryption is never on without a 32-byte private key; the database URL,
    the listen address and the signing key are not empty (a malformed signing
    key is not rejected: the server then has no signer); and no allowed origin
    is empty. *)
Theorem loaded_settings_are_usable getenv c :
  LoadConfig getenv = inr c →
  String.length (cfg_MasterKey c) = 32%nat ∧
  wrapper (NewServer c) = Some (Vault.AESWrapper (cfg_MasterKey c)) ∧
  (cfg_EncryptionEnabled c = true → String.length (cfg_HybridPrivateKey c) = 32%nat) ∧
  cfg_DatabaseURL c ≠ "" ∧ cfg_ListenAddr c ≠ "" ∧ cfg_SigningKey c ≠ "" ∧
  Forall (λ o, o ≠ "") (corsOrigins (NewServer c)).
Proof.
  intros (mk & ck & Hm & Hk & Hdb & Hs & Hen & Hmk & Hh & Henc & Hurl & Hsig & Hl & Hcors)%LoadConfig_inr.
  pose proof (decodeKey_length _ _ _ Hm) as Hlen. unfold keySize in Hlen.
  split_and!; try congruence.
  - unfold NewServer, Vault.NewAESWrapper. cbn [wrapper].
    rewrite decide_True by (rewrite Hmk; exact Hlen). done.
  - intros He. rewrite Henc in He. destruct (Hen He) as [k ->]. rewrite Hh.
    by apply decodeKey_length in Hk.
  - unfold corsOrigins, NewServer. cbn [cfg]. rewrite Hcors.
    destruct (splitCSV _) as [|o l] eqn:Ho; [by repeat constructor|]. rewrite <-Ho.
    apply Forall_forall. by intros p [? _]%list_elem_of_filter.
Qed.

(** The keys [gen-keys] prints load: in any environment that contains
    its lines and a database URL, with encryption on or off, [LoadConfig]
    succeeds and the server has a vault on that master key, the generated
    signing key pair, and the private key of the public key that was printed
    for the frontend. *)
Theorem generated_keys_load master client signer getenv :
  String.length master = 32%nat → String.length client = 32%nat → String.length signer = 32%nat →
  (∀ k v, (k, v) ∈ cmdGenKeys master client signer → getenv k = v) →
  getenv envDatabaseURL ≠ "" →
  ∃ c, LoadConfig getenv = inr c ∧
    wrapper (NewServer c) = Some (Vault.AESWrapper master) ∧
    Http.signer (NewServer c) = Some (Identity.GenerateKeyPair signer) ∧
    Hybrid.NewKeyPair (cfg_HybridPrivateKey c) = inr client ∧
    getenv "CUSTOS_CLIENT_PUBLIC_KEY" = Hybrid.PublicKey (cfg_HybridPrivateKey c).
Proof using HL.
  intros Hm Hc Hs Henv Hdb.
  assert (getenv envMasterKey = EncodeToString StdEncoding master) as E1
    by (apply Henv; unfold cmdGenKeys; set_solver).
  assert (getenv envSigningKey = Identity.PrivateKey (Identity.GenerateKeyPair signer)) as E2
    by (apply Henv; unfold cmdGenKeys; set_solver).
  assert (getenv envClientKey = EncodeToString StdEncoding client) as E3
    by (apply Henv; unfold cmdGenKeys; set_solver).
  assert (getenv "CUSTOS_CLIENT_PUBLIC_KEY" = Hybrid.PublicKey client) as E4
    by (apply Henv; unfold cmdGenKeys; set_solver).
  pose proof (Identity.LoadKeyPair_PrivateKey signer Hs) as Hload.
  assert (getenv envSigningKey ≠ "") as Hne.
  { rewrite E2. intros Hn. rewrite Hn in Hload. discriminate Hload. }
  unfold LoadConfig. rewrite (decodeKey_encoded _ _ master Hm E1), (decodeKey_encoded _ _ client Hc E3).
  cbv zeta. rewrite !bool_decide_false by done. rewrite andb_false_r. rewrite decide_False by tauto.
  eexists. split; [reflexivity|]. unfold NewServer, Vault.NewAESWrapper. cbn. rewrite E2, Hload.
  split_and!; try done.
  - by rewrite decide_True.
  - unfold Hybrid.NewKeyPair. by rewrite decide_True.
Qed.
End claims.

(** ** Witnesses *)

Definition demo_getenv (k : string) : string :=
  default "" ((list_to_map ((envDatabaseURL, "postgres://localhost/custos")
    :: cmdGenKeys (zeros 32) (zeros 32) (zeros 32)) : gmap string string) !! k).

Lemma loaded_settings_are_usable_witness :
  ∃ c, LoadConfig demo_getenv = inr c ∧ String.length (cfg_MasterKey c) = 32%nat.
Proof.
  destruct (LoadConfig demo_getenv) as [e|c] eqn:Hc; [vm_compute in Hc; discriminate Hc|].
  exists c. split; [reflexivity|]. apply (loaded_settings_are_usable demo_getenv c Hc).
Defined.

Lemma generated_keys_load_witness :
  ∃ c, LoadConfig demo_getenv = inr c ∧
       wrapper (NewServer c) = Some (Vault.AESWrapper (zeros 32)).
Proof.
  destruct (generated_keys_load (zeros 32) (zeros 32) (zeros 32) demo_getenv)
    as (c & Hc & Hw & _).
  - vm_compute. reflexivity.
  - vm_compute. reflexivity.
  - vm_compute. reflexivity.
  - intros k v Hkv. unfold demo_getenv. erewrite (elem_of_list_to_map_1 _ k v); [reflexivity| |by right].
    apply (bool_decide_unpack _). vm_compute. exact I.
  - vm_compute. discriminate.
  - exists c. split; [exact Hc|exact Hw].
Defined.
