(* ===== verification/Fs.v ===== *)
(** A host as the daemon's commands see it: its files, the commands it runs
    and the configuration its sshd has loaded, with every system call subject
    to failure.

    A path is its directory and its base name ([filepath.Join] builds it).
    The oracle [SysEnv] decides, by the number of calls made so far, whether a
    call fails, how much of a write reached the file before the failure, the
    random part of a temporary file's name and what a command returns.  A
    process that dies is one whose every later call fails.  [atomicWrite] of
    [internal/daemon/store.go] is here, with the theorem that makes the
    one-step [atomicWrite] of [Daemon] faithful. *)
From S2P Require Import Prelude Text Base64 Json Protocol Crypto Daemon Http Demo Scenario.

Abbreviation Path := (string * string)%type (only parsing).

Record File := { f_data : bytes; f_mode : Z }.

Record Sys := {
  sys_files : gmap Path File;
  sys_sshd : option bytes;     (* the drop-in whose settings the running sshd uses *)
  sys_tick : nat }.

Class SysEnv := {
  sys_fault : nat → option error;
  sys_cut : nat → nat;                                     (* bytes of a failed write *)
  sys_temp : nat → string;                                 (* CreateTemp's random part *)
  sys_exec : nat → list string → gmap Path File → error + bytes;
  (* whether an sshd that reads these files takes the settings of the drop-in:
     sshd_config includes it, and none of them is set before *)
  sys_takes : gmap Path File → bool }.

(** The permission bits the sources use, in octal. *)
Definition mode_0600 : Z := 6 * 64.
Definition mode_0644 : Z := 6 * 64 + 4 * 8 + 4.
Definition mode_0755 : Z := 7 * 64 + 5 * 8 + 5.

(** [os.ErrNotExist] *)
Definition ErrNotExist : error := ErrMsg "file does not exist".
Definition ErrExist : error := ErrMsg "file exists".

Definition bump (s : Sys) : Sys :=
  {| sys_files := sys_files s; sys_sshd := sys_sshd s; sys_tick := S (sys_tick s) |}.
Definition set_files (m : gmap Path File) (s : Sys) : Sys :=
  {| sys_files := m; sys_sshd := sys_sshd s; sys_tick := sys_tick s |}.
Definition set_sshd (c : option bytes) (s : Sys) : Sys :=
  {| sys_files := sys_files s; sys_sshd := c; sys_tick := sys_tick s |}.

Section calls.
Context `{SysEnv}.

(** A call that either fails, changing nothing, or acts on the files. *)
Definition syscall {A} (f : gmap Path File → error + (A * gmap Path File)) : M Sys error A := λ s,
  match sys_fault (sys_tick s) with
  | Some e => (inl e, bump s)
  | None => match f (sys_files s) with
            | inl e => (inl e, bump s)
            | inr (a, m) => (inr a, set_files m (bump s))
            end
  end.

Definition ReadFile (p : Path) : M Sys error bytes :=
  syscall (λ m, match m !! p with Some f => inr (f_data f, m) | None => inl ErrNotExist end).
(** [os.Stat], for the error. *)
Definition Stat (p : Path) : M Sys error unit :=
  syscall (λ m, match m !! p with Some _ => inr (tt, m) | None => inl ErrNotExist end).
Definition Remove (p : Path) : M Sys error unit :=
  syscall (λ m, match m !! p with Some _ => inr (tt, delete p m) | None => inl ErrNotExist end).
Definition Rename (p q : Path) : M Sys error unit :=
  syscall (λ m, match m !! p with
                | Some f => inr (tt, <[q := f]> (delete p m))
                | None => inl ErrNotExist
                end).
Definition Chmod (p : Path) (mode : Z) : M Sys error unit :=
  syscall (λ m, match m !! p with
                | Some f => inr (tt, <[p := {| f_data := f_data f; f_mode := mode |}]> m)
                | None => inl ErrNotExist
                end).
(** [os.OpenFile(p, O_CREATE|O_WRONLY|O_TRUNC, perm)] *)
Definition OpenTrunc (p : Path) (perm : Z) : M Sys error unit :=
  syscall (λ m, inr (tt, <[p := {| f_data := "";
                                   f_mode := match m !! p with Some f => f_mode f | None => perm end |}]> m)).
(** [os.CreateTemp(dir, prefix*suffix)]: the name is not in use. *)
Definition CreateTemp (dir prefix suffix : string) : M Sys error Path := λ s,
  let p := (dir, prefix +:+ sys_temp (sys_tick s) +:+ suffix) in
  syscall (λ m, match m !! p with
                | Some _ => inl ErrExist
                | None => inr (p, <[p := {| f_data := ""; f_mode := mode_0600 |}]> m)
                end) s.
(** [Write] (or [io.Copy] of known bytes) to the end of an open file; a
    failure leaves a prefix behind. *)
Definition Write (p : Path) (data : bytes) : M Sys error unit := λ s,
  let append d := alter (λ f, {| f_data := f_data f +:+ d; f_mode := f_mode f |}) p (sys_files s) in
  match sys_fault (sys_tick s) with
  | Some e => (inl e, set_files (append (btake (sys_cut (sys_tick s)) data)) (bump s))
  | None => (inr tt, set_files (append data) (bump s))
  end.
(** Calls whose effect on the files is nothing: [Close], [MkdirAll], [Chown]. *)
Definition nop_call : M Sys error unit := syscall (λ m, inr (tt, m)).
(** [exec.Command(argv...)]: its output. *)
Definition Exec (argv : list string) : M Sys error bytes := λ s,
  (sys_exec (sys_tick s) argv (sys_files s), bump s).
(** [defer os.Remove(p)] around the rest of the function. *)
Definition deferRemove {E A} (p : Path) (m : M Sys E A) : M Sys E A := λ s,
  let '(r, s') := m s in (r, (Remove p s').2).

(** ** store.go: [atomicWrite] *)
Definition atomicWrite (path : Path) (data : bytes) (perm : Z) : M Sys error unit :=
  tmp <- CreateTemp path.1 ".tmp-" "";;
  deferRemove tmp (
    (Write tmp data <!> λ e, ignore nop_call;;; throw e);;;
    (Chmod tmp perm <!> λ e, ignore nop_call;;; throw e);;;
    nop_call;;;
    Rename tmp path).

(** ** Rules *)

(** Only files of [T] may have changed, and sshd has not reloaded. *)
Definition same_outside (T : Path → Prop) (s s' : Sys) : Prop :=
  (∀ q, ¬ T q → sys_files s' !! q = sys_files s !! q) ∧ sys_sshd s' = sys_sshd s.
Definition same_but (ps : list Path) : Sys → Sys → Prop := same_outside (.∈ ps).

#[export] Instance same_outside_preorder T : PreOrder (same_outside T).
Proof.
  split; [by intros s|]. intros s1 s2 s3 [H1 H1'] [H2 H2']. split; [|congruence].
  intros q Hq. rewrite H2, H1; done.
Qed.
#[export] Instance same_but_preorder ps : PreOrder (same_but ps).
Proof. apply same_outside_preorder. Qed.
Lemma same_outside_weaken (T T' : Path → Prop) s s' :
  same_outside T s s' → (∀ q, T q → T' q) → same_outside T' s s'.
Proof. intros [H1 H2] Hsub. split; [|done]. intros q Hq. apply H1. auto. Qed.

Lemma same_but_files ps s m :
  (∀ q, q ∉ ps → m !! q = sys_files s !! q) → same_but ps s (set_files m (bump s)).
Proof. by split. Qed.
Lemma same_but_bump ps s : same_but ps s (bump s).
Proof. by split. Qed.

Lemma ReadFile_same p : preserves (same_but []) (ReadFile p).
Proof.
  intros s. unfold ReadFile, syscall. destruct (sys_fault _); [by apply same_but_bump|].
  by destruct (sys_files s !! p).
Qed.
Lemma Stat_same p : preserves (same_but []) (Stat p).
Proof.
  intros s. unfold Stat, syscall. destruct (sys_fault _); [by apply same_but_bump|].
  by destruct (sys_files s !! p).
Qed.
Lemma nop_same : preserves (same_but []) nop_call.
Proof. intros s. unfold nop_call, syscall. by destruct (sys_fault _). Qed.
Lemma Exec_same argv : preserves (same_but []) (Exec argv).
Proof. intros s. by apply same_but_bump. Qed.
Lemma Remove_same p : preserves (same_but [p]) (Remove p).
Proof.
  intros s. unfold Remove, syscall. destruct (sys_fault _); [by apply same_but_bump|].
  destruct (sys_files s !! p); [|by apply same_but_bump]. apply same_but_files.
  intros q Hq. apply lookup_delete_ne. set_solver.
Qed.
Lemma Rename_same p q : preserves (same_but [p; q]) (Rename p q).
Proof.
  intros s. unfold Rename, syscall. destruct (sys_fault _); [by apply same_but_bump|].
  destruct (sys_files s !! p); [|by apply same_but_bump]. apply same_but_files.
  intros k Hk. rewrite lookup_insert_ne, lookup_delete_ne by set_solver. done.
Qed.
Lemma Chmod_same p mode : preserves (same_but [p]) (Chmod p mode).
Proof.
  intros s. unfold Chmod, syscall. destruct (sys_fault _); [by apply same_but_bump|].
  destruct (sys_files s !! p); [|by apply same_but_bump]. apply same_but_files.
  intros q Hq. apply lookup_insert_ne. set_solver.
Qed.
Lemma OpenTrunc_same p perm : preserves (same_but [p]) (OpenTrunc p perm).
Proof.
  intros s. unfold OpenTrunc, syscall. destruct (sys_fault _); [by apply same_but_bump|].
  apply same_but_files. intros q Hq. apply lookup_insert_ne. set_solver.
Qed.
Lemma Write_same p data : preserves (same_but [p]) (Write p data).
Proof.
  intros s. unfold Write. destruct (sys_fault _); apply same_but_files; intros q Hq;
    apply lookup_alter_ne; set_solver.
Qed.

(** The contents of a file after a call that succeeded. *)
Definition data_at (p : Path) (s : Sys) : option bytes := f_data <$> sys_files s !! p.

Lemma wp_call {A} (R : Sys → Sys → Prop) (m : M Sys error A) s (P : A → Sys → Prop) (Qe : error → Sys → Prop) Qo :
  preserves R m → (∀ a s1, m s = (inr a, s1) → P a s1) →
  (∀ e s1, R s s1 → Qe e s1) → (∀ a s1, R s s1 → P a s1 → Qo a s1) → wp m s Qe Qo.
Proof.
  intros Hm HP He Ho. unfold wp. specialize (Hm s). destruct (m s) as [[e|a] s1]; auto.
Qed.

Lemma wp_CreateTemp dir prefix suffix s (Qe : error → Sys → Prop) Qo :
  (∀ e s1, same_but [] s s1 → Qe e s1) →
  (∀ x p s1, p = (dir, prefix +:+ x +:+ suffix) →
     sys_files s !! p = None → same_but [p] s s1 → data_at p s1 = Some "" → Qo p s1) →
  wp (CreateTemp dir prefix suffix) s Qe Qo.
Proof.
  intros He Ho. unfold wp, CreateTemp, syscall.
  destruct (sys_fault _); [apply He, same_but_bump|].
  destruct (sys_files s !! _) eqn:Hp; [apply He, same_but_bump|].
  apply (Ho (sys_temp (sys_tick s))); [done..| |].
  - apply same_but_files. intros q Hq. apply lookup_insert_ne. set_solver.
  - unfold data_at. simpl. by rewrite lookup_insert_eq.
Qed.

Lemma Write_data p data s s1 u :
  Write p data s = (inr u, s1) → data_at p s1 = (λ d, d +:+ data) <$> data_at p s.
Proof.
  unfold Write. destruct (sys_fault _); [done|]. intros [= _ <-]. unfold data_at. simpl.
  rewrite lookup_alter_eq. by destruct (sys_files s !! p).
Qed.
Lemma Chmod_data p mode s s1 u :
  Chmod p mode s = (inr u, s1) → data_at p s1 = data_at p s ∧ f_mode <$> sys_files s1 !! p = Some mode.
Proof.
  unfold Chmod, syscall. destruct (sys_fault _); [done|].
  destruct (sys_files s !! p) as [f|] eqn:Hf; [|done]. intros [= _ <-]. unfold data_at. simpl.
  by rewrite lookup_insert_eq, Hf.
Qed.
Lemma Rename_file p q s s1 u :
  Rename p q s = (inr u, s1) → sys_files s1 !! q = sys_files s !! p ∧ is_Some (sys_files s !! p).
Proof.
  unfold Rename, syscall. destruct (sys_fault _); [done|].
  destruct (sys_files s !! p) as [f|] eqn:Hf; [|done]. intros [= _ <-]. simpl.
  rewrite lookup_insert_eq. eauto.
Qed.
Lemma Rename_error p q s s1 e : Rename p q s = (inl e, s1) → same_but [] s s1.
Proof.
  unfold Rename, syscall. destruct (sys_fault _); [intros [= _ <-]; apply same_but_bump|].
  destruct (sys_files s !! p); [done|]. intros [= _ <-]. apply same_but_bump.
Qed.
Lemma OpenTrunc_data p perm s s1 u : OpenTrunc p perm s = (inr u, s1) → data_at p s1 = Some "".
Proof.
  unfold OpenTrunc, syscall. destruct (sys_fault _); [done|]. intros [= _ <-]. unfold data_at. simpl.
  by rewrite lookup_insert_eq.
Qed.
Lemma ReadFile_data p s s1 d : ReadFile p s = (inr d, s1) → data_at p s = Some d.
Proof.
  unfold ReadFile, syscall. destruct (sys_fault _); [done|]. unfold data_at.
  destruct (sys_files s !! p) as [f|]; [|done]. by intros [= <- _].
Qed.

Section rules.
Context (s : Sys).

Lemma wp_ReadFile p (Qe : error → Sys → Prop) Qo :
  (∀ e s1, same_but [] s s1 → Qe e s1) →
  (∀ d s1, same_but [] s s1 → data_at p s = Some d → Qo d s1) → wp (ReadFile p) s Qe Qo.
Proof. apply wp_call; [apply ReadFile_same|]. intros. by eapply ReadFile_data. Qed.
Lemma wp_Write p data (Qe : error → Sys → Prop) (Qo : unit → Sys → Prop) :
  (∀ e s1, same_but [p] s s1 → Qe e s1) →
  (∀ u s1, same_but [p] s s1 → data_at p s1 = (λ d, d +:+ data) <$> data_at p s → Qo u s1) →
  wp (Write p data) s Qe Qo.
Proof. apply wp_call; [apply Write_same|]. intros. by eapply Write_data. Qed.
Lemma wp_Chmod p mode (Qe : error → Sys → Prop) (Qo : unit → Sys → Prop) :
  (∀ e s1, same_but [p] s s1 → Qe e s1) →
  (∀ u s1, same_but [p] s s1 →
     data_at p s1 = data_at p s ∧ f_mode <$> sys_files s1 !! p = Some mode → Qo u s1) →
  wp (Chmod p mode) s Qe Qo.
Proof. apply wp_call; [apply Chmod_same|]. intros. by eapply Chmod_data. Qed.
Lemma wp_OpenTrunc p perm (Qe : error → Sys → Prop) (Qo : unit → Sys → Prop) :
  (∀ e s1, same_but [p] s s1 → Qe e s1) →
  (∀ u s1, same_but [p] s s1 → data_at p s1 = Some "" → Qo u s1) → wp (OpenTrunc p perm) s Qe Qo.
Proof. apply wp_call; [apply OpenTrunc_same|]. intros. by eapply OpenTrunc_data. Qed.
Lemma wp_nop (Qe : error → Sys → Prop) (Qo : unit → Sys → Prop) :
  (∀ e s1, same_but [] s s1 → Qe e s1) → (∀ u s1, same_but [] s s1 → Qo u s1) →
  wp nop_call s Qe Qo.
Proof. intros He Ho. by eapply (wp_preserves _ _ _ _ _ nop_same). Qed.
Lemma wp_Stat p (Qe : error → Sys → Prop) (Qo : unit → Sys → Prop) :
  (∀ e s1, same_but [] s s1 → Qe e s1) → (∀ u s1, same_but [] s s1 → Qo u s1) →
  wp (Stat p) s Qe Qo.
Proof. intros He Ho. by eapply (wp_preserves _ _ _ _ _ (Stat_same p)). Qed.
Lemma wp_Exec argv (Qe : error → Sys → Prop) (Qo : bytes → Sys → Prop) :
  (∀ e s1, same_but [] s s1 → Qe e s1) →
  (∀ out s1, same_but [] s s1 → sys_exec (sys_tick s) argv (sys_files s) = inr out → Qo out s1) →
  wp (Exec argv) s Qe Qo.
Proof. apply wp_call; [apply Exec_same|]. intros out s1 [= Hx _]. exact Hx. Qed.
Lemma wp_Remove p (Qe : error → Sys → Prop) (Qo : unit → Sys → Prop) :
  (∀ e s1, same_but [p] s s1 → Qe e s1) → (∀ u s1, same_but [p] s s1 → Qo u s1) →
  wp (Remove p) s Qe Qo.
Proof. intros He Ho. by eapply (wp_preserves _ _ _ _ _ (Remove_same p)). Qed.
(** A rename that fails changes nothing. *)
Lemma wp_Rename p q (Qe : error → Sys → Prop) (Qo : unit → Sys → Prop) :
  (∀ e s1, same_but [] s s1 → Qe e s1) →
  (∀ u s1, same_but [p; q] s s1 → sys_files s1 !! q = sys_files s !! p → Qo u s1) →
  wp (Rename p q) s Qe Qo.
Proof.
  intros He Ho. unfold wp. pose proof (Rename_same p q s) as Hs.
  destruct (Rename p q s) as [[e|u] s1] eqn:Hr.
  - apply He. by eapply Rename_error.
  - apply Rename_file in Hr as [Hr _]. by eapply Ho.
Qed.
End rules.

(** Whatever a removal at the end does, the other files are as they were. *)
Lemma wp_deferRemove {E A} p (m : M Sys E A) s (Qe : E → Sys → Prop) (Qo : A → Sys → Prop) :
  wp m s (λ e s1, ∀ s2, same_but [p] s1 s2 → Qe e s2)
         (λ a s1, ∀ s2, same_but [p] s1 s2 → Qo a s2) → wp (deferRemove p m) s Qe Qo.
Proof.
  unfold wp, deferRemove. destruct (m s) as [[e|a] s1]; intros Hq; apply Hq, (Remove_same p s1).
Qed.
End calls.

(** ** Symbolic execution of a command *)

Ltac sys_step :=
  lazymatch goal with
  | |- wp (bind _ _) _ _ _ => apply wp_bind
  | |- wp (onerr _ _) _ _ _ => apply wp_onerr
  | |- wp (ignore _) _ _ _ => apply wp_ignore
  | |- wp (attempt _) _ _ _ => apply wp_attempt
  | |- wp (ret _) _ _ _ => apply wp_ret
  | |- wp (throw _) _ _ _ => apply wp_throw
  | |- wp (deferRemove _ _) _ _ _ => apply wp_deferRemove
  | |- wp (ReadFile _) _ _ _ => apply wp_ReadFile; intros
  | |- wp (Write _ _) _ _ _ => apply wp_Write; intros
  | |- wp (Chmod _ _) _ _ _ => apply wp_Chmod; intros
  | |- wp (OpenTrunc _ _) _ _ _ => apply wp_OpenTrunc; intros
  | |- wp nop_call _ _ _ => apply wp_nop; intros
  | |- wp (Stat _) _ _ _ => apply wp_Stat; intros
  | |- wp (Exec _) _ _ _ => apply wp_Exec; intros
  | |- wp (Remove _) _ _ _ => apply wp_Remove; intros
  | |- wp (Rename _ _) _ _ _ => apply wp_Rename; intros
  end; cbv beta.

(** Follows a file that the calls in between did not touch. *)
Ltac other_path :=
  first [ solve [eauto]
        | rewrite ?not_elem_of_cons; split_and?; solve [done | congruence | apply not_elem_of_nil] ].
Ltac framed :=
  unfold data_at, same_but in *;
  repeat match goal with
  | Hs : same_outside _ ?s ?s' |- context [sys_files ?s' !! ?q] =>
      rewrite (proj1 Hs q) by other_path
  | Hs : same_outside _ ?s ?s', Hx : context [sys_files ?s' !! ?q] |- _ =>
      rewrite (proj1 Hs q) in Hx by other_path
  | Hs : same_outside _ _ ?s' |- context [sys_sshd ?s'] => rewrite (proj2 Hs)
  end.

Section store.
Context `{SysEnv}.

(** A temporary file of [atomicWrite]. *)
Definition temp_of (path tmp : Path) : Prop := ∃ x, tmp = (path.1, ".tmp-" +:+ x +:+ "").

(** The target is replaced whole, or the write failed and it is as it was;
    only a temporary file may be left over. *)
Lemma wp_atomicWrite path data perm s (Qe : error → Sys → Prop) (Qo : unit → Sys → Prop) :
  ¬ temp_of path path →
  (∀ e s1, same_outside (temp_of path) s s1 → Qe e s1) →
  (∀ u s1, same_outside (λ q, temp_of path q ∨ q = path) s s1 →
     sys_files s1 !! path = Some {| f_data := data; f_mode := perm |} → Qo u s1) →
  wp (atomicWrite path data perm) s Qe Qo.
Proof.
  intros Hne He Ho. unfold atomicWrite. apply wp_bind, wp_CreateTemp.
  { intros e s1 Hs. apply He. eapply same_outside_weaken; [exact Hs|].
    intros q Hq%elem_of_nil. done. }
  intros x tmp s1 Heq Hnew Hs1 Hdata.
  assert (temp_of path tmp) as Htmp by by exists x.
  assert (tmp ≠ path) as Hp by congruence.
  assert (∀ q, ¬ temp_of path q → tmp ≠ q) as Hother by congruence.
  clear Heq.
  repeat sys_step; intros.
  all: try (apply He; split; [intros q Hq; pose proof (Hother q Hq)|]; framed; done).
  apply Ho; [split; [intros q Hq; pose proof (Hother q ltac:(tauto)); assert (q ≠ path) by tauto|]; framed; done|].
  destruct_and!. framed. destruct (sys_files s2 !! tmp) as [[d m]|]; simplify_eq/=.
  match goal with Hf : sys_files _ !! path = Some _ |- _ => rewrite Hf end.
  match goal with Hd : Some d = ?x, Hx : ?x = _ |- _ => rewrite Hx, Hdata in Hd end.
  by simplify_eq/=.
Qed.

(** The state directory as [Daemon] has it: the contents by name, temporary
    files aside. *)
Definition shows (dir : string) (disk : gmap string bytes) (s : Sys) : Prop :=
  ∀ name, HasPrefix name ".tmp-" = false → data_at (dir, name) s = disk !! name.

Lemma temp_of_prefix path q : temp_of path q → HasPrefix q.2 ".tmp-" = true.
Proof. intros [x ->]. apply bool_decide_eq_true_2. eexists. apply CutPrefix_app. Qed.

(** C27: a file of the state directory is written atomically: whatever system
    calls fail inside it (creating, writing part of, chmodding, closing,
    renaming or removing the temporary file), [atomicWrite] on the file system
    does what the one-step write of the daemon's model does: it reports
    success and the file has exactly the new contents, or it reports the error
    and the file is as it was; every other file of the directory, temporary
    ones aside, is untouched. *)
Theorem atomicWrite_is_one_step dir name data perm s r s' (c : Client) :
  HasPrefix name ".tmp-" = false → shows dir (cl_disk c) s →
  atomicWrite (dir, name) data perm s = (r, s') →
  ∃ fault : option error,
    let one_step := @Daemon.atomicWrite (λ _, fault) name data c in
    one_step.1 = r ∧ shows dir (cl_disk one_step.2) s'.
Proof.
  intros Hname Hs Hr.
  assert (¬ temp_of (dir, name) (dir, name)) as Hnt.
  { intros Ht%temp_of_prefix. simpl in Ht. congruence. }
  assert (wp (atomicWrite (dir, name) data perm) s
    (λ e s1, shows dir (cl_disk c) s1)
    (λ u s1, shows dir (<[name := data]> (cl_disk c)) s1)) as Hwp.
  { apply wp_atomicWrite; [done| |].
    - intros e' s1 [Hsame _] n Hn. unfold data_at. rewrite Hsame; [by apply Hs|].
      intros Ht%temp_of_prefix. simpl in Ht. congruence.
    - intros u s1 [Hsame _] Hf n Hn. unfold data_at. destruct (decide (n = name)) as [->|Hne].
      + by rewrite Hf, lookup_insert_eq.
      + rewrite lookup_insert_ne by done. rewrite Hsame; [by apply Hs|].
        intros [Ht%temp_of_prefix|[=]]; [simpl in Ht|]; congruence. }
  unfold wp in Hwp. rewrite Hr in Hwp. destruct r as [e|[]]; [by exists (Some e)|by exists None].
Qed.
End store.

(** ** A host *)

(** Calls succeed; a program run as [version] prints its own contents. *)
#[export] Instance demo_sys_env : SysEnv | 100 := {|
  sys_fault _ := None; sys_cut _ := 0%nat; sys_temp _ := "1";
  sys_exec _ argv files :=
    match argv with
    | [_; "version"] => match files !! ("/var/lib/custos/update", "custosd.staged") with
                        | Some f => inr (f_data f)
                        | None => inl (ErrMsg "no such program")
                        end
    | _ => inr ""
    end;
  sys_takes _ := true |}.
Definition demo_sys : Sys :=
  {| sys_files := {[ ("/usr/local/bin", "custosd") := {| f_data := "custosd v1"; f_mode := mode_0755 |};
                     ("/var/lib/custos", "cache.json") := {| f_data := "old"; f_mode := mode_0600 |} ]};
     sys_sshd := None; sys_tick := 0 |}.
Definition host_client : Client :=
  {| cl_cfg := {| dc_ControlPlane := ""; dc_HostID := ""; dc_SigningPublicKey := "" |};
     cl_identity := demo_kp; cl_cache := {| c_seq := 0; c_entries := ∅ |}; cl_secrets := None;
     cl_disk := {[ "cache.json" := "old" ]}; cl_version := "v1"; cl_upgrading := false;
     cl_upgrades := []; cl_sent := []; cl_writes := 0 |}.

Lemma atomicWrite_is_one_step_witness :
  shows "/var/lib/custos" {[ "cache.json" := "new" ]}
    (atomicWrite ("/var/lib/custos", "cache.json") "new" mode_0600 demo_sys).2.
Proof.
  destruct (atomicWrite_is_one_step "/var/lib/custos" "cache.json" "new" mode_0600 demo_sys
    (atomicWrite ("/var/lib/custos", "cache.json") "new" mode_0600 demo_sys).1
    (atomicWrite ("/var/lib/custos", "cache.json") "new" mode_0600 demo_sys).2 host_client)
    as (fault & Hr & Hs).
  - vm_compute. reflexivity.
  - intros name Hn. unfold data_at, demo_sys, host_client. simpl.
    destruct (decide (name = "cache.json")) as [->|Hne]; [vm_compute; reflexivity|].
    rewrite lookup_insert_ne by congruence. rewrite !lookup_singleton_ne by congruence. reflexivity.
  - apply surjective_pairing.
  - destruct fault as [e|]; [vm_compute in Hr; discriminate Hr|]. exact Hs.
Defined.
