(* ===== verification/Update.v ===== *)
(** Self-update of the host agent: the daemon stages a release the control
    plane announced ([internal/daemon/update.go]); at the next start root swaps
    it into place ([cmd/daemon/applyupdate.go]).

    The HTTP client, the gzip and tar readers are parameters.  The theorems
    hold for every answer of theirs and every failure of a system call: the
    installed binary is never missing or partial, and only ever becomes a
    binary out of an archive with a digest the control plane announced. *)
From S2P Require Import Prelude Text Base64 Json Protocol Crypto Http Demo Fs.

(** ** The archive reader *)

(** What [tar.Reader.Next] yields in turn: an entry with the bytes that could
    be read of it, or an error; the end of the list is [io.EOF]. *)
Inductive tar_item :=
  | TarEntry (name : string) (content : bytes) (failed : option error)
  | TarError (e : error).
Class TarGz := read_targz : bytes → error + list tar_item.

Record StagedMeta := { meta_Version : string; meta_BinSHA256 : string }.
Definition StagedMeta_json (m : StagedMeta) : json :=
  JObj [("version", JStr (meta_Version m)); ("bin_sha256", JStr (meta_BinSHA256 m))].
Definition StagedMeta_of_json : json → option StagedMeta :=
  as_struct (Build_StagedMeta "" "") (λ o,
    v ← decode_field as_string "" "version" o; b ← decode_field as_string "" "bin_sha256" o;
    Some (Build_StagedMeta v b)).

(** ** update.go *)

Definition releaseRepo := "tofunmiadewuyi/custos".
Definition stagedBin := "custosd.staged".
Definition stagedMeta := "staged.json".

Definition tarballURL (version arch : string) : string :=
  let name := "custosd_" +:+ version +:+ "_linux_" +:+ arch +:+ ".tar.gz" in
  "https://github.com/" +:+ releaseRepo +:+ "/releases/download/custosd/" +:+ version +:+ "/" +:+ name.

(** [sha256.Sum256] in hexadecimal. *)
Definition digest `{Crypto} (data : bytes) : string := hex (sha256 data).

Section update.
Context `{SysEnv, Crypto, JsonText, TarGz}.
(** [http.DefaultClient.Do]: a transport error, or the status, the bytes of
    the body that arrived and how reading it ended. *)
Context (http_get : nat → string → error + (Z * bytes * option error)).
Context (updateDir arch : string).

Definition stagedPath : Path := (updateDir, stagedBin).
Definition metaPath : Path := (updateDir, stagedMeta).

Definition httpGet (url : string) : M Sys error (Z * bytes * option error) := λ s,
  (http_get (sys_tick s) url, bump s).

(** [io.Copy] of a source that ends with [failed] into an open file. *)
Definition copyInto (p : Path) (data : bytes) (failed : option error) : M Sys error unit :=
  Write p data;;;
  match failed with Some e => throw e | None => ret tt end.

(** [out.Close(); os.Remove(out.Name()); return err] *)
Definition abandon {A} (p : Path) (e : error) : M Sys error A :=
  ignore nop_call;;; ignore (Remove p);;; throw e.

Definition download (url want : string) : M Sys error Path :=
  resp <- httpGet url;;
  let '(status, body, failed) := resp in
  if decide (status ≠ 200) then throw (ErrMsg "download") else
  tmp <- CreateTemp updateDir "dl-" ".tar.gz";;
  (copyInto tmp body failed <!> abandon tmp);;;
  ignore nop_call;;;
  if decide (digest body ≠ want)
  then ignore (Remove tmp);;; throw (ErrMsg "checksum mismatch")
  else ret tmp.

Fixpoint extractLoop (items : list tar_item) : M Sys error (Path * string) :=
  match items with
  | [] => throw (ErrMsg "custosd not found in archive")
  | TarError e :: _ => throw e
  | TarEntry name content failed :: items' =>
      if decide (name ≠ "custosd") then extractLoop items' else
      out <- CreateTemp updateDir "bin-" "";;
      (copyInto out content failed <!> abandon out);;;
      ignore nop_call;;;
      (Chmod out mode_0755 <!> λ e, ignore (Remove out);;; throw e);;;
      ret (out, digest content)
  end.
Definition extractBinary (tarPath : Path) : M Sys error (Path * string) :=
  data <- ReadFile tarPath;;
  match read_targz data with
  | inl e => throw e
  | inr items => extractLoop items
  end.

Definition stageUpgradeFrom (up : Upgrade) (url : string) : M Sys error unit :=
  let want := default "" (Upgrade_SHA256 up !! arch) in
  if decide (want = "") then throw (ErrMsg "no checksum for arch") else
  nop_call;;;                                             (* os.MkdirAll *)
  tarPath <- download url want;;
  deferRemove tarPath (
    bin <- extractBinary tarPath;;
    let '(binTmp, binSHA) := bin in
    deferRemove binTmp (
      atomicWrite metaPath (json_print (StagedMeta_json
        {| meta_Version := Upgrade_Version up; meta_BinSHA256 := binSHA |})) mode_0600;;;
      Rename binTmp stagedPath)).

Definition stageUpgrade (up : Upgrade) : M Sys error unit :=
  stageUpgradeFrom up (tarballURL (Upgrade_Version up) arch).

(** ** applyupdate.go *)

Definition installBin : Path := ("/usr/local/bin", "custosd").
(** [path + ".new"] and the like. *)
Definition beside (p : Path) (ext : string) : Path := (p.1, p.2 +:+ ext).

Definition readMeta (path : Path) : M Sys error StagedMeta :=
  data <- ReadFile path;;
  match unmarshal StagedMeta_of_json data with
  | Some m => ret m
  | None => throw (ErrMsg "invalid metadata")
  end.

Definition pathString (p : Path) : string := p.1 +:+ "/" +:+ p.2.

Definition smokeTest (bin : Path) (want : string) : M Sys error unit :=
  out <- Exec [pathString bin; "version"];;
  if Contains out want then ret tt else throw (ErrMsg "reported another version").

Definition copyFile (src dest : Path) (perm : Z) : M Sys error unit :=
  data <- ReadFile src;;
  OpenTrunc dest perm;;;
  (Write dest data <!> λ e, ignore nop_call;;; throw e);;;
  nop_call;;;
  Chmod dest perm.

Definition replaceExecutable (src dest : Path) : M Sys error unit :=
  let tmp := beside dest ".new" in
  copyFile src tmp mode_0755;;;
  (Rename tmp dest <!> λ e, ignore (Remove tmp);;; throw e).

Definition fileSHA256 (path : Path) : M Sys error string :=
  data <- ReadFile path;; ret (digest data).

Definition discardStaged : M Sys error unit :=
  ignore (Remove stagedPath);;; ignore (Remove metaPath).

(** The swap, after the checks. *)
Definition swapStaged : M Sys error unit :=
  ignore (copyFile installBin (beside installBin ".prev") mode_0755);;;
  (replaceExecutable stagedPath installBin <!> λ e, throw (ErrMsg "apply-update: swap failed"));;;
  ignore (Remove stagedPath);;;
  ignore (Remove metaPath).

(** The checks of a staged binary. *)
Definition applyStaged : M Sys error unit :=
  meta <- attempt (readMeta metaPath);;
  match meta with
  | inl _ => discardStaged
  | inr meta =>
      sum <- attempt (fileSHA256 stagedPath);;
      if decide (sum ≠ inr (meta_BinSHA256 meta)) then discardStaged else
      smoke <- attempt (smokeTest stagedPath (meta_Version meta));;
      match smoke with
      | inl _ => discardStaged
      | inr _ => swapStaged
      end
  end.

(** An error is the exit of [fatal]. *)
Definition cmdApplyUpdate (root : bool) : M Sys error unit :=
  st <- attempt (Stat stagedPath);;
  if decide (st = inl ErrNotExist) then ret tt else
  if negb root then throw (ErrMsg "apply-update: must run as root") else
  applyStaged.

(** ** What may be staged *)

(** The binary [extractBinary] takes out of an archive. *)
Fixpoint custosd_of (items : list tar_item) : option bytes :=
  match items with
  | [] | TarError _ :: _ => None
  | TarEntry name content failed :: items' =>
      if decide (name ≠ "custosd") then custosd_of items'
      else match failed with None => Some content | Some _ => None end
  end.

(** A binary out of an archive with the digest that an upgrade the control
    plane sent names for this architecture. *)
Definition authentic (sent : Upgrade → Prop) (bin : bytes) : Prop :=
  ∃ up archive items, sent up ∧ Upgrade_SHA256 up !! arch = Some (digest archive) ∧
    read_targz archive = inr items ∧ custosd_of items = Some bin.

(** The files a staging may touch besides the staged binary. *)
Definition is_dl (q : Path) : Prop := ∃ x, q = (updateDir, "dl-" +:+ x +:+ ".tar.gz").
Definition is_bin (q : Path) : Prop := ∃ x, q = (updateDir, "bin-" +:+ x +:+ "").
Definition scratch (q : Path) : Prop := is_dl q ∨ is_bin q ∨ temp_of metaPath q ∨ q = metaPath.

Lemma staged_not_scratch : ¬ scratch stagedPath.
Proof. by intros [[x [=]]|[[x [=]]|[[x [=]]|[=]]]]. Qed.
Lemma meta_not_temp : ¬ temp_of metaPath metaPath.
Proof. by intros [x [=]]. Qed.

(** ** Staging *)

Lemma wp_httpGet url s (Qe : error → Sys → Prop) Qo :
  (∀ e s1, same_but [] s s1 → Qe e s1) → (∀ r s1, same_but [] s s1 → Qo r s1) →
  wp (httpGet url) s Qe Qo.
Proof.
  intros He Ho. unfold wp, httpGet. destruct (http_get _ url); [apply He|apply Ho]; apply same_but_bump.
Qed.

(** Everything a computation touched is in [T]. *)
Ltac outside T tmp :=
  split; [let q := fresh "q" in let Hq := fresh "Hq" in
          intros q Hq; assert (tmp ≠ q) by (intros <-; apply Hq; done)|]; framed; done.

Lemma wp_download url want s (Qe : error → Sys → Prop) Qo :
  (∀ e s1, same_outside is_dl s s1 → Qe e s1) →
  (∀ tmp s1 body, is_dl tmp → same_outside is_dl s s1 → data_at tmp s1 = Some body →
     digest body = want → Qo tmp s1) →
  wp (download url want) s Qe Qo.
Proof.
  intros He Ho. unfold download. apply wp_bind, wp_httpGet.
  { intros e s1 Hs. apply He. eapply same_outside_weaken; [exact Hs|]. by intros q ?%elem_of_nil. }
  intros [[status body] failed] s1 Hs1. case_decide; [sys_step|].
  { apply He. eapply same_outside_weaken; [exact Hs1|]. by intros q ?%elem_of_nil. }
  apply wp_bind, wp_CreateTemp.
  { intros e s2 Hs2. apply He. split; [intros q Hq|]; framed; done. }
  intros x tmp s2 Htmp Hnew Hs2 Hdata. assert (is_dl tmp) as Hdl by by exists x. clear Htmp.
  unfold copyInto, abandon. destruct failed as [e|]; repeat sys_step; try case_decide; repeat sys_step.
  all: try (apply He; outside is_dl tmp).
  all: apply (Ho _ _ body); [done|outside is_dl tmp| |done]; framed;
    match goal with Hd : _ = (λ d, _) <$> _ |- _ => rewrite Hd, Hdata end; done.
Qed.

Lemma wp_extractLoop items s (Qe : error → Sys → Prop) (Qo : Path * string → Sys → Prop) :
  (∀ e s1, same_outside is_bin s s1 → Qe e s1) →
  (∀ out s1 bin, is_bin out → same_outside is_bin s s1 → data_at out s1 = Some bin →
     custosd_of items = Some bin → Qo (out, digest bin) s1) →
  wp (extractLoop items) s Qe Qo.
Proof.
  intros He. revert Qo. induction items as [|[name content failed|e] items IH]; intros Qo Ho; simpl.
  - sys_step. by apply He.
  - case_decide as Hn; [apply IH; intros; eapply Ho; try done; simpl; by rewrite decide_True|].
    apply wp_bind, wp_CreateTemp.
    { intros e s2 Hs2. apply He. split; [intros q Hq|]; framed; done. }
    intros x tmp s2 Htmp Hnew Hs2 Hdata. assert (is_bin tmp) as Hbin by by exists x. clear Htmp.
    unfold copyInto, abandon. destruct failed as [e|]; repeat sys_step.
    all: try (apply He; outside is_bin tmp).
    all: apply Ho; [done|outside is_bin tmp| |simpl; by rewrite decide_False by tauto];
      destruct_and!; framed;
      repeat match goal with
      | Hd : f_data <$> sys_files ?s1 !! ?t = _ |- context [sys_files ?s1 !! ?t] => rewrite Hd
      end; done.
  - sys_step. by apply He.
Qed.

Lemma is_bin_others q : is_bin q → ¬ is_dl q ∧ ¬ (temp_of metaPath q ∨ q = metaPath) ∧ q ≠ stagedPath.
Proof. intros [x ->]. split_and!; [by intros [y [=]]|by intros [[y [=]]|[=]]|done]. Qed.
Lemma is_dl_others q : is_dl q → ¬ is_bin q ∧ ¬ (temp_of metaPath q ∨ q = metaPath) ∧ q ≠ stagedPath.
Proof. intros [x ->]. split_and!; [by intros [y [=]]|by intros [[y [=]]|[=]]|done]. Qed.

Lemma wp_extractBinary tarPath body s (Qe : error → Sys → Prop) (Qo : Path * string → Sys → Prop) :
  data_at tarPath s = Some body →
  (∀ e s1, same_outside is_bin s s1 → Qe e s1) →
  (∀ out s1 bin items, is_bin out → same_outside is_bin s s1 → data_at out s1 = Some bin →
     read_targz body = inr items → custosd_of items = Some bin → Qo (out, digest bin) s1) →
  wp (extractBinary tarPath) s Qe Qo.
Proof.
  intros Hbody He Ho. unfold extractBinary. apply wp_bind, wp_ReadFile.
  { intros e s1 Hs. apply He. split; [intros q Hq|]; framed; done. }
  intros d s1 Hs1 Hd. assert (d = body) as -> by congruence.
  destruct (read_targz body) as [e|items]; [sys_step|].
  { apply He. split; [intros q Hq|]; framed; done. }
  apply wp_extractLoop.
  - intros e s2 Hs2. apply He. split; [intros q Hq|]; framed; done.
  - intros out s2 bin Hout Hs2 Hbin Hof. eapply Ho; [done| |done..].
    split; [intros q Hq|]; framed; done.
Qed.

(** What a staging may do: the staged binary is as it was, or it is out of an
    archive with the announced digest. *)
Definition staged_ok (up : Upgrade) (s s1 : Sys) : Prop :=
  same_outside (λ q, scratch q ∨ q = stagedPath) s s1 ∧
  (sys_files s1 !! stagedPath = sys_files s !! stagedPath ∨
   ∃ bin, data_at stagedPath s1 = Some bin ∧ authentic (eq up) bin).

Lemma staged_untouched up s s1 : same_outside scratch s s1 → staged_ok up s s1.
Proof.
  intros Hs. split; [eapply same_outside_weaken; [exact Hs|by left]|]. left.
  apply (proj1 Hs), staged_not_scratch.
Qed.

Lemma wp_stageUpgradeFrom up url s :
  wp (stageUpgradeFrom up url) s (λ _ s1, staged_ok up s s1) (λ _ s1, staged_ok up s s1).
Proof.
  unfold stageUpgradeFrom. cbv zeta. case_decide as Hw; [sys_step; by apply staged_untouched|].
  sys_step. sys_step; [by apply staged_untouched; split; [intros q Hq|]; framed|].
  sys_step. apply wp_download.
  { intros e s2 Hs2. apply staged_untouched.
    split; [intros q Hq; assert (¬ is_dl q) by (unfold scratch in Hq; tauto)|]; framed; done. }
  intros tar s2 body Htar Hs2 Hbody Hdig. sys_step. sys_step. eapply wp_extractBinary; [done| |].
  { intros e s3 Hs3 s4 Hs4. apply staged_untouched. split; [|framed; done].
    intros q Hq. assert (¬ is_dl q ∧ ¬ is_bin q) as [? ?] by (unfold scratch in Hq; tauto).
    assert (tar ≠ q) by congruence. framed. done. }
  intros out s3 bin items Hout Hs3 Hbin Hitems Hof. cbv beta iota zeta. sys_step.
  destruct (is_bin_others out Hout) as (Hno1 & Hno2 & Hno3).
  destruct (is_dl_others tar Htar) as (Hnt1 & Hnt2 & Hnt3).
  pose proof staged_not_scratch as Hst.
  assert (∀ q, ¬ scratch q → ¬ is_dl q ∧ ¬ is_bin q ∧ ¬ temp_of metaPath q ∧
    ¬ (temp_of metaPath q ∨ q = metaPath) ∧ tar ≠ q ∧ out ≠ q) as Hsep.
  { intros q Hq. unfold scratch in Hq. split_and!; try tauto; intros <-; tauto. }
  sys_step. apply wp_atomicWrite; [apply meta_not_temp| |].
  { intros e s4 Hs4 s5 Hs5 s6 Hs6. apply staged_untouched. split; [|framed; done].
    intros q Hq. destruct (Hsep q Hq) as (? & ? & ? & ? & ? & ?). framed. done. }
  intros u4 s4 Hs4 Hmeta. sys_step.
  - (* the rename failed *)
    apply staged_untouched. split; [|framed; done].
    intros q Hq. destruct (Hsep q Hq) as (? & ? & ? & ? & ? & ?). framed. done.
  - destruct (Hsep stagedPath Hst) as (? & ? & ? & ? & ? & ?). split.
    + split; [|framed; done]. intros q Hq. destruct (Hsep q ltac:(tauto)) as (? & ? & ? & ? & ? & ?).
      assert (stagedPath ≠ q) by (intros <-; tauto). framed. done.
    + right. exists bin. split.
      * framed. match goal with Hr : sys_files _ !! stagedPath = sys_files _ !! out |- _ => rewrite Hr end.
        framed. done.
      * exists up, body, items. split_and!; try done. rewrite Hdig.
        destruct (Upgrade_SHA256 up !! arch); done.
Qed.

(** ** Applying *)

Lemma beside_ne p ext : ext ≠ "" → beside p ext ≠ p.
Proof.
  destruct p as [d b]. unfold beside. simpl. intros He [= Hb].
  apply (f_equal String.length) in Hb. rewrite string_length_app in Hb.
  destruct ext; [done|]. simpl in Hb. lia.
Qed.

Lemma wp_copyFile src dest perm s (Qe : error → Sys → Prop) (Qo : unit → Sys → Prop) :
  (∀ e s1, same_but [dest] s s1 → Qe e s1) →
  (∀ u s1 d, same_but [dest] s s1 → data_at src s = Some d →
     sys_files s1 !! dest = Some {| f_data := d; f_mode := perm |} → Qo u s1) →
  wp (copyFile src dest perm) s Qe Qo.
Proof.
  intros He Ho. unfold copyFile. repeat sys_step.
  all: try (apply He; split; [intros q Hq|]; framed; done).
  eapply Ho; [split; [intros q Hq|]; framed; done|eassumption|].
  destruct_and!. framed.
  match goal with Hm : f_mode <$> sys_files ?x !! dest = _ |- sys_files ?x !! dest = _ =>
    destruct (sys_files x !! dest) as [[d' m]|] end; simplify_eq/=.
  repeat match goal with Hx : f_data <$> sys_files ?x !! dest = _,
    Hd : Some _ = ?rhs |- _ => rewrite Hx in Hd end.
  by simplify_eq/=.
Qed.

Lemma copyFile_same src dest perm : preserves (same_but [dest]) (copyFile src dest perm).
Proof.
  intros s. pose proof (wp_copyFile src dest perm s (λ _ s1, same_but [dest] s s1)
    (λ _ s1, same_but [dest] s s1)) as Hw. unfold wp in Hw.
  destruct (copyFile src dest perm s) as [[e|u] s1]; by apply Hw.
Qed.

Lemma wp_replaceExecutable src dest s (Qe : error → Sys → Prop) (Qo : unit → Sys → Prop) :
  (∀ e s1, same_but [beside dest ".new"] s s1 → Qe e s1) →
  (∀ u s1 d, same_but [beside dest ".new"; dest] s s1 → data_at src s = Some d →
     sys_files s1 !! dest = Some {| f_data := d; f_mode := mode_0755 |} → Qo u s1) →
  wp (replaceExecutable src dest) s Qe Qo.
Proof.
  intros He Ho. unfold replaceExecutable. pose proof (beside_ne dest ".new" ltac:(done)) as Hne.
  set (tmp := beside dest ".new") in *. sys_step. apply wp_copyFile.
  { intros e s1 Hs. by apply He. }
  intros u s1 d Hs1 Hd Hf. repeat sys_step.
  all: try (apply He; split; [intros q Hq|]; framed; done).
  eapply Ho; [split; [intros q Hq; apply not_elem_of_cons in Hq as [? [? _]%not_elem_of_cons]|];
    framed; done|done|].
  match goal with Hr : sys_files _ !! dest = sys_files _ !! tmp |- _ => by rewrite Hr end.
Qed.

(** The checks a staged binary passed before it was installed: its digest is
    the one in the metadata, and run as [version] it printed the version the
    metadata names. *)
Definition verified (s : Sys) (bin : bytes) : Prop :=
  ∃ raw meta t files out,
    data_at metaPath s = Some raw ∧ unmarshal StagedMeta_of_json raw = Some meta ∧
    data_at stagedPath s = Some bin ∧ digest bin = meta_BinSHA256 meta ∧
    files !! stagedPath = sys_files s !! stagedPath ∧
    sys_exec t [pathString stagedPath; "version"] files = inr out ∧
    Contains out (meta_Version meta) = true.

Definition touched (q : Path) : Prop :=
  q = stagedPath ∨ q = metaPath ∨ q = installBin ∨ q = beside installBin ".new" ∨
  q = beside installBin ".prev".

(** What applying an update may do. *)
Definition applied_ok (s s1 : Sys) : Prop :=
  same_outside touched s s1 ∧
  (sys_files s1 !! stagedPath = sys_files s !! stagedPath ∨ sys_files s1 !! stagedPath = None) ∧
  (sys_files s1 !! installBin = sys_files s !! installBin ∨
   ∃ bin, verified s bin ∧
     sys_files s1 !! installBin = Some {| f_data := bin; f_mode := mode_0755 |}).

(** A removal either left the file or deleted it. *)
Lemma Remove_gone p s : let s1 := (Remove p s).2 in
  sys_files s1 !! p = sys_files s !! p ∨ sys_files s1 !! p = None.
Proof.
  unfold Remove, syscall. destruct (sys_fault _); [by left|].
  destruct (sys_files s !! p) eqn:Hp; simpl; [|by left; rewrite Hp]. right. apply lookup_delete_eq.
Qed.
Lemma wp_ignore_Remove p s (Qe : error → Sys → Prop) (Qo : unit → Sys → Prop) :
  (∀ s1, same_but [p] s s1 →
     sys_files s1 !! p = sys_files s !! p ∨ sys_files s1 !! p = None → Qo tt s1) →
  wp (ignore (Remove p)) s Qe Qo.
Proof.
  intros Hq. unfold wp, ignore. apply Hq; [apply (Remove_same p s)|apply (Remove_gone p s)].
Qed.

Context (Hdir : updateDir ≠ "/usr/local/bin").

Lemma paths_differ :
  stagedPath ≠ metaPath ∧ stagedPath ≠ installBin ∧ stagedPath ≠ beside installBin ".new" ∧
  stagedPath ≠ beside installBin ".prev" ∧ metaPath ≠ installBin ∧
  installBin ≠ beside installBin ".new" ∧ installBin ≠ beside installBin ".prev".
Proof. split_and!; intros [=]; done. Qed.

Lemma wp_discardStaged s0 s :
  same_but [] s0 s → wp discardStaged s (λ _ s1, applied_ok s0 s1) (λ _ s1, applied_ok s0 s1).
Proof.
  intros Hs. destruct paths_differ as (? & ? & ? & ? & ? & ? & ?). unfold discardStaged.
  apply wp_bind, wp_ignore_Remove. intros s1 Hs1 Hg1. apply wp_ignore_Remove. intros s2 Hs2 Hg2.
  split_and!.
  - split; [|framed; done]. intros q Hq. unfold touched in Hq.
    assert (q ≠ stagedPath ∧ q ≠ metaPath) as [? ?] by tauto. framed. done.
  - framed. destruct Hg1 as [->| ->]; [left|by right]. framed. done.
  - left. framed. done.
Qed.

Lemma wp_readMeta path s (Qe : error → Sys → Prop) (Qo : StagedMeta → Sys → Prop) :
  (∀ e s1, same_but [] s s1 → Qe e s1) →
  (∀ m raw s1, same_but [] s s1 → data_at path s = Some raw →
     unmarshal StagedMeta_of_json raw = Some m → Qo m s1) →
  wp (readMeta path) s Qe Qo.
Proof.
  intros He Ho. unfold readMeta. apply wp_bind, wp_ReadFile; [done|]. intros raw s1 Hs Hd.
  destruct (unmarshal _ raw) eqn:Hm; sys_step; [by eapply Ho|by apply He].
Qed.
Lemma wp_fileSHA256 path s (Qe : error → Sys → Prop) (Qo : string → Sys → Prop) :
  (∀ e s1, same_but [] s s1 → Qe e s1) →
  (∀ d s1, same_but [] s s1 → data_at path s = Some d → Qo (digest d) s1) →
  wp (fileSHA256 path) s Qe Qo.
Proof.
  intros He Ho. unfold fileSHA256. apply wp_bind, wp_ReadFile; [done|]. intros d s1 Hs Hd. sys_step.
  by apply Ho.
Qed.
Lemma wp_smokeTest bin want s (Qe : error → Sys → Prop) (Qo : unit → Sys → Prop) :
  (∀ e s1, same_but [] s s1 → Qe e s1) →
  (∀ u out s1, same_but [] s s1 →
     sys_exec (sys_tick s) [pathString bin; "version"] (sys_files s) = inr out →
     Contains out want = true → Qo u s1) →
  wp (smokeTest bin want) s Qe Qo.
Proof.
  intros He Ho. unfold smokeTest. apply wp_bind, wp_Exec; [done|]. intros out s1 Hs Hx.
  destruct (Contains out want) eqn:Hc; sys_step; [by eapply Ho|by apply He].
Qed.

(** The swap, once the checks have passed. *)
Lemma wp_swapStaged s0 s bin :
  same_but [] s0 s → verified s0 bin →
  wp swapStaged s (λ _ s1, applied_ok s0 s1) (λ _ s1, applied_ok s0 s1).
Proof.
  intros Hs Hv. destruct paths_differ as (? & ? & ? & ? & ? & ? & ?). unfold swapStaged.
  assert (∀ s1, same_but [beside installBin ".prev"] s s1 → wp
    ((replaceExecutable stagedPath installBin <!> λ e, throw (ErrMsg "apply-update: swap failed"));;;
     ignore (Remove stagedPath);;; ignore (Remove metaPath)) s1
    (λ _ s1, applied_ok s0 s1) (λ _ s1, applied_ok s0 s1)) as Hrest; cycle 1.
  { sys_step. sys_step. eapply wp_preserves; [apply copyFile_same|..]; intros; by apply Hrest. }
  intros s1 Hs1. sys_step. sys_step. apply wp_replaceExecutable.
  - intros e s2 Hs2. sys_step. split_and!; [|left; framed; done..].
    split; [|framed; done]. intros q Hq. unfold touched in Hq.
    assert (q ≠ beside installBin ".new" ∧ q ≠ beside installBin ".prev") as [? ?] by tauto.
    framed. done.
  - intros u s2 d Hs2 Hd Hf. apply wp_bind, wp_ignore_Remove. intros s3 Hs3 Hg3.
    apply wp_ignore_Remove. intros s4 Hs4 Hg4. split_and!.
    + split; [|framed; done]. intros q Hq. unfold touched in Hq.
      assert (q ≠ stagedPath ∧ q ≠ metaPath ∧ q ≠ installBin ∧ q ≠ beside installBin ".new" ∧
        q ≠ beside installBin ".prev") as (? & ? & ? & ? & ?) by tauto. framed. done.
    + framed. destruct Hg3 as [->| ->]; [left|by right]. framed. done.
    + right. exists bin. split; [done|]. framed. rewrite Hf.
      destruct Hv as (? & ? & ? & ? & ? & ? & ? & Hbin & ?). unfold data_at in Hbin. congruence.
Qed.

Lemma wp_applyStaged s0 s :
  same_but [] s0 s → wp applyStaged s (λ _ s1, applied_ok s0 s1) (λ _ s1, applied_ok s0 s1).
Proof.
  intros Hs. unfold applyStaged. sys_step. sys_step. apply wp_readMeta.
  { intros e s2 Hs2. apply wp_discardStaged. by etransitivity. }
  intros m raw s2 Hs2 Hraw Hm. sys_step. sys_step. apply wp_fileSHA256.
  { intros e s3 Hs3. rewrite decide_True by done. apply wp_discardStaged.
    by do 2 (etransitivity; [done|]). }
  intros d s3 Hs3 Hd. case_decide as Hsum.
  { apply wp_discardStaged. by do 2 (etransitivity; [done|]). }
  sys_step. sys_step. apply wp_smokeTest.
  { intros e s4 Hs4. apply wp_discardStaged. by do 3 (etransitivity; [done|]). }
  intros u out s4 Hs4 Hx Hc. apply (wp_swapStaged s0 s4 d).
  { by do 3 (etransitivity; [done|]). }
  exists raw, m, (sys_tick s3), (sys_files s3), out. framed. split_and!; try done. congruence.
Qed.

Lemma wp_cmdApplyUpdate root s :
  wp (cmdApplyUpdate root) s (λ _ s1, applied_ok s s1) (λ _ s1, applied_ok s s1).
Proof.
  assert (∀ s1, same_but [] s s1 → applied_ok s s1) as Hsame.
  { intros s1 Hs1. split_and!; [|left; framed; done..]. split; [intros q Hq|]; framed; done. }
  unfold cmdApplyUpdate. sys_step. sys_step. apply wp_Stat; intros; case_decide; try (sys_step; auto);
    destruct root; simpl; try (sys_step; auto); by apply wp_applyStaged.
Qed.

(** ** Runs *)

(** The daemon stages upgrades that were sent to it; the service manager runs
    [apply-update] before every start; the process may also be started by
    hand without root. *)
Inductive update_step (sent : Upgrade → Prop) : Sys → Sys → Prop :=
  | step_stage up s : sent up → update_step sent s (stageUpgrade up s).2
  | step_apply root s : update_step sent s (cmdApplyUpdate root s).2.

(** The installed binary is the original or an authentic one; what is staged
    is authentic. *)
Record update_inv (sent : Upgrade → Prop) (original : bytes) (s : Sys) : Prop := {
  inv_installed : ∃ bin, data_at installBin s = Some bin ∧ (bin = original ∨ authentic sent bin);
  inv_staged bin : data_at stagedPath s = Some bin → authentic sent bin }.

Lemma authentic_mono (P Q : Upgrade → Prop) bin :
  (∀ up, P up → Q up) → authentic P bin → authentic Q bin.
Proof. intros HPQ (up & a & items & Hup & ?). exists up, a, items. split; [by apply HPQ|done]. Qed.

Lemma update_step_inv sent original s s' :
  update_step sent s s' → update_inv sent original s → update_inv sent original s'.
Proof using Hdir.
  destruct paths_differ as (? & Hsi & ? & ? & Hmi & ? & ?).
  intros [up s1 Hup|root s1] [(bin & Hbin & Hok) Hst].
  - pose proof (wp_stageUpgradeFrom up (tarballURL (Upgrade_Version up) arch) s1) as Hw.
    assert (staged_ok up s1 (stageUpgrade up s1).2) as [[Hsame _] Hstaged].
    { unfold wp in Hw. unfold stageUpgrade. by destruct (stageUpgradeFrom _ _ s1) as [[e|u] s2]. }
    split.
    + exists bin. split; [|done]. unfold data_at. rewrite Hsame; [done|].
      unfold scratch, is_dl, is_bin, temp_of, metaPath, stagedPath, installBin.
      intros [[[x [=]]|[[x [=]]|[[x [=]]|[=]]]]|[=]]; done.
    + intros b. destruct Hstaged as [Heq|(b' & Hb' & Hauth)].
      * unfold data_at. rewrite Heq. apply Hst.
      * rewrite Hb'. intros [= <-]. eapply authentic_mono; [|done]. by intros ? <-.
  - pose proof (wp_cmdApplyUpdate root s1) as Hw.
    assert (applied_ok s1 (cmdApplyUpdate root s1).2) as (_ & Hstaged & Hinst).
    { unfold wp in Hw. by destruct (cmdApplyUpdate root s1) as [[e|u] s2]. }
    split.
    + destruct Hinst as [Heq|(b & Hv & Hb)].
      * exists bin. split; [|done]. unfold data_at. by rewrite Heq.
      * exists b. unfold data_at. rewrite Hb. split; [done|]. right.
        destruct Hv as (? & ? & ? & ? & ? & ? & ? & Hd & _). by apply Hst.
    + intros b. unfold data_at. destruct Hstaged as [-> | ->]; [apply Hst|done].
Qed.

(** C12: however upgrades and restarts go, the host keeps a working agent from
    a trusted source: starting with an installed binary and nothing staged,
    after any sequence of stagings of upgrades the control plane sent (with
    any downloads, any archives, any system calls failing midway) and of
    [apply-update] runs, the binary at the install path exists and is whole:
    it is the original one, or one taken out of an archive whose SHA-256 is
    the digest that a sent upgrade names for this architecture. *)
Theorem installed_binary_stays_authentic sent original s s' :
  data_at installBin s = Some original → data_at stagedPath s = None →
  rtc (update_step sent) s s' →
  ∃ bin, data_at installBin s' = Some bin ∧ (bin = original ∨ authentic sent bin).
Proof using Hdir.
  intros Ho Hs Hr. apply (inv_installed sent original s').
  assert (update_inv sent original s) as Hinv by (split; [eauto|by rewrite Hs]).
  clear Ho Hs. induction Hr as [|s1 s2 s3 Hstep _ IH]; [done|]. by eapply IH, update_step_inv.
Qed.

(** The swap is guarded and reversible in effect: whatever fails,
    [apply-update] leaves the installed file exactly as it was, contents and
    mode, or replaces it by the staged bytes, executable, after their digest
    matched the metadata and the staged binary itself reported the version
    named there; without root it never touches it. *)
Theorem updates_are_verified_before_the_swap root s r s' :
  cmdApplyUpdate root s = (r, s') →
  sys_files s' !! installBin = sys_files s !! installBin ∨
  (root = true ∧ ∃ bin, verified s bin ∧
     sys_files s' !! installBin = Some {| f_data := bin; f_mode := mode_0755 |}).
Proof using Hdir.
  intros Hr. pose proof (wp_cmdApplyUpdate root s) as Hw. unfold wp in Hw. rewrite Hr in Hw.
  assert (applied_ok s s') as (_ & _ & Hi) by by destruct r.
  destruct root; [destruct Hi; eauto|left].
  assert (wp (cmdApplyUpdate false) s (λ _ s1, same_but [] s s1) (λ _ s1, same_but [] s s1)) as Hw'.
  { unfold cmdApplyUpdate. sys_step. sys_step.
    apply wp_Stat; intros; case_decide; simpl; sys_step; done. }
  unfold wp in Hw'. rewrite Hr in Hw'. assert (same_but [] s s') by by destruct r. framed. done.
Qed.
End update.

(** ** Witnesses *)

(** An archive is its one binary; every download gives the new release. *)
#[export] Instance demo_targz : TarGz | 100 := λ archive, inr [TarEntry "custosd" archive None].
Definition demo_release (_ : nat) (_ : string) : error + (Z * bytes * option error) :=
  inr (200, "custosd v2", None).
Definition demo_upgrade : Upgrade :=
  {| Upgrade_Version := "v2"; Upgrade_SHA256 := {[ "amd64" := digest "custosd v2" ]} |}.
Definition demo_dir := "/var/lib/custos/update".

(** The host after the upgrade was staged and applied: the new binary runs. *)
Definition demo_updated : Sys :=
  (cmdApplyUpdate demo_dir true (stageUpgrade demo_release demo_dir "amd64" demo_upgrade demo_sys).2).2.

Lemma installed_binary_stays_authentic_witness :
  data_at installBin demo_updated = Some "custosd v2" ∧
  ∃ bin, data_at installBin demo_updated = Some bin ∧
         (bin = "custosd v1" ∨ authentic "amd64" (eq demo_upgrade) bin).
Proof.
  split; [vm_compute; reflexivity|].
  apply (installed_binary_stays_authentic demo_release demo_dir "amd64" ltac:(discriminate)
    (eq demo_upgrade) "custosd v1" demo_sys demo_updated).
  - vm_compute. reflexivity.
  - vm_compute. reflexivity.
  - eapply rtc_l; [exact (step_stage demo_release demo_dir "amd64" (eq demo_upgrade) demo_upgrade demo_sys eq_refl)|].
    apply rtc_once. apply step_apply.
Defined.

Lemma updates_are_verified_before_the_swap_witness :
  let s := (stageUpgrade demo_release demo_dir "amd64" demo_upgrade demo_sys).2 in
  sys_files demo_updated !! installBin = sys_files s !! installBin ∨
  (true = true ∧ ∃ bin, verified demo_dir s bin ∧
     sys_files demo_updated !! installBin = Some {| f_data := bin; f_mode := mode_0755 |}).
Proof.
  cbv zeta.
  apply (updates_are_verified_before_the_swap demo_dir ltac:(discriminate) true
    (stageUpgrade demo_release demo_dir "amd64" demo_upgrade demo_sys).2
    (cmdApplyUpdate demo_dir true (stageUpgrade demo_release demo_dir "amd64" demo_upgrade demo_sys).2).1
    demo_updated).
  apply surjective_pairing.
Defined.
