(* ===== verification/Install.v ===== *)
(** Installing and uninstalling on a host: the sshd drop-in
    ([internal/daemon/sshd.go]), [custosd install] and [custosd uninstall]
    ([cmd/daemon/{install,uninstall}.go]), on the file system of [Fs].

    A successful [systemctl reload] makes the running sshd use the drop-in that
    is then on disk ([sys_sshd]), if its configuration takes it: without an
    active [Include] in [sshd_config] it is ignored.  Whether it does is up to
    sshd and the files ([sys_takes]); [HasInclude] is the guess of the command,
    which only warns.  The functions of [sshd.go] are taken at
    the directory [""] that every caller passes, which stands for [/etc/ssh].
    Messages on the terminal are not
    modelled, and a step that only prints a warning is ignored. *)
From Stdlib Require Import Ascii.
From S2P Require Import Prelude Text Base64 Json Protocol Crypto Http Fs Update.

(** ** sshd.go *)

Definition sshDir := "/etc/ssh".
Definition dropInName := "70-custos.conf".
Definition dropInDir := "/etc/ssh/sshd_config.d".
Definition DropInPath : Path := (dropInDir, dropInName).

Definition dropInContent (binaryPath user stateDir socket : string) : string :=
  "# Managed by custos. Do not edit." +:+ newline +:+
  "AuthorizedKeysCommand " +:+ binaryPath +:+ " authkeys --dir " +:+ stateDir +:+
  " --socket " +:+ socket +:+ " %u %t %k" +:+ newline +:+
  "AuthorizedKeysCommandUser " +:+ user +:+ newline.

Section install.
Context `{SysEnv}.

Definition WriteDropIn (binaryPath user stateDir socket : string) : M Sys error unit :=
  atomicWrite DropInPath (dropInContent binaryPath user stateDir socket) mode_0644.

Definition RemoveDropIn : M Sys error unit :=
  Remove DropInPath <!> λ e, if decide (e = ErrNotExist) then ret tt else throw e.

(** The loop of [HasInclude] over the lines of [sshd_config]. *)
Definition includes (data : bytes) : bool :=
  existsb (λ line,
    let f := TrimSpace line in
    negb (bool_decide (f = "")) && negb (HasPrefix f "#") &&
    HasPrefix (ToLowerASCII f) "include" && Contains f "sshd_config.d")
  (Split data "010"%char).
Definition HasInclude : M Sys error bool :=
  data <- ReadFile (sshDir, "sshd_config");; ret (includes data).

Definition Validate : M Sys error unit := Exec ["sshd"; "-t"];;; ret tt.

(** The drop-in an sshd that reads its configuration now uses. *)
Definition taken (s : Sys) : option bytes :=
  if sys_takes (sys_files s) then data_at DropInPath s else None.
Definition reloadUnit (unit : string) : M Sys error () := λ s,
  match sys_exec (sys_tick s) ["systemctl"; "reload"; unit] (sys_files s) with
  | inl e => (inl e, bump s)
  | inr _ => (inr tt, set_sshd (taken s) (bump s))
  end.
Definition Reload : M Sys error unit := reloadUnit "ssh" <!> λ _, reloadUnit "sshd".

(** ** install.go *)

Definition installStateDir := "/var/lib/custos".
Definition installSocket := "/run/custos/custosd.sock".
Definition installUser := "custos".
Definition installUnitPath : Path := ("/etc/systemd/system", "custosd.service").

Definition unlines (l : list string) : string := String.concat "" ((λ x, x +:+ newline) <$> l).
Definition systemdUnit : string := unlines [
  "[Unit]";
  "Description=custos daemon";
  "After=network-online.target";
  "Wants=network-online.target";
  "";
  "[Service]";
  "Type=simple";
  "User=custos";
  "Group=custos";
  "RuntimeDirectory=custos";
  "# '+' runs this as root even though the service is User=custos: it swaps in a";
  "# daemon-staged binary before start. No-op when nothing is staged.";
  "ExecStartPre=+/usr/local/bin/custosd apply-update --dir /var/lib/custos";
  "ExecStart=/usr/local/bin/custosd run --dir /var/lib/custos --socket /run/custos/custosd.sock --secret-socket /run/custos/secrets.sock";
  "Restart=always";
  "RestartSec=5";
  "";
  "[Install]";
  "WantedBy=multi-user.target"].

(** [user.Lookup], by the number of calls made so far; the uid and gid only
    go to [Chown]. *)
Definition lookupUser (lookup : nat → error + unit) : M Sys error unit := λ s,
  (lookup (sys_tick s), bump s).
Definition ensureUser (lookup : nat → error + unit) : M Sys error unit :=
  lookupUser lookup <!> λ _,
    Exec ["useradd"; "--system"; "--shell"; "/usr/sbin/nologin"; installUser];;;
    lookupUser lookup.

Definition installBinary (self : Path) : M Sys error unit :=
  if decide (self = installBin) then ret tt else
  data <- ReadFile self;;
  OpenTrunc installBin mode_0755;;;
  Write installBin data;;;
  nop_call;;;
  ignore (Chmod installBin mode_0755).

(** [MkdirAll] and [Chown] of the two directories. *)
Definition makeStateDir : M Sys error unit := nop_call;;; nop_call;;; nop_call;;; nop_call.

(** [os.WriteFile] truncates, then writes. *)
Definition installUnit : M Sys error unit :=
  OpenTrunc installUnitPath mode_0644;;;
  Write installUnitPath systemdUnit;;;
  nop_call;;;
  ignore (Exec ["systemctl"; "daemon-reload"]).

Definition setupSSHD (sshUser stateDir socket binaryPath : string) : M Sys error unit :=
  ignore HasInclude;;;
  written <- attempt (WriteDropIn binaryPath sshUser stateDir socket);;
  match written with
  | inl _ => ret tt
  | inr _ =>
      valid <- attempt Validate;;
      match valid with
      | inl _ => ignore RemoveDropIn
      | inr _ => ignore Reload
      end
  end.

Definition cmdInstall (root : bool) (self : error + Path) (lookup : nat → error + unit)
    (sshUser : string) : M Sys error unit :=
  if negb root then throw (ErrMsg "install: must run as root") else
  match self with
  | inl e => throw e
  | inr self =>
      ensureUser lookup;;;
      installBinary self;;;
      makeStateDir;;;
      installUnit;;;
      setupSSHD sshUser installStateDir installSocket (pathString installBin)
  end.

(** ** uninstall.go *)

Definition rmPath (p : Path) : M Sys error unit := ignore (Remove p).

(** [os.RemoveAll] *)
Definition under (dir : string) (p : Path) : Prop := p.1 = dir ∨ HasPrefix p.1 (dir +:+ "/") = true.
#[local] Instance under_dec dir p : Decision (under dir p).
Proof. unfold under. apply _. Defined.
Definition RemoveAll (dir : string) : M Sys error unit :=
  syscall (λ m, inr (tt, filter (λ kv, ¬ under dir kv.1) m)).

(** The drop-in goes and sshd reloads before the binary is removed. *)
Definition dropHook : M Sys error unit :=
  removed <- attempt RemoveDropIn;;
  match removed with
  | inl _ => ret tt
  | inr _ =>
      valid <- attempt Validate;;
      match valid with
      | inl _ => ret tt
      | inr _ => ignore Reload
      end
  end.

(** [notify] is the decommission request, whose failure is a warning. *)
Definition cmdUninstall (root purge skipControlPlane : bool) (notify : M Sys error unit) :
    M Sys error unit :=
  if negb root then throw (ErrMsg "uninstall: must run as root") else
  when (negb skipControlPlane) (ignore notify);;;
  ignore (Exec ["systemctl"; "disable"; "--now"; "custosd"]);;;
  dropHook;;;
  rmPath installUnitPath;;;
  ignore (Exec ["systemctl"; "daemon-reload"]);;;
  rmPath installBin;;;
  rmPath (beside installBin ".prev");;;
  when purge (
    ignore (RemoveAll installStateDir);;;
    ignore (Exec ["userdel"; installUser])).
End install.

(** ** What the commands leave *)

Section props.
Context `{SysEnv}.

Definition no_sys_faults : Prop := ∀ t, sys_fault t = None.

(** [sshd -t] accepted a configuration with this drop-in. *)
Definition accepted (content : bytes) : Prop :=
  ∃ t m out, sys_exec t ["sshd"; "-t"] m = inr out ∧ f_data <$> m !! DropInPath = Some content.

Lemma Remove_removes p s : no_sys_faults → sys_files (Remove p s).2 !! p = None.
Proof.
  intros Hf. unfold Remove, syscall. rewrite Hf. destruct (sys_files s !! p) eqn:Hp; [|done].
  apply lookup_delete_eq.
Qed.
Lemma rmPath_gone p s : no_sys_faults → sys_files (rmPath p s).2 !! p = None.
Proof. apply Remove_removes. Qed.

Lemma ignore_RemoveDropIn s :
  same_but [DropInPath] s ((ignore RemoveDropIn : M Sys error unit) s).2 ∧
  (no_sys_faults → sys_files ((ignore RemoveDropIn : M Sys error unit) s).2 !! DropInPath = None).
Proof.
  unfold ignore, RemoveDropIn, onerr. simpl. pose proof (Remove_same DropInPath s) as Hs.
  pose proof (Remove_removes DropInPath s) as Hg.
  destruct (Remove DropInPath s) as [[e|u] s1]; simpl in *; [|done]. by case_decide.
Qed.

Lemma wp_reloadUnit unit s (Qe : error → Sys → Prop) (Qo : () → Sys → Prop) :
  (∀ e s1, same_but [] s s1 → Qe e s1) →
  (∀ s1, sys_files s1 = sys_files s → sys_sshd s1 = taken s → Qo tt s1) →
  wp (reloadUnit unit) s Qe Qo.
Proof.
  intros He Ho. unfold wp, reloadUnit. destruct (sys_exec _ _ _); [apply He, same_but_bump|].
  by apply Ho.
Qed.

(** A reload changes no file; sshd then uses what it used, or what it takes of
    the files. *)
Lemma wp_ignore_Reload s (Qe : error → Sys → Prop) (Qo : () → Sys → Prop) :
  (∀ s1, sys_files s1 = sys_files s →
     sys_sshd s1 = sys_sshd s ∨ sys_sshd s1 = taken s → Qo tt s1) →
  wp (ignore Reload) s Qe Qo.
Proof.
  intros Ho. unfold wp, ignore, Reload, onerr, reloadUnit. simpl.
  repeat case_match; simplify_eq/=; apply Ho; auto.
Qed.

Definition hook_files (q : Path) : Prop := temp_of DropInPath q ∨ q = DropInPath.
Lemma dropin_not_temp : ¬ temp_of DropInPath DropInPath.
Proof. by intros [x [=]]. Qed.

Definition setup_ok (content : bytes) (s s' : Sys) : Prop :=
  (∀ q, ¬ hook_files q → sys_files s' !! q = sys_files s !! q) ∧
  (sys_sshd s' = sys_sshd s ∨ sys_sshd s' = Some content ∧ accepted content ∨
   sys_sshd s' = None ∧ sys_takes (sys_files s') = false) ∧
  (no_sys_faults → data_at DropInPath s' = Some content →
     accepted content ∨ data_at DropInPath s = Some content).

Lemma wp_ignore_HasInclude s (Qe : error → Sys → Prop) (Qo : () → Sys → Prop) :
  (∀ s1, same_but [] s s1 → Qo tt s1) → wp (ignore HasInclude) s Qe Qo.
Proof. intros Ho. unfold HasInclude. repeat sys_step; by apply Ho. Qed.

Lemma wp_setupSSHD sshUser stateDir socket binaryPath s :
  wp (setupSSHD sshUser stateDir socket binaryPath) s (λ _ _, False)
     (λ _ s', setup_ok (dropInContent binaryPath sshUser stateDir socket) s s').
Proof.
  set (content := dropInContent binaryPath sshUser stateDir socket).
  unfold setupSSHD. sys_step. apply wp_ignore_HasInclude. intros s1 Hs1.
  sys_step. sys_step. unfold WriteDropIn. apply wp_atomicWrite; [exact dropin_not_temp|..].
  { intros e s2 Hs2. sys_step. split_and!.
    - intros q Hq. assert (¬ temp_of DropInPath q) by (unfold hook_files in Hq; tauto). by framed.
    - left. by framed.
    - intros _. pose proof dropin_not_temp. framed. by right. }
  intros u s2 Hs2 Hfile. fold content in Hfile.
  assert (∀ q, ¬ hook_files q → sys_files s2 !! q = sys_files s !! q) as Hout.
  { intros q Hq. framed. done. }
  assert (sys_sshd s2 = sys_sshd s) as Hssh by (by framed).
  sys_step. sys_step. unfold Validate. sys_step. sys_step.
  - change (setup_ok content s ((ignore RemoveDropIn : M Sys error unit) s0).2).
    destruct (ignore_RemoveDropIn s0) as [Hr Hg].
    generalize dependent ((ignore RemoveDropIn : M Sys error unit) s0).2. intros s' Hr Hg.
    split_and!.
    + intros q Hq. assert (q ≠ DropInPath) by (intros ->; by apply Hq; right). by framed.
    + left. by framed.
    + intros Hf. unfold data_at. by rewrite Hg.
  - sys_step. apply wp_ignore_Reload. intros s' Hfiles Hsshd.
    assert (data_at DropInPath s0 = Some content) as Hd by (unfold data_at; framed; by rewrite Hfile).
    assert (accepted content) as Hacc.
    { exists (sys_tick s2), (sys_files s2). eexists. split; [eassumption|]. by rewrite Hfile. }
    split_and!.
    + intros q Hq. rewrite Hfiles. by framed.
    + destruct Hsshd as [->| ->]; [left; by framed|right].
      unfold taken. rewrite Hfiles. destruct (sys_takes (sys_files s0)); [by left|by right].
    + by left.
Qed.

(** C33: installing only lets sshd load a drop-in it accepted.  Whatever calls
    fail while the sshd hook is set up, the command goes on, no file but the
    drop-in and its temporary files changes, and the running sshd keeps what
    it had or uses the new drop-in after [sshd -t] accepted it (or uses none,
    where its configuration does not take drop-ins); if no call fails, a new
    drop-in that [sshd -t] rejected is not left on disk. *)
Theorem sshd_loads_only_accepted_drop_ins sshUser stateDir socket binaryPath s :
  ∃ s', setupSSHD sshUser stateDir socket binaryPath s = (inr tt, s') ∧
    setup_ok (dropInContent binaryPath sshUser stateDir socket) s s'.
Proof.
  pose proof (wp_setupSSHD sshUser stateDir socket binaryPath s) as Hwp. unfold wp in Hwp.
  destruct (setupSSHD sshUser stateDir socket binaryPath s) as [[e|[]] s']; [done|]. by exists s'.
Qed.

(** ** Uninstalling *)

(** The commands [uninstall] relies on. *)
Definition sshd_valid : Prop := ∀ t m, ∃ out, sys_exec t ["sshd"; "-t"] m = inr out.
Definition reload_works : Prop := ∀ t m, ∃ out, sys_exec t ["systemctl"; "reload"; "ssh"] m = inr out.
Definition reload_fails : Prop :=
  ∀ t m u, u = "ssh" ∨ u = "sshd" → ∃ e, sys_exec t ["systemctl"; "reload"; u] m = inl e.

Lemma RemoveDropIn_ok s :
  no_sys_faults → ∃ s1, RemoveDropIn s = (inr tt, s1) ∧ same_but [DropInPath] s s1 ∧
    sys_files s1 !! DropInPath = None.
Proof.
  intros Hf. destruct (ignore_RemoveDropIn s) as [Hs Hg]. unfold ignore in *. simpl in *.
  exists (RemoveDropIn s).2. split_and!; [|done|by apply Hg].
  unfold RemoveDropIn, onerr, Remove, syscall. rewrite Hf. by destruct (sys_files s !! DropInPath).
Qed.

Lemma dropHook_run s :
  no_sys_faults → sshd_valid →
  ∃ s', dropHook s = (inr tt, s') ∧ (∀ q, q ≠ DropInPath → sys_files s' !! q = sys_files s !! q) ∧
    sys_files s' !! DropInPath = None ∧ (reload_works → sys_sshd s' = None) ∧
    (reload_fails → sys_sshd s' = sys_sshd s).
Proof.
  intros Hf Hv. destruct (RemoveDropIn_ok s Hf) as (s1 & Hr & [Hsame Hssh] & Hg).
  destruct (Hv (sys_tick s1) (sys_files s1)) as [out Hout].
  assert (∀ q, q ≠ DropInPath → sys_files s1 !! q = sys_files s !! q) as Hq.
  { intros q Hne. apply Hsame. by rewrite list_elem_of_singleton. }
  assert (dropHook s = ignore Reload (bump s1)) as ->.
  { unfold dropHook, bind, attempt. rewrite Hr. simpl. unfold Validate, bind, Exec. simpl.
    by rewrite Hout. }
  assert (∀ s2, sys_files s2 = sys_files s1 → taken s2 = None) as Htaken.
  { intros s2 Hs2. unfold taken, data_at. rewrite Hs2, Hg. by destruct (sys_takes _). }
  assert (wp (ignore Reload : M Sys error unit) (bump s1) (λ _ _, False) (λ _ s2, sys_files s2 = sys_files s1 ∧
    (sys_sshd s2 = sys_sshd s1 ∨ sys_sshd s2 = None))) as Hwp.
  { apply wp_ignore_Reload. intros s2 -> Hs2. split; [done|]. by rewrite Htaken in Hs2. }
  unfold wp in Hwp. destruct (ignore Reload (bump s1)) as [[e|[]] s2] eqn:Hrun; [done|].
  destruct Hwp as [Hfiles _]. exists s2. rewrite Hfiles. split_and!; try done.
  - intros Hw. unfold ignore, Reload, onerr, reloadUnit in Hrun. simpl in Hrun.
    destruct (Hw (S (sys_tick s1)) (sys_files s1)) as [o Ho]. rewrite Ho in Hrun.
    injection Hrun as <-. simpl. by apply Htaken.
  - intros Hw. unfold ignore, Reload, onerr, reloadUnit in Hrun. simpl in Hrun.
    destruct (Hw (S (sys_tick s1)) (sys_files s1) "ssh") as [e1 He1]; [by left|].
    destruct (Hw (S (S (sys_tick s1))) (sys_files s1) "sshd") as [e2 He2]; [by right|].
    rewrite He1 in Hrun. simpl in Hrun. rewrite He2 in Hrun. injection Hrun as <-. simpl. congruence.
Qed.

(** Steps that only remove files. *)
Definition shrinks (s s' : Sys) : Prop := sys_files s' ⊆ sys_files s ∧ sys_sshd s' = sys_sshd s.
#[local] Instance shrinks_preorder : PreOrder shrinks.
Proof. split; [by intros s|]. intros s1 s2 s3 [? ?] [? ?]. split; [by etrans|congruence]. Qed.
Lemma shrinks_gone s s' p : shrinks s s' → sys_files s !! p = None → sys_files s' !! p = None.
Proof. intros [Hsub _] Hp. by eapply lookup_weaken_None. Qed.

Lemma rmPath_shrinks p : preserves shrinks (rmPath p).
Proof.
  intros s. unfold rmPath, ignore, Remove, syscall. simpl. destruct (sys_fault _); [done|].
  destruct (sys_files s !! p); [|done]. split; [apply delete_subseteq|done].
Qed.
Lemma exec_shrinks argv : preserves shrinks (ignore (Exec argv) : M Sys error unit).
Proof. by intros s. Qed.
Lemma RemoveAll_shrinks dir : preserves shrinks (ignore (RemoveAll dir) : M Sys error unit).
Proof.
  intros s. unfold ignore, RemoveAll, syscall. simpl. destruct (sys_fault _); [done|].
  split; [apply map_filter_subseteq|done].
Qed.

(** Steps that cannot fail. *)
Lemma wp_sure (R : Sys → Sys → Prop) (m : M Sys error unit) s (Qe : error → Sys → Prop) (Qo : () → Sys → Prop) :
  preserves R m → (m s).1 = inr tt → (∀ s1, R s s1 → Qo tt s1) → wp m s Qe Qo.
Proof.
  intros Hm Hr Hq. unfold wp. specialize (Hm s). destruct (m s) as [r s']; simpl in *. subst. auto.
Qed.
Lemma wp_rmPath p s (Qe : error → Sys → Prop) (Qo : () → Sys → Prop) :
  no_sys_faults → (∀ s1, shrinks s s1 → sys_files s1 !! p = None → Qo tt s1) → wp (rmPath p) s Qe Qo.
Proof. intros Hf Hq. apply Hq; [apply rmPath_shrinks|by apply rmPath_gone]. Qed.

Definition installed_paths : list Path :=
  [DropInPath; installUnitPath; installBin; beside installBin ".prev"].

(** What is left once the hook is dropped. *)
Lemma wp_uninstall_files purge s :
  no_sys_faults → sys_files s !! DropInPath = None →
  wp (rmPath installUnitPath;;; ignore (Exec ["systemctl"; "daemon-reload"]);;;
      rmPath installBin;;; rmPath (beside installBin ".prev");;;
      when purge (ignore (RemoveAll installStateDir);;; ignore (Exec ["userdel"; installUser]))) s
    (λ _ _, False)
    (λ _ s', sys_sshd s' = sys_sshd s ∧ ∀ p, p ∈ installed_paths → sys_files s' !! p = None).
Proof.
  intros Hf Hd. apply wp_bind, wp_rmPath; [done|]. intros s1 R1 G1.
  apply wp_bind, (wp_sure shrinks); [apply exec_shrinks|done|]. intros s2 R2.
  apply wp_bind, wp_rmPath; [done|]. intros s3 R3 G3.
  apply wp_bind, wp_rmPath; [done|]. intros s4 R4 G4.
  apply (wp_mono _ _ (λ _ _, False) _ (λ _ s', shrinks s4 s')); [|done|].
  - destruct purge; [|by apply wp_ret]. apply wp_bind, (wp_sure shrinks); [apply RemoveAll_shrinks|done|].
    intros s5 R5. apply (wp_sure shrinks); [apply exec_shrinks|done|]. intros s6 R6. by etrans.
  - intros _ s' R5. split.
    + rewrite (proj2 R5), (proj2 R4), (proj2 R3), (proj2 R2). apply R1.
    + intros p Hp. unfold installed_paths in Hp. repeat (apply elem_of_cons in Hp as [->|Hp]);
        [| | | |by apply elem_of_nil in Hp]; eauto 10 using shrinks_gone.
Qed.

(** Uninstalling removes the sshd hook, the service and the binary.  When
    no file operation fails and sshd's configuration is valid, the drop-in,
    the unit, the binary and its backup are gone.  If the reload works, the
    running sshd no longer has the hook; if it fails, uninstalling goes on all
    the same and the running sshd keeps a hook whose program is gone. *)
Theorem uninstall_removes_hook_and_binary purge skip notify s :
  no_sys_faults → sshd_valid → preserves (same_but []) notify →
  ∃ s', cmdUninstall true purge skip notify s = (inr tt, s') ∧
    (∀ p, p ∈ installed_paths → sys_files s' !! p = None) ∧
    (reload_works → sys_sshd s' = None) ∧ (reload_fails → sys_sshd s' = sys_sshd s).
Proof.
  intros Hf Hv Hn.
  assert (wp (cmdUninstall true purge skip notify) s (λ _ _, False) (λ _ s',
    (∀ p, p ∈ installed_paths → sys_files s' !! p = None) ∧
    (reload_works → sys_sshd s' = None) ∧ (reload_fails → sys_sshd s' = sys_sshd s))) as Hwp.
  - unfold cmdUninstall. simpl. apply wp_bind, (wp_sure (same_but [])).
    { destruct skip; simpl; [by intros s1|]. intros s1. apply (Hn s1). }
    { by destruct skip. }
    intros s1 [_ E1].
    apply wp_bind, (wp_sure (same_but [])); [intros s2; apply Exec_same|done|].
    intros s2 [_ E2]. destruct (dropHook_run s2 Hf Hv) as (s3 & Hr & _ & Hg & Hw & Hno).
    apply wp_bind. unfold wp. rewrite Hr.
    eapply wp_mono; [by apply wp_uninstall_files|done|]. intros _ s' [E3 Hgone].
    split_and!; [done|..]; intros Hx; rewrite E3; [by apply Hw|]. rewrite Hno by done. congruence.
  - unfold wp in Hwp. destruct (cmdUninstall _ _ _ _ s) as [[e|[]] s']; [done|]. by exists s'.
Qed.
End props.

(** ** Witness: a host whose sshd cannot be reloaded *)

#[local] Instance broken_reload : SysEnv := {|
  sys_fault _ := None; sys_cut _ := 0%nat; sys_temp _ := "1";
  sys_exec _ argv _ := match argv with
                       | ["systemctl"; "reload"; _] => inl (ErrMsg "exit status 1")
                       | _ => inr ""
                       end;
  sys_takes _ := true |}.
Definition demo_hook : string :=
  dropInContent (pathString installBin) installUser installStateDir installSocket.
Definition hooked_sys : Sys :=
  {| sys_files := {[ installBin := {| f_data := "custosd v1"; f_mode := mode_0755 |};
                     DropInPath := {| f_data := demo_hook; f_mode := mode_0644 |} ]};
     sys_sshd := Some demo_hook; sys_tick := 0 |}.

Lemma uninstall_removes_hook_and_binary_witness :
  ∃ s', cmdUninstall true false true (ret tt) hooked_sys = (inr tt, s') ∧
    sys_files s' !! installBin = None ∧ sys_sshd s' = Some demo_hook.
Proof.
  destruct (uninstall_removes_hook_and_binary false true (ret tt) hooked_sys)
    as (s' & Hr & Hgone & _ & Hkept).
  - intros t. reflexivity.
  - intros t m. exists "". reflexivity.
  - intros s. reflexivity.
  - exists s'. split; [exact Hr|]. split.
    + apply Hgone. apply (bool_decide_unpack _). vm_compute. exact I.
    + apply Hkept. intros t m u [->| ->]; eexists; reflexivity.
Defined.
