(* ===== verification/HostTools.v ===== *)
(** The host's side of the exchanges: what sshd's [authorized keys] command,
    [custosd exec], [custosd enroll] and [custosd uninstall] send and how they
    read the answers ([internal/daemon/{authkeys,secretsocket,enroll,
    decommission}.go], [cmd/daemon/{authkeys,exec}.go]).

    Sockets and the HTTP client are parameters: a query is answered by bytes or
    by a transport error. *)
From Stdlib Require Import Ascii.
From stdpp Require Import pretty.
From S2P Require Import Prelude Text Base64 Json Protocol Crypto Schema World Http Daemon.

Section tools.
Context `{JsonText, TimeFormat, Crypto, Disk}.

(** ** secretsocket.go *)

Definition secretResponse_json (r : secretResponse) : json :=
  match r with
  | SecretOK values =>
      JObj (("ok", JBool true) ::
            if decide (values = ∅) then [] else [("values", json_string_map values)])
  | SecretError msg => JObj (("ok", JBool false) :: omitempty "error" msg)
  end.
Definition secretResponse_of_json : json → option secretResponse :=
  as_struct (SecretError "") (λ o,
    ok ← decode_field as_bool false "ok" o; e ← decode_field as_string "" "error" o;
    v ← decode_field as_string_map ∅ "values" o;
    Some (if ok : bool then SecretOK v else SecretError e)).

(** [writeSecret]: one line of JSON. *)
Definition writeSecret (r : secretResponse) : bytes := json_print (secretResponse_json r) +:+ newline.

(** [callerIs]: the peer's uid is the named user's. *)
Definition callerIs (peerUID : error + N) (lookup : string → error + string) (username : string) : bool :=
  match peerUID with
  | inl _ => false
  | inr uid =>
      match lookup username with
      | inl _ => false
      | inr u => bool_decide (u = pretty uid)
      end
  end.

(** [fetchSetOnce]: the values, or whether to retry with the error. *)
Definition fetchSetOnce (socket : bytes → error + bytes) (name : string) :
    gmap string string + (bool * error) :=
  match socket (name +:+ newline) with
  | inl e => inr (true, e)
  | inr data =>
      match decode_stream secretResponse_of_json data with
      | None => inr (true, ErrMsg "invalid reply")
      | Some r =>
          match fetchReply r with
          | inl values => inl values
          | inr (retry, e) => inr (retry, ErrMsg e)
          end
      end
  end.

(** The loop of [FetchSet]: attempt [k] uses the socket [socket k], and
    [clock k] is the time read after it.  [None]: out of fuel. *)
Fixpoint fetchLoop (fuel : nat) (socket : nat → bytes → error + bytes) (clock : nat → Z)
    (deadline : Z) (name : string) (k : nat) : option (error + gmap string string) :=
  match fuel with
  | O => None
  | S fuel' =>
      match fetchSetOnce (socket k) name with
      | inl values => Some (inr values)
      | inr (retry, e) =>
          if negb retry || bool_decide (deadline < clock k) then Some (inl e)
          else fetchLoop fuel' socket clock deadline name (S k)
      end
  end.
Definition FetchSet (fuel : nat) (socket : nat → bytes → error + bytes) (clock : nat → Z)
    (start : Z) (name : string) (timeout : Z) : option (error + gmap string string) :=
  fetchLoop fuel socket clock (start + timeout) name 0.

(** ** cmd/daemon/exec.go *)

(** What [custosd exec] ends with: it gives up, or it is replaced by the
    program. *)
Inductive execOutcome := ExecFatal | ExecStarted (bin : string) (argv env : list string).

Definition cmdExec (fetch : string → error + gmap string string) (lookPath : string → error + string)
    (execve : string → error + unit) (environ : list string) (set : string) (cmdArgs : list string) :
    execOutcome :=
  match cmdArgs with
  | [] => ExecFatal
  | cmd :: _ =>
      if decide (set = "") then ExecFatal else
      match fetch set with
      | inl _ => ExecFatal
      | inr values =>
          match lookPath cmd with
          | inl _ => ExecFatal
          | inr bin =>
              let env := environ ++ ((λ kv, kv.1 +:+ "=" +:+ kv.2) <$> map_to_list values) in
              match execve bin with
              | inl _ => ExecFatal
              | inr _ => ExecStarted bin cmdArgs env
              end
          end
      end
  end.

(** ** authkeys.go and cmd/daemon/authkeys.go *)

(** Three attempts; [socket k] answers the [k]-th or fails. *)
Definition querySocket (socket : nat → bytes → option bytes) (fingerprint account : string) :
    option string :=
  let try_ k := (λ data, TrimRight data "010"%char) <$> socket k (authQuery fingerprint account) in
  match try_ 0%nat with
  | Some line => Some line
  | None => match try_ 1%nat with Some line => Some line | None => try_ 2%nat end
  end.

(** What is printed for sshd; [store] is what [OpenStore] gave, the files of
    the state directory or the error of making it. *)
Definition cmdAuthkeys (socket : nat → bytes → option bytes) (store : error + gmap string bytes)
    (args : list string) : string :=
  match args with
  | [user; _; keyBlob] =>
      match store with
      | inl _ => ""
      | inr disk =>
          match AuthorizedKey (querySocket socket) disk keyBlob user with
          | inl _ => ""
          | inr line => if decide (line = "") then "" else line +:+ newline
          end
      end
  | _ => ""
  end.

(** ** enroll.go *)

Definition machineIDSources : list string :=
  ["/etc/machine-id"; "/var/lib/dbus/machine-id"; "/sys/class/dmi/id/product_uuid"].
Fixpoint firstID (read : string → option bytes) (srcs : list string) : string :=
  match srcs with
  | [] => ""
  | src :: srcs' =>
      match read src with
      | None => firstID read srcs'
      | Some b => let raw := TrimSpace b in if decide (raw = "") then firstID read srcs' else raw
      end
  end.
Definition machineID (read : string → option bytes) : string :=
  let raw := firstID read machineIDSources in
  if decide (raw = "") then "" else hex (sha256 ("custos-host:" +:+ raw)).

Definition EnrollResponse_of_json : json → option EnrollResponse :=
  as_struct (Build_EnrollResponse "" "") (λ o,
    h ← decode_field as_string "" "host_id" o; k ← decode_field as_string "" "signing_public_key" o;
    Some (Build_EnrollResponse h k)).

(** [http url body]: a POST with a JSON body. *)
Definition postEnroll (http : string → bytes → error + Response) (baseURL : string)
    (req : EnrollRequest) : error + EnrollResponse :=
  let url := TrimRight baseURL "/"%char +:+ "/enroll" in
  match http url (json_print (EnrollRequest_json req)) with
  | inl e => inl e
  | inr resp =>
      if decide (resp_status resp ≠ StatusOK) then inl (ErrMsg "enroll rejected")
      else match decode_stream EnrollResponse_of_json (resp_body resp) with
           | Some out => inr out
           | None => inl (ErrMsg "invalid response")
           end
  end.

(** ** decommission.go *)

Definition decommissionURL (cfg : DaemonConfig) : string :=
  TrimRight (dc_ControlPlane cfg) "/"%char +:+ "/hosts/" +:+ dc_HostID cfg +:+ "/decommission".
Definition decommissionRequest (id : Identity.KeyPair) (hostID : string) (now : Z) :
    DecommissionRequest :=
  {| DecommissionRequest_At := now;
     DecommissionRequest_Signature := Identity.Sign id (DecommissionSigningInput hostID now) |}.
Definition Decommission (http : string → bytes → error + Response) (now : Z)
    (disk : gmap string bytes) : error + unit :=
  match LoadConfig disk with
  | inl e => inl e
  | inr cfg =>
      match LoadIdentity disk with
      | inl e => inl e
      | inr id =>
          let req := decommissionRequest id (dc_HostID cfg) now in
          match http (decommissionURL cfg) (json_print (DecommissionRequest_json req)) with
          | inl e => inl e
          | inr resp =>
              if decide (resp_status resp ≠ StatusNoContent)
              then inl (ErrMsg "control plane rejected decommission")
              else inr tt
          end
      end
  end.
End tools.
