(* ===== verification/Commands.v ===== *)
(** The commands around the packages: [custosd status] and [custosd enroll]
    ([cmd/daemon/{status,enroll}.go]), [listenSocket] of [cmd/daemon/run.go]
    and [custos create-admin] ([cmd/api/createadmin.go]).

    Flags are arguments, already parsed; [fatal] is an error.  What a command
    prints on its standard output is part of its result where a theorem speaks
    of it. *)
From Stdlib Require Import Ascii.
From stdpp Require Import pretty.
From S2P Require Import Prelude Text Base64 Json Protocol Crypto Password Schema Evolve World Http Accounts Auth Daemon Agent Fs Update HostTools.

(** ** What the commands use of [fmt] and [time] *)

(** [%-16s] *)
Definition pad_right (n : nat) (s : string) : string :=
  s +:+ implode (replicate (n - String.length s) " "%char).
(** [fmt.Printf("%-16s %s\n", label, value)] *)
Definition field (label value : string) : string := pad_right 16 label +:+ " " +:+ value +:+ newline.

(** [Duration.Round(time.Second)]: half away from zero, in seconds. *)
Definition round_seconds (d : Z) : Z :=
  let r := Z.abs d mod second in
  Z.sgn d * (Z.abs d / second + if decide (r + r < second) then 0 else 1).
(** [Duration.String] of a whole number of seconds. *)
Definition duration_string (secs : Z) : string :=
  let u := Z.abs secs in
  (if decide (secs < 0) then "-" else "") +:+
  (if decide (3600 ≤ u) then pretty (u / 3600) +:+ "h" else "") +:+
  (if decide (60 ≤ u) then pretty (u / 60 mod 60) +:+ "m" else "") +:+
  pretty (u mod 60) +:+ "s".

Section commands.
Context `{Platform, Disk}.

(** ** cmd/daemon/status.go *)

Definition presence (ok : bool) : string := if ok then "present" else "absent".
Definition is_ok {A} (r : error + A) : bool := match r with inr _ => true | inl _ => false end.

Definition connection_line (now : Z) (disk : gmap string bytes) : string :=
  match LoadStatus disk with
  | inr st =>
      field "cp connection:" ((if Connected st then "connected" else "disconnected") +:+
        " (updated " +:+ duration_string (round_seconds (now - UpdatedAt st)) +:+ " ago)")
  | inl _ => field "cp connection:" "unknown (daemon not started)"
  end.

Definition staged_line (update : gmap string bytes) : string :=
  field "staged upgrade:"
    match update !! "custosd.staged" with
    | None => "none"
    | Some _ =>
        let v := match readFile update "staged.json" with
                 | inl _ => ""
                 | inr data => match unmarshal StagedMeta_of_json data with
                               | Some m => " " +:+ meta_Version m | None => "" end
                 end in
        "yes" +:+ v +:+ " (applies on next restart)"
    end.

(** [EnrollmentError] of [store.go]; [denied] is an error of [Stat] other than
    that the file is missing. *)
Definition EnrollmentError (denied : option error) (disk : gmap string bytes) : error + unit :=
  match denied, disk !! identityFile with
  | Some e, _ => inl e
  | None, None => inl ErrNotExist
  | None, Some _ => inr tt
  end.

Definition Enrolled (denied : option error) (disk : gmap string bytes) : bool :=
  is_ok (EnrollmentError denied disk).

(** What is printed, or the error the command ends with.  [store] is what
    [OpenStore] gave: the files of the state directory and of its [update]
    directory. *)
Definition cmdStatus (version dir : string) (now : Z) (denied : option error)
    (store : error + (gmap string bytes * gmap string bytes)) : error + string :=
  match store with
  | inl e => inl e
  | inr (disk, update) =>
      let head := "custosd " +:+ version +:+ newline +:+ field "state dir:" dir in
      match EnrollmentError denied disk with
      | inl e =>
          if decide (e = ErrNotExist)
          then inr (head +:+ field "enrolled:" "no (run `custosd enroll` first)")
          else inl e
      | inr _ =>
          match LoadConfig disk with
          | inl e => inl e
          | inr cfg =>
              inr (head +:+ field "enrolled:" "yes" +:+
                field "host id:" (dc_HostID cfg) +:+
                field "control plane:" (dc_ControlPlane cfg) +:+
                connection_line now disk +:+
                field "signing key:" (presence (negb (bool_decide (dc_SigningPublicKey cfg = "")))) +:+
                field "encryption key:" (presence (is_ok (LoadEncryptionKey disk))) +:+
                match LoadCache disk with
                | inr cache => field "cached ssh keys:" (pretty (Len cache))
                | inl _ => ""
                end +:+
                staged_line update)
          end
      end
  end.

(** ** cmd/daemon/enroll.go *)

Definition DefaultDir := "/var/lib/custos".

(** [clean] is [filepath.Clean]; [enroll] is [Enroll] on the opened store. *)
Definition cmdEnroll (root : bool) (clean : string → string) (systemHostname : error + string)
    (controlPlane token hostname dir : string) (openStore : M Client error unit)
    (enroll : string → M Client error unit) : M Client error unit :=
  if decide (controlPlane = "" ∨ token = "")
  then throw (ErrMsg "enroll: --control-plane and --token are required") else
  if decide (root = true ∧ clean dir = DefaultDir)
  then throw (ErrMsg "enroll: do not run as root") else
  let run host := openStore;;; enroll host in
  if decide (hostname = "") then
    match systemHostname with
    | inl e => throw e
    | inr h => run h
    end
  else run hostname.

(** ** cmd/api/createadmin.go *)

Definition randomPassword {E} : M World E string :=
  b <- randBytes 18;; ret (EncodeToString RawURLEncoding b).

(** [Connect] of [store.go]: the pool answers a ping. *)
Definition Connect : IO unit := λ w,
  match env_fault (w_tick w) with
  | NoFault => (inr tt, step w)
  | FailBefore e | FailAfter e => (inl e, step w)
  end.

(** [CreateAdmin] of [store.go], from the password. *)
Definition createAdmin (email plain : string) : IO unit :=
  hash <- hashPassword plain;;
  CreateAdmin email hash.

(** The password of the new admin, the given one or a generated one. *)
Definition cmdCreateAdmin (email pw dbURL : string) : IO string :=
  if decide (email = "") then throw (ErrMsg "create-admin: --email is required") else
  if decide (dbURL = "") then throw (ErrMsg "create-admin: --database-url is required") else
  password <- (if decide (pw = "") then randomPassword else ret pw);;
  Connect;;;
  createAdmin email password;;;
  ret password.
End commands.

(** ** cmd/daemon/run.go: the sockets *)

(** The exit status of [custosd run] once [client.Run] returned: [ErrRestart]
    and a cancelled context are regular ends. *)
Definition runStatus (restart : bool) (err : option error) (cancelled : bool) : Z :=
  if restart then 0
  else match err with
       | Some _ => if cancelled then 0 else 1
       | None => 0
       end.

Section sockets.
Context `{SysEnv}.

(** [OpenStore] of [store.go]: the directory, made if it is missing. *)
Definition OpenStore (dir : string) : M Sys error string :=
  let dir := if decide (dir = "") then DefaultDir else dir in
  nop_call;;; ret dir.

(** [net.Listen] makes the socket's file; [ln.Close] removes it. *)
Definition listenSocket (path : Path) (mode : Z) : M Sys error unit :=
  (Remove path <!> λ e, if decide (e = ErrNotExist) then ret tt else throw e);;;
  syscall (λ m, match m !! path with
                | Some _ => inl ErrExist
                | None => inr (tt, <[path := {| f_data := ""; f_mode := mode_0755 |}]> m)
                end);;;
  (Chmod path mode <!> λ e, ignore (Remove path);;; throw e).
End sockets.
