(* ===== verification/Cli.v ===== *)
(** The command lines of the two programs: what the sources use of Go's [flag]
    package and of [time.ParseDuration], the [main] functions
    ([cmd/daemon/main.go], [cmd/api/main.go]) and the flags of every command.

    A [main] maps the arguments to the command that runs, with its flags'
    values; the commands themselves are in [HostTools], [Commands], [Install],
    [Update] and [Daemon].  On a flag error the package prints the usage and
    exits with status 2 ([flag.ExitOnError]), on [-h] with 0. *)
From Stdlib Require Import Ascii.
From S2P Require Import Prelude Text Base64 Json Protocol Crypto Schema Evolve World Http Daemon Fs HostTools Commands Install Settings.

(** ** time.ParseDuration *)

Section duration.
(** [uint64(float64(f) * (float64(unit) / scale))], in float64 arithmetic;
    [scale] is a power of ten. *)
Context (dur_fraction : Z → Z → Z → Z).

Definition maxDuration : Z := 2 ^ 63.

(** [leadingInt]: [None] past 2^63. *)
Fixpoint leadingInt (x : Z) (s : string) : option (Z * string) :=
  match s with
  | "" => Some (x, "")
  | String c s' =>
      if is_digit c then
        if decide (maxDuration / 10 < x) then None
        else let y := x * 10 + digit_val c in
             if decide (maxDuration < y) then None else leadingInt y s'
      else Some (x, s)
  end.

(** [leadingFraction]: the digits that fit in 63 bits, and their scale. *)
Fixpoint leadingFraction (x scale : Z) (overflow : bool) (s : string) : Z * Z * string :=
  match s with
  | "" => (x, scale, "")
  | String c s' =>
      if is_digit c then
        if overflow then leadingFraction x scale true s'
        else if decide ((maxDuration - 1) / 10 < x) then leadingFraction x scale true s'
        else let y := x * 10 + digit_val c in
             if decide (maxDuration < y) then leadingFraction x scale true s'
             else leadingFraction y (scale * 10) false s'
      else (x, scale, s)
  end.

(** The unit's name goes on to the next digit or dot. *)
Fixpoint unit_name (s : string) : string * string :=
  match s with
  | "" => ("", "")
  | String c s' =>
      if is_digit c || Ascii.eqb c "."%char then ("", s)
      else let '(u, r) := unit_name s' in (String c u, r)
  end.

Definition micro_sign (b1 b2 : nat) : string :=
  String (ascii_of_nat b1) (String (ascii_of_nat b2) "s").
Definition unitMap (u : string) : option Z :=
  if decide (u = "ns") then Some 1
  else if decide (u = "us" ∨ u = micro_sign 194 181 ∨ u = micro_sign 206 188) then Some 1000
  else if decide (u = "ms") then Some 1000000
  else if decide (u = "s") then Some second
  else if decide (u = "m") then Some (60 * second)
  else if decide (u = "h") then Some (3600 * second)
  else None.

(** One number with its unit: the nanoseconds and the rest. *)
Definition duration_part (s : string) : option (Z * string) :=
  '(v, s1) ← leadingInt 0 s;
  let '(f, scale, s2) :=
    match s1 with
    | String "." r => leadingFraction 0 1 false r
    | _ => (0, 1, s1)
    end in
  let pre := negb (bool_decide (s1 = s)) in
  let post := match s1 with String "." r => negb (bool_decide (s2 = r)) | _ => false end in
  if negb (pre || post) then None else
  let '(u, s3) := unit_name s2 in
  if decide (u = "") then None else
  unit ← unitMap u;
  if decide (maxDuration / unit < v) then None else
  let v := v * unit + if decide (0 < f) then dur_fraction f unit scale else 0 in
  if decide (maxDuration < v) then None else Some (v, s3).

(** [None]: out of fuel; [Some None]: an invalid duration. *)
Fixpoint duration_loop (fuel : nat) (d : Z) (s : string) : option (option Z) :=
  match fuel with
  | O => None
  | S fuel' =>
      match s with
      | "" => Some (Some d)
      | _ =>
          match duration_part s with
          | None => Some None
          | Some (v, s') =>
              if decide (maxDuration < d + v) then Some None else duration_loop fuel' (d + v) s'
          end
      end
  end.

Definition ParseDuration (s : string) : option Z :=
  let '(neg, body) :=
    match s with
    | String "-" r => (true, r)
    | String "+" r => (false, r)
    | _ => (false, s)
    end in
  if decide (body = "0") then Some 0 else
  if decide (body = "") then None else
  d ← default None (duration_loop (S (String.length body)) 0 body);
  if neg : bool then Some (- d)
  else if decide (maxDuration - 1 < d) then None else Some d.
End duration.

(** ** flag *)

Inductive flagValue :=
  | StringFlag (s : string)
  | BoolFlag (b : bool)
  | DurationFlag (d : Z).
Abbreviation FlagSet := (gmap string flagValue) (only parsing).

Inductive flagError := FlagInvalid | ErrHelp.

(** What the next argument is; a value follows an equals sign that is not the
    first character of the name. *)
Inductive flag_token := NotFlag | Terminator | BadSyntax | Flag (name : string) (value : option string).
Definition classify (s : string) : flag_token :=
  let named n :=
    match n with
    | "" | String "-" _ | String "=" _ => BadSyntax
    | String c r =>
        match Cut "="%char r with
        | Some (name, value) => Flag (String c name) (Some value)
        | None => Flag n None
        end
    end in
  match s with
  | String "-" (String "-" "") => Terminator
  | String "-" (String "-" n) => named n
  | String "-" "" => NotFlag
  | String "-" n => named n
  | _ => NotFlag
  end.

Section flags.
Context (dur_fraction : Z → Z → Z → Z).

(** [Value.Set] *)
Definition setFlag (old : flagValue) (s : string) : option flagValue :=
  match old with
  | StringFlag _ => Some (StringFlag s)
  | BoolFlag _ => BoolFlag <$> ParseBool s
  | DurationFlag _ => DurationFlag <$> ParseDuration dur_fraction s
  end.
Definition is_bool_flag (v : flagValue) : bool := match v with BoolFlag _ => true | _ => false end.

(** [FlagSet.Parse]: the flags' values and [fs.Args()]. *)
Fixpoint Parse (fs : FlagSet) (args : list string) : flagError + (FlagSet * list string) :=
  match args with
  | [] => inr (fs, [])
  | s :: rest =>
      match classify s with
      | NotFlag => inr (fs, args)
      | Terminator => inr (fs, rest)
      | BadSyntax => inl FlagInvalid
      | Flag name value =>
          match fs !! name with
          | None => inl (if decide (name = "help" ∨ name = "h") then ErrHelp else FlagInvalid)
          | Some old =>
              let value := if is_bool_flag old then Some (default "true" value) else value in
              match value with
              | Some x =>
                  match setFlag old x with
                  | Some v => Parse (<[name := v]> fs) rest
                  | None => inl FlagInvalid
                  end
              | None =>
                  match rest with
                  | [] => inl FlagInvalid
                  | x :: rest' =>
                      match setFlag old x with
                      | Some v => Parse (<[name := v]> fs) rest'
                      | None => inl FlagInvalid
                      end
                  end
              end
          end
      end
  end.

(** [*fs.String(...)] and the like, after [Parse]. *)
Definition stringOf (fs : FlagSet) (name : string) : string :=
  match fs !! name with Some (StringFlag s) => s | _ => "" end.
Definition boolOf (fs : FlagSet) (name : string) : bool :=
  match fs !! name with Some (BoolFlag b) => b | _ => false end.
Definition durationOf (fs : FlagSet) (name : string) : Z :=
  match fs !! name with Some (DurationFlag d) => d | _ => 0 end.

(** ** custosd: cmd/daemon/main.go *)

Inductive custosd_command :=
  | CmdInstall (sshUser : string)
  | CmdUninstall (purge skipControlPlane : bool)
  | CmdEnroll (controlPlane token hostname dir : string)
  | CmdAuthkeys (dir socket : string) (rest : list string)
  | CmdRun (dir socket secretSocket : string)
  | CmdExec (set socket : string) (timeout : Z) (cmdArgs : list string)
  | CmdApplyUpdate (dir : string)
  | CmdStatus (dir : string)
  | CmdVersion
  | CmdUsage                    (* exit status 2 *)
  | BadFlags                    (* exit status 2 *)
  | Help.                       (* exit status 0 *)

Definition DefaultSocket := "/run/custosd.sock".
Definition DefaultSecretSocket := "/run/custos/secrets.sock".

Definition parsing {A} (bad help : A) (fs : list (string * flagValue)) (args : list string)
    (k : FlagSet → list string → A) : A :=
  match Parse (list_to_map fs) args with
  | inl FlagInvalid => bad
  | inl ErrHelp => help
  | inr (fs, rest) => k fs rest
  end.
Abbreviation daemon_flags := (parsing BadFlags Help) (only parsing).

Definition installFlags (args : list string) : custosd_command :=
  daemon_flags [("ssh-user", StringFlag installUser)] args (λ fs _, CmdInstall (stringOf fs "ssh-user")).
Definition uninstallFlags (args : list string) : custosd_command :=
  daemon_flags [("purge", BoolFlag false); ("skip-control-plane", BoolFlag false)] args
    (λ fs _, CmdUninstall (boolOf fs "purge") (boolOf fs "skip-control-plane")).
Definition enrollFlags (args : list string) : custosd_command :=
  daemon_flags [("control-plane", StringFlag ""); ("token", StringFlag ""); ("hostname", StringFlag "");
                ("dir", StringFlag DefaultDir)] args
    (λ fs _, CmdEnroll (stringOf fs "control-plane") (stringOf fs "token") (stringOf fs "hostname")
               (stringOf fs "dir")).
Definition authkeysFlags (args : list string) : custosd_command :=
  daemon_flags [("dir", StringFlag DefaultDir); ("socket", StringFlag DefaultSocket)] args
    (λ fs rest, CmdAuthkeys (stringOf fs "dir") (stringOf fs "socket") rest).
Definition runFlags (args : list string) : custosd_command :=
  daemon_flags [("dir", StringFlag DefaultDir); ("socket", StringFlag DefaultSocket);
                ("secret-socket", StringFlag DefaultSecretSocket)] args
    (λ fs _, CmdRun (stringOf fs "dir") (stringOf fs "socket") (stringOf fs "secret-socket")).
Definition execFlags (args : list string) : custosd_command :=
  daemon_flags [("set", StringFlag ""); ("secret-socket", StringFlag DefaultSecretSocket);
                ("timeout", DurationFlag (30 * second))] args
    (λ fs rest, CmdExec (stringOf fs "set") (stringOf fs "secret-socket") (durationOf fs "timeout") rest).
Definition applyUpdateFlags (args : list string) : custosd_command :=
  daemon_flags [("dir", StringFlag DefaultDir)] args (λ fs _, CmdApplyUpdate (stringOf fs "dir")).
Definition statusFlags (args : list string) : custosd_command :=
  daemon_flags [("dir", StringFlag DefaultDir)] args (λ fs _, CmdStatus (stringOf fs "dir")).

(** [os.Args[1:]] *)
Definition custosd_main (args : list string) : custosd_command :=
  match args with
  | [] => CmdUsage
  | cmd :: args =>
      if decide (cmd = "install") then installFlags args
      else if decide (cmd = "uninstall") then uninstallFlags args
      else if decide (cmd = "enroll") then enrollFlags args
      else if decide (cmd = "authkeys") then authkeysFlags args
      else if decide (cmd = "run") then runFlags args
      else if decide (cmd = "exec") then execFlags args
      else if decide (cmd = "apply-update") then applyUpdateFlags args
      else if decide (cmd = "status") then statusFlags args
      else if decide (cmd = "version" ∨ cmd = "--version" ∨ cmd = "-v") then CmdVersion
      else CmdUsage
  end.

(** ** custos: cmd/api/main.go *)

Inductive custos_command :=
  | CmdServe
  | CmdMigrate (dbURL command : string)
  | CmdCreateAdmin (email password dbURL : string)
  | CmdGenKeys
  | ApiVersion
  | ApiUsage
  | ApiBadFlags
  | ApiHelp.
Abbreviation api_flags := (parsing ApiBadFlags ApiHelp) (only parsing).

Definition migrateFlags (getenv : string → string) (args : list string) : custos_command :=
  api_flags [("database-url", StringFlag (getenv envDatabaseURL))] args
    (λ fs rest, CmdMigrate (stringOf fs "database-url") (default "up" (head rest))).
Definition createAdminFlags (getenv : string → string) (args : list string) : custos_command :=
  api_flags [("email", StringFlag ""); ("password", StringFlag "");
             ("database-url", StringFlag (getenv envDatabaseURL))] args
    (λ fs _, CmdCreateAdmin (stringOf fs "email") (stringOf fs "password") (stringOf fs "database-url")).

Definition custos_main (getenv : string → string) (args : list string) : custos_command :=
  match args with
  | [] => ApiUsage
  | cmd :: args =>
      if decide (cmd = "version" ∨ cmd = "--version" ∨ cmd = "-v") then ApiVersion
      else if decide (cmd = "migrate") then migrateFlags getenv args
      else if decide (cmd = "gen-keys") then CmdGenKeys
      else if decide (cmd = "create-admin") then createAdminFlags getenv args
      else if decide (cmd = "serve") then CmdServe
      else ApiUsage
  end.
End flags.

(** ** Durations *)

Lemma leadingInt_shorter s x v r : leadingInt x s = Some (v, r) → (String.length r ≤ String.length s)%nat.
Proof.
  revert x. induction s as [|c s IH]; simpl; intros x; [by intros [= _ <-]|].
  destruct (is_digit c); [|by intros [= _ <-]]. repeat case_decide; try done.
  intros Hr%IH. lia.
Qed.
Lemma leadingFraction_shorter s x scale o f scale' r :
  leadingFraction x scale o s = (f, scale', r) → (String.length r ≤ String.length s)%nat.
Proof.
  revert x scale o. induction s as [|c s IH]; simpl; intros x scale o; [by intros [= _ _ <-]|].
  destruct (is_digit c); [|by intros [= _ _ <-]].
  destruct o; repeat case_decide; intros Hr%IH; lia.
Qed.
Lemma unit_name_split s u r : unit_name s = (u, r) → s = u +:+ r.
Proof.
  revert u r. induction s as [|c s IH]; simpl; intros u r; [by intros [= <- <-]|].
  destruct (_ || _); [by intros [= <- <-]|].
  destruct (unit_name s) as [u' r'] eqn:Hu. intros [= <- <-]. simpl. by rewrite (IH u' r').
Qed.

Section duration_props.
Context (dur_fraction : Z → Z → Z → Z).

(** Every part takes at least its unit. *)
Lemma duration_part_shorter s v r :
  duration_part dur_fraction s = Some (v, r) → (String.length r < String.length s)%nat.
Proof.
  unfold duration_part. destruct (leadingInt 0 s) as [[v1 s1]|] eqn:Hi; [|done]. simpl.
  apply leadingInt_shorter in Hi.
  assert (∃ f scale s2, match s1 with String "." r => leadingFraction 0 1 false r | _ => (0, 1, s1) end
    = (f, scale, s2) ∧ (String.length s2 ≤ String.length s1)%nat) as (f & scale & s2 & -> & Hs2).
  { destruct s1 as [|c s1]; [by eexists _, _, _|].
    destruct (ascii_dec c ".") as [->|Hc].
    - destruct (leadingFraction 0 1 false s1) as [[f scale] s2] eqn:Hf.
      apply leadingFraction_shorter in Hf. exists f, scale, s2. simpl. split; [done|lia].
    - exists 0, 1, (String c s1). split; [|done]. destruct c as [[] [] [] [] [] [] [] []]; try done. }
  destruct (negb _); [done|]. destruct (unit_name s2) as [u s3] eqn:Hu. apply unit_name_split in Hu as ->.
  case_decide as Hne; [done|]. destruct (unitMap u); [|done]. simpl. repeat case_decide; try done;
    intros [= _ <-]; rewrite string_length_app in Hs2; destruct u; simpl in *; try done; lia.
Qed.

(** The loop of [ParseDuration] ends within one round per byte. *)
Lemma duration_loop_ends fuel d s :
  (String.length s < fuel)%nat → is_Some (duration_loop dur_fraction fuel d s).
Proof.
  revert d s. induction fuel as [|fuel IH]; intros d s Hf; [lia|]. simpl.
  destruct s as [|c s]; [eauto|]. destruct (duration_part dur_fraction (String c s)) as [[v r]|] eqn:Hp; [|eauto].
  case_decide; [eauto|]. apply IH. apply duration_part_shorter in Hp. lia.
Qed.
End duration_props.

Example parse_durations frac :
  ParseDuration frac "30s" = Some (30 * second) ∧ ParseDuration frac "1h15m" = Some (4500 * second) ∧
  ParseDuration frac "-2ms" = Some (-2000000) ∧ ParseDuration frac "" = None ∧
  ParseDuration frac "10" = None ∧ ParseDuration frac "9223372036s" = Some (9223372036 * second) ∧
  ParseDuration frac "9223372037s" = None.
Proof. split_and!; vm_compute; reflexivity. Qed.

(** ** Command lines *)

(** An argument that does not begin with a dash ends the flags. *)
Lemma classify_plain s : HasPrefix s "-" = false → classify s = NotFlag.
Proof.
  unfold HasPrefix. destruct s as [|c s]; [done|]. simpl. destruct (Ascii.eqb_spec c "-") as [->|Hc].
  - by destruct s.
  - intros _. destruct c as [[] [] [] [] [] [] [] []]; try done.
Qed.

(** A flag's name, as all of them are here. *)
Definition flag_name (name : string) : Prop :=
  name ≠ "" ∧ HasPrefix name "-" = false ∧ "="%char ∉ explode name.
#[export] Instance flag_name_dec name : Decision (flag_name name).
Proof. unfold flag_name. apply _. Defined.

Lemma Cut_none c s : c ∉ explode s → Cut c s = None.
Proof.
  induction s as [|x s IH]; simpl; [done|]. intros [Hx Hs]%not_elem_of_cons.
  destruct (Ascii.eqb_spec x c) as [->|_]; [done|]. by rewrite IH.
Qed.

Lemma classify_flag name : flag_name name → classify ("--" +:+ name) = Flag name None.
Proof.
  intros (Hne & Hd & He). destruct name as [|c name]; [done|]. simpl in He.
  apply not_elem_of_cons in He as [Hc He].
  assert (c ≠ "-"%char) as Hc'.
  { intros ->. unfold HasPrefix in Hd. simpl in Hd. by destruct name. }
  simpl. rewrite (Cut_none _ _ He).
  destruct c as [[] [] [] [] [] [] [] []]; try done.
Qed.

Section command_lines.
Context (dur_fraction : Z → Z → Z → Z).
Abbreviation Parse := (Parse dur_fraction) (only parsing).

(** [--name value] for every pair. *)
Definition long_flags (kvs : list (string * string)) : list string :=
  kvs ≫= λ kv, ["--" +:+ kv.1; kv.2].
Definition set_strings (fs : FlagSet) (kvs : list (string * string)) : FlagSet :=
  foldl (λ m kv, <[kv.1 := StringFlag kv.2]> m) fs kvs.
Definition string_flag (fs : FlagSet) (name : string) : Prop := ∃ s, fs !! name = Some (StringFlag s).

(** What is written as flags is read back, whatever the values are. *)
Lemma Parse_long_flags fs kvs rest :
  Forall (λ kv, flag_name kv.1 ∧ string_flag fs kv.1) kvs →
  Parse fs (long_flags kvs ++ rest) = Parse (set_strings fs kvs) rest.
Proof.
  revert fs. induction kvs as [|[name v] kvs IH]; intros fs Hall; [done|].
  apply Forall_cons in Hall as [[Hn [s Hs]] Hall]. simpl in Hn, Hs.
  change (long_flags ((name, v) :: kvs) ++ rest) with (("--" +:+ name) :: v :: (long_flags kvs ++ rest)).
  cbn [Cli.Parse]. rewrite (classify_flag name Hn), Hs. simpl. apply IH.
  eapply Forall_impl; [exact Hall|]. intros [n x] [Hn' [s' Hs']]. split; [done|]. simpl in *.
  destruct (decide (n = name)) as [->|Hne]; [exists v; apply lookup_insert_eq|].
  exists s'. by rewrite lookup_insert_ne.
Qed.
Lemma Parse_terminator fs rest : Parse fs ("--" :: rest) = inr (fs, rest).
Proof. done. Qed.
Lemma Parse_plain fs s rest : HasPrefix s "-" = false → Parse fs (s :: rest) = inr (fs, s :: rest).
Proof. intros Hs. simpl. by rewrite classify_plain. Qed.

(** [custosd exec --set NAME -- command args]: the command and its arguments
    are passed on as they are, flags of their own included. *)
Theorem exec_command_line name cmdArgs :
  custosd_main dur_fraction ("exec" :: "--set" :: name :: "--" :: cmdArgs) =
  CmdExec name DefaultSecretSocket (30 * second) cmdArgs.
Proof.
  change (custosd_main dur_fraction ("exec" :: "--set" :: name :: "--" :: cmdArgs))
    with (execFlags dur_fraction (long_flags [("set", name)] ++ "--" :: cmdArgs)).
  unfold execFlags, parsing. rewrite Parse_long_flags; [by rewrite Parse_terminator|].
  repeat constructor; simpl; try done; [|by eexists]. by apply (bool_decide_unpack _).
Qed.
End command_lines.
