(* ===== verification/Serving.v ===== *)
(** The control plane's process: [custos serve] ([cmd/api/serve.go]), [Serve]
    with its shutdown ([internal/controlplane/server.go]) and [custos migrate]
    ([cmd/api/migrate.go]).

    Of [net/http] it models that [ListenAndServe] returns when [Shutdown] is
    called, while [Shutdown] goes on waiting for the requests in flight; of
    pgxpool, that [Close] waits for the connections in use.  What a request
    does is in [Router]; here it is one that is being served and uses a
    database connection or not.  When [main] returns the process is over,
    whatever its other goroutines are doing. *)
From S2P Require Import Prelude Text Base64 Json Protocol Crypto Schema World Http Demo Settings.

(** ** Starting: cmd/api/serve.go *)

(** [connect] is [Connect] of [store.go] on the URL. *)
Definition cmdServe `{Crypto} (getenv : string → string) (connect : string → error + unit) : error + Server :=
  match LoadConfig getenv with
  | inl e => inl e
  | inr cfg =>
      match connect (cfg_DatabaseURL cfg) with
      | inl e => inl e
      | inr _ => inr (NewServer cfg)
      end
  end.

(** ** Running: [Serve] *)

Record Active := { a_request : nat; a_conn : bool }.
Inductive stage :=
  | InServe                 (* [ListenAndServe] has not returned *)
  | InClose                 (* the deferred [pool.Close] *)
  | Exited (status : Z).

Record Process := {
  p_signalled : bool;       (* the context of [NotifyContext] is done *)
  p_shutdown : bool;        (* [srv.Shutdown] was called *)
  p_active : list Active;
  p_stage : stage }.
Definition started : Process :=
  {| p_signalled := false; p_shutdown := false; p_active := []; p_stage := InServe |}.

Definition set_active (l : list Active) (p : Process) : Process :=
  {| p_signalled := p_signalled p; p_shutdown := p_shutdown p; p_active := l; p_stage := p_stage p |}.
Definition set_stage (st : stage) (p : Process) : Process :=
  {| p_signalled := p_signalled p; p_shutdown := p_shutdown p; p_active := p_active p; p_stage := st |}.
Definition running (p : Process) : Prop := p_stage p = InServe ∨ p_stage p = InClose.

Inductive serve_step (p : Process) : Process → Prop :=
  | serve_accept r :
      p_stage p = InServe → p_shutdown p = false →
      serve_step p (set_active (p_active p ++ [{| a_request := r; a_conn := false |}]) p)
  (* a handler takes a connection from the pool, which a closing pool refuses *)
  | serve_acquire l1 r l2 :
      p_stage p = InServe → p_active p = l1 ++ {| a_request := r; a_conn := false |} :: l2 →
      serve_step p (set_active (l1 ++ {| a_request := r; a_conn := true |} :: l2) p)
  | serve_release l1 r l2 :
      running p → p_active p = l1 ++ {| a_request := r; a_conn := true |} :: l2 →
      serve_step p (set_active (l1 ++ {| a_request := r; a_conn := false |} :: l2) p)
  | serve_answered l1 r l2 :
      running p → p_active p = l1 ++ {| a_request := r; a_conn := false |} :: l2 →
      serve_step p (set_active (l1 ++ l2) p)
  | serve_signal :
      running p →
      serve_step p {| p_signalled := true; p_shutdown := p_shutdown p; p_active := p_active p;
                      p_stage := p_stage p |}
  (* the goroutine: [<-ctx.Done()], then [srv.Shutdown] *)
  | serve_shutdown :
      running p → p_signalled p = true →
      serve_step p {| p_signalled := true; p_shutdown := true; p_active := p_active p;
                      p_stage := p_stage p |}
  (* [http.ErrServerClosed]: [Serve] returns nil *)
  | serve_closed :
      p_stage p = InServe → p_shutdown p = true → serve_step p (set_stage InClose p)
  (* any other error of [ListenAndServe] is fatal *)
  | serve_failed : p_stage p = InServe → p_shutdown p = false → serve_step p (set_stage (Exited 1) p)
  (* [pool.Close] returned, then [main] *)
  | serve_exit :
      p_stage p = InClose → Forall (λ a, a_conn a = false) (p_active p) →
      serve_step p (set_stage (Exited 0) p).

Definition serves : Process → Process → Prop := rtc serve_step.

(** How the stages relate to the signal and to the shutdown. *)
Record serve_inv (p : Process) : Prop := {
  si_shutdown : p_shutdown p = true → p_signalled p = true;
  si_closing : p_stage p = InClose ∨ p_stage p = Exited 0 → p_shutdown p = true;
  si_conns : p_stage p = Exited 0 → Forall (λ a, a_conn a = false) (p_active p);
  si_status st : p_stage p = Exited st → st = 0 ∨ st = 1 }.

Lemma serve_inv_step p p' : serve_step p p' → serve_inv p → serve_inv p'.
Proof.
  intros Hs [H1 H2 H3 H4].
  destruct Hs; try match goal with H : running _ |- _ => destruct H end; split; simpl; intros; repeat match goal with
    | H : _ ∨ _ |- _ => destruct H end; simplify_eq/=; auto; try congruence.
Qed.

(** When the process ends: with status 0 only after a signal, once no request
    uses a database connection, so no transaction is cut off between its
    statements; with status 1 only when it could not listen. *)
Theorem serve_ends_after_a_signal p :
  serves started p → ∀ status, p_stage p = Exited status →
  status = 1 ∨ status = 0 ∧ p_signalled p = true ∧ Forall (λ a, a_conn a = false) (p_active p).
Proof.
  intros Hr. assert (serve_inv p) as [H1 H2 H3 H4].
  { revert Hr. apply (rtc_ind_r serve_inv); [split; simpl; try done; by intros [|]|].
    intros y z _ Hs. by apply serve_inv_step. }
  intros status Hst. destruct (H4 _ Hst) as [->| ->]; [right|by left]. split_and!; auto.
Qed.

(** Once the shutdown began no request is accepted. *)
Theorem shutdown_accepts_nothing p p' :
  serves p p' → p_shutdown p = true → (length (p_active p') ≤ length (p_active p))%nat.
Proof.
  intros Hr. assert (p_shutdown p = true → p_shutdown p' = true ∧ (length (p_active p') ≤ length (p_active p))%nat) as H.
  { induction Hr as [p|p1 p2 p3 Hs _ IH]; [auto|]. intros Hd.
    assert (p_shutdown p2 = true ∧ (length (p_active p2) ≤ length (p_active p1))%nat) as [Hd2 Hl].
    { destruct Hs; simpl; try (split; [done|lia]); [congruence|..];
        repeat match goal with H : p_active _ = _ |- _ => rewrite H end; rewrite ?length_app; simpl; split; auto; lia. }
    destruct (IH Hd2). split; [done|lia]. }
  intros Hd. by apply H.
Qed.

(** [Serve] returns as soon as the shutdown begins, not when it is over: a
    signal can end the process, with status 0, while requests are being
    served. *)
Theorem shutdown_cuts_off_requests r :
  ∃ p, serves started p ∧ p_stage p = Exited 0 ∧ p_active p = [{| a_request := r; a_conn := false |}].
Proof.
  eexists. split; [|split; cycle 1].
  - eapply rtc_l; [by apply (serve_accept _ r)|]. eapply rtc_l; [apply serve_signal; by left|].
    eapply rtc_l; [apply serve_shutdown; [by left|done]|]. eapply rtc_l; [by apply serve_closed|].
    apply rtc_once. apply serve_exit; [done|]. by repeat constructor.
  - reflexivity.
  - reflexivity.
Qed.

(** ** cmd/api/migrate.go *)

(** goose and the driver are parameters; [goose command] changes the schema. *)
Definition cmdMigrate {A} (sqlOpen : string → error + unit) (setDialect : error + unit)
    (goose : string → error + A) (dbURL command : string) : error + A :=
  if decide (dbURL = "") then inl (ErrMsg "migrate: --database-url or CUSTOS_DATABASE_URL is required") else
  match sqlOpen dbURL with
  | inl e => inl e
  | inr _ => match setDialect with inl e => inl e | inr _ => goose command end
  end.
