(* ===== verification/DaemonProps.v ===== *)
(** What the daemon guarantees: the cache changes only by an authenticated,
    fresh snapshot; the file it leaves loads back to the same cache; a purge
    authorizes no one, from memory or from disk; backoff is bounded; the secret
    socket gives a scoped set only to the account it is scoped to. *)
From Stdlib Require Import Ascii.
From S2P Require Import Prelude Text Base64 Json Protocol Crypto Schema World Http Daemon Demo.

(** ** Indexing entries by fingerprint *)

Lemma index_entries_snoc l e :
  index_entries (l ++ [e]) = <[AccessEntry_Fingerprint e := e]> (index_entries l).
Proof. unfold index_entries. by rewrite foldl_app. Qed.

Lemma index_entries_elem l fp e :
  index_entries l !! fp = Some e → e ∈ l ∧ AccessEntry_Fingerprint e = fp.
Proof.
  induction l as [|x l IH] using rev_ind; [done|].
  rewrite index_entries_snoc, lookup_insert, elem_of_app, list_elem_of_singleton.
  case_decide; intros; simplify_eq; [by split; [right|]|]. destruct IH; auto.
Qed.

Lemma index_entries_unique l e :
  NoDup (AccessEntry_Fingerprint <$> l) → e ∈ l →
  index_entries l !! AccessEntry_Fingerprint e = Some e.
Proof.
  induction l as [|x l IH] using rev_ind; [by intros _ ?%elem_of_nil|].
  rewrite fmap_app. intros (Hnd & Hx & _)%NoDup_app.
  rewrite elem_of_app, list_elem_of_singleton, index_entries_snoc. intros [He|<-].
  - rewrite lookup_insert_ne; [by apply IH|]. intros Heq.
    apply (Hx (AccessEntry_Fingerprint e)); [apply list_elem_of_fmap; eauto|].
    simpl. apply list_elem_of_singleton. done.
  - apply lookup_insert_eq.
Qed.

(** ** Well-formed caches *)

Definition entry_valid (e : AccessEntry) : bool := json_valid (AccessEntry_json e).
Lemma snapshot_json_valid snap :
  Forall (λ e, entry_valid e = true) (Snapshot_Entries snap) → json_valid (Snapshot_json snap) = true.
Proof.
  intros Hl. unfold Snapshot_json. simpl. rewrite andb_true_r.
  induction Hl as [|e l He _ IH]; [done|]. rewrite fmap_cons. apply andb_true_intro. by split.
Qed.

(** An entry is filed under its own fingerprint, its strings are text, and the
    sequence number is a [uint64]. *)
Definition cache_wf (c : Cache) : Prop :=
  0 ≤ c_seq c < 2 ^ 64 ∧
  ∀ fp e, c_entries c !! fp = Some e → AccessEntry_Fingerprint e = fp ∧ entry_valid e = true.

Lemma index_entries_wf seq l :
  0 ≤ seq < 2 ^ 64 → Forall (λ e, entry_valid e = true) l →
  cache_wf {| c_seq := seq; c_entries := index_entries l |}.
Proof.
  intros Hs Hl. split; [done|]. simpl. intros fp e He.
  apply index_entries_elem in He as [He ?]. rewrite Forall_forall in Hl. auto.
Qed.

Lemma index_map_to_list (m : gmap string AccessEntry) l :
  (∀ fp e, m !! fp = Some e → AccessEntry_Fingerprint e = fp) →
  l ≡ₚ snd <$> map_to_list m → index_entries l = m.
Proof.
  intros Hm Hl. apply map_eq. intros fp. apply option_eq. intros e. split.
  - intros He. apply index_entries_elem in He as [He <-]. rewrite Hl in He.
    apply list_elem_of_fmap in He as ([k x] & -> & Hx). apply elem_of_map_to_list in Hx.
    simpl. by rewrite (Hm k x Hx).
  - intros He. pose proof (Hm fp e He) as <-. apply index_entries_unique.
    + rewrite Hl, <-list_fmap_compose.
      assert (AccessEntry_Fingerprint ∘ snd <$> map_to_list m = fst <$> map_to_list m) as ->.
      { apply list_fmap_ext. intros i [k x] Hi%list_elem_of_lookup_2%elem_of_map_to_list.
        simpl. by apply Hm. }
      apply NoDup_fst_map_to_list.
    + rewrite Hl. apply list_elem_of_fmap. exists (AccessEntry_Fingerprint e, e).
      split; [done|]. by apply elem_of_map_to_list.
Qed.

Section cache.
Context `{JsonText, !JsonTextLaws, TimeFormat, Crypto, Disk}.

Lemma persistedCache_roundtrip p :
  0 ≤ pc_Seq p < 2 ^ 64 → persistedCache_of_json (persistedCache_json p) = Some p.
Proof.
  destruct p as [n l]. simpl. intros Hn. unfold persistedCache_of_json. json_decode.
  rewrite decide_True by done. json_decode.
  rewrite (mapM_fmap_Some AccessEntry_json _ l); [done|].
  intros e. apply AccessEntry_roundtrip.
Qed.

(** Whatever order the entries were written in, they load to the same cache. *)
Lemma LoadCache_written c l disk :
  cache_wf c → l ≡ₚ snd <$> map_to_list (c_entries c) →
  disk !! cacheFile =
    Some (json_print (persistedCache_json {| pc_Seq := c_seq c; pc_Entries := l |})) →
  LoadCache disk = inr c.
Proof.
  intros [Hs Hm] Hl Hd. unfold LoadCache. rewrite Hd, unmarshal_print.
  - rewrite persistedCache_roundtrip by done. simpl. f_equal. destruct c as [n m]. simpl in *.
    f_equal. apply index_map_to_list; [|done]. intros fp e He. by apply Hm.
  - simpl. rewrite !andb_true_r. apply forallb_forall. intros j Hj.
    apply list_elem_of_In, list_elem_of_fmap in Hj as (e & -> & He). rewrite Hl in He.
    apply list_elem_of_fmap in He as ([k x] & -> & Hx). apply elem_of_map_to_list in Hx.
    by apply (Hm k x).
Qed.

(** A successful persist leaves a file that loads to the cache in memory. *)
Lemma persistLocked_loads c c' :
  cache_wf (cl_cache c) → persistLocked c = (inr tt, c') →
  cl_cache c' = cl_cache c ∧ LoadCache (cl_disk c') = inr (cl_cache c).
Proof.
  intros Hwf. unfold persistLocked, atomicWrite. destruct (disk_fault _); [done|].
  intros [= <-]. split; [done|]. simpl.
  eapply LoadCache_written; [done|reflexivity|]. apply lookup_insert_eq.
Qed.
End cache.

(** ** Messages from the control plane *)

Section dispatch.
Context `{JsonText, TimeFormat, Crypto, Disk}.

Lemma ApplySnapshot_run snap seq c :
  ∃ r, ApplySnapshot snap seq c =
    (r, set_disk (match r with inr _ => <[cacheFile := cache_text {| c_seq := seq;
                    c_entries := index_entries (Snapshot_Entries snap) |}]> (cl_disk c)
                  | inl _ => cl_disk c end)
        (set_cache {| c_seq := seq; c_entries := index_entries (Snapshot_Entries snap) |} c)).
Proof.
  unfold ApplySnapshot, bind, modify, persistLocked, atomicWrite. simpl.
  destruct (disk_fault _) as [e|]; [exists (inl e)|exists (inr tt)]; done.
Qed.

(** The five outcomes of a message, as far as the cache is concerned. *)
Lemma dispatch_cache env c r c' :
  dispatch env c = (r, c') →
  cl_cfg c' = cl_cfg c ∧
  (cl_cache c' = cl_cache c ∨
   Envelope_Type env = TypeSnapshot ∧ verifySnapshot (cl_cfg c) env = inr tt ∧
   (Envelope_Seq env = 0 ∨ c_seq (cl_cache c) < Envelope_Seq env) ∧
   ∃ snap, unmarshal Snapshot_of_json (Envelope_Data env) = Some snap ∧
     cl_cache c' = {| c_seq := Envelope_Seq env;
                      c_entries := index_entries (Snapshot_Entries snap) |}).
Proof.
  unfold dispatch, handleUpgrade. case_decide as Ht.
  - destruct (verifySnapshot _ _) as [e|[]] eqn:Hv; [by intros [= <- <-]; eauto|].
    case_decide as Hs; [by intros [= <- <-]; eauto|].
    destruct (unmarshal _ _) as [snap|] eqn:Hu; [|by intros [= <- <-]; eauto].
    destruct (ApplySnapshot_run snap (Envelope_Seq env) c) as [r0 ->]. intros [= <- <-].
    split; [done|]. right. split_and!; try done; [|by exists snap].
    unfold Seq in Hs. lia.
  - repeat (case_decide || case_match); intros [= <- <-]; eauto.
Qed.

Lemma dispatch_seq_mono env c r c' :
  (Envelope_Type env = TypeSnapshot → 0 < Envelope_Seq env) →
  dispatch env c = (r, c') → c_seq (cl_cache c) ≤ c_seq (cl_cache c').
Proof.
  intros Hpos Hd. apply dispatch_cache in Hd as [_ [->|(Ht & _ & Hs & snap & _ & ->)]]; [lia|].
  simpl. specialize (Hpos Ht). lia.
Qed.

Lemma readLoop_seq_mono msgs c r c' :
  Forall (λ e, Envelope_Type e = TypeSnapshot → 0 < Envelope_Seq e) msgs →
  readLoop msgs c = (r, c') → cl_cfg c' = cl_cfg c ∧ c_seq (cl_cache c) ≤ c_seq (cl_cache c').
Proof.
  intros Hall. revert c. induction Hall as [|e l He _ IH]; intros c; simpl.
  - intros [= <- <-]. split; [done|lia].
  - unfold bind. destruct (dispatch e c) as [[err|[]] c1] eqn:Hd.
    + intros [= <- <-]. split; [by apply dispatch_cache in Hd as [-> _]|].
      by eapply dispatch_seq_mono.
    + intros [Hcfg Hseq]%IH. apply dispatch_cache in Hd as Hc. destruct Hc as [Hc _].
      apply dispatch_seq_mono in Hd; [|done]. split; [congruence|lia].
Qed.
End dispatch.

(** ** The login socket's query *)

Definition tab : ascii := "009"%char.
Definition lf : ascii := "010"%char.

Lemma read_line_app a : lf ∉ explode a → ∀ t, read_line (a +:+ String lf t) = Some a.
Proof.
  induction a as [|x a IH]; intros Ha t; simpl in *; [done|].
  apply not_elem_of_cons in Ha as [Hx Ha].
  destruct (Ascii.eqb_spec x "010"%char) as [->|]; [done|].
  change (String.app a (String lf t)) with (a +:+ String lf t). by rewrite IH.
Qed.

Lemma read_line_query fp account :
  lf ∉ explode fp → lf ∉ explode account →
  read_line (authQuery fp account) = Some (fp +:+ String tab account).
Proof.
  intros Hf Ha. unfold authQuery.
  change (String "009"%char (account +:+ String "010"%char "")) with
    (String tab account +:+ String lf "").
  rewrite <-string_app_assoc. apply read_line_app. rewrite explode_app, elem_of_app. simpl.
  rewrite elem_of_cons. by intros [?|[?|?]].
Qed.

Lemma line_not_empty a b : a +:+ " " +:+ b ≠ "".
Proof. by destruct a. Qed.

Section claims.
Context `{JsonText, !JsonTextLaws, TimeFormat, Crypto, Disk}.

(** C8: the authorized-key cache of an enrolled daemon (one that holds the
    control plane's public key) changes only when it receives a snapshot that
    carries a valid signature over this host's id, the sequence number and
    the data, whose sequence number is 0 or newer than the last applied one;
    the cache then holds exactly the snapshot's entries by fingerprint. *)
Theorem cache_changes_only_by_signed_fresh_snapshot env c r c' :
  dc_SigningPublicKey (cl_cfg c) ≠ "" → dispatch env c = (r, c') →
  cl_cache c' ≠ cl_cache c →
  Envelope_Type env = TypeSnapshot ∧
  Identity.Verify (dc_SigningPublicKey (cl_cfg c))
    (SnapshotSigningInput (dc_HostID (cl_cfg c)) (Envelope_Seq env) (Envelope_Data env))
    (Envelope_Sig env) = inr tt ∧
  (Envelope_Seq env = 0 ∨ c_seq (cl_cache c) < Envelope_Seq env) ∧
  ∃ snap, unmarshal Snapshot_of_json (Envelope_Data env) = Some snap ∧
    cl_cache c' = {| c_seq := Envelope_Seq env;
                     c_entries := index_entries (Snapshot_Entries snap) |}.
Proof.
  intros Hk Hd Hne. apply dispatch_cache in Hd as [_ [?|(Ht & Hv & Hs & Hsnap)]]; [done|].
  split_and!; try done. unfold verifySnapshot in Hv. by rewrite decide_False in Hv.
Qed.

(** A snapshot message the daemon has processed is ignored if it is
    delivered again, after any further messages: a recorded snapshot cannot
    roll the host back.  (The control plane numbers snapshots from 1.) *)
Theorem replayed_snapshot_is_ignored env msgs c c1 r c2 :
  Envelope_Type env = TypeSnapshot → 0 < Envelope_Seq env →
  Forall (λ e, Envelope_Type e = TypeSnapshot → 0 < Envelope_Seq e) msgs →
  dispatch env c = (inr tt, c1) → readLoop msgs c1 = (r, c2) →
  dispatch env c2 = (inr tt, c2).
Proof.
  intros Ht Hpos Hall Hd Hl. apply readLoop_seq_mono in Hl as [Hcfg Hseq]; [|done].
  apply dispatch_cache in Hd as Hc. destruct Hc as [Hcfg1 _].
  unfold dispatch in Hd |- *. rewrite decide_True in Hd |- * by done.
  rewrite Hcfg, Hcfg1. destruct (verifySnapshot (cl_cfg c) env) as [e|[]]; [done|].
  rewrite decide_True; [done|]. split; [lia|]. unfold Seq in *. case_decide as Hs.
  - injection Hd as <-. lia.
  - destruct (unmarshal _ _) as [snap|]; [|done].
    destruct (ApplySnapshot_run snap (Envelope_Seq env) c) as [r0 Heq].
    rewrite Heq in Hd. injection Hd as -> <-. simpl in Hseq. lia.
Qed.

(** After a purge no key is authorized for any account, by the running
    daemon whether or not the file could be written, and by the fallback that
    reads the file once it was. *)
Theorem purge_authorizes_no_one c r c' :
  0 ≤ c_seq (cl_cache c) < 2 ^ 64 → Purge c = (r, c') →
  (∀ fp account, authorize (cl_cache c') fp account = None) ∧
  (r = inr tt → ∀ fp account, authorizeFromDisk (cl_disk c') fp account = inr "").
Proof.
  intros Hs Hp. unfold Purge in Hp. unfold bind, modify in Hp. simpl in Hp.
  assert (cl_cache c' = {| c_seq := c_seq (cl_cache c); c_entries := ∅ |}) as Hc.
  { unfold persistLocked, atomicWrite in Hp. destruct (disk_fault _); by injection Hp as _ <-. }
  split.
  - intros fp account. unfold authorize, Lookup. by rewrite Hc.
  - intros -> fp account. apply persistLocked_loads in Hp as [_ Hload].
    + unfold authorizeFromDisk. rewrite Hload. done.
    + split; simpl; [done|]. intros fp' e He. by apply lookup_empty_Some in He.
Qed.

(** When a snapshot was applied and written, a login that falls back to
    the file (dead daemon) gets the same answer the running daemon gives on
    its socket, for every key and account: a deny is an empty reply, a grant
    the [authorized_keys] line. *)
Theorem disk_fallback_agrees snap seq c c' fp account now :
  0 ≤ seq < 2 ^ 64 → Forall (λ e, entry_valid e = true) (Snapshot_Entries snap) →
  ApplySnapshot snap seq c = (inr tt, c') →
  tab ∉ explode fp → lf ∉ explode fp → lf ∉ explode account →
  ∃ line, authorizeFromDisk (cl_disk c') fp account = inr line ∧
    (handleAuth (authQuery fp account) (cl_cache c') now).1 =
      (if decide (line = "") then "" else line +:+ newline).
Proof.
  intros Hs Hv Ha Ht Hl Hl'. unfold ApplySnapshot, bind, modify in Ha. simpl in Ha.
  apply persistLocked_loads in Ha as [Hc Hload]; [|by apply index_entries_wf].
  simpl in Hc, Hload. unfold authorizeFromDisk, handleAuth.
  rewrite Hload, read_line_query, (Cut_app tab), Hc by done. simpl.
  destruct (authorize _ fp account) as [e|] eqn:He; eexists; (split; [reflexivity|]); [|done].
  rewrite decide_False by apply line_not_empty. by rewrite !string_app_assoc.
Qed.

(** The delay before a reconnect is at least one second and at most
    thirty, whatever the attempt number and the jitter drawn. *)
Theorem reconnectDelay_bounds attempt jitter :
  1 ≤ attempt → 0 ≤ jitter ≤ backoff attempt `quot` 2 →
  second ≤ reconnectDelay attempt jitter ≤ 30 * second.
Proof.
  intros Ha Hj. unfold reconnectDelay, backoff, maxReconnect, second in *.
  rewrite Z.shiftl_mul_pow2 in * by lia.
  assert (2 ≤ 2 ^ Z.min attempt 5) by (change 2 with (2 ^ 1) at 1; apply Z.pow_le_mono_r; lia).
  change (10 ^ 9) with 1000000000 in *.
  case_decide; Z.to_euclidean_division_equations; nia.
Qed.

(** The secret socket serves a set only if the daemon holds it and, when
    the set is scoped to an account, only to a caller the kernel says is that
    account; it reports a machine read exactly when it served one. *)
Theorem handleSecret_scoped callerIs input ss now values log :
  handleSecret callerIs input ss now = (Some (SecretOK values), log) →
  ∃ line o, read_line input = Some line ∧ ss_sets ss !! TrimSpace line = Some o ∧
    values = os_values o ∧ (os_asUser o = "" ∨ callerIs (os_asUser o) = true) ∧
    log = Some {| SecretRead_SetName := TrimSpace line; SecretRead_At := now |}.
Proof.
  unfold handleSecret, Get. destruct (read_line input) as [line|]; [|done].
  destruct (ss_sets ss !! _) as [o|] eqn:Ho; simpl; [|done].
  case_bool_decide as Hu; simpl.
  - intros [= <- <-]. exists line, o. eauto 10.
  - destruct (callerIs _) eqn:Hc; simpl; [|done]. intros [= <- <-]. exists line, o. eauto 10.
Qed.

Lemma atomicWrite_other path data c c' :
  path ≠ cacheFile → atomicWrite path data c = (inr tt, c') →
  cl_disk c' !! cacheFile = cl_disk c !! cacheFile.
Proof.
  intros Hp. unfold atomicWrite. destruct (disk_fault _); [done|]. intros [= <-]. simpl.
  by apply lookup_insert_ne.
Qed.

(** Enrollment does not touch the cached snapshot. *)
Lemma Enroll_keeps_cache mID seed encKey post cp token hn c c1 :
  Enroll mID seed encKey post cp token hn c = (inr tt, c1) →
  LoadCache (cl_disk c1) = LoadCache (cl_disk c).
Proof.
  unfold Enroll. case_decide; [done|]. destruct (post _) as [e|resp]; [done|]. intros Hrun.
  apply bind_inr in Hrun as ([] & ca & Ha & Hrun).
  apply bind_inr in Hrun as ([] & cb & Hb & Hc). apply atomicWrite_other in Ha, Hb, Hc; try done.
  unfold LoadCache. by rewrite Hc, Hb, Ha.
Qed.

(** Re-enrolling keeps the sequence number of the previous enrollment's
    snapshots: the restarted daemon ignores every snapshot for the new host
    whose number is not above it, valid signature or not.  (A new host's
    snapshots are numbered from 1.) *)
Theorem reenrolled_daemon_ignores_low_snapshots
    mID seed encKey post cp token hn c c1 cache version c2 env :
  LoadCache (cl_disk c) = inr cache →
  Enroll mID seed encKey post cp token hn c = (inr tt, c1) →
  cmdRun (cl_disk c1) version = inr c2 →
  Envelope_Type env = TypeSnapshot → 0 < Envelope_Seq env ≤ c_seq cache →
  dispatch env c2 = (inr tt, c2).
Proof.
  intros Hload Hen Hrun Ht Hseq. apply Enroll_keeps_cache in Hen. rewrite Hload in Hen.
  assert (cl_cache c2 = cache) as Hc.
  { unfold cmdRun in Hrun. rewrite Hen in Hrun. repeat case_match; by simplify_eq/=. }
  unfold dispatch. rewrite decide_True by done. destruct (verifySnapshot _ _); [done|].
  rewrite decide_True; [done|]. unfold Seq. rewrite Hc. lia.
Qed.
End claims.

(** ** Witnesses *)

Definition demo_signer : Identity.KeyPair := Identity.GenerateKeyPair (zeros 32).
Definition demo_entry : AccessEntry :=
  {| AccessEntry_UserID := "u1"; AccessEntry_KeyType := "ssh-ed25519"; AccessEntry_KeyBlob := "AAAA";
     AccessEntry_Fingerprint := "SHA256:fp"; AccessEntry_Accounts := ["deploy"] |}.
Definition demo_client (seq : Z) : Client :=
  {| cl_cfg := {| dc_ControlPlane := "https://cp"; dc_HostID := "h1";
                  dc_SigningPublicKey := Identity.PublicKey demo_signer |};
     cl_identity := demo_signer; cl_cache := {| c_seq := seq; c_entries := ∅ |};
     cl_secrets := None; cl_disk := ∅; cl_version := "v1"; cl_upgrading := false;
     cl_upgrades := []; cl_sent := []; cl_writes := 0 |}.
Definition demo_snapshot : Snapshot := {| Snapshot_Entries := [demo_entry] |}.
Definition demo_envelope (seq : Z) : Envelope :=
  let data := json_print (Snapshot_json demo_snapshot) in
  {| Envelope_Type := TypeSnapshot; Envelope_Data := data; Envelope_Seq := seq;
     Envelope_Sig := Identity.Sign demo_signer (SnapshotSigningInput "h1" seq data) |}.

Lemma cache_changes_only_by_signed_fresh_snapshot_witness :
  Envelope_Type (demo_envelope 3) = TypeSnapshot ∧
  authorize (cl_cache (dispatch (demo_envelope 3) (demo_client 2)).2) "SHA256:fp" "deploy" ≠ None.
Proof.
  split; [|vm_compute; discriminate].
  eapply (cache_changes_only_by_signed_fresh_snapshot (demo_envelope 3) (demo_client 2)).
  - vm_compute. discriminate.
  - apply surjective_pairing.
  - vm_compute. discriminate.
Defined.

Lemma replayed_snapshot_is_ignored_witness :
  let c2 := (readLoop [demo_envelope 4] (dispatch (demo_envelope 3) (demo_client 2)).2).2 in
  dispatch (demo_envelope 3) c2 = (inr tt, c2).
Proof.
  eapply (replayed_snapshot_is_ignored (demo_envelope 3) [demo_envelope 4] (demo_client 2)).
  - reflexivity.
  - reflexivity.
  - repeat constructor.
  - vm_compute. reflexivity.
  - vm_compute. reflexivity.
Defined.

Lemma purge_authorizes_no_one_witness :
  authorizeFromDisk (cl_disk (Purge (dispatch (demo_envelope 3) (demo_client 2)).2).2)
    "SHA256:fp" "deploy" = inr "".
Proof.
  eapply (purge_authorizes_no_one (dispatch (demo_envelope 3) (demo_client 2)).2);
    [vm_compute; split; congruence | apply surjective_pairing | vm_compute; reflexivity].
Defined.

Lemma disk_fallback_agrees_witness :
  ∃ line, authorizeFromDisk (cl_disk (ApplySnapshot demo_snapshot 3 (demo_client 2)).2)
            "SHA256:fp" "deploy" = inr line ∧
    (handleAuth (authQuery "SHA256:fp" "deploy")
       (cl_cache (ApplySnapshot demo_snapshot 3 (demo_client 2)).2) 0).1 =
      (if decide (line = "") then "" else line +:+ newline).
Proof.
  eapply (disk_fallback_agrees demo_snapshot 3 (demo_client 2)).
  - vm_compute. split; congruence.
  - apply (bool_decide_unpack _). vm_compute. exact I.
  - vm_compute. reflexivity.
  - apply (bool_decide_unpack _). vm_compute. exact I.
  - apply (bool_decide_unpack _). vm_compute. exact I.
  - apply (bool_decide_unpack _). vm_compute. exact I.
Defined.

Lemma reconnectDelay_bounds_witness :
  second ≤ reconnectDelay 6 (5 * second) ≤ 30 * second.
Proof. apply (reconnectDelay_bounds 6 (5 * second)); vm_compute; repeat split; congruence. Defined.

Definition demo_store : SecretStore :=
  {| ss_seq := 1; ss_ready := true; ss_key := None;
     ss_sets := {[ "app" := {| os_asUser := "web"; os_version := 1;
                               os_values := {[ "KEY" := "value" ]} |} ]} |}.

Definition demo_caller (u : string) : bool := String.eqb u "web".

Lemma handleSecret_scoped_witness :
  ∃ line o, read_line ("app" +:+ newline) = Some line ∧ ss_sets demo_store !! TrimSpace line = Some o ∧
    {[ "KEY" := "value" ]} = os_values o ∧
    (os_asUser o = "" ∨ demo_caller (os_asUser o) = true) ∧
    Some {| SecretRead_SetName := "app"; SecretRead_At := 7 |} =
      Some {| SecretRead_SetName := TrimSpace line; SecretRead_At := 7 |}.
Proof.
  apply (handleSecret_scoped demo_caller ("app" +:+ newline) demo_store 7).
  vm_compute. reflexivity.
Defined.

(** A daemon that had applied snapshot 3 of its old enrollment. *)
Definition demo_reenrolled : (error + unit) * Client :=
  Enroll "m1" (zeros 32) (zeros 32)
    (λ _, inr {| EnrollResponse_HostID := "h2";
                 EnrollResponse_SigningPublicKey := Identity.PublicKey demo_signer |})
    "https://cp" "t" "box" (ApplySnapshot demo_snapshot 3 (demo_client 2)).2.
Definition demo_fresh_envelope : Envelope :=
  let data := json_print (Snapshot_json demo_snapshot) in
  {| Envelope_Type := TypeSnapshot; Envelope_Data := data; Envelope_Seq := 1;
     Envelope_Sig := Identity.Sign demo_signer (SnapshotSigningInput "h2" 1 data) |}.

Lemma reenrolled_daemon_ignores_low_snapshots_witness :
  match cmdRun (cl_disk demo_reenrolled.2) "v1" with
  | inr c2 => verifySnapshot (cl_cfg c2) demo_fresh_envelope = inr tt ∧
              dispatch demo_fresh_envelope c2 = (inr tt, c2)
  | inl _ => False
  end.
Proof.
  destruct (cmdRun (cl_disk demo_reenrolled.2) "v1") as [e|c2] eqn:Hrun.
  - vm_compute in Hrun. discriminate Hrun.
  - split.
    + assert (cl_cfg c2 = {| dc_ControlPlane := "https://cp"; dc_HostID := "h2";
        dc_SigningPublicKey := Identity.PublicKey demo_signer |}) as ->
        by (vm_compute in Hrun; injection Hrun as <-; reflexivity).
      vm_compute. reflexivity.
    + eapply (reenrolled_daemon_ignores_low_snapshots "m1" (zeros 32) (zeros 32)
        (λ _, inr {| EnrollResponse_HostID := "h2";
                 EnrollResponse_SigningPublicKey := Identity.PublicKey demo_signer |})
        "https://cp" "t" "box" (ApplySnapshot demo_snapshot 3 (demo_client 2)).2 demo_reenrolled.2).
      * vm_compute. reflexivity.
      * vm_compute. reflexivity.
      * exact Hrun.
      * reflexivity.
      * vm_compute. split; [reflexivity|congruence].
Defined.
