(* ===== verification/AgentProps.v ===== *)
(** What the running agent guarantees: a report of a login or of a set read is
    delivered at most once, in order and only for an answer the agent gave;
    what it authorizes comes from its start-up cache or from a signed
    snapshot it received; its waits are bounded; and the state in which a full
    send queue keeps it from ever reconnecting. *)
From Stdlib Require Import Ascii.
From S2P Require Import Prelude Text Base64 Json Protocol Crypto Schema World Http Daemon Demo DaemonProps Agent.

Section agent_props.
Context `{JsonText, TimeFormat, Crypto, Disk}.

(** ** What the steps of [Run] leave alone *)

Lemma writeStatus_cache b now c : cl_cache (writeStatus b now c) = cl_cache c.
Proof. unfold writeStatus, SaveStatus, atomicWrite. by destruct (disk_fault _). Qed.
Lemma writeStatus_cfg b now c : cl_cfg (writeStatus b now c) = cl_cfg c.
Proof. unfold writeStatus, SaveStatus, atomicWrite. by destruct (disk_fault _). Qed.

(** The buffers and the connections. *)
Definition queues (a : Agent) := (ag_logs a, ag_reads a, ag_links a).

Lemma exitRun_queues b now a : queues (exitRun b now a) = queues a.
Proof. done. Qed.
Lemma loopHead_queues now a : queues (loopHead now a) = queues a.
Proof. unfold loopHead, unlessOver. by destruct (ag_stopped a), (ag_restart a). Qed.
Lemma linkOver_queues e now jitter a : queues (linkOver e now jitter a) = queues a.
Proof.
  unfold linkOver, unlessOver. simpl. destruct (ag_stopped a), (ag_restart a); try done.
  by destruct (afterLink _ _ _).
Qed.

(** ** Reports *)

Definition of_type (T : MessageType) (l : list Envelope) : list Envelope :=
  filter (λ e, Envelope_Type e = T) l.

Lemma of_type_app T l k : of_type T (l ++ k) = of_type T l ++ of_type T k.
Proof. apply filter_app. Qed.
Lemma of_type_other T env : Envelope_Type env ≠ T → of_type T [env] = [].
Proof. intros Ht. unfold of_type. by rewrite filter_cons_False. Qed.
Lemma of_type_proper T l k : l ≡ₚ k → of_type T l ≡ₚ of_type T k.
Proof. unfold of_type. by intros ->. Qed.

(** The reports an agent owes for a trace, and what it wrote, on one
    connection and on any. *)
Definition reported (ev : event) : list Envelope :=
  match ev with
  | Answered _ log => [access_report log] | Served _ rd => [read_report rd] | _ => []
  end.
Definition wrote (i : nat) (ev : event) : list Envelope :=
  match ev with Wrote j env => if decide (j = i) then [env] else [] | _ => [] end.
Definition wrote_any (ev : event) : list Envelope :=
  match ev with Wrote _ env => [env] | _ => [] end.

(** The reports of a type still in their buffer, and the messages a connection
    has taken and not written. *)
Definition buffer (T : MessageType) (a : Agent) : list Envelope :=
  if decide (T = TypeAccessLog) then access_report <$> ag_logs a
  else if decide (T = TypeSecretRead) then read_report <$> ag_reads a else [].
Definition inflight (l : Link) : list Envelope :=
  lk_send l ++ match lk_forwarder l with Holding env => [env] | _ => [] end.

Definition pushes_pong (l : Link) : Prop :=
  ∀ env, lk_reader l = Pushing env → Envelope_Type env = TypePong.

Lemma dispatch_sent env c r c' :
  dispatch env c = (r, c') → cl_sent c' = cl_sent c ∨ cl_sent c' = cl_sent c ++ [NewEnvelope TypePong None].
Proof.
  unfold dispatch, handleUpgrade. repeat (case_decide || case_match); intros Hd; simplify_eq; eauto.
  left. unfold ApplySnapshot, bind, modify, persistLocked, atomicWrite in *. simpl in *.
  destruct (disk_fault _); by simplify_eq.
Qed.

Lemma receive_pong env c r c' l : receive env c = (r, c') → pushes_pong (set_reader r l).
Proof.
  unfold receive. destruct (dispatch _ _) as [r0 c0] eqn:Hd. intros [= <- <-] p. simpl.
  destruct (dispatch_sent _ _ _ _ Hd) as [Hs|Hs]; rewrite Hs; simpl; destruct r0; try done.
  by intros [= <-].
Qed.
Lemma receive_cache env c r c' :
  receive env c = (r, c') → cl_cache c' = cl_cache (dispatch env (clear_sent c)).2 ∧
    cl_cfg c' = cl_cfg (dispatch env (clear_sent c)).2.
Proof. unfold receive. destruct (dispatch _ _) as [r0 c0]. by intros [= <- <-]. Qed.

Section reports.
Context (T : MessageType) (HT : T ≠ TypePong).

(** [taken]: the reports taken from their buffer so far. *)
Record report_inv (t : list event) (a : Agent) (taken : list Envelope) : Prop := {
  ri_recorded : taken ++ buffer T a `sublist_of` of_type T (t ≫= reported);
  ri_links i l : ag_links a !! i = Some l →
    pushes_pong l ∧ of_type T ((t ≫= wrote i) ++ inflight l) `sublist_of` taken;
  ri_fresh i : ag_links a !! i = None → t ≫= wrote i = [];
  ri_all : of_type T ((t ≫= wrote_any) ++ (ag_links a ≫= inflight)) ⊆+ taken }.

(** A step that touches neither buffers nor connections. *)
Lemma report_inv_other t a taken ev a' :
  queues a' = queues a → reported ev = [] → wrote_any ev = [] → (∀ i, wrote i ev = []) →
  report_inv t a taken → report_inv (t ++ [ev]) a' taken.
Proof.
  intros [= Hl Hr Hs] Hre Hwa Hw [Hrec Hlinks Hfresh Hall].
  split; unfold buffer in *; rewrite ?Hl, ?Hr, ?Hs, ?bind_app, ?bind_singleton, ?Hre, ?Hwa, ?app_nil_r;
    try done; intros i; [intros l|]; rewrite bind_app, bind_singleton, Hw, app_nil_r; auto.
Qed.

(** Replacing one connection replaces what it has in flight. *)
Lemma inflight_insert (ls : list Link) i l l' :
  ls !! i = Some l →
  ∃ rest, ls ≫= inflight ≡ₚ inflight l ++ rest ∧ <[i := l']> ls ≫= inflight ≡ₚ inflight l' ++ rest.
Proof.
  intros Hl. exists ((take i ls ≫= inflight) ++ (drop (S i) ls ≫= inflight)). split.
  - rewrite <-(take_drop_middle ls i l Hl) at 1. rewrite bind_app, bind_cons. solve_Permutation.
  - rewrite insert_take_drop by (by eapply lookup_lt_Some).
    rewrite bind_app, bind_cons. solve_Permutation.
Qed.

(** A step of one connection: it may take reports [x] from the buffer and
    write [w]; what it then has in flight it had before or took. *)
Lemma report_inv_link t a taken ev i l l' a' x w :
  ag_links a !! i = Some l → ag_links a' = <[i := l']> (ag_links a) →
  reported ev = [] → wrote_any ev = w → wrote i ev = w → (∀ j, j ≠ i → wrote j ev = []) →
  buffer T a = of_type T x ++ buffer T a' →
  of_type T (w ++ inflight l') `sublist_of` of_type T (inflight l ++ x) → pushes_pong l' →
  report_inv t a taken → report_inv (t ++ [ev]) a' (taken ++ of_type T x).
Proof.
  intros Hl Hl' Hre Hwa Hwi Hwj Hb Hsub Hp [Hrec Hlinks Hfresh Hall].
  assert (i < length (ag_links a))%nat as Hi by (by eapply lookup_lt_Some).
  split.
  - by rewrite bind_app, bind_singleton, Hre, app_nil_r, <-(assoc (++)), <-Hb.
  - intros j lj. rewrite Hl', list_lookup_insert, bind_app, bind_singleton.
    case_decide as Hj; [destruct Hj as [<- _]; intros [= <-]|].
    + split; [done|]. destruct (Hlinks i l Hl) as [_ Hs].
      rewrite Hwi, <-(assoc (++)), of_type_app. rewrite of_type_app in Hs, Hsub.
      etrans; [apply sublist_app; [reflexivity|rewrite of_type_app; exact Hsub]|].
      rewrite of_type_app, (assoc (++)). by apply sublist_app.
    + intros Hlj. assert (j ≠ i) as Hne by (intros ->; by destruct Hj).
      destruct (Hlinks j lj Hlj) as [? Hs]. rewrite Hwj, app_nil_r by done.
      split; [done|]. etrans; [exact Hs|]. by apply sublist_inserts_r.
  - intros j. rewrite Hl'. intros Hj%lookup_ge_None. rewrite length_insert in Hj.
    rewrite bind_app, bind_singleton, Hwj, app_nil_r by lia. by apply Hfresh, lookup_ge_None.
  - destruct (inflight_insert (ag_links a) i l l' Hl) as (rest & Hin & Hout).
    rewrite Hl', bind_app, bind_singleton, Hwa, !of_type_app, (of_type_proper _ _ _ Hout).
    rewrite of_type_app, (of_type_proper _ _ _ Hin) in Hall. rewrite !of_type_app in *.
    trans (of_type T (t ≫= wrote_any) ++ (of_type T (inflight l) ++ of_type T x) ++ of_type T rest).
    + rewrite <-!(assoc (++)). apply submseteq_skips_l. rewrite !(assoc (++)).
      apply submseteq_skips_r. by apply sublist_submseteq.
    + etrans; [|apply submseteq_skips_r, Hall].
      apply Permutation_submseteq. solve_Permutation.
Qed.

(** A report recorded in its buffer, or dropped. *)
Lemma report_inv_record t a taken ev a' x :
  ag_links a' = ag_links a → reported ev = [x] → wrote_any ev = [] → (∀ i, wrote i ev = []) →
  buffer T a' `sublist_of` buffer T a ++ of_type T [x] →
  report_inv t a taken → report_inv (t ++ [ev]) a' taken.
Proof.
  intros Hl Hre Hwa Hw Hb [Hrec Hlinks Hfresh Hall].
  split; rewrite ?Hl, ?bind_app, ?bind_singleton, ?Hre, ?Hwa, ?app_nil_r; try done.
  - rewrite of_type_app. etrans; [apply sublist_app; [reflexivity|exact Hb]|].
    rewrite (assoc (++)). by apply sublist_app.
  - intros i l. rewrite bind_app, bind_singleton, Hw, app_nil_r. apply Hlinks.
  - intros i. rewrite bind_app, bind_singleton, Hw, app_nil_r. apply Hfresh.
Qed.

Lemma buffer_access log a :
  buffer T (RecordAccess log a) `sublist_of` buffer T a ++ of_type T [access_report log].
Proof.
  unfold buffer, RecordAccess, offer. simpl. case_decide as Ht.
  - case_decide; [|by apply sublist_inserts_r]. subst. by rewrite fmap_app.
  - rewrite of_type_other by done. by rewrite app_nil_r.
Qed.
Lemma buffer_read rd a :
  buffer T (RecordSecretRead rd a) `sublist_of` buffer T a ++ of_type T [read_report rd].
Proof.
  unfold buffer, RecordSecretRead, offer. simpl. case_decide as Ht; [by apply sublist_inserts_r|].
  case_decide as Ht'.
  - case_decide; [|by apply sublist_inserts_r]. subst. by rewrite fmap_app.
  - rewrite of_type_other by done. by rewrite app_nil_r.
Qed.
Lemma buffer_take_log a entry rest :
  ag_logs a = entry :: rest →
  buffer T a = of_type T [access_report entry] ++ buffer T (set_buffers rest (ag_reads a) a).
Proof.
  unfold buffer. intros ->. simpl. case_decide as Ht; [by subst|]. by rewrite of_type_other.
Qed.
Lemma buffer_take_read a rd rest :
  ag_reads a = rd :: rest →
  buffer T a = of_type T [read_report rd] ++ buffer T (set_buffers (ag_logs a) rest a).
Proof.
  unfold buffer. intros ->. simpl. case_decide as Ht; [by subst|].
  case_decide; [by subst|]. by rewrite of_type_other.
Qed.

(** A new connection has written nothing. *)
Lemma report_inv_serve t a taken url auth now :
  report_inv t a taken → report_inv (t ++ [Dialled url auth]) (serveLink now a) taken.
Proof.
  intros [Hrec Hlinks Hfresh Hall]. split.
  - by rewrite bind_app, bind_singleton, app_nil_r.
  - intros i l Hl. rewrite bind_app, bind_singleton, app_nil_r.
    apply lookup_app_Some in Hl as [Hl|[Hge Hl]]; [by apply Hlinks|].
    apply list_lookup_singleton_Some in Hl as [_ <-].
    rewrite Hfresh by by apply lookup_ge_None. split; [done|]. apply sublist_nil_l.
  - intros i Hi. rewrite bind_app, bind_singleton, app_nil_r. apply Hfresh, lookup_ge_None.
    apply lookup_ge_None in Hi. simpl in Hi. rewrite length_app in Hi. lia.
  - simpl. by rewrite !bind_app, !bind_singleton, !app_nil_r.
Qed.

(** The steps of one connection that neither take nor write a report. *)
Lemma report_inv_quiet t a taken ev i l l' a' :
  ag_links a !! i = Some l → queues a' = (ag_logs a, ag_reads a, <[i := l']> (ag_links a)) →
  reported ev = [] → wrote_any ev = [] → (∀ j, wrote j ev = []) →
  of_type T (inflight l') `sublist_of` of_type T (inflight l) → pushes_pong l' →
  report_inv t a taken → report_inv (t ++ [ev]) a' taken.
Proof.
  intros Hl [= Hlogs Hreads Hlinks] Hre Hwa Hw Hsub Hp Hinv. rewrite <-(app_nil_r taken).
  apply (report_inv_link t a taken ev i l l' a' [] []); auto.
  - unfold buffer. simpl. by rewrite Hlogs, Hreads.
  - by rewrite app_nil_r.
Qed.

Lemma inflight_pushed l env :
  Envelope_Type env = TypePong →
  of_type T (inflight (set_reader Reading (set_send (lk_send l ++ [env]) l))) =
    of_type T (inflight l).
Proof.
  intros He. unfold inflight. simpl. rewrite !of_type_app, (of_type_other T env) by congruence.
  by rewrite app_nil_r.
Qed.
Lemma inflight_write_failed l env rest l' :
  lk_send l = env :: rest → lk_send l' = rest → lk_forwarder l' = lk_forwarder l →
  of_type T (inflight l') `sublist_of` of_type T (inflight l).
Proof.
  intros Hs Hs' Hf. unfold inflight. rewrite Hs, Hs', Hf, <-app_comm_cons.
  change (env :: ?k) with ([env] ++ k). rewrite (of_type_app T [env]). by apply sublist_inserts_l.
Qed.

Lemma report_inv_step t a taken ev a' :
  agent_step a ev a' → report_inv t a taken → ∃ taken', report_inv (t ++ [ev]) a' taken'.
Proof.
  intros Hstep Hinv. pose proof (ri_links _ _ _ Hinv) as Hlk.
  destruct Hstep as
    [input now reply log _ _|cal input ss now v rd _ _ _|i l entry rest Hl Hf Hb _|i l rd rest Hl Hf Hb _
    |i l env Hl Hf _ _|i l env Hl Hf _ _|i l Hl Hf _ _|i l env rest Hl _ Hs _|i l env rest Hl _ Hs _
    |i l Hl _ _ _|i l env r c Hl Hr Hc _|i l env Hl Hr _ _|i l e Hl Hr _|i l Hl _ _
    |challenge auth now _ _|e now j _ _|i l e now j _ Hl Hr _|now d _|now d _ _|now d _ _|_|_ _ _|_ _ _];
    try (destruct (Hlk _ _ Hl) as [Hp _]).
  19-23: exists taken; by apply (report_inv_other t a).
  - exists taken. by eapply report_inv_record; [..|apply buffer_access|].
  - exists taken. by eapply report_inv_record; [..|apply buffer_read|].
  - exists (taken ++ of_type T [access_report entry]).
    eapply (report_inv_link _ _ _ _ i l _ _ _ []); try done; [by apply buffer_take_log|].
    unfold inflight. simpl. by rewrite Hf, app_nil_r.
  - exists (taken ++ of_type T [read_report rd]).
    eapply (report_inv_link _ _ _ _ i l _ _ _ []); try done; [by apply buffer_take_read|].
    unfold inflight. simpl. by rewrite Hf, app_nil_r.
  - exists taken. eapply (report_inv_quiet _ _ _ _ i l); try done.
    unfold inflight. simpl. by rewrite Hf, app_nil_r.
  - exists taken. eapply (report_inv_quiet _ _ _ _ i l); try done. unfold inflight. simpl.
    rewrite Hf, app_nil_r, of_type_app. by apply sublist_inserts_r.
  - exists taken. eapply (report_inv_quiet _ _ _ _ i l); try done. unfold inflight. simpl. by rewrite Hf.
  - exists (taken ++ of_type T []). eapply (report_inv_link _ _ _ _ i l _ _ [] [env]); try done; simpl.
    + by rewrite decide_True.
    + intros j Hj. by rewrite decide_False.
    + unfold inflight. simpl. by rewrite Hs, app_nil_r.
  - exists taken. eapply (report_inv_quiet _ _ _ _ i l); try done. by eapply inflight_write_failed.
  - exists taken. by eapply (report_inv_quiet _ _ _ _ i l).
  - exists taken. eapply (report_inv_quiet _ _ _ _ i l); try done. by eapply receive_pong.
  - exists taken. eapply (report_inv_quiet _ _ _ _ i l); try done. rewrite inflight_pushed by auto. done.
  - exists taken. by eapply (report_inv_quiet _ _ _ _ i l).
  - exists taken. by eapply (report_inv_quiet _ _ _ _ i l).
  - exists taken. by apply report_inv_serve.
  - exists taken. destruct e; by eapply report_inv_other; [apply linkOver_queues|..].
  - exists taken. destruct e; eapply (report_inv_quiet _ _ _ _ i l (cancel_link l)); try done;
      by rewrite linkOver_queues.
  - exists taken. by eapply report_inv_other; [apply loopHead_queues|..].
Qed.

Lemma report_inv_run c t a : agent_run (startAgent c) t a → ∃ taken, report_inv t a taken.
Proof.
  induction 1 as [|t a1 ev a2 _ [taken IH] Hstep]; [|by eapply report_inv_step].
  exists []. split; try done. unfold buffer. simpl. by repeat case_decide.
Qed.
End reports.

(** ** Bounds *)

Record agent_bounded (a : Agent) : Prop := {
  ab_logs : (length (ag_logs a) ≤ logBufferSize)%nat;
  ab_reads : (length (ag_reads a) ≤ logBufferSize)%nat;
  ab_send : Forall (λ l, (length (lk_send l) ≤ logBufferSize)%nat) (ag_links a);
  ab_attempt : 0 ≤ ag_attempt a;
  ab_wait d : ag_phase a = Sleeping d → second ≤ d ≤ 30 * second }.

Lemma offer_bounded {A} (x : A) ch :
  (length ch ≤ logBufferSize)%nat → (length (offer x ch) ≤ logBufferSize)%nat.
Proof. unfold offer, room. case_decide; rewrite ?length_app; simpl; lia. Qed.

(** The queues of the agent stay bounded if the changed connection's does. *)
Lemma bounded_link a i l l' a' :
  ag_links a !! i = Some l → ag_links a' = <[i := l']> (ag_links a) →
  (length (ag_logs a') ≤ length (ag_logs a))%nat → (length (ag_reads a') ≤ length (ag_reads a))%nat →
  ag_attempt a' = ag_attempt a → ag_phase a' = ag_phase a →
  ((length (lk_send l) ≤ logBufferSize → length (lk_send l') ≤ logBufferSize)%nat) →
  agent_bounded a → agent_bounded a'.
Proof.
  intros Hl Hl' Hlogs Hreads Ha Hp Hs [? ? Hsend ? ?]. split; rewrite ?Ha, ?Hp, ?Hl'; try done; try lia.
  apply Forall_lookup. intros j lj. rewrite list_lookup_insert. rewrite Forall_lookup in Hsend.
  case_decide as Hj; [destruct Hj as [<- _]; intros [= <-]|]; eauto.
Qed.
Lemma bounded_run a a' :
  queues a' = queues a → 0 ≤ ag_attempt a' →
  (∀ d, ag_phase a' = Sleeping d → second ≤ d ≤ 30 * second) →
  agent_bounded a → agent_bounded a'.
Proof. intros [= Hl Hr Hs] Ha Hp [? ? ? ? ?]. split; rewrite ?Hl, ?Hr, ?Hs; done. Qed.

Lemma linkOver_bounded e now jitter a :
  jitter_ok e jitter a → agent_bounded a → agent_bounded (linkOver e now jitter a).
Proof.
  intros Hj Hb. pose proof (ab_attempt _ Hb) as Ha.
  eapply bounded_run; [apply linkOver_queues|..|exact Hb]; unfold linkOver, unlessOver; simpl;
    destruct (ag_stopped a), (ag_restart a); try done; unfold jitter_ok, afterLink in *;
    destruct e; simpl in *; try done; try lia; intros d [= <-]; apply reconnectDelay_bounds;
    unfold maxBackoffAttempt in *; try lia; done.
Qed.

Lemma agent_bounded_step a ev a' : agent_step a ev a' → agent_bounded a → agent_bounded a'.
Proof.
  intros Hstep Hb. pose proof (ab_attempt _ Hb) as Hat. pose proof Hb as [Hlogs Hreads Hsend _ Hw].
  destruct Hstep as
    [input now reply log _ _|cal input ss now v rd _ _ _|i l entry rest Hl Hf Hq _|i l rd rest Hl Hf Hq _
    |i l env Hl Hf Hr _|i l env Hl Hf _ _|i l Hl Hf _ _|i l env rest Hl _ Hs _|i l env rest Hl _ Hs _
    |i l Hl _ _ _|i l env r c Hl Hr Hc _|i l env Hl _ Hr _|i l e Hl Hr _|i l Hl _ _
    |challenge auth now _ _|e now j _ Hj|i l e now j Hp Hl Hr Hj|now d _|now d _ _|now d _ _|_|_ _ _|_ _ _].
  - split; try done. by apply offer_bounded.
  - split; try done. by apply offer_bounded.
  - eapply bounded_link; try done; simpl; rewrite ?Hq; simpl; lia.
  - eapply bounded_link; try done; simpl; rewrite ?Hq; simpl; lia.
  - eapply bounded_link; try done. simpl. unfold room in Hr. rewrite length_app. simpl. lia.
  - by eapply bounded_link.
  - by eapply bounded_link.
  - eapply bounded_link; try done. rewrite Hs. simpl. lia.
  - eapply bounded_link; try done. rewrite Hs. simpl. lia.
  - by eapply bounded_link.
  - by eapply bounded_link.
  - eapply bounded_link; try done. simpl. unfold room in Hr. rewrite length_app. simpl. lia.
  - by eapply bounded_link.
  - by eapply bounded_link.
  - split; try done. simpl. apply Forall_app. split; [done|]. by repeat constructor.
  - by apply linkOver_bounded.
  - apply linkOver_bounded; [done|]. by eapply bounded_link.
  - eapply bounded_run; [apply loopHead_queues|..|exact Hb]; unfold loopHead, unlessOver;
      by destruct (ag_stopped a), (ag_restart a).
  - by apply (bounded_run a).
  - by apply (bounded_run a).
  - by apply (bounded_run a).
  - by apply (bounded_run a).
  - by apply (bounded_run a).
Qed.

(** ** Where the cache comes from *)

Definition signed_snapshot (cfg : DaemonConfig) (env : Envelope) (snap : Snapshot) : Prop :=
  Envelope_Type env = TypeSnapshot ∧
  Identity.Verify (dc_SigningPublicKey cfg)
    (SnapshotSigningInput (dc_HostID cfg) (Envelope_Seq env) (Envelope_Data env))
    (Envelope_Sig env) = inr tt ∧
  unmarshal Snapshot_of_json (Envelope_Data env) = Some snap.

Inductive cache_origin (c : Client) (t : list event) (m : gmap string AccessEntry) : Prop :=
  | origin_start : m = c_entries (cl_cache c) → Rejected ∉ t → cache_origin c t m
  | origin_purged : m = ∅ → cache_origin c t m
  | origin_snapshot t1 i env snap t2 :
      t = t1 ++ Received i env :: t2 → Rejected ∉ t2 → signed_snapshot (cl_cfg c) env snap →
      m = index_entries (Snapshot_Entries snap) → cache_origin c t m.

(** What one step does to the cache. *)
Inductive cache_step (a : Agent) (ev : event) (a' : Agent) : Prop :=
  | cache_kept : cl_cache (ag_client a') = cl_cache (ag_client a) → ev ≠ Rejected → cache_step a ev a'
  | cache_exited : ¬ running a' → cache_step a ev a'
  | cache_purged : c_entries (cl_cache (ag_client a')) = ∅ → cache_step a ev a'
  | cache_applied i env snap :
      ev = Received i env → signed_snapshot (cl_cfg (ag_client a)) env snap →
      c_entries (cl_cache (ag_client a')) = index_entries (Snapshot_Entries snap) →
      cache_step a ev a'.

Lemma Purge_client c : cl_cfg (Purge c).2 = cl_cfg c ∧ c_entries (cl_cache (Purge c).2) = ∅.
Proof.
  unfold Purge, bind, modify, persistLocked, atomicWrite. simpl. by destruct (disk_fault _).
Qed.

Lemma linkOver_cache e now jitter a :
  cl_cfg (ag_client (linkOver e now jitter a)) = cl_cfg (ag_client a) ∧
  cache_step a (over_event e) (linkOver e now jitter a).
Proof.
  unfold linkOver, unlessOver. simpl.
  destruct (ag_stopped a); [|destruct (ag_restart a)].
  1,2: simpl; rewrite !writeStatus_cfg; split; [done|]; apply cache_exited; by intros [].
  destruct e; simpl.
  - rewrite writeStatus_cfg. split; [done|]. apply cache_kept; [apply writeStatus_cache|done].
  - destruct (Purge_client (writeStatus false now (ag_client a))) as [Hc He].
    rewrite Hc, writeStatus_cfg. split; [done|]. by apply cache_purged.
Qed.

Lemma receive_step a i l env r c :
  dc_SigningPublicKey (cl_cfg (ag_client a)) ≠ "" → receive env (ag_client a) = (r, c) →
  cl_cfg c = cl_cfg (ag_client a) ∧
  cache_step a (Received i env) (on_link i l (set_client c a)).
Proof.
  intros Hk Hr. destruct (receive_cache _ _ _ _ Hr) as [Hc Hcfg].
  destruct (dispatch env (clear_sent (ag_client a))) as [r0 c0] eqn:Hd. simpl in *.
  apply dispatch_cache in Hd as [Hcfg0 [Hsame|(Ht & Hv & _ & snap & Hu & He)]]; simpl in *.
  - split; [congruence|]. apply cache_kept; [simpl; congruence|done].
  - split; [congruence|]. apply (cache_applied _ _ _ i env snap); [done| |simpl; by rewrite Hc, He].
    split_and!; [done| |done]. unfold verifySnapshot in Hv. by rewrite decide_False in Hv by done.
Qed.

Lemma agent_step_cache a ev a' :
  dc_SigningPublicKey (cl_cfg (ag_client a)) ≠ "" → agent_step a ev a' →
  running a ∧ cl_cfg (ag_client a') = cl_cfg (ag_client a) ∧ cache_step a ev a'.
Proof.
  intros Hk Hstep.
  destruct Hstep as
    [| | | | | | | | | |i l env r c Hl Hr Hc Hrun| | | |challenge auth now Hp|e now j Hp _
    |i l e now j Hp Hl Hr _|now d Hp|now d Hp _|now d Hp _| | | ];
    try (split_and!; [done|done|by apply cache_kept]); unfold running; try rewrite Hp.
  - split; [done|]. by eapply receive_step.
  - split_and!; [done|apply writeStatus_cfg|]. apply cache_kept; [apply writeStatus_cache|done].
  - split; [done|]. apply linkOver_cache.
  - split; [done|]. destruct (linkOver_cache e now j (on_link i (cancel_link l) a)) as [Hc Hs].
    split; [done|]. by destruct Hs; [by apply cache_kept|by apply cache_exited|by apply cache_purged
      |by eapply cache_applied].
  - split; [done|]. unfold loopHead, unlessOver.
    destruct (ag_stopped a); [|destruct (ag_restart a)]; simpl; rewrite ?writeStatus_cfg;
      (split; [done|]); [by apply cache_exited; intros []..|by apply cache_kept].
  - simpl. rewrite writeStatus_cfg. split_and!; [done..|]. by apply cache_exited; intros [].
  - simpl. rewrite writeStatus_cfg. split_and!; [done..|]. by apply cache_exited; intros [].
Qed.

Lemma agent_run_cache c t a :
  dc_SigningPublicKey (cl_cfg c) ≠ "" → agent_run (startAgent c) t a →
  cl_cfg (ag_client a) = cl_cfg c ∧
  (running a → cache_origin c t (c_entries (cl_cache (ag_client a)))).
Proof.
  intros Hk Hrun. induction Hrun as [|t a1 ev a2 _ [Hcfg IH] Hstep].
  { split; [done|]. intros _. apply origin_start; [done|]. apply not_elem_of_nil. }
  apply agent_step_cache in Hstep as (Hr & Hcfg' & Hs); [|congruence].
  split; [congruence|]. intros Hr2. specialize (IH Hr).
  destruct Hs as [Hsame Hev|Hno|He|i env snap -> Hsig He].
  - rewrite Hsame. destruct IH as [He Ht|He|t1 i env snap t2 -> Ht Hsig He].
    + apply origin_start; [done|]. rewrite elem_of_app, list_elem_of_singleton.
      by intros [?|?]; [|subst].
    + by apply origin_purged.
    + apply (origin_snapshot _ _ _ t1 i env snap (t2 ++ [ev])); [|..|done|done].
      * by rewrite <-(assoc (++)).
      * rewrite elem_of_app, list_elem_of_singleton. by intros [?|?]; [|subst].
  - done.
  - by apply origin_purged.
  - apply (origin_snapshot _ _ _ t i env snap []); [done|apply not_elem_of_nil|congruence|done].
Qed.
(** ** A full send queue *)

(** The read loop waits to push a pong, the queue is full and nothing writes. *)
Definition stuck_link (l : Link) : Prop :=
  (∃ env, lk_reader l = Pushing env) ∧ ¬ room (lk_send l) ∧ lk_writing l = false.
Definition wedged (a : Agent) : Prop :=
  ag_phase a = Serving 0 ∧ ∃ l, ag_links a = [l] ∧ stuck_link l.

Lemma wedged_link j l l' a a' :
  ag_links a !! j = Some l → ag_links a' = <[j := l']> (ag_links a) → ag_phase a' = ag_phase a →
  cl_cache (ag_client a') = cl_cache (ag_client a) → (stuck_link l → stuck_link l') →
  wedged a → wedged a' ∧ cl_cache (ag_client a') = cl_cache (ag_client a).
Proof.
  intros Hl Hl' Hp Hc Hs [Hser (li & Hli & Hst)]. split; [|done]. split; [congruence|].
  rewrite Hli in Hl, Hl'. apply list_lookup_singleton_Some in Hl as [-> ->]. eauto.
Qed.

Lemma wedged_step a ev a' :
  agent_step a ev a' → wedged a → wedged a' ∧ cl_cache (ag_client a') = cl_cache (ag_client a).
Proof.
  intros Hstep Hw. pose proof Hw as [Hser (li & Hli & (envi & Hri) & _)].
  assert (ag_links a !! 0%nat = Some li) as Hl0 by (by rewrite Hli).
  destruct Hstep; try congruence; try done; try (rewrite Hli in *; list_simplifier; congruence);
    clear Hl0;
    match goal with Hl : ag_links _ !! ?j = Some ?l |- _ =>
      eapply (wedged_link j l); [exact Hl|reflexivity|reflexivity|reflexivity| |exact Hw] end;
    intros ((env' & Hr') & Hroom & Hwr); solve [congruence | done | by repeat split; eauto].
Qed.

Lemma wedged_run a t a' :
  agent_run a t a' → wedged a → wedged a' ∧ cl_cache (ag_client a') = cl_cache (ag_client a).
Proof.
  intros Hrun Hw. induction Hrun as [|t a1 ev a2 _ [IHw IHc] Hstep]; [done|].
  destruct (wedged_step _ _ _ Hstep IHw) as [? ?]. split; [done|congruence].
Qed.

(** One more report on the way: answered, taken and queued. *)
Definition filled (n : nat) (a : Agent) : Prop :=
  ag_phase a = Serving 0 ∧ ag_logs a = [] ∧
  ∃ l, ag_links a = [l] ∧ lk_reader l = Reading ∧ lk_writing l = true ∧ lk_forwarder l = Idle ∧
       length (lk_send l) = n.

Definition any_query : bytes := authQuery "" "".
Lemma any_query_answered cache : ∃ reply log, handleAuth any_query cache 0 = (reply, Some log).
Proof. unfold handleAuth. simpl. eauto. Qed.

Lemma take_report n a :
  filled n a → ∃ t a' l env, agent_run a t a' ∧ ag_phase a' = Serving 0 ∧ ag_logs a' = [] ∧
    ag_links a' = [l] ∧ lk_reader l = Reading ∧ lk_writing l = true ∧
    lk_forwarder l = Holding env ∧ length (lk_send l) = n.
Proof.
  intros (Hp & Hlogs & l & Hl & Hr & Hw & Hf & Hn).
  destruct (any_query_answered (cl_cache (ag_client a))) as (reply & log & Ha).
  eexists _, _, _, (access_report log). split.
  - eapply run_snoc; [eapply run_snoc; [apply run_nil|]|].
    + eapply step_login; [exact Ha|]. unfold running. by rewrite Hp.
    + eapply (step_take_log _ 0 l log []); simpl; [by rewrite Hl|done|by rewrite Hlogs|].
      unfold running. simpl. by rewrite Hp.
  - simpl. rewrite Hl. split_and!; try done; simpl; done.
Qed.

Lemma agent_run_app a t a1 t' a2 : agent_run a t a1 → agent_run a1 t' a2 → agent_run a (t ++ t') a2.
Proof.
  intros H1' H2'. induction H2' as [|t' a3 ev a4 _ IH Hs]; [by rewrite app_nil_r|].
  rewrite (assoc (++)). by eapply run_snoc.
Qed.

Lemma put_report a l env :
  ag_phase a = Serving 0 → ag_links a = [l] → lk_forwarder l = Holding env → room (lk_send l) →
  agent_run a [Tau] (on_link 0 (set_forwarder Idle (set_send (lk_send l ++ [env]) l)) a).
Proof.
  intros Hp Hl Hf Hr. eapply (run_snoc _ []); [apply run_nil|].
  apply step_put; [by rewrite Hl|done|done|]. unfold running. by rewrite Hp.
Qed.

Lemma fill_queue n a :
  (n ≤ logBufferSize)%nat → filled 0 a → ∃ t a', agent_run a t a' ∧ filled n a'.
Proof.
  intros Hn Ha. induction n as [|n IH]; [exists [], a; split; [apply run_nil|done]|].
  destruct IH as (t & a1 & Hrun & Hf); [lia|].
  destruct (take_report n a1 Hf) as (t1 & a2 & l & env & Hrun1 & Hp & Hlogs & Hl & Hr & Hw & Hh & Hlen).
  eexists _, _. split.
  - eapply agent_run_app; [exact Hrun|]. eapply agent_run_app; [exact Hrun1|].
    eapply put_report; [done|exact Hl|exact Hh|]. unfold room. lia.
  - unfold filled. simpl. rewrite Hl. split_and!; [done|done|].
    eexists. split_and!; [reflexivity|done|done|done|]. simpl. rewrite length_app. simpl. lia.
Qed.

Lemma receive_ping env c :
  Envelope_Type env = TypePing →
  receive env c = (Pushing (NewEnvelope TypePong None), clear_sent c).
Proof. intros He. unfold receive, dispatch. by rewrite He. Qed.

Lemma filled_wedges a :
  filled logBufferSize a → ∃ t a', agent_run a t a' ∧ wedged a'.
Proof.
  intros Ha.
  destruct (take_report _ a Ha) as (t & a1 & l & env & Hrun & Hp & _ & Hl & Hr & Hw & Hh & Hlen).
  set (ping := NewEnvelope TypePing None).
  destruct (lk_send l) as [|e0 rest] eqn:Hsend; [done|].
  set (l1 := set_reader (Pushing (NewEnvelope TypePong None)) l).
  set (l2 := cancel_link (stop_writing (set_send rest l1))).
  eexists _, (on_link 0 (set_forwarder Idle (set_send (rest ++ [env]) l2))
    (on_link 0 l2 (on_link 0 l1 (set_client (clear_sent (ag_client a1)) a1)))). split.
  - eapply agent_run_app; [exact Hrun|].
    eapply run_snoc; [eapply run_snoc; [eapply run_snoc; [apply run_nil|]|]|].
    + eapply (step_read _ 0 l ping); [by rewrite Hl|done|by apply receive_ping|].
      unfold running. by rewrite Hp.
    + eapply (step_write_failed _ 0 l1 e0 rest); simpl; [by rewrite Hl|done|done|].
      unfold running. simpl. by rewrite Hp.
    + eapply (step_put _ 0 l2 env); simpl; [by rewrite Hl|done|unfold room; simpl in *; lia|].
      unfold running. simpl. by rewrite Hp.
  - split; [done|]. exists (set_forwarder Idle (set_send (rest ++ [env]) l2)). simpl. rewrite Hl.
    split; [done|]. split_and!; [by eexists| |done]. unfold room. simpl.
    rewrite length_app. simpl in *. lia.
Qed.

(** ** The theorems *)

(** Reports are delivered at most once and in order.  In any run of the
    agent, whatever connections fail and are made again, the access-log (and
    secret-read) messages written on one connection are, in order, among the
    reports of the queries the agent answered, and over all connections none
    is written more often than it was reported. *)
Theorem reports_are_delivered_at_most_once c t a T :
  T = TypeAccessLog ∨ T = TypeSecretRead → agent_run (startAgent c) t a →
  (∀ i, of_type T (t ≫= wrote i) `sublist_of` of_type T (t ≫= reported)) ∧
  of_type T (t ≫= wrote_any) ⊆+ of_type T (t ≫= reported).
Proof.
  intros HT Hrun. assert (T ≠ TypePong) as HT' by (by destruct HT as [->| ->]).
  destruct (report_inv_run T HT' c t a Hrun) as (taken & [Hrec Hlinks Hfresh Hall]).
  assert (taken `sublist_of` of_type T (t ≫= reported)) as Htaken.
  { etrans; [|exact Hrec]. by apply sublist_inserts_r. }
  split.
  - intros i. destruct (ag_links a !! i) as [l|] eqn:Hl.
    + destruct (Hlinks i l Hl) as [_ Hs]. etrans; [|exact Htaken]. etrans; [|exact Hs].
      rewrite of_type_app. by apply sublist_inserts_r.
    + rewrite Hfresh by done. apply sublist_nil_l.
  - etrans; [|by apply sublist_submseteq]. etrans; [|exact Hall].
    rewrite of_type_app. by apply submseteq_inserts_r.
Qed.

(** In every state of a running agent the report buffers and the send
    queue of every connection hold at most 256 entries, and every wait before
    a reconnect is between one and thirty seconds. *)
Theorem agent_stays_within_bounds c t a :
  agent_run (startAgent c) t a →
  (length (ag_logs a) ≤ 256)%nat ∧ (length (ag_reads a) ≤ 256)%nat ∧
  Forall (λ l, (length (lk_send l) ≤ 256)%nat) (ag_links a) ∧
  (∀ d, ag_phase a = Sleeping d → second ≤ d ≤ 30 * second).
Proof.
  intros Hrun. assert (agent_bounded a) as [? ? ? _ ?]; [|done].
  induction Hrun; [|by eapply agent_bounded_step].
  split; simpl; try done; unfold logBufferSize; try lia.
Qed.

(** C17: whatever happens on its connections, a running agent that holds the
    control plane's key authorizes a key for an account only if its start-up
    cache did and it was never rejected since, or if a snapshot it received
    after the last rejection carries a valid signature for this host and lists
    the key with that account. *)
Theorem agent_authorizes_only_signed_entries c t a fp account e :
  dc_SigningPublicKey (cl_cfg c) ≠ "" → agent_run (startAgent c) t a → running a →
  authorize (cl_cache (ag_client a)) fp account = Some e →
  (authorize (cl_cache c) fp account = Some e ∧ (Rejected ∉ t)) ∨
  ∃ t1 i env snap t2, t = t1 ++ Received i env :: t2 ∧ (Rejected ∉ t2) ∧
    signed_snapshot (cl_cfg c) env snap ∧ e ∈ Snapshot_Entries snap ∧
    AccessEntry_Fingerprint e = fp ∧ account ∈ AccessEntry_Accounts e.
Proof.
  intros Hk Hrun Hr Ha. destruct (agent_run_cache c t a Hk Hrun) as [_ Ho].
  destruct (Ho Hr) as [He Ht|He|t1 i env snap t2 -> Ht Hs He].
  - left. split; [|done]. unfold authorize, Lookup in *. by rewrite <-He.
  - unfold authorize, Lookup in Ha. by rewrite He, lookup_empty in Ha.
  - right. unfold authorize, Lookup in Ha. rewrite He in Ha.
    destruct (index_entries _ !! fp) as [e'|] eqn:Hi; [|done]. case_decide; [|done].
    injection Ha as ->. apply index_entries_elem in Hi as [? ?]. by eexists t1, i, env, snap, t2.
Qed.

(** The agent can end up in a state it never leaves: with the send queue
    full the read loop waits to push a pong ([send <- pong] looks at no
    context), and once the writer has given up nothing makes room.  From then
    on, whatever happens (a signal and a staged upgrade included), [Run] stays
    on the dead connection and the cache never changes again. *)
Theorem full_send_queue_wedges_the_agent c challenge auth :
  authenticate c challenge = inr auth →
  ∃ t a, agent_run (startAgent c) t a ∧
    ∀ t' a', agent_run a t' a' →
      ag_phase a' = Serving 0 ∧ cl_cache (ag_client a') = cl_cache (ag_client a).
Proof.
  intros Hau.
  assert (agent_run (startAgent c) [Dialled (wsURL (cl_cfg c)) auth] (serveLink 0 (startAgent c)))
    as Hdial.
  { eapply (run_snoc _ []); [apply run_nil|]. by eapply step_dial. }
  destruct (fill_queue logBufferSize (serveLink 0 (startAgent c))) as (t1 & a1 & Hr1 & Hf); [done| |].
  { split_and!; [done|done|]. exists newLink. by split_and!. }
  destruct (filled_wedges a1 Hf) as (t2 & a2 & Hr2 & Hw).
  eexists _, a2. split; [eapply agent_run_app; [exact Hdial|eapply agent_run_app; [exact Hr1|exact Hr2]]|].
  intros t' a' Hrun. destruct (wedged_run _ _ _ Hrun Hw) as [[? _] ?]. done.
Qed.
End agent_props.

(** ** Witnesses: a login answered from a received snapshot and reported *)

Definition demo_challenge : Envelope :=
  NewEnvelope TypeChallenge (Some (Challenge_json {| Challenge_Nonce := zeros 32 |})).
Definition demo_log : AccessLog :=
  {| AccessLog_Fingerprint := "SHA256:fp"; AccessLog_Account := "deploy";
     AccessLog_Allowed := true; AccessLog_At := 7 |}.
Definition demo_answer : string := "ssh-ed25519 AAAA" +:+ newline.
Definition demo_auth_reply : Envelope :=
  Eval vm_compute in match authenticate (demo_client 2) demo_challenge with
                     | inr e => e | inl _ => demo_challenge end.

(** The states of the run, one step after the other. *)
Definition run_served : Agent := serveLink 0 (startAgent (demo_client 2)).
Definition run_synced : Agent :=
  on_link 0 (set_reader Reading newLink)
    (set_client (receive (demo_envelope 3) (ag_client run_served)).2 run_served).
Definition run_answered : Agent := RecordAccess demo_log run_synced.
Definition demo_held : Link := set_forwarder (Holding (access_report demo_log)) newLink.
Definition run_taken : Agent := on_link 0 demo_held (set_buffers [] [] run_answered).
Definition demo_queued : Link := set_forwarder Idle (set_send [access_report demo_log] demo_held).
Definition run_queued : Agent := on_link 0 demo_queued run_taken.
Definition run_reported : Agent := on_link 0 (set_send [] demo_queued) run_queued.
Definition demo_trace : list event :=
  [Dialled (wsURL (cl_cfg (demo_client 2))) demo_auth_reply; Received 0 (demo_envelope 3);
   Answered demo_answer demo_log; Tau; Tau; Wrote 0 (access_report demo_log)].

Example demo_url : wsURL (cl_cfg (demo_client 2)) = "wss://cp/daemon".
Proof. vm_compute. reflexivity. Qed.

Lemma demo_received :
  receive (demo_envelope 3) (ag_client run_served) =
    (Reading, (receive (demo_envelope 3) (ag_client run_served)).2).
Proof.
  rewrite (surjective_pairing (receive _ _)) at 1. f_equal.
Qed.

Lemma demo_agent_run : agent_run (startAgent (demo_client 2)) demo_trace run_reported.
Proof.
  apply (run_snoc _ [_; _; _; _; _] run_queued).
  - apply (run_snoc _ [_; _; _; _] run_taken).
    + apply (run_snoc _ [_; _; _] run_answered).
      * apply (run_snoc _ [_; _] run_synced).
        -- apply (run_snoc _ [_] run_served).
           ++ apply (run_snoc _ [] (startAgent (demo_client 2))); [apply run_nil|].
              apply (step_dial (startAgent (demo_client 2)) demo_challenge demo_auth_reply 0);
                [reflexivity|vm_compute; reflexivity].
           ++ apply (step_read run_served 0 newLink (demo_envelope 3) Reading);
                [reflexivity|reflexivity|exact demo_received|exact I].
        -- apply (step_login run_synced (authQuery "SHA256:fp" "deploy") 7);
             [vm_compute; reflexivity|exact I].
      * apply (step_take_log run_answered 0 newLink demo_log []); [reflexivity..|exact I].
    + apply (step_put run_taken 0 demo_held); [reflexivity|reflexivity| |exact I].
      apply (bool_decide_unpack _). vm_compute. exact I.
  - apply (step_write run_queued 0 demo_queued); [reflexivity..|exact I].
Qed.

Lemma reports_are_delivered_at_most_once_witness :
  of_type TypeAccessLog (demo_trace ≫= wrote_any) ⊆+ of_type TypeAccessLog (demo_trace ≫= reported).
Proof.
  apply (reports_are_delivered_at_most_once (demo_client 2) demo_trace run_reported TypeAccessLog);
    [by left|exact demo_agent_run].
Defined.

Lemma agent_stays_within_bounds_witness :
  Forall (λ l, (length (lk_send l) ≤ 256)%nat) (ag_links run_reported).
Proof. apply (agent_stays_within_bounds (demo_client 2) demo_trace), demo_agent_run. Defined.

Lemma agent_authorizes_only_signed_entries_witness :
  ∃ env snap, signed_snapshot (cl_cfg (demo_client 2)) env snap ∧ demo_entry ∈ Snapshot_Entries snap.
Proof.
  destruct (agent_authorizes_only_signed_entries (demo_client 2) demo_trace run_reported
    "SHA256:fp" "deploy" demo_entry) as [[Hno _]|(t1 & i & env & snap & t2 & _ & _ & Hs & He & _)].
  - vm_compute. discriminate.
  - exact demo_agent_run.
  - exact I.
  - vm_compute. reflexivity.
  - vm_compute in Hno. discriminate Hno.
  - exists env, snap. split; [exact Hs|exact He].
Defined.

Lemma full_send_queue_wedges_the_agent_witness :
  ∃ t a, agent_run (startAgent (demo_client 2)) t a ∧
    ∀ t' a', agent_run a t' a' →
      ag_phase a' = Serving 0 ∧ cl_cache (ag_client a') = cl_cache (ag_client a).
Proof.
  apply (full_send_queue_wedges_the_agent (demo_client 2) demo_challenge demo_auth_reply).
  vm_compute. reflexivity.
Defined.
