(* ===== verification/Trail.v ===== *)
(** The audit records of a host, end to end: from the queries its agent
    answered ([internal/daemon/authserver.go], [secretsocket.go]) through the
    agent's report buffers and connections ([client.go]) to the rows the
    control plane writes for what it reads ([readDaemon], [recordAccessLog] and
    [recordSecretRead] of [internal/controlplane/daemon_ws.go]).

    A row is recorded only for a query that was answered, once, in order and
    as it was answered; a report that is read is recorded unless a database
    call fails; a report can be lost on the way. *)
From S2P Require Import Prelude Text Base64 Json Protocol Crypto Schema Evolve QUsers QAccess QSecrets World Http Perms Grants Accounts Secrets Hosts Sets Groups Upgrades Link Daemon Runs Demo Scenario DaemonProps Agent AgentProps.

(** ** Lists *)

Lemma omap_sublist {A B} (f : A → option B) (l k : list A) :
  l `sublist_of` k → omap f l `sublist_of` omap f k.
Proof.
  induction 1 as [|x l k _ IH|x l k _ IH]; csimpl; [constructor| |]; destruct (f x); by try constructor.
Qed.
#[export] Instance omap_Permutation {A B} (f : A → option B) : Proper ((≡ₚ) ==> (≡ₚ)) (omap f).
Proof.
  intros l k. induction 1 as [|x l k _ IH|x y l|l k m _ IH1 _ IH2]; csimpl; [done| | |by trans (omap f k)].
  - destruct (f x); by rewrite ?IH.
  - destruct (f x), (f y); try done. by constructor.
Qed.
Lemma omap_submseteq {A B} (f : A → option B) (l k : list A) : l ⊆+ k → omap f l ⊆+ omap f k.
Proof.
  intros (m & Hp & Hs)%submseteq_sublist_r.
  etrans; [|apply sublist_submseteq, omap_sublist, Hs]. by rewrite Hp.
Qed.
Lemma omap_one {A B} (f : A → option B) x y : f x = Some y → omap f [x] = [y].
Proof. intros Hf. csimpl. by rewrite Hf. Qed.
Lemma omap_bind {A B C} (f : A → option B) (g : C → list A) (l : list C) :
  omap f (l ≫= g) = l ≫= (λ x, omap f (g x)).
Proof. induction l as [|x l IH]; [done|]. by rewrite !bind_cons, omap_app, IH. Qed.
Lemma sublist_bind {A B} (f g : A → list B) (l : list A) :
  (∀ x, x ∈ l → f x `sublist_of` g x) → l ≫= f `sublist_of` l ≫= g.
Proof.
  induction l as [|x l IH]; intros Hfg; [constructor|]. rewrite !bind_cons. apply sublist_app.
  - apply Hfg. left.
  - apply IH. intros y Hy. apply Hfg. by right.
Qed.

(** Finitely many choices. *)
Lemma choose_below {A} (n : nat) (P : nat → A → Prop) (x0 : A) :
  (∀ i, (n ≤ i)%nat → P i x0) → (∀ i, ∃ x, P i x) → ∃ f, ∀ i, P i (f i).
Proof.
  revert P. induction n as [|n IH]; intros P Hx0 Hex; [exists (λ _, x0); intros i; apply Hx0; lia|].
  destruct (Hex 0%nat) as [x Hx]. destruct (IH (λ i, P (S i))) as [f Hf].
  - intros i Hi. apply Hx0. lia.
  - intros i. apply Hex.
  - exists (λ i, match i with O => x | S i => f i end). by intros [|i].
Qed.

(** ** The rows a computation appends itself *)

Section own_rows.
Context {Row : Type} (rows : DB → list Row).

(** The rows the running request appended to a table by the changes [cs];
    what others commit in between does not count. *)
Inductive own_rows : list Change → list Row → Prop :=
  | own_nil : own_rows [] []
  | own_others c cs l : ch_own c = false → own_rows cs l → own_rows (c :: cs) l
  | own_mine c cs x l :
      ch_own c = true → rows (ch_to c) = rows (ch_from c) ++ x → own_rows cs l →
      own_rows (c :: cs) (x ++ l).

Definition appended (w w' : World) (l : list Row) : Prop :=
  ∃ cs, w_changes w' = w_changes w ++ cs ∧ own_rows cs l.

Lemma own_rows_app cs1 l1 cs2 l2 :
  own_rows cs1 l1 → own_rows cs2 l2 → own_rows (cs1 ++ cs2) (l1 ++ l2).
Proof.
  induction 1 as [|c cs l Hc _ IH|c cs x l Hc Hx _ IH]; intros H2; simpl; [done| |].
  - apply own_others; auto.
  - rewrite <-(assoc (++)). apply own_mine; auto.
Qed.
Lemma appended_refl w : appended w w [].
Proof. exists []. rewrite app_nil_r. split; [done|constructor]. Qed.
Lemma appended_trans w1 w2 w3 l1 l2 : appended w1 w2 l1 → appended w2 w3 l2 → appended w1 w3 (l1 ++ l2).
Proof.
  intros (cs1 & E1 & H1) (cs2 & E2 & H2). exists (cs1 ++ cs2).
  split; [by rewrite E2, E1, app_assoc|by apply own_rows_app].
Qed.
Lemma appended_step d x w : rows d = rows (w_db w) ++ x → appended w (with_db d (step w)) x.
Proof.
  intros Hd. eexists [_]. split; [reflexivity|]. rewrite <-(app_nil_r x). by apply own_mine; [..|constructor].
Qed.
Lemma appended_catch_up `{Env} w : appended w (catch_up w) [].
Proof.
  unfold catch_up. destruct (env_others _) as [f|]; [|apply appended_refl].
  destruct (f _ _) as [d h]. eexists [_]. split; [reflexivity|]. by apply own_others; [|constructor].
Qed.

(** A database call appends what its statement does, or nothing. *)
Lemma pool_appends `{Env} {A} (q : Query A) (P : list Row → Prop) w :
  P [] → (∀ now id d a d', q now id d = inr (a, d') → ∃ x, rows d' = rows d ++ x ∧ P x) →
  ∃ x, appended w (pool q w).2 x ∧ P x.
Proof.
  intros P0 Hq.
  assert (∀ w', w_changes w' = w_changes (catch_up w) → ∃ x, appended w w' x ∧ P x) as Hno.
  { intros w' Hw'. exists []. split; [|done]. destruct (appended_catch_up w) as (cs & Hc & Ho).
    exists cs. by rewrite Hw'. }
  assert (∀ a d', q (env_now (w_tick (catch_up w))) (env_uuid (w_tick (catch_up w))) (w_db (catch_up w)) = inr (a, d') →
    ∃ x, appended w (with_db d' (step (catch_up w))) x ∧ P x) as Hyes.
  { intros a d' (x & Hx & HP)%Hq. exists x. split; [|done].
    apply (appended_trans _ (catch_up w) _ []); [apply appended_catch_up|by apply appended_step]. }
  unfold pool. destruct (env_fault _), (q _ _ _) as [e'|[a d']] eqn:Hr; simpl; eauto.
Qed.
End own_rows.

(** ** What the control plane records *)

(** The row of a reported login, whose time is the reported one to the
    microsecond, and whose key, if one is named, had the fingerprint in a
    database committed by then; and the row of a reported read of a set, whose
    time is that of its insertion and not the reported one. *)
Definition login_row (host : Host) (ds : list DB) (log : AccessLog) (row : SshAccessLog) : Prop :=
  SshAccessLog_HostID row = Host_ID host ∧ SshAccessLog_Hostname row = Host_Hostname host ∧
  SshAccessLog_Account row = AccessLog_Account log ∧
  SshAccessLog_Allowed row = AccessLog_Allowed log ∧ SshAccessLog_At row = pg_time (AccessLog_At log) ∧
  SshAccessLog_Fingerprint row = AccessLog_Fingerprint log ∧
  ∀ k, SshAccessLog_PublicKeyID row = Some k →
    ∃ d key, d ∈ ds ∧ key ∈ public_keys d ∧ PublicKey_ID key = k ∧
      PublicKey_Fingerprint key = AccessLog_Fingerprint log.
Definition read_row (host : Host) (ds : list DB) (rd : SecretRead) (row : SetAuditLog) : Prop :=
  SetAuditLog_HostID row = Some (Host_ID host) ∧ SetAuditLog_SetName row = SecretRead_SetName rd ∧
  SetAuditLog_Action row = "machine_read" ∧ SetAuditLog_Actor row = None ∧
  ∀ k, SetAuditLog_SetID row = Some k →
    ∃ d x, d ∈ ds ∧ x ∈ secret_sets d ∧ SecretSet_ID x = k ∧ SecretSet_Name x = SecretRead_SetName rd.

(** More databases to have seen. *)
Lemma login_row_mono host ds ds' log row :
  ds ⊆ ds' → login_row host ds log row → login_row host ds' log row.
Proof.
  intros Hds (?&?&?&?&?&?&Hk). split_and!; try done. intros k (d & key & Hd & ?)%Hk. exists d, key. auto.
Qed.
Lemma read_row_mono host ds ds' rd row :
  ds ⊆ ds' → read_row host ds rd row → read_row host ds' rd row.
Proof. intros Hds (?&?&?&?&Hk). split_and!; try done. intros k (d & x & Hd & ?)%Hk. exists d, x. auto. Qed.

(** The reports [l] are recorded between [w] and [w']: the request's own rows of
    the table are theirs, in order. *)
Definition records {Rep Row} (rows : DB → list Row) (row_of : Host → list DB → Rep → Row → Prop)
    (host : Host) (w w' : World) (l : list Rep) : Prop :=
  ∃ x, appended rows w w' x ∧ Forall2 (row_of host (visited w')) l x.

(** The inserts of [recordAccessLog] and [recordSecretRead], from the result of the lookup. *)
#[local] Abbreviation login_insert host lg := (λ r : error + PublicKey,
  InsertSSHAccessLog (Host_ID host) (Host_Hostname host)
    match r with inr k => Some (PublicKey_ID k) | inl _ => None end (AccessLog_Account lg)
    (AccessLog_Allowed lg) (AccessLog_At lg) (AccessLog_Fingerprint lg)).
#[local] Abbreviation read_insert host rd := (λ r : error + SecretSet,
  InsertSetAudit match r with inr x => Some (SecretSet_ID x) | inl _ => None end
    (SecretRead_SetName rd) None (Some (Host_ID host)) "machine_read" None).

(** A query that does not touch a table. *)
Ltac unchanged_query :=
  by intros now id d a d'; unfold select_one, execute, check; repeat case_match; intros; simplify_eq.

Section reading.
Context `{Platform}.

Definition unchanged {A Row} (rows : DB → list Row) (q : Query A) : Prop :=
  ∀ now id d a d', q now id d = inr (a, d') → rows d' = rows d.

Lemma pool_unchanged {A Row} (rows : DB → list Row) (q : Query A) w :
  unchanged rows q → appended rows w (pool q w).2 [].
Proof.
  intros Hq. destruct (pool_appends rows q (λ x, x = []) w) as (x & Hx & ->); [done| |done].
  intros now id d a d' Hr. exists []. rewrite app_nil_r. eauto.
Qed.
Lemma pool_found {A} (f : DB → option A) w a w' :
  pool (λ _ _, select_one f) w = (inr a, w') → ∃ d, d ∈ visited w' ∧ f d = Some a.
Proof.
  unfold pool, select_one, visited. intros Hr. exists (w_db w'). split; [set_solver|].
  destruct (env_fault _); destruct (f (w_db (catch_up w))) eqn:Hf; simplify_eq. done.
Qed.

(** The shape of [recordAccessLog] and [recordSecretRead]: a lookup, an insert
    that depends on it and an update of the host, errors ignored. *)
Lemma recording_appends {E A Row} (rows : DB → list Row) (q1 : Query A) (q2 : error + A → Query unit)
    (q3 : Query unit) (P : list DB → list Row → Prop) w :
  query_rel evolves q1 → (∀ r, query_rel evolves (q2 r)) → query_rel evolves q3 →
  unchanged rows q1 → unchanged rows q3 →
  (∀ ds ds' x, ds ⊆ ds' → P ds x → P ds' x) → (∀ ds, P ds []) →
  (∀ r w1 now id d u d', pool q1 w = (r, w1) → q2 r now id d = inr (u, d') →
     ∃ x, rows d' = rows d ++ x ∧ P (visited w1) x) →
  let w' := ((r <- attempt (pool q1);; ignore (pool (q2 r));;; ignore (pool q3)) w
             : (E + unit) * World).2 in
  ∃ x, appended rows w w' x ∧ P (visited w') x.
Proof.
  intros E1 E2 E3 U1 U3 Hmono P0 H2. unfold bind, attempt, ignore.
  pose proof (pool_unchanged rows q1 w U1) as A1. destruct (pool q1 w) as [r w1] eqn:Hp. simpl in *.
  destruct (pool_appends rows (q2 r) (P (visited w1)) w1) as (x & A2 & HP); [done|by eauto|].
  exists x. split.
  - rewrite <-(app_nil_l x). eapply appended_trans; [exact A1|]. rewrite <-(app_nil_r x).
    eapply appended_trans; [exact A2|]. by apply pool_unchanged.
  - eapply Hmono; [|exact HP]. etrans; apply (effect_visited evolves); by apply pool_rel.
Qed.

(** The reports an envelope carries. *)
Definition login_of (env : Envelope) : option AccessLog :=
  if decide (Envelope_Type env = TypeAccessLog) then unmarshal AccessLog_of_json (Envelope_Data env)
  else None.
Definition read_of (env : Envelope) : option SecretRead :=
  if decide (Envelope_Type env = TypeSecretRead) then unmarshal SecretRead_of_json (Envelope_Data env)
  else None.

Lemma recordAccessLog_login {E} host lg w :
  ∃ l, l `sublist_of` [lg] ∧
    records ssh_access_logs login_row host w (recordAccessLog host lg w : (E + unit) * World).2 l.
Proof.
  destruct (recording_appends (E:=E) ssh_access_logs
    (GetPublicKeyByFingerprint (AccessLog_Fingerprint lg)) (login_insert host lg)
    (TouchHostSeen (Host_ID host))
    (λ ds x, ∃ l, l `sublist_of` [lg] ∧ Forall2 (login_row host ds) l x) w)
    as (x & Hx & l & Hl & HF); [eauto with evolve..| | | | | |].
  - unfold GetPublicKeyByFingerprint. unchanged_query.
  - unfold TouchHostSeen. unchanged_query.
  - intros ds ds' x Hds (l & Hl & HF). exists l. split; [done|]. eapply Forall2_impl; [exact HF|].
    intros lo row. by apply login_row_mono.
  - intros ds. exists []. split; [apply sublist_nil_l|constructor].
  - intros r w1 now id d u d' Hp. unfold InsertSSHAccessLog, check, execute.
    case_decide; intros; simplify_eq. eexists [_]. split; [done|]. exists [lg]. split; [done|].
    constructor; [|constructor]. split_and!; try done. simpl. destruct r as [|key]; [done|]. intros k [= <-].
    apply pool_found in Hp as (d0 & Hd0 & Hf). exists d0, key. split; [done|].
    apply head_Some_elem_of, list_elem_of_filter in Hf as [? ?]. done.
  - exists l. split; [done|]. by exists x.
Qed.
Lemma recordSecretRead_read {E} host rd w :
  ∃ l, l `sublist_of` [rd] ∧
    records set_audit_logs read_row host w (recordSecretRead host rd w : (E + unit) * World).2 l.
Proof.
  destruct (recording_appends (E:=E) set_audit_logs
    (GetSetByName (SecretRead_SetName rd)) (read_insert host rd)
    (TouchHostSeen (Host_ID host))
    (λ ds x, ∃ l, l `sublist_of` [rd] ∧ Forall2 (read_row host ds) l x) w)
    as (x & Hx & l & Hl & HF); [eauto with evolve..| | | | | |].
  - unfold GetSetByName. unchanged_query.
  - unfold TouchHostSeen. unchanged_query.
  - intros ds ds' x Hds (l & Hl & HF). exists l. split; [done|]. eapply Forall2_impl; [exact HF|].
    intros re row. by apply read_row_mono.
  - intros ds. exists []. split; [apply sublist_nil_l|constructor].
  - intros r w1 now id d u d' Hp. unfold InsertSetAudit, check, execute.
    do 2 (case_decide; [|done]). intros; simplify_eq. eexists [_]. split; [done|]. exists [rd]. split; [done|].
    constructor; [|constructor]. split_and!; try done. simpl. destruct r as [|y]; [done|]. intros k [= <-].
    apply pool_found in Hp as (d0 & Hd0 & Hf). exists d0, y. split; [done|].
    apply head_Some_elem_of, list_elem_of_filter in Hf as [? ?]. done.
  - exists l. split; [done|]. by exists x.
Qed.

(** Neither touches the other's table. *)
Lemma recordAccessLog_sets {E} host lg w :
  appended set_audit_logs w (recordAccessLog host lg w : (E + unit) * World).2 [].
Proof.
  destruct (recording_appends (E:=E) set_audit_logs (GetPublicKeyByFingerprint (AccessLog_Fingerprint lg))
    (login_insert host lg)
    (TouchHostSeen (Host_ID host)) (λ _ x, x = []) w) as (x & Hx & ->); [eauto with evolve..|by eauto|done| |done].
  - unfold GetPublicKeyByFingerprint. unchanged_query.
  - unfold TouchHostSeen. unchanged_query.
  - intros r w1 now id d u d' _. unfold InsertSSHAccessLog, check, execute.
    case_decide; intros; simplify_eq. exists []. by rewrite app_nil_r.
Qed.
Lemma recordSecretRead_logins {E} host rd w :
  appended ssh_access_logs w (recordSecretRead host rd w : (E + unit) * World).2 [].
Proof.
  destruct (recording_appends (E:=E) ssh_access_logs (GetSetByName (SecretRead_SetName rd))
    (read_insert host rd)
    (TouchHostSeen (Host_ID host)) (λ _ x, x = []) w) as (x & Hx & ->); [eauto with evolve..|by eauto|done| |done].
  - unfold GetSetByName. unchanged_query.
  - unfold TouchHostSeen. unchanged_query.
  - intros r w1 now id d u d' _. unfold InsertSetAudit, check, execute.
    do 2 (case_decide; [|done]). intros; simplify_eq. exists []. by rewrite app_nil_r.
Qed.

Lemma records_none {Rep Row} rows (row_of : Host → list DB → Rep → Row → Prop) host w w' :
  appended rows w w' [] → records rows row_of host w w' [].
Proof. intros Ha. exists []. split; [done|constructor]. Qed.

(** One envelope, and all that are read on a connection. *)
Lemma readEnvelope_records {E} host env w :
  let w' := (readEnvelope host env w : (E + unit) * World).2 in
  (∃ l, l `sublist_of` omap login_of [env] ∧ records ssh_access_logs login_row host w w' l) ∧
  (∃ l, l `sublist_of` omap read_of [env] ∧ records set_audit_logs read_row host w w' l).
Proof.
  unfold readEnvelope. csimpl. unfold login_of, read_of.
  destruct (decide (Envelope_Type env = TypeAccessLog)) as [Ht|]; [rewrite Ht|]; simpl.
  - destruct (unmarshal AccessLog_of_json (Envelope_Data env)) as [lg|]; split;
      eauto using recordAccessLog_login, records_none, recordAccessLog_sets, appended_refl, sublist_nil_l.
  - case_decide; [destruct (unmarshal SecretRead_of_json (Envelope_Data env)) as [rd|]|]; split;
      eauto using recordSecretRead_read, records_none, recordSecretRead_logins, appended_refl, sublist_nil_l.
Qed.

(** [readDaemon] ignores errors: it goes on until the connection fails. *)
Lemma readEnvelope_total {E} host env w :
  (readEnvelope host env w : (E + unit) * World).1 = inr tt.
Proof.
  unfold readEnvelope. repeat case_match; try done;
    unfold recordAccessLog, recordSecretRead, bind, attempt, ignore; by destruct (pool _ w).
Qed.

Section all.
Context {Rep Row : Type} (rows : DB → list Row) (row_of : Host → list DB → Rep → Row → Prop).
Context (decode : Envelope → option Rep) (host : Host) (E : Type).
Hypothesis row_mono : ∀ ds ds' r x, ds ⊆ ds' → row_of host ds r x → row_of host ds' r x.
Hypothesis one : ∀ env w, ∃ l, l `sublist_of` omap decode [env] ∧
  records rows row_of host w (readEnvelope host env w : (E + unit) * World).2 l.

Lemma readDaemon_records inbound w :
  ∃ l, l `sublist_of` omap decode inbound ∧
    records rows row_of host w (readDaemon host inbound w : (E + unit) * World).2 l.
Proof.
  revert w. induction inbound as [|env inbound IH]; intros w.
  - exists []. split; [constructor|]. apply records_none, appended_refl.
  - destruct (one env w) as (l1 & Hl1 & x1 & Ha1 & HF1).
    unfold readDaemon in *. simpl foreach. unfold bind at 1.
    pose proof (readEnvelope_total (E:=E) host env w) as Ht.
    destruct (readEnvelope host env w) as [r w1]. simpl in Ht, Ha1, HF1. subst r.
    destruct (IH w1) as (l2 & Hl2 & x2 & Ha2 & HF2). exists (l1 ++ l2). split.
    + change (env :: inbound) with ([env] ++ inbound). rewrite omap_app. by apply sublist_app.
    + exists (x1 ++ x2). split; [by eapply appended_trans|]. apply Forall2_app; [|done].
      eapply Forall2_impl; [exact HF1|]. intros r x. apply row_mono.
      apply (effect_visited evolves), (readDaemon_rel (E:=E)).
Qed.
End all.
End reading.

(** ** What the agent reports *)

Section reporting.
Context `{Platform, !PlatformLaws, !Disk}.

Definition answered (ev : event) : list AccessLog :=
  match ev with Answered _ log => [log] | _ => [] end.
Definition given (ev : event) : list SecretRead :=
  match ev with Served _ rd => [rd] | _ => [] end.

(** The reports that JSON carries unchanged. *)
Definition login_legible (log : AccessLog) : Prop :=
  json_valid (AccessLog_json log) = true ∧ time_in_range (AccessLog_At log).
Definition read_legible (rd : SecretRead) : Prop :=
  json_valid (SecretRead_json rd) = true ∧ time_in_range (SecretRead_At rd).
Definition legible (ev : event) : Prop := Forall login_legible (answered ev) ∧ Forall read_legible (given ev).

Lemma SecretRead_roundtrip rd :
  time_in_range (SecretRead_At rd) → SecretRead_of_json (SecretRead_json rd) = Some rd.
Proof.
  destruct rd as [n t]. intros Ht. unfold SecretRead_of_json. json_decode. by rewrite time_parse_print.
Qed.
Lemma login_of_report log : login_legible log → login_of (access_report log) = Some log.
Proof. intros [Hj Ht]. unfold login_of. simpl. by rewrite unmarshal_print, AccessLog_roundtrip. Qed.
Lemma read_of_report rd : read_legible rd → read_of (read_report rd) = Some rd.
Proof. intros [Hj Ht]. unfold read_of. simpl. by rewrite unmarshal_print, SecretRead_roundtrip. Qed.

Lemma reported_logins t : Forall legible t → omap login_of (t ≫= reported) = t ≫= answered.
Proof.
  induction 1 as [|ev t [Hl _] _ IH]; [done|]. rewrite !bind_cons, omap_app, IH. f_equal.
  destruct ev; try done. by apply omap_one, login_of_report, Forall_singleton.
Qed.
Lemma reported_reads t : Forall legible t → omap read_of (t ≫= reported) = t ≫= given.
Proof.
  induction 1 as [|ev t [_ Hr] _ IH]; [done|]. rewrite !bind_cons, omap_app, IH. f_equal.
  destruct ev; try done. by apply omap_one, read_of_report, Forall_singleton.
Qed.

(** What is written is written on some connection. *)
Lemma bind_zip {A B} (f g : A → list B) (l : list A) :
  l ≫= (λ x, f x ++ g x) ≡ₚ (l ≫= f) ++ (l ≫= g).
Proof. induction l as [|x l IH]; [done|]. rewrite !bind_cons, IH. solve_Permutation. Qed.
Lemma bind_none {A B} (f : A → list B) (l : list A) : (∀ x, x ∈ l → f x = []) → l ≫= f = [].
Proof.
  induction l as [|x l IH]; intros Hf; [done|]. rewrite bind_cons, (Hf x) by left.
  apply IH. intros y Hy. apply Hf. by right.
Qed.
Lemma wrote_once n ev : (∀ j, (n ≤ j)%nat → wrote j ev = []) →
  seq 0 n ≫= (λ i, wrote i ev) = wrote_any ev.
Proof.
  destruct ev as [| | | |j env| |]; try (intros _; by apply bind_none). simpl. intros Hn.
  assert (j < n)%nat as Hj.
  { destruct (decide (j < n)%nat); [done|]. specialize (Hn j ltac:(lia)). by rewrite decide_True in Hn. }
  replace n with (j + (1 + (n - j - 1)))%nat by lia. rewrite !seq_app, !bind_app. simpl seq at 2.
  rewrite bind_singleton, decide_True by lia.
  rewrite !bind_none; [done|..]; intros i Hi%elem_of_seq; rewrite decide_False by lia; done.
Qed.
Lemma wrote_all n t : (∀ j, (n ≤ j)%nat → t ≫= wrote j = []) →
  seq 0 n ≫= (λ i, t ≫= wrote i) ≡ₚ t ≫= wrote_any.
Proof.
  induction t as [|ev t IH]; intros Hn; [by rewrite bind_none|].
  assert (∀ j, (n ≤ j)%nat → wrote j ev = [] ∧ t ≫= wrote j = []) as Hn'.
  { intros j Hj%Hn. by apply app_eq_nil in Hj. }
  rewrite bind_cons, <-(wrote_once n ev) by (intros j Hj; by apply Hn').
  rewrite <-IH by (intros j Hj; by apply Hn'). rewrite <-bind_zip. done.
Qed.

(** Reports recorded from what was read on the connections of an agent are
    reports of what it did. *)
Lemma recorded_were_reported {Rep} (T : MessageType) (decode : Envelope → option Rep)
    (did : event → list Rep) c t a (inbound : nat → list Envelope) (l : nat → list Rep) :
  T ≠ TypePong → (∀ env, Envelope_Type env ≠ T → decode env = None) →
  omap decode (t ≫= reported) = t ≫= did → agent_run (startAgent c) t a →
  (∀ i, inbound i `prefix_of` t ≫= wrote i) → (∀ i, l i `sublist_of` omap decode (inbound i)) →
  (∀ i, l i `sublist_of` t ≫= did) ∧ seq 0 (length (ag_links a)) ≫= l ⊆+ t ≫= did.
Proof.
  intros HT Hdec Hdid Hrun Hin Hl.
  assert (∀ k, omap decode (of_type T k) = omap decode k) as Hof.
  { induction k as [|env k IH]; [done|]. unfold of_type in *. rewrite filter_cons. csimpl.
    case_decide as Ht; csimpl; [by rewrite IH|]. by rewrite Hdec. }
  destruct (report_inv_run T HT c t a Hrun) as (taken & [Hrec Hlinks Hfresh Hall]).
  assert (taken `sublist_of` of_type T (t ≫= reported)) as Htaken.
  { etrans; [|exact Hrec]. by apply sublist_inserts_r. }
  assert (omap decode taken `sublist_of` t ≫= did) as Hto.
  { rewrite <-Hdid, <-(Hof (t ≫= reported)). by apply omap_sublist. }
  assert (∀ i, l i `sublist_of` omap decode (t ≫= wrote i)) as Hw.
  { intros i. etrans; [apply Hl|]. destruct (Hin i) as [k Hk]. rewrite Hk, omap_app.
    by apply sublist_inserts_r. }
  split.
  - intros i. etrans; [apply Hw|]. destruct (ag_links a !! i) as [lk|] eqn:Hlk.
    + destruct (Hlinks i lk Hlk) as [_ Hs]. etrans; [|exact Hto]. rewrite <-Hof. apply omap_sublist.
      etrans; [|exact Hs]. rewrite of_type_app. by apply sublist_inserts_r.
    + rewrite Hfresh by done. apply sublist_nil_l.
  - etrans; [apply sublist_submseteq, (sublist_bind l (λ i, omap decode (t ≫= wrote i))); auto|].
    rewrite <-omap_bind, wrote_all by (intros j Hj; by apply Hfresh, lookup_ge_None).
    etrans; [|by apply sublist_submseteq]. rewrite <-Hof. apply omap_submseteq.
    etrans; [|exact Hall]. rewrite of_type_app. by apply submseteq_inserts_r.
Qed.

(** An answer to sshd is an answer from the cache. *)
Lemma answers_match_reports c t a reply log :
  agent_run (startAgent c) t a → Answered reply log ∈ t →
  (AccessLog_Allowed log = true ↔ reply ≠ "").
Proof.
  induction 1 as [|t a1 ev a2 _ IH Hs]; [by intros ?%not_elem_of_nil|].
  intros [Hin|Hin%list_elem_of_singleton]%elem_of_app; [auto|]. subst ev.
  inversion Hs as [input now ? ? Hh| | | | | | | | | | | | | | |e ? ? ? ? He|? ? e ? ? ? ? ? ? He| | | | | |];
    try (by destruct e).
  subst. unfold handleAuth in Hh. destruct (read_line input) as [line|]; [|done].
  destruct (Cut _ line) as [[fp acc]|]; [|done]. injection Hh as <- <-. simpl.
  rewrite bool_decide_eq_true. destruct (authorize _ fp acc) as [e|]; split; try done.
  intros _. destruct (AccessEntry_KeyType e); done.
Qed.

(** A connection the agent never made carries nothing. *)
Lemma unmade_connection c t a i inbound :
  agent_run (startAgent c) t a → inbound `prefix_of` t ≫= wrote i → (length (ag_links a) ≤ i)%nat →
  inbound = [].
Proof.
  intros Hrun Hin Hi. destruct (report_inv_run TypeAccessLog ltac:(done) c t a Hrun) as (taken & Hinv).
  rewrite (ri_fresh _ _ _ _ Hinv) in Hin by by apply lookup_ge_None. by apply prefix_nil_inv in Hin.
Qed.

Section connections.
Context (c : Client) (t : list event) (a : Agent) (Hrun : agent_run (startAgent c) t a).
Context (host : nat → Host) (w : nat → World) (inbound : nat → list Envelope).
Context (Hin : ∀ i, inbound i `prefix_of` t ≫= wrote i).
#[local] Abbreviation after i := (readDaemon (host i) (inbound i) (w i) : (error + unit) * World).2.

Lemma connections_record {Rep Row} (rows : DB → list Row) row_of (T : MessageType)
    (decode : Envelope → option Rep) (did : event → list Rep) :
  T ≠ TypePong → (∀ env, Envelope_Type env ≠ T → decode env = None) →
  omap decode (t ≫= reported) = t ≫= did →
  (∀ i, ∃ l, l `sublist_of` omap decode (inbound i) ∧ records rows row_of (host i) (w i) (after i) l) →
  ∃ l : nat → list Rep,
    (∀ i, records rows row_of (host i) (w i) (after i) (l i)) ∧ (∀ i, l i `sublist_of` t ≫= did) ∧
    seq 0 (length (ag_links a)) ≫= l ⊆+ t ≫= did.
Proof.
  intros HT Hdec Hdid Hone.
  destruct (choose_below (length (ag_links a)) (λ i l, l `sublist_of` omap decode (inbound i) ∧
    records rows row_of (host i) (w i) (after i) l) []) as [l Hl]; [|done|].
  - intros i Hi. rewrite (unmade_connection c t a i (inbound i)) by done.
    split; [constructor|]. apply records_none, appended_refl.
  - exists l. split; [apply Hl|]. eapply recorded_were_reported; try done. apply Hl.
Qed.

(** C29: the audit records a host causes are true.  Over any run of its agent,
    whatever connections fail and are made again, however much of each
    connection the control plane reads, whatever database calls fail and
    whatever other requests commit meanwhile: the rows a connection adds to the
    log of SSH logins are, in order, those of login queries the agent answered
    (with the host, account, fingerprint and verdict of the answer, its time to
    the microsecond, and a key that had that fingerprint), over all connections
    no query is recorded twice, and the verdict is what sshd was told.  The rows
    for sets the agent gave to applications likewise are, in order and without
    repetition, those of sets it gave: they carry the host and the name of the
    set, and a set that had that name, but not the time of the report.  The
    reports are assumed legible: names that are valid UTF-8 and times in JSON's
    range, so that JSON carries them unchanged. *)
Theorem host_records_are_true :
  Forall legible t →
  (∃ logins : nat → list AccessLog,
     (∀ i, records ssh_access_logs login_row (host i) (w i) (after i) (logins i)) ∧
     (∀ i, logins i `sublist_of` t ≫= answered) ∧
     seq 0 (length (ag_links a)) ≫= logins ⊆+ t ≫= answered) ∧
  (∃ reads : nat → list SecretRead,
     (∀ i, records set_audit_logs read_row (host i) (w i) (after i) (reads i)) ∧
     (∀ i, reads i `sublist_of` t ≫= given) ∧
     seq 0 (length (ag_links a)) ≫= reads ⊆+ t ≫= given) ∧
  (∀ reply log, Answered reply log ∈ t → (AccessLog_Allowed log = true ↔ reply ≠ "")).
Proof.
  intros Hleg. split_and!; [| |intros reply log; by eapply answers_match_reports].
  - apply (connections_record _ _ TypeAccessLog login_of); [done| |by apply reported_logins|].
    + intros env Ht. unfold login_of. by rewrite decide_False.
    + intros i. apply readDaemon_records; [apply login_row_mono|apply readEnvelope_records].
  - apply (connections_record _ _ TypeSecretRead read_of); [done| |by apply reported_reads|].
    + intros env Ht. unfold read_of. by rewrite decide_False.
    + intros i. apply readDaemon_records; [apply read_row_mono|apply readEnvelope_records].
Qed.
End connections.
End reporting.

(** ** What is read is recorded *)

Section complete.
Context `{Platform, !Alone}.

Definition log_ids (w : World) : list uuid := SshAccessLog_ID <$> ssh_access_logs (w_db w).
(** The identifiers generated in the next [n] database calls are new. *)
Definition new_ids (w : World) (n : nat) : Prop :=
  NoDup (log_ids w ++ (env_uuid <$> seq (w_tick w) n)).

(** Where a call that cannot fail leads, and where the next one starts. *)
Lemma pool_unfailing {A} (q : Query A) w :
  env_fault (w_tick w) = NoFault →
  w_tick (pool q w).2 = S (w_tick w) ∧ visited w ⊆ visited (pool q w).2 ∧
  (w_db (pool q w).2 = w_db w ∨
   ∃ a, q (env_now (w_tick w)) (env_uuid (w_tick w)) (w_db w) = inr (a, w_db (pool q w).2)).
Proof.
  intros Hf. unfold pool. rewrite catch_up_alone, Hf.
  destruct (q _ _ _) as [e|[x d]] eqn:Hq; simpl; split_and!; try done; eauto.
  unfold visited. simpl. rewrite fmap_app. intros y Hy. apply elem_of_app. by left.
Qed.
Lemma pool_keeps_rows {A Row} (rows : DB → list Row) (q : Query A) w :
  env_fault (w_tick w) = NoFault → unchanged rows q → rows (w_db (pool q w).2) = rows (w_db w).
Proof. intros Hf Hq. destruct (pool_unfailing q w Hf) as (_ & _ & [->|[x Hx]]); eauto. Qed.

Lemma seq_window t k n m : (k + n ≤ m)%nat → seq t m = seq t k ++ seq (t + k) n ++ seq (t + k + n) (m - k - n).
Proof. intros Hm. rewrite <-!seq_app. f_equal. lia. Qed.
Lemma new_ids_later w w' n :
  log_ids w' = log_ids w → (w_tick w ≤ w_tick w' ≤ 3 + w_tick w)%nat → new_ids w (3 + n) → new_ids w' n.
Proof.
  unfold new_ids. intros -> Ht Hnew. eapply sublist_NoDup; [exact Hnew|]. apply sublist_app; [done|].
  rewrite (seq_window (w_tick w) (w_tick w' - w_tick w) n (3 + n)) by lia.
  replace (w_tick w + (w_tick w' - w_tick w))%nat with (w_tick w') by lia.
  apply fmap_sublist, sublist_inserts_l, sublist_inserts_r. done.
Qed.
Lemma new_ids_used w w' n :
  log_ids w' = log_ids w ++ [env_uuid (S (w_tick w))] → w_tick w' = (3 + w_tick w)%nat →
  new_ids w (3 + n) → new_ids w' n.
Proof.
  unfold new_ids. intros -> -> Hnew. eapply sublist_NoDup; [exact Hnew|]. rewrite <-(assoc (++)).
  apply sublist_app; [done|]. simpl. apply sublist_cons, sublist_skip, sublist_cons. done.
Qed.

(** Without other requests the table grows by the request's own rows. *)
Lemma appended_alone {Row} (rows : DB → list Row) w w' x :
  effect evolves w w' → w_tx w = None → appended rows w w' x → rows (w_db w') = rows (w_db w) ++ x.
Proof.
  intros [_ (cs & Hc & Hl & Hok) _ _ _] Hx (cs' & Hc' & Ho). rewrite Hc in Hc'. apply app_inv_head in Hc' as <-.
  assert (Forall (change_ok evolves) cs) as Hcs by (apply Hok; intros y; congruence). clear Hc Hok.
  revert Hl Hcs. generalize (w_db w). induction Ho as [|c cs l Hf _ IH|c cs y l _ Hy _ IH]; intros d.
  - intros -> _. by rewrite app_nil_r.
  - intros _ [Hn _]%Forall_cons. unfold change_ok in Hn. rewrite Hf in Hn.
    destruct Hn as (n & f & h & Hn & _). by rewrite alone in Hn.
  - intros [<- Hl] [_ Hcs]%Forall_cons. by rewrite (IH _ Hl Hcs), Hy, (assoc (++)).
Qed.

(** The three calls of a record, none of which fails. *)
Lemma recording_quiet {E A} (q1 : Query A) (q2 : error + A → Query unit) (q3 : Query unit) w w' :
  (∀ n, env_fault n = NoFault) →
  w' = ((r <- attempt (pool q1);; ignore (pool (q2 r));;; ignore (pool q3)) w : (E + unit) * World).2 →
  ∃ r w1, pool q1 w = (r, w1) ∧ w_tick w1 = S (w_tick w) ∧ w_tick w' = (3 + w_tick w)%nat ∧
    w' = (pool q3 (pool (q2 r) w1).2).2.
Proof.
  intros Hf ->. unfold bind, attempt, ignore. destruct (pool_unfailing q1 w (Hf _)) as (Ht & _).
  destruct (pool q1 w) as [r w1] eqn:Hp. simpl in *.
  destruct (pool_unfailing (q2 r) w1 (Hf _)) as (Ht2 & _).
  destruct (pool_unfailing q3 (pool (q2 r) w1).2 (Hf _)) as (Ht3 & _).
  exists r, w1. split_and!; try done. lia.
Qed.

Lemma recordAccessLog_recorded {E} host lg w n :
  (∀ m, env_fault m = NoFault) → w_tx w = None → new_ids w (3 + n) →
  let w' := (recordAccessLog host lg w : (E + unit) * World).2 in
  new_ids w' n ∧ records ssh_access_logs login_row host w w' [lg].
Proof.
  intros Hf Hx Hnew w'. destruct (recordAccessLog_login (E:=E) host lg w) as (l & Hl & x & Ha & HF).
  fold w' in Ha, HF. pose proof (recordAccessLog_rel (E:=E) host lg w) as Hrel. fold w' in Hrel.
  destruct (recording_quiet (E:=E) _ (login_insert host lg) _ w w' Hf eq_refl)
    as (r & w1 & H1 & Ht1 & Ht & Hw').
  assert (ssh_access_logs (w_db w1) = ssh_access_logs (w_db w)) as Hd1.
  { pose proof (pool_keeps_rows ssh_access_logs (GetPublicKeyByFingerprint (AccessLog_Fingerprint lg)) w (Hf _)) as Hk.
    rewrite H1 in Hk. apply Hk. unfold GetPublicKeyByFingerprint. unchanged_query. }
  assert (∃ row, ssh_access_logs (w_db w') = ssh_access_logs (w_db w) ++ [row] ∧
            SshAccessLog_ID row = env_uuid (S (w_tick w))) as (row & Hrow & Hid).
  { rewrite Hw', pool_keeps_rows; [|by apply Hf|unfold TouchHostSeen; unchanged_query].
    unfold pool. rewrite catch_up_alone, Hf, Ht1. unfold InsertSSHAccessLog, check, execute.
    rewrite decide_True; [simpl; rewrite Hd1; eauto|]. rewrite Hd1.
    apply NoDup_app in Hnew as (_ & Hnew & _). intros Hin. apply (Hnew _ Hin). simpl. right. left. }
  rewrite (appended_alone _ _ _ _ Hrel Hx Ha) in Hrow. apply app_inv_head in Hrow as ->.
  split.
  - apply (new_ids_used w); [|done|done]. unfold log_ids.
    rewrite (appended_alone _ _ _ _ Hrel Hx Ha), fmap_app. simpl. by rewrite Hid.
  - exists [row]. split; [done|]. assert (l = [lg]) as ->; [|done].
    destruct l as [|y [|z l]]; [by inversion HF| |apply sublist_length in Hl; simpl in Hl; lia].
    by apply singleton_sublist_l, list_elem_of_singleton in Hl as ->.
Qed.

Lemma recordSecretRead_quiet {E} host rd w n :
  (∀ m, env_fault m = NoFault) → w_tx w = None → new_ids w (3 + n) →
  new_ids (recordSecretRead host rd w : (E + unit) * World).2 n.
Proof.
  intros Hf Hx. pose proof (recordSecretRead_rel (E:=E) host rd w) as Hrel.
  pose proof (recordSecretRead_logins (E:=E) host rd w) as Ha.
  remember (recordSecretRead host rd w : (E + unit) * World).2 as w' eqn:Hw'.
  destruct (recording_quiet (E:=E) _ (read_insert host rd) _ w w' Hf Hw') as (r & w1 & _ & _ & Ht & _).
  apply new_ids_later; [|lia]. unfold log_ids. f_equal. by rewrite (appended_alone _ _ _ _ Hrel Hx Ha), app_nil_r.
Qed.

Lemma readEnvelope_recorded {E} host env w n :
  (∀ m, env_fault m = NoFault) → w_tx w = None → new_ids w (3 + n) →
  let w' := (readEnvelope host env w : (E + unit) * World).2 in
  new_ids w' n ∧ records ssh_access_logs login_row host w w' (omap login_of [env]).
Proof.
  intros Hf Hx Hnew w'. assert (new_ids w n) as Hn by (apply (new_ids_later w w); [done|lia|done]).
  pose proof (records_none ssh_access_logs login_row host w w (appended_refl _ w)) as Hnone.
  subst w'. unfold readEnvelope. csimpl. unfold login_of.
  case_decide; [destruct (unmarshal AccessLog_of_json _) as [lg|]; [by apply recordAccessLog_recorded|done]|].
  case_decide; [|done]. destruct (unmarshal SecretRead_of_json _) as [rd|]; [|done].
  split; [by apply recordSecretRead_quiet|apply records_none, recordSecretRead_logins].
Qed.

(** Every login report the control plane reads is recorded, in order, when no
    database call fails, no other request runs meanwhile and the generated
    identifiers are new. *)
Theorem read_reports_are_recorded {E} host inbound w :
  (∀ m, env_fault m = NoFault) → w_tx w = None → new_ids w (3 * length inbound) →
  records ssh_access_logs login_row host w (readDaemon host inbound w : (E + unit) * World).2
    (omap login_of inbound).
Proof.
  intros Hf. unfold readDaemon. revert w. induction inbound as [|env inbound IH]; intros w Hx Hnew.
  - apply records_none, appended_refl.
  - replace (3 * length (env :: inbound))%nat with (3 + 3 * length inbound)%nat in Hnew by (simpl; lia).
    destruct (readEnvelope_recorded (E:=E) host env w _ Hf Hx Hnew) as (Hnew1 & x1 & Ha1 & HF1).
    simpl foreach. unfold bind at 1. pose proof (readEnvelope_total (E:=E) host env w) as Ht.
    pose proof (readEnvelope_rel (E:=E) host env w) as Hrel.
    destruct (readEnvelope host env w) as [r w1]. cbn [fst snd] in *. subst r.
    destruct (IH w1) as (x2 & Ha2 & HF2); [by apply Hrel|done|].
    change (env :: inbound) with ([env] ++ inbound). rewrite omap_app.
    exists (x1 ++ x2). split; [by eapply appended_trans|]. apply Forall2_app; [|done].
    eapply Forall2_impl; [exact HF1|]. intros lg row. apply login_row_mono.
    apply (effect_visited evolves), (readDaemon_rel (E:=E)).
Qed.
End complete.

(** A login can be answered and its report be gone: taken from the buffer by a
    connection whose write then fails, it is not put back.  The comment on
    [protocol.AccessLog] says that nothing is lost while the connection is
    down. *)
Theorem reports_can_be_lost `{Platform, !Disk} c challenge auth :
  authenticate c challenge = inr auth →
  ∃ t a log, agent_run (startAgent c) t a ∧ t ≫= answered = [log] ∧ t ≫= wrote_any = [] ∧
    ag_logs a = [] ∧ ag_links a ≫= inflight = [].
Proof.
  intros Hau. destruct (any_query_answered (cl_cache (ag_client (serveLink 0 (startAgent c)))))
    as (reply & log & Ha).
  pose (l1 := set_forwarder (Holding (access_report log)) newLink).
  pose (l2 := set_forwarder Idle (set_send [access_report log] l1)).
  exists ([] ++ [Dialled (wsURL (cl_cfg c)) auth] ++ [Answered reply log] ++ [Tau] ++ [Tau] ++ [Tau]).
  exists (on_link 0 (cancel_link (stop_writing (set_send [] l2)))
    (on_link 0 l2 (on_link 0 l1 (set_buffers [] [] (RecordAccess log (serveLink 0 (startAgent c))))))), log.
  split; [|by split_and!]. rewrite !(assoc (++)).
  eapply run_snoc; [eapply run_snoc; [eapply run_snoc; [eapply run_snoc; [eapply run_snoc; [apply run_nil|]|]|]|]|].
  - by eapply step_dial.
  - eapply step_login; [exact Ha|done].
  - by apply (step_take_log (RecordAccess log (serveLink 0 (startAgent c))) 0 newLink log []).
  - apply (step_put _ 0 l1); [done|done| |done]. unfold room, logBufferSize. simpl. lia.
  - by apply (step_write_failed _ 0 l2 (access_report log) []).
Qed.

(** ** Witnesses: the login of the demo agent, recorded *)

Lemma demo_legible : Forall legible demo_trace.
Proof. repeat constructor; apply (bool_decide_unpack _); vm_compute; exact I. Qed.

Lemma host_records_are_true_witness :
  Forall legible demo_trace ∧ Answered demo_answer demo_log ∈ demo_trace ∧
  ∃ logins : list AccessLog,
    records ssh_access_logs login_row demo_host demo_world
      (readDaemon demo_host [access_report demo_log] demo_world : (error + unit) * World).2 logins ∧
    logins `sublist_of` [demo_log].
Proof.
  split; [exact demo_legible|]. split; [do 2 right; left|].
  destruct (host_records_are_true (demo_client 2) demo_trace run_reported demo_agent_run
    (λ _, demo_host) (λ _, demo_world) (λ i, demo_trace ≫= wrote i) (λ i, reflexivity _) demo_legible)
    as [(logins & Hrec & Hsub & _) _].
  exists (logins 0%nat). split; [exact (Hrec 0%nat)|exact (Hsub 0%nat)].
Defined.

Lemma read_reports_are_recorded_witness :
  records ssh_access_logs login_row demo_host demo_world
    (readDaemon demo_host [access_report demo_log] demo_world : (error + unit) * World).2 [demo_log].
Proof.
  replace [demo_log] with (omap login_of [access_report demo_log]) by (vm_compute; reflexivity).
  apply (read_reports_are_recorded demo_host [access_report demo_log] demo_world).
  - intros m. reflexivity.
  - reflexivity.
  - unfold new_ids. apply (bool_decide_unpack _). vm_compute. exact I.
Defined.

Lemma reports_can_be_lost_witness :
  ∃ t a log, agent_run (startAgent (demo_client 2)) t a ∧ t ≫= answered = [log] ∧ t ≫= wrote_any = [] ∧
    ag_logs a = [] ∧ ag_links a ≫= inflight = [].
Proof.
  apply (reports_can_be_lost (demo_client 2) demo_challenge demo_auth_reply). vm_compute. reflexivity.
Defined.
