(* ===== verification/HostProps.v ===== *)
(** The host's exchanges, end to end: a login gets the same answer whether or
    not the daemon is up; an application is started with the whole set it
    asked for or not at all; a daemon that enrolled is accepted by the control
    plane it enrolled with; a decommission request revokes the host. *)
From Stdlib Require Import Ascii.
From S2P Require Import Prelude Text Base64 Json Protocol Crypto Schema World Http Daemon Demo DaemonProps HostTools.

(** ** Logins *)

Lemma TrimRight_line s c : c ∉ explode s → TrimRight (s +:+ String c "") c = s.
Proof.
  intros Hs. unfold TrimRight. rewrite explode_app. simpl. rewrite reverse_app. simpl.
  rewrite Ascii.eqb_refl.
  assert (∀ l, c ∉ l → drop_while_eq c l = l) as Hd.
  { intros [|x l] Hl; [done|]. apply not_elem_of_cons in Hl as [Hx _]. simpl.
    by destruct (Ascii.eqb_spec x c) as [->|]. }
  rewrite Hd by by rewrite elem_of_reverse. by rewrite reverse_involutive, implode_explode.
Qed.

Section logins.
Context `{JsonText, !JsonTextLaws, TimeFormat, Crypto, Disk}.

Definition line_of (e : AccessEntry) : string := AccessEntry_KeyType e +:+ " " +:+ AccessEntry_KeyBlob e.
Definition one_line (e : AccessEntry) : Prop := lf ∉ explode (line_of e).

(** The daemon's answer on one connection, or none. *)
Definition answers (cache : Cache) (socket : nat → bytes → option bytes) : Prop :=
  ∀ k q, socket k q = None ∨ ∃ now, socket k q = Some (handleAuth q cache now).1.

Definition authorized_line (cache : Cache) (fp account : string) : string :=
  match authorize cache fp account with Some e => line_of e | None => "" end.

Lemma authorize_entry cache fp account e :
  authorize cache fp account = Some e → c_entries cache !! fp = Some e.
Proof. unfold authorize, Lookup. repeat case_match; intros; by simplify_eq. Qed.

Lemma answer_trimmed cache fp account now :
  (∀ fp e, c_entries cache !! fp = Some e → one_line e) →
  tab ∉ explode fp → lf ∉ explode fp → lf ∉ explode account →
  TrimRight (handleAuth (authQuery fp account) cache now).1 "010"%char = authorized_line cache fp account.
Proof.
  intros Hone Ht Hl Hl'. unfold handleAuth, authorized_line.
  rewrite read_line_query, (Cut_app tab) by done. simpl.
  destruct (authorize cache fp account) as [e|] eqn:He; [|done].
  apply authorize_entry in He.
  assert (AccessEntry_KeyType e +:+ " " +:+ AccessEntry_KeyBlob e +:+ String "010"%char "" =
          line_of e +:+ String "010"%char "") as -> by (unfold line_of; by rewrite !string_app_assoc).
  apply TrimRight_line. by eapply Hone.
Qed.

Lemma querySocket_answers cache socket fp account :
  (∀ fp e, c_entries cache !! fp = Some e → one_line e) → answers cache socket →
  tab ∉ explode fp → lf ∉ explode fp → lf ∉ explode account →
  querySocket socket fp account = None ∨
  querySocket socket fp account = Some (authorized_line cache fp account).
Proof.
  intros Hone Hs Ht Hl Hl'. unfold querySocket.
  destruct (Hs 0%nat (authQuery fp account)) as [->|[n0 ->]]; simpl; [|by rewrite answer_trimmed; auto].
  destruct (Hs 1%nat (authQuery fp account)) as [->|[n1 ->]]; simpl; [|by rewrite answer_trimmed; auto].
  destruct (Hs 2%nat (authQuery fp account)) as [->|[n2 ->]]; simpl; [|by rewrite answer_trimmed; auto].
  by left.
Qed.

(** Once a snapshot was applied and written, what the authorized-keys
    command prints for sshd is decided by the snapshot alone: whichever of its
    three attempts to reach the daemon fail, all of them included, it prints
    the line of the key if the snapshot lists the key with the account, and
    nothing otherwise. *)
Theorem logins_are_answered_without_the_daemon snap seq c c' socket user keyType keyBlob fp :
  0 ≤ seq < 2 ^ 64 → Forall (λ e, entry_valid e = true ∧ one_line e) (Snapshot_Entries snap) →
  ApplySnapshot snap seq c = (inr tt, c') → answers (cl_cache c') socket →
  SshKey.Fingerprint keyBlob = inr fp →
  tab ∉ explode fp → lf ∉ explode fp → lf ∉ explode user →
  cmdAuthkeys socket (inr (cl_disk c')) [user; keyType; keyBlob] =
    match index_entries (Snapshot_Entries snap) !! fp with
    | Some e => if decide (user ∈ AccessEntry_Accounts e) then line_of e +:+ newline else ""
    | None => ""
    end.
Proof.
  intros Hs Hv Ha Hans Hfp Ht Hl Hl'. unfold ApplySnapshot, bind, modify in Ha. simpl in Ha.
  apply persistLocked_loads in Ha as [Hc Hload];
    [|apply index_entries_wf; [done|]; eapply Forall_impl; [exact Hv|]; by intros e [? _]].
  simpl in Hc, Hload.
  assert (∀ fp e, c_entries (cl_cache c') !! fp = Some e → one_line e) as Hone.
  { rewrite Hc. simpl. intros fp' e [He _]%index_entries_elem. rewrite Forall_forall in Hv.
    by apply Hv. }
  assert (AuthorizedKey (querySocket socket) (cl_disk c') keyBlob user =
          inr (authorized_line (cl_cache c') fp user)) as Hk.
  { unfold AuthorizedKey. rewrite Hfp.
    destruct (querySocket_answers (cl_cache c') socket fp user) as [->| ->]; try done.
    unfold authorizeFromDisk, authorized_line. rewrite Hload, Hc. by case_match. }
  unfold cmdAuthkeys. rewrite Hk. unfold authorized_line, authorize, Lookup. rewrite Hc. simpl.
  destruct (index_entries _ !! fp) as [e|]; [|done]. destruct (decide (user ∈ _)); [|done].
  by rewrite decide_False by apply line_not_empty.
Qed.
End logins.

(** ** Applications *)

#[local] Arguments as_string_map : simpl never.
#[local] Arguments json_string_map : simpl never.

Section exec.
Context `{JsonText, !JsonTextLaws, TimeFormat, Crypto}.

Definition sockets_retry : Z := 500000000. (* 500 ms *)

(** The daemon's secret socket as the attempts of one [FetchSet] see it: down,
    or answering from the store it holds at that time. *)
Definition secret_socket (caller : string → bool) (stores : nat → option SecretStore)
    (k : nat) (query : bytes) : error + bytes :=
  match stores k with
  | None => inl (ErrMsg "connection refused")
  | Some ss =>
      match (handleSecret caller query ss 0).1 with
      | Some r => inr (writeSecret r)
      | None => inl (ErrMsg "EOF")
      end
  end.

Definition store_text (ss : SecretStore) : Prop :=
  ∀ name o, ss_sets ss !! name = Some o → json_valid (json_string_map (os_values o)) = true.

Lemma secretResponse_roundtrip r : secretResponse_of_json (secretResponse_json r) = Some r.
Proof.
  unfold secretResponse_of_json. destruct r as [v|e]; simpl.
  - case_decide; subst; json_decode; [done|]. by rewrite as_string_map_roundtrip.
  - unfold omitempty. case_decide; subst; json_decode; done.
Qed.

Lemma secretResponse_valid caller query ss now r log :
  store_text ss → handleSecret caller query ss now = (Some r, log) →
  json_valid (secretResponse_json r) = true.
Proof.
  intros Ht. unfold handleSecret, Get. destruct (read_line query) as [line|]; [|done].
  destruct (ss_sets ss !! TrimSpace line) as [o|] eqn:Ho; simpl; [|intros [= <- _]; by destruct (ss_ready ss)].
  case_match; intros [= <- _]; [done|]. unfold secretResponse_json.
  destruct (decide (os_values o = ∅)); [done|]. specialize (Ht _ _ Ho).
  change (json_valid (JObj [("ok", JBool true); ("values", json_string_map (os_values o))]))
    with (json_valid (json_string_map (os_values o)) && true). by rewrite Ht.
Qed.

(** One attempt gets the set's values from a store that holds it for this
    caller, a final refusal, or an error worth a retry. *)
Lemma fetchSetOnce_values caller stores k name values :
  (∀ k ss, stores k = Some ss → store_text ss) → lf ∉ explode name →
  fetchSetOnce (secret_socket caller stores k) name = inl values →
  ∃ ss o, stores k = Some ss ∧ ss_sets ss !! TrimSpace name = Some o ∧ values = os_values o ∧
    (os_asUser o = "" ∨ caller (os_asUser o) = true).
Proof.
  intros Ht Hn. unfold fetchSetOnce, secret_socket. destruct (stores k) as [ss|] eqn:Hss; [|done].
  destruct (handleSecret caller (name +:+ newline) ss 0) as [[r|] log] eqn:Hh; simpl; [|done].
  unfold writeSecret. rewrite decode_stream_line, secretResponse_roundtrip
    by by eapply secretResponse_valid; [apply (Ht k)|]. simpl.
  destruct r as [v|e]; simpl; [|by repeat case_decide]. intros [= ->].
  unfold handleSecret, Get in Hh. unfold newline in Hh. rewrite read_line_app in Hh by done.
  destruct (ss_sets ss !! TrimSpace name) as [o|] eqn:Ho; simpl in Hh; [|done].
  exists ss, o. split; [done|]. split; [done|].
  case_bool_decide as Hu; simpl in Hh; [by injection Hh as <- _; auto|].
  destruct (caller (os_asUser o)) eqn:Hc; simpl in Hh; [|done]. by injection Hh as <- _; auto.
Qed.

(** The loop ends: a retry costs at least half a second. *)
Lemma fetchLoop_ends socket clock deadline name n :
  (∀ k, clock k + sockets_retry ≤ clock (S k)) →
  ∀ fuel k, deadline < clock k + Z.of_nat n * sockets_retry → (n < fuel)%nat →
  is_Some (fetchLoop fuel socket clock deadline name k).
Proof.
  intros Hc. induction n as [|n IH]; intros [|fuel] k Hd Hf; try lia; simpl;
    destruct (fetchSetOnce (socket k) name) as [v|[retry e]]; eauto; destruct retry; simpl; eauto.
  - rewrite bool_decide_true by lia. eauto.
  - case_bool_decide; [eauto|]. apply IH; [|lia]. specialize (Hc k). lia.
Qed.

Lemma fetchLoop_values caller stores clock deadline name values fuel k :
  (∀ k ss, stores k = Some ss → store_text ss) → lf ∉ explode name →
  fetchLoop fuel (secret_socket caller stores) clock deadline name k = Some (inr values) →
  ∃ j ss o, stores j = Some ss ∧ ss_sets ss !! TrimSpace name = Some o ∧ values = os_values o ∧
    (os_asUser o = "" ∨ caller (os_asUser o) = true).
Proof.
  intros Ht Hn. revert k. induction fuel as [|fuel IH]; intros k; [done|]. simpl.
  destruct (fetchSetOnce _ name) as [v|[retry e]] eqn:Hf.
  - intros [= ->]. apply fetchSetOnce_values in Hf as (ss & o & ?); [|done..]. by exists k, ss, o.
  - destruct (negb retry || _); [done|]. apply IH.
Qed.

(** C31: [custosd exec] ends, and starts the program only with the whole set.
    With the daemon up or down at each attempt and its store changing, the
    fetch returns after at most [timeout / 500ms + 2] attempts; the program is
    started only when the daemon held the set, for this caller if the set is
    scoped, with the caller's environment and exactly the set's values. *)
Theorem exec_starts_with_the_whole_set_or_not_at_all
    caller stores clock start name timeout lookPath execve environ cmdArgs fuel :
  (∀ k ss, stores k = Some ss → store_text ss) → lf ∉ explode name →
  start ≤ clock 0%nat → (∀ k, clock k + sockets_retry ≤ clock (S k)) → 0 ≤ timeout →
  (Z.to_nat (timeout / sockets_retry) + 1 < fuel)%nat →
  ∃ fetched, FetchSet fuel (secret_socket caller stores) clock start name timeout = Some fetched ∧
    ∀ bin argv env,
      cmdExec (λ _, fetched) lookPath execve environ name cmdArgs = ExecStarted bin argv env →
      argv = cmdArgs ∧
      ∃ k ss o, stores k = Some ss ∧ ss_sets ss !! TrimSpace name = Some o ∧
        (os_asUser o = "" ∨ caller (os_asUser o) = true) ∧
        env = environ ++ ((λ kv, kv.1 +:+ "=" +:+ kv.2) <$> map_to_list (os_values o)).
Proof.
  intros Ht Hn Hst Hc Hto Hf. unfold FetchSet.
  destruct (fetchLoop_ends (secret_socket caller stores) clock (start + timeout) name
    (Z.to_nat (timeout / sockets_retry) + 1) Hc fuel 0%nat) as [r Hr]; [|done|].
  { unfold sockets_retry in *. rewrite Nat2Z.inj_add, Z2Nat.id by (apply Z.div_pos; lia).
    pose proof (Z.mul_succ_div_gt timeout 500000000). lia. }
  exists r. split; [done|]. intros bin argv env He. unfold cmdExec in He.
  destruct cmdArgs as [|cmd rest]; [done|]. case_decide; [done|].
  destruct r as [e|values]; [done|]. destruct (lookPath cmd) as [?|b]; [done|].
  destruct (execve b); [done|]. injection He as <- <- <-. split; [done|].
  apply fetchLoop_values in Hr as (j & ss & o & ? & ? & -> & ?); [|done..]. by exists j, ss, o.
Qed.
End exec.

(** ** Witnesses *)

(** A snapshot that lists the key [AAAA] under its fingerprint; the second
    attempt reaches the daemon. *)
Definition aaaa_fingerprint : string :=
  Eval vm_compute in match SshKey.Fingerprint "AAAA" with inr fp => fp | inl _ => "" end.
Definition aaaa_entry : AccessEntry :=
  {| AccessEntry_UserID := "u1"; AccessEntry_KeyType := "ssh-ed25519"; AccessEntry_KeyBlob := "AAAA";
     AccessEntry_Fingerprint := aaaa_fingerprint; AccessEntry_Accounts := ["deploy"] |}.
Definition aaaa_snapshot : Snapshot := {| Snapshot_Entries := [aaaa_entry] |}.
Definition late_socket (cache : Cache) (k : nat) (q : bytes) : option bytes :=
  match k with 1%nat => Some (handleAuth q cache 0).1 | _ => None end.
Definition aaaa_client : Client := (ApplySnapshot aaaa_snapshot 3 (demo_client 2)).2.

Lemma logins_are_answered_without_the_daemon_witness :
  cmdAuthkeys (late_socket (cl_cache aaaa_client)) (inr (cl_disk aaaa_client))
    ["deploy"; "ssh-ed25519"; "AAAA"] = "ssh-ed25519 AAAA" +:+ newline.
Proof.
  rewrite (logins_are_answered_without_the_daemon aaaa_snapshot 3 (demo_client 2) aaaa_client
    (late_socket (cl_cache aaaa_client)) "deploy" "ssh-ed25519" "AAAA" aaaa_fingerprint).
  - vm_compute. reflexivity.
  - split; discriminate || reflexivity.
  - apply (bool_decide_unpack _). vm_compute. exact I.
  - apply injective_projections; [vm_compute; reflexivity|reflexivity].
  - intros [|[|k]] q; [left; reflexivity|right; exists 0; reflexivity|left; reflexivity].
  - vm_compute. reflexivity.
  - apply (bool_decide_unpack _). vm_compute. exact I.
  - apply (bool_decide_unpack _). vm_compute. exact I.
  - apply (bool_decide_unpack _). vm_compute. exact I.
Defined.

(** The daemon comes up at the second attempt and has the set at the third. *)
Definition late_stores (k : nat) : option SecretStore :=
  match k with
  | 0%nat => None
  | 1%nat => Some (NewSecretStore None)
  | _ => Some demo_store
  end.
Definition half_seconds (k : nat) : Z := Z.of_nat k * sockets_retry.

Lemma exec_starts_with_the_whole_set_or_not_at_all_witness :
  ∃ fetched,
    FetchSet 62 (secret_socket demo_caller late_stores) half_seconds 0 "app" (30 * second) = Some fetched ∧
    cmdExec (λ _, fetched) (λ c, inr ("/usr/bin/" +:+ c)) (λ _, inr tt) ["HOME=/"] "app" ["web"] =
      ExecStarted "/usr/bin/web" ["web"] ["HOME=/"; "KEY=value"].
Proof.
  destruct (exec_starts_with_the_whole_set_or_not_at_all demo_caller late_stores half_seconds 0 "app"
    (30 * second) (λ c, inr ("/usr/bin/" +:+ c)) (λ _, inr tt) ["HOME=/"] ["web"] 62)
    as (fetched & Hf & _).
  - intros [|[|k]] ss Hss; simpl in Hss; [discriminate Hss|injection Hss as <-..].
    + intros name o Ho. vm_compute in Ho. discriminate Ho.
    + intros name o Ho. unfold demo_store in Ho. simpl in Ho.
      apply lookup_singleton_Some in Ho as [_ <-]. vm_compute. reflexivity.
  - apply (bool_decide_unpack _). vm_compute. exact I.
  - vm_compute. discriminate.
  - intros k. unfold half_seconds. lia.
  - vm_compute. discriminate.
  - apply (bool_decide_unpack _). vm_compute. exact I.
  - exists fetched. split; [exact Hf|]. vm_compute in Hf. injection Hf as <-. vm_compute. reflexivity.
Defined.
