(* ===== verification/Deployment.v ===== *)
(** An installed host as sshd and systemd use it: the files [custosd install]
    leaves, the command lines that sshd and systemd read in them, and what the
    program started with these command lines does.

    sshd and systemd are parameters; of both only how they split a plain
    command line of their configuration is assumed. *)
From Stdlib Require Import Ascii.
From S2P Require Import Prelude Text Base64 Json Protocol Crypto Schema Evolve World Http Daemon Fs Update Install HostTools Commands Settings Demo DaemonProps HostProps Cli.

(** ** What install leaves *)

Section installed.
Context `{SysEnv}.

(** No temporary file of the drop-in is in the way. *)
Definition fresh_temps (s : Sys) : Prop :=
  ∀ t, sys_files s !! (dropInDir, ".tmp-" +:+ sys_temp t +:+ "") = None.

Lemma atomicWrite_ok data perm s :
  no_sys_faults → fresh_temps s → ∃ s', atomicWrite DropInPath data perm s = (inr tt, s').
Proof.
  intros Hf Hn. unfold atomicWrite, bind, CreateTemp, syscall. simpl. rewrite Hf, (Hn (sys_tick s)).
  unfold deferRemove, Write, Chmod, Rename, nop_call, syscall, onerr, bind. simpl.
  repeat (rewrite ?Hf, ?lookup_alter_eq, ?lookup_insert_eq; simpl). by eexists.
Qed.

(** sshd takes the drop-in on this host, whatever is written elsewhere. *)
Definition takes_drop_in (s : Sys) : Prop := ∀ m,
  (∀ q, q.1 = sshDir ∨ q.1 = dropInDir → ¬ hook_files q → m !! q = sys_files s !! q) →
  sys_takes m = true.

(** When nothing fails, sshd uses the new drop-in. *)
Lemma wp_setupSSHD_ok sshUser stateDir socket binaryPath s :
  no_sys_faults → sshd_valid → reload_works → takes_drop_in s → fresh_temps s →
  wp (setupSSHD sshUser stateDir socket binaryPath) s (λ _ _, False) (λ _ s',
    sys_sshd s' = Some (dropInContent binaryPath sshUser stateDir socket) ∧
    ∀ q, ¬ hook_files q → sys_files s' !! q = sys_files s !! q).
Proof.
  intros Hf Hv Hw Htk Hn. unfold setupSSHD. sys_step. apply wp_ignore_HasInclude. intros s1 Hs1.
  assert (fresh_temps s1) as Hn1 by (intros t; framed; apply Hn).
  destruct (atomicWrite_ok (dropInContent binaryPath sshUser stateDir socket) mode_0644 s1 Hf Hn1) as [s2 Hrun].
  assert (same_outside (λ q, temp_of DropInPath q ∨ q = DropInPath) s1 s2 ∧
    data_at DropInPath s2 = Some (dropInContent binaryPath sshUser stateDir socket)) as [Hout Hd].
  { pose proof (wp_atomicWrite DropInPath (dropInContent binaryPath sshUser stateDir socket) mode_0644 s1
      (λ _ _, True) (λ _ s', same_outside (λ q, temp_of DropInPath q ∨ q = DropInPath) s1 s' ∧
        data_at DropInPath s' = Some (dropInContent binaryPath sshUser stateDir socket)) dropin_not_temp) as Hwp.
    unfold wp in Hwp. rewrite Hrun in Hwp. apply Hwp; [done|].
    intros _ s' Hs Hfile. split; [done|]. unfold data_at. by rewrite Hfile. }
  apply wp_bind. unfold wp, attempt, WriteDropIn. rewrite Hrun.
  destruct (Hv (sys_tick s2) (sys_files s2)) as [out Hout2].
  unfold bind, attempt, Validate, Exec, ignore, Reload, onerr, reloadUnit. simpl.
  unfold bind. simpl. rewrite Hout2. simpl.
  assert (∀ q, ¬ hook_files q → sys_files s2 !! q = sys_files s !! q) as Hq.
  { intros q Hq. rewrite (proj1 Hout) by exact Hq. by framed. }
  destruct (Hw (S (sys_tick s2)) (sys_files s2)) as [o ->]. simpl. split; [|exact Hq].
  unfold taken. simpl. rewrite (Htk (sys_files s2)) by auto. exact Hd.
Qed.

Lemma ensureUser_same lookup : preserves (same_but []) (ensureUser lookup).
Proof.
  assert (preserves (same_but []) (lookupUser lookup)) as Hl by (intros s; apply same_but_bump).
  apply preserves_onerr; [apply _|done|]. intros _. apply preserves_bind; [apply _|apply Exec_same|done].
Qed.
Lemma makeStateDir_same : preserves (same_but []) makeStateDir.
Proof. unfold makeStateDir. repeat (apply preserves_bind; [apply _|apply nop_same|intros _]). apply nop_same. Qed.

Lemma installBin_not_hook : ¬ hook_files installBin.
Proof. by intros [[x [=]]|[=]]. Qed.
Lemma installUnit_not_hook : ¬ hook_files installUnitPath.
Proof. by intros [[x [=]]|[=]]. Qed.
Lemma temps_not_binary t : (dropInDir, ".tmp-" +:+ sys_temp t +:+ "") ≠ installBin.
Proof. by intros [=]. Qed.
Lemma temps_not_unit t : (dropInDir, ".tmp-" +:+ sys_temp t +:+ "") ≠ installUnitPath.
Proof. by intros [=]. Qed.

(** A mode that cannot be set leaves the contents. *)
Lemma wp_ignore_Chmod p mode s (Qe : error → Sys → Prop) (Qo : unit → Sys → Prop) :
  (∀ s1, same_but [p] s s1 → data_at p s1 = data_at p s → Qo tt s1) → wp (ignore (Chmod p mode)) s Qe Qo.
Proof.
  intros Ho. unfold wp, ignore. apply Ho; [apply Chmod_same|]. unfold Chmod, syscall.
  destruct (sys_fault _); [done|]. destruct (sys_files s !! p) as [f|] eqn:Hf; [|done].
  unfold data_at. simpl. by rewrite lookup_insert_eq, Hf.
Qed.

Lemma wp_installBinary self bin s :
  data_at self s = Some bin →
  wp (installBinary self) s (λ _ _, True) (λ _ s', same_but [installBin] s s' ∧ data_at installBin s' = Some bin).
Proof.
  intros Hb. unfold installBinary. case_decide as Hself; [sys_step; by subst|]. repeat (lazymatch goal with |- wp (ignore _) _ _ _ => fail | _ => sys_step end); try done.
  apply wp_ignore_Chmod. intros s5 Hs5 Hd5. simplify_eq. split.
  - split; [intros q Hq; assert (q ≠ installBin) by (intros ->; by apply Hq, list_elem_of_here)|]; framed; done.
  - rewrite Hd5. framed.
    by match goal with Hw : _ = (λ d, _) <$> _, H0 : _ = Some "" |- _ => rewrite Hw, H0 end.
Qed.

Lemma wp_installUnit s :
  wp installUnit s (λ _ _, True) (λ _ s', same_but [installUnitPath] s s' ∧
    data_at installUnitPath s' = Some systemdUnit).
Proof.
  unfold installUnit. repeat sys_step; try done.
  all: split; [split; [intros q Hq; assert (q ≠ installUnitPath) by (intros ->; by apply Hq, list_elem_of_here)|]; framed; done|].
  all: framed; by match goal with Hw : _ = (λ d, _) <$> _, H0 : _ = Some "" |- _ => rewrite Hw, H0 end.
Qed.

(** The files of an installed host. *)
Record installed (bin : bytes) (sshUser : string) (s : Sys) : Prop := {
  in_binary : data_at installBin s = Some bin;
  in_unit : data_at installUnitPath s = Some systemdUnit;
  in_hook : sys_sshd s = Some (dropInContent (pathString installBin) sshUser installStateDir installSocket) }.

Lemma wp_cmdInstall self lookup sshUser bin s :
  no_sys_faults → sshd_valid → reload_works → takes_drop_in s → fresh_temps s → data_at self s = Some bin →
  wp (cmdInstall true (inr self) lookup sshUser) s (λ _ _, True) (λ _ s', installed bin sshUser s').
Proof.
  intros Hf Hv Hr Htk Hn Hb. unfold cmdInstall. simpl.
  sys_step. eapply wp_preserves; [apply ensureUser_same|done|]. intros _ s1 Hs1.
  sys_step. eapply wp_mono; [apply (wp_installBinary self bin); by framed|done|]. intros _ s2 [Hs2 Hd2].
  sys_step. eapply wp_preserves; [apply makeStateDir_same|done|]. intros _ s3 Hs3.
  sys_step. eapply wp_mono; [apply wp_installUnit|done|]. intros _ s4 [Hs4 Hd4].
  eapply wp_mono; [apply wp_setupSSHD_ok; try done|done|].
  - intros m Hm. apply Htk. intros q Hdir Hq. rewrite Hm by done.
    assert (q ≠ installBin) by (intros ->; by destruct Hdir).
    assert (q ≠ installUnitPath) by (intros ->; by destruct Hdir). by framed.
  - intros t. pose proof (temps_not_binary t). pose proof (temps_not_unit t). framed. apply Hn.
  - intros _ s5 [Hh Hq]. split; [| |exact Hh]; unfold data_at; rewrite Hq by
      (apply installBin_not_hook || apply installUnit_not_hook); [|exact Hd4].
    assert (installBin ≠ installUnitPath) by done. framed. done.
Qed.
End installed.

(** ** sshd and systemd *)

Definition plain_char (c : ascii) : bool :=
  let n := nat_of_ascii c in
  (is_digit c || ((65 <=? n) && (n <=? 90)) || ((97 <=? n) && (n <=? 122)) ||
   bool_decide (c ∈ ["/"; "."; "_"; "-"]%char))%nat.
(** A word without blanks, quotes, escapes or specifiers. *)
Definition plain (w : string) : Prop := w ≠ "" ∧ Forall (λ c, plain_char c = true) (explode w).
#[export] Instance plain_dec w : Decision (plain w).
Proof. unfold plain. apply _. Defined.

(** The tokens of [AuthorizedKeysCommand] used here. *)
Definition expand (user keyType keyBlob w : string) : string :=
  if decide (w = "%u") then user else if decide (w = "%t") then keyType
  else if decide (w = "%k") then keyBlob else w.

Class HostPrograms := {
  (* the command that a drop-in sshd uses makes it run for a login *)
  sshd_argv : bytes → string → string → string → list string;
  (* the command of a setting of a unit's [Service] section *)
  systemd_argv : string → bytes → list string }.

(** A line of a unit file that is one line (no continuation), and not an
    assignment of the setting, with or without blanks around its name. *)
Definition other_line (setting l : string) : Prop :=
  (lf ∉ explode l) ∧ ("\"%char ∉ explode l) ∧
  match Cut "=" l with Some (name, _) => TrimSpace name ≠ setting | None => True end.
#[export] Instance other_line_dec setting l : Decision (other_line setting l).
Proof. unfold other_line. destruct (Cut "=" l) as [[name v]|]; apply _. Defined.
(** A command given by its absolute path. *)
Definition absolute (words : list string) : Prop :=
  match words with w :: _ => HasPrefix w "/" = true | [] => False end.

(** sshd_config(5): lines that begin with a hash are comments, the first value
    obtained for a keyword is used, a command must be an absolute path and runs
    only if AuthorizedKeysCommandUser is set, tokens are expanded after the
    words are split.  systemd.service(5): a command is split into words at
    blanks; a plus before it makes it run with full privileges. *)
Class HostProgramsLaws `{HostPrograms} := {
  sshd_reads pre words as_user user keyType keyBlob :
    Forall (λ l, HasPrefix l "#" = true ∧ lf ∉ explode l) pre → absolute words →
    Forall (λ w, plain w ∨ w ∈ ["%u"; "%t"; "%k"]) words → plain as_user → as_user ≠ "none" →
    sshd_argv (unlines (pre ++ [("AuthorizedKeysCommand " +:+ Join words " ");
                                ("AuthorizedKeysCommandUser " +:+ as_user)])) user keyType keyBlob =
      expand user keyType keyBlob <$> words;
  systemd_reads before service setting words privileged after :
    Forall (other_line setting) before → plain setting →
    Forall (λ l, other_line setting l ∧ HasPrefix (TrimSpace l) "[" = false) service →
    Forall (other_line setting) after → absolute words → Forall plain words →
    systemd_argv setting (unlines (before ++ "[Service]" :: service ++
      (setting +:+ "=" +:+ (if privileged : bool then "+" else "") +:+ Join words " ") :: after)) = words }.

(** What the hook's program prints for sshd, when it is the authorized-keys
    command; the files of a state directory and the sockets are named by the
    paths its flags give. *)
Definition authkeys_output `{JsonText, TimeFormat, Crypto} (dur_fraction : Z → Z → Z → Z)
    (sockets : string → nat → bytes → option bytes) (stores : string → error + gmap string bytes)
    (argv : list string) : option string :=
  match custosd_main dur_fraction (tail argv) with
  | CmdAuthkeys dir socket rest => Some (cmdAuthkeys (sockets socket) (stores dir) rest)
  | _ => None
  end.

(** ** The files as lines and words *)

Lemma dropInContent_lines binaryPath user stateDir socket :
  dropInContent binaryPath user stateDir socket = unlines (["# Managed by custos. Do not edit."] ++
    ["AuthorizedKeysCommand " +:+
     Join [binaryPath; "authkeys"; "--dir"; stateDir; "--socket"; socket; "%u"; "%t"; "%k"] " ";
     "AuthorizedKeysCommandUser " +:+ user]).
Proof.
  unfold dropInContent, unlines. simpl. rewrite !string_app_assoc. simpl. do 3 f_equal.
Qed.

Definition unit_head : list string :=
  ["[Unit]"; "Description=custos daemon"; "After=network-online.target"; "Wants=network-online.target"; ""].
Definition unit_service : list string :=
  ["Type=simple"; "User=custos"; "Group=custos"; "RuntimeDirectory=custos";
   "# '+' runs this as root even though the service is User=custos: it swaps in a";
   "# daemon-staged binary before start. No-op when nothing is staged."].
Definition unit_tail : list string :=
  ["Restart=always"; "RestartSec=5"; ""; "[Install]"; "WantedBy=multi-user.target"].
Definition start_pre : list string := ["/usr/local/bin/custosd"; "apply-update"; "--dir"; "/var/lib/custos"].
Definition start : list string :=
  ["/usr/local/bin/custosd"; "run"; "--dir"; "/var/lib/custos"; "--socket"; "/run/custos/custosd.sock";
   "--secret-socket"; "/run/custos/secrets.sock"].

Lemma systemdUnit_lines :
  systemdUnit = unlines (unit_head ++ "[Service]" :: unit_service ++
    ("ExecStartPre=+" +:+ Join start_pre " ") :: ("ExecStart=" +:+ Join start " ") :: unit_tail).
Proof. reflexivity. Qed.

Section logins.
Context `{JsonText, !JsonTextLaws, TimeFormat, Crypto, Disk, HostPrograms, !HostProgramsLaws}.
Context (dur_fraction : Z → Z → Z → Z).

Lemma start_pre_argv : systemd_argv "ExecStartPre" systemdUnit = start_pre.
Proof.
  rewrite systemdUnit_lines.
  apply (systemd_reads unit_head unit_service "ExecStartPre" start_pre true);
    try reflexivity; apply (bool_decide_unpack _); vm_compute; exact I.
Qed.
Lemma start_argv : systemd_argv "ExecStart" systemdUnit = start.
Proof.
  rewrite systemdUnit_lines.
  pose proof (systemd_reads unit_head (unit_service ++ ["ExecStartPre=+" +:+ Join start_pre " "]) "ExecStart" start
    false unit_tail) as Hr.
  rewrite <-(assoc (++)) in Hr. apply Hr;
    try reflexivity; apply (bool_decide_unpack _); vm_compute; exact I.
Qed.

Lemma hook_argv sshUser user keyType keyBlob :
  plain sshUser → sshUser ≠ "none" →
  sshd_argv (dropInContent (pathString installBin) sshUser installStateDir installSocket) user keyType keyBlob =
  [pathString installBin; "authkeys"; "--dir"; installStateDir; "--socket"; installSocket; user; keyType; keyBlob].
Proof.
  intros Hu Hn. rewrite dropInContent_lines. rewrite sshd_reads; [reflexivity|..|exact Hu|exact Hn];
    try reflexivity; apply (bool_decide_unpack _); vm_compute; exact I.
Qed.

(** The hook asks about the user, type and key of the login. *)
Lemma authkeys_main dir socket user keyType keyBlob :
  HasPrefix user "-" = false →
  custosd_main dur_fraction ["authkeys"; "--dir"; dir; "--socket"; socket; user; keyType; keyBlob] =
  CmdAuthkeys dir socket [user; keyType; keyBlob].
Proof.
  intros Hu. change (authkeysFlags dur_fraction
    (long_flags [("dir", dir); ("socket", socket)] ++ [user; keyType; keyBlob]) =
    CmdAuthkeys dir socket [user; keyType; keyBlob]).
  unfold authkeysFlags, parsing. rewrite Parse_long_flags; [by rewrite Parse_plain|].
  repeat constructor; simpl; try (by eexists); apply (bool_decide_unpack _); vm_compute; exact I.
Qed.

(** C30: on an installed host logins are answered by the last snapshot.  After
    [custosd install] succeeded on a host whose calls and sshd work, whose sshd
    takes the drop-in (its sshd_config includes the directory and does not set
    the command itself), and with a plain user name for the hook, the binary is
    in place, systemd applies staged updates and runs the daemon on one
    state directory, and sshd runs the installed program's authorized-keys
    command on the same directory and on the socket the daemon serves.  So for
    a login with a user name that does not begin with a dash, once a snapshot
    was applied and written, what is printed for sshd is decided by the
    snapshot alone, whichever attempts to reach the daemon fail: the line of
    the key if the snapshot lists the key with the account, nothing otherwise. *)
Theorem installed_hosts_answer_logins `{SysEnv} self lookup sshUser bin s s' :
  no_sys_faults → sshd_valid → reload_works → takes_drop_in s → plain sshUser → sshUser ≠ "none" →
  fresh_temps s → data_at self s = Some bin →
  cmdInstall true (inr self) lookup sshUser s = (inr tt, s') →
  ∃ unit hook dir socket,
    data_at installBin s' = Some bin ∧ data_at installUnitPath s' = Some unit ∧ sys_sshd s' = Some hook ∧
    custosd_main dur_fraction (tail (systemd_argv "ExecStartPre" unit)) = CmdApplyUpdate dir ∧
    custosd_main dur_fraction (tail (systemd_argv "ExecStart" unit)) = CmdRun dir socket DefaultSecretSocket ∧
    ∀ snap seq c c' sockets stores user keyType keyBlob fp,
      0 ≤ seq < 2 ^ 64 → Forall (λ e, entry_valid e = true ∧ one_line e) (Snapshot_Entries snap) →
      ApplySnapshot snap seq c = (inr tt, c') →
      stores dir = inr (cl_disk c') → answers (cl_cache c') (sockets socket) →
      SshKey.Fingerprint keyBlob = inr fp → tab ∉ explode fp → lf ∉ explode fp → lf ∉ explode user →
      HasPrefix user "-" = false →
      head (sshd_argv hook user keyType keyBlob) = Some (pathString installBin) ∧
      authkeys_output dur_fraction sockets stores (sshd_argv hook user keyType keyBlob) =
        Some match index_entries (Snapshot_Entries snap) !! fp with
             | Some e => if decide (user ∈ AccessEntry_Accounts e) then line_of e +:+ newline else ""
             | None => ""
             end.
Proof.
  intros Hf Hv Hr Htk Hsu Hsn Hn Hb Hrun.
  pose proof (wp_cmdInstall self lookup sshUser bin s Hf Hv Hr Htk Hn Hb) as Hwp.
  unfold wp in Hwp. rewrite Hrun in Hwp. destruct Hwp as [Hbin Hunit Hhook].
  exists systemdUnit, (dropInContent (pathString installBin) sshUser installStateDir installSocket),
    installStateDir, installSocket.
  rewrite start_pre_argv, start_argv. split_and!; try done.
  intros snap seq c c' sockets stores user keyType keyBlob fp Hs He Ha Hst Hans Hfp Ht Hl Hl' Hu.
  rewrite hook_argv by done. split; [done|]. unfold authkeys_output. cbn [tail]. rewrite (authkeys_main _ _ _ _ _ Hu), Hst.
  f_equal. by apply (logins_are_answered_without_the_daemon snap seq c c' (sockets installSocket) user keyType keyBlob fp).
Qed.
End logins.

(** ** Witness: programs that satisfy the laws *)

Lemma unlines_cons l ls : unlines (l :: ls) = l +:+ String lf (unlines ls).
Proof.
  unfold unlines. simpl. destruct ls; simpl.
  - done.
  - by rewrite string_app_assoc.
Qed.
Lemma Split_unlines ls rest :
  Forall (λ l, lf ∉ explode l) ls → Split (unlines (ls ++ rest)) lf = ls ++ Split (unlines rest) lf.
Proof.
  induction 1 as [|l ls Hl _ IH]; [done|]. simpl. rewrite unlines_cons, Split_cons by done. by rewrite IH.
Qed.
Lemma Split_Join words :
  words ≠ [] → Forall (λ w, " "%char ∉ explode w) words → Split (Join words " ") " " = words.
Proof.
  intros Hne Hall. induction Hall as [|w ws Hw Hall IH]; [done|]. destruct ws as [|w' ws]; [by apply Split_one|].
  change (Join (w :: w' :: ws) " ") with (w +:+ String " " (Join (w' :: ws) " ")).
  rewrite Split_cons by done. by rewrite IH.
Qed.
Lemma Join_no_lf words : Forall (λ w, lf ∉ explode w) words → lf ∉ explode (Join words " ").
Proof.
  induction 1 as [|w ws Hw Hall IH]; [apply not_elem_of_nil|]. destruct ws as [|w' ws]; [done|].
  change (Join (w :: w' :: ws) " ") with (w +:+ String " " (Join (w' :: ws) " ")).
  rewrite explode_app, not_elem_of_app. split; [done|]. simpl. by rewrite not_elem_of_cons.
Qed.
Lemma plain_without c w : plain_char c = false → plain w → c ∉ explode w.
Proof. intros Hc [_ Hw] Hin. rewrite Forall_forall in Hw. by rewrite (Hw c Hin) in Hc. Qed.

Definition first_with (p : string) (lines : list string) : option string := head (omap (λ l, CutPrefix l p) lines).
Lemma first_with_skip p pre l rest r :
  Forall (λ x, HasPrefix x p = false) pre → CutPrefix l p = Some r → first_with p (pre ++ l :: rest) = Some r.
Proof.
  unfold first_with. intros Hpre Hl. induction Hpre as [|x pre Hx _ IH]; simpl; [by rewrite Hl|].
  unfold HasPrefix in Hx. destruct (CutPrefix x p); [done|]. apply IH.
Qed.

Definition toy_sshd (content : bytes) (user keyType keyBlob : string) : list string :=
  match first_with "AuthorizedKeysCommand " (Split content lf) with
  | Some r => expand user keyType keyBlob <$> Split r " "
  | None => []
  end.
Definition first_assigned (setting : string) (lines : list string) : option string :=
  head (omap (λ l, match Cut "=" l with
                   | Some (name, v) => if decide (TrimSpace name = setting) then Some v else None
                   | None => None
                   end) lines).
Definition toy_systemd (setting : string) (content : bytes) : list string :=
  match first_assigned setting (Split content lf) with
  | Some r => Split (default r (CutPrefix r "+")) " "
  | None => []
  end.
#[local] Instance toy_programs : HostPrograms := {| sshd_argv := toy_sshd; systemd_argv := toy_systemd |}.

Lemma token_without c w : plain_char c = false → c ∉ explode "%utk" → plain w ∨ w ∈ ["%u"; "%t"; "%k"] → c ∉ explode w.
Proof.
  intros Hc Ht [Hp|Hw]; [by apply plain_without|]. simpl in Ht. rewrite !not_elem_of_cons in Ht.
  destruct Ht as (Hp & Hu & Htt & Hk & _).
  repeat (apply elem_of_cons in Hw as [->|Hw]); [..|by apply elem_of_nil in Hw]; simpl;
    rewrite !not_elem_of_cons; auto using not_elem_of_nil.
Qed.

Lemma toy_sshd_reads pre words as_user user keyType keyBlob :
  Forall (λ l, HasPrefix l "#" = true ∧ lf ∉ explode l) pre → absolute words →
  Forall (λ w, plain w ∨ w ∈ ["%u"; "%t"; "%k"]) words → plain as_user → as_user ≠ "none" →
  toy_sshd (unlines (pre ++ ["AuthorizedKeysCommand " +:+ Join words " ";
                             "AuthorizedKeysCommandUser " +:+ as_user])) user keyType keyBlob =
    expand user keyType keyBlob <$> words.
Proof.
  intros Hpre Hab Hw _ _. assert (words ≠ []) as Hne by (by destruct words). unfold toy_sshd.
  assert (Forall (λ w, lf ∉ explode w) words ∧ Forall (λ w, " "%char ∉ explode w) words) as [Hlf Hsp].
  { split; (eapply Forall_impl; [exact Hw|]); intros w; (apply token_without; [reflexivity|]);
      apply (bool_decide_unpack _); vm_compute; exact I. }
  rewrite Split_unlines by (eapply Forall_impl; [exact Hpre|]; by intros l [_ ?]).
  rewrite unlines_cons, Split_cons.
  - rewrite (first_with_skip _ _ _ _ (Join words " ")); [by rewrite Split_Join| |apply CutPrefix_app].
    eapply Forall_impl; [exact Hpre|]. intros l [Hl _]. unfold HasPrefix in *. destruct l as [|c l]; [done|].
    cbn [CutPrefix] in Hl. destruct (Ascii.eqb_spec "#" c) as [<-|]; [reflexivity|discriminate].
  - rewrite explode_app, not_elem_of_app. split; [|by apply Join_no_lf].
    apply (bool_decide_unpack _); vm_compute; exact I.
Qed.

(** A plain name is not trimmed. *)
Lemma plain_not_space c l : plain_char c = true → space_width (c :: l) = 0%nat.
Proof. destruct c as [[] [] [] [] [] [] [] []]; intros Hc; (discriminate Hc || reflexivity). Qed.
Lemma TrimSpace_plain w : plain w → TrimSpace w = w.
Proof.
  intros [_ Hw]. unfold TrimSpace.
  assert (trim_start 0 (explode w) = explode w) as ->.
  { destruct Hw as [|c l Hc _]; [done|]. cbn [trim_start]. by rewrite plain_not_space. }
  rewrite <-(implode_explode w) at 2. f_equal.
  induction Hw as [|c l Hc _ IH]; [done|]. cbn [trim_end]. by rewrite plain_not_space, IH.
Qed.

Lemma first_assigned_skip setting pre v rest :
  plain setting → Forall (other_line setting) pre →
  first_assigned setting (pre ++ (setting +:+ "=" +:+ v) :: rest) = Some v.
Proof.
  intros Hp Hpre. unfold first_assigned. induction Hpre as [|x pre Hx _ IH]; simpl.
  - change (setting +:+ "=" +:+ v) with (setting +:+ String "=" v).
    rewrite Cut_app by by apply plain_without. by rewrite TrimSpace_plain, decide_True.
  - destruct Hx as (_ & _ & Hx). destruct (Cut "=" x) as [[name y]|]; [|done]. by rewrite decide_False.
Qed.

Lemma toy_systemd_reads before service setting words (privileged : bool) after :
  Forall (other_line setting) before → plain setting →
  Forall (λ l, other_line setting l ∧ HasPrefix (TrimSpace l) "[" = false) service →
  Forall (other_line setting) after → absolute words → Forall plain words →
  toy_systemd setting (unlines (before ++ "[Service]" :: service ++
    (setting +:+ "=" +:+ (if privileged then "+" else "") +:+ Join words " ") :: after)) = words.
Proof.
  intros Hb Hset Hs _ Hab Hw. assert (words ≠ []) as Hne by (by destruct words). unfold toy_systemd.
  assert (Forall (λ w, lf ∉ explode w) words ∧ Forall (λ w, " "%char ∉ explode w) words) as [Hlf Hsp].
  { split; (eapply Forall_impl; [exact Hw|]); intros w; by apply plain_without. }
  set (pre := before ++ "[Service]" :: service).
  assert (Forall (other_line setting) pre) as Hpre.
  { apply Forall_app. split; [done|]. constructor.
    - split_and!; [apply (bool_decide_unpack _); vm_compute; exact I..|done].
    - eapply Forall_impl; [exact Hs|]. by intros l [? _]. }
  replace (before ++ _) with (pre ++ (setting +:+ "=" +:+ (if privileged then "+" else "") +:+ Join words " ") :: after)
    by (unfold pre; by rewrite <-(assoc (++))).
  rewrite Split_unlines by (eapply Forall_impl; [exact Hpre|]; by intros l [? _]).
  rewrite unlines_cons, Split_cons.
  - rewrite first_assigned_skip by done.
    destruct privileged; [rewrite CutPrefix_app; by apply Split_Join|].
    change ("" +:+ Join words " ") with (Join words " ").
    destruct words as [|[|c w] ws]; [done|done|]. unfold absolute, HasPrefix in Hab. cbn [CutPrefix] in Hab.
    destruct (Ascii.eqb_spec "/" c) as [<-|]; [|done].
    assert (CutPrefix (Join (String "/" w :: ws) " ") "+" = None) as -> by (by destruct ws).
    by apply Split_Join.
  - rewrite !explode_app, !not_elem_of_app. split_and!; [by apply plain_without| | |by apply Join_no_lf].
    + apply (bool_decide_unpack _); vm_compute; exact I.
    + destruct privileged; apply (bool_decide_unpack _); vm_compute; exact I.
Qed.
#[local] Instance toy_programs_laws : HostProgramsLaws.
Proof. constructor; [exact toy_sshd_reads|exact toy_systemd_reads]. Qed.

(** A host on which every call works, with Debian's sshd_config. *)
Definition sshd_config : Path := (sshDir, "sshd_config").
Definition debian_config : bytes := "Include /etc/ssh/sshd_config.d/*.conf" +:+ newline +:+ "UsePAM yes" +:+ newline.
#[local] Instance sound_host : SysEnv := {|
  sys_fault _ := None; sys_cut _ := 0%nat; sys_temp _ := "1"; sys_exec _ _ _ := inr "";
  sys_takes m := match m !! sshd_config with Some f => includes (f_data f) | None => false end |}.
Definition unpacked : Path := ("/tmp", "custosd").
Definition bare_host : Sys :=
  {| sys_files := {[unpacked := {| f_data := "ELF"; f_mode := mode_0755 |};
                    sshd_config := {| f_data := debian_config; f_mode := mode_0644 |}]};
     sys_sshd := None; sys_tick := 0 |}.
Definition after_install : Sys := (cmdInstall true (inr unpacked) (λ _, inr tt) installUser bare_host).2.

Lemma installed_hosts_answer_logins_witness :
  ∃ hook, sys_sshd after_install = Some hook ∧
    authkeys_output (λ _ _ _, 0)
      (λ path, if decide (path = installSocket) then late_socket (cl_cache aaaa_client) else λ _ _, None)
      (λ dir, if decide (dir = installStateDir) then inr (cl_disk aaaa_client) else inl ErrNotExist)
      (sshd_argv hook "deploy" "ssh-ed25519" "AAAA") = Some ("ssh-ed25519 AAAA" +:+ newline).
Proof.
  destruct (installed_hosts_answer_logins (λ _ _ _, 0) unpacked (λ _, inr tt) installUser "ELF" bare_host
    after_install) as (unit & hook & dir & socket & _ & Hunit & Hhook & _ & Hrun & Hlogin).
  - intros t. reflexivity.
  - intros t m. exists "". reflexivity.
  - intros t m. exists "". reflexivity.
  - intros m Hm. unfold sys_takes, sound_host. rewrite (Hm sshd_config).
    + vm_compute. reflexivity.
    + left. reflexivity.
    + intros [[x Hx]|Hx]; discriminate Hx.
  - apply (bool_decide_unpack _). vm_compute. exact I.
  - discriminate.
  - intros t. vm_compute. reflexivity.
  - vm_compute. reflexivity.
  - vm_compute. reflexivity.
  - exists hook. split; [exact Hhook|]. vm_compute in Hunit. injection Hunit as <-.
    vm_compute in Hrun. injection Hrun as <- <-.
    destruct (Hlogin aaaa_snapshot 3 (demo_client 2) aaaa_client
      (λ path, if decide (path = installSocket) then late_socket (cl_cache aaaa_client) else λ _ _, None)
      (λ dir, if decide (dir = installStateDir) then inr (cl_disk aaaa_client) else inl ErrNotExist)
      "deploy" "ssh-ed25519" "AAAA" aaaa_fingerprint) as [_ Hout].
    + clear. split; [discriminate|reflexivity].
    + apply (bool_decide_unpack _). vm_compute. exact I.
    + apply injective_projections; [vm_compute; reflexivity|reflexivity].
    + reflexivity.
    + intros [|[|k]] q; [left; reflexivity|right; exists 0; reflexivity|left; reflexivity].
    + vm_compute. reflexivity.
    + apply (bool_decide_unpack _). vm_compute. exact I.
    + apply (bool_decide_unpack _). vm_compute. exact I.
    + apply (bool_decide_unpack _). vm_compute. exact I.
    + reflexivity.
    + rewrite Hout. vm_compute. reflexivity.
Defined.
