(* ===== verification/SystemProps.v ===== *)
(** Properties of every run of the control plane, over any number of requests
    and daemon connections, in any order, under any pattern of database
    faults and of commits by others in between ([OthersEvolve]). *)
From S2P Require Import Prelude Text Base64 Json Protocol Crypto Schema Evolve QUsers QAccess QSecrets World Http Perms Grants Accounts Hosts Sets Upgrades Link Router Runs Demo Scenario.

(** ** Lemmas *)

(** A row that is kept is found again by its key. *)
Lemma rows_le_key {A K} (le : A → A → Prop) (key : A → K) l l' x y :
  rows_le le l l' → (∀ a b, le a b → key a = key b) → NoDup (key <$> l') →
  x ∈ l → y ∈ l' → key x = key y → le x y.
Proof.
  intros Hle Hkey Hnd Hx Hy Hk. destruct (Hle x Hx) as (z & Hz & Hxz).
  assert (z = y) as ->; [|done].
  eapply (unique_key key l'); eauto. by rewrite <-(Hkey x z).
Qed.

Section lemmas.
Context `{Platform, !OthersEvolve} (s : Server) (http_get : nat → string → error + (Z * bytes)).

Lemma cp_steps_evolves w w' :
  w_tx w = None → cp_steps s http_get w w' → evolves (w_db w) (w_db w').
Proof. intros Hx Hs. eapply effect_committed; [apply _|apply others_evolve|done|by eapply cp_steps_effect]. Qed.

Lemma cp_steps_wf w w' :
  w_tx w = None → db_wf (w_db w) → cp_steps s http_get w w' → db_wf (w_db w').
Proof. intros Hx Hwf Hs. eapply ev_wf; [by eapply cp_steps_evolves|done]. Qed.

(** A query on the pool sees what others committed before it. *)
Lemma pool_inr_others {A} (q : Query A) w a w' :
  pool q w = (inr a, w') →
  ∃ w0 d, q (env_now (w_tick w0)) (env_uuid (w_tick w0)) (w_db w0) = inr (a, d) ∧
    evolves (w_db w) (w_db w0) ∧ w_tx w0 = w_tx w ∧ w' = with_db d (step w0).
Proof.
  unfold pool. destruct (q _ _ _) as [e'|[b d]] eqn:Hq, (env_fault _); intros Hr; simplify_eq.
  exists (catch_up w), d. split; [done|]. unfold catch_up. destruct (env_others _) as [f|] eqn:Hf; [|done].
  pose proof (others_evolve _ _ (w_db w) (w_hub w) Hf) as Hev. by destruct (f _ _).
Qed.

(** The number a signed snapshot carries: one more than the host's counter,
    which it advances. *)
Lemma snapshotEnvelope_seq hostID snap w env w' kp :
  db_wf (w_db w) → signer s = Some kp → snapshotEnvelope s hostID snap w = (inr env, w') →
  ∃ d h h', evolves (w_db w) d ∧ h ∈ hosts d ∧ h' ∈ hosts (w_db w') ∧
    Host_ID h = hostID ∧ Host_ID h' = hostID ∧
    Envelope_Seq env = Host_LastSeq h + 1 ∧ Host_LastSeq h' = Envelope_Seq env ∧
    w_tx w' = w_tx w ∧ db_wf (w_db w').
Proof.
  intros Hwf Hs. unfold snapshotEnvelope. rewrite Hs. intros Hrun. invert_run Hrun.
  apply pool_inr_others in Hrun0 as (wc & d & Hq & Hev0 & Hx0 & ->). apply (ev_wf _ _ Hev0) in Hwf.
  pose proof (NextHostSeq_ev _ _ _ _ _ _ Hq) as Hev. invert_query Hq.
  apply first_row_Some in Hq as [Hin Hid]. rename row into host.
  assert (Hok : host_seq_ok host).
  { pose proof (wf_host_seq _ Hwf) as Hf. rewrite Forall_forall in Hf. auto. }
  rewrite Forall_forall in Hc. specialize (Hc host Hin Hid).
  assert (to_uint64 (Host_LastSeq host + 1) = Host_LastSeq host + 1) as ->.
  { unfold to_uint64. apply Z.mod_small. unfold host_seq_ok, int64_max in *. lia. }
  exists (w_db wc), host, (set_Host_LastSeq (Host_LastSeq host + 1) host).
  split_and!; try done; [|by apply Hev]. simpl. apply elem_of_update_where.
  exists host. split; [done|]. by rewrite decide_True.
Qed.
End lemmas.

(** ** Claims *)

Section claims.
Context `{Platform, !OthersEvolve} (s : Server) (http_get : nat → string → error + (Z * bytes)).

(** C4: whatever requests and daemon connections the server handles, and
    whatever database calls fail, every key, unique, check and foreign-key
    constraint of the schema holds in the committed database (one active host
    per machine, one login per address, one set per name, no dangling reference,
    on a nullable column neither, ...), no handler leaves a
    transaction open, and the hub's queues stay within their capacity with a
    channel behind every registered connection. *)
Theorem reachable_states_are_sound d w :
  db_wf d → cp_steps s http_get (initial_world d) w →
  db_wf (w_db w) ∧ w_tx w = None ∧ hub_wf (w_hub w).
Proof.
  intros Hwf Hs. split_and!.
  - by eapply (cp_steps_wf s http_get (initial_world d)).
  - apply cp_steps_effect in Hs as [_ _ Htx _ _]. by apply Htx.
  - apply cp_steps_effect in Hs as [_ _ _ Hh _]. apply Hh; [exact others_hub_wf|apply newHub_wf].
Qed.

(** C35: the snapshots signed for a host carry strictly increasing numbers,
    whatever happens between two of them; a daemon that drops every number
    it has seen therefore never drops a newer snapshot of its host, and no
    number wraps around. *)
Theorem snapshot_numbers_strictly_increase hostID snap1 snap2 w env1 w1 w2 env2 w3 kp :
  w_tx w = None → db_wf (w_db w) → signer s = Some kp →
  snapshotEnvelope s hostID snap1 w = (inr env1, w1) →
  cp_steps s http_get w1 w2 →
  snapshotEnvelope s hostID snap2 w2 = (inr env2, w3) →
  0 < Envelope_Seq env1 < Envelope_Seq env2 ∧ Envelope_Seq env2 < 2 ^ 64.
Proof.
  intros Hx Hwf Hsig H1 Hs H2.
  destruct (snapshotEnvelope_seq s _ _ _ _ _ _ Hwf Hsig H1)
    as (d1 & h & h' & Hev1 & Hh & Hh' & Hid & Hid' & Hs1 & Hs1' & Hx1 & Hwf1).
  assert (evolves (w_db w1) (w_db w2)) as Hev
    by (eapply cp_steps_evolves; [by rewrite Hx1|exact Hs]).
  destruct (snapshotEnvelope_seq s _ _ _ _ _ _ (ev_wf _ _ Hev Hwf1) Hsig H2)
    as (d2 & k & k' & Hev2 & Hk & Hk' & Hkid & Hkid' & Hs2 & Hs2' & _ & Hwf3).
  apply (transitivity Hev) in Hev2. pose proof (ev_wf _ _ Hev2 Hwf1) as Hwf2.
  assert (host_le h' k) as Hle.
  { eapply (rows_le_key host_le Host_ID); [apply Hev2| |apply Hwf2|done|done|congruence].
    unfold_le. tauto. }
  pose proof (wf_host_seq _ (ev_wf _ _ Hev1 Hwf)) as F1. rewrite Forall_forall in F1. apply F1 in Hh.
  pose proof (wf_host_seq _ Hwf3) as F2. rewrite Forall_forall in F2. apply F2 in Hk'.
  unfold host_seq_ok, int64_max in *. unfold_le. lia.
Qed.

(** When a host reconnects, the cleanup of its old connection does not
    evict the new one, and a message pushed to the host is queued on the new
    connection and on no other. *)
Theorem pushes_reach_the_current_connection hostID old c h h' env :
  hub_wf h → is_Some (chans h !! old) → make_chan h = (c, h') →
  let h2 := unregister hostID old (register hostID c h') in
  conns h2 !! hostID = Some c ∧ chans (push hostID env h2) !! c = Some [env] ∧
  ∀ c', c' ≠ c → chans (push hostID env h2) !! c' = chans h !! c'.
Proof.
  intros (_ & _ & Hlt) Hold [= <- <-] h2. pose proof (Hlt old Hold) as Hne.
  assert (conns h2 !! hostID = Some (next_chan h)) as Hc.
  { apply unregister_other; [apply lookup_insert_eq|]. right. lia. }
  assert (chans h2 = <[next_chan h := []]> (chans h)) as Hch.
  { unfold h2, unregister. by case_decide. }
  split; [done|]. unfold push, try_send. rewrite Hc, Hch, lookup_insert_eq.
  rewrite decide_True by (vm_compute; lia). simpl. split; [apply lookup_insert_eq|].
  intros c' Hc'. by rewrite !lookup_insert_ne by done.
Qed.
End claims.

(** ** Witnesses *)

(** The admin revokes alice's access to the host's group, then suspends her. *)
Definition demo_revoked : World :=
  (serve (route demo_server demo_get (Admin DeleteGrant)
            (demo_request "admintoken" [("id", uuidString 11%N)] JNull)) demo_world).2.
Definition demo_suspended : World :=
  (serve (route demo_server demo_get (Admin PostUserSuspend)
            (demo_request "admintoken" [("id", uuidString alice_id)] JNull)) demo_revoked).2.

Lemma demo_revoked_steps : cp_steps demo_server demo_get demo_world demo_revoked.
Proof. apply rtc_once, step_request. Qed.
Lemma demo_suspended_steps : cp_steps demo_server demo_get demo_revoked demo_suspended.
Proof. apply rtc_once, step_request. Qed.

Lemma demo_revoked_wf : db_wf (w_db demo_revoked).
Proof.
  eapply (cp_steps_wf demo_server demo_get demo_world);
    [reflexivity | exact demo_db_wf | exact demo_revoked_steps].
Qed.

Lemma reachable_states_are_sound_witness :
  db_wf (w_db demo_suspended) ∧ w_tx demo_suspended = None ∧ hub_wf (w_hub demo_suspended).
Proof.
  apply (reachable_states_are_sound demo_server demo_get demo_db); [exact demo_db_wf|].
  etransitivity; [exact demo_revoked_steps | exact demo_suspended_steps].
Defined.

Definition demo_snap : Snapshot := {| Snapshot_Entries := [] |}.
Definition demo_signed (w : World) : (error + Envelope) * World :=
  snapshotEnvelope demo_server host_id demo_snap w.

Lemma snapshot_numbers_strictly_increase_witness :
  ∃ env1 env2, (demo_signed demo_revoked).1 = inr env1 ∧
    (demo_signed (demo_signed demo_revoked).2).1 = inr env2 ∧ Envelope_Seq env1 = 4 ∧
    Envelope_Seq env1 < Envelope_Seq env2.
Proof.
  destruct (demo_signed demo_revoked) as [[e|env1] w1] eqn:H1; [vm_compute in H1; discriminate H1|].
  destruct (demo_signed w1) as [[e|env2] w2] eqn:H2.
  { exfalso. vm_compute in H1. injection H1 as _ <-. vm_compute in H2. discriminate H2. }
  exists env1, env2. split_and!; [done|simpl; by rewrite H2| |].
  - vm_compute in H1. injection H1 as <- _. reflexivity.
  - eapply (snapshot_numbers_strictly_increase demo_server demo_get host_id demo_snap demo_snap
              demo_revoked env1 w1 w1 env2 w2 demo_kp).
    + vm_compute. reflexivity.
    + exact demo_revoked_wf.
    + vm_compute. reflexivity.
    + exact H1.
    + apply rtc_refl.
    + exact H2.
Defined.

Lemma pushes_reach_the_current_connection_witness :
  let h0 := register "web" 0 (make_chan newHub).2 in
  let h1 := register "web" 1 (make_chan h0).2 in
  conns (unregister "web" 0 h1) !! "web" = Some 1%nat.
Proof.
  intros h0 h1.
  apply (pushes_reach_the_current_connection "web" 0 1 h0 (make_chan h0).2
           (NewEnvelope TypePing None)).
  - apply (register_make_chan_wf "web" newHub); [reflexivity|]. apply newHub_wf.
  - vm_compute. eexists. reflexivity.
  - reflexivity.
Defined.
