(* ===== verification/AccessProps.v ===== *)
(** Who may do what: the permission checks decide the specification [holds],
    and every route refuses, without any effect, a caller its session or its
    grants do not allow. *)
From S2P Require Import Prelude Text Base64 Json Protocol Crypto Schema Evolve QUsers QAccess QSecrets World Http Perms Grants Accounts Auth Secrets Hosts Sets Groups Upgrades Link Router Runs Demo Scenario.

(** ** Lemmas *)

Lemma host_known i : target_known (TResource "host" i).
Proof. apply (bool_decide_unpack ("host" ∈ resource_kinds)). exact I. Qed.
Lemma secret_known i : target_known (TResource "secret" i).
Proof. apply (bool_decide_unpack ("secret" ∈ resource_kinds)). exact I. Qed.
Lemma set_known i : target_known (TResource "set" i).
Proof. apply (bool_decide_unpack ("set" ∈ resource_kinds)). exact I. Qed.

Section lemmas.
Context `{Platform, !Alone} (s : Server) (http_get : nat → string → error + (Z * bytes)).

(** A run that stopped with an error response and changed nothing. *)
Definition refused (x : (Response + Response) * World) (w : World) : Prop :=
  ∃ r w', x = (inl r, w') ∧ error_status r ∧ quiet w w'.

Lemma refused_serve h w : refused (h w) w →
  400 ≤ resp_status (serve h w).1 ∧ quiet w (serve h w).2.
Proof. intros (r & w' & Hr & He & Hq). unfold serve. by rewrite Hr. Qed.

(** A handler is refused if it is from the state a quiet step leaves. *)
Lemma refused_bind {A} (m : M World Response A) k w :
  (match m w with
   | (inl r, w') => error_status r ∧ quiet w w'
   | (inr a, w') => quiet w w' ∧ refused (k a w') w'
   end) → refused (bind m k w) w.
Proof.
  unfold bind. destruct (m w) as [[r|a] w1].
  - intros [? ?]. by exists r, w1.
  - intros (Hq & r & w' & Hr & He & Hq'). exists r, w'. split_and!; [done|done|by etransitivity].
Qed.

Lemma refused_orFail {A} (o : option A) r k w :
  error_status r → (∀ a, o = Some a → refused (k a w) w) → refused (bind (orFail o r) k w) w.
Proof.
  intros He Hk. apply refused_bind. unfold orFail. destruct o as [a|]; simpl; [|done].
  split; [done|by apply Hk].
Qed.
Lemma refused_require b r k w :
  error_status r → (b = true → refused (k tt w) w) → refused (bind (require b r) k w) w.
Proof.
  intros He Hk. apply refused_bind. unfold require. destruct b; simpl; [|done].
  split; [done|by apply Hk].
Qed.

(** A failing check: its answer is [false], whatever the database does. *)
Lemma can_refuses {E} a p t w :
  target_known t → ¬ authorized (w_db w) a p t →
  ∃ w', (can a p t : M World E bool) w = (inr false, w') ∧ quiet w w'.
Proof.
  intros Hk Hn. destruct (can_ok (E:=E) a p t w Hk) as (b & w' & [Hrun Hf Hs _]).
  destruct b; [by destruct (Hn (Hs eq_refl))|]. by exists w'.
Qed.

Lemma refused_can (c : M World Response bool) a p t k w :
  c = can a p t → target_known t → ¬ authorized (w_db w) a p t →
  (∀ w', refused (k false w') w') → refused (bind c k w) w.
Proof.
  intros -> Hk Hn Hf. apply refused_bind.
  destruct (can_refuses (E:=Response) a p t w Hk Hn) as (w' & -> & Hq). by split.
Qed.

Lemma can_quiet {E} a p t w b w' :
  target_known t → (can a p t : M World E bool) w = (inr b, w') →
  quiet w w' ∧ (b = true → authorized (w_db w) a p t).
Proof.
  intros Hk Hr. destruct (can_ok (E:=E) a p t w Hk) as (b' & w1 & [Hrun Hf Hs _]).
  rewrite Hr in Hrun. injection Hrun as -> ->.
  by split.
Qed.

Lemma canBind_refuses {E} a setID hostID w :
  ¬ (authorized (w_db w) a "set.read" (TResource "set" setID) ∧
     authorized (w_db w) a "host.access" (TResource "host" hostID)) →
  ∃ w', (canBind a setID hostID : M World E bool) w = (inr false, w') ∧ quiet w w'.
Proof.
  intros Hn. unfold canBind, bind.
  pose proof (set_known setID) as Kset. pose proof (host_known hostID) as Khost.
  destruct (can_ok (E:=E) a "set.read" (TResource "set" setID) w Kset) as (b & w1 & [Hrun _ _ _]).
  pose proof (can_quiet _ _ _ _ _ _ Kset Hrun) as [Hq Hb]. simpl in Hrun. rewrite Hrun.
  destruct b; [|by exists w1].
  destruct (can_refuses (E:=E) a "host.access" (TResource "host" hostID) w1 Khost)
    as (w2 & Hrun2 & Hq2).
  { rewrite (quiet_db _ _ Hq). intros Hh. apply Hn. auto. }
  exists w2. split; [exact Hrun2|by etransitivity].
Qed.

Lemma refused_canBind a setID hostID k w :
  ¬ (authorized (w_db w) a "set.read" (TResource "set" setID) ∧
     authorized (w_db w) a "host.access" (TResource "host" hostID)) →
  (∀ w', refused (k false w') w') → refused (bind (canBind a setID hostID) k w) w.
Proof.
  intros Hn Hf. apply refused_bind.
  destruct (canBind_refuses (E:=Response) a setID hostID w Hn) as (w' & -> & Hq). by split.
Qed.
End lemmas.

(** ** The permission a route checks *)

Definition on_resource `{Platform} (r : Request) (param kind : string) (p : string) :
    option (string * target) :=
  (λ i, (p, TResource kind i)) <$> parseUUID (URLParam r param).
Definition on_group `{Platform} (r : Request) (p : string) : option (string * target) :=
  (λ i, (p, TGroup i)) <$> parseUUID (URLParam r "id").

(** The permission and target a user route requires, for the routes that are
    not about the caller's own account.  The listings check nothing: they
    select the rows the caller may read. *)
Definition route_guard `{Platform} (u : UserRoute) (r : Request) : option (string * target) :=
  match u with
  | PostEnrollTokens => Some ("host.add", TGlobal)
  | PostSecrets => Some ("secret.add", TGlobal)
  | PostGroups => Some ("group.create", TGlobal)
  | PostSets => Some ("set.add", TGlobal)
  | GetSecret_ | GetSecretReveal | GetSecretAudit => on_resource r "id" "secret" "secret.read"
  | PutSecret => on_resource r "id" "secret" "secret.update"
  | DeleteSecret_ => on_resource r "id" "secret" "secret.delete"
  | GetGroupMembers | GetGroup_ => on_group r "group.read"
  | PutGroup | DeleteGroup_ | PostGroupResources | DeleteGroupResources =>
      on_group r "group.manage"
  | GetSet_ | GetSetHosts | GetSetAudit => on_resource r "id" "set" "set.read"
  | PutSet | DeleteSet_ | PutSetEntry | DeleteSetEntry_ => on_resource r "id" "set" "set.manage"
  | GetHost_ | GetHostAudit | PostHostRefresh | PostHostSets | DeleteHostSet =>
      on_resource r "id" "host" "host.access"
  | GetHostAccessAudit => on_resource r "id" "host" "host.audit"
  | PostHostRevoke => on_resource r "id" "host" "host.revoke"
  | PostHostUpgrade => on_resource r "id" "host" "host.upgrade"
  | GetMe | PatchMe | PostLogout | PostKeys | GetKeys | DeleteKey_
  | GetSecrets | GetGroups | GetGroupsForResource | GetSets | GetHosts => None
  end.

(** Follows a handler to the check that fails. *)
Ltac status_ok := unfold error_status; simpl; done.
Ltac known_target := first [exact I | apply host_known | apply secret_known | apply set_known].
Ltac refuse :=
  repeat first
    [ apply refused_orFail; [status_ok|intros ? ?]; simplify_eq
    | eapply refused_can; cycle 2;
        [eassumption | intros ? | reflexivity | known_target]
    | apply refused_canBind; [tauto|intros ?]
    | apply refused_require; [status_ok|intros ?] ];
  try done.

Section guards.
Context `{Platform, !Alone} (s : Server) (http_get : nat → string → error + (Z * bytes)).

Lemma on_resource_inv r param kind p p' t :
  on_resource r param kind p = Some (p', t) →
  ∃ i, parseUUID (URLParam r param) = Some i ∧ p' = p ∧ t = TResource kind i.
Proof. unfold on_resource. destruct (parseUUID _); simpl; [|done]. intros [= <- <-]. eauto. Qed.
Lemma on_group_inv r p p' t :
  on_group r p = Some (p', t) →
  ∃ i, parseUUID (URLParam r "id") = Some i ∧ p' = p ∧ t = TGroup i.
Proof. unfold on_group. destruct (parseUUID _); simpl; [|done]. intros [= <- <-]. eauto. Qed.

Lemma guard_refuses u auth r p t w :
  route_guard u r = Some (p, t) → ¬ authorized (w_db w) auth p t →
  refused (userRoutes s http_get u auth r w) w.
Proof.
  intros Hg Hn.
  destruct u; simpl in Hg; try done;
    try (apply on_resource_inv in Hg as (i & Hp & -> & ->));
    try (apply on_group_inv in Hg as (i & Hp & -> & ->)); simplify_eq;
    cbn [userRoutes];
    match goal with |- refused (?h ?x) _ => let hd := head_of h in unfold hd end;
    try unfold groupID_of, setID_of; cbv zeta; rewrite ?Hp; refuse.
  match goal with x : string * string |- _ => destruct x end. refuse.
Qed.

(** The binding routes also need authority over the set. *)
Lemma bind_refuses auth r hostID req setID w :
  parseUUID (URLParam r "id") = Some hostID →
  readRequest s bindSetRequest_of_json r = Some req → parseUUID req.1 = Some setID →
  ¬ authorized (w_db w) auth "set.read" (TResource "set" setID) →
  refused (userRoutes s http_get PostHostSets auth r w) w.
Proof.
  intros Hh Hr Hs Hn. cbn [userRoutes]. unfold handleBindSet. cbv zeta. rewrite Hh, Hr.
  destruct req as [set_id as_user]. simpl in Hs. refuse.
Qed.

(** A session row that satisfies [P] for the request's token, at the time of
    the lookup. *)
Definition has_session (P : GetAccessContextRow → Prop) (r : Request) (w : World) : Prop :=
  Exists P (access_contexts (env_now (w_tick w)) (HashToken (bearerToken r)) (w_db w)).
Definition active_session (row : GetAccessContextRow) : Prop :=
  GetAccessContextRow_Status row = "active".
Definition active_admin (row : GetAccessContextRow) : Prop :=
  GetAccessContextRow_Status row = "active" ∧ GetAccessContextRow_Role row = "admin".

(** The session lookup: it changes nothing, and the row it returns is one of
    the token's. *)
Lemma GetAccessContext_run token w r w' :
  pool (GetAccessContext token) w = (r, w') →
  quiet w w' ∧ ∀ row, r = inr row →
    row ∈ access_contexts (env_now (w_tick w)) token (w_db w).
Proof.
  intros Hr. assert (quiet w w') as Hq.
  { pose proof (pool_quiet (GetAccessContext token) ltac:(solve_reads) w) as Hq.
    by rewrite Hr in Hq. }
  split; [done|]. intros row ->. apply pool_inr in Hr as (_ & d & Hq' & _).
  unfold GetAccessContext in Hq'. apply select_one_inr in Hq' as [Hh _].
  destruct (access_contexts _ _ _); simplify_eq/=. constructor.
Qed.

Lemma requireAuth_refuses (P : GetAccessContextRow → Prop) next r w :
  ¬ has_session (λ row, active_session row ∧ P row) r w →
  (∀ row w', quiet w w' → row ∈ access_contexts (env_now (w_tick w)) (HashToken (bearerToken r)) (w_db w) →
     active_session row → ¬ P row →
     refused (next {| auth_SessionID := GetAccessContextRow_SessionID row;
                      auth_UserID := GetAccessContextRow_UserID row;
                      auth_Role := GetAccessContextRow_Role row;
                      auth_ClientPublicKey := GetAccessContextRow_ClientPublicKey row |} r w') w') →
  refused (requireAuth next r w) w.
Proof.
  intros Hn Hnext. unfold requireAuth. cbv zeta.
  apply refused_require; [status_ok|intros _].
  apply refused_bind. unfold onerr.
  destruct (pool (GetAccessContext (HashToken (bearerToken r))) w) as [x w1] eqn:Hp.
  destruct (GetAccessContext_run _ _ _ _ Hp) as [Hq Hrow].
  destruct x as [e|row]; [split; [status_ok|done]|].
  split; [done|]. specialize (Hrow row eq_refl).
  apply refused_require; [status_ok|]. intros Hact%bool_decide_eq_true.
  apply Hnext; [done..|]. intros HP. apply Hn. unfold has_session.
  apply list.Exists_exists. exists row. done.
Qed.
End guards.

(** ** Claims *)

Section claims.
Context `{Platform, !Alone} (s : Server) (http_get : nat → string → error + (Z * bytes)).

(** C9: each permission check of the handlers (on a global permission, a
    group, a host, a secret or a set) decides the specification: it changes
    nothing, answers yes only if the caller is an admin or holds the
    permission through a live grant on the target or on a group containing
    it, and answers yes whenever that is so and the database replies.  No other
    request commits meanwhile. *)
Theorem permission_checks_decide_holds a p t w :
  target_known t →
  ∃ b w', (can a p t : M World Response bool) w = (inr b, w') ∧ quiet w w' ∧
    (b = true → authorized (w_db w) a p t) ∧
    (env_fault (w_tick w) = NoFault → authorized (w_db w) a p t → b = true).
Proof.
  intros Hk. destruct (can_ok (E:=Response) a p t w Hk) as (b & w' & [Hrun Hf Hs Hc]).
  exists b, w'. split_and!; [done|by eapply can_quiet|done|done].
Qed.

(** A route refuses a request without the session it requires. *)
Lemma route_refuses e r w :
  (match e with
   | Public _ => False
   | User_ _ => ¬ has_session active_session r w
   | Admin _ => ¬ has_session active_admin r w
   end) → refused (route s http_get e r w) w.
Proof.
  intros He. destruct e as [p|u|a]; [done|..]; cbn [route].
  - apply (requireAuth_refuses (λ _, True)); [|tauto].
    contradict He. unfold has_session in *. eapply Exists_impl; [exact He|]. by intros row [].
  - apply (requireAuth_refuses (λ row, GetAccessContextRow_Role row = "admin")).
    { contradict He. exact He. }
    intros row w' Hq _ _ Hrole. apply refused_require; [status_ok|].
    by intros ?%bool_decide_eq_true.
Qed.

(** C10: a signed-in caller who is not an admin and does not hold the
    permission a route asks for gets an error and changes nothing, on every
    guarded route (creating, reading, changing or deleting secrets, groups,
    sets and hosts, enrolling, revoking, upgrading, binding), whatever the
    rest of the request says and whatever database calls fail.  No other
    request commits meanwhile. *)
Theorem guarded_routes_refuse_the_unauthorized u auth r p t w :
  route_guard u r = Some (p, t) → ¬ authorized (w_db w) auth p t →
  400 ≤ resp_status (serve (userRoutes s http_get u auth r) w).1 ∧
  quiet w (serve (userRoutes s http_get u auth r) w).2.
Proof. intros Hg Hn. apply refused_serve. by eapply guard_refuses. Qed.

(** Binding a set to a host takes authority over both ends: without
    [set.read] on the set the request is refused without effect, even when
    the caller has access to the host. *)
Theorem binding_needs_authority_over_the_set auth r hostID req setID w :
  parseUUID (URLParam r "id") = Some hostID →
  readRequest s bindSetRequest_of_json r = Some req → parseUUID req.1 = Some setID →
  ¬ authorized (w_db w) auth "set.read" (TResource "set" setID) →
  400 ≤ resp_status (serve (userRoutes s http_get PostHostSets auth r) w).1 ∧
  quiet w (serve (userRoutes s http_get PostHostSets auth r) w).2.
Proof. intros. apply refused_serve. by eapply bind_refuses. Qed.
End claims.

(** ** Witnesses *)

(** A non-admin of the scenario who does not hold a permission. *)
Ltac not_authorized :=
  let Hh := fresh "Hh" in
  intros [Hh|Hh]; [discriminate Hh|];
  first [apply holds_resource_iff in Hh | apply holds_group_iff in Hh | apply holds_global_iff in Hh];
  revert Hh; apply (bool_decide_unpack _); vm_compute; exact I.

Lemma permission_checks_decide_holds_witness :
  ∃ w', (can alice_auth "host.access" (TResource "host" host_id) : M World Response bool) demo_world
        = (inr true, w').
Proof.
  destruct (permission_checks_decide_holds alice_auth "host.access" (TResource "host" host_id)
              demo_world) as (b & w' & Hrun & _ & _ & Hc); [apply host_known|].
  exists w'. rewrite Hrun, Hc; [done|reflexivity|].
  right. apply holds_resource_iff. apply (bool_decide_unpack _). vm_compute. exact I.
Defined.

Lemma guarded_routes_refuse_the_unauthorized_witness :
  400 ≤ resp_status (serve (userRoutes demo_server demo_get GetSecretReveal alice_auth
                              (demo_request "" [("id", uuidString secret_id)] JNull)) demo_world).1.
Proof.
  apply (guarded_routes_refuse_the_unauthorized demo_server demo_get GetSecretReveal alice_auth
           (demo_request "" [("id", uuidString secret_id)] JNull)
           "secret.read" (TResource "secret" secret_id) demo_world).
  - vm_compute. reflexivity.
  - not_authorized.
Defined.

Lemma binding_needs_authority_over_the_set_witness :
  400 ≤ resp_status (serve (userRoutes demo_server demo_get PostHostSets alice_auth
     (demo_request "" [("id", uuidString host_id)] (JObj [("set_id", JStr (uuidString set_id))])))
     demo_world).1.
Proof.
  apply (binding_needs_authority_over_the_set demo_server demo_get alice_auth
     (demo_request "" [("id", uuidString host_id)] (JObj [("set_id", JStr (uuidString set_id))]))
     host_id (uuidString set_id, "") set_id demo_world).
  - vm_compute. reflexivity.
  - vm_compute. reflexivity.
  - vm_compute. reflexivity.
  - not_authorized.
Defined.
