(* ===== verification/Routing.v ===== *)
(** From a method and a path to a handler: the patterns registered in
    [Handler], [publicRoutes], [userRoutes] and [adminRoutes] of
    [internal/controlplane/server.go], each in front of its route of [Router],
    [/healthz] and [/daemon].  The public routes are behind the rate limiter of
    [RateLimit]; [/daemon] asks for no session: a websocket handshake there
    runs [Link.handleDaemon].

    The router is go-chi, a parameter: given the registered patterns it finds
    one that matches the request and the values of its parameters, and is
    assumed to find one if there is one.  As no two of the patterns overlap
    this leaves no choice. *)
From Stdlib Require Import Ascii.
From S2P Require Import Prelude Text Base64 Json Protocol Crypto Schema Evolve QUsers QAccess QSecrets World Http Perms Grants Accounts Auth Secrets Hosts Sets Groups Upgrades Listings Link Router RateLimit Demo Scenario AccessProps Runs.

(** ** server.go: the patterns *)

Inductive Target := Healthz | DaemonLink | Api (e : Route).
#[export] Instance PublicRoute_eq_dec : EqDecision PublicRoute.
Proof. solve_decision. Defined.
#[export] Instance UserRoute_eq_dec : EqDecision UserRoute.
Proof. solve_decision. Defined.
#[export] Instance AdminRoute_eq_dec : EqDecision AdminRoute.
Proof. solve_decision. Defined.
#[export] Instance Route_eq_dec : EqDecision Route.
Proof. solve_decision. Defined.
#[export] Instance Target_eq_dec : EqDecision Target.
Proof. solve_decision. Defined.

Abbreviation table := (list (string * string * Target)) (only parsing).






(** ** go-chi *)

(** [{name}] *)
Definition param_name (segment : string) : option string :=
  match segment with
  | String "{" rest => Some (TrimRight rest "}"%char)
  | _ => None
  end.

(** The segments of a path against those of a pattern: a parameter takes one
    segment, which is not empty at the end of the path.  The root of a mounted
    router is reached without and with its slash. *)
Fixpoint match_segments (pattern path : list string) : option (list (string * string)) :=
  match pattern, path with
  | [], [] => Some []
  | [""], [] => Some []
  | p :: pattern', x :: path' =>
      match param_name p with
      | Some name => if decide (x = "" ∧ path' = []) then None
                     else cons (name, x) <$> match_segments pattern' path'
      | None => if decide (p = x) then match_segments pattern' path' else None
      end
  | _, _ => None
  end.
Definition pattern_match (pattern path : string) : option (list (string * string)) :=
  match_segments (Split pattern "/") (Split path "/").

Class Chi := {
  (* the index of the pattern found, and the parameters *)
  chi_find : list (string * string) → string → string → option (nat * list (string * string));
  chi_miss : string → string → Response;       (* 404 or 405 *)
  cors_preflight : string → option Response;   (* of an OPTIONS request *)
  upgrade_refused : Response }.                (* [websocket.Accept] failed *)

(** The documented behaviour of chi and of [websocket.Accept]. *)
Class ChiLaws `{Chi} := {
  chi_found pats method path i ps :
    chi_find pats method path = Some (i, ps) →
    ∃ pattern, pats !! i = Some (method, pattern) ∧ pattern_match pattern path = Some ps;
  chi_finds pats method path i pattern ps :
    pats !! i = Some (method, pattern) → pattern_match pattern path = Some ps →
    is_Some (chi_find pats method path);
  chi_miss_status method path : 400 ≤ resp_status (chi_miss method path);
  upgrade_refused_status : 400 ≤ resp_status upgrade_refused }.

(** ** [Handler] *)


Section handler.
Context `{Platform, Chi, RateLib} (s : Server) (http_get : nat → string → error + (Z * bytes)).





End handler.

(** ** No two patterns overlap *)








Section dispatch.
Context `{Platform, !Alone, Chi, !ChiLaws, RateLib} (s : Server)
  (http_get : nat → string → error + (Z * bytes)).












End dispatch.

(** ** Witness: a router that takes the first pattern that matches *)

Definition toy_matches (method path : string) (x : nat * (string * string)) :
    option (nat * list (string * string)) :=
  if decide (x.2.1 = method) then pair x.1 <$> pattern_match x.2.2 path else None.
Definition toy_find (pats : list (string * string)) (method path : string) :
    option (nat * list (string * string)) :=
  head (omap (toy_matches method path) (imap pair pats)).
#[local] Instance toy_chi : Chi := {|
  chi_find := toy_find;
  chi_miss _ _ := httpError "404 page not found" StatusNotFound;
  cors_preflight _ := None;
  upgrade_refused := httpError "WebSocket protocol violation" 426 |}.
#[local] Instance toy_chi_laws : ChiLaws.
Proof.
  constructor; try done.
  - intros pats method path i ps Hf. simpl in Hf. unfold toy_find in Hf. apply head_Some_elem_of in Hf.
    apply list_elem_of_omap in Hf as ([j [m p]] & Hin & Hm). unfold toy_matches in Hm. simpl in Hm.
    case_decide; [|done]. apply fmap_Some in Hm as (qs & Hqs & ?). simplify_eq.
    apply list_elem_of_lookup in Hin as [k Hk]. rewrite list_lookup_imap in Hk.
    apply fmap_Some in Hk as (y & Hy & ?). simplify_eq. by exists p.
  - intros pats method path i pattern ps Hi Hm. simpl. unfold toy_find.
    assert ((i, ps) ∈ omap (toy_matches method path) (imap pair pats)) as Hin.
    { apply list_elem_of_omap. exists (i, (method, pattern)). split.
      - apply list_elem_of_lookup. exists i. by rewrite list_lookup_imap, Hi.
      - unfold toy_matches. simpl. by rewrite decide_True, Hm. }
    destruct (omap _ _); [by apply not_elem_of_nil in Hin|]. by eexists.
Qed.


