(* ===== verification/GrantProps.v ===== *)
(** Grants: a change is committed together with its audit record, and what a
    snapshot contains is exactly what the grants allow. *)
From S2P Require Import Prelude Text Base64 Json Protocol Crypto Schema Evolve QUsers QAccess QSecrets World Http Perms Grants Accounts Hosts Groups Runs Wp Demo Scenario.

(** ** Audited changes *)

(** The audit row that records [action] on grant [g] by [actor]. *)
Record records (action : string) (actor : uuid) (g : Grant) (a : GrantAuditLog) : Prop := {
  rec_action : GrantAuditLog_Action a = action;
  rec_grant : GrantAuditLog_GrantID a = Some (Grant_ID g);
  rec_actor : GrantAuditLog_ActorID a = Some actor;
  rec_subject : GrantAuditLog_SubjectID a = Some (Grant_UserID g);
  rec_permission : GrantAuditLog_Permission a = Grant_Permission g;
  rec_kind : GrantAuditLog_TargetKind a = Grant_TargetKind g;
  rec_target : GrantAuditLog_TargetID a = Grant_TargetID g }.

Definition logged (a : GrantAuditLog) (d : DB) : DB := on_grant_audit_logs (λ l, l ++ [a]) d.

Section lemmas.
Context `{Platform, !Alone} (s : Server).

(** The audit row is appended to the transaction's view. *)
Lemma wp_auditGrant action g actor d d' now h w Qe Qo :
  tx_at d d' now h w → (∀ e w1, committed d h w1 → Qe e w1) →
  (∀ a w1, records action actor g a → evolves d' (logged a d') → tx_at d (logged a d') now h w1 → Qo tt w1) →
  wp (auditGrant action g actor) w Qe Qo.
Proof.
  intros Hw He Ho. unfold auditGrant. wp_run; eauto.
  match goal with H : InsertGrantAudit _ _ _ _ _ _ _ _ _ _ _ _ = _ |- _ =>
    pose proof (InsertGrantAudit_ev _ _ _ _ _ _ _ _ _ _ _ _ _ _ H); invert_query H end.
  match goal with u : () |- _ => destruct u end. eapply Ho; [|eassumption..]. by split.
Qed.

Lemma CreateGrant_inr u p k t by_ now id d g d' :
  CreateGrant u p k t by_ now id d = inr (g, d') →
  (Grant_ID g ∉ Grant_ID <$> grants d) ∧ Grant_UserID g = u ∧ Grant_Permission g = p ∧ Grant_TargetKind g = k ∧
  Grant_TargetID g = t ∧ Grant_GrantedBy g = by_ ∧ live g ∧ d' = on_grants (λ l, l ++ [g]) d.
Proof. intros Hq. by invert_query Hq. Qed.

Lemma RevokeGrant_inr i now id d g' d' :
  RevokeGrant i now id d = inr (g', d') →
  ∃ g, g ∈ grants d ∧ Grant_ID g = i ∧ live g ∧ g' = set_Grant_RevokedAt (Some now) g ∧
    d' = on_grants (update_where (λ g, Grant_ID g = i ∧ live g) (set_Grant_RevokedAt (Some now))) d.
Proof.
  intros Hq. invert_query Hq. apply first_row_Some in Hq as [Hin [Hid Hl]]. eauto 10.
Qed.

(** The end of both handlers: audit, commit, push, respond. *)
Definition audited (action : string) (actor : uuid) (g : Grant) (d1 d' : DB) : Prop :=
  ∃ a, records action actor g a ∧ hosts_only (logged a d1) d'.

Lemma wp_audited action g actor d d1 now h w fail1 fail2 (tail : Handler) :
  tx_at d d1 now h w → error_status fail1 → error_status fail2 →
  counting tail → fails_with error_status tail →
  wp ((auditGrant action g actor <!> answerAll fail1);;;
      (Commit <!> answerAll fail2);;;
      pushIfHostGrant s (Grant_Permission g) (Grant_TargetKind g) (Grant_TargetID g);;;
      tail) w
    (λ resp w', error_status resp ∧ (w_db w' = d ∨ audited action actor g d1 (w_db w')))
    (λ _ w', audited action actor g d1 (w_db w')).
Proof.
  intros Hw H1 H2 Ht Hf. wp_step. wp_step.
  eapply wp_auditGrant; [eassumption|intros e w1 []; split; auto|].
  intros a w1 Ha _ Hw1. wp_run.
  - split; [done|]. left. by known_db.
  - split; [done|]. right. exists a. split; [done|]. known_db. reflexivity.
  - eapply (wp_effect_fails hosts_only (λ _, False)); [auto with preserve nocore..| |].
    { auto with fails nocore. }
    { eassumption. }
    { done. }
    intros u w2 Ho2 Hx2.
    eapply (wp_effect_fails hosts_only error_status _ (w_db w2) (w_hub w2)); [done|done|by split| |].
    + intros e w3 He Ho3 _. split; [done|]. right. exists a. split; [done|by etransitivity].
    + intros e w3 Ho3 _. exists a. split; [done|by etransitivity].
Qed.

(** ** The two handlers, on every branch *)

(** The grant a request asks for: the user, the permission and the target are
    those of the request's body, and the permission fits the kind of target. *)
Record asked_for (actor : uuid) (r : Request) (g : Grant) (req : createGrantRequest) : Prop := {
  af_body : readRequest s createGrantRequest_of_json r = Some req;
  af_user : parseUUID (req_UserID req) = Some (Grant_UserID g);
  af_permission : Grant_Permission g = req_Permission req;
  af_kind : Grant_TargetKind g = req_TargetKind req;
  af_valid : validGrant (Grant_TargetKind g) (Grant_Permission g) = true;
  af_target : Grant_TargetID g =
    if decide (req_TargetKind req = "global") then None else parseUUID (req_TargetID req);
  af_by : Grant_GrantedBy g = Some actor }.

Definition grant_created (actor : uuid) (r : Request) (d d' : DB) : Prop :=
  ∃ g req, asked_for actor r g req ∧ (Grant_ID g ∉ Grant_ID <$> grants d) ∧ live g ∧
    audited "grant" actor g (on_grants (λ l, l ++ [g]) d) d'.
Lemma grant_created_intro actor r req u t g d d1 d' now id :
  readRequest s createGrantRequest_of_json r = Some req →
  validGrant (req_TargetKind req) (req_Permission req) = true → parseUUID (req_UserID req) = Some u →
  t = (if decide (req_TargetKind req = "global") then None else parseUUID (req_TargetID req)) →
  CreateGrant u (req_Permission req) (req_TargetKind req) t (Some actor) now id d = inr (g, d1) →
  audited "grant" actor g d1 d' → grant_created actor r d d'.
Proof.
  intros Hreq Hv Hu Ht (Hid & Hgu & Hgp & Hgk & Hgt & Hby & Hl & ->)%CreateGrant_inr Ha.
  exists g, req. split; [|done]. split; congruence.
Qed.
Definition grant_revoked (id actor : uuid) (d d' : DB) : Prop :=
  ∃ g now, g ∈ grants d ∧ Grant_ID g = id ∧ live g ∧
    audited "revoke" actor g
      (on_grants (update_where (λ g, Grant_ID g = id ∧ live g) (set_Grant_RevokedAt (Some now))) d)
      d'.

Definition unchanged_or (d : DB) (P : DB → Prop) (resp : Response) (w : World) : Prop :=
  error_status resp ∧ (w_db w = d ∨ P (w_db w)).

Lemma wp_handleCreateGrant auth r d h w :
  no_tx d h w →
  wp (handleCreateGrant s auth r) w (unchanged_or d (grant_created (auth_UserID auth) r d))
    (λ _ w', grant_created (auth_UserID auth) r d (w_db w')).
Proof.
  intros Hw. pose proof (no_tx_db _ _ _ Hw) as Hd. unfold handleCreateGrant.
  assert (∀ msg code w1, 400 ≤ code → w_db w1 = d →
    unchanged_or d (grant_created (auth_UserID auth) r d) (httpError msg code) w1) as Hleft.
  { intros. split; auto. }
  repeat (first
    [ eapply wp_mono; [eapply wp_audited; [eassumption|done|done|..]| |];
        [auto with preserve nocore|auto with fails nocore|..]
    | wp_step | wp_reading]; cbv beta zeta; try (apply Hleft; [done|by known_db])).
  all: first [intros e' w2 [He [Hsame|Ha]]; split; auto; right | intros _ w2 Ha].
  all: eapply grant_created_intro; [eassumption..| |eassumption|exact Ha]; by rewrite Heqs0.
Qed.

Lemma wp_handleRevokeGrant auth r d h w :
  no_tx d h w →
  wp (handleRevokeGrant s auth r) w
    (unchanged_or d (λ d', ∃ id, parseUUID (URLParam r "id") = Some id ∧
                           grant_revoked id (auth_UserID auth) d d'))
    (λ _ w', ∃ id, parseUUID (URLParam r "id") = Some id ∧
                   grant_revoked id (auth_UserID auth) d (w_db w')).
Proof.
  intros Hw. pose proof (no_tx_db _ _ _ Hw) as Hd. unfold handleRevokeGrant.
  assert (∀ P msg code w1, 400 ≤ code → w_db w1 = d → unchanged_or d P (httpError msg code) w1)
    as Hleft by (intros; split; auto).
  repeat (first
    [ eapply wp_mono; [eapply wp_audited; [eassumption|done|done|..]| |];
        [auto with preserve nocore|auto with fails nocore|..]
    | wp_step | wp_reading]; cbv beta zeta; try (apply Hleft; [done|by known_db])).
  - apply (preserves_ret _).
  - apply fails_ret.
  - match goal with Hq : RevokeGrant _ _ _ _ = _ |- _ =>
      apply RevokeGrant_inr in Hq as (g & Hg & Hid & Hl & -> & ->) end.
    intros e' w2 [He [Hsame|(x & [] & Ho)]]; split; auto. right. eexists. split; [done|].
    exists g, now. split_and!; try done. exists x. by split.
  - match goal with Hq : RevokeGrant _ _ _ _ = _ |- _ =>
      apply RevokeGrant_inr in Hq as (g & Hg & Hid & Hl & -> & ->) end.
    intros _ w2 (x & [] & Ho). eexists. split; [done|].
    exists g, now. split_and!; try done. exists x. by split.
Qed.

(** ** Snapshots *)

(** What a host's snapshot should contain: every SSH key of an active user
    who holds [host.access] on the host. *)
Definition allowed_key (d : DB) (hostID : uuid) (pk : PublicKey) : Prop :=
  pk ∈ public_keys d ∧
  (∃ u, u ∈ users d ∧ User_ID u = PublicKey_UserID pk ∧ User_Status u = "active") ∧
  holds d (PublicKey_UserID pk) "host.access" (TResource "host" hostID).

Definition entry_of (host : Host) (pk : PublicKey) : AccessEntry :=
  {| AccessEntry_UserID := uuidString (PublicKey_UserID pk);
     AccessEntry_KeyType := PublicKey_KeyType pk; AccessEntry_KeyBlob := PublicKey_KeyBlob pk;
     AccessEntry_Fingerprint := PublicKey_Fingerprint pk;
     AccessEntry_Accounts := Host_Accounts host |}.

Definition row_of (pk : PublicKey) : HostAccessKeysRow :=
  {| HostAccessKeysRow_UserID := PublicKey_UserID pk;
     HostAccessKeysRow_KeyType := PublicKey_KeyType pk;
     HostAccessKeysRow_KeyBlob := PublicKey_KeyBlob pk;
     HostAccessKeysRow_Fingerprint := PublicKey_Fingerprint pk |}.

Lemma elem_of_host_access_rows d hostID row :
  row ∈ host_access_rows hostID d ↔ ∃ pk, allowed_key d hostID pk ∧ row = row_of pk.
Proof.
  unfold host_access_rows, allowed_key. setoid_rewrite <-reaches_holds. split.
  - intros (g & Hin & Hg)%list_elem_of_bind.
    apply list_elem_of_bind in Hin as (u & Hin & Hu).
    apply list_elem_of_bind in Hin as (pk & ->%list_elem_of_singleton & Hpk).
    apply list_elem_of_filter in Hg as [(Hp & Hl & Hr) Hg].
    apply list_elem_of_filter in Hu as [[Hid Hst] Hu].
    apply list_elem_of_filter in Hpk as [Hpu Hpk].
    exists pk. split_and!; [done|exists u; split_and!; congruence|exists g|done].
    split_and!; congruence.
  - intros (pk & (Hpk & (u & Hu & Hid & Hst) & (g & Hg & Hgu & Hp & Hl & Hr)) & ->).
    apply list_elem_of_bind. exists g. split; [|by apply list_elem_of_filter].
    apply list_elem_of_bind. exists u. split; [|apply list_elem_of_filter; split_and!; congruence].
    apply list_elem_of_bind. exists pk.
    split; [by apply list_elem_of_singleton|apply list_elem_of_filter; split; congruence].
Qed.

Lemma buildSnapshot_entries host w snap w' :
  buildSnapshot host w = (inr snap, w') →
  quiet w w' ∧ ∀ e, e ∈ Snapshot_Entries snap ↔
    ∃ pk, allowed_key (w_db w) (Host_ID host) pk ∧ e = entry_of host pk.
Proof.
  unfold buildSnapshot. intros Hr. invert_run Hr. apply pool_inr in Hrun as (_ & d & Hq & ->).
  unfold HostAccessKeys, select in Hq. injection Hq as <- <-. split; [by split|].
  intros e. simpl. rewrite list_elem_of_fmap. setoid_rewrite elem_of_remove_dups.
  setoid_rewrite elem_of_host_access_rows. split.
  - intros (row & -> & pk & Hpk & ->). by exists pk.
  - intros (pk & Hpk & ->). exists (row_of pk). split; [done|]. by exists pk.
Qed.
End lemmas.

(** ** Claims *)

Section claims.
Context `{Platform, !Alone} (s : Server).

(** Creating a grant is atomic with its audit record, whatever database
    calls fail: a request is either refused with the database unchanged, or
    leaves exactly one new live grant and exactly one new audit row that
    names the grant, the acting admin, the subject, the permission and the
    target; nothing else changes but the hosts' snapshot counters.  A
    response below 400 is only given in the second case. *)
Theorem created_grants_are_audited auth r w resp w' :
  w_tx w = None → serve (handleCreateGrant s auth r) w = (resp, w') →
  (error_status resp ∧ w_db w' = w_db w) ∨
  grant_created s (auth_UserID auth) r (w_db w) (w_db w').
Proof.
  intros Hx Hs. assert (no_tx (w_db w) (w_hub w) w) as Hw by done.
  apply (wp_handleCreateGrant s auth r) in Hw.
  destruct (wp_serve _ _ _ _ _ _ Hw Hs) as [[He [Hsame|Hg]]|Hg]; auto.
Qed.

(** Revoking a grant is atomic with its audit record: a request is either
    refused with the database unchanged, or marks exactly the live grant it
    names revoked and appends exactly one audit row for it; nothing else
    changes but the hosts' snapshot counters. *)
Theorem revoked_grants_are_audited auth r w resp w' :
  w_tx w = None → serve (handleRevokeGrant s auth r) w = (resp, w') →
  (error_status resp ∧ w_db w' = w_db w) ∨
  ∃ id, parseUUID (URLParam r "id") = Some id ∧
        grant_revoked id (auth_UserID auth) (w_db w) (w_db w').
Proof.
  intros Hx Hs. assert (no_tx (w_db w) (w_hub w) w) as Hw by done.
  apply (wp_handleRevokeGrant s auth r) in Hw.
  destruct (wp_serve _ _ _ _ _ _ Hw Hs) as [[He [Hsame|Hg]]|Hg]; auto.
Qed.

(** C6: grants change together with their audit rows, whatever database calls
    fail, if no other request commits while the request is served.  A request to
    create a grant is either refused with the database unchanged, or leaves
    exactly one new live grant, of the permission to the user on the target that
    the request's body names, given by the caller, and exactly one new audit row
    that names the grant, the acting admin, the subject, the permission and the
    target; a request to revoke one is either refused with the database
    unchanged, or marks exactly the live grant it names revoked and appends
    exactly one audit row for it.  Nothing else changes but the number of the
    last snapshot of hosts, which only grows. *)
Theorem grant_changes_are_audited auth r w resp w' :
  w_tx w = None →
  (serve (handleCreateGrant s auth r) w = (resp, w') →
     (error_status resp ∧ w_db w' = w_db w) ∨ grant_created s (auth_UserID auth) r (w_db w) (w_db w')) ∧
  (serve (handleRevokeGrant s auth r) w = (resp, w') →
     (error_status resp ∧ w_db w' = w_db w) ∨
     ∃ id, parseUUID (URLParam r "id") = Some id ∧
           grant_revoked id (auth_UserID auth) (w_db w) (w_db w')).
Proof. intros Hx. split; [by apply created_grants_are_audited|by apply revoked_grants_are_audited]. Qed.

(** When the database answers, a host's snapshot is built, changes
    nothing, and lists exactly the SSH keys of the active users who hold
    [host.access] on the host (by a live grant on it or on a group that
    contains it), each with the host's accounts. *)
Theorem snapshot_lists_exactly_the_allowed_keys host w :
  env_fault (w_tick w) = NoFault →
  ∃ snap w', buildSnapshot host w = (inr snap, w') ∧ quiet w w' ∧
    ∀ e, e ∈ Snapshot_Entries snap ↔
      ∃ pk, allowed_key (w_db w) (Host_ID host) pk ∧ e = entry_of host pk.
Proof.
  intros Hf. destruct (buildSnapshot host w) as [[err|snap] w'] eqn:Hr.
  - exfalso. unfold buildSnapshot, bind, pool in Hr. by rewrite catch_up_alone, Hf in Hr.
  - exists snap, w'. split; [done|]. by apply buildSnapshot_entries.
Qed.
End claims.

(** ** Witnesses *)

Definition demo_grant_request : Request :=
  demo_request "" [] (JObj [("user_id", JStr (uuidString alice_id)); ("permission", JStr "host.revoke");
                            ("target_kind", JStr "host"); ("target_id", JStr (uuidString host_id))]).

Lemma revoked_grants_are_audited_witness :
  let run := serve (handleRevokeGrant demo_server admin_auth
                      (demo_request "" [("id", uuidString 11%N)] JNull)) demo_world in
  resp_status run.1 = 204 ∧
  ∃ id, demo_uuid_scan (uuidString 11%N) = Some id ∧ grant_revoked id admin_id demo_db (w_db run.2).
Proof.
  cbv zeta.
  destruct (serve (handleRevokeGrant demo_server admin_auth
                     (demo_request "" [("id", uuidString 11%N)] JNull)) demo_world)
    as [resp w'] eqn:Hs.
  assert (resp_status resp = 204) as H204.
  { change resp with (resp, w').1. rewrite <-Hs. vm_compute. reflexivity. }
  split; [exact H204|].
  destruct (revoked_grants_are_audited demo_server admin_auth
              (demo_request "" [("id", uuidString 11%N)] JNull) demo_world resp w')
    as [[He _]|Hg]; [reflexivity|exact Hs| |exact Hg].
  exfalso. unfold error_status in He. rewrite H204 in He. lia.
Defined.

Lemma grant_changes_are_audited_witness :
  let run := serve (handleCreateGrant demo_server admin_auth demo_grant_request) demo_world in
  resp_status run.1 = 200 ∧ grant_created demo_server admin_id demo_grant_request demo_db (w_db run.2).
Proof.
  cbv zeta.
  destruct (serve (handleCreateGrant demo_server admin_auth demo_grant_request) demo_world)
    as [resp w'] eqn:Hs.
  assert (resp_status resp = 200) as H200.
  { change resp with (resp, w').1. rewrite <-Hs. vm_compute. reflexivity. }
  split; [exact H200|].
  destruct (grant_changes_are_audited demo_server admin_auth demo_grant_request demo_world resp w')
    as [Hcreate _]; [reflexivity|]. destruct (Hcreate Hs) as [[He _]|Hg]; [|exact Hg].
  exfalso. unfold error_status in He. rewrite H200 in He. lia.
Defined.

Lemma snapshot_lists_exactly_the_allowed_keys_witness :
  ∃ snap w', buildSnapshot demo_host demo_world = (inr snap, w') ∧
    ∀ e, e ∈ Snapshot_Entries snap ↔
      ∃ pk, allowed_key demo_db host_id pk ∧ e = entry_of demo_host pk.
Proof.
  destruct (snapshot_lists_exactly_the_allowed_keys demo_host demo_world)
    as (snap & w' & Hr & _ & He); [reflexivity|]. by exists snap, w'.
Defined.
