(* ===== verification/SecretProps.v ===== *)
(** Secrets: what is stored is what is read back.  The vault, the sealed fields
    of a secret, the entries of a secret set and the bundle of sets a host gets. *)
From S2P Require Import Prelude Text Base64 Json Protocol Crypto Schema Evolve QUsers QAccess QSecrets World Http Perms Grants Accounts Secrets Hosts Sets Runs Wp Demo Scenario.

Section lemmas.
Context `{Platform, !Alone} (s : Server).

(** ** Bundles *)

Lemma map_each_quiet {E A B} (f : A → M World E B) l w ys w' :
  (∀ x, reading (f x)) → map_each f l w = (inr ys, w') →
  quiet w w' ∧ Forall2 (λ x y, ∃ w1 w2, quiet w w1 ∧ f x w1 = (inr y, w2)) l ys.
Proof.
  intros Hf. assert (∀ w0, quiet w0 w → map_each f l w = (inr ys, w') → quiet w0 w' ∧
    Forall2 (λ x y, ∃ w1 w2, quiet w0 w1 ∧ f x w1 = (inr y, w2)) l ys) as Hgen; [|by apply Hgen].
  intros w0. revert w ys. induction l as [|x l IH]; intros w ys Hw Hr; simpl in Hr.
  - injection Hr as <- <-. by split.
  - apply bind_inr in Hr as (y & w1 & Hx & Hr). apply bind_inr in Hr as (ys' & w2 & Hl & Hr).
    injection Hr as <- <-. pose proof (Hf x w) as Hq. rewrite Hx in Hq.
    destruct (IH w1 ys') as [H1 H2]; [by etransitivity|done|]. split; [done|].
    constructor; [by exists w, w1|done].
Qed.

(** The plaintext of an entry that opens. *)
Definition opened (kw : Vault.KeyWrapper) (e : SecretSetEntry) : bytes :=
  match openEntry kw e with inr v => v | inl _ => "" end.

Lemma openEntries_inr kw l m m' :
  openEntries kw m l = inr m' →
  (∀ e, e ∈ l → openEntry kw e = inr (opened kw e)) ∧
  m' = foldl (λ m e, <[SecretSetEntry_Key e := opened kw e]> m) m l.
Proof.
  revert m. induction l as [|e l IH]; intros m; simpl.
  - intros [= <-]. split; [by intros e ?%elem_of_nil|done].
  - destruct (openEntry kw e) as [err|v] eqn:He; [done|].
    assert (opened kw e = v) as <- by (unfold opened; by rewrite He).
    intros [H1 ->]%IH. split; [|done]. intros x [->|Hx]%elem_of_cons; auto.
Qed.

(** The values of a set: its entries' keys and plaintexts. *)
Definition set_values (kw : Vault.KeyWrapper) (d : DB) (setID : uuid) (values : gmap string string) :=
  ∀ k v, values !! k = Some v ↔
    ∃ e, e ∈ secret_set_entries d ∧ SecretSetEntry_SetID e = setID ∧
         SecretSetEntry_Key e = k ∧ openEntry kw e = inr v.

Lemma set_values_unique kw d i v1 v2 : set_values kw d i v1 → set_values kw d i v2 → v1 = v2.
Proof.
  intros H1 H2. apply map_eq. intros k. apply option_eq. intros v.
  by rewrite (H1 k v), (H2 k v).
Qed.

Lemma openEntries_values kw d setID values :
  db_wf d →
  openEntries kw ∅ (order_by (by_text SecretSetEntry_Key)
    (filter (λ e, SecretSetEntry_SetID e = setID) (secret_set_entries d))) = inr values →
  set_values kw d setID values.
Proof.
  intros Hwf Ho. apply openEntries_inr in Ho as [Hopen ->].
  change (foldl _ _ _) with (index_by SecretSetEntry_Key (opened kw)
    (order_by (by_text SecretSetEntry_Key)
      (filter (λ e, SecretSetEntry_SetID e = setID) (secret_set_entries d)))).
  set (l := order_by _ _) in *.
  assert (∀ e, e ∈ l ↔ e ∈ secret_set_entries d ∧ SecretSetEntry_SetID e = setID) as Hl.
  { intros e. unfold l. rewrite elem_of_order_by, list_elem_of_filter. tauto. }
  intros k v. split.
  - intros (e & He & <- & <-)%index_by_elem. exists e. apply Hl in He as He'.
    destruct He' as [? ?]. auto.
  - intros (e & He & Hs & <- & Hv). assert (e ∈ l) as Hin by (by apply Hl).
    assert (opened kw e = v) as <- by (unfold opened; by rewrite Hv).
    apply index_by_functional; [|done]. intros y Hy Hk. f_equal. apply Hl in Hy as [Hy Hys].
    apply (unique_key SecretSetEntry_key (secret_set_entries d)); auto using wf_entry_key.
    unfold SecretSetEntry_key. congruence.
Qed.

(** What a host should hold: each set with a live binding to it, under the
    set's name, scoped to the binding's account. *)
Definition bound_set (kw : Vault.KeyWrapper) (d : DB) (hostID : uuid)
    (name asUser : string) (values : gmap string string) : Prop :=
  ∃ b x, b ∈ host_set_bindings d ∧ HostSetBinding_HostID b = hostID ∧
    HostSetBinding_RevokedAt b = None ∧ x ∈ secret_sets d ∧
    SecretSet_ID x = HostSetBinding_SetID b ∧ SecretSet_Name x = name ∧
    textString (HostSetBinding_AsUser b) = asUser ∧ set_values kw d (SecretSet_ID x) values.

Lemma buildSet_inr kw row w x w' :
  db_wf (w_db w) → buildSet kw row w = (inr x, w') →
  ClearSet_Name x = SetsForHostRow_Name row ∧
  ClearSet_AsUser x = textString (SetsForHostRow_AsUser row) ∧
  ClearSet_Version x = to_uint64 (SetsForHostRow_UpdatedAt row) ∧
  set_values kw (w_db w) (SetsForHostRow_ID row) (ClearSet_Values x).
Proof.
  intros Hwf Hr. unfold buildSet in Hr. apply bind_inr in Hr as (l & w1 & Hq & Hr).
  apply pool_inr in Hq as (_ & d & Hq & ->). unfold GetSetEntries, select in Hq.
  injection Hq as <- <-. apply bind_inr in Hr as (v & w2 & Hv & Hr). unfold lift in Hv.
  injection Hv as Hv <-. injection Hr as <- <-. split_and!; try done. by apply openEntries_values.
Qed.

Lemma buildSet_quiet kw row : reading (buildSet kw row).
Proof. unfold buildSet. solve_quiet. Qed.

Definition rows_for_host (d : DB) (hostID : uuid) : list SetsForHostRow :=
  order_by (by_text SetsForHostRow_Name) (
    b ← filter (λ b, HostSetBinding_HostID b = hostID ∧ HostSetBinding_RevokedAt b = None)
          (host_set_bindings d);
    ss ← filter (λ s, SecretSet_ID s = HostSetBinding_SetID b) (secret_sets d);
    [{| SetsForHostRow_ID := SecretSet_ID ss; SetsForHostRow_Name := SecretSet_Name ss;
        SetsForHostRow_UpdatedAt := SecretSet_UpdatedAt ss;
        SetsForHostRow_AsUser := HostSetBinding_AsUser b |}]).

Definition row_for (b : HostSetBinding) (x : SecretSet) : SetsForHostRow :=
  {| SetsForHostRow_ID := SecretSet_ID x; SetsForHostRow_Name := SecretSet_Name x;
     SetsForHostRow_UpdatedAt := SecretSet_UpdatedAt x;
     SetsForHostRow_AsUser := HostSetBinding_AsUser b |}.
(** A live binding of the host and its set. *)
Definition binds (d : DB) (hostID : uuid) (b : HostSetBinding) (x : SecretSet) : Prop :=
  b ∈ host_set_bindings d ∧ HostSetBinding_HostID b = hostID ∧
  HostSetBinding_RevokedAt b = None ∧ x ∈ secret_sets d ∧ SecretSet_ID x = HostSetBinding_SetID b.

Lemma elem_of_rows_for_host d hostID row :
  row ∈ rows_for_host d hostID ↔ ∃ b x, binds d hostID b x ∧ row = row_for b x.
Proof.
  unfold rows_for_host, binds. rewrite elem_of_order_by. split.
  - intros (b & Hin & Hb)%list_elem_of_bind.
    apply list_elem_of_bind in Hin as (x & ->%list_elem_of_singleton & Hx).
    apply list_elem_of_filter in Hb as [[? ?] ?], Hx as [? ?]. exists b, x. by split_and!.
  - intros (b & x & (Hb & Hh & Hr & Hx & Hi) & ->). apply list_elem_of_bind. exists b.
    split; [|by apply list_elem_of_filter]. apply list_elem_of_bind. exists x.
    split; [by apply list_elem_of_singleton|by apply list_elem_of_filter].
Qed.

(** Names are unique, and so are a host's bindings of a set. *)
Lemma binds_unique d hostID b1 x1 b2 x2 :
  db_wf d → binds d hostID b1 x1 → binds d hostID b2 x2 →
  SecretSet_Name x1 = SecretSet_Name x2 → b1 = b2 ∧ x1 = x2.
Proof.
  intros Hwf (Hb1 & Hh1 & _ & Hx1 & Hi1) (Hb2 & Hh2 & _ & Hx2 & Hi2) Hn.
  assert (x1 = x2) as -> by (apply (unique_key SecretSet_Name (secret_sets d)); auto using wf_set_name).
  split; [|done]. apply (unique_key HostSetBinding_key (host_set_bindings d)); auto using wf_binding_key.
  unfold HostSetBinding_key. congruence.
Qed.

(** The bundle of a host: one clear set per bound set, names unique. *)
Lemma buildSecretSets_inr kw host w o w' :
  wrapper s = Some kw → db_wf (w_db w) → buildSecretSets s host w = (inr o, w') →
  quiet w w' ∧ ∃ l, o = Some {| SecretSets_Sets := l |} ∧
    (∀ y, y ∈ l → ∃ b x, binds (w_db w) (Host_ID host) b x ∧ ClearSet_Name y = SecretSet_Name x ∧
       ClearSet_AsUser y = textString (HostSetBinding_AsUser b) ∧
       ClearSet_Version y = to_uint64 (SecretSet_UpdatedAt x) ∧
       set_values kw (w_db w) (SecretSet_ID x) (ClearSet_Values y)) ∧
    (∀ b x, binds (w_db w) (Host_ID host) b x → ∃ y, y ∈ l ∧ ClearSet_Name y = SecretSet_Name x).
Proof.
  intros Hkw Hwf Hr. unfold buildSecretSets in Hr. rewrite Hkw in Hr.
  apply bind_inr in Hr as (rows & w1 & Hq & Hr). apply pool_inr in Hq as (_ & d & Hq & ->).
  assert (rows = rows_for_host (w_db w) (Host_ID host) ∧ d = w_db w) as [-> ->]
    by (unfold SetsForHost, select in Hq; by injection Hq as <- <-).
  apply bind_inr in Hr as (l & w2 & Hl & Hr). injection Hr as <- <-.
  apply map_each_quiet in Hl as [Hquiet Hl]; [|intros; apply buildSet_quiet].
  split; [by etransitivity; [|exact Hquiet]|]. exists l. split; [done|]. split.
  - intros y Hy. destruct (Forall2_elem_r _ _ _ _ Hl Hy) as (row & Hrow & w3 & w4 & [Hd _] & Hb).
    apply elem_of_rows_for_host in Hrow as (b & x & Hbx & ->).
    apply buildSet_inr in Hb as (? & ? & ? & ?); [|by rewrite Hd].
    exists b, x. rewrite Hd in *. by split_and!.
  - intros b x Hbx. assert (row_for b x ∈ rows_for_host (w_db w) (Host_ID host)) as Hrow
      by (apply elem_of_rows_for_host; eauto).
    destruct (Forall2_elem_l _ _ _ _ Hl Hrow) as (y & Hy & w3 & w4 & [Hd _] & Hb).
    apply buildSet_inr in Hb as [Hn _]; [by exists y|by rewrite Hd].
Qed.

Lemma bundle_names_unique d kw hostID (l : list ClearSet) y1 y2 :
  db_wf d →
  (∀ y, y ∈ l → ∃ b x, binds d hostID b x ∧ ClearSet_Name y = SecretSet_Name x ∧
       ClearSet_AsUser y = textString (HostSetBinding_AsUser b) ∧
       ClearSet_Version y = to_uint64 (SecretSet_UpdatedAt x) ∧
       set_values kw d (SecretSet_ID x) (ClearSet_Values y)) →
  y1 ∈ l → y2 ∈ l → ClearSet_Name y1 = ClearSet_Name y2 → y1 = y2.
Proof.
  intros Hwf Hl (b1 & x1 & H1 & Hn1 & Hu1 & Hv1 & Hs1)%Hl (b2 & x2 & H2 & Hn2 & Hu2 & Hv2 & Hs2)%Hl Hn.
  destruct (binds_unique d hostID b1 x1 b2 x2) as [-> ->]; [done..|congruence|].
  pose proof (set_values_unique _ _ _ _ _ Hs1 Hs2). destruct y1, y2. simpl in *. congruence.
Qed.

(** ** Sealed fields *)

Lemma secretFields_roundtrip f : secretFields_of_json (secretFields_json f) = Some f.
Proof.
  destruct f as [p n]. unfold secretFields_json, omitempty. simpl.
  repeat case_decide; subst; reflexivity.
Qed.

(** The columns [o] open to the fields [f]. *)
Definition opens_to (kw : Vault.KeyWrapper) (ct nonce wrapped : option bytes) (f : secretFields) :=
  openFields kw ct nonce wrapped = inr f.

Definition request_fields (req : createSecretRequest) : secretFields :=
  {| sf_Password := cs_Password req; sf_Notes := cs_Notes req |}.
Definition text_fields (req : createSecretRequest) : Prop :=
  valid_text (cs_Password req) = true ∧ valid_text (cs_Notes req) = true.

Lemma fields_valid req :
  text_fields req → json_valid (secretFields_json (request_fields req)) = true.
Proof.
  intros [H1 H2]. unfold secretFields_json, omitempty. simpl.
  repeat case_decide; simpl; by rewrite ?H1, ?H2.
Qed.

Lemma vaultSeal_opens `{!PlatformLaws} kw `{!Vault.KeyWrapperLaws kw} p w o w' :
  vaultSeal kw p w = (inr o, w') → quiet w w' ∧ Vault.Open kw o = inr p.
Proof.
  intros Hr. unfold vaultSeal, randBytes in Hr. apply bind_inr in Hr as (k & w1 & [= <- <-] & Hr).
  apply bind_inr in Hr as (n & w2 & [= <- <-] & Hr).
  apply bind_inr in Hr as (wn & w3 & [= <- <-] & Hr). unfold lift in Hr. injection Hr as Hr <-.
  split; [done|]. eapply (Vault.Vault_Open_Seal kw); [..|exact Hr]; apply env_rand_length.
Qed.

Lemma sealFields_opens `{!PlatformLaws} kw `{!Vault.KeyWrapperLaws kw} req w o w' :
  text_fields req → sealFields kw req w = (inr o, w') →
  quiet w w' ∧ opens_to kw (Vault.Ciphertext <$> o) (Vault.Nonce <$> o) (Vault.WrappedKey <$> o)
                 (request_fields req).
Proof.
  intros Ht Hr. unfold sealFields in Hr. case_match eqn:Hempty.
  - injection Hr as <- <-. split; [done|]. unfold fields_empty in Hempty.
    apply bool_decide_eq_true in Hempty as [Hp Hn]. simpl in Hp, Hn.
    unfold opens_to, request_fields. by rewrite Hp, Hn.
  - apply bind_inr in Hr as (x & w1 & Hx & [= <- <-]).
    apply vaultSeal_opens in Hx as [Hq Ho]; [|done..]. split; [done|].
    unfold opens_to, openFields. simpl. destruct x as [ct n wk]. simpl. rewrite Ho.
    rewrite unmarshal_print by (by apply fields_valid). by rewrite secretFields_roundtrip.
Qed.

(** ** Creating a secret *)

(** The grants an owner gets, one per permission. *)
Definition owner_grants (u : uuid) (kind : string) (t : uuid) (perms : list string)
    (gs : list Grant) : Prop :=
  Forall2 (λ p g, Grant_UserID g = u ∧ Grant_Permission g = p ∧ Grant_TargetKind g = kind ∧
                  Grant_TargetID g = Some t ∧ live g) perms gs.

Lemma wp_grantOwner u kind t perms d d' now h w (Qe : error → World → Prop) Qo :
  tx_at d d' now h w → (∀ e w1, committed d h w1 → Qe e w1) →
  (∀ gs w1, owner_grants u kind t perms gs →
     tx_at d (on_grants (λ l, l ++ gs) d') now h w1 → Qo tt w1) →
  wp (grantOwner u kind t perms) w Qe Qo.
Proof.
  unfold grantOwner, owner_grants. revert d' w Qo.
  induction perms as [|p perms IH]; intros d' w Qo Hw He Ho; simpl.
  - apply (Ho [] w); [done|]. unfold on_grants. rewrite app_nil_r. by destruct d'.
  - apply wp_bind, wp_bind. eapply wp_inTx; [exact Hw|exact He|]. intros g d1 id w1 Hq Hw1.
    apply wp_ret. invert_query Hq. eapply IH; [exact Hw1|exact He|]. intros gs w2 Hgs Hw2.
    eapply (Ho (_ :: gs)); [constructor; [|exact Hgs]|].
    2: { unfold on_grants in *. simpl in Hw2. rewrite <-app_assoc in Hw2. exact Hw2. }
    done.
Qed.

(** What a successful creation leaves, and nothing else: the secret, whose
    columns open to the submitted fields, one audit row, the owner's grants. *)
Definition secret_created (kw : Vault.KeyWrapper) (u : uuid) (req : createSecretRequest)
    (d d' : DB) : Prop :=
  ∃ x a gs,
    Secret_Label x = cs_Label req ∧
    opens_to kw (Secret_Ciphertext x) (Secret_Nonce x) (Secret_WrappedKey x) (request_fields req) ∧
    SecretAuditLog_SecretID a = Some (Secret_ID x) ∧ SecretAuditLog_Action a = "add" ∧
    SecretAuditLog_UserID a = Some u ∧
    owner_grants u "secret" (Secret_ID x) ["secret.read"; "secret.update"; "secret.delete"] gs ∧
    d' = on_grants (λ l, l ++ gs) (on_secret_audit_logs (λ l, l ++ [a])
           (on_secrets (λ l, l ++ [x]) d)).

Lemma filterPermissions_quiet {E} l (f : string → M World E bool) :
  (∀ p, reading (f p)) → reading (filterPermissions l f).
Proof. intros Hf. induction l as [|p l IH]; simpl; solve_quiet; auto. Qed.
Lemma secretViewFromGet_quiet {E} a row : reading (secretViewFromGet a row : M World E _).
Proof.
  unfold secretViewFromGet. apply (preserves_bind _); [|intros; apply (preserves_ret _)].
  apply filterPermissions_quiet. intros p. apply canSecret_quiet.
Qed.
Lemma respondSecret_quiet a i : reading (respondSecret s a i).
Proof.
  unfold respondSecret. apply (preserves_bind _); [|intros row].
  { apply (preserves_onerr _); [apply pool_quiet; solve_reads|intros; done]. }
  apply (preserves_bind _); [apply secretViewFromGet_quiet|]. intros. apply writeResponse_quiet.
Qed.

Lemma wp_sealFields `{!PlatformLaws} kw `{!Vault.KeyWrapperLaws kw} req d h w
    (Qe : error → World → Prop) Qo :
  text_fields req → no_tx d h w → (∀ e w1, no_tx d h w1 → Qe e w1) →
  (∀ o w1, opens_to kw (Vault.Ciphertext <$> o) (Vault.Nonce <$> o) (Vault.WrappedKey <$> o)
             (request_fields req) → no_tx d h w1 → Qo o w1) →
  wp (sealFields kw req) w Qe Qo.
Proof.
  intros Ht Hw He Ho. unfold wp. destruct (sealFields kw req w) as [[e|o] w1] eqn:Hr.
  - assert (reading (sealFields kw req)) as Hq.
    { unfold sealFields, vaultSeal. solve_quiet. }
    specialize (Hq w). rewrite Hr in Hq. apply He. by eapply no_tx_quiet.
  - apply sealFields_opens in Hr as [Hq Hop]; [|done..]. apply Ho; [done|].
    by eapply no_tx_quiet.
Qed.

Lemma wp_handleCreateSecret `{!PlatformLaws} kw `{!Vault.KeyWrapperLaws kw} auth r d h w :
  wrapper s = Some kw → no_tx d h w →
  (∀ req, readRequest s createSecretRequest_of_json r = Some req → text_fields req) →
  let created d' := ∃ req, readRequest s createSecretRequest_of_json r = Some req ∧
                           secret_created kw (auth_UserID auth) req d d' in
  wp (handleCreateSecret s auth r) w (λ _ w', w_db w' = d ∨ created (w_db w'))
    (λ _ w', created (w_db w')).
Proof.
  intros Hkw Hw Ht created. unfold handleCreateSecret. rewrite Hkw. pose proof (no_tx_db _ _ _ Hw).
  wp_step. wp_step; [done|].
  match goal with Hk : Some _ = Some _ |- _ => injection Hk as <- end.
  repeat (first
    [ eapply (wp_grantOwner _ _ _ _ d); [eassumption|intros ? ? ?|intros ? ? ? ?]
    | eapply (wp_sealFields _ _ d h); [by apply Ht|eassumption|intros ? ? ?|intros ? ? ? ?]
    | wp_step
    | eapply wp_read; [apply respondSecret_quiet|eassumption|intros ? ? ?|intros ? ? ?]
    | wp_reading]; cbv beta zeta; try (left; by known_db)).
  all: match goal with Hq : CreateSecret _ _ _ _ _ _ _ _ _ _ _ _ = _ |- _ => invert_query Hq end.
  all: match goal with Hq : InsertSecretAudit _ _ _ _ _ _ _ = _ |- _ => invert_query Hq end.
  all: try right; eexists; (split; [eassumption|]); known_db.
  all: eexists _, _, _; split_and!; last reflexivity; done.
Qed.

(** ** Creating a set *)

Lemma wp_vaultSeal_tx `{!PlatformLaws} kw `{!Vault.KeyWrapperLaws kw} p d d' now h w
    (Qe : error → World → Prop) Qo :
  tx_at d d' now h w → (∀ e w1, committed d h w1 → Qe e w1) →
  (∀ o w1, Vault.Open kw o = inr p → tx_at d d' now h w1 → Qo o w1) →
  wp (vaultSeal kw p) w Qe Qo.
Proof.
  intros Hw He Ho. unfold wp. destruct (vaultSeal kw p w) as [[e|o] w1] eqn:Hr.
  - assert (reading (vaultSeal kw p)) as Hq by (unfold vaultSeal; solve_quiet).
    specialize (Hq w). rewrite Hr in Hq. apply He. eapply tx_at_committed. by eapply tx_at_quiet.
  - apply vaultSeal_opens in Hr as [Hq Hop]; [|done..]. apply Ho; [done|].
    by eapply tx_at_quiet.
Qed.

(** Rows of set [setID] that open to the entries' values, in order. *)
Definition sealed_entries (kw : Vault.KeyWrapper) (setID : uuid) (l : list setEntryInput)
    (rows : list SecretSetEntry) : Prop :=
  Forall2 (λ e row, SecretSetEntry_SetID row = setID ∧ SecretSetEntry_Key row = entry_Key e ∧
                    openEntry kw row = inr (entry_Value e)) l rows.

Lemma wp_sealEntries `{!PlatformLaws} kw `{!Vault.KeyWrapperLaws kw} setID l d d' now h w
    (Qe : error → World → Prop) Qo :
  tx_at d d' now h w → (∀ e w1, committed d h w1 → Qe e w1) →
  (∀ rows w1, sealed_entries kw setID l rows →
     tx_at d (on_secret_set_entries (λ k, k ++ rows) d') now h w1 → Qo tt w1) →
  wp (sealEntries kw setID l) w Qe Qo.
Proof.
  unfold sealEntries, sealed_entries. revert d' w Qo.
  induction l as [|e l IH]; intros d' w Qo Hw He Ho; simpl.
  - apply (Ho [] w); [done|]. unfold on_secret_set_entries. rewrite app_nil_r. by destruct d'.
  - apply wp_bind, wp_bind. eapply (wp_vaultSeal_tx kw); [exact Hw|exact He|].
    intros sealed w1 Hopen Hw1. eapply wp_inTx; [exact Hw1|exact He|].
    intros u d1 id w2 Hq Hw2. invert_query Hq. eapply IH; [exact Hw2|exact He|].
    intros rows w3 Hrows Hw3. eapply (Ho (_ :: rows)); [constructor; [|exact Hrows]|].
    2: { unfold on_secret_set_entries in *. simpl in Hw3. rewrite <-app_assoc in Hw3. exact Hw3. }
    split_and!; [done..|]. unfold openEntry. by destruct sealed.
Qed.

(** What a successful creation leaves, and nothing else. *)
Definition set_created (kw : Vault.KeyWrapper) (u : uuid) (req : createSetRequest) (d d' : DB) :
    Prop :=
  ∃ x rows a gs,
    SecretSet_Name x = set_Name req ∧ sealed_entries kw (SecretSet_ID x) (set_Entries req) rows ∧
    SetAuditLog_SetID a = Some (SecretSet_ID x) ∧ SetAuditLog_Action a = "create" ∧
    SetAuditLog_Actor a = Some u ∧
    owner_grants u "set" (SecretSet_ID x) ["set.read"; "set.manage"] gs ∧
    d' = on_grants (λ l, l ++ gs) (on_set_audit_logs (λ l, l ++ [a])
           (on_secret_set_entries (λ l, l ++ rows) (on_secret_sets (λ l, l ++ [x]) d))).

Lemma setView_quiet {E} a x k : reading (setView a x k : M World E _).
Proof.
  unfold setView. apply (preserves_bind _); [|intros; apply (preserves_ret _)].
  apply filterPermissions_quiet. intros p. apply canSet_quiet.
Qed.

Lemma wp_handleCreateSet `{!PlatformLaws} kw `{!Vault.KeyWrapperLaws kw} auth r d h w :
  wrapper s = Some kw → no_tx d h w →
  let created d' := ∃ req, readRequest s createSetRequest_of_json r = Some req ∧
                           validateEntries (set_Entries req) = inr tt ∧
                           set_created kw (auth_UserID auth) req d d' in
  wp (handleCreateSet s auth r) w (λ _ w', w_db w' = d ∨ created (w_db w'))
    (λ _ w', created (w_db w')).
Proof.
  intros Hkw Hw created. unfold handleCreateSet. rewrite Hkw. pose proof (no_tx_db _ _ _ Hw).
  wp_step. wp_step; [done|].
  match goal with Hk : Some _ = Some _ |- _ => injection Hk as <- end.
  unfold auditSet.
  repeat (first
    [ eapply (wp_grantOwner _ _ _ _ d); [eassumption|intros ? ? ?|intros ? ? ? ?]
    | eapply (wp_sealEntries _ _ _ d); [eassumption|intros ? ? ?|intros ? ? ? ?]
    | eapply wp_read; [apply setView_quiet|eassumption|intros ? ? ?|intros ? ? ?]
    | wp_step
    | wp_reading]; cbv beta zeta; try (left; by known_db)).
  all: match goal with Hq : CreateSet _ _ _ _ _ = _ |- _ => invert_query Hq end.
  all: match goal with Hq : InsertSetAudit _ _ _ _ _ _ _ _ _ = _ |- _ => invert_query Hq end.
  all: repeat match goal with u : () |- _ => destruct u end.
  all: try right; eexists; (split; [eassumption|]); (split; [eassumption|]); known_db.
  all: eexists _, _, _, _; split_and!; last reflexivity; done.
Qed.
End lemmas.

(** ** Entry keys *)

Lemma validateFrom_ok seen l :
  validateFrom seen l = inr tt ↔
  Forall (λ e, entry_Key e ≠ "" ∧ entry_Key e ∉ seen) l ∧ NoDup (entryKeys l).
Proof.
  revert seen. induction l as [|e l IH]; intros seen; simpl.
  - split; [intros _; split; [done|constructor]|done].
  - rewrite Forall_cons, NoDup_cons.
    case_decide as Hk; [split; [done|]; by intros [[[? _] _] _]|].
    case_decide as Hs; [split; [done|]; by intros [[[_ ?] _] _]|]. rewrite IH, !Forall_forall.
    split.
    + intros [Hf Hn]. split_and!; try done.
      * intros x Hx. destruct (Hf x Hx) as [? Hx']. split; [done|].
        intros Hin. apply Hx', elem_of_union. by right.
      * intros (x & Heq & Hx)%list_elem_of_fmap. destruct (Hf x Hx) as [_ Hx'].
        apply Hx', elem_of_union. left. by apply elem_of_singleton.
    + intros [[_ Hf] [Hn Hd]]. split; [|done]. intros x Hx.
      destruct (Hf x Hx). split; [done|]. rewrite elem_of_union, elem_of_singleton.
      intros [Heq|?]; [|done]. apply Hn. apply list_elem_of_fmap. eauto.
Qed.

(** ** Errors are error responses *)

Section fails.
Context `{Platform, !Alone} (s : Server).

Lemma granted_total {E} q (P : E → Prop) : fails_with P (granted q : M World E bool).
Proof. unfold granted. solve_fails. Qed.
Lemma canGlobal_total {E} a p (P : E → Prop) : fails_with P (canGlobal a p : M World E bool).
Proof. unfold canGlobal. solve_fails. apply granted_total. Qed.
Lemma canSecret_total {E} a p i (P : E → Prop) : fails_with P (canSecret a p i : M World E bool).
Proof. unfold canSecret. solve_fails. apply granted_total. Qed.
Lemma canSet_total {E} a p i (P : E → Prop) : fails_with P (canSet a p i : M World E bool).
Proof. unfold canSet. solve_fails. apply granted_total. Qed.
Lemma filterPermissions_total {E} l (f : string → M World E bool) (P : E → Prop) :
  (∀ p, fails_with P (f p)) → fails_with P (filterPermissions l f).
Proof. intros Hf. induction l as [|p l IH]; simpl; solve_fails; auto. Qed.
Hint Resolve canGlobal_total canSecret_total canSet_total filterPermissions_total
  writeResponse_fails : fails.

Lemma handleCreateSecret_fails a r : fails_with error_status (handleCreateSecret s a r).
Proof. unfold handleCreateSecret, respondSecret, secretViewFromGet, secretPermissions. solve_fails. Qed.
Lemma handleCreateSet_fails a r : fails_with error_status (handleCreateSet s a r).
Proof. unfold handleCreateSet, setView, setPermissions. solve_fails. by case_match. Qed.
End fails.

(** ** Claims *)

Section claims.
Context `{Platform, !Alone, !PlatformLaws} (s : Server).

(** C25: creating a secret stores what was submitted.  Whatever database calls
    fail, either the committed database is unchanged, or exactly one secret, one "add"
    audit row and the owner's three grants are added, and the vault opens the
    stored columns to the submitted password and notes; a response below 400
    is only given in the second case.  No other
    request commits meanwhile. *)
Theorem created_secrets_open_to_the_submitted_fields mk kw auth r w resp w' :
  Vault.NewAESWrapper mk = inr kw → wrapper s = Some kw → w_tx w = None →
  (∀ req, readRequest s createSecretRequest_of_json r = Some req → text_fields req) →
  serve (handleCreateSecret s auth r) w = (resp, w') →
  (error_status resp ∧ w_db w' = w_db w) ∨
  ∃ req, readRequest s createSecretRequest_of_json r = Some req ∧
         secret_created kw (auth_UserID auth) req (w_db w) (w_db w').
Proof.
  intros Hmk Hkw Hx Ht Hs. pose proof (Vault.NewAESWrapper_laws _ _ Hmk) as Hlaws.
  assert (no_tx (w_db w) (w_hub w) w) as Hw by done.
  pose proof (wp_handleCreateSecret s kw auth r _ _ _ Hkw Hw Ht) as Hp.
  pose proof (handleCreateSecret_fails s auth r w) as Hf. unfold wp in Hp. unfold serve in Hs.
  destruct (handleCreateSecret s auth r w) as [[e|v] w1]; injection Hs as <- <-; [|by right].
  destruct Hp as [Hp|Hp]; [left|by right]. split; [by eapply Hf|done].
Qed.

(** C26: creating a set stores what was submitted: either the committed
    database is unchanged, or exactly one set of that name, its entries (the
    vault opens each to the submitted value, under the submitted key), one
    "create" audit row and the owner's grants are added.  No other
    request commits meanwhile. *)
Theorem created_sets_hold_the_submitted_values mk kw auth r w resp w' :
  Vault.NewAESWrapper mk = inr kw → wrapper s = Some kw → w_tx w = None →
  serve (handleCreateSet s auth r) w = (resp, w') →
  (error_status resp ∧ w_db w' = w_db w) ∨
  ∃ req, readRequest s createSetRequest_of_json r = Some req ∧
         validateEntries (set_Entries req) = inr tt ∧
         set_created kw (auth_UserID auth) req (w_db w) (w_db w').
Proof.
  intros Hmk Hkw Hx Hs. pose proof (Vault.NewAESWrapper_laws _ _ Hmk) as Hlaws.
  assert (no_tx (w_db w) (w_hub w) w) as Hw by done.
  pose proof (wp_handleCreateSet s kw auth r _ _ _ Hkw Hw) as Hp.
  pose proof (handleCreateSet_fails s auth r w) as Hf. unfold wp in Hp. unfold serve in Hs.
  destruct (handleCreateSet s auth r w) as [[e|v] w1]; injection Hs as <- <-; [|by right].
  destruct Hp as [Hp|Hp]; [left|by right]. split; [by eapply Hf|done].
Qed.

(** The entry check of a new set accepts exactly the lists whose keys are
    non-empty and pairwise different. *)
Theorem validateEntries_accepts_distinct_keys entries :
  validateEntries entries = inr tt ↔
  (∀ e, e ∈ entries → entry_Key e ≠ "") ∧ NoDup (entryKeys entries).
Proof.
  unfold validateEntries. rewrite validateFrom_ok, Forall_forall.
  split; intros [Hf Hn]; (split; [|done]); intros e He; [by apply Hf|].
  split; [by apply Hf|apply not_elem_of_empty].
Qed.
End claims.

(** ** Witnesses *)

Definition demo_wrapper : Vault.KeyWrapper := Vault.AESWrapper (zeros 32).

Definition demo_secret_request : Request :=
  demo_request "" [] (JObj [("label", JStr "db"); ("password", JStr "hunter2"); ("notes", JStr "prod")]).

Lemma created_secrets_open_to_the_submitted_fields_witness :
  let run := serve (handleCreateSecret demo_server admin_auth demo_secret_request) demo_world in
  resp_status run.1 = 200 ∧
  ∃ req, readRequest demo_server createSecretRequest_of_json demo_secret_request = Some req ∧
         secret_created demo_wrapper admin_id req demo_db (w_db run.2).
Proof.
  cbv zeta.
  destruct (serve (handleCreateSecret demo_server admin_auth demo_secret_request) demo_world)
    as [resp w'] eqn:Hs.
  assert (resp_status resp = 200) as H200.
  { change resp with (resp, w').1. rewrite <-Hs. vm_compute. reflexivity. }
  split; [exact H200|].
  destruct (created_secrets_open_to_the_submitted_fields demo_server (zeros 32) demo_wrapper
              admin_auth demo_secret_request demo_world resp w') as [[He _]|Hg];
    [reflexivity|reflexivity|reflexivity| |exact Hs| |exact Hg].
  - intros req Hreq. vm_compute in Hreq. injection Hreq as <-. by split.
  - exfalso. unfold error_status in He. rewrite H200 in He. lia.
Defined.

Definition demo_set_request : Request :=
  demo_request "" [] (JObj [("name", JStr "web");
    ("entries", JArr [JObj [("key", JStr "A"); ("value", JStr "1")];
                      JObj [("key", JStr "B"); ("value", JStr "2")]])]).

Lemma created_sets_hold_the_submitted_values_witness :
  let run := serve (handleCreateSet demo_server admin_auth demo_set_request) demo_world in
  resp_status run.1 = 200 ∧
  ∃ req, readRequest demo_server createSetRequest_of_json demo_set_request = Some req ∧
         set_created demo_wrapper admin_id req demo_db (w_db run.2).
Proof.
  cbv zeta.
  destruct (serve (handleCreateSet demo_server admin_auth demo_set_request) demo_world)
    as [resp w'] eqn:Hs.
  assert (resp_status resp = 200) as H200.
  { change resp with (resp, w').1. rewrite <-Hs. vm_compute. reflexivity. }
  split; [exact H200|].
  destruct (created_sets_hold_the_submitted_values demo_server (zeros 32) demo_wrapper
              admin_auth demo_set_request demo_world resp w') as [[He _]|(req & Hr & _ & Hg)];
    [reflexivity|reflexivity|reflexivity|exact Hs| |exists req; split; [exact Hr|exact Hg]].
  exfalso. unfold error_status in He. rewrite H200 in He. lia.
Defined.
