(* ===== verification/EndToEnd.v ===== *)
(** The control plane and the daemon together: what a host's daemon answers to
    sshd is what the grants in the control plane's database say, a daemon that
    completes the handshake holds an active host's key, and a secret set bound
    to a host reaches its daemon unchanged. *)
From S2P Require Import Prelude Text Base64 Json Protocol Crypto Schema Evolve QUsers QAccess QSecrets World Http Perms Grants Accounts Secrets Hosts Sets Groups Upgrades Link Router Daemon Runs Wp Demo Scenario SystemProps GrantProps SecretProps DaemonProps.

(** ** Enrollment's result: the two sides know each other's keys *)

(** The daemon [c] serves host [h] of a control plane that signs with [kp]. *)
Record paired (kp : Identity.KeyPair) (h : Host) (c : Client) : Prop := {
  paired_host : dc_HostID (cl_cfg c) = uuidString (Host_ID h);
  paired_signer : dc_SigningPublicKey (cl_cfg c) = Identity.PublicKey kp }.

(** Every string of the rows a snapshot is built from is text, as the columns'
    type makes sure. *)
Definition text_keys (d : DB) (host : Host) : Prop :=
  Forall (λ pk, entry_valid (entry_of host pk) = true) (public_keys d).

Section delivery.
Context `{Platform, !Alone, !PlatformLaws, Disk} (s : Server).

Lemma PublicKey_not_empty seed :
  Identity.PublicKey (Identity.GenerateKeyPair seed) ≠ "".
Proof.
  intros He. assert (DecodeString StdEncoding "" = Some (ed25519_public seed)) as Hd.
  { rewrite <-(DecodeString_EncodeToString StdEncoding (ed25519_public seed)). by f_equal. }
  change (DecodeString StdEncoding "") with (Some "") in Hd. injection Hd as Hd. pose proof (ed25519_public_length seed) as Hl.
  by rewrite <-Hd in Hl.
Qed.

(** A host's next number: one more than the last, and stored. *)
Lemma NextHostSeq_inr id now u d n d' :
  NextHostSeq id now u d = inr (n, d') →
  ∃ h, h ∈ hosts d ∧ Host_ID h = id ∧ n = Host_LastSeq h + 1 ∧ Host_LastSeq h < int64_max.
Proof.
  intros Hq. invert_query Hq.
  match goal with H : first_row _ _ = Some _ |- _ => apply first_row_Some in H as [Hin Hid] end.
  eexists. split_and!; try done.
  match goal with H : Forall _ _ |- _ => rewrite Forall_forall in H; by apply H end.
Qed.

Lemma NextHostSeq_ok id row now u d :
  db_wf d → row ∈ hosts d → Host_ID row = id → Host_LastSeq row < int64_max →
  NextHostSeq id now u d = inr (Host_LastSeq row + 1,
    on_hosts (update_where (λ h, Host_ID h = id) (λ h, set_Host_LastSeq (Host_LastSeq h + 1) h)) d).
Proof.
  intros Hwf Hrow Hid Hmax. unfold NextHostSeq, check. rewrite decide_True.
  - unfold update_returning. rewrite (first_row_unique _ Host_ID _ row); try done.
    + apply (wf_host_id _ Hwf).
    + intros y Hy. by rewrite Hy.
  - apply Forall_forall. intros h Hh Hid'.
    by rewrite (unique_key Host_ID (hosts d) h row (wf_host_id _ Hwf) Hh Hrow ltac:(congruence)).
Qed.

(** The publication of a snapshot, as every push and every new connection
    does it. *)
Definition publish (host : Host) : IO Envelope :=
  snapshot <- buildSnapshot host;; snapshotEnvelope s (Host_ID host) snapshot.

Lemma publish_succeeds host w row :
  env_fault (w_tick w) = NoFault → env_fault (S (w_tick w)) = NoFault →
  db_wf (w_db w) → row ∈ hosts (w_db w) → Host_ID row = Host_ID host →
  Host_LastSeq row < int64_max → ∃ env w', publish host w = (inr env, w').
Proof.
  intros Hf Hf' Hwf Hrow Hid Hmax. unfold publish, snapshotEnvelope.
  destruct (signer s) as [kp|]; do 2 eexists; apply bind_inr; do 2 eexists;
    (split; [apply bind_inr; do 2 eexists; split; [by apply pool_ok|done]|]); [|done].
  apply bind_inr. do 2 eexists. split; [|done].
  apply pool_ok; [done|]. by apply (NextHostSeq_ok (Host_ID host) row).
Qed.

(** What the envelope of a snapshot is: numbered and signed. *)
Lemma snapshotEnvelope_inr kp id snap w env w' :
  signer s = Some kp → snapshotEnvelope s id snap w = (inr env, w') →
  ∃ seq, Envelope_Type env = TypeSnapshot ∧
    Envelope_Data env = json_print (Snapshot_json snap) ∧ Envelope_Seq env = to_uint64 seq ∧
    Envelope_Sig env = Identity.Sign kp
      (SnapshotSigningInput (uuidString id) (Envelope_Seq env) (Envelope_Data env)) ∧
    ∃ h, h ∈ hosts (w_db w) ∧ Host_ID h = id ∧ seq = Host_LastSeq h + 1 ∧
         Host_LastSeq h < int64_max.
Proof.
  intros Hk Hr. unfold snapshotEnvelope in Hr. rewrite Hk in Hr.
  apply bind_inr in Hr as (n & w2 & Hq & [= <- <-]).
  apply pool_inr in Hq as (_ & d & Hq & _). apply NextHostSeq_inr in Hq.
  exists n. by split_and!.
Qed.

(** A fresh, verified snapshot becomes the cache, whether or not it could be
    written to disk. *)
Lemma dispatch_applies env c snap :
  Envelope_Type env = TypeSnapshot → verifySnapshot (cl_cfg c) env = inr tt →
  c_seq (cl_cache c) < Envelope_Seq env →
  unmarshal Snapshot_of_json (Envelope_Data env) = Some snap →
  cl_cache (dispatch env c).2 =
    {| c_seq := Envelope_Seq env; c_entries := index_entries (Snapshot_Entries snap) |}.
Proof.
  intros Ht Hv Hs Hu. unfold dispatch. rewrite decide_True, Hv by done.
  rewrite decide_False, Hu by (unfold Seq; lia).
  by destruct (ApplySnapshot_run snap (Envelope_Seq env) c) as [r ->].
Qed.

Lemma index_entries_functional l e :
  (∀ x, x ∈ l → AccessEntry_Fingerprint x = AccessEntry_Fingerprint e → x = e) → e ∈ l →
  index_entries l !! AccessEntry_Fingerprint e = Some e.
Proof. apply (index_by_functional AccessEntry_Fingerprint id). Qed.

Lemma snapshot_valid d host snap :
  text_keys d host →
  (∀ e, e ∈ Snapshot_Entries snap →
        ∃ pk, allowed_key d (Host_ID host) pk ∧ e = entry_of host pk) →
  json_valid (Snapshot_json snap) = true.
Proof.
  intros Ht He. apply snapshot_json_valid, Forall_forall. intros e Hin.
  destruct (He e Hin) as (pk & [Hpk _] & ->).
  unfold text_keys in Ht. rewrite Forall_forall in Ht. by apply Ht.
Qed.

(** The cache indexes exactly the allowed keys. *)
Lemma authorize_allowed d host l seq fp account e :
  db_wf d →
  (∀ e, e ∈ l ↔ ∃ pk, allowed_key d (Host_ID host) pk ∧ e = entry_of host pk) →
  authorize {| c_seq := seq; c_entries := index_entries l |} fp account = Some e ↔
  ∃ pk, allowed_key d (Host_ID host) pk ∧ PublicKey_Fingerprint pk = fp ∧
        account ∈ Host_Accounts host ∧ e = entry_of host pk.
Proof.
  intros Hwf Hl. unfold authorize, Lookup. simpl. split.
  - destruct (index_entries l !! fp) as [x|] eqn:Hx; [|done]. case_decide as Ha; [|done].
    intros [= <-]. apply index_entries_elem in Hx as [Hx Hfp].
    apply Hl in Hx as (pk & Hpk & ->). by exists pk.
  - intros (pk & Hpk & <- & Ha & ->).
    change (PublicKey_Fingerprint pk) with (AccessEntry_Fingerprint (entry_of host pk)).
    rewrite (index_entries_functional l (entry_of host pk)); [by rewrite decide_True| |].
    + intros x Hx Hfp. apply Hl in Hx as (pk' & Hpk' & ->). f_equal.
      by apply (unique_key PublicKey_Fingerprint (public_keys d)); [apply wf_key_fingerprint|apply Hpk'|apply Hpk|].
    + apply Hl. by exists pk.
Qed.

Lemma to_uint64_id n : 0 ≤ n < 2 ^ 64 → to_uint64 n = n.
Proof. apply Z.mod_small. Qed.

(** The host's daemon applies it. *)
Lemma snapshotEnvelope_applied seed host snap w env w' c :
  String.length seed = 32%nat → signer s = Some (Identity.GenerateKeyPair seed) →
  db_wf (w_db w) → paired (Identity.GenerateKeyPair seed) host c →
  (∀ h, h ∈ hosts (w_db w) → Host_ID h = Host_ID host → c_seq (cl_cache c) ≤ Host_LastSeq h) →
  json_valid (Snapshot_json snap) = true →
  snapshotEnvelope s (Host_ID host) snap w = (inr env, w') →
  cl_cache (dispatch env c).2 =
    {| c_seq := Envelope_Seq env; c_entries := index_entries (Snapshot_Entries snap) |}.
Proof.
  intros Hlen Hk Hwf [Hh Hs] Hseq Hvalid Hr.
  destruct (snapshotEnvelope_inr _ _ _ _ _ _ Hk Hr) as
    (n & Hty & Hd & Hn & Hsig & h & Hin & Hid & -> & Hmax).
  assert (host_seq_ok h) as [Hok _] by (eapply Forall_forall; [apply wf_host_seq, Hwf|done]).
  rewrite to_uint64_id in Hn by (unfold int64_max in *; lia).
  apply dispatch_applies; [done| | |].
  - unfold verifySnapshot. rewrite Hs, decide_False by apply PublicKey_not_empty.
    rewrite Hsig, Hh. by apply Identity.Verify_Sign.
  - rewrite Hn. specialize (Hseq h Hin Hid). lia.
  - rewrite Hd, unmarshal_print by done. apply Snapshot_roundtrip.
Qed.

(** A published snapshot, once delivered, decides logins by the grants. *)
Lemma published_decides seed host w env w' c fp account e :
  String.length seed = 32%nat → signer s = Some (Identity.GenerateKeyPair seed) →
  db_wf (w_db w) → text_keys (w_db w) host →
  paired (Identity.GenerateKeyPair seed) host c →
  (∀ h, h ∈ hosts (w_db w) → Host_ID h = Host_ID host → c_seq (cl_cache c) ≤ Host_LastSeq h) →
  publish host w = (inr env, w') →
  authorize (cl_cache (dispatch env c).2) fp account = Some e ↔
  ∃ pk, allowed_key (w_db w) (Host_ID host) pk ∧ PublicKey_Fingerprint pk = fp ∧
        account ∈ Host_Accounts host ∧ e = entry_of host pk.
Proof.
  intros Hlen Hk Hwf Ht Hpair Hseq Hr. unfold publish in Hr.
  apply bind_inr in Hr as (snap & w1 & Hb & Hr). apply buildSnapshot_entries in Hb as [[Hdb _] He].
  rewrite <-Hdb in Hwf, Hseq. rewrite (snapshotEnvelope_applied seed host snap w1 env w' c); try done.
  - rewrite Hdb in Hwf. by apply authorize_allowed.
  - eapply snapshot_valid; [done|]. intros x. apply He.
Qed.
End delivery.

(** ** The handshake *)

Section handshake.
Context `{Platform, !Alone, !PlatformLaws} (s : Server).

(** What a daemon's connection answers to a challenge. *)
Definition daemon_peer (c : Client) (challenge : Envelope) : option Envelope :=
  match authenticate c challenge with inr env => Some env | inl _ => None end.

Lemma authenticateDaemon_inr peer w host version w' :
  authenticateDaemon peer w = (inr (host, version), w') →
  let nonce := env_rand (w_tick w) Identity.challengeSize in
  w_db w' = w_db w ∧ host ∈ hosts (w_db w) ∧ Host_Status host = "active" ∧
  ∃ env auth, peer (NewEnvelope TypeChallenge (Some (Challenge_json {| Challenge_Nonce := nonce |})))
                = Some env ∧
    unmarshal Auth_of_json (Envelope_Data env) = Some auth ∧
    parseUUID (Auth_HostID auth) = Some (Host_ID host) ∧
    Identity.Verify (Host_IdentityKey host) nonce (Auth_Signature auth) = inr tt.
Proof.
  intros Hr nonce. unfold authenticateDaemon, randBytes in Hr.
  apply bind_inr in Hr as (n & w1 & [= <- <-] & Hr).
  destruct (peer _) as [env|] eqn:Hp; [|done]. case_bool_decide; [|done]. simpl in Hr.
  destruct (unmarshal _ _) as [auth|] eqn:Hu; [|done].
  destruct (parseUUID _) as [id|] eqn:Hid; [|done].
  apply bind_inr in Hr as (h & w2 & Hq & Hr). apply pool_inr in Hq as (_ & d & Hq & ->).
  invert_query Hq. apply first_row_Some in Hq as [Hin Hh].
  apply bind_inr in Hr as ([] & w3 & Hst & Hr). case_decide; [|done]. injection Hst as <-.
  apply bind_inr in Hr as ([] & w4 & Hv & Hr). unfold lift in Hv. injection Hv as Hv <-.
  injection Hr as <- <- <-. split_and!; try done. exists env, auth. rewrite Hh. by split_and!.
Qed.

(** A daemon answers a challenge with its host id, its version and a signature
    of the nonce. *)
Lemma daemon_peer_answers c nonce :
  daemon_peer c (NewEnvelope TypeChallenge (Some (Challenge_json {| Challenge_Nonce := nonce |}))) =
  Some (NewEnvelope TypeAuth (Some (Auth_json
    {| Auth_HostID := dc_HostID (cl_cfg c);
       Auth_Signature := Identity.Sign (cl_identity c) nonce; Auth_Version := cl_version c |}))).
Proof.
  unfold daemon_peer, authenticate. rewrite bool_decide_true by done. simpl negb. cbv iota.
  simpl Envelope_Data. rewrite unmarshal_print; [by rewrite Challenge_roundtrip|].
  simpl. by rewrite EncodeToString_valid.
Qed.

Lemma Auth_valid a :
  valid_text (Auth_HostID a) = true → valid_text (Auth_Version a) = true →
  json_valid (Auth_json a) = true.
Proof.
  intros Hh Hv. unfold Auth_json. case_decide; simpl; by rewrite Hh, EncodeToString_valid, ?Hv.
Qed.

Lemma authenticateDaemon_completes seed host c w :
  String.length seed = 32%nat → env_fault (S (w_tick w)) = NoFault →
  db_wf (w_db w) → host ∈ hosts (w_db w) → uuid_wf (Host_ID host) →
  Host_Status host = "active" →
  Host_IdentityKey host = Identity.PublicKey (Identity.GenerateKeyPair seed) →
  cl_identity c = Identity.GenerateKeyPair seed →
  dc_HostID (cl_cfg c) = uuidString (Host_ID host) → valid_text (cl_version c) = true →
  ∃ w', authenticateDaemon (daemon_peer c) w = (inr (host, cl_version c), w').
Proof.
  intros Hlen Hf Hwf Hin Huuid Hst Hkey Hid Hh Hv. eexists.
  unfold authenticateDaemon. apply bind_inr. do 2 eexists. split; [reflexivity|].
  rewrite daemon_peer_answers. rewrite bool_decide_true by done.
  cbn [negb NewEnvelope Envelope_Data]. rewrite unmarshal_print, Auth_roundtrip.
  - cbn [Auth_HostID]. unfold parseUUID. rewrite Hh, uuid_scan_print by done.
    apply bind_inr. do 2 eexists. split.
    { apply pool_ok; [done|]. unfold GetHostByID, select_one.
      rewrite (first_row_unique _ Host_ID _ host); try done. apply (wf_host_id _ Hwf). }
    apply bind_inr. do 2 eexists. split; [by rewrite decide_True by done|].
    apply bind_inr. do 2 eexists. split; [|done].
    unfold lift. cbn [Auth_Signature]. rewrite Hkey, Hid, Identity.Verify_Sign by done. done.
  - apply Auth_valid; simpl; [rewrite Hh; apply uuidString_valid|done].
Qed.
End handshake.

(** ** Secret sets *)

Section sets.
Context `{Platform, !Alone, !PlatformLaws, Disk} (s : Server).

Lemma NextHostSetSeq_inr id now u d n d' :
  NextHostSetSeq id now u d = inr (n, d') →
  ∃ h, h ∈ hosts d ∧ Host_ID h = id ∧ n = Host_LastSetSeq h + 1 ∧ Host_LastSetSeq h < int64_max.
Proof.
  intros Hq. invert_query Hq.
  match goal with H : first_row _ _ = Some _ |- _ => apply first_row_Some in H as [Hin Hid] end.
  eexists. split_and!; try done.
  match goal with H : Forall _ _ |- _ => rewrite Forall_forall in H; by apply H end.
Qed.

(** What the envelope of a bundle is: sealed to the host's key, numbered and
    signed. *)
Lemma secretSetsEnvelope_inr kp sk host bundle w env w' :
  signer s = Some kp → String.length sk = 32%nat →
  Host_EncryptionKey host = Hybrid.PublicKey sk →
  secretSetsEnvelope s host (Some bundle) w = (inr env, w') →
  ∃ sealed seq, Envelope_Type env = TypeSecretSets ∧
    Envelope_Data env =
      json_print (SealedSecretSets_json {| SealedSecretSets_Sealed := sealed |}) ∧
    Hybrid.Open sk sealed = inr (json_print (SecretSets_json bundle)) ∧
    Envelope_Seq env = to_uint64 seq ∧
    Envelope_Sig env = Identity.Sign kp
      (SecretSetsSigningInput (uuidString (Host_ID host)) (Envelope_Seq env) (Envelope_Data env)) ∧
    ∃ h, h ∈ hosts (w_db w) ∧ Host_ID h = Host_ID host ∧ seq = Host_LastSetSeq h + 1 ∧
         Host_LastSetSeq h < int64_max.
Proof.
  intros Hk Hsk Hkey Hr. unfold secretSetsEnvelope in Hr.
  rewrite Hkey in Hr. unfold Hybrid.PublicKey in Hr. rewrite DecodeString_EncodeToString, Hk in Hr.
  unfold randBytes in Hr. apply bind_inr in Hr as (e & w1 & [= <- <-] & Hr).
  apply bind_inr in Hr as (n & w2 & [= <- <-] & Hr).
  apply bind_inr in Hr as (sealed & w3 & Hseal & Hr). unfold lift in Hseal.
  injection Hseal as Hseal <-.
  apply Hybrid.Open_Seal in Hseal; [|done|apply env_rand_length..].
  apply bind_inr in Hr as (seq & w4 & Hq & [= <- <-]).
  apply pool_inr in Hq as (_ & d & Hq & _). apply NextHostSetSeq_inr in Hq.
  exists sealed, seq. by split_and!.
Qed.

Lemma dispatch_sets env c ss sealed plain sk bundle :
  Envelope_Type env = TypeSecretSets → cl_secrets c = Some ss → ss_key ss = Some sk →
  verifySecretSets (cl_cfg c) env = inr tt → ss_seq ss < Envelope_Seq env →
  unmarshal SealedSecretSets_of_json (Envelope_Data env) =
    Some {| SealedSecretSets_Sealed := sealed |} →
  Hybrid.Open sk sealed = inr plain → unmarshal SecretSets_of_json plain = Some bundle →
  dispatch env c = (inr tt, set_secrets
    {| ss_seq := Envelope_Seq env; ss_ready := true;
       ss_sets := open_sets (SecretSets_Sets bundle); ss_key := Some sk |} c).
Proof.
  intros Ht Hss Hsk Hv Hs Hu Ho Hb. unfold dispatch. rewrite Ht, Hss, Hv.
  rewrite decide_False by done. rewrite decide_True by done. rewrite decide_False by lia.
  rewrite Hu. unfold Apply. cbn [SealedSecretSets_Sealed]. by rewrite Hsk, Ho, Hb.
Qed.

Lemma open_sets_functional l x :
  (∀ y, y ∈ l → ClearSet_Name y = ClearSet_Name x → y = x) → x ∈ l →
  open_sets l !! ClearSet_Name x = Some {| os_asUser := ClearSet_AsUser x;
    os_version := ClearSet_Version x; os_values := ClearSet_Values x |}.
Proof.
  intros Hf Hx. apply (index_by_functional ClearSet_Name (λ x, {| os_asUser := ClearSet_AsUser x;
    os_version := ClearSet_Version x; os_values := ClearSet_Values x |})); [|done].
  intros y Hy Hn. by rewrite (Hf y Hy Hn).
Qed.
Lemma open_sets_elem l name o :
  open_sets l !! name = Some o →
  ∃ x, x ∈ l ∧ ClearSet_Name x = name ∧ os_asUser o = ClearSet_AsUser x ∧
       os_values o = ClearSet_Values x.
Proof. intros (x & Hx & Hn & <-)%(index_by_elem ClearSet_Name). by exists x. Qed.

Lemma to_uint64_range n : 0 ≤ to_uint64 n < 2 ^ 64.
Proof. unfold to_uint64. apply Z.mod_pos_bound. lia. Qed.

(** Every string of the bundle is text, as the columns' types make sure for
    the names; the values are the users'. *)
Definition text_bundle (b : SecretSets) : Prop := json_valid (SecretSets_json b) = true.

(** The publication of a host's sets, as a push and a new connection do it. *)
Definition publishSets (host : Host) : IO (option SecretSets * Envelope) :=
  sets <- buildSecretSets s host;;
  env <- secretSetsEnvelope s host sets;;
  ret (sets, env).

Lemma published_sets_held seed sk kw host w bundle env w' c ss :
  String.length seed = 32%nat → signer s = Some (Identity.GenerateKeyPair seed) →
  wrapper s = Some kw → String.length sk = 32%nat →
  Host_EncryptionKey host = Hybrid.PublicKey sk →
  db_wf (w_db w) → paired (Identity.GenerateKeyPair seed) host c →
  cl_secrets c = Some ss → ss_key ss = Some sk →
  (∀ h, h ∈ hosts (w_db w) → Host_ID h = Host_ID host → ss_seq ss ≤ Host_LastSetSeq h) →
  publishSets host w = (inr (Some bundle, env), w') → text_bundle bundle →
  ∃ ss', dispatch env c = (inr tt, set_secrets ss' c) ∧
    ∀ name values asUser, Get name ss' = Some (values, asUser) ↔
      bound_set kw (w_db w) (Host_ID host) name asUser values.
Proof.
  intros Hlen Hk Hkw Hsk Hkey Hwf [Hh Hs] Hss Hssk Hseq Hr Htext. unfold publishSets in Hr.
  apply bind_inr in Hr as (o & w1 & Hb & Hr). apply bind_inr in Hr as (env' & w2 & He & [= -> -> <-]).
  destruct (buildSecretSets_inr s _ _ _ _ _ Hkw Hwf Hb) as ([Hdb _] & l & [= ->] & Hl & Hall).
  destruct (secretSetsEnvelope_inr _ sk host _ _ _ _ Hk Hsk Hkey He) as
    (sealed & n & Hty & Hd & Hopen & Hn & Hsig & h & Hin & Hid & -> & Hmax). rewrite Hdb in Hin.
  assert (host_seq_ok h) as [_ Hok] by (eapply Forall_forall; [apply wf_host_seq, Hwf|done]).
  rewrite to_uint64_id in Hn by (unfold int64_max in *; lia).
  eexists. split.
  - eapply (dispatch_sets env c ss sealed _ sk {| SecretSets_Sets := l |}); try done.
    + unfold verifySecretSets. rewrite Hs, decide_False by apply PublicKey_not_empty.
      rewrite Hsig, Hh. by apply Identity.Verify_Sign.
    + rewrite Hn. specialize (Hseq h Hin Hid). lia.
    + rewrite Hd, unmarshal_print; [apply SealedSecretSets_roundtrip|].
      simpl. by rewrite EncodeToString_valid.
    + rewrite unmarshal_print by done. apply SecretSets_roundtrip. simpl. apply Forall_forall.
      intros y (b & x & _ & _ & _ & -> & _)%Hl. apply to_uint64_range.
  - intros name values asUser. unfold Get. simpl. split.
    + intros (o & Ho & [= -> ->])%fmap_Some. apply open_sets_elem in Ho as (y & Hy & <- & -> & ->).
      destruct (Hl y Hy) as (b & x & (? & ? & ? & ? & ?) & Hnm & Hu & _ & Hv).
      exists b, x. by split_and!.
    + intros (b & x & Hb1 & Hb2 & Hb3 & Hx1 & Hx2 & <- & <- & Hv).
      assert (binds (w_db w) (Host_ID host) b x) as Hbx by done.
      destruct (Hall b x Hbx) as (y & Hy & Hny). destruct (Hl y Hy) as (b' & x' & Hbx' & Hn' & Hu' & _ & Hv').
      destruct (binds_unique _ _ _ _ _ _ Hwf Hbx Hbx') as [<- <-]; [congruence|].
      rewrite <-Hny, (open_sets_functional l y); [|by intros; eapply bundle_names_unique|done].
      simpl. by rewrite Hu', (set_values_unique _ _ _ _ _ Hv' Hv).
Qed.
End sets.

(** ** Revocation *)

(** The last envelope of the connection, which is then cancelled. *)
Lemma disconnect_last id env h ch q :
  conns h !! id = Some ch → chans h !! ch = Some q → (length q < chan_cap)%nat →
  ch ∈ cancelled (disconnect id env h) ∧
  chans (disconnect id env h) !! ch = Some (q ++ [env]).
Proof.
  intros Hc Hq Hlen. unfold disconnect, try_send. rewrite Hc, Hq, decide_True by done. simpl.
  split; [apply elem_of_union; left; by apply elem_of_singleton|]. apply lookup_insert_eq.
Qed.

Section revocation.
Context `{Platform, !Alone} (s : Server).

Lemma revokeHost_inr hostID w w' :
  revokeHost s hostID w = (inr tt, w') →
  ∃ purge d1 w1, evolves (w_db w) d1 ∧ w_db w1 = d1 ∧ w_tx w1 = w_tx w ∧ w_hub w1 = w_hub w ∧
    (∃ h, h ∈ hosts d1 ∧ Host_ID h = hostID ∧ Host_Status h = "revoked") ∧
    (∀ h, h ∈ hosts d1 → ∃ h0, h0 ∈ hosts (w_db w) ∧ Host_ID h0 = Host_ID h ∧
                               Host_LastSeq h0 = Host_LastSeq h) ∧
    ∃ w2, snapshotEnvelope s hostID {| Snapshot_Entries := [] |} w1 = (inr purge, w2) ∧
          w' = with_hub (disconnect (uuidString hostID) purge (w_hub w2)) w2.
Proof.
  intros Hr. unfold revokeHost in Hr. apply bind_inr in Hr as (n & w1 & Hq & Hr).
  apply pool_inr in Hq as (_ & d1 & Hq & ->).
  pose proof (SetHostStatus_ev _ _ _ _ _ _ Hq) as Hev.
  apply bind_inr in Hr as ([] & w2 & Hn & Hr). case_decide as Hz; [done|]. injection Hn as <-.
  apply bind_inr in Hr as (purge & w3 & He & Hr). injection Hr as <-.
  invert_query Hq. exists purge, (w_db (with_db (on_hosts (update_where (λ h, Host_ID h = hostID)
    (set_Host_Status "revoked")) (w_db w)) (step w))), (with_db (on_hosts (update_where
    (λ h, Host_ID h = hostID) (set_Host_Status "revoked")) (w_db w)) (step w)).
  split_and!; try done; [| |by exists w3]; simpl.
  - destruct (first_row (λ h, Host_ID h = hostID) (hosts (w_db w))) as [h|] eqn:Hf.
    + apply first_row_Some in Hf as [Hin Hid]. exists (set_Host_Status "revoked" h).
      split; [|done]. apply elem_of_update_where. exists h. split; [done|]. by rewrite decide_True.
    + exfalso. apply Hz. unfold count_where. 
      assert (filter (λ h, Host_ID h = hostID) (hosts (w_db w)) = []) as ->; [|done].
      unfold first_row in Hf. by destruct (filter _ _).
  - intros h (h0 & Hin & ->)%elem_of_update_where. exists h0. split; [done|]. by case_decide.
Qed.

Lemma pool_frame {A} (q : Query A) w :
  w_hub (pool q w).2 = w_hub w ∧ w_tx (pool q w).2 = w_tx w.
Proof. unfold pool. rewrite catch_up_alone. by destruct (q _ _ _) as [?|[? ?]], (env_fault _). Qed.

Lemma snapshotEnvelope_frame id snap w r w' :
  snapshotEnvelope s id snap w = (r, w') → w_hub w' = w_hub w ∧ w_tx w' = w_tx w.
Proof.
  unfold snapshotEnvelope. destruct (signer s); [|by intros [= <- <-]].
  unfold bind. pose proof (pool_frame (NextHostSeq id) w) as Hp.
  destruct (pool _ w) as [[e|n] w1]; by intros [= <- <-].
Qed.

(** A host that was revoked never completes the handshake again. *)
Lemma revoked_never_authenticates d1 h w1 peer host v w2 :
  h ∈ hosts d1 → Host_Status h = "revoked" → evolves d1 (w_db w1) → db_wf (w_db w1) →
  authenticateDaemon peer w1 = (inr (host, v), w2) → Host_ID host ≠ Host_ID h.
Proof.
  intros Hin Hst Hev Hwf Ha Hid.
  apply authenticateDaemon_inr in Ha as (_ & Hhost & Hact & _).
  pose proof (rows_le_key host_le Host_ID (hosts d1) (hosts (w_db w1)) h host) as Hle.
  destruct Hle as (_ & _ & _ & _ & _ & _ & Hr); auto using ev_hosts, wf_host_id.
  - by intros a b (? & _).
  - rewrite Hr in Hact by done. discriminate.
Qed.
End revocation.

(** ** Claims *)

Section claims.
Context `{Platform, !Alone, !PlatformLaws, Disk} (s : Server)
  (http_get : nat → string → error + (Z * bytes)).

(** C1: SSH access on a host is exactly what the grants say.  When the
    database answers and no other request commits meanwhile, publishing a
    snapshot for an enrolled host succeeds; and once a daemon of the host whose
    last applied number is not above the host's counter has processed the
    envelope, it accepts a key for an account if and only if the key belongs to
    an active user who holds [host.access] on the host and the account is one
    of the host's.  (The condition on the number leaves out a daemon that kept
    its cache when it was enrolled again as another host: see
    [DaemonProps.reenrolled_daemon_ignores_low_snapshots].) *)
Theorem ssh_access_is_what_the_grants_say seed host row w c :
  String.length seed = 32%nat → signer s = Some (Identity.GenerateKeyPair seed) →
  env_fault (w_tick w) = NoFault → env_fault (S (w_tick w)) = NoFault →
  db_wf (w_db w) → text_keys (w_db w) host →
  row ∈ hosts (w_db w) → Host_ID row = Host_ID host → Host_LastSeq row < int64_max →
  paired (Identity.GenerateKeyPair seed) host c → c_seq (cl_cache c) ≤ Host_LastSeq row →
  ∃ env w', publish s host w = (inr env, w') ∧
    ∀ fp account e, authorize (cl_cache (dispatch env c).2) fp account = Some e ↔
      ∃ pk, allowed_key (w_db w) (Host_ID host) pk ∧ PublicKey_Fingerprint pk = fp ∧
            account ∈ Host_Accounts host ∧ e = entry_of host pk.
Proof.
  intros Hlen Hk Hf Hf' Hwf Ht Hrow Hid Hmax Hpair Hseq.
  destruct (publish_succeeds s host w row) as (env & w' & Hr); try done.
  exists env, w'. split; [done|]. intros fp account e.
  eapply (published_decides s seed); try done. intros h Hh Hhid.
  by rewrite (unique_key Host_ID (hosts (w_db w)) h row (wf_host_id _ Hwf) Hh Hrow ltac:(congruence)).
Qed.

(** C24: only a peer that signed this connection's fresh challenge with the
    identity key of an active host is accepted, as that host; the check
    changes nothing in the database.  No other
    request commits meanwhile. *)
Theorem only_active_hosts_authenticate peer w host version w' :
  authenticateDaemon peer w = (inr (host, version), w') →
  let nonce := env_rand (w_tick w) Identity.challengeSize in
  w_db w' = w_db w ∧ host ∈ hosts (w_db w) ∧ Host_Status host = "active" ∧
  ∃ env auth, peer (NewEnvelope TypeChallenge (Some (Challenge_json {| Challenge_Nonce := nonce |})))
                = Some env ∧
    unmarshal Auth_of_json (Envelope_Data env) = Some auth ∧
    parseUUID (Auth_HostID auth) = Some (Host_ID host) ∧
    Identity.Verify (Host_IdentityKey host) nonce (Auth_Signature auth) = inr tt.
Proof. apply authenticateDaemon_inr. Qed.

(** The daemon of an active host completes the handshake: its answer to
    the challenge is accepted, as its host and with its version. *)
Theorem enrolled_daemon_authenticates seed host c w :
  String.length seed = 32%nat → env_fault (S (w_tick w)) = NoFault →
  db_wf (w_db w) → host ∈ hosts (w_db w) → uuid_wf (Host_ID host) →
  Host_Status host = "active" →
  Host_IdentityKey host = Identity.PublicKey (Identity.GenerateKeyPair seed) →
  cl_identity c = Identity.GenerateKeyPair seed →
  dc_HostID (cl_cfg c) = uuidString (Host_ID host) → valid_text (cl_version c) = true →
  ∃ w', authenticateDaemon (daemon_peer c) w = (inr (host, cl_version c), w').
Proof. apply authenticateDaemon_completes. Qed.

(** C14: the bundle published for a host gives its daemon exactly the sets
    with a live binding to the host, each under its name, scoped to the
    binding's account, with the values the vault opens its entries to, when the
    number of the last bundle it holds is not above the host's counter and no
    other request commits while the bundle is made. *)
Theorem daemon_holds_exactly_the_bound_sets seed sk kw host w bundle env w' c ss :
  String.length seed = 32%nat → signer s = Some (Identity.GenerateKeyPair seed) →
  wrapper s = Some kw → String.length sk = 32%nat →
  Host_EncryptionKey host = Hybrid.PublicKey sk →
  db_wf (w_db w) → paired (Identity.GenerateKeyPair seed) host c →
  cl_secrets c = Some ss → ss_key ss = Some sk →
  (∀ h, h ∈ hosts (w_db w) → Host_ID h = Host_ID host → ss_seq ss ≤ Host_LastSetSeq h) →
  publishSets s host w = (inr (Some bundle, env), w') → text_bundle bundle →
  ∃ ss', dispatch env c = (inr tt, set_secrets ss' c) ∧
    ∀ name values asUser, Get name ss' = Some (values, asUser) ↔
      bound_set kw (w_db w) (Host_ID host) name asUser values.
Proof. apply published_sets_held. Qed.

(** C11: revoking a host cuts it off.  If no other request commits while the
    host is revoked, no daemon is ever accepted as that host again, whatever
    happens later; and if the host is connected and its queue has room, a purge
    is queued last and the connection is cancelled.  A daemon of the host whose
    last applied number is not above the host's counter and that processes the
    purge authorizes no key at all.  (A queued purge need not arrive:
    [Conn.disconnect_can_lose_the_purge].) *)
Theorem revoked_hosts_are_cut_off seed hostID w w' :
  String.length seed = 32%nat → signer s = Some (Identity.GenerateKeyPair seed) →
  db_wf (w_db w) → w_tx w = None → revokeHost s hostID w = (inr tt, w') →
  (∀ w1 peer host v w2, cp_steps s http_get w' w1 →
     authenticateDaemon peer w1 = (inr (host, v), w2) → Host_ID host ≠ hostID) ∧
  ∀ ch q, conns (w_hub w) !! uuidString hostID = Some ch → chans (w_hub w) !! ch = Some q →
    (length q < chan_cap)%nat →
    ch ∈ cancelled (w_hub w') ∧ ∃ purge, chans (w_hub w') !! ch = Some (q ++ [purge]) ∧
    ∀ host c, Host_ID host = hostID → paired (Identity.GenerateKeyPair seed) host c →
      (∀ h, h ∈ hosts (w_db w) → Host_ID h = hostID → c_seq (cl_cache c) ≤ Host_LastSeq h) →
      ∀ fp account, authorize (cl_cache (dispatch purge c).2) fp account = None.
Proof.
  intros Hlen Hk Hwf Hx Hr.
  apply revokeHost_inr in Hr as
    (purge & d1 & w1 & Hev & Hd1 & Htx & Hhub & (h & Hh & Hid & Hst) & Hseqs & w2 & He & ->).
  destruct (snapshotEnvelope_frame s _ _ _ _ _ He) as [Hhub2 Htx2].
  assert (evolves d1 (w_db w2)) as Hev2.
  { pose proof (purge_rel s hostID w1) as Hrel.
    rewrite He in Hrel. rewrite <-Hd1. eapply effect_alone; [apply _|congruence|exact Hrel]. }
  assert (db_wf d1) as Hwf1 by (by apply Hev). split.
  - intros w3 peer host v w4 Hsteps Ha. rewrite <-Hid.
    assert (evolves (w_db w2) (w_db w3)) as Hev3 by
      (apply (cp_steps_evolves s http_get) in Hsteps; [exact Hsteps|simpl; congruence]).
    eapply (revoked_never_authenticates d1 h); [done|done|by etransitivity| |exact Ha].
    apply Hev3, Hev2, Hwf1.
  - intros ch q Hc Hq Hlq. simpl. rewrite Hhub2, Hhub.
    destruct (disconnect_last (uuidString hostID) purge (w_hub w) ch q) as [Hcan Hlast]; [done..|].
    split; [done|]. exists purge. split; [done|]. intros host c <- Hpair Hseq fp account.
    unfold authorize, Lookup.
    rewrite (snapshotEnvelope_applied s seed host {| Snapshot_Entries := [] |} w1 purge w2 c); try done; [by rewrite Hd1|].
    intros k Hkin Hkid. rewrite Hd1 in Hkin. destruct (Hseqs k Hkin) as (k0 & Hk0 & Hid0 & <-).
    apply Hseq; [done|congruence].
Qed.
End claims.

(** ** Witnesses *)

(** The daemon of the demo deployment's host. *)
Definition web_daemon : Client :=
  {| cl_cfg := {| dc_ControlPlane := "https://custos.example/"; dc_HostID := uuidString host_id;
                  dc_SigningPublicKey := Identity.PublicKey demo_kp |};
     cl_identity := demo_kp; cl_cache := {| c_seq := 2; c_entries := ∅ |};
     cl_secrets := Some (NewSecretStore (Some (zeros 32))); cl_disk := ∅; cl_version := "v1.0.1";
     cl_upgrading := false; cl_upgrades := []; cl_sent := []; cl_writes := 0 |}.

Lemma demo_server_signer : signer demo_server = Some (Identity.GenerateKeyPair (zeros 32)).
Proof. vm_compute. reflexivity. Qed.
Lemma web_paired : paired (Identity.GenerateKeyPair (zeros 32)) demo_host web_daemon.
Proof. split; reflexivity. Qed.
Lemma demo_text_keys : text_keys demo_db demo_host.
Proof. apply (bool_decide_unpack _). vm_compute. exact I. Qed.

Lemma demo_key_allowed : allowed_key demo_db (Host_ID demo_host) demo_key.
Proof.
  split; [|split].
  - apply (bool_decide_unpack _). vm_compute. exact I.
  - exists (demo_user alice_id "alice@x" "member"). split; [|split; reflexivity].
    apply (bool_decide_unpack _). vm_compute. exact I.
  - apply reaches_holds. exists (demo_grant 11%N alice_id "host.access" "group" (Some group_id)).
    split_and!; [apply (bool_decide_unpack _); vm_compute; exact I|reflexivity..|].
    apply (bool_decide_unpack _). vm_compute. exact I.
Qed.

Lemma ssh_access_is_what_the_grants_say_witness :
  ∃ env w', publish demo_server demo_host demo_world = (inr env, w') ∧
    authorize (cl_cache (dispatch env web_daemon).2) "SHA256:fp" "deploy" =
      Some (entry_of demo_host demo_key).
Proof.
  destruct (ssh_access_is_what_the_grants_say demo_server (zeros 32) demo_host demo_host demo_world
              web_daemon) as (env & w' & Hr & Hauth).
  - reflexivity.
  - exact demo_server_signer.
  - reflexivity.
  - reflexivity.
  - exact demo_db_wf.
  - exact demo_text_keys.
  - apply (bool_decide_unpack _). vm_compute. exact I.
  - reflexivity.
  - reflexivity.
  - exact web_paired.
  - vm_compute. discriminate.
  - exists env, w'. split; [exact Hr|]. apply Hauth. exists demo_key. split; [exact demo_key_allowed|].
    split; [reflexivity|]. split; [|reflexivity]. apply (bool_decide_unpack _). vm_compute. exact I.
Defined.

Lemma only_active_hosts_authenticate_witness :
  ∃ host version w', authenticateDaemon (daemon_peer web_daemon) demo_world = (inr (host, version), w') ∧
    Host_Status host = "active" ∧ host ∈ hosts demo_db.
Proof.
  destruct (authenticateDaemon (daemon_peer web_daemon) demo_world) as [[e|[host version]] w'] eqn:Ha.
  - exfalso. apply (f_equal (λ x, match x.1 with inl _ => true | inr _ => false end)) in Ha.
    vm_compute in Ha. discriminate Ha.
  - exists host, version, w'. split; [reflexivity|].
    destruct (only_active_hosts_authenticate _ _ _ _ _ Ha) as (_ & Hin & Hst & _).
    split; [exact Hst|exact Hin].
Defined.

Lemma enrolled_daemon_authenticates_witness :
  ∃ w', authenticateDaemon (daemon_peer web_daemon) demo_world = (inr (demo_host, "v1.0.1"), w').
Proof.
  apply (enrolled_daemon_authenticates (zeros 32) demo_host web_daemon demo_world).
  - reflexivity.
  - reflexivity.
  - exact demo_db_wf.
  - apply (bool_decide_unpack _). vm_compute. exact I.
  - reflexivity.
  - reflexivity.
  - reflexivity.
  - reflexivity.
  - reflexivity.
  - reflexivity.
Defined.

(** The deployment after a value was stored in the set and the set bound to the
    host for the account [deploy]. *)
Definition demo_entry_request : Request :=
  demo_request "" [("id", uuidString set_id); ("key", "TOKEN")] (JObj [("value", JStr "s3cret")]).
Definition demo_bind_request : Request :=
  demo_request "" [("id", uuidString host_id)]
    (JObj [("set_id", JStr (uuidString set_id)); ("as_user", JStr "deploy")]).
Definition bound_db : DB := Eval vm_compute in
  let w1 := (serve (handleUpsertSetEntry demo_server admin_auth demo_entry_request) demo_world).2 in
  w_db (serve (handleBindSet demo_server admin_auth demo_bind_request) w1).2.
Definition bound_world : World := initial_world bound_db.

Lemma bound_world_wf : db_wf (w_db bound_world).
Proof.
  constructor; unfold references, may_reference, host_seq_ok; apply (bool_decide_unpack _); vm_compute; exact I.
Qed.

Lemma daemon_holds_exactly_the_bound_sets_witness :
  ∃ bundle env w', publishSets demo_server demo_host bound_world = (inr (Some bundle, env), w') ∧
    ∃ ss', dispatch env web_daemon = (inr tt, set_secrets ss' web_daemon) ∧
      Get "app" ss' = Some ({["TOKEN" := "s3cret"]}, "deploy") ∧
      bound_set demo_wrapper (w_db bound_world) host_id "app" "deploy" {["TOKEN" := "s3cret"]}.
Proof.
  assert (match (publishSets demo_server demo_host bound_world).1 with
          | inr (Some b, env) =>
              json_valid (SecretSets_json b) = true ∧
              (Get "app" <$> cl_secrets (dispatch env web_daemon).2) =
                Some (Some ({["TOKEN" := "s3cret"]}, "deploy"))
          | _ => False
          end) as Hrun by (vm_compute; split; reflexivity).
  destruct (publishSets demo_server demo_host bound_world) as [[e|[[bundle|] env]] w'] eqn:Hr;
    [destruct Hrun| |destruct Hrun].
  destruct Hrun as [Htext Happ]. exists bundle, env, w'. split; [reflexivity|].
  destruct (daemon_holds_exactly_the_bound_sets demo_server (zeros 32) (zeros 32) demo_wrapper
              demo_host bound_world bundle env w' web_daemon (NewSecretStore (Some (zeros 32))))
    as (ss' & Hd & Hget).
  - reflexivity.
  - exact demo_server_signer.
  - reflexivity.
  - reflexivity.
  - reflexivity.
  - exact bound_world_wf.
  - exact web_paired.
  - reflexivity.
  - reflexivity.
  - apply (Forall_forall (λ h, Host_ID h = host_id → 0 ≤ Host_LastSetSeq h)).
    apply (bool_decide_unpack _). vm_compute. exact I.
  - exact Hr.
  - exact Htext.
  - exists ss'. split; [exact Hd|].
    assert (Get "app" ss' = Some ({["TOKEN" := "s3cret"]}, "deploy")) as Hg.
    { rewrite Hd in Happ. injection Happ as Happ. exact Happ. }
    split; [exact Hg|]. apply Hget. exact Hg.
Defined.

(** The host is connected, with an empty queue. *)
Definition connected_world : World :=
  with_hub (register (uuidString host_id) 0 (make_chan newHub).2) demo_world.

Lemma revoked_hosts_are_cut_off_witness :
  let w' := (revokeHost demo_server host_id connected_world).2 in
  (0%nat ∈ cancelled (w_hub w')) ∧
  ∃ purge, chans (w_hub w') !! 0%nat = Some [purge] ∧
    authorize (cl_cache (dispatch purge web_daemon).2) "SHA256:fp" "deploy" = None.
Proof.
  intros w'.
  assert (revokeHost demo_server host_id connected_world = (inr tt, w')) as Hr
    by (vm_compute; reflexivity).
  destruct (revoked_hosts_are_cut_off demo_server demo_get (zeros 32) host_id connected_world w')
    as [_ Hc]; [reflexivity|exact demo_server_signer|exact demo_db_wf|reflexivity|exact Hr|].
  destruct (Hc 0%nat []) as (Hcan & purge & Hq & Hno); [reflexivity|reflexivity|vm_compute; lia|].
  split; [exact Hcan|]. exists purge. split; [exact Hq|].
  apply (Hno demo_host); [reflexivity|exact web_paired|].
  apply (Forall_forall (λ h, Host_ID h = host_id → 2 ≤ Host_LastSeq h)).
  apply (bool_decide_unpack _). vm_compute. exact I.
Defined.
