(* ===== verification/Interleaving.v ===== *)
(** Requests served at the same time.  A history is any sequence of commits,
    each of them made by some request or connection while it was served with
    its own clock, faults and commits of others in between.  What is proved of
    a history therefore holds of every interleaving.

    The end of the file runs three interleavings in which two requests that
    are correct one after the other are not when they overlap: the sources
    read, then write, without a lock in between. *)
From S2P Require Import Prelude Text Base64 Json Protocol Crypto Password Schema Evolve QUsers QAccess QSecrets World Http Perms Grants Accounts Auth Hosts Sets Upgrades Link Router Daemon Runs Demo Scenario SystemProps EndToEnd.

(** ** Histories *)

Section histories.
Context (s : Server) (http_get : nat → string → error + (Z * bytes)).

(** One commit point of a step of the server, under an oracle of its own. *)
Inductive commit (d d' : DB) : Prop :=
  | commit_own `{P : Platform} w w' cs :
      w_tx w = None → cp_step s http_get w w' → w_changes w' = w_changes w ++ cs →
      {| ch_own := true; ch_from := d; ch_to := d' |} ∈ cs → commit d d'.

Definition history : DB → DB → Prop := rtc commit.

(** Nothing is assumed of the others: what a step commits itself evolves the
    database whatever they do. *)
Lemma commit_evolves d d' : commit d d' → evolves d d'.
Proof.
  intros [P w w' cs Hx Hs Hcs Hin]. apply cp_step_effect in Hs as [_ (cs' & Hcs' & _ & Hok) _ _ _].
  rewrite Hcs in Hcs'. apply app_inv_head in Hcs' as <-.
  rewrite Forall_forall in Hok. eapply (λ Hx, Hok Hx _ Hin). intros x. congruence.
Qed.

Lemma history_evolves d d' : history d d' → evolves d d'.
Proof.
  induction 1 as [|d1 d2 d3 H1 _ IH]; [reflexivity|]. etransitivity; [by apply commit_evolves|exact IH].
Qed.

(** A step during which others make histories makes a history, and so does
    every part of it: interleavings nest. *)
Lemma linked_history `{P : Platform} cs d d' x :
  (∀ t (f : Others) d h, env_others t = Some f → history d (f d h).1) →
  (∀ c, c ∈ cs → ch_own c = true → commit (ch_from c) (ch_to c)) →
  Forall (change_ok evolves) cs → linked d cs d' → x ∈ (ch_from <$> cs) ++ [d'] → history d x.
Proof.
  intros Ho. revert d. induction cs as [|c cs IH]; intros d Hown.
  { simpl. intros _ -> ->%list_elem_of_singleton. constructor. }
  intros [Hc Hcs]%Forall_cons [<- Hl]. rewrite fmap_cons, <-app_comm_cons.
  intros [->|Hx]%elem_of_cons; [constructor|].
  etransitivity; [|apply IH; [|done|exact Hl|exact Hx]; intros c' Hc'; apply Hown; by right].
  unfold change_ok in Hc. destruct (ch_own c) eqn:Hb.
  - apply rtc_once, Hown; [by left|done].
  - destruct Hc as (t & f & h & Hf & ->). by eapply Ho.
Qed.

Lemma step_visits_history `{P : Platform} w w' x :
  (∀ t (f : Others) d h, env_others t = Some f → history d (f d h).1) →
  w_tx w = None → w_changes w = [] → cp_step s http_get w w' → x ∈ visited w' → history (w_db w) x.
Proof.
  intros Ho Hx Hw Hs Hv. destruct (cp_step_effect _ _ _ _ Hs) as [_ (cs & Hcs & Hl & Hok) _ _ _].
  unfold visited in Hv. rewrite Hcs, Hw in Hv.
  eapply linked_history; [exact Ho| |apply Hok; intros y; congruence|exact Hl|exact Hv].
  intros [own d d'] Hin Hown. simpl in *. subst own. by econstructor.
Qed.
Lemma step_history `{P : Platform} w w' :
  (∀ t (f : Others) d h, env_others t = Some f → history d (f d h).1) →
  w_tx w = None → cp_step s http_get w w' → history (w_db w) (w_db w').
Proof.
  intros Ho Hx Hs. destruct (cp_step_effect _ _ _ _ Hs) as [_ (cs & Hcs & Hl & Hok) _ _ _].
  eapply linked_history; [exact Ho| |apply Hok; intros y; congruence|exact Hl|].
  - intros [own d d'] Hin Hown. simpl in *. subst own. by econstructor.
  - apply elem_of_app. right. by apply list_elem_of_singleton.
Qed.

Lemma steps_history `{P : Platform} w w' :
  (∀ t (f : Others) d h, env_others t = Some f → history d (f d h).1) →
  w_tx w = None → cp_steps s http_get w w' → history (w_db w) (w_db w').
Proof.
  intros Ho Hx Hs. revert Hx. induction Hs as [|w1 w2 w3 Hs _ IH]; intros Hx; [constructor|].
  etransitivity; [by apply step_history|]. apply IH. by apply (cp_step_effect _ _ _ _ Hs).
Qed.

(** C5: at every later commit of every interleaving of requests the schema's
    constraints hold, a revoked grant, session or host is still revoked, a
    spent enrollment or reset token is still spent, and a user's role is the
    same. *)
Theorem revocations_are_final d d' :
  db_wf d → history d d' →
  db_wf d' ∧
  (∀ g g', g ∈ grants d → g' ∈ grants d' → Grant_ID g = Grant_ID g' →
     is_Some (Grant_RevokedAt g) → is_Some (Grant_RevokedAt g')) ∧
  (∀ x x', x ∈ sessions d → x' ∈ sessions d' → Session_ID x = Session_ID x' →
     is_Some (Session_RevokedAt x) → is_Some (Session_RevokedAt x')) ∧
  (∀ h h', h ∈ hosts d → h' ∈ hosts d' → Host_ID h = Host_ID h' →
     Host_Status h = "revoked" → Host_Status h' = "revoked") ∧
  (∀ t t', t ∈ enrollment_tokens d → t' ∈ enrollment_tokens d' →
     EnrollmentToken_ID t = EnrollmentToken_ID t' →
     is_Some (EnrollmentToken_UsedAt t) → is_Some (EnrollmentToken_UsedAt t')) ∧
  (∀ r r', r ∈ password_resets d → r' ∈ password_resets d' →
     PasswordReset_ID r = PasswordReset_ID r' →
     is_Some (PasswordReset_UsedAt r) → is_Some (PasswordReset_UsedAt r')) ∧
  (∀ u u', u ∈ users d → u' ∈ users d' → User_ID u = User_ID u' →
     User_Role u = User_Role u').
Proof.
  intros Hwf Hh. pose proof (history_evolves _ _ Hh) as Hev.
  pose proof (ev_wf _ _ Hev Hwf) as Hwf'.
  split; [done|]. split_and!; intros x x' Hin Hin' Hid.
  - eapply (rows_le_key grant_le); [apply Hev|by intros ? ? []|apply Hwf'|done..].
  - eapply (rows_le_key session_le); [apply Hev|by intros ? ? []|apply Hwf'|done..].
  - eapply (rows_le_key host_le); [apply Hev|by intros ? ? []|apply Hwf'|done..].
  - eapply (rows_le_key enroll_le); [apply Hev|by intros ? ? []|apply Hwf'|done..].
  - eapply (rows_le_key reset_le); [apply Hev|by intros ? ? []|apply Hwf'|done..].
  - eapply (rows_le_key user_le); [apply Hev|by intros ? ? []|apply Hwf'|done..].
Qed.

(** C36: the four audit logs (secret, SSH access, grant and set events) only
    grow, however the requests interleave: what was recorded at one commit is
    a prefix of what is recorded at any later one. *)
Theorem audit_trail_is_append_only d d' :
  history d d' →
  secret_audit_logs d `prefix_of` secret_audit_logs d' ∧
  ssh_access_logs d `prefix_of` ssh_access_logs d' ∧
  grant_audit_logs d `prefix_of` grant_audit_logs d' ∧
  set_audit_logs d `prefix_of` set_audit_logs d'.
Proof. intros Hh. by destruct (history_evolves _ _ Hh). Qed.
End histories.

(** ** Running one request while another is served *)

(** Others serve [run], from step [t] of the clock on. *)
Definition at_step (d : DB) (h : Hub) (t : nat) : World :=
  {| w_db := d; w_tx := None; w_hub := h; w_tick := t; w_mail := []; w_checksums := ∅;
     w_changes := []; w_signed := [] |}.
Definition meanwhile (run : World → World) (t : nat) : Others := λ d h,
  let w := run (at_step d h t) in (w_db w, w_hub w).

(** The platform of [Demo], where others do [f] just before step [k]. *)
Definition interrupted (k : nat) (f : Others) : Platform := {|
  platform_env := {|
    env_fault := env_fault; env_now := env_now; env_uuid := env_uuid; env_rand := env_rand;
    env_others t := if decide (t = k) then Some f else None; uuid_scan := uuid_scan |};
  platform_json := platform_json; platform_time := platform_time;
  platform_crypto := platform_crypto; platform_collation := platform_collation;
  platform_match := platform_match |}.

Definition demo_serve (e : Route) (r : Request) (w : World) : World :=
  (serve (route demo_server demo_get e r) w).2.

(** A served request is something others may do. *)
Lemma meanwhile_history e r t d h :
  history demo_server demo_get d (meanwhile (demo_serve e r) t d h).1.
Proof.
  apply (steps_history demo_server demo_get (at_step d h t)); [|done|apply rtc_once, step_request].
  intros t' f d' h' Hf. rewrite alone in Hf. done.
Qed.


(** ** Two enrollments with one token

    [enroll] reads the token without locking its row, and [MarkTokenUsed] does
    not ask whether it is still unused. *)

Definition once_token : EnrollmentToken :=
  {| EnrollmentToken_ID := 30%N; EnrollmentToken_TokenHash := HashToken "once";
     EnrollmentToken_Label := None; EnrollmentToken_Accounts := ["deploy"];
     EnrollmentToken_CreatedBy := Some admin_id; EnrollmentToken_HostID := None;
     EnrollmentToken_ExpiresAt := 2000000000 * second; EnrollmentToken_UsedAt := None;
     EnrollmentToken_CreatedAt := 0 |}.
Definition enroll_request (machine : string) : Request :=
  demo_request "" [] (JObj [("token", JStr "once"); ("public_key", JStr machine);
                            ("hostname", JStr machine); ("machine_id", JStr machine)]).

(** The second request is served after the first one has read the token. *)
Definition enroll_race : Response * World :=
  let P := interrupted 3 (meanwhile (demo_serve (Public PostEnroll) (enroll_request "b")) 100) in
  serve (route demo_server demo_get (Public PostEnroll) (enroll_request "a"))
    (initial_world (on_enrollment_tokens (λ _, [once_token]) demo_db)).

Theorem one_token_enrolls_two_hosts :
  resp_status enroll_race.1 = 200 ∧
  filter (λ h, Host_Status h = "active") (hosts (w_db enroll_race.2)) = hosts (w_db enroll_race.2) ∧
  Host_Hostname <$> hosts (w_db enroll_race.2) = ["web.local"; "b"; "a"].
Proof. split_and!; vm_compute; reflexivity. Qed.

(** ** A revocation overtaken by an older snapshot

    [pushSnapshot] reads the access of a host and numbers the snapshot in two
    steps; a snapshot with the access of before a revocation can get the
    number after the revocation's. *)

Definition connected : World :=
  with_hub (register (uuidString host_id) 0 (make_chan newHub).2) demo_world.
Definition by_admin (id : uuid) : Request := demo_request "admintoken" [("id", uuidString id)] JNull.

(** The grant is revoked after a refresh of the host has read its access. *)
Definition refresh_race : Response * World :=
  let P := interrupted 3 (meanwhile (demo_serve (Admin DeleteGrant) (by_admin 11%N)) 100) in
  serve (route demo_server demo_get (User_ PostHostRefresh) (by_admin host_id)) connected.
Definition refresh_queue : list Envelope :=
  default [] (chans (w_hub refresh_race.2) !! 0%nat).

Theorem older_snapshot_undoes_a_revocation :
  Envelope_Seq <$> refresh_queue = [3; 4] ∧
  ¬ holds (w_db refresh_race.2) alice_id "host.access" (TResource "host" host_id) ∧
  is_Some (authorize (cl_cache (foldl (λ c env, (dispatch env c).2) web_daemon refresh_queue))
             "SHA256:fp" "deploy").
Proof.
  split_and!; [vm_compute; reflexivity| |].
  - intros (g & Hg & Hrest)%reaches_holds.
    assert (Forall (λ g, ¬ (Grant_UserID g = alice_id ∧ Grant_Permission g = "host.access" ∧ live g ∧
      reaches (w_db refresh_race.2) "host" host_id g)) (grants (w_db refresh_race.2))) as Hall
      by (apply (bool_decide_unpack _); vm_compute; exact I).
    rewrite Forall_forall in Hall. by apply (Hall g).
  - apply (bool_decide_unpack _). vm_compute. exact I.
Qed.

(** ** A host revoked during its handshake

    [handleDaemon] reads the host's status before it registers the connection,
    [revokeHost] changes it before it cancels what is registered. *)

Definition handshake `{Platform} (peer : Envelope → option Envelope) (w : World) : World :=
  match authenticateDaemon peer w with
  | (inl _, w1) => w1
  | (inr (host, version), w1) =>
      (connectDaemon demo_server demo_get host version w1 : (Response + nat) * World).2
  end.
Definition handshake_race : World :=
  let P := interrupted 2 (meanwhile (demo_serve (User_ PostHostRevoke) (by_admin host_id)) 100) in
  handshake (daemon_peer web_daemon) demo_world.

Theorem revoked_host_stays_connected :
  Host_Status <$> hosts (w_db handshake_race) = ["revoked"] ∧
  conns (w_hub handshake_race) !! uuidString host_id = Some 0%nat ∧
  0%nat ∉ cancelled (w_hub handshake_race).
Proof.
  split_and!; [vm_compute; reflexivity..|]. apply (bool_decide_unpack _). vm_compute. exact I.
Qed.

(** ** Two wrong passwords that count as one

    [recordFailedLogin] writes the count it computed from the row [login] read. *)

Definition with_password : World :=
  initial_world (on_identities (fmap (set_Identity_PasswordHash
    (Some (Password.Hash (zeros 16) "right")))) demo_db).
Definition guess (password : string) : Request :=
  demo_request "" [] (JObj [("email", JStr "alice@x"); ("password", JStr password)]).
Definition login_race : Response * World :=
  let P := interrupted 1 (meanwhile (demo_serve (Public PostLogin) (guess "wrong")) 100) in
  serve (route demo_server demo_get (Public PostLogin) (guess "false")) with_password.

Theorem concurrent_guesses_count_once :
  resp_status login_race.1 = 401 ∧
  Identity_FailedLogins <$> identities (w_db login_race.2) = [1] ∧
  Identity_FailedLogins <$> identities (w_db (demo_serve (Public PostLogin) (guess "false")
    (demo_serve (Public PostLogin) (guess "wrong") with_password))) = [2].
Proof. split_and!; vm_compute; reflexivity. Qed.

(** ** Witnesses *)

(** A request during which another one is served makes a history. *)
Lemma interrupted_history k e r t e' r' w :
  w_tx w = None →
  history demo_server demo_get (w_db w)
    (w_db (serve (route (H:=interrupted k (meanwhile (demo_serve e r) t)) demo_server demo_get e' r') w).2).
Proof.
  intros Hx. apply (step_history demo_server demo_get (P:=interrupted k (meanwhile (demo_serve e r) t)));
    [|done|apply step_request].
  intros t' f d h. simpl. case_decide; [|done]. intros [= <-]. apply meanwhile_history.
Qed.

Lemma demo_suspended_history : history demo_server demo_get (w_db demo_revoked) (w_db demo_suspended).
Proof.
  apply (steps_history demo_server demo_get demo_revoked demo_suspended); [|vm_compute; reflexivity|exact demo_suspended_steps].
  intros t f d h Hf. rewrite alone in Hf. discriminate Hf.
Qed.

Lemma revocations_are_final_witness :
  (∃ g, g ∈ grants (w_db demo_revoked) ∧ is_Some (Grant_RevokedAt g)) ∧
  ∀ g g', g ∈ grants (w_db demo_revoked) → g' ∈ grants (w_db demo_suspended) →
    Grant_ID g = Grant_ID g' → is_Some (Grant_RevokedAt g) → is_Some (Grant_RevokedAt g').
Proof.
  split.
  - assert (Exists (λ g, is_Some (Grant_RevokedAt g)) (grants (w_db demo_revoked))) as He
      by (apply (bool_decide_unpack _); vm_compute; exact I).
    by apply list.Exists_exists in He.
  - apply (revocations_are_final demo_server demo_get (w_db demo_revoked) (w_db demo_suspended)).
    + exact demo_revoked_wf.
    + exact demo_suspended_history.
Defined.

Lemma audit_trail_is_append_only_witness :
  length (grant_audit_logs (w_db refresh_race.2)) = 1%nat ∧
  grant_audit_logs demo_db `prefix_of` grant_audit_logs (w_db refresh_race.2).
Proof.
  split; [vm_compute; reflexivity|].
  apply (audit_trail_is_append_only demo_server demo_get demo_db (w_db refresh_race.2)).
  exact (interrupted_history 3 (Admin DeleteGrant) (by_admin 11%N) 100 (User_ PostHostRefresh)
           (by_admin host_id) connected eq_refl).
Defined.
