(* ===== verification/AccountProps.v ===== *)
(** Accounts and groups: what removing or suspending a user takes away, what
    deleting a group takes away, and what a group's manager can reach. *)
From S2P Require Import Prelude Text Base64 Json Protocol Crypto Schema Evolve QUsers QAccess QSecrets World Http Perms Grants Accounts Groups Runs Wp Demo Scenario GrantProps.

Section lemmas.
Context `{Platform, !Alone} (s : Server).

Lemma targetUser_quiet a r : reading (targetUser a r).
Proof. unfold targetUser. solve_quiet. Qed.
Hint Resolve targetUser_quiet : preserve.

Lemma wp_targetUser auth r d h w (Qe : Response → World → Prop) Qo :
  no_tx d h w → (∀ e w1, error_status e → no_tx d h w1 → Qe e w1) →
  (∀ id w1, parseUUID (URLParam r "id") = Some id → id ≠ auth_UserID auth →
     no_tx d h w1 → Qo id w1) →
  wp (targetUser auth r) w Qe Qo.
Proof.
  intros Hw He Ho. unfold targetUser. wp_run; [by apply He|by apply He|].
  match goal with Hr : negb _ = true |- _ => apply negb_true_iff, bool_decide_eq_false in Hr end.
  apply Ho; [done| |done]. congruence.
Qed.

Lemma wp_grantedHosts {E} u d h w (Qe : E → World → Prop) Qo :
  no_tx d h w → (∀ l w1, no_tx d h w1 → Qo l w1) → wp (grantedHosts u) w Qe Qo.
Proof.
  intros Hw Ho. pose proof (grantedHosts_quiet u w : quiet w (grantedHosts (E:=E) u w).2) as Hq.
  unfold wp. destruct (grantedHosts u w) as [[e|l] w1] eqn:Hr.
  - exfalso. unfold grantedHosts, bind, attempt in Hr. by destruct (pool _ w) as [[?|?] ?].
  - apply Ho. by eapply no_tx_quiet.
Qed.

(** ** Removal *)

Definition remove_user (id : uuid) (now : Z) (d : DB) : DB :=
  on_sessions (update_where (λ x, Session_UserID x = id ∧ Session_RevokedAt x = None)
                 (set_Session_RevokedAt (Some now)))
    (on_grants (update_where (λ g, Grant_UserID g = id ∧ Grant_RevokedAt g = None)
                  (set_Grant_RevokedAt (Some now)))
      (on_identities (delete_where (λ i, Identity_UserID i = id))
        (on_users (update_where (λ u, User_ID u = id) (set_User_Status "removed")) d))).

Definition user_removed (auth : authInfo) (r : Request) (d d' : DB) : Prop :=
  ∃ id now, parseUUID (URLParam r "id") = Some id ∧ id ≠ auth_UserID auth ∧
    hosts_only (remove_user id now d) d'.

Lemma wp_handleRemoveUser auth r d h w :
  no_tx d h w →
  wp (handleRemoveUser s auth r) w (unchanged_or d (user_removed auth r d))
    (λ _ w', user_removed auth r d (w_db w')).
Proof.
  intros Hw. pose proof (no_tx_db _ _ _ Hw) as Hd. unfold handleRemoveUser.
  assert (∀ P msg code w1, 400 ≤ code → w_db w1 = d → unchanged_or d P (httpError msg code) w1)
    as Hleft by (intros; split; auto).
  wp_step. eapply wp_targetUser; [eassumption|intros e w1 He Hw1; split; [done|left; by known_db]|].
  intros id w1 Hid Hself Hw1.
  repeat (first
    [ eapply wp_grantedHosts; [eassumption|intros ? ? ?]
    | wp_step | wp_reading
    | eapply (wp_effect_fails hosts_only (λ _, False));
        [auto with preserve nocore|auto with fails nocore|eassumption|done|intros ? ? ? ?]
    ]; cbv beta zeta; try (apply Hleft; [done|by known_db])).
  all: repeat match goal with
       | Hq : SetUserStatus _ _ _ _ _ = _ |- _ => invert_query Hq
       | Hq : DeleteUserIdentities _ _ _ _ = _ |- _ => invert_query Hq
       | Hq : RevokeAllUserGrants _ _ _ _ = _ |- _ => invert_query Hq
       | Hq : RevokeAllUserSessions _ _ _ _ = _ |- _ => invert_query Hq
       end.
  all: try (split; [done|right]); exists id, now; (split_and!; [done..|]); known_db; try done.
Qed.

(** What [d] gives the user: no key of theirs has access to a host, so no
    snapshot built from [d] for any host lists one, and no token opens a
    session of an active account of theirs. *)
Record locked_out (d : DB) (id : uuid) : Prop := {
  lo_keys : ∀ hostID pk, allowed_key d hostID pk → PublicKey_UserID pk ≠ id;
  lo_snapshots : ∀ host w snap w', w_db w = d → buildSnapshot host w = (inr snap, w') →
    ∀ e, e ∈ Snapshot_Entries snap → ∃ pk, PublicKey_UserID pk ≠ id ∧ e = entry_of host pk;
  lo_sessions : ∀ now token row, row ∈ access_contexts now token d →
    GetAccessContextRow_UserID row = id → GetAccessContextRow_Status row ≠ "active" }.

Lemma inactive_locked_out d id :
  (∀ u, u ∈ users d → User_ID u = id → User_Status u ≠ "active") → locked_out d id.
Proof.
  intros Hu.
  assert (∀ hostID pk, allowed_key d hostID pk → PublicKey_UserID pk ≠ id) as Hkeys.
  { intros hostID pk (_ & (u & Hin & Hid & Hst) & _) Hpk. apply (Hu u); [done|congruence|done]. }
  split; [done|..].
  - intros host w snap w' <- Hr e. destruct (buildSnapshot_entries _ _ _ _ Hr) as [_ Hs].
    intros (pk & Ha & ->)%Hs. exists pk. split; [by eapply Hkeys|done].
  - intros now token row (t & Hin & _)%list_elem_of_bind.
    apply list_elem_of_bind in Hin as (x & Hin & _).
    apply list_elem_of_bind in Hin as (u & ->%list_elem_of_singleton & Hf).
    apply list_elem_of_filter in Hf as [_ Hin]. simpl. apply Hu; done.
Qed.

Lemma update_where_status (l : list User) id st u :
  u ∈ update_where (λ u, User_ID u = id) (set_User_Status st) l → User_ID u = id →
  User_Status u = st.
Proof. intros (x & _ & ->)%elem_of_update_where. by case_decide. Qed.

Lemma holds_grant d u p t : holds d u p t → ∃ g, g ∈ grants d ∧ Grant_UserID g = u ∧ live g.
Proof. induction 1; eauto. Qed.

(** Nothing of the user is left. *)
Record no_access (d : DB) (id : uuid) : Prop := {
  na_locked : locked_out d id;
  na_grants : ∀ p t, ¬ holds d id p t;
  na_sessions : ∀ x, x ∈ sessions d → Session_UserID x = id → is_Some (Session_RevokedAt x);
  na_identities : ∀ i, i ∈ identities d → Identity_UserID i ≠ id }.

Lemma remove_user_no_access id now d d' :
  hosts_only (remove_user id now d) d' → no_access d' id.
Proof.
  intros [-> _]. split.
  - apply inactive_locked_out. intros u Hu Hid. simpl in Hu.
    by rewrite (update_where_status _ _ _ _ Hu Hid).
  - intros p t (g & Hg & Hu & Hl)%holds_grant. simpl in Hg.
    apply elem_of_update_where in Hg as (x & _ & ->). unfold live in Hl.
    case_decide as Hc; [done|]. by apply Hc.
  - intros x Hx Hu. simpl in Hx. apply elem_of_update_where in Hx as (y & _ & ->).
    case_decide as Hc; [by eexists|]. destruct (Session_RevokedAt y) eqn:E; [by eexists|].
    exfalso. by apply Hc.
  - intros i Hi. simpl in Hi. by apply elem_of_delete_where in Hi as [_ ?].
Qed.

(** Everyone else keeps what they had. *)
Lemma remove_user_frame id now d d' :
  hosts_only (remove_user id now d) d' →
  ∀ g, g ∈ grants d → Grant_UserID g ≠ id → g ∈ grants d'.
Proof.
  intros [-> _] g Hg Hne. simpl. apply elem_of_update_where. exists g. split; [done|].
  by rewrite decide_False by (by intros [? _]).
Qed.

(** ** Suspension *)

Definition suspend_user (id : uuid) (d : DB) : DB :=
  on_users (update_where (λ u, User_ID u = id) (set_User_Status "suspended")) d.
Definition user_suspended (auth : authInfo) (r : Request) (d d' : DB) : Prop :=
  ∃ id f, parseUUID (URLParam r "id") = Some id ∧ id ≠ auth_UserID auth ∧
    hosts_only (on_sessions f (suspend_user id d)) d'.

Lemma wp_handleSuspendUser auth r d h w :
  no_tx d h w →
  wp (handleSuspendUser s auth r) w (unchanged_or d (user_suspended auth r d))
    (λ _ w', user_suspended auth r d (w_db w')).
Proof.
  intros Hw. unfold handleSuspendUser. wp_step.
  eapply wp_targetUser; [eassumption|intros e w1 He Hw1; split; [done|left; by known_db]|].
  intros id w1 Hid Hself Hw1. wp_step. eapply wp_grantedHosts; [eassumption|].
  intros l w2 Hw2. wp_step. wp_step.
  assert (∀ w3 d3, no_tx d3 h w3 → d3 = suspend_user id d → user_suspended auth r d (w_db w3))
    as Hsus.
  { intros w3 d3 Hw3 ->. exists id, (λ x, x). split_and!; [done..|]. known_db. by destruct d. }
  eapply wp_pool; [exact Hw2|intros e w3 Hw3|intros e n d3 w3 Hq Hw3|intros n d3 w3 Hq Hw3].
  - wp_step. split; [done|]. left. by known_db.
  - wp_step. split; [done|]. right. eapply Hsus; [exact Hw3|]. by invert_query Hq.
  - invert_query Hq. wp_step. wp_step; [split; [done|right; by eapply Hsus]|]. wp_step. wp_step.
    assert (∀ w4 f, no_tx (on_sessions f (suspend_user id d)) h w4 →
      wp (pushToHosts s l;;; ret noContent) w4 (unchanged_or d (user_suspended auth r d))
        (λ _ w', user_suspended auth r d (w_db w'))) as Htail.
    { intros w4 f Hw4. wp_step.
      eapply (wp_effect_fails hosts_only (λ _, False));
        [auto with preserve nocore|auto with fails nocore|exact Hw4|done|].
      intros u w5 Ho _. apply wp_ret. by exists id, f. }
    eapply wp_pool; [exact Hw3|intros e w4 Hw4|intros e n d4 w4 Hq Hw4|intros n d4 w4 Hq Hw4].
    + apply (Htail w4 (λ x, x)). by destruct d.
    + invert_query Hq. eapply Htail; exact Hw4.
    + invert_query Hq. eapply Htail; exact Hw4.
Qed.

(** ** Groups *)

Definition delete_group (id : uuid) (now : Z) (d : DB) : DB :=
  on_group_resources (delete_where (λ m, GroupResource_GroupID m = id))
    (on_resource_groups (delete_where (λ g, ResourceGroup_ID g = id))
      (on_grants (update_where
         (λ g, Grant_TargetKind g = "group" ∧ Grant_TargetID g = Some id ∧ live g)
         (set_Grant_RevokedAt (Some now))) d)).
Definition group_deleted (r : Request) (d d' : DB) : Prop :=
  ∃ id now, parseUUID (URLParam r "id") = Some id ∧ hosts_only (delete_group id now d) d'.

Lemma wp_canGroup {E} auth p id d h w (Qe : E → World → Prop) Qo :
  no_tx d h w → (∀ b w1, no_tx d h w1 → Qo b w1) → wp (canGroup auth p id) w Qe Qo.
Proof.
  intros Hw Ho. pose proof (canGroup_quiet auth p id w : quiet w (canGroup (E:=E) auth p id w).2) as Hq.
  unfold wp. destruct (canGroup auth p id w) as [[e|b] w1] eqn:Hr.
  - exfalso. destruct (can_ok (E:=E) auth p (TGroup id) w) as (b & w2 & [Hrun _ _ _]); [done|].
    unfold can in Hrun. rewrite Hr in Hrun. discriminate.
  - apply Ho. by eapply no_tx_quiet.
Qed.

Lemma wp_handleDeleteGroup auth r d h w :
  no_tx d h w →
  wp (handleDeleteGroup s auth r) w (unchanged_or d (group_deleted r d))
    (λ _ w', group_deleted r d (w_db w')).
Proof.
  intros Hw. pose proof (no_tx_db _ _ _ Hw) as Hd. unfold handleDeleteGroup, groupID_of.
  assert (∀ P msg code w1, 400 ≤ code → w_db w1 = d → unchanged_or d P (httpError msg code) w1)
    as Hleft by (intros; split; auto).
  repeat (first
    [ eapply wp_canGroup; [eassumption|intros ? ? ?]
    | wp_step | wp_reading
    | eapply wp_read; [apply pool_quiet; solve_reads|eassumption|intros ? ? ?|intros ? ? ?]
    | eapply (wp_effect_fails hosts_only (λ _, False));
        [apply (preserves_foreach _); auto with preserve nocore
        |apply fails_foreach; auto with fails nocore|eassumption|done|intros ? ? ? ?]
    ]; cbv beta zeta; try (apply Hleft; [done|by known_db])).
  all: repeat match goal with
       | Hq : RevokeGroupGrants _ _ _ _ = _ |- _ => invert_query Hq
       | Hq : DeleteGroup _ _ _ _ = _ |- _ => invert_query Hq
       end.
  all: try (split; [done|right]); eexists _, now; (split; [eassumption|]); known_db; done.
Qed.

(** Deleting a group takes away what came through it and gives nothing. *)
Lemma delete_group_holds id now d d' :
  hosts_only (delete_group id now d) d' →
  (∀ u p t, holds d' u p t → holds d u p t) ∧ (∀ u p, ¬ holds d' u p (TGroup id)).
Proof.
  intros [-> _].
  assert (∀ g, g ∈ grants (delete_group id now d) → live g →
    g ∈ grants d ∧ ¬ (Grant_TargetKind g = "group" ∧ Grant_TargetID g = Some id)) as Hlive.
  { intros g Hg Hl. simpl in Hg. apply elem_of_update_where in Hg as (x & Hx & ->).
    case_decide as Hc; [done|]. split; [done|]. intros [? ?]. by apply Hc. }
  split.
  - intros u p t Hh. induction Hh as [g Hg ?? Hl ?|g grp Hg ?? Hl ??|g k r Hg ?? Hl ??|m k r _ IH Hm ??].
    + destruct (Hlive g Hg Hl). by eapply holds_global.
    + destruct (Hlive g Hg Hl). by eapply holds_group.
    + destruct (Hlive g Hg Hl). by eapply holds_direct.
    + simpl in Hm. apply elem_of_delete_where in Hm as [Hm _]. by eapply holds_member.
  - intros u p Hh. inversion Hh as [|g grp Hg Hu Hp Hl Hk Ht| |]; subst.
    destruct (Hlive g Hg Hl) as [_ Hn]. by apply Hn.
Qed.

(** What a manager's request adds to the group. *)
Lemma handleAddGroupResource_run auth r groupID kind idText id w :
  (∀ t, env_fault t = NoFault) → w_tx w = None →
  groupID ∈ ResourceGroup_ID <$> resource_groups (w_db w) →
  parseUUID (URLParam r "id") = Some groupID →
  readRequest s resourceRequest_of_json r = Some (kind, idText) → parseUUID idText = Some id →
  kind ∈ resource_kinds → holds (w_db w) (auth_UserID auth) "group.manage" (TGroup groupID) →
  ∃ w' m, handleAddGroupResource s auth r w = (inr noContent, w') ∧
    m ∈ group_resources (w_db w') ∧ GroupResource_GroupID m = groupID ∧
    GroupResource_ResourceKind m = kind ∧ GroupResource_ResourceID m = id ∧
    grants (w_db w') = grants (w_db w).
Proof.
  intros Hf Htx0 Hgrp Hid Hreq Hrid Hkind Hmanage.
  destruct (can_ok (E:=Response) auth "group.manage" (TGroup groupID) w) as (b & w1 & [Hrun Hq _ Hc]);
    [done|]. rewrite Hc in Hrun by (done || by right).
  assert (w_db w1 = w_db w ∧ w_tx w1 = w_tx w) as [Hdb Htx] by (by destruct Hq).
  set (row := {| GroupResource_GroupID := groupID; GroupResource_ResourceKind := kind;
                 GroupResource_ResourceID := id; GroupResource_AddedAt := env_now (w_tick w1) |}).
  assert (∃ d2, AddGroupResource groupID kind id (env_now (w_tick w1)) (env_uuid (w_tick w1)) (w_db w1)
            = inr (tt, d2) ∧ GroupResource_key row ∈ GroupResource_key <$> group_resources d2 ∧
              grants d2 = grants (w_db w)) as (d2 & Hadd & Hin & Hg2).
  { unfold AddGroupResource, check. rewrite decide_True by done. case_decide as Hk.
    - exists (w_db w1). by rewrite Hdb in *.
    - rewrite decide_True by (by rewrite Hdb). eexists. split; [reflexivity|].
      split; [|simpl; by rewrite Hdb]. simpl. rewrite fmap_app. apply elem_of_app. right. constructor. }
  apply list_elem_of_fmap in Hin as (m & Hm & Hin). injection Hm as Hm1 Hm2 Hm3.
  set (w2 := with_db d2 (step w1)).
  assert (∃ w3, (when (bool_decide (kind = "host")) (pushSnapshot s id) : M World Response unit) w2
            = (inr tt, w3) ∧ hosts_only d2 (w_db w3)) as (w3 & Hpush & Hho).
  { unfold when. case_bool_decide; [|by exists w2]. pose proof (pushSnapshot_counts (E:=Response) s id w2) as Hp.
    destruct (pushSnapshot s id w2) as [[e|[]] w3] eqn:Hr; [by unfold pushSnapshot, ignore in Hr|].
    exists w3. split; [done|]. change d2 with (w_db w2).
    eapply effect_alone; [apply _|simpl; congruence|exact Hp]. }
  exists w3, m. split.
  - unfold handleAddGroupResource, groupID_of, readResource, orFail. rewrite Hid, Hreq.
    apply bind_inr. do 2 eexists. split; [reflexivity|]. apply bind_inr. do 2 eexists. split; [exact Hrun|].
    apply bind_inr. do 2 eexists. split; [reflexivity|]. apply bind_inr. exists (kind, id), w1. split.
    { apply bind_inr. do 2 eexists. split; [reflexivity|]. cbv beta iota.
      apply bind_inr. exists tt, w1. split.
      { unfold require. rewrite bool_decide_true; [done|].
        unfold resource_kinds in Hkind. rewrite !elem_of_cons in Hkind.
        destruct Hkind as [?|[?|[?|Hn]]]; auto. by apply elem_of_nil in Hn. }
      apply bind_inr. rewrite Hrid. by exists id, w1. }
    cbv beta iota. apply bind_inr. exists tt, w2. split.
    { unfold onerr. by rewrite (pool_ok _ w1 tt d2). }
    apply bind_inr. by exists tt, w3.
  - rewrite (ho_tables _ _ Hho). simpl. by split_and!.
Qed.
End lemmas.

(** ** Claims *)

Section claims.
Context `{Platform, !Alone} (s : Server).

(** C21: removing a user is all or nothing, if no other request commits while
    it is served: the request is refused with the database unchanged, or in the
    database it leaves none of the user's keys has access to a host and no
    snapshot built from it lists one, no token opens a session of theirs, they
    hold no permission on anything, all their sessions are revoked and their
    logins are gone; the grants of everyone else are kept.  No one can remove
    themselves.  (What connected hosts are told is
    [Delivery.removed_users_are_shut_out].) *)
Theorem removed_users_lose_all_access auth r w resp w' :
  w_tx w = None → serve (handleRemoveUser s auth r) w = (resp, w') →
  (error_status resp ∧ w_db w' = w_db w) ∨
  ∃ id, parseUUID (URLParam r "id") = Some id ∧ id ≠ auth_UserID auth ∧
    no_access (w_db w') id ∧
    ∀ g, g ∈ grants (w_db w) → Grant_UserID g ≠ id → g ∈ grants (w_db w').
Proof.
  intros Hx Hs. assert (no_tx (w_db w) (w_hub w) w) as Hw by done.
  apply (wp_handleRemoveUser s auth r) in Hw.
  assert (∀ w1, user_removed auth r (w_db w) (w_db w1) → ∃ id, parseUUID (URLParam r "id") = Some id ∧
    id ≠ auth_UserID auth ∧ no_access (w_db w1) id ∧
    ∀ g, g ∈ grants (w_db w) → Grant_UserID g ≠ id → g ∈ grants (w_db w1)) as Hgone.
  { intros w1 (id & now & Hid & Hself & Ho). exists id. split_and!; [done|done| |].
    - by eapply remove_user_no_access.
    - by eapply remove_user_frame. }
  destruct (wp_serve _ _ _ _ _ _ Hw Hs) as [[He [Hsame|Hr]]|Hr]; auto.
Qed.

(** Suspending a user: the request is refused with the database
    unchanged, or in the database it leaves no key of the user has access to a
    host and no token opens a session of theirs, even if revoking their sessions
    failed; all grants are kept for a later activation. *)
Theorem suspended_users_are_locked_out auth r w resp w' :
  w_tx w = None → serve (handleSuspendUser s auth r) w = (resp, w') →
  (error_status resp ∧ w_db w' = w_db w) ∨
  ∃ id, parseUUID (URLParam r "id") = Some id ∧ id ≠ auth_UserID auth ∧
    locked_out (w_db w') id ∧ grants (w_db w') = grants (w_db w).
Proof.
  intros Hx Hs. assert (no_tx (w_db w) (w_hub w) w) as Hw by done.
  apply (wp_handleSuspendUser s auth r) in Hw.
  assert (∀ w1, user_suspended auth r (w_db w) (w_db w1) → ∃ id, parseUUID (URLParam r "id") = Some id ∧
    id ≠ auth_UserID auth ∧ locked_out (w_db w1) id ∧ grants (w_db w1) = grants (w_db w)) as Hout.
  { intros w1 (id & f & Hid & Hself & Ho). exists id. rewrite (ho_tables _ _ Ho). split_and!; try done.
    apply inactive_locked_out. intros u Hu Hu'. simpl in Hu.
    by rewrite (update_where_status _ _ _ _ Hu Hu'). }
  destruct (wp_serve _ _ _ _ _ _ Hw Hs) as [[He [Hsame|Hr]]|Hr]; auto.
Qed.

(** Deleting a group: the request is refused with the database unchanged,
    or afterwards no one holds anything on the group, and no one holds a
    permission on any target that they did not hold before. *)
Theorem deleted_groups_grant_nothing auth r w resp w' :
  w_tx w = None → serve (handleDeleteGroup s auth r) w = (resp, w') →
  (error_status resp ∧ w_db w' = w_db w) ∨
  ∃ id, parseUUID (URLParam r "id") = Some id ∧
    (∀ u p, ¬ holds (w_db w') u p (TGroup id)) ∧
    ∀ u p t, holds (w_db w') u p t → holds (w_db w) u p t.
Proof.
  intros Hx Hs. assert (no_tx (w_db w) (w_hub w) w) as Hw by done.
  apply (wp_handleDeleteGroup s auth r) in Hw.
  assert (∀ w1, group_deleted r (w_db w) (w_db w1) → ∃ id, parseUUID (URLParam r "id") = Some id ∧
    (∀ u p, ¬ holds (w_db w1) u p (TGroup id)) ∧
    ∀ u p t, holds (w_db w1) u p t → holds (w_db w) u p t) as Hgone.
  { intros w1 (id & now & Hid & Ho). exists id. destruct (delete_group_holds _ _ _ _ Ho).
    by split_and!. }
  destruct (wp_serve _ _ _ _ _ _ Hw Hs) as [[He [Hsame|Hr]]|Hr]; auto.
Qed.

(** Adding a resource to a group asks for [group.manage] on the group and
    for nothing on the resource: a manager who holds a permission on the
    group adds any resource of any owner and then holds that permission on
    it.  (Binding a set to a host, by contrast, asks for authority over
    both.) *)
Theorem group_managers_extend_their_own_reach auth r groupID kind idText id p w :
  (∀ t, env_fault t = NoFault) → w_tx w = None →
  groupID ∈ ResourceGroup_ID <$> resource_groups (w_db w) →
  parseUUID (URLParam r "id") = Some groupID →
  readRequest s resourceRequest_of_json r = Some (kind, idText) → parseUUID idText = Some id →
  kind ∈ resource_kinds → holds (w_db w) (auth_UserID auth) "group.manage" (TGroup groupID) →
  holds (w_db w) (auth_UserID auth) p (TGroup groupID) →
  ∃ w', serve (handleAddGroupResource s auth r) w = (noContent, w') ∧
        holds (w_db w') (auth_UserID auth) p (TResource kind id).
Proof.
  intros Hf Hx Hgrp Hid Hreq Hrid Hkind Hmanage Hp.
  destruct (handleAddGroupResource_run s auth r groupID kind idText id w) as
    (w' & m & Hr & Hm & <- & <- & <- & Hg); [done..|].
  exists w'. unfold serve. rewrite Hr. split; [done|].
  eapply holds_member; [|exact Hm|done|done].
  inversion Hp as [|g grp Hin| |]; subst. eapply holds_group; [rewrite Hg; exact Hin|done..].
Qed.
End claims.

(** ** Witnesses *)

Definition on_alice : Request := demo_request "" [("id", uuidString alice_id)] JNull.

Lemma removed_users_lose_all_access_witness :
  let run := serve (handleRemoveUser demo_server admin_auth on_alice) demo_world in
  resp_status run.1 = 204 ∧ no_access (w_db run.2) alice_id.
Proof.
  cbv zeta.
  destruct (serve (handleRemoveUser demo_server admin_auth on_alice) demo_world) as [resp w'] eqn:Hs.
  assert (resp_status resp = 204) as H204.
  { change resp with (resp, w').1. rewrite <-Hs. vm_compute. reflexivity. }
  split; [exact H204|].
  destruct (removed_users_lose_all_access demo_server admin_auth on_alice demo_world resp w')
    as [[He _]|(id & Hid & _ & Hno & _)]; [reflexivity|exact Hs| |].
  - exfalso. unfold error_status in He. rewrite H204 in He. lia.
  - vm_compute in Hid. injection Hid as <-. exact Hno.
Defined.

Lemma suspended_users_are_locked_out_witness :
  let run := serve (handleSuspendUser demo_server admin_auth on_alice) demo_world in
  resp_status run.1 = 204 ∧ locked_out (w_db run.2) alice_id.
Proof.
  cbv zeta.
  destruct (serve (handleSuspendUser demo_server admin_auth on_alice) demo_world) as [resp w'] eqn:Hs.
  assert (resp_status resp = 204) as H204.
  { change resp with (resp, w').1. rewrite <-Hs. vm_compute. reflexivity. }
  split; [exact H204|].
  destruct (suspended_users_are_locked_out demo_server admin_auth on_alice demo_world resp w')
    as [[He _]|(id & Hid & _ & Hno & _)]; [reflexivity|exact Hs| |].
  - exfalso. unfold error_status in He. rewrite H204 in He. lia.
  - vm_compute in Hid. injection Hid as <-. exact Hno.
Defined.

Definition on_group : Request := demo_request "" [("id", uuidString group_id)] JNull.

Lemma deleted_groups_grant_nothing_witness :
  let run := serve (handleDeleteGroup demo_server admin_auth on_group) demo_world in
  resp_status run.1 = 204 ∧ ¬ holds (w_db run.2) alice_id "secret.read" (TGroup group_id).
Proof.
  cbv zeta.
  destruct (serve (handleDeleteGroup demo_server admin_auth on_group) demo_world) as [resp w'] eqn:Hs.
  assert (resp_status resp = 204) as H204.
  { change resp with (resp, w').1. rewrite <-Hs. vm_compute. reflexivity. }
  split; [exact H204|].
  destruct (deleted_groups_grant_nothing demo_server admin_auth on_group demo_world resp w')
    as [[He _]|(id & Hid & Hno & _)]; [reflexivity|exact Hs| |].
  - exfalso. unfold error_status in He. rewrite H204 in He. lia.
  - vm_compute in Hid. injection Hid as <-. apply Hno.
Defined.

(** Alice manages a group on which she reads secrets; the secret is not in it. *)
Definition alice_adds_secret : Request :=
  demo_request "" [("id", uuidString group_id)]
    (JObj [("resource_kind", JStr "secret"); ("resource_id", JStr (uuidString secret_id))]).

Lemma alice_holds_on_group p i :
  demo_grant i alice_id p "group" (Some group_id) ∈ grants demo_db →
  holds demo_db alice_id p (TGroup group_id).
Proof. intros Hin. by eapply holds_group. Qed.

Lemma group_managers_extend_their_own_reach_witness :
  ¬ holds demo_db alice_id "secret.read" (TResource "secret" secret_id) ∧
  ∃ w', serve (handleAddGroupResource demo_server alice_auth alice_adds_secret) demo_world =
          (noContent, w') ∧
        holds (w_db w') alice_id "secret.read" (TResource "secret" secret_id).
Proof.
  split.
  { intros Hh. apply holds_resource_iff in Hh. revert Hh. apply (bool_decide_unpack (¬ _)).
    vm_compute. exact I. }
  eapply (group_managers_extend_their_own_reach demo_server alice_auth alice_adds_secret group_id
            "secret" (uuidString secret_id) secret_id "secret.read" demo_world).
  - intros t. reflexivity.
  - reflexivity.
  - apply (bool_decide_unpack _). vm_compute. exact I.
  - vm_compute. reflexivity.
  - vm_compute. reflexivity.
  - vm_compute. reflexivity.
  - apply (bool_decide_unpack _). vm_compute. exact I.
  - apply (alice_holds_on_group _ 12%N). apply (bool_decide_unpack _). vm_compute. exact I.
  - apply (alice_holds_on_group _ 13%N). apply (bool_decide_unpack _). vm_compute. exact I.
Defined.
