(* ===== verification/AuthProps.v ===== *)
(** Enrollment, logins, refresh and reset: each token works as long as it should
    and no longer, and a login succeeds only for the right password of an
    account that is not locked. *)
From S2P Require Import Prelude Text Base64 Json Protocol Crypto Password Schema Evolve QUsers QAccess QSecrets World Http Perms Grants Accounts Auth Hosts Sets Upgrades Link Router Runs Wp Demo Scenario SystemProps.

(** The transaction of [w1] has the view of the one of [w], unless it was aborted. *)
Definition same_tx (w w1 : World) : Prop :=
  w_db w1 = w_db w ∧ ∀ d now, viewing d now w1 → viewing d now w.

#[export] Instance same_tx_preorder : PreOrder same_tx.
Proof.
  split; [by intros w|]. intros w1 w2 w3 [Hd1 Hx1] [Hd2 Hx2]. split; [congruence|].
  eauto.
Qed.

Section enroll.
Context `{Platform, !Alone} (s : Server) (http_get : nat → string → error + (Z * bytes)).

(** A read inside a transaction either leaves it alone or aborts it. *)
Lemma inTx_read_same {A} (q : Query A) w : query_rel eq q → same_tx w (inTx q w).2.
Proof.
  intros Hq. destruct (w_tx w) as [x|] eqn:Hx.
  2: { unfold inTx. rewrite catch_up_alone, Hx. split; [done|]. intros d now (y & Hy & _). simpl in Hy. congruence. }
  unfold inTx. rewrite catch_up_alone, Hx. destruct (tx_aborted x) eqn:Ha; [by split|].
  assert (∀ r : error + A, same_tx w (r, with_tx (Some {| tx_redo := tx_redo x; tx_now := tx_now x;
            tx_aborted := true |}) (step w)).2) as Habort.
  { intros r. split; [done|]. by intros d now (y & [= <-] & ? & _). }
  destruct (env_fault _); [|apply Habort..]. destruct (tx_redo x _) as [e|d] eqn:Hr; [apply Habort|].
  destruct (q _ _ _) as [e|[a d1]] eqn:E1; [case_decide; [by split|apply Habort]|].
  split; [done|]. intros d2 now (y & [= <-] & _ & <- & Hr2). exists x. split_and!; [done..|].
  simpl in Hr2. unfold redo_then, redo_stmt in Hr2. rewrite Hr in Hr2.
  rewrite E1 in Hr2. apply Hq in E1. congruence.
Qed.

Lemma refuseEnrolled_same find stop w r w1 :
  query_rel eq find → refuseEnrolled find stop w = (r, w1) → same_tx w w1.
Proof.
  intros Hq Hr. pose proof (inTx_read_same find w Hq) as Hs.
  unfold refuseEnrolled, bind, attempt in Hr. destruct (inTx find w) as [[e|h] w2]; simpl in Hs.
  - case_decide; by injection Hr as _ <-.
  - destruct (stop h); by injection Hr as _ <-.
Qed.

Lemma tokenSpent_inr {E} tok w b w1 :
  (tokenSpent tok : M World E bool) w = (inr b, w1) →
  same_tx w w1 ∧ (b = false → EnrollmentToken_UsedAt tok = None).
Proof.
  unfold tokenSpent. case_decide as Hu; [by intros [= <- <-]|].
  intros Hr. apply bind_inr in Hr as (now & w2 & [= <- <-] & [= <- <-]).
  split; [by split|]. intros _. destruct (EnrollmentToken_UsedAt tok); [|done].
  by destruct Hu.
Qed.

Lemma CreateHost_inr n hn key acc m enc now id d host d' :
  CreateHost n hn key acc m enc now id d = inr (host, d') →
  Host_ID host = id ∧
  Host_Status host = "active" ∧ Host_IdentityKey host = key ∧ Host_EncryptionKey host = enc ∧
  Host_Accounts host = acc ∧ (Host_ID host ∉ Host_ID <$> hosts d) ∧
  d' = on_hosts (λ l, l ++ [host]) d.
Proof. intros Hq. invert_query Hq. done. Qed.

(** What a successful enrollment leaves. *)
Definition enrolled (req : EnrollRequest) (hid : string) (d d' : DB) : Prop :=
  ∃ tok host now, tok ∈ enrollment_tokens d ∧
    EnrollmentToken_TokenHash tok = HashToken (EnrollRequest_Token req) ∧
    EnrollmentToken_UsedAt tok = None ∧ hid = uuidString (Host_ID host) ∧
    (∃ t, Host_ID host = env_uuid t) ∧ Host_Status host = "active" ∧ Host_IdentityKey host = EnrollRequest_PublicKey req ∧
    Host_EncryptionKey host = EnrollRequest_EncryptionKey req ∧
    Host_Accounts host = EnrollmentToken_Accounts tok ∧ (Host_ID host ∉ Host_ID <$> hosts d) ∧
    d' = on_enrollment_tokens (update_where (λ t, EnrollmentToken_ID t = EnrollmentToken_ID tok)
           (λ t, set_EnrollmentToken_UsedAt (Some now)
                   (set_EnrollmentToken_HostID (Some (Host_ID host)) t)))
           (on_hosts (λ l, l ++ [host]) d).

Lemma enroll_inr req w hid w' :
  enroll req w = (inr hid, w') →
  enrolled req hid (w_db w) (w_db w') ∧ w_tx w' = None.
Proof.
  intros Hr. unfold enroll in Hr. apply bind_inr in Hr as ([] & w1 & Hb & Hr).
  apply Begin_viewing in Hb as (Hv1 & Hd1 & _).
  apply deferRollback_inr in Hr as (wz & Hr & ->). split; [|done].
  apply bind_inr in Hr as (tok & w2 & Hget & Hr).
  apply onerr_inr_inv in Hget; [|throwing_branch].
  apply (inTx_inr _ _ _ _ _ _ Hv1) in Hget as (d2 & Hget & Hv2 & Hd2 & _).
  invert_query Hget. apply first_row_Some in Hget as [Htok Hhash].
  apply bind_inr in Hr as (spent & w3 & Hsp & Hr).
  apply tokenSpent_inr in Hsp as [Hs3 Hused].
  apply bind_inr in Hr as ([] & w4 & Hif & Hr). destruct spent; [done|]. injection Hif as <-.
  apply bind_inr in Hr as ([] & w5 & Hmach & Hr). apply bind_inr in Hr as ([] & w6 & Hprior & Hr).
  assert (same_tx w3 w5) as Hs5.
  { unfold when in Hmach. case_bool_decide; [|by injection Hmach as <-].
    eapply refuseEnrolled_same; [|exact Hmach]. solve_reads. }
  assert (same_tx w5 w6) as Hs6.
  { clear Hr. case_decide; [by injection Hprior as <-|].
    destruct (parseUUID _); [|by injection Hprior as <-].
    eapply refuseEnrolled_same; [|exact Hprior]. solve_reads. }
  apply bind_inr in Hr as (host & w7 & Hcreate & Hr).
  apply onerr_inr_inv in Hcreate; [|throwing_branch].
  assert (same_tx w2 w6) as [_ Htx] by (etransitivity; [exact Hs3|etransitivity; [exact Hs5|exact Hs6]]).
  destruct (inTx_view _ _ _ _ Hcreate) as (d6 & now & Hv6).
  destruct (viewing_functional _ _ _ _ _ Hv2 (Htx _ _ Hv6)) as [-> ->].
  apply (inTx_inr _ _ _ _ _ _ Hv6) in Hcreate as (d7 & Hcreate & Hv7 & _).
  apply bind_inr in Hr as ([] & w8 & Hmark & Hr).
  apply (inTx_inr _ _ _ _ _ _ Hv7) in Hmark as (d8 & Hmark & Hv8 & _).
  apply bind_inr in Hr as ([] & w9 & Hcommit & [= <- <-]).
  apply Commit_inr in Hcommit as (d9 & now & Hv9 & ->).
  destruct (viewing_functional _ _ _ _ _ Hv8 Hv9) as [-> _]. simpl.
  apply CreateHost_inr in Hcreate as (Hid & Hst & Hkey & Henc & Hacc & Hnew & ->).
  invert_query Hmark. exists tok, host, (env_now (w_tick w)).
  split_and!; [exact Htok|exact Hhash|by apply Hused|reflexivity|eexists; exact Hid|exact Hst|exact Hkey|exact Henc
    |exact Hacc|exact Hnew|reflexivity].
Qed.
End enroll.

(** ** Tokens that work once *)

Section once.
Context `{Platform, !Alone} (s : Server) (http_get : nat → string → error + (Z * bytes)).

Lemma enrolled_token_spent req hid d d' :
  enrolled req hid d d' →
  ∃ tok, tok ∈ enrollment_tokens d' ∧
    EnrollmentToken_TokenHash tok = HashToken (EnrollRequest_Token req) ∧
    is_Some (EnrollmentToken_UsedAt tok).
Proof.
  intros (tok & host & now & Hin & Hh & _ & _ & _ & _ & _ & _ & _ & _ & ->). simpl.
  eexists. split; [apply elem_of_update_where; exists tok; split; [done|reflexivity]|].
  rewrite decide_True by done. simpl. eauto.
Qed.

(** A spent token stays spent, so it enrolls nothing more. *)
Lemma spent_token_enrolls_nothing tok d w req hid w' :
  tok ∈ enrollment_tokens d → EnrollmentToken_TokenHash tok = HashToken (EnrollRequest_Token req) →
  is_Some (EnrollmentToken_UsedAt tok) → evolves d (w_db w) → db_wf (w_db w) →
  enroll req w ≠ (inr hid, w').
Proof.
  intros Hin Hh Hused Hev Hwf Hr. apply enroll_inr in Hr as [(t & _ & _ & Ht & Hth & Hun & _) _].
  destruct (rows_le_key enroll_le EnrollmentToken_TokenHash (enrollment_tokens d)
              (enrollment_tokens (w_db w)) tok t) as (_ & _ & Honce); auto using ev_enroll, wf_enroll_token.
  - by intros a b (_ & ? & _).
  - congruence.
  - destruct (Honce Hused). congruence.
Qed.

Lemma spentOrExpired_inr {E} used exp w b w1 :
  (spentOrExpired used exp : M World E bool) w = (inr b, w1) →
  quiet w w1 ∧ (b = false → used = None).
Proof.
  unfold spentOrExpired. case_decide as Hu; [by intros [= <- <-]|].
  intros Hr. apply bind_inr in Hr as (now & w2 & [= <- <-] & [= <- <-]).
  split; [done|]. intros _. destruct used; [by destruct Hu|done].
Qed.

(** What a confirmed reset leaves. *)
Definition password_reset (req : passwordResetConfirmRequest) (d d' : DB) : Prop :=
  ∃ reset salt now, String.length salt = Password.saltLen ∧
    reset ∈ password_resets d ∧ PasswordReset_TokenHash reset = HashToken (confirm_Token req) ∧
    PasswordReset_UsedAt reset = None ∧
    d' = on_sessions (update_where (λ x, Session_UserID x = PasswordReset_UserID reset ∧
                                         Session_RevokedAt x = None) (set_Session_RevokedAt (Some now)))
           (on_password_resets (update_where (λ x, PasswordReset_ID x = PasswordReset_ID reset)
                                  (set_PasswordReset_UsedAt (Some now)))
             (on_identities (update_where (λ i, Identity_UserID i = PasswordReset_UserID reset ∧
                                                Identity_Provider i = "password")
                (set_Identity_PasswordHash (Some (Password.Hash salt (confirm_Password req))))) d)).

Lemma confirmPasswordReset_inr `{!PlatformLaws} req w w' :
  confirmPasswordReset req w = (inr tt, w') →
  password_reset req (w_db w) (w_db w') ∧ w_tx w' = None.
Proof.
  intros Hr. unfold confirmPasswordReset in Hr. apply bind_inr in Hr as (reset & w1 & Hget & Hr).
  apply onerr_inr_inv in Hget; [|throwing_branch]. apply pool_inr in Hget as (_ & d1 & Hget & ->).
  invert_query Hget. apply first_row_Some in Hget as [Hin Hh].
  apply bind_inr in Hr as (spent & w2 & Hsp & Hr). apply spentOrExpired_inr in Hsp as [[Hd2 _] Hun].
  apply bind_inr in Hr as ([] & w3 & Hif & Hr). destruct spent; [done|]. injection Hif as <-.
  apply bind_inr in Hr as (hash & w4 & Hhash & Hr). unfold hashPassword, randBytes in Hhash.
  apply bind_inr in Hhash as (salt & w5 & [= <- <-] & [= <- <-]).
  apply bind_inr in Hr as ([] & w6 & Hb & Hr). apply Begin_viewing in Hb as (Hv6 & _ & _).
  apply deferRollback_inr in Hr as (wz & Hr & ->). split; [|done].
  apply bind_inr in Hr as ([] & w7 & Hw1 & Hr).
  apply (inTx_inr _ _ _ _ _ _ Hv6) in Hw1 as (d7 & Hw1 & Hv7 & _).
  apply bind_inr in Hr as ([] & w8 & Hw2 & Hr).
  apply (inTx_inr _ _ _ _ _ _ Hv7) in Hw2 as (d8 & Hw2 & Hv8 & _).
  apply bind_inr in Hr as ([] & w9 & Hw3 & Hr).
  apply (inTx_inr _ _ _ _ _ _ Hv8) in Hw3 as (d9 & Hw3 & Hv9 & _).
  apply Commit_inr in Hr as (dz & nz & Hvz & ->).
  destruct (viewing_functional _ _ _ _ _ Hv9 Hvz) as [-> _].
  invert_query Hw1. invert_query Hw2. invert_query Hw3. simpl in *. rewrite Hd2.
  exists reset. do 2 eexists. split_and!; [|exact Hin|exact Hh|by apply Hun|reflexivity].
  apply env_rand_length.
Qed.

Lemma password_reset_spent req d d' :
  password_reset req d d' →
  ∃ x, x ∈ password_resets d' ∧ PasswordReset_TokenHash x = HashToken (confirm_Token req) ∧
       is_Some (PasswordReset_UsedAt x).
Proof.
  intros (reset & salt & now & _ & Hin & Hh & _ & ->). simpl.
  eexists. split; [apply elem_of_update_where; exists reset; split; [done|reflexivity]|].
  rewrite decide_True by done. simpl. eauto.
Qed.

Lemma spent_reset_resets_nothing `{!PlatformLaws} x d w req w' :
  x ∈ password_resets d → PasswordReset_TokenHash x = HashToken (confirm_Token req) →
  is_Some (PasswordReset_UsedAt x) → evolves d (w_db w) → db_wf (w_db w) →
  confirmPasswordReset req w ≠ (inr tt, w').
Proof.
  intros Hin Hh Hused Hev Hwf Hr.
  apply confirmPasswordReset_inr in Hr as [(t & _ & _ & _ & Ht & Hth & Hun & _) _].
  destruct (rows_le_key reset_le PasswordReset_TokenHash (password_resets d)
              (password_resets (w_db w)) x t) as (_ & _ & _ & Honce); auto using ev_resets, wf_reset_token.
  - by intros a b (_ & _ & ? & _).
  - congruence.
  - destruct (Honce Hused). congruence.
Qed.
End once.

(** ** Logins *)

Section login.
Context `{Platform, !Alone} (s : Server) (http_get : nat → string → error + (Z * bytes)).

(** A write whose error is ignored, in a transaction that later commits. *)
Lemma ignored_inTx {E A} (q : Query A) w u w1 d d1 now now1 :
  (ignore (inTx q) : M World E unit) w = (inr u, w1) → viewing d now w → viewing d1 now1 w1 →
  d1 = d ∨ ∃ now id a, q now id d = inr (a, d1).
Proof.
  unfold ignore. intros [= _ <-] Hv Hv1. destruct (inTx q w) as [[e|a] w2] eqn:Hq; simpl in Hv1.
  - apply (inTx_inl _ _ _ _ _ _ Hv) in Hq as [_ [Hv2|(x & Hx & Ha)]].
    + left. by apply (viewing_functional _ _ _ _ _ Hv2 Hv1).
    + destruct Hv1 as (y & Hy & Hy' & _). congruence.
  - apply (inTx_inr _ _ _ _ _ _ Hv) in Hq as (d2 & Hq & Hv2 & _). right.
    destruct (viewing_functional _ _ _ _ _ Hv2 Hv1) as [-> _]. eauto.
Qed.

(** The session a login that began at tick [t0] opened, with the lifetimes of
    the session and of the token counted from then on. *)
Definition session_opened (user : uuid) (tokens : tokenPair) (t0 : nat) (d : DB) : Prop :=
  ∃ sess tok k k', (t0 ≤ k)%nat ∧ (t0 ≤ k')%nat ∧
    Session_ExpiresAt sess = pg_time (env_now k + refreshTTL) ∧
    AccessToken_ExpiresAt tok = pg_time (env_now k' + accessTTL) ∧ sess ∈ sessions d ∧ Session_UserID sess = user ∧ Session_RevokedAt sess = None ∧
    Session_TokenHash sess = HashToken (RefreshToken_ tokens) ∧
    tok ∈ access_tokens d ∧ AccessToken_SessionID tok = Session_ID sess ∧
    AccessToken_TokenHash tok = HashToken (AccessToken_ tokens).

Lemma mintAccessToken_inr sid w raw w1 d now :
  viewing d now w → mintAccessToken sid w = (inr raw, w1) →
  ∃ tok, viewing (on_access_tokens (λ l, l ++ [tok]) d) now w1 ∧
    AccessToken_SessionID tok = sid ∧ AccessToken_TokenHash tok = HashToken raw ∧
    AccessToken_ExpiresAt tok = pg_time (env_now (S (w_tick w)) + accessTTL).
Proof.
  unfold mintAccessToken, newToken, expiry, randBytes, timeNow. intros Hv Hr.
  apply bind_inr in Hr as ([raw' hash] & w2 & Ht & Hr).
  apply bind_inr in Ht as (b & w3 & [= <- <-] & [= <- <- <-]).
  apply bind_inr in Hr as (exp & w4 & He & Hr). apply bind_inr in He as (now' & w5 & [= <- <-] & [= <- <-]).
  apply bind_inr in Hr as (tok & w6 & Hq & [= <- <-]).
  eapply inTx_inr in Hq as (d1 & Hq & Hv1 & _); [|exact Hv]. invert_query Hq.
  eexists. split; [exact Hv1|]. done.
Qed.

Lemma CreateSession_inr u hash key exp now id d sess d' :
  CreateSession u hash key exp now id d = inr (sess, d') →
  Session_UserID sess = u ∧ Session_TokenHash sess = hash ∧ Session_RevokedAt sess = None ∧
  Session_ExpiresAt sess = pg_time exp ∧
  d' = on_sessions (λ l, l ++ [sess]) d.
Proof. intros Hq. invert_query Hq. done. Qed.
Lemma TouchIdentityLogin_inr i now id d u d' :
  TouchIdentityLogin i now id d = inr (u, d') →
  sessions d' = sessions d ∧ access_tokens d' = access_tokens d.
Proof. intros Hq. invert_query Hq. done. Qed.

Lemma openSession_inr id key w tokens w' :
  openSession id key w = (inr tokens, w') →
  session_opened (Identity_UserID id) tokens (w_tick w) (w_db w') ∧ w_tx w' = None.
Proof.
  intros Hr. unfold openSession in Hr. apply bind_inr in Hr as ([] & w1 & Hb & Hr).
  apply Begin_viewing in Hb as (Hv1 & _ & Ht1). apply deferRollback_inr in Hr as (wz & Hr & ->). split; [|done].
  unfold newToken, expiry, randBytes, timeNow in Hr.
  apply bind_inr in Hr as ([rawR hashR] & w2 & Ht & Hr).
  apply bind_inr in Ht as (b & w3 & [= <- <-] & [= <- <- <-]).
  apply bind_inr in Hr as (exp & w4 & He & Hr). apply bind_inr in He as (now & w5 & [= <- <-] & [= <- <-]).
  apply bind_inr in Hr as (sess & w6 & Hq & Hr).
  eapply inTx_inr in Hq as (d6 & Hq & Hv6 & _ & Ht6); [|exact Hv1]. simpl in Ht6.
  apply bind_inr in Hr as (rawA & w7 & Hmint & Hr).
  eapply mintAccessToken_inr in Hmint as (tok & Hv7 & Hsid & Hhash & Htexp); [|exact Hv6].
  apply bind_inr in Hr as ([] & w8 & Htouch & Hr). apply bind_inr in Hr as ([] & w9 & Hc & [= <- <-]).
  apply Commit_inr in Hc as (d8 & now8 & Hv8 & ->).
  pose proof (ignored_inTx _ _ _ _ _ _ _ _ Htouch Hv7 Hv8) as Hd.
  apply CreateSession_inr in Hq as (Hu & Hth & Hrev & Hexp & ->).
  assert (sessions d8 = sessions (w_db w) ++ [sess] ∧
          access_tokens d8 = access_tokens (w_db w) ++ [tok]) as [Hs8 Ht8].
  { destruct Hd as [->|(? & ? & ? & Hq)]; [by split|]. apply TouchIdentityLogin_inr in Hq as [-> ->].
    by split. }
  simpl.
  exists sess, tok, (S (w_tick w1)), (S (w_tick w6)).
  rewrite Hs8, Ht8, !elem_of_app, !list_elem_of_singleton.
  split_and!; [lia|lia|done|done|by right|done|done|done|by right|done|done].
Qed.

Lemma session_opened_since t0 t1 user tokens d :
  (t1 ≤ t0)%nat → session_opened user tokens t0 d → session_opened user tokens t1 d.
Proof.
  intros Ht (sess & tok & k & k' & Hk & Hk' & Hrest). exists sess, tok, k, k'.
  split; [lia|]. split; [lia|done].
Qed.
Lemma locked_ticks id w b w1 : (locked id : IO bool) w = (inr b, w1) → (w_tick w ≤ w_tick w1)%nat.
Proof.
  unfold locked. destruct (Identity_LockedUntil id); intros Hr; [|injection Hr as _ <-; lia].
  apply bind_inr in Hr as (now & w2 & [= _ <-] & [= _ <-]). simpl. lia.
Qed.
Lemma ignored_pool_ticks {E A} (q : Query A) w u w1 :
  (ignore (pool q) : M World E unit) w = (inr u, w1) → (w_tick w ≤ w_tick w1)%nat.
Proof.
  unfold ignore, pool. rewrite catch_up_alone. intros [= _ <-].
  repeat case_match; simpl; lia.
Qed.

Lemma login_inr req w tokens w' :
  login req w = (inr tokens, w') →
  ∃ id hash, id ∈ identities (w_db w) ∧ Identity_Provider id = "password" ∧
    Identity_ExternalID id = login_Email req ∧ Identity_PasswordHash id = Some hash ∧
    Password.Verify hash (login_Password req) = inr true ∧
    (∀ t, Identity_LockedUntil id = Some t → t ≤ env_now (S (w_tick w))) ∧
    session_opened (Identity_UserID id) tokens (w_tick w) (w_db w').
Proof.
  intros Hr. unfold login in Hr. apply bind_inr in Hr as (id & w1 & Hget & Hr).
  apply onerr_inr_inv in Hget; [|throwing_branch]. apply pool_inr in Hget as (_ & d1 & Hget & ->).
  invert_query Hget. apply first_row_Some in Hget as [Hin [Hp He]].
  apply bind_inr in Hr as (lk & w2 & Hlock & Hr).
  apply bind_inr in Hr as ([] & w3 & Hif & Hr). destruct lk; [done|]. injection Hif as <-.
  destruct (Identity_PasswordHash id) as [hash|] eqn:Hh; [|done].
  destruct (Password.Verify hash _) as [e|[|]] eqn:Hv.
  1, 3: apply bind_inr in Hr as (? & ? & _ & Hr); discriminate.
  apply bind_inr in Hr as ([] & w4 & Hreset & Hr). apply openSession_inr in Hr as [Hopen _].
  exists id, hash. split_and!; try done; cycle 1.
  { apply (session_opened_since (w_tick w4)); [|done]. apply locked_ticks in Hlock. simpl in Hlock.
    apply ignored_pool_ticks in Hreset. lia. }
  intros t Hlt. unfold locked in Hlock. rewrite Hlt in Hlock.
  apply bind_inr in Hlock as (now & w5 & [= <- <-] & [= Hnow <-]). simpl in Hnow.
  apply bool_decide_eq_false in Hnow. lia.
Qed.

Lemma GetIdentity_ok id email now u d :
  db_wf d → id ∈ identities d → Identity_Provider id = "password" →
  Identity_ExternalID id = email → GetIdentity "password" email now u d = inr (id, d).
Proof.
  intros Hwf Hin Hp He. unfold GetIdentity, select_one.
  rewrite (first_row_unique _ Identity_login _ id); try done.
  - apply wf_identity_login, Hwf.
  - intros y [Hy1 Hy2]. unfold Identity_login. congruence.
Qed.

(** A locked account is refused before its password is looked at. *)
Lemma login_locked req id t w :
  env_fault (w_tick w) = NoFault → db_wf (w_db w) → id ∈ identities (w_db w) →
  Identity_Provider id = "password" → Identity_ExternalID id = login_Email req →
  Identity_LockedUntil id = Some t → env_now (S (w_tick w)) < t →
  ∃ w', login req w = (inl errTooManyAttempts, w') ∧ quiet w w'.
Proof.
  intros Hf Hwf Hin Hp He Hl Ht. exists (step (with_db (w_db w) (step w))). split; [|by split].
  unfold login, bind, onerr. erewrite (pool_ok _ w); [|done|by apply GetIdentity_ok].
  unfold locked. rewrite Hl. unfold bind, timeNow, ret. simpl. by rewrite bool_decide_true.
Qed.

(** The number of failures after one more at time [now]. *)
Definition next_streak (id : Identity) (now : Z) : Z :=
  match Identity_LastFailedAt id with
  | None => Identity_FailedLogins id + 1
  | Some t => if decide (now - t > loginWindow) then 1 else Identity_FailedLogins id + 1
  end.

(** What one more failure, counted at [now] and recorded at [now'], leaves of
    an account. *)
Definition failure_recorded (id : Identity) (now now' : Z) (d' : DB) : Prop :=
  ∃ id', id' ∈ identities d' ∧ Identity_ID id' = Identity_ID id ∧
    Identity_PasswordHash id' = Identity_PasswordHash id ∧
    if decide (maxLoginFailures ≤ next_streak id now)
    then Identity_FailedLogins id' = 0 ∧ Identity_LockedUntil id' = Some (pg_time (now' + lockDuration))
    else Identity_FailedLogins id' = next_streak id now ∧ Identity_LockedUntil id' = None.

Lemma recordFailedLogin_run {E} id w :
  (∀ t, env_fault t = NoFault) → id ∈ identities (w_db w) →
  ∃ w' k k', (recordFailedLogin id : M World E unit) w = (inr tt, w') ∧
    (w_tick w ≤ k)%nat ∧ (w_tick w ≤ k')%nat ∧
    failure_recorded id (env_now k) (env_now k') (w_db w').
Proof.
  intros Hf Hin.
  assert (∃ w1 k, (match Identity_LastFailedAt id with
                   | None => ret (Identity_FailedLogins id + 1)
                   | Some t => now <- timeNow;;
                       ret (if decide (now - t > loginWindow) then 1 else Identity_FailedLogins id + 1)
                   end : M World E Z) w = (inr (next_streak id (env_now k)), w1) ∧
            (w_tick w ≤ k)%nat ∧ quiet w w1 ∧ (w_tick w ≤ w_tick w1)%nat)
    as (w1 & k & Hcount & Hk & [Hdb _ _ _ _] & Htick).
  { unfold next_streak. destruct (Identity_LastFailedAt id) as [t|].
    - exists (step w), (w_tick w). split_and!; [done|lia|done|simpl; lia].
    - exists w, (w_tick w). split_and!; [done|lia|done|lia]. }
  assert (∀ n lk w2, w_db w2 = w_db w → ∃ w3,
    (ignore (pool (SetLoginFailure (Identity_ID id) n lk)) : M World E unit) w2 = (inr tt, w3) ∧
    ∃ id', id' ∈ identities (w_db w3) ∧ Identity_ID id' = Identity_ID id ∧
      Identity_PasswordHash id' = Identity_PasswordHash id ∧
      Identity_FailedLogins id' = n ∧ Identity_LockedUntil id' = pg_time <$> lk) as Hset.
  { intros n lk w2 Hd2. eexists. split; [reflexivity|]. unfold pool. rewrite catch_up_alone, Hf. simpl. rewrite Hd2.
    eexists. split; [apply elem_of_update_where; exists id; split; [done|reflexivity]|].
    by rewrite decide_True. }
  unfold recordFailedLogin, failure_recorded. unfold bind at 1. rewrite Hcount.
  destruct (decide (maxLoginFailures ≤ next_streak id (env_now k))) as [Hm|Hm].
  - destruct (Hset 0 (Some (env_now (w_tick w1) + lockDuration)) (step w1)) as (w3 & Hrun & id' & ?);
      [done|]. exists w3, k, (w_tick w1). split_and!; [exact Hrun|done|done|].
    exists id'. by rewrite decide_True by done.
  - destruct (Hset (next_streak id (env_now k)) None w1) as (w3 & Hrun & id' & ?); [done|].
    exists w3, k, (w_tick w). split_and!; [exact Hrun|done|lia|].
    exists id'. by rewrite decide_False by done.
Qed.

(** The lock of an unlocked account lets the login go on. *)
Lemma unlocked_passes id w :
  (∀ t, Identity_LockedUntil id = Some t → t ≤ env_now (S (w_tick w))) →
  ∃ w2, (locked id : IO bool) (with_db (w_db w) (step w)) = (inr false, w2) ∧
    w_db w2 = w_db w ∧ (w_tick w ≤ w_tick w2)%nat.
Proof.
  intros Hl. unfold locked. destruct (Identity_LockedUntil id) as [t|].
  - exists (step (with_db (w_db w) (step w))). split; [|split; simpl; [done|lia]]. unfold bind, timeNow, ret. simpl.
    rewrite bool_decide_false; [done|]. specialize (Hl t eq_refl). lia.
  - eexists. split; [reflexivity|]. split; simpl; [done|lia].
Qed.

Lemma login_wrong_password req id hash w :
  (∀ t, env_fault t = NoFault) → db_wf (w_db w) → id ∈ identities (w_db w) →
  Identity_Provider id = "password" → Identity_ExternalID id = login_Email req →
  (∀ t, Identity_LockedUntil id = Some t → t ≤ env_now (S (w_tick w))) →
  Identity_PasswordHash id = Some hash → Password.Verify hash (login_Password req) ≠ inr true →
  ∃ w' k k', login req w = (inl errBadCredentials, w') ∧
    (w_tick w ≤ k)%nat ∧ (w_tick w ≤ k')%nat ∧
    failure_recorded id (env_now k) (env_now k') (w_db w').
Proof.
  intros Hf Hwf Hin Hp He Hl Hh Hv.
  set (w1 := with_db (w_db w) (step w)).
  destruct (unlocked_passes id w Hl) as (w2 & Hlock & Hd2 & Ht2). fold w1 in Hlock.
  destruct (recordFailedLogin_run (E:=error) id w2) as (w' & k & k' & Hrec & Hk & Hk' & Hfr);
    [done|by rewrite Hd2|].
  exists w', k, k'. split; [|split_and!; [lia|lia|done]].
  unfold login, bind at 1, onerr. erewrite (pool_ok _ w); [|done|by apply GetIdentity_ok]. fold w1.
  unfold bind at 1. rewrite Hlock. unfold bind at 1. cbn [ret]. rewrite Hh.
  destruct (Password.Verify _ _) as [e|[|]]; [|done|]; unfold bind; by rewrite Hrec.
Qed.

(** ** Refresh *)

Lemma RotateSessionToken_inr i hash now u d v d' :
  RotateSessionToken i hash now u d = inr (v, d') →
  sessions d' = update_where (λ x, Session_ID x = i) (set_Session_TokenHash hash) (sessions d).
Proof. intros Hq. invert_query Hq. done. Qed.
Lemma UpdateSessionClientKey_inr i k now u d v d' :
  UpdateSessionClientKey i k now u d = inr (v, d') →
  sessions d' = update_where (λ x, Session_ID x = i) (set_Session_ClientPublicKey k) (sessions d).
Proof. intros Hq. invert_query Hq. done. Qed.

(** The sessions after a rotation: those of before, with a new client key and
    token hash on the refreshed one. *)
Definition rotated (i : uuid) (hash : string) (l l' : list Session) : Prop :=
  ∃ f, (∀ x, Session_TokenHash (f x) = Session_TokenHash x ∧ Session_ID (f x) = Session_ID x) ∧
    l' = update_where (λ x, Session_ID x = i) (set_Session_TokenHash hash) (f <$> l).

Lemma refresh_inr req w tokens key w' :
  refresh req w = (inr (tokens, key), w') →
  ∃ sess, sess ∈ sessions (w_db w) ∧ Session_TokenHash sess = HashToken (refresh_Token req) ∧
    Session_RevokedAt sess = None ∧ env_now (w_tick w) < Session_ExpiresAt sess ∧
    rotated (Session_ID sess) (HashToken (RefreshToken_ tokens)) (sessions (w_db w)) (sessions (w_db w')).
Proof.
  intros Hr. unfold refresh in Hr. apply bind_inr in Hr as (sess & w1 & Hget & Hr).
  apply onerr_inr_inv in Hget; [|throwing_branch]. apply pool_inr in Hget as (_ & d1 & Hget & ->).
  invert_query Hget. apply first_row_Some in Hget as [Hin (Hh & Hrev & Hexp)].
  apply bind_inr in Hr as ([] & w2 & Hb & Hr). apply Begin_viewing in Hb as (Hv2 & _ & _).
  apply deferRollback_inr in Hr as (wz & Hr & ->).
  apply bind_inr in Hr as ([] & w3 & Hkey & Hr).
  assert (∃ d3 now f, viewing d3 now w3 ∧ sessions d3 = f <$> sessions (w_db w) ∧
    ∀ y, Session_TokenHash (f y) = Session_TokenHash y ∧ Session_ID (f y) = Session_ID y)
    as (d3 & now & f & Hv3 & Hs3 & Hf).
  { unfold when in Hkey. destruct (negb _).
    - eapply inTx_inr in Hkey as (d3 & Hq & Hv3 & _); [|exact Hv2].
      apply UpdateSessionClientKey_inr in Hq. eexists _, _, _. split; [exact Hv3|].
      split; [exact Hq|]. intros y. cbv beta. by case_decide.
    - injection Hkey as <-. eexists _, _, (λ y, y). split; [exact Hv2|]. split; [|done].
      simpl. by rewrite list_fmap_id. }
  clear Hkey. unfold newToken, randBytes in Hr.
  apply bind_inr in Hr as ([raw hash] & w4 & Ht & Hr).
  apply bind_inr in Ht as (b & w5 & [= <- <-] & [= <- <- <-]).
  apply bind_inr in Hr as ([] & w6 & Hrot & Hr).
  eapply inTx_inr in Hrot as (d6 & Hrot & Hv6 & _); [|exact Hv3]. apply RotateSessionToken_inr in Hrot.
  apply bind_inr in Hr as (rawA & w7 & Hmint & Hr).
  eapply mintAccessToken_inr in Hmint as (tok & Hv7 & _); [|exact Hv6].
  apply bind_inr in Hr as ([] & w8 & Hc & [= <- _ <-]).
  apply Commit_inr in Hc as (d8 & now8 & Hv8 & ->).
  destruct (viewing_functional _ _ _ _ _ Hv7 Hv8) as [-> _].
  exists sess. split_and!; [done..|]. exists f. split; [done|]. simpl. by rewrite Hrot, Hs3.
Qed.

(** After a rotation the old token finds no session. *)
Lemma rotated_old_token l l' sess hash x :
  NoDup (Session_TokenHash <$> l) → sess ∈ l → rotated (Session_ID sess) hash l l' →
  x ∈ l' → Session_TokenHash x = Session_TokenHash sess → hash = Session_TokenHash sess.
Proof.
  intros Hnd Hin (f & Hf & ->) (y & Hy & ->)%elem_of_update_where.
  apply list_elem_of_fmap in Hy as (z & -> & Hz). destruct (Hf z) as [Hfh Hfi].
  case_decide as Hi; simpl; [done|]. intros Heq. exfalso. apply Hi. rewrite Hfi.
  f_equal. apply (unique_key Session_TokenHash l); [done..|]. congruence.
Qed.
End login.

(** ** Claims *)

Section claims.
Context `{Platform, !Alone, !PlatformLaws} (s : Server) (http_get : nat → string → error + (Z * bytes)).

(** C16: an enrollment token enrolls at most one host, ever.  A successful
    enrollment used an unused token, adds exactly one active host with the
    keys of the request and the accounts of the token, and marks the token;
    whatever happens later, no request with that token enrolls again.
    (Requests are handled one at a time.) *)
Theorem enrollment_tokens_enroll_one_host req w hid w' :
  w_tx w = None → db_wf (w_db w) → enroll req w = (inr hid, w') →
  enrolled req hid (w_db w) (w_db w') ∧
  ∀ w1 req' hid' w2, cp_steps s http_get w' w1 →
    EnrollRequest_Token req' = EnrollRequest_Token req → enroll req' w1 ≠ (inr hid', w2).
Proof.
  intros Hx Hwf Hr. pose proof (enroll_rel req w) as Hrel. rewrite Hr in Hrel.
  pose proof (effect_alone _ _ _ Hx Hrel) as Hev.
  apply enroll_inr in Hr as [Hen Htx]. split; [done|].
  intros w1 req' hid' w2 Hsteps Htok. destruct (enrolled_token_spent _ _ _ _ Hen) as (t & Ht & Hh & Hu).
  pose proof (cp_steps_evolves s http_get w' w1 Htx Hsteps) as Hev1.
  eapply (spent_token_enrolls_nothing t); [exact Ht|by rewrite Htok|done|done|].
  by apply Hev1, Hev.
Qed.

(** C37: a password reset token works at most once, ever.  A confirmed reset
    used an unused token, stores a hash that verifies the new password on
    each of the user's password logins, revokes all the user's sessions and
    marks the token; no later request with that token succeeds.
    (Requests are handled one at a time.) *)
Theorem password_resets_work_once req w w' :
  w_tx w = None → db_wf (w_db w) → confirmPasswordReset req w = (inr tt, w') →
  (∃ x, x ∈ password_resets (w_db w) ∧
     PasswordReset_TokenHash x = HashToken (confirm_Token req) ∧ PasswordReset_UsedAt x = None ∧
     (∀ i, i ∈ identities (w_db w') → Identity_UserID i = PasswordReset_UserID x →
        Identity_Provider i = "password" → ∃ hash, Identity_PasswordHash i = Some hash ∧
          Password.Verify hash (confirm_Password req) = inr true) ∧
     ∀ y, y ∈ sessions (w_db w') → Session_UserID y = PasswordReset_UserID x →
          is_Some (Session_RevokedAt y)) ∧
  ∀ w1 req' w2, cp_steps s http_get w' w1 → confirm_Token req' = confirm_Token req →
    confirmPasswordReset req' w1 ≠ (inr tt, w2).
Proof.
  intros Hx Hwf Hr. pose proof (confirmPasswordReset_rel req w) as Hrel. rewrite Hr in Hrel.
  pose proof (effect_alone _ _ _ Hx Hrel) as Hev.
  apply confirmPasswordReset_inr in Hr as [Hpr Htx]. split.
  - destruct Hpr as (x & salt & now & Hsalt & Hin & Hh & Hu & ->). exists x. split_and!; try done; simpl.
    + intros i (y & _ & ->)%elem_of_update_where. case_decide as Hc; [|by intros; destruct Hc].
      simpl. intros _ _. eexists. split; [done|]. rewrite Password.Verify_Hash_eq.
      by rewrite bool_decide_true.
    + intros y (z & _ & ->)%elem_of_update_where. case_decide as Hc; [by eauto|].
      intros Hz. destruct (Session_RevokedAt z) eqn:E; [by eauto|]. by destruct Hc.
  - intros w1 req' w2 Hsteps Htok. destruct (password_reset_spent _ _ _ Hpr) as (t & Ht & Hh & Hu).
    pose proof (cp_steps_evolves s http_get w' w1 Htx Hsteps) as Hev1.
    eapply (spent_reset_resets_nothing t); [exact Ht|by rewrite Htok|done|done|].
    by apply Hev1, Hev.
Qed.

(** C23: a login that returns tokens was for a stored password login of that
    address, whose hash verifies the password given and which is not locked
    at the time; the tokens returned are those of an unrevoked session of its
    user and of an access token of it, whose lifetimes count from the login.  No other
    request commits meanwhile. *)
Theorem logins_need_the_password req w tokens w' :
  login req w = (inr tokens, w') →
  ∃ id hash, id ∈ identities (w_db w) ∧ Identity_Provider id = "password" ∧
    Identity_ExternalID id = login_Email req ∧ Identity_PasswordHash id = Some hash ∧
    Password.Verify hash (login_Password req) = inr true ∧
    (∀ t, Identity_LockedUntil id = Some t → t ≤ env_now (S (w_tick w))) ∧
    session_opened (Identity_UserID id) tokens (w_tick w) (w_db w').
Proof. apply login_inr. Qed.

(** While an account is locked every login is refused as such, with the
    right password too, and changes nothing. *)
Theorem locked_accounts_refuse_every_password req id t w :
  env_fault (w_tick w) = NoFault → db_wf (w_db w) → id ∈ identities (w_db w) →
  Identity_Provider id = "password" → Identity_ExternalID id = login_Email req →
  Identity_LockedUntil id = Some t → env_now (S (w_tick w)) < t →
  ∃ w', login req w = (inl errTooManyAttempts, w') ∧ quiet w w'.
Proof. apply login_locked. Qed.

(** A wrong password on an account that is not locked is refused and
    counted: the streak grows by one, or starts again at one when the last
    failure is older than the window; the fifth failure of a streak locks the
    account for the lock duration and resets the count. *)
Theorem wrong_passwords_count_and_lock req id hash w :
  (∀ t, env_fault t = NoFault) → db_wf (w_db w) → id ∈ identities (w_db w) →
  Identity_Provider id = "password" → Identity_ExternalID id = login_Email req →
  (∀ t, Identity_LockedUntil id = Some t → t ≤ env_now (S (w_tick w))) →
  Identity_PasswordHash id = Some hash → Password.Verify hash (login_Password req) ≠ inr true →
  ∃ w' k k', login req w = (inl errBadCredentials, w') ∧
    (w_tick w ≤ k)%nat ∧ (w_tick w ≤ k')%nat ∧
    failure_recorded id (env_now k) (env_now k') (w_db w').
Proof. apply login_wrong_password. Qed.

(** A refresh rotates the token: it needs the token of a live session,
    and afterwards the old token finds no session (unless the new one has the
    same hash). *)
Theorem refresh_tokens_rotate req w tokens key w' :
  db_wf (w_db w) → refresh req w = (inr (tokens, key), w') →
  (∃ sess, sess ∈ sessions (w_db w) ∧ Session_TokenHash sess = HashToken (refresh_Token req) ∧
     Session_RevokedAt sess = None ∧ env_now (w_tick w) < Session_ExpiresAt sess) ∧
  ∀ x, x ∈ sessions (w_db w') → Session_TokenHash x = HashToken (refresh_Token req) →
    HashToken (RefreshToken_ tokens) = HashToken (refresh_Token req).
Proof.
  intros Hwf Hr. apply refresh_inr in Hr as (sess & Hin & Hh & Hrev & Hexp & Hrot).
  split; [by exists sess|]. intros x Hx Hxh. rewrite <-Hh in *.
  eapply rotated_old_token; [apply wf_session_token, Hwf|exact Hin|exact Hrot|exact Hx|exact Hxh].
Qed.

(** A stored password hash verifies an attempt exactly when the attempt
    derives the same argon2id key with the stored salt; in particular it
    verifies the password it was made from. *)
Theorem password_hashes_verify_their_password salt plain attempt :
  Password.Verify (Password.Hash salt plain) plain = inr true ∧
  (Password.Verify (Password.Hash salt plain) attempt = inr true ↔
   argon2_IDKey attempt salt Password.time Password.memory Password.threads Password.keyLen =
   argon2_IDKey plain salt Password.time Password.memory Password.threads Password.keyLen).
Proof.
  rewrite !Password.Verify_Hash_eq. rewrite bool_decide_true by done. split; [done|].
  split; [by intros [= ?%bool_decide_eq_true]|]. intros Heq. by rewrite bool_decide_true.
Qed.
End claims.

(** ** Witnesses *)

(** The demo deployment with a password login for Alice, an enrollment token
    and a reset token. *)
Definition alice_login (locked : option Z) : Identity :=
  {| Identity_ID := 21%N; Identity_UserID := alice_id; Identity_Provider := "password";
     Identity_ExternalID := "alice@x"; Identity_PasswordHash := Some (Password.Hash (zeros 16) "pw");
     Identity_CreatedAt := 0; Identity_LastLoginAt := None; Identity_FailedLogins := 4;
     Identity_LastFailedAt := None; Identity_LockedUntil := locked |}.
Definition auth_db (locked : option Z) : DB :=
  on_identities (λ _, [alice_login locked])
    (on_enrollment_tokens (λ _, [{| EnrollmentToken_ID := 30%N;
        EnrollmentToken_TokenHash := HashToken "enrolltoken"; EnrollmentToken_Label := None;
        EnrollmentToken_Accounts := ["root"]; EnrollmentToken_HostID := None;
        EnrollmentToken_CreatedBy := None; EnrollmentToken_CreatedAt := 0;
        EnrollmentToken_ExpiresAt := 2000000000 * second; EnrollmentToken_UsedAt := None |}])
      (on_password_resets (λ _, [{| PasswordReset_ID := 31%N; PasswordReset_UserID := alice_id;
          PasswordReset_TokenHash := HashToken "resettoken"; PasswordReset_CreatedAt := 0;
          PasswordReset_ExpiresAt := 2000000000 * second; PasswordReset_UsedAt := None |}])
        (on_sessions (fmap (λ x, set_Session_TokenHash (HashToken
           (if decide (Session_UserID x = alice_id) then "alicerefresh" else "adminrefresh")) x))
          demo_db))).
Definition auth_world (locked : option Z) : World := initial_world (auth_db locked).

Lemma auth_db_wf l : db_wf (auth_db l).
Proof.
  constructor; unfold references, may_reference, host_seq_ok; apply (bool_decide_unpack _); vm_compute; exact I.
Qed.

Definition demo_enroll : EnrollRequest :=
  {| EnrollRequest_Token := "enrolltoken"; EnrollRequest_Hostname := "db.local";
     EnrollRequest_PublicKey := "newkey"; EnrollRequest_EncryptionKey := "";
     EnrollRequest_MachineID := "m2"; EnrollRequest_PriorHostID := "" |}.

Lemma enrollment_tokens_enroll_one_host_witness :
  ∃ hid w', enroll demo_enroll (auth_world None) = (inr hid, w') ∧
    enrolled demo_enroll hid (auth_db None) (w_db w') ∧
    ∀ hid' w2, enroll demo_enroll w' ≠ (inr hid', w2).
Proof.
  destruct (enroll demo_enroll (auth_world None)) as [[e|hid] w'] eqn:Hr.
  - exfalso. apply (f_equal (λ x, match x.1 with inl _ => true | inr _ => false end)) in Hr.
    vm_compute in Hr. discriminate Hr.
  - destruct (enrollment_tokens_enroll_one_host demo_server demo_get demo_enroll (auth_world None) hid w') as [Hen Hno];
      [reflexivity|apply auth_db_wf|exact Hr|].
    exists hid, w'. split; [reflexivity|]. split; [exact Hen|]. intros hid' w2.
    apply (Hno w' demo_enroll hid' w2); [apply rtc_refl|reflexivity].
Defined.

Definition demo_confirm : passwordResetConfirmRequest :=
  {| confirm_Token := "resettoken"; confirm_Password := "new" |}.

Lemma password_resets_work_once_witness :
  ∃ w', confirmPasswordReset demo_confirm (auth_world None) = (inr tt, w') ∧
    ∀ w2, confirmPasswordReset demo_confirm w' ≠ (inr tt, w2).
Proof.
  destruct (confirmPasswordReset demo_confirm (auth_world None)) as [[e|[]] w'] eqn:Hr.
  - exfalso. apply (f_equal (λ x, match x.1 with inl _ => true | inr _ => false end)) in Hr.
    vm_compute in Hr. discriminate Hr.
  - destruct (password_resets_work_once demo_server demo_get demo_confirm (auth_world None) w') as [_ Hno];
      [reflexivity|apply auth_db_wf|exact Hr|].
    exists w'. split; [reflexivity|]. intros w2.
    apply (Hno w' demo_confirm w2); [apply rtc_refl|reflexivity].
Defined.

Definition demo_login (password : string) : loginRequest :=
  {| login_Email := "alice@x"; login_Password := password; login_ClientPublicKey := None |}.

Lemma logins_need_the_password_witness :
  ∃ tokens w', login (demo_login "pw") (auth_world None) = (inr tokens, w') ∧
    session_opened alice_id tokens 0 (w_db w').
Proof.
  destruct (login (demo_login "pw") (auth_world None)) as [[e|tokens] w'] eqn:Hr.
  - exfalso. apply (f_equal (λ x, match x.1 with inl _ => true | inr _ => false end)) in Hr.
    vm_compute in Hr. discriminate Hr.
  - exists tokens, w'. split; [reflexivity|].
    destruct (logins_need_the_password (demo_login "pw") (auth_world None) tokens w' Hr)
      as (id & hash & Hin & _ & _ & _ & _ & _ & Hs).
    apply list_elem_of_singleton in Hin as ->. exact Hs.
Defined.

Lemma locked_accounts_refuse_every_password_witness :
  ∃ w', login (demo_login "pw") (auth_world (Some (1800000000 * second))) =
          (inl errTooManyAttempts, w') ∧
        quiet (auth_world (Some (1800000000 * second))) w'.
Proof.
  apply (locked_accounts_refuse_every_password (demo_login "pw")
           (alice_login (Some (1800000000 * second))) (1800000000 * second)).
  - reflexivity.
  - apply auth_db_wf.
  - apply list_elem_of_singleton. reflexivity.
  - reflexivity.
  - reflexivity.
  - reflexivity.
  - vm_compute. reflexivity.
Defined.

(** The fifth failure locks. *)
Lemma wrong_passwords_count_and_lock_witness :
  ∃ w' k k', login (demo_login "guess") (auth_world None) = (inl errBadCredentials, w') ∧
    failure_recorded (alice_login None) (env_now k) (env_now k') (w_db w') ∧
    maxLoginFailures ≤ next_streak (alice_login None) (env_now k).
Proof.
  destruct (wrong_passwords_count_and_lock (demo_login "guess") (alice_login None)
              (Password.Hash (zeros 16) "pw") (auth_world None)) as (w' & k & k' & Hr & _ & _ & Hf).
  - intros t. reflexivity.
  - apply auth_db_wf.
  - apply list_elem_of_singleton. reflexivity.
  - reflexivity.
  - reflexivity.
  - intros t Ht. discriminate Ht.
  - reflexivity.
  - vm_compute. discriminate.
  - exists w', k, k'. split; [exact Hr|]. split; [exact Hf|]. vm_compute. discriminate.
Defined.

Definition demo_refresh : refreshRequest :=
  {| refresh_Token := "alicerefresh"; refresh_ClientPublicKey := None |}.

Lemma refresh_tokens_rotate_witness :
  ∃ tokens key w', refresh demo_refresh (auth_world None) = (inr (tokens, key), w') ∧
    ∀ x, x ∈ sessions (w_db w') → Session_TokenHash x = HashToken "alicerefresh" →
      HashToken (RefreshToken_ tokens) = HashToken "alicerefresh".
Proof.
  destruct (refresh demo_refresh (auth_world None)) as [[e|[tokens key]] w'] eqn:Hr.
  - exfalso. apply (f_equal (λ x, match x.1 with inl _ => true | inr _ => false end)) in Hr.
    vm_compute in Hr. discriminate Hr.
  - exists tokens, key, w'. split; [reflexivity|].
    destruct (refresh_tokens_rotate demo_refresh (auth_world None) tokens key w') as [_ Hno];
      [apply auth_db_wf|exact Hr|]. exact Hno.
Defined.

Lemma password_hashes_verify_their_password_witness :
  Password.Verify (Password.Hash (zeros 16) "hunter2") "hunter2" = inr true ∧
  Password.Verify (Password.Hash (zeros 16) "hunter2") "hunter3" ≠ inr true.
Proof.
  destruct (password_hashes_verify_their_password (zeros 16) "hunter2" "hunter3") as [Hown Hother].
  split; [exact Hown|]. intros Hv. apply Hother in Hv. vm_compute in Hv. discriminate Hv.
Defined.
