(* ===== verification/AuditProps.v ===== *)
(** The audit listings: following the cursors of a host's log or of a host's
    access listing ends and visits everything once; what the access audits
    list is what the permission checks and the snapshots allow. *)
From S2P Require Import Prelude Text Base64 Json Protocol Crypto Schema Evolve QUsers QAccess QSecrets QAudit World Http Perms Grants Accounts Secrets Hosts Pagination Listings Runs GrantProps Demo Scenario.

(** ** Orders on several columns *)

Section by_then.
Context {A K : Type} `{EqDecision K} (key : A → K) (kle : relation K) (le2 : relation A).
Let le1 (x y : A) : Prop := kle (key x) (key y).

Lemma by_then_trans `{!Transitive kle, !AntiSymm (=) kle, !Transitive le2} :
  Transitive (by_then key le1 le2).
Proof.
  intros x y z. unfold by_then, le1. repeat case_decide; try congruence; intros Hxy Hyz;
    try by etransitivity.
  assert (key x = key y); [|done]. apply (anti_symm kle); congruence.
Qed.
Lemma by_then_total `{!Total kle, !Total le2} : Total (by_then key le1 le2).
Proof.
  intros x y. unfold by_then, le1. repeat case_decide; try congruence; apply (total _).
Qed.
(** Rows that tie on every column agree on the first key and tie on the rest. *)
Lemma by_then_tie `{!AntiSymm (=) kle} x y :
  by_then key le1 le2 x y → by_then key le1 le2 y x → key x = key y ∧ le2 x y ∧ le2 y x.
Proof.
  unfold by_then, le1. repeat case_decide; try congruence; [done|]. intros Hxy Hyx.
  assert (key x = key y); [|done]. by apply (anti_symm kle).
Qed.
End by_then.

Definition text_order `{Collation} : relation string := λ x y, text_le x y = true.
#[export] Instance text_order_trans `{CollationLaws} : Transitive text_order.
Proof. intros x y z. apply text_le_trans. Qed.
#[export] Instance text_order_total `{CollationLaws} : Total text_order.
Proof. intros x y. apply text_le_total. Qed.
#[export] Instance text_order_antisym `{CollationLaws} : AntiSymm (=) text_order.
Proof. intros x y. apply text_le_antisym. Qed.

#[export] Instance N_le_total : Total N.le.
Proof. intros x y. lia. Qed.
#[export] Instance Z_ge_trans : Transitive (flip Z.le).
Proof. intros x y z. unfold flip. lia. Qed.
#[export] Instance Z_ge_antisym : AntiSymm (=) (flip Z.le).
Proof. intros x y. unfold flip. lia. Qed.
#[export] Instance Z_ge_total : Total (flip Z.le).
Proof. intros x y. unfold flip. lia. Qed.

#[export] Instance by_uuid_trans {A} (key : A → uuid) : Transitive (by_uuid key).
Proof. intros x y z. unfold by_uuid. lia. Qed.
#[export] Instance by_uuid_total {A} (key : A → uuid) : Total (by_uuid key).
Proof. intros x y. unfold by_uuid. lia. Qed.
#[export] Instance by_uuid_desc_trans {A} (key : A → uuid) : Transitive (by_uuid_desc key).
Proof. intros x y z. unfold by_uuid_desc. lia. Qed.
#[export] Instance by_uuid_desc_total {A} (key : A → uuid) : Total (by_uuid_desc key).
Proof. intros x y. unfold by_uuid_desc. lia. Qed.

(** ** The log of a host *)

#[export] Instance log_le_trans : Transitive log_le.
Proof. apply (by_then_trans _ (flip Z.le)); apply _. Qed.
#[export] Instance log_le_total : Total log_le.
Proof. apply (by_then_total _ (flip Z.le)); apply _. Qed.

(** Newer first: the strict order the cursor compares with. *)
Definition newer (x y : ListHostAccessLogsRow) : Prop :=
  log_before (SshAccessLog_At x.1) (Some (SshAccessLog_ID x.1)) y.
#[export] Instance newer_dec x y : Decision (newer x y).
Proof. unfold newer. apply _. Defined.

Lemma newer_irrefl x : ¬ newer x x.
Proof. unfold newer, log_before. rewrite decide_True by done. lia. Qed.
Lemma newer_trans x y z : newer x y → newer y z → newer x z.
Proof. unfold newer, log_before. repeat case_decide; lia. Qed.

Lemma log_rows_inj d x y :
  NoDup (SshAccessLog_ID <$> ssh_access_logs d) →
  x ∈ log_row d <$> ssh_access_logs d → y ∈ log_row d <$> ssh_access_logs d →
  SshAccessLog_ID x.1 = SshAccessLog_ID y.1 → x = y.
Proof.
  intros Hnd (lx & -> & Hx)%list_elem_of_fmap (ly & -> & Hy)%list_elem_of_fmap Hid.
  by rewrite (unique_key SshAccessLog_ID _ lx ly Hnd Hx Hy Hid).
Qed.

(** Rows that are not the same are strictly ordered. *)
Lemma log_le_newer d x y :
  NoDup (SshAccessLog_ID <$> ssh_access_logs d) →
  x ∈ log_row d <$> ssh_access_logs d → y ∈ log_row d <$> ssh_access_logs d →
  x ≠ y → log_le x y → newer x y.
Proof.
  intros Hnd Hx Hy Hne. unfold log_le, by_then, newer, log_before, by_time_desc, by_uuid_desc.
  assert (SshAccessLog_ID x.1 ≠ SshAccessLog_ID y.1) by (intros ?; by eapply Hne, log_rows_inj).
  repeat case_decide; lia.
Qed.

(** ** Requests for the next page *)

(** The request with its [cursor] parameter replaced. *)
Definition with_cursor (c : string) (r : Request) : Request :=
  {| URLParam := URLParam r; r_query n := if decide (n = "cursor") then c else r_query r n;
     r_body := r_body r; r_authorization := r_authorization r |}.

(** The page a handler computes for the request with that cursor. *)
Definition fetch_page {A} (handler : Request → M World Response A) (r : Request) (c : string)
    (w : World) : option (A * World) :=
  match handler (with_cursor c r) w with (inr a, w') => Some (a, w') | (inl _, _) => None end.

Definition no_faults `{Env} : Prop := ∀ t, env_fault t = NoFault.

Section runs.
Context `{HP : Platform, HA : !Alone}.

Lemma pool_read_run {A} (q : Query A) w a :
  no_faults → (∀ now id, q now id (w_db w) = inr (a, w_db w)) →
  ∃ w', pool q w = (inr a, w') ∧ quiet w w'.
Proof.
  intros Hf Hq. eexists. split; [by apply pool_ok; [apply Hf|apply Hq]|]. by split.
Qed.

Lemma can_run {E} a p t w :
  no_faults → target_known t → authorized (w_db w) a p t →
  ∃ w', (can a p t : M World E bool) w = (inr true, w') ∧ quiet w w'.
Proof.
  intros Hf Ht Ha. destruct (can_ok (E:=E) a p t w Ht) as (b & w' & [Hrun Hfr _ Hc]).
  rewrite Hc in Hrun by (done || apply Hf). by exists w'.
Qed.
End runs.

Section host_audit.
Context `{HP : Platform, HA : !Alone, HL : !PlatformLaws} (s : Server).

(** The rows the filters select, newest first. *)
Definition matching_logs (a : ListHostAccessLogsParams) (d : DB) : list ListHostAccessLogsRow :=
  order_by log_le (filter (log_matches a) (log_row d <$> ssh_access_logs d)).

Lemma elem_of_matching_logs a d x :
  x ∈ matching_logs a d ↔ log_matches a x ∧ x ∈ log_row d <$> ssh_access_logs d.
Proof. unfold matching_logs. by rewrite elem_of_order_by, list_elem_of_filter. Qed.

Lemma matching_logs_sorted a d : db_wf d → StronglySorted newer (matching_logs a d).
Proof.
  intros Hwf. pose proof (wf_ssh_log_id _ Hwf) as Hnd. apply (order_by_strict log_le).
  - apply NoDup_filter. apply (NoDup_fmap_1 (λ r, SshAccessLog_ID r.1)).
    by rewrite <-list_fmap_compose.
  - intros x y [_ Hx]%list_elem_of_filter [_ Hy]%list_elem_of_filter. by eapply log_le_newer.
Qed.

(** A page of the query is a page of the matching rows. *)
Lemma ListHostAccessLogs_page a d now id x :
  db_wf d →
  logs_CursorAt a = (λ y, SshAccessLog_At y.1) <$> x →
  logs_CursorID a = (λ y, SshAccessLog_ID y.1) <$> x →
  ListHostAccessLogs a now id d =
    inr (take (Z.to_nat (logs_PageLimit a)) (after newer (matching_logs a d) x), d).
Proof.
  intros Hwf Hat Hid. unfold ListHostAccessLogs, select. do 3 f_equal.
  rewrite <-list_filter_filter. rewrite order_by_filter; [|apply _..|].
  - rewrite Hat, Hid. destruct x as [x|]; simpl; [done|]. by apply filter_all, Forall_true.
  - intros y z [_ Hy]%list_elem_of_filter [_ Hz]%list_elem_of_filter Hyz Hzy.
    destruct (decide (y = z)) as [|Hne]; [done|].
    pose proof (wf_ssh_log_id _ Hwf) as Hnd.
    destruct (newer_irrefl y). eapply newer_trans; by eapply log_le_newer.
Qed.

(** What [handleHostAudit] does before it writes its response. *)
Definition hostAuditData (auth : authInfo) (r : Request) : M World Response (page json) :=
  hostID <- orFail (parseUUID (URLParam r "id")) (badRequest "invalid host id");;
  ok <- canHost auth "host.access" hostID;;
  require ok forbidden;;;
  hostAuditPage hostID r.

Lemma handleHostAudit_data auth r w :
  handleHostAudit s auth r w =
  bind (hostAuditData auth r) (λ p, writeResponse s (auth_ClientPublicKey auth)
    (JObj ([("items", JArr (Items p))] ++ omitempty "next_cursor" (NextCursor p)))) w.
Proof.
  unfold handleHostAudit, hostAuditData, bind. destruct (orFail _ _ w) as [[?|i] w1]; [done|].
  destruct (canHost _ _ _ w1) as [[?|b] w2]; [done|]. by destruct (require _ _ w2) as [[?|[]] w3].
Qed.

(** Logs whose cursor is readable: their ids are UUIDs, their times are in
    the years 0 to 9999. *)
Definition log_ok (l : SshAccessLog) : Prop :=
  uuid_wf (SshAccessLog_ID l) ∧ time_in_range (SshAccessLog_At l).
Definition log_cursor (row : ListHostAccessLogsRow) : string :=
  encodeCursor (SshAccessLog_At row.1) (SshAccessLog_ID row.1).

Lemma decode_log_cursor d (x : option ListHostAccessLogsRow) :
  Forall log_ok (ssh_access_logs d) → (∀ y, x = Some y → y ∈ log_row d <$> ssh_access_logs d) →
  decodeCursor (from_option log_cursor "" x) =
    inr {| atCursor_At := (λ y, SshAccessLog_At y.1) <$> x;
           atCursor_ID := (λ y, SshAccessLog_ID y.1) <$> x |}.
Proof.
  intros Hok Hx. destruct x as [y|]; [|done]. simpl.
  specialize (Hx y eq_refl). apply list_elem_of_fmap in Hx as (l & -> & Hl).
  rewrite Forall_forall in Hok. destruct (Hok l Hl). by apply decode_encodeCursor.
Qed.

(** One page: what the handler answers at a row's cursor. *)
Lemma hostAuditData_page auth r hostID limit f w0 w x :
  no_faults → db_wf (w_db w0) → Forall log_ok (ssh_access_logs (w_db w0)) →
  parseUUID (URLParam r "id") = Some hostID →
  authorized (w_db w0) auth "host.access" (TResource "host" hostID) →
  parseLimit (r_query r "limit") = inr limit → parseAuditFilters r = inr f → quiet w0 w →
  let rows := matching_logs (hostLogsParams hostID f zero_atCursor limit) (w_db w0) in
  (∀ y, x = Some y → y ∈ rows) →
  ∃ w', fetch_page (hostAuditData auth) r (from_option log_cursor "" x) w =
        Some (page_after newer limit log_cursor rows hostAuditView x, w') ∧ quiet w0 w'.
Proof using HL HA.
  intros Hf Hwf Hok Hid Ha Hlim Hfil Hq rows Hx.
  destruct (can_run (E:=Response) auth "host.access" (TResource "host" hostID) w Hf)
    as (w1 & Hcan & Hq1).
  { apply (bool_decide_unpack ("host" ∈ resource_kinds)). exact I. }
  { by rewrite (quiet_db _ _ Hq). }
  cbn [can] in Hcan. rewrite decide_True in Hcan by done.
  unfold fetch_page, hostAuditData. cbn [URLParam with_cursor]. rewrite Hid.
  cbn [orFail]. erewrite (bind_run (ret hostID)) by reflexivity.
  erewrite bind_run by exact Hcan. erewrite bind_run by reflexivity.
  unfold hostAuditPage, pageParams. cbn [r_query with_cursor].
  rewrite decide_False, decide_True by done. rewrite Hlim.
  rewrite (decode_log_cursor (w_db w0)); [|done|].
  2: { intros y Hy. by apply Hx, elem_of_matching_logs in Hy as [_ ?]. }
  cbn [orBadRequest]. erewrite (bind_run (ret _)) by reflexivity. cbv beta iota.
  replace (parseAuditFilters (with_cursor _ r)) with (inr f : string + auditFilters) by by rewrite <-Hfil.
  cbn [orBadRequest]. erewrite (bind_run (ret _)) by reflexivity.
  assert (quiet w0 w1) as Hq01 by by etransitivity.
  destruct (pool_read_run (ListHostAccessLogs (hostLogsParams hostID f
    {| atCursor_At := (λ y, SshAccessLog_At y.1) <$> x;
       atCursor_ID := (λ y, SshAccessLog_ID y.1) <$> x |} limit)) w1
    (take (Z.to_nat (limit + 1)) (after newer rows x)) Hf) as (w2 & Hrun & Hq2).
  { intros now id. rewrite (quiet_db _ _ Hq01).
    by rewrite (ListHostAccessLogs_page _ _ now id x Hwf). }
  erewrite bind_run by (by apply onerr_inr). unfold ret. eexists. split; [done|by etransitivity].
Qed.
End host_audit.

(** ** Who can reach a host *)

#[export] Instance user_key_le_trans `{CollationLaws} : Transitive user_key_le.
Proof. apply (by_then_trans _ text_order); apply _. Qed.
#[export] Instance user_key_le_total `{CollationLaws} : Total user_key_le.
Proof. apply (by_then_total _ text_order); apply _. Qed.
#[export] Instance path_le_trans `{CollationLaws} : Transitive path_le.
Proof.
  repeat (apply (by_then_trans _ N.le) || apply (by_then_trans _ Z.le)
          || apply (by_then_trans _ text_order)); apply _.
Qed.
#[export] Instance path_le_total `{CollationLaws} : Total path_le.
Proof.
  repeat (apply (by_then_total _ N.le) || apply (by_then_total _ Z.le)
          || apply (by_then_total _ text_order)); apply _.
Qed.

(** The strict order of the listing: by e-mail, then id. *)
Definition follows `{Collation} (u v : User) : Prop :=
  user_after (User_Email u) (Some (User_ID u)) v.
#[export] Instance follows_dec `{Collation} u v : Decision (follows u v).
Proof. unfold follows. apply _. Defined.
Lemma follows_irrefl `{Collation} u : ¬ follows u u.
Proof. unfold follows, user_after. rewrite decide_True by done. lia. Qed.
Lemma follows_trans `{CollationLaws} x y z : follows x y → follows y z → follows x z.
Proof.
  unfold follows, user_after. repeat case_decide; try congruence; intros Hxy Hyz; try lia.
  - assert (User_Email x = User_Email y); [|done].
    apply (anti_symm text_order); unfold text_order; congruence.
  - by eapply text_le_trans.
Qed.

Lemma user_key_le_follows `{Collation} u v :
  User_ID u ≠ User_ID v → user_key_le u v → follows u v.
Proof.
  unfold user_key_le, by_then, follows, user_after, by_text, by_uuid. intros Hne.
  case_decide; [lia|done].
Qed.

Lemma elem_of_access_users hostID d u :
  u ∈ access_users hostID d ↔
  u ∈ users d ∧ User_Status u = "active" ∧
  holds d (User_ID u) "host.access" (TResource "host" hostID).
Proof.
  unfold access_users. rewrite elem_of_remove_dups, list_elem_of_bind, <-reaches_holds. split.
  - intros (g & [[Hid Hst] Hu]%list_elem_of_filter & [(Hl & Hp & Hr) Hg]%list_elem_of_filter).
    split_and!; [done..|]. exists g. by split_and!.
  - intros (Hu & Hst & g & Hg & Hid & Hp & Hl & Hr). exists g.
    split; apply list_elem_of_filter; by split_and!.
Qed.

Section host_access.
Context `{HP : Platform, HA : !Alone, HL : !PlatformLaws} (s : Server).

Definition access_list (hostID : uuid) (d : DB) : list User :=
  order_by user_key_le (access_users hostID d).

Lemma elem_of_access_list hostID d u :
  u ∈ access_list hostID d ↔
  u ∈ users d ∧ User_Status u = "active" ∧
  holds d (User_ID u) "host.access" (TResource "host" hostID).
Proof. unfold access_list. by rewrite elem_of_order_by, elem_of_access_users. Qed.

Lemma access_users_inj hostID d x y :
  db_wf d → x ∈ access_users hostID d → y ∈ access_users hostID d → User_ID x = User_ID y → x = y.
Proof.
  intros Hwf [Hx _]%elem_of_access_users [Hy _]%elem_of_access_users.
  by apply (unique_key User_ID _ x y (wf_user_id _ Hwf)).
Qed.

Lemma access_list_sorted hostID d : db_wf d → StronglySorted follows (access_list hostID d).
Proof using HL HA.
  intros Hwf. apply (order_by_strict user_key_le).
  - apply NoDup_remove_dups.
  - intros x y Hx Hy Hne. apply user_key_le_follows. intros ?. by eapply Hne, access_users_inj.
Qed.

(** A page of the query is a page of the access list. *)
Lemma ListHostAccessUsers_page hostID d now id n (x : option User) :
  db_wf d → (∀ y, x = Some y → User_Email y ≠ "") →
  ListHostAccessUsers (from_option User_Email "" x) (User_ID <$> x) n hostID now id d =
    inr ((λ u, {| accessUser_User := u; accessUser_Fingerprints := remove_dups (user_fingerprints u d) |})
           <$> take (Z.to_nat n) (after follows (access_list hostID d) x), d).
Proof using HL HA.
  intros Hwf Hx. unfold ListHostAccessUsers, select. do 4 f_equal.
  rewrite order_by_filter; [|apply _..|].
  - destruct x as [x|]; simpl.
    + apply list_filter_iff. intros u. split; [|by right]. intros [He|?]; [|done].
      by destruct (Hx x eq_refl).
    + apply filter_all, Forall_true. by left.
  - intros y z Hy Hz Hyz Hzy.
    destruct (by_then_tie User_Email text_order (by_uuid User_ID) y z) as (_ & H1 & H2); [done..|].
    eapply access_users_inj; [done..|]. unfold by_uuid in *. lia.
Qed.

(** Every access path of a user, in the order of the listing. *)
Definition paths_of (hostID : uuid) (u : uuid) (d : DB) : list ListHostAccessPathsForUsersRow :=
  order_by path_le (host_paths hostID [u] d).

(** Rows that belong to one user come from that user's grants. *)
Lemma filter_user_paths (P Q : Grant → Prop) `{∀ g, Decision (P g)} `{∀ g, Decision (Q g)}
    (f : Grant → list ListHostAccessPathsForUsersRow) u l :
  (∀ g, Q g ↔ P g ∧ Grant_UserID g = u) → (∀ g p, p ∈ f g → path_UserID p = Grant_UserID g) →
  filter (λ p, path_UserID p = u) (filter P l ≫= f) = filter Q l ≫= f.
Proof.
  intros HQ Hf. induction l as [|g l IH]; [done|]. rewrite !filter_cons.
  case_decide as Hp; [|rewrite decide_False by (rewrite HQ; tauto); done].
  rewrite bind_cons, filter_app, IH. destruct (decide (Grant_UserID g = u)) as [Hu|Hu].
  - rewrite decide_True by by apply HQ. rewrite bind_cons. f_equal. apply filter_all, Forall_forall.
    intros p Hin. by rewrite (Hf g p Hin).
  - rewrite decide_False by (rewrite HQ; tauto). rewrite filter_none; [done|].
    intros p Hin. by rewrite (Hf g p Hin).
Qed.

Lemma host_paths_user hostID ids u d :
  u ∈ ids → filter (λ p, path_UserID p = u) (host_paths hostID ids d) = host_paths hostID [u] d.
Proof.
  intros Hu. unfold host_paths. rewrite filter_app. f_equal; apply filter_user_paths.
  - intros g. rewrite list_elem_of_singleton.
    split; intros Hg; destruct_and! Hg; split_and!; congruence.
  - by intros g p ->%list_elem_of_singleton.
  - intros g. rewrite list_elem_of_singleton.
    split; intros Hg; destruct_and! Hg; split_and!; congruence.
  - intros g p (rg & ->%list_elem_of_singleton & _)%list_elem_of_bind. done.
Qed.

(** The rows of [host_paths], by the grant behind them. *)
Lemma elem_of_host_paths hostID ids d p :
  p ∈ host_paths hostID ids d ↔ ∃ g, g ∈ grants d ∧ live g ∧ Grant_Permission g = "host.access" ∧
    Grant_UserID g ∈ ids ∧
    ((Grant_TargetKind g = "host" ∧ Grant_TargetID g = Some hostID ∧ p = direct_path g) ∨
     (Grant_TargetKind g = "group" ∧ ∃ rg, rg ∈ resource_groups d ∧
        Grant_TargetID g = Some (ResourceGroup_ID rg) ∧
        ResourceGroup_ID rg ∈ groups_of "host" hostID d ∧ p = group_path g rg)).
Proof.
  unfold host_paths, joined_groups. rewrite elem_of_app, !list_elem_of_bind.
  setoid_rewrite list_elem_of_bind. setoid_rewrite list_elem_of_singleton.
  repeat setoid_rewrite list_elem_of_filter. split.
  - intros [(g & -> & Hg)|(g & (rg & -> & Hrg) & Hg)]; destruct_and!; exists g; split_and!; auto.
    right. split; [done|]. by exists rg.
  - intros (g & Hg & Hl & Hp & Hu & [(Hk & Ht & ->)|(Hk & rg & Hrg & Ht & Hin & ->)]);
      [left|right]; exists g; split_and!; auto. by exists rg.
Qed.

Lemma host_paths_inj hostID ids d p q :
  db_wf d → p ∈ host_paths hostID ids d → q ∈ host_paths hostID ids d →
  path_GrantID p = path_GrantID q → p = q.
Proof.
  intros Hwf (g & Hg & _ & _ & _ & Hp)%elem_of_host_paths (h & Hh & _ & _ & _ & Hq)%elem_of_host_paths Heq.
  assert (g = h) as ->.
  { apply (unique_key Grant_ID _ g h (wf_grant_id _ Hwf)); [done..|].
    destruct Hp as [(_ & _ & ->)|(_ & rg & _ & _ & _ & ->)],
      Hq as [(_ & _ & ->)|(_ & rg' & _ & _ & _ & ->)]; exact Heq. }
  destruct Hp as [(Hk & _ & ->)|(Hk & rg & Hrg & Ht & _ & ->)],
    Hq as [(Hk' & _ & ->)|(Hk' & rg' & Hrg' & Ht' & _ & ->)]; try congruence.
  f_equal. apply (unique_key ResourceGroup_ID _ rg rg' (wf_group_id _ Hwf)); [done..|congruence].
Qed.

(** Each user's share of the paths of a page does not depend on the page. *)
Lemma filter_paths hostID ids u d :
  db_wf d → u ∈ ids →
  filter (λ p, path_UserID p = u) (order_by path_le (host_paths hostID ids d)) = paths_of hostID u d.
Proof using HL HA.
  intros Hwf Hu. unfold paths_of. rewrite <-(host_paths_user hostID ids u d Hu).
  symmetry. apply order_by_filter; [apply _..|]. intros p q Hp Hq Hpq Hqp.
  eapply host_paths_inj; [done..|].
  destruct (by_then_tie path_UserID N.le _ p q Hpq Hqp) as (_ & H1 & H1').
  destruct (by_then_tie path_Via text_order _ p q H1 H1') as (_ & H2 & H2').
  destruct (by_then_tie path_GroupName text_order _ p q H2 H2') as (_ & H3 & H3').
  destruct (by_then_tie path_CreatedAt Z.le _ p q H3 H3') as (_ & H4 & H4').
  unfold by_uuid in *. lia.
Qed.

(** The loops of [handleHostAccessAudit] put every path under its user. *)
Definition addPaths (ps : list accessPath) (e : hostAccessEntry) : hostAccessEntry :=
  {| entry_UserID := entry_UserID e; entry_Email := entry_Email e; entry_Name := entry_Name e;
     entry_DisplayName := entry_DisplayName e; entry_Role := entry_Role e;
     entry_Status := entry_Status e; entry_Fingerprints := entry_Fingerprints e;
     entry_Paths := entry_Paths e ++ ps |}.

Lemma pathLoop_lookup byUser entries paths i :
  pathLoop byUser entries paths !! i =
  addPaths (pathOf <$> filter (λ p, byUser !! uuidString (path_UserID p) = Some i) paths)
    <$> entries !! i.
Proof.
  revert entries. induction paths as [|p paths IH]; intros entries; simpl.
  - destruct (entries !! i) as [e|]; [|done]. simpl. destruct e. unfold addPaths. simpl.
    by rewrite app_nil_r.
  - change (foldl _ ?e paths) with (pathLoop byUser e paths). rewrite IH, filter_cons.
    destruct (byUser !! uuidString (path_UserID p)) as [k|]; [|by rewrite decide_False].
    destruct (decide (k = i)) as [->|Hk].
    + rewrite list_lookup_alter, !decide_True by done. destruct (entries !! i) as [e|]; [|done].
      simpl. unfold addPaths. simpl. by rewrite <-app_assoc.
    + rewrite list_lookup_alter_ne by done. rewrite decide_False by congruence. done.
Qed.

Definition row_user_key (row : ListHostAccessUsersRow) : string :=
  uuidString (User_ID (accessUser_User row)).

Lemma entryLoop_spec rows :
  NoDup (row_user_key <$> rows) →
  (entryLoop rows).1 = newEntry <$> rows ∧
  ∀ k i, (entryLoop rows).2 !! k = Some i ↔ (row_user_key <$> rows) !! i = Some k.
Proof.
  induction rows as [|row rows IH] using rev_ind.
  - intros _. split; [done|]. intros k i. simpl. by rewrite lookup_empty.
  - rewrite fmap_app. intros (Hnd & Hni & _)%NoDup_app. destruct (IH Hnd) as [He Hm]. clear IH.
    unfold entryLoop in *. rewrite foldl_snoc.
    destruct (foldl _ _ rows) as [entries byUser]. simpl in *. subst entries.
    split; [by rewrite fmap_app|]. intros k i. rewrite length_fmap.
    change (uuidString _) with (row_user_key row). rewrite lookup_insert. case_decide as Hk.
    + subst k. rewrite lookup_app_Some, length_fmap. split.
      * intros [= <-]. right. split; [done|]. by rewrite Nat.sub_diag.
      * intros [Hi|[Hle Hi]].
        { destruct (Hni (row_user_key row)); [|constructor]. by eapply list_elem_of_lookup_2. }
        apply lookup_lt_Some in Hi. simpl in Hi. f_equal. lia.
    + rewrite Hm, lookup_app_Some. split; [by left|]. intros [?|[_ Hi]]; [done|].
      by apply list_lookup_singleton_Some in Hi as [_ ?].
Qed.

Lemma pathLoop_entries rows paths :
  NoDup (row_user_key <$> rows) →
  (∀ row, row ∈ rows → uuid_wf (User_ID (accessUser_User row))) →
  (∀ p, p ∈ paths → uuid_wf (path_UserID p)) →
  pathLoop (entryLoop rows).2 (entryLoop rows).1 paths =
  (λ row, addPaths (pathOf <$> filter (λ p, path_UserID p = User_ID (accessUser_User row)) paths)
            (newEntry row)) <$> rows.
Proof.
  intros Hnd Hwf Hp. destruct (entryLoop_spec rows Hnd) as [-> Hm].
  apply list_eq. intros i. rewrite pathLoop_lookup, !list_lookup_fmap.
  destruct (rows !! i) as [row|] eqn:Hi; [|done]. simpl. do 3 f_equal.
  pose proof (list_elem_of_lookup_2 _ _ _ Hi) as Hin.
  induction paths as [|p paths IH]; [done|]. rewrite !filter_cons, IH by (intros; apply Hp; by right).
  assert ((entryLoop rows).2 !! uuidString (path_UserID p) = Some i ↔
          path_UserID p = User_ID (accessUser_User row)) as Heq.
  { rewrite Hm, list_lookup_fmap, Hi. simpl. unfold row_user_key. split; [|by intros ->].
    intros Heq%(inj Some). symmetry. apply uuidString_inj; [by apply Hwf|apply Hp; left|done]. }
  repeat case_decide; tauto.
Qed.

(** What the listing says of one user. *)
Definition entry_for (hostID : uuid) (d : DB) (u : User) : hostAccessEntry :=
  addPaths (pathOf <$> paths_of hostID (User_ID u) d)
    (newEntry {| accessUser_User := u; accessUser_Fingerprints := remove_dups (user_fingerprints u d) |}).

(** Users whose cursor is readable. *)
Definition user_ok (u : User) : Prop :=
  uuid_wf (User_ID u) ∧ User_Email u ≠ "" ∧ Ascii.zero ∉ explode (User_Email u).
Definition user_cursor (u : User) : string := encodeUserCursor (User_Email u) (User_ID u).

Lemma decode_user_cursor d (x : option User) :
  Forall user_ok (users d) → (∀ y, x = Some y → y ∈ users d) →
  decodeUserCursor (from_option user_cursor "" x) =
    inr {| userCursor_Email := from_option User_Email "" x; userCursor_ID := User_ID <$> x |}.
Proof using HL HA.
  intros Hok Hx. destruct x as [y|]; [|done]. simpl. specialize (Hx y eq_refl).
  rewrite Forall_forall in Hok. destruct (Hok y Hx) as (? & ? & ?). by apply decode_encodeUserCursor.
Qed.

(** The two loops on the users [us] of a page. *)
Lemma page_entries hostID d us :
  db_wf d → Forall user_ok (users d) → NoDup us → (∀ u, u ∈ us → u ∈ users d) →
  let rows := (λ u, {| accessUser_User := u;
                       accessUser_Fingerprints := remove_dups (user_fingerprints u d) |}) <$> us in
  pathLoop (entryLoop rows).2 (entryLoop rows).1
    (order_by path_le (host_paths hostID (User_ID <$> us) d)) = entry_for hostID d <$> us.
Proof using HL HA.
  intros Hwf Hok Hnd Hus rows. rewrite Forall_forall in Hok.
  assert (∀ u, u ∈ users d → uuid_wf (User_ID u)) as Hid by (intros u Hu; by destruct (Hok u Hu)).
  rewrite pathLoop_entries.
  - unfold rows. rewrite <-list_fmap_compose. apply list_fmap_ext. intros i u Hu. simpl.
    unfold entry_for. do 2 f_equal. apply filter_paths; [done|].
    apply list_elem_of_fmap_2. by eapply list_elem_of_lookup_2.
  - unfold rows. rewrite <-list_fmap_compose. apply NoDup_fmap_2_strong; [|done].
    intros u v Hu%Hus Hv%Hus Heq. apply (unique_key User_ID _ u v (wf_user_id _ Hwf)); [done..|].
    apply uuidString_inj; auto.
  - intros row (u & -> & Hu)%list_elem_of_fmap. simpl. auto.
  - intros p Hp%elem_of_order_by. apply elem_of_host_paths in Hp as (g & _ & _ & _ & Hin & Hp).
    apply list_elem_of_fmap in Hin as (u & Hg & Hu).
    destruct Hp as [(_ & _ & ->)|(_ & rg & _ & _ & _ & ->)]; simpl; rewrite Hg; auto.
Qed.

Lemma page_users hostID d limit x :
  let us := Items (splitPage limit user_cursor
    (take (Z.to_nat (limit + 1)) (after follows (access_list hostID d) x))) in
  NoDup us ∧ ∀ u, u ∈ us → u ∈ users d.
Proof.
  intros us. assert (us `sublist_of` access_list hostID d) as Hsub by apply page_sublist. split.
  - eapply sublist_NoDup; [|exact Hsub]. unfold access_list, order_by.
    rewrite merge_sort_Permutation. apply NoDup_remove_dups.
  - intros u Hu. eapply elem_of_sublist, elem_of_access_list in Hu as [? _]; done.
Qed.

Lemma hostAccessPage_run hostID r limit w0 w x :
  no_faults → db_wf (w_db w0) → Forall user_ok (users (w_db w0)) →
  parseLimit (r_query r "limit") = inr limit → quiet w0 w →
  (∀ y, x = Some y → y ∈ access_list hostID (w_db w0)) →
  ∃ w', hostAccessPage hostID (with_cursor (from_option user_cursor "" x) r) w =
        (inr (page_after follows limit user_cursor (access_list hostID (w_db w0))
                (entry_for hostID (w_db w0)) x), w') ∧ quiet w0 w'.
Proof using HL HA.
  intros Hf Hwf Hok Hlim Hq Hx. set (d := w_db w0) in *.
  assert (∀ y, x = Some y → y ∈ users d) as Hxu.
  { intros y Hy. by apply Hx, elem_of_access_list in Hy as [? _]. }
  unfold hostAccessPage, userPageParams. cbn [r_query with_cursor].
  rewrite decide_False, decide_True by done. rewrite Hlim, (decode_user_cursor d) by done.
  cbn [orBadRequest]. erewrite (bind_run (ret _)) by reflexivity. cbv beta iota.
  set (us := take (Z.to_nat (limit + 1)) (after follows (access_list hostID d) x)).
  destruct (pool_read_run (ListHostAccessUsers (from_option User_Email "" x) (User_ID <$> x)
    (limit + 1) hostID) w ((λ u, {| accessUser_User := u;
      accessUser_Fingerprints := remove_dups (user_fingerprints u d) |}) <$> us) Hf) as (w1 & Hrun & Hq1).
  { intros now id. rewrite (quiet_db _ _ Hq). apply ListHostAccessUsers_page; [done|].
    intros y Hy%Hxu. rewrite Forall_forall in Hok. by destruct (Hok y Hy) as (_ & ? & _). }
  erewrite bind_run by (by apply onerr_inr). clear Hrun.
  rewrite splitPage_fmap. cbn [Items NextCursor accessUser_User]. unfold page_after.
  change (λ x0, encodeUserCursor (User_Email x0) (User_ID x0)) with user_cursor.
  fold us. set (p := splitPage limit user_cursor us).
  destruct (page_users hostID d limit x) as [Hnd Hin]. fold us p in Hnd, Hin.
  pose proof (page_entries hostID d (Items p) Hwf Hok Hnd Hin) as Hent. cbv zeta in Hent.
  set (rows := _ <$> Items p) in *. destruct (entryLoop rows) as [entries byUser] eqn:Hloop.
  assert ((λ row, User_ID (accessUser_User row)) <$> rows = User_ID <$> Items p) as Hids.
  { unfold rows. by rewrite <-list_fmap_compose. }
  rewrite Hids. assert (quiet w0 w1) as Hq01 by by etransitivity.
  destruct (decide (User_ID <$> Items p = [])) as [Hnil|Hne].
  - apply fmap_nil_inv in Hnil. unfold rows in Hloop. rewrite Hnil in Hloop |- *.
    injection Hloop as <- <-. by exists w1.
  - destruct (pool_read_run (ListHostAccessPathsForUsers hostID (User_ID <$> Items p)) w1
      (order_by path_le (host_paths hostID (User_ID <$> Items p) d)) Hf) as (w2 & Hrun2 & Hq2).
    { intros now id. by rewrite (quiet_db _ _ Hq01). }
    exists w2. split; [|by etransitivity]. erewrite bind_run; [|erewrite bind_run by (by apply onerr_inr);
      reflexivity]. simpl in Hent. by rewrite Hent.
Qed.
End host_access.

(** ** Responses *)

(** The response carries the JSON value [v], in the clear or sealed to the
    client's key. *)
Definition carries `{Platform} (s : Server) (key : option bytes) (v : json) (resp : Response) : Prop :=
  resp_status resp = StatusOK ∧
  (if cfg_EncryptionEnabled (cfg s)
   then ∃ ephemeral nonce, Hybrid.Seal ephemeral nonce (default "" key) (json_print v) = inr (resp_body resp)
   else resp_body resp = json_print v).

Lemma writeResponse_carries `{Platform} s key v w resp w' :
  writeResponse s key v w = (inr resp, w') → carries s key v resp ∧ quiet w w'.
Proof.
  unfold writeResponse, carries. destruct (cfg_EncryptionEnabled (cfg s)); simpl.
  - intros Hr. invert_run Hr. destruct (Hybrid.Seal _ _ _ _) eqn:Hs; [done|].
    injection Hr as <- <-. unfold randBytes in *. simplify_eq. split; [|by split].
    split; [done|]. by eexists _, _.
  - intros [= <- <-]. done.
Qed.

(** ** Who can reach a secret *)

(** What an entry says: an administrator, or a live grant of the entry's
    permission that reaches the secret. *)
Definition entry_reaches (es : list accessEntry) (u : uuid) (p : string) : Prop :=
  ∃ e, e ∈ es ∧ access_UserID e = uuidString u ∧ (access_Via e = "admin" ∨ access_Permission e = p).

Section secret_access.
Context `{HP : Platform, HA : !Alone} (s : Server).

Lemma secretAccessEntries_inr secretID w es w' :
  secretAccessEntries secretID w = (inr es, w') →
  quiet w w' ∧ ∀ e, e ∈ es ↔
    (∃ g u, g ∈ grants (w_db w) ∧ live g ∧ Grant_TargetKind g = "secret" ∧
       Grant_TargetID g = Some secretID ∧ u ∈ joined_users g (w_db w) ∧
       e = directEntry {| secretDirect_Grant := g; secretDirect_User := u |}) ∨
    (∃ g u rg, g ∈ grants (w_db w) ∧ live g ∧ Grant_TargetKind g = "group" ∧
       u ∈ joined_users g (w_db w) ∧ rg ∈ joined_groups g (w_db w) ∧
       ResourceGroup_ID rg ∈ groups_of "secret" secretID (w_db w) ∧
       e = groupEntry {| secretGroup_Grant := g; secretGroup_User := u; secretGroup_Group := rg |}) ∨
    (∃ u, u ∈ users (w_db w) ∧ User_Role u = "admin" ∧ User_Status u = "active" ∧ e = adminEntry u).
Proof.
  unfold secretAccessEntries. intros Hr. invert_run Hr.
  apply pool_inr in Hrun as (_ & d1 & Hq1 & ->), Hrun0 as (_ & d2 & Hq2 & ->),
    Hrun1 as (_ & d3 & Hq3 & ->).
  unfold ListSecretDirectAccess, ListSecretGroupAccess, ListActiveAdmins, select in *.
  simplify_eq/=. split; [by split|]. intros e.
  rewrite !elem_of_app, !list_elem_of_fmap. repeat setoid_rewrite elem_of_order_by.
  repeat setoid_rewrite list_elem_of_bind. repeat setoid_rewrite list_elem_of_singleton.
  repeat setoid_rewrite list_elem_of_filter. split.
  - intros [(x & -> & g & (u & -> & Hu) & Hg)|[(x & -> & g & (u & (rg & -> & Hrg) & Hu) & Hg)|(u & -> & Hu)]];
      destruct_and!; [left|right; left|right; right].
    + exists g, u. by split_and!.
    + exists g, u, rg. by split_and!.
    + exists u. by split_and!.
  - intros [(g & u & Hg)|[(g & u & rg & Hg)|(u & Hu)]]; destruct_and!; subst e;
      [left|right; left|right; right]; eexists; (split; [reflexivity|]).
    + exists g. split; [by exists u|by split_and!].
    + exists g. split; [exists u; split; [by exists rg|done]|by split_and!].
    + by split_and!.
Qed.

Lemma entries_reach d secretID es u p :
  db_wf d → Forall (λ u, uuid_wf (User_ID u)) (users d) → u ∈ users d →
  (∀ e, e ∈ es ↔
    (∃ g u, g ∈ grants d ∧ live g ∧ Grant_TargetKind g = "secret" ∧
       Grant_TargetID g = Some secretID ∧ u ∈ joined_users g d ∧
       e = directEntry {| secretDirect_Grant := g; secretDirect_User := u |}) ∨
    (∃ g u rg, g ∈ grants d ∧ live g ∧ Grant_TargetKind g = "group" ∧
       u ∈ joined_users g d ∧ rg ∈ joined_groups g d ∧
       ResourceGroup_ID rg ∈ groups_of "secret" secretID d ∧
       e = groupEntry {| secretGroup_Grant := g; secretGroup_User := u; secretGroup_Group := rg |}) ∨
    (∃ u, u ∈ users d ∧ User_Role u = "admin" ∧ User_Status u = "active" ∧ e = adminEntry u)) →
  entry_reaches es (User_ID u) p ↔
  (User_Role u = "admin" ∧ User_Status u = "active") ∨
  holds d (User_ID u) p (TResource "secret" secretID).
Proof.
  intros Hwf Hid Hu Hes. rewrite Forall_forall in Hid. unfold entry_reaches.
  assert (∀ v, v ∈ users d → uuidString (User_ID v) = uuidString (User_ID u) → v = u) as Hinj.
  { intros v Hv Heq. apply (unique_key User_ID _ v u (wf_user_id _ Hwf)); [done..|].
    apply uuidString_inj; auto. }
  rewrite <-reaches_holds. unfold joined_users, joined_groups in Hes.
  repeat setoid_rewrite list_elem_of_filter in Hes. split.
  - intros (e & [(g & v & He)|[(g & v & rg & He)|(v & He)]]%Hes & Heq & Hp); destruct_and!; subst e.
    1, 2: destruct Hp as [Hp|Hp]; [discriminate Hp|]; simpl in *;
      assert (v = u) as -> by auto; right; exists g; split_and!; try done.
    + by left.
    + right. split; [done|]. apply opt_in_spec. eauto.
    + assert (v = u) as -> by auto. by left.
  - intros [[Hr Hs]|(g & Hg & Hgu & Hp & Hl & [[Hk Ht]|[Hk Ht]])].
    + exists (adminEntry u). split_and!; [|done|by left]. apply Hes. right; right. by exists u.
    + eexists. split_and!; [apply Hes; left; exists g, u; split_and!; try done|done|by right].
    + apply opt_in_spec in Ht as (grp & Ht & Hin). pose proof Hin as Hin'. unfold groups_of in Hin.
      apply list_elem_of_fmap in Hin as (m & -> & [_ Hm]%list_elem_of_filter).
      pose proof (wf_member_group _ Hwf) as Href. unfold references in Href.
      rewrite Forall_forall in Href. apply Href, list_elem_of_fmap in Hm as (rg & Hrg & Hrgin).
      rewrite Hrg in *.
      eexists. split_and!; [apply Hes; right; left; exists g, u, rg; split_and!; try done|done|by right].
Qed.
End secret_access.

(** ** Claims *)

(** What a complete listing of a host's access says: the active users who
    hold [host.access] on the host, each once, with the keys its snapshot
    contains and the grants that reach it. *)
Record lists_access (d : DB) (hostID : uuid) (es : list hostAccessEntry) : Prop := {
  lists_users i : i ∈ entry_UserID <$> es ↔
    ∃ u, u ∈ users d ∧ i = uuidString (User_ID u) ∧ User_Status u = "active" ∧
         holds d (User_ID u) "host.access" (TResource "host" hostID);
  lists_once : NoDup (entry_UserID <$> es);
  lists_keys fp : fp ∈ es ≫= entry_Fingerprints ↔
    ∃ pk, allowed_key d hostID pk ∧ PublicKey_Fingerprint pk = fp;
  lists_grants e i : e ∈ es → i ∈ accessPath_GrantID <$> entry_Paths e ↔
    ∃ g, g ∈ grants d ∧ live g ∧ Grant_Permission g = "host.access" ∧ reaches d "host" hostID g ∧
         uuidString (Grant_UserID g) = entry_UserID e ∧ i = uuidString (Grant_ID g) }.

Section listing.
Context `{HP : Platform, HA : !Alone, HL : !PlatformLaws}.

Lemma elem_of_fingerprints u d fp :
  fp ∈ remove_dups (user_fingerprints u d) ↔
  ∃ pk, pk ∈ public_keys d ∧ PublicKey_UserID pk = User_ID u ∧ PublicKey_Fingerprint pk = fp.
Proof.
  unfold user_fingerprints. rewrite elem_of_remove_dups, elem_of_order_by, list_elem_of_fmap.
  setoid_rewrite list_elem_of_filter.
  split; [intros (pk & -> & ? & ?)|intros (pk & ? & ? & <-)]; by exists pk.
Qed.

(** The grants behind a user's paths. *)
Lemma paths_grants hostID u d i :
  db_wf d →
  i ∈ accessPath_GrantID <$> (pathOf <$> paths_of hostID u d) ↔
  ∃ g, g ∈ grants d ∧ live g ∧ Grant_Permission g = "host.access" ∧ reaches d "host" hostID g ∧
       Grant_UserID g = u ∧ i = uuidString (Grant_ID g).
Proof.
  intros Hwf. rewrite <-list_fmap_compose, list_elem_of_fmap. unfold paths_of.
  setoid_rewrite elem_of_order_by. setoid_rewrite elem_of_host_paths. unfold reaches. split.
  - intros (p & -> & g & Hg & Hl & Hp & Hu%list_elem_of_singleton & Hq). exists g.
    destruct Hq as [(Hk & Ht & ->)|(Hk & rg & Hrg & Ht & Hin & ->)]; split_and!; auto.
    right. split; [done|]. apply opt_in_spec. eauto.
  - intros (g & Hg & Hl & Hp & [[Hk Ht]|[Hk Ht]] & Hu & ->).
    + exists (direct_path g). split; [done|]. exists g. rewrite list_elem_of_singleton.
      split_and!; auto.
    + apply opt_in_spec in Ht as (grp & Ht & Hin). pose proof Hin as Hin'. unfold groups_of in Hin.
      apply list_elem_of_fmap in Hin as (m & -> & [_ Hm]%list_elem_of_filter).
      pose proof (wf_member_group _ Hwf) as Href. unfold references in Href.
      rewrite Forall_forall in Href. apply Href, list_elem_of_fmap in Hm as (rg & Hrg & Hrgin).
      rewrite Hrg in *. exists (group_path g rg). split; [done|]. exists g.
      rewrite list_elem_of_singleton. split_and!; auto. right. split; [done|]. by exists rg.
Qed.

Lemma access_list_lists hostID d :
  db_wf d → Forall user_ok (users d) →
  lists_access d hostID (entry_for hostID d <$> access_list hostID d).
Proof using HL HA.
  intros Hwf Hok. rewrite Forall_forall in Hok.
  assert (∀ u, u ∈ users d → uuid_wf (User_ID u)) as Hid by (intros u Hu; by destruct (Hok u Hu)).
  split.
  - intros i. rewrite <-list_fmap_compose, list_elem_of_fmap. setoid_rewrite elem_of_access_list.
    split; [intros (u & -> & ? & ? & ?)|intros (u & ? & -> & ? & ?)]; by exists u.
  - rewrite <-list_fmap_compose. apply NoDup_fmap_2_strong.
    + intros u v [Hu _]%elem_of_access_list [Hv _]%elem_of_access_list Heq.
      apply (unique_key User_ID _ u v (wf_user_id _ Hwf)); [done..|]. apply uuidString_inj; auto.
    + unfold access_list, order_by. rewrite merge_sort_Permutation. apply NoDup_remove_dups.
  - intros fp. rewrite list_elem_of_bind. unfold allowed_key. split.
    + intros (e & Hfp & (u & -> & (Hu & Hst & Hh)%elem_of_access_list)%list_elem_of_fmap).
      apply elem_of_fingerprints in Hfp as (pk & Hpk & Hpu & <-). exists pk.
      rewrite Hpu. split_and!; eauto.
    + intros (pk & (Hpk & (u & Hu & Hpu & Hst) & Hh) & <-). exists (entry_for hostID d u).
      split; [apply elem_of_fingerprints; eauto|]. apply list_elem_of_fmap_2, elem_of_access_list.
      rewrite Hpu. by split_and!.
  - intros e i (u & -> & (Hu & _ & _)%elem_of_access_list)%list_elem_of_fmap.
    change (entry_Paths (entry_for hostID d u)) with (pathOf <$> paths_of hostID (User_ID u) d).
    rewrite paths_grants by done. simpl. split.
    + intros (g & ? & ? & ? & ? & <- & ->). by exists g.
    + intros (g & Hg & ? & ? & ? & Hgu & ->). exists g. split_and!; try done.
      pose proof (wf_grant_user _ Hwf) as Href. unfold references in Href.
      rewrite Forall_forall in Href. apply Href, list_elem_of_fmap in Hg as (v & Hv & Hvin).
      rewrite Hv in *. apply uuidString_inj; auto.
Qed.
End listing.

Section claims.
Context `{HP : Platform, HA : !Alone, HL : !PlatformLaws} (s : Server).

(** C19: reading a host's access log page by page ends and is complete: when
    the database answers, a caller who may access the host and follows the
    cursors from the first page gets, after finitely many requests and
    without changing anything, exactly the log rows the request's filters
    select, each once, newest first (ties by id), for every page size the
    server accepts.  No other
    request commits meanwhile. *)
Theorem log_pages_visit_every_entry_once auth r hostID limit f w fuel :
  no_faults → db_wf (w_db w) → Forall log_ok (ssh_access_logs (w_db w)) →
  parseUUID (URLParam r "id") = Some hostID →
  authorized (w_db w) auth "host.access" (TResource "host" hostID) →
  parseLimit (r_query r "limit") = inr limit → parseAuditFilters r = inr f →
  (length (ssh_access_logs (w_db w)) < fuel)%nat →
  ∃ rows w',
    walk (fetch_page (hostAuditData auth) r) fuel "" w = Some (hostAuditView <$> rows, w') ∧
    quiet w w' ∧ StronglySorted newer rows ∧
    ∀ row, row ∈ rows ↔ row ∈ log_row (w_db w) <$> ssh_access_logs (w_db w) ∧
                        log_matches (hostLogsParams hostID f zero_atCursor limit) row.
Proof using HL HA.
  intros Hf Hwf Hok Hid Ha Hlim Hfil Hfuel.
  set (rows := matching_logs (hostLogsParams hostID f zero_atCursor limit) (w_db w)).
  pose proof (matching_logs_sorted (hostLogsParams hostID f zero_atCursor limit) _ Hwf) as Hsorted.
  destruct (walk_all newer newer_irrefl newer_trans limit (proj1 (parseLimit_bounds _ _ Hlim))
    log_cursor (λ x, encodeCursor_ne _ _) rows Hsorted hostAuditView (quiet w)
    (fetch_page (hostAuditData auth) r)) with (fuel := fuel) (w := w) as (w' & Hwalk & Hq).
  - intros x w1 Hw1 Hx. by eapply hostAuditData_page.
  - eapply Nat.le_lt_trans; [|exact Hfuel]. unfold rows, matching_logs, order_by.
    rewrite merge_sort_Permutation. etransitivity; [apply length_filter|]. by rewrite length_fmap.
  - reflexivity.
  - exists rows, w'. split_and!; [done..|]. intros row. unfold rows.
    rewrite elem_of_matching_logs. tauto.
Qed.

(** The page of [handleHostAccessAudit], before its response is written. *)
Definition hostAccessData (auth : authInfo) (r : Request) :
    M World Response (Host * page hostAccessEntry) :=
  hostID <- orFail (parseUUID (URLParam r "id")) (badRequest "invalid host id");;
  ok <- canHost auth "host.audit" hostID;;
  require ok forbidden;;;
  host <- (pool (GetHostByID hostID) <!> answer hostNotFound (serverError "could not load host"));;
  p <- hostAccessPage hostID r;;
  ret (host, p).
Definition hostAccessItems (auth : authInfo) (r : Request) : M World Response (page hostAccessEntry) :=
  x <- hostAccessData auth r;; ret x.2.

Lemma handleHostAccessAudit_data auth r w :
  handleHostAccessAudit s auth r w =
  bind (hostAccessData auth r) (λ '(host, p), writeResponse s (auth_ClientPublicKey auth)
    (JObj ([("host_id", JStr (uuidString (Host_ID host))); ("host_name", JStr (Host_Name host));
            ("entries", JArr (hostAccessEntry_json <$> Items p))] ++
           omitempty "next_cursor" (NextCursor p)))) w.
Proof.
  unfold handleHostAccessAudit, hostAccessData, bind. destruct (orFail _ _ w) as [[?|i] w1]; [done|].
  destruct (canHost _ _ _ w1) as [[?|b] w2]; [done|]. destruct (require _ _ w2) as [[?|[]] w3]; [done|].
  destruct (onerr _ _ w3) as [[?|h] w4]; [done|]. by destruct (hostAccessPage _ _ w4) as [[?|p] w5].
Qed.

Lemma hostAccessItems_page auth r hostID limit host w0 w x :
  no_faults → db_wf (w_db w0) → Forall user_ok (users (w_db w0)) →
  parseUUID (URLParam r "id") = Some hostID →
  authorized (w_db w0) auth "host.audit" (TResource "host" hostID) →
  first_row (λ h, Host_ID h = hostID) (hosts (w_db w0)) = Some host →
  parseLimit (r_query r "limit") = inr limit → quiet w0 w →
  (∀ y, x = Some y → y ∈ access_list hostID (w_db w0)) →
  ∃ w', fetch_page (hostAccessItems auth) r (from_option user_cursor "" x) w =
        Some (page_after follows limit user_cursor (access_list hostID (w_db w0))
                (entry_for hostID (w_db w0)) x, w') ∧ quiet w0 w'.
Proof using HL HA.
  intros Hf Hwf Hok Hid Ha Hh Hlim Hq Hx.
  destruct (can_run (E:=Response) auth "host.audit" (TResource "host" hostID) w Hf)
    as (w1 & Hcan & Hq1).
  { apply (bool_decide_unpack ("host" ∈ resource_kinds)). exact I. }
  { by rewrite (quiet_db _ _ Hq). }
  cbn [can] in Hcan. rewrite decide_True in Hcan by done.
  assert (quiet w0 w1) as Hq01 by by etransitivity.
  destruct (pool_read_run (GetHostByID hostID) w1 host Hf) as (w2 & Hhost & Hq2).
  { intros now id. rewrite (quiet_db _ _ Hq01). unfold GetHostByID, select_one. by rewrite Hh. }
  assert (quiet w0 w2) as Hq02 by by etransitivity.
  destruct (hostAccessPage_run hostID r limit w0 w2 x) as (w3 & Hpage & Hq3); [done..|].
  exists w3. split; [|done]. unfold fetch_page, hostAccessItems, hostAccessData.
  change (URLParam (with_cursor _ r) "id") with (URLParam r "id"). rewrite Hid. cbn [orFail].
  erewrite bind_run; [|erewrite (bind_run (ret hostID)) by reflexivity;
    erewrite bind_run by exact Hcan; erewrite bind_run by reflexivity;
    erewrite bind_run by (by apply onerr_inr); erewrite bind_run by exact Hpage; reflexivity].
  done.
Qed.

(** C18: the access audit of a host tells the truth: when the database
    answers, an auditor who follows its cursors gets, after finitely many
    requests and without changing anything, every active user who holds
    [host.access] on the host, once and nobody else; the key fingerprints
    listed are exactly those of the keys the host's snapshot would contain;
    and the paths under a user are exactly the live grants, direct or through
    a group, that give the access.  No other
    request commits meanwhile. *)
Theorem access_pages_list_exactly_the_access auth r hostID limit w fuel :
  no_faults → db_wf (w_db w) → Forall user_ok (users (w_db w)) →
  parseUUID (URLParam r "id") = Some hostID →
  authorized (w_db w) auth "host.audit" (TResource "host" hostID) →
  hostID ∈ Host_ID <$> hosts (w_db w) → parseLimit (r_query r "limit") = inr limit →
  (length (users (w_db w)) < fuel)%nat →
  ∃ es w', walk (fetch_page (hostAccessItems auth) r) fuel "" w = Some (es, w') ∧
    quiet w w' ∧ lists_access (w_db w) hostID es.
Proof using HL HA.
  intros Hf Hwf Hok Hid Ha Hhost Hlim Hfuel. set (d := w_db w) in *.
  assert (∃ host, first_row (λ h, Host_ID h = hostID) (hosts d) = Some host) as [host Hh].
  { apply list_elem_of_fmap in Hhost as (h & -> & Hin). exists h.
    by apply (first_row_unique _ Host_ID); [apply wf_host_id| | |]. }
  destruct (walk_all follows follows_irrefl follows_trans limit (proj1 (parseLimit_bounds _ _ Hlim))
    user_cursor (λ x, encodeUserCursor_ne _ _) (access_list hostID d) (access_list_sorted _ _ Hwf)
    (entry_for hostID d) (quiet w) (fetch_page (hostAccessItems auth) r))
    with (fuel := fuel) (w := w) as (w' & Hwalk & Hq).
  - intros x w1 Hw1 Hx. by eapply hostAccessItems_page.
  - eapply Nat.le_lt_trans; [|exact Hfuel]. unfold access_list, order_by.
    rewrite merge_sort_Permutation. apply submseteq_length, NoDup_submseteq; [apply NoDup_remove_dups|].
    by intros u [Hu _]%elem_of_access_users.
  - reflexivity.
  - exists (entry_for hostID d <$> access_list hostID d), w'. split_and!; [done..|].
    by apply access_list_lists.
Qed.

(** The access audit of a secret tells the truth: a completed response
    carries the secret's name and a list of entries that names a user for a
    permission exactly when the permission check would let that user use it:
    as an active admin, or through a live grant of that permission on the
    secret or on a group it belongs to.  Reading it changes nothing. *)
Theorem secret_access_audit_lists_exactly_the_access auth r w resp w' :
  db_wf (w_db w) → Forall (λ u, uuid_wf (User_ID u)) (users (w_db w)) →
  handleSecretAccessAudit s auth r w = (inr resp, w') →
  ∃ secret es,
    secret ∈ secrets (w_db w) ∧ parseUUID (URLParam r "id") = Some (Secret_ID secret) ∧
    carries s (auth_ClientPublicKey auth)
      (JObj [("secret_id", JStr (uuidString (Secret_ID secret)));
             ("secret_name", JStr (Secret_Label secret));
             ("entries", JArr (accessEntry_json <$> es))]) resp ∧
    (∀ u p, u ∈ users (w_db w) →
       entry_reaches es (User_ID u) p ↔
       (User_Role u = "admin" ∧ User_Status u = "active") ∨
       holds (w_db w) (User_ID u) p (TResource "secret" (Secret_ID secret))) ∧
    quiet w w'.
Proof.
  intros Hwf Hid Hr. unfold handleSecretAccessAudit in Hr. invert_run Hr.
  apply pool_inr in Hrun0 as (_ & d & Hq & ->). invert_query Hq.
  apply fmap_Some in Hq as (secret & Hsec & ->). apply first_row_Some in Hsec as [Hin <-].
  apply secretAccessEntries_inr in Hrun1 as [Hq1 Hes]. apply writeResponse_carries in Hr as [Hc Hq2].
  exists secret, v1. split_and!; try done.
  - intros u p Hu. by eapply entries_reach.
  - etransitivity; [|exact Hq2]. etransitivity; [|exact Hq1]. by split.
Qed.
End claims.

(** ** Witnesses *)

(** The scenario with three logins on the host, read two at a time. *)
Definition demo_log (id : uuid) (at_ : Z) : SshAccessLog :=
  {| SshAccessLog_ID := id; SshAccessLog_HostID := host_id; SshAccessLog_Hostname := "web.local";
     SshAccessLog_PublicKeyID := None; SshAccessLog_Account := "deploy"; SshAccessLog_Allowed := true;
     SshAccessLog_At := at_; SshAccessLog_Fingerprint := "SHA256:fp" |}.
Definition audit_db : DB :=
  on_ssh_access_logs (λ _, [demo_log 30%N 5; demo_log 31%N 7; demo_log 32%N 7]) demo_db.
Definition audit_world : World := initial_world audit_db.
Definition audit_request (limit : string) : Request :=
  {| URLParam _ := uuidString host_id; r_query n := if decide (n = "limit") then limit else "";
     r_body := ""; r_authorization := "" |}.

Lemma audit_db_wf : db_wf audit_db.
Proof.
  constructor; unfold references, may_reference, host_seq_ok; apply (bool_decide_unpack _); vm_compute; exact I.
Qed.
Lemma audit_users_ok : Forall user_ok (users audit_db).
Proof. repeat constructor; apply (bool_decide_unpack _); vm_compute; exact I. Qed.

Lemma log_pages_visit_every_entry_once_witness :
  ∃ rows w', walk (fetch_page (hostAuditData alice_auth) (audit_request "2")) 4 "" audit_world
             = Some (hostAuditView <$> rows, w') ∧ StronglySorted newer rows.
Proof.
  destruct (log_pages_visit_every_entry_once alice_auth (audit_request "2") host_id 2
    {| filter_From := None; filter_To := None; filter_Allowed := None; filter_UserID := None;
       filter_Search := None |} audit_world 4) as (rows & w' & Hw & _ & Hs & _).
  - intros t. reflexivity.
  - exact audit_db_wf.
  - unfold log_ok, uuid_wf, time_in_range. apply (bool_decide_unpack _). vm_compute. exact I.
  - vm_compute. reflexivity.
  - right. apply holds_resource_iff. apply (bool_decide_unpack _). vm_compute. exact I.
  - vm_compute. reflexivity.
  - vm_compute. reflexivity.
  - apply (bool_decide_unpack _). vm_compute. exact I.
  - exists rows, w'. split; [exact Hw|exact Hs].
Defined.

Lemma access_pages_list_exactly_the_access_witness :
  ∃ es w', walk (fetch_page (hostAccessItems admin_auth) (audit_request "1")) 3 "" audit_world
           = Some (es, w') ∧ lists_access audit_db host_id es.
Proof.
  destruct (access_pages_list_exactly_the_access admin_auth (audit_request "1") host_id 1 audit_world 3)
    as (es & w' & Hw & _ & Hs).
  - intros t. reflexivity.
  - exact audit_db_wf.
  - exact audit_users_ok.
  - vm_compute. reflexivity.
  - left. reflexivity.
  - apply (bool_decide_unpack _). vm_compute. exact I.
  - vm_compute. reflexivity.
  - apply (bool_decide_unpack _). vm_compute. exact I.
  - exists es, w'. split; [exact Hw|exact Hs].
Defined.

Lemma secret_access_audit_lists_exactly_the_access_witness :
  ∃ es : list accessEntry, ∀ u p, u ∈ users demo_db →
    entry_reaches es (User_ID u) p ↔
    (User_Role u = "admin" ∧ User_Status u = "active") ∨
    holds demo_db (User_ID u) p (TResource "secret" secret_id).
Proof.
  set (run := handleSecretAccessAudit demo_server admin_auth
    (demo_request "" [("id", uuidString secret_id)] JNull) demo_world).
  assert (match run.1 with inr _ => true | inl _ => false end = true) as Hok by (vm_compute; reflexivity).
  destruct run as [[resp|resp] w'] eqn:Hrun; [discriminate Hok|].
  destruct (secret_access_audit_lists_exactly_the_access demo_server admin_auth
    (demo_request "" [("id", uuidString secret_id)] JNull) demo_world resp w' demo_db_wf)
    as (secret & es & Hin & _ & _ & Hes & _).
  - repeat constructor; apply (bool_decide_unpack _); vm_compute; exact I.
  - exact Hrun.
  - apply list_elem_of_singleton in Hin. subst secret. exists es. exact Hes.
Defined.
