(* ===== verification/Delivery.v ===== *)
(** From a request to the decision at the host: revoking a grant on a connected
    host queues a snapshot on its connection, and the host's agent that
    processes it answers sshd by the grants that are left. *)
From S2P Require Import Prelude Text Base64 Json Protocol Crypto Schema Evolve QUsers QAccess QSecrets World Http Perms Grants Accounts Secrets Hosts Sets Groups Upgrades Link Router Daemon Runs Wp Demo Scenario SystemProps GrantProps SecretProps DaemonProps EndToEnd AccountProps AuditProps.

(** What access to a host depends on. *)
Lemma hosts_only_allowed d d' hostID pk :
  hosts_only d d' → allowed_key d' hostID pk ↔ allowed_key d hostID pk.
Proof.
  intros [-> _]. unfold allowed_key. simpl. setoid_rewrite <-reaches_holds. done.
Qed.

Section delivery.
Context `{HP : Platform, HA : !Alone, HL : !PlatformLaws, HD : Disk} (s : Server).

(** The daemon [c] decides by the grants of [d] once it has processed [env]. *)
Definition decides_by (d : DB) (host : Host) (c : Client) (env : Envelope) : Prop :=
  ∀ fp account e, authorize (cl_cache (dispatch env c).2) fp account = Some e ↔
    ∃ pk, allowed_key d (Host_ID host) pk ∧ PublicKey_Fingerprint pk = fp ∧
          account ∈ Host_Accounts host ∧ e = entry_of host pk.

(** A connected host whose queue has room. *)
Record reachable (host : Host) (ch : nat) (q : list Envelope) (h : Hub) : Prop := {
  re_conn : conns h !! uuidString (Host_ID host) = Some ch;
  re_queue : chans h !! ch = Some q;
  re_room : (length q < chan_cap)%nat }.

Lemma pushSnapshot_delivers {E} seed host ch q w :
  no_faults → String.length seed = 32%nat → signer s = Some (Identity.GenerateKeyPair seed) →
  db_wf (w_db w) → w_tx w = None → text_keys (w_db w) host → host ∈ hosts (w_db w) →
  Host_LastSeq host < int64_max → reachable host ch q (w_hub w) →
  ∃ env w', (pushSnapshot s (Host_ID host) : M World E unit) w = (inr tt, w') ∧
    chans (w_hub w') !! ch = Some (q ++ [env]) ∧ hosts_only (w_db w) (w_db w') ∧
    ∀ c, paired (Identity.GenerateKeyPair seed) host c → c_seq (cl_cache c) ≤ Host_LastSeq host →
      decides_by (w_db w) host c env.
Proof using HL HA.
  intros Hf Hlen Hk Hwf Hx Ht Hin Hmax [Hc Hq Hr].
  set (w1 := with_db (w_db w) (step w)).
  assert (pool (GetHostByID (Host_ID host)) w = (inr host, w1)) as Hget.
  { apply pool_ok; [apply Hf|]. unfold GetHostByID, select_one.
    rewrite (first_row_unique _ Host_ID _ host); try done. apply (wf_host_id _ Hwf). }
  destruct (publish_succeeds s host w1 host) as (env & w2 & Hp); [apply Hf|apply Hf|done..|].
  exists env, (with_hub (push (uuidString (Host_ID host)) env (w_hub w2)) w2).
  pose proof (pushSnapshot_counts (E:=E) s (Host_ID host) w) as Hcount.
  assert ((pushSnapshot s (Host_ID host) : M World E unit) w =
    (inr tt, with_hub (push (uuidString (Host_ID host)) env (w_hub w2)) w2)) as Hrun.
  { unfold pushSnapshot, ignore, bind at 1. rewrite Hget. unfold publish in Hp.
    apply bind_inr in Hp as (snap & w3 & Hb & He). unfold bind. by rewrite Hb, He. }
  rewrite Hrun in Hcount. split; [done|]. split_and!.
  - assert (w_hub w2 = w_hub w) as ->.
    { unfold publish in Hp. apply bind_inr in Hp as (snap & w3 & Hb & He).
      apply buildSnapshot_entries in Hb as [Hqt _]. apply snapshotEnvelope_frame in He as [-> _].
      by rewrite (quiet_hub _ _ Hqt). }
    simpl. unfold push, try_send. rewrite Hc, Hq, decide_True by done. apply lookup_insert_eq.
  - by apply (effect_alone hosts_only) in Hcount.
  - intros c Hpair Hseq fp account e. apply (published_decides s seed host w1 env w2 c); try done.
    intros h Hh Hid. by rewrite (unique_key Host_ID (hosts (w_db w1)) h host (wf_host_id _ Hwf) Hh Hin Hid).
Qed.

(** ** Several hosts *)

(** No other host's connection sends on the channel. *)
Definition sole_channel (host : Host) (ch : nat) (d : DB) (h : Hub) : Prop :=
  ∀ h', h' ∈ hosts d → Host_ID h' ≠ Host_ID host → conns h !! uuidString (Host_ID h') ≠ Some ch.

(** Pushing changes neither who there is nor who is connected. *)
Definition stable (w w' : World) : Prop :=
  Host_ID <$> hosts (w_db w') = Host_ID <$> hosts (w_db w) ∧ conns (w_hub w') = conns (w_hub w).
#[local] Instance stable_preorder : PreOrder stable.
Proof. split; [by intros w|]. intros w1 w2 w3 [] []. split; congruence. Qed.
Lemma sole_stable host ch w w' :
  stable w w' → sole_channel host ch (w_db w) (w_hub w) → sole_channel host ch (w_db w') (w_hub w').
Proof.
  intros [Hids Hc] Hs h' Hin Hne. rewrite Hc.
  assert (Host_ID h' ∈ Host_ID <$> hosts (w_db w)) as (x & Hx & Hin')%list_elem_of_fmap
    by (rewrite <-Hids; by apply list_elem_of_fmap_2).
  rewrite Hx. apply Hs; [done|congruence].
Qed.

(** What a push to another host leaves alone. *)
Record host_kept (host : Host) (d d' : DB) : Prop := {
  hk_tables : hosts_only d d';
  hk_row : host ∈ hosts d → host ∈ hosts d';
  hk_ids : Host_ID <$> hosts d' = Host_ID <$> hosts d }.
#[local] Instance host_kept_preorder host : PreOrder (host_kept host).
Proof. split; [by intros d|]. intros d1 d2 d3 [] []. split; [by etrans|auto|congruence]. Qed.
Record kept (host : Host) (ch : nat) (w w' : World) : Prop := {
  kept_db : host_kept host (w_db w) (w_db w');
  kept_conns : conns (w_hub w') = conns (w_hub w);
  kept_queue : chans (w_hub w') !! ch = chans (w_hub w) !! ch;
  kept_tx : w_tx w' = w_tx w }.
#[local] Instance kept_preorder host ch : PreOrder (kept host ch).
Proof. split; [by intros w|]. intros w1 w2 w3 [] []. split; try congruence. by etrans. Qed.

Lemma sole_kept host ch w w' :
  kept host ch w w' → sole_channel host ch (w_db w) (w_hub w) → sole_channel host ch (w_db w') (w_hub w').
Proof. intros [[_ _ Hids] Hc _ _]. by apply sole_stable. Qed.

Lemma push_kept k env ch h :
  conns h !! k ≠ Some ch → conns (push k env h) = conns h ∧ chans (push k env h) !! ch = chans h !! ch.
Proof.
  intros Hk. unfold push. destruct (conns h !! k) as [c|] eqn:Hc; [|done]. unfold try_send.
  destruct (chans h !! c) as [q|]; [|done]. case_decide; [|done]. simpl. split; [done|].
  apply lookup_insert_ne. congruence.
Qed.

Lemma pool_keeps {A} host ch (q : Query A) :
  query_rel (host_kept host) q → preserves (kept host ch) (pool q).
Proof using HA.
  intros Hq w. destruct (pool_frame q w) as [Hh Hx]. split; rewrite ?Hh; try done.
  unfold pool. rewrite catch_up_alone.
  destruct (q _ _ _) as [e|[a d]] eqn:E; destruct (env_fault _); try done; by apply Hq in E.
Qed.
Lemma NextHostSeq_keeps host id : id ≠ Host_ID host → query_rel (host_kept host) (NextHostSeq id).
Proof.
  intros Hne now u d a d' Hr. pose proof (NextHostSeq_counts _ _ _ _ _ _ Hr) as Hc.
  unfold_query Hr. run_query Hr. split; [done|..].
  - intros Hin. simpl. apply elem_of_update_where. exists host. by rewrite decide_False by congruence.
  - simpl. unfold update_where. rewrite <-list_fmap_compose. apply list_fmap_ext. intros i x _. simpl.
    by case_decide.
Qed.

Lemma pushSnapshot_keeps {E} id host ch w :
  id ≠ Host_ID host → sole_channel host ch (w_db w) (w_hub w) →
  kept host ch w ((pushSnapshot s id : M World E unit) w).2.
Proof using HA.
  intros Hne Hs. change (kept host ch w ((h0 <- pool (GetHostByID id);;
    snapshot <- buildSnapshot h0;; env <- snapshotEnvelope s id snapshot;;
    (onHub (push (uuidString id) env) : IO unit)) w).2).
  apply (bind_at (kept host ch)).
  { apply pool_keeps. intros now u d a d' Hr. unfold_query Hr. by run_query Hr. }
  intros h0 w1 Hget. assert (kept host ch w w1 ∧ h0 ∈ hosts (w_db w) ∧ Host_ID h0 = id) as (Hk1 & Hin & Hid).
  { pose proof (pool_keeps host ch (GetHostByID id)) as Hk. specialize (Hk ltac:(intros now u d a d' Hr;
      unfold_query Hr; by run_query Hr) w). rewrite Hget in Hk. split; [done|].
    apply pool_inr in Hget as (_ & d & Hq & _). unfold GetHostByID in Hq. apply select_one_inr in Hq as [Hq _].
    by apply first_row_Some in Hq. }
  apply (bind_at (kept host ch)).
  { unfold buildSnapshot. apply (bind_at (kept host ch)); [|done].
    apply pool_keeps. intros now u d a d' Hr. unfold_query Hr. by run_query Hr. }
  intros snap w2 Hb. apply buildSnapshot_entries in Hb as [[Hdb2 Hx2 Hh2 _ _] _].
  apply (bind_at (kept host ch)).
  { unfold snapshotEnvelope. destruct (signer s); [|done]. apply (bind_at (kept host ch)); [|done].
    by apply pool_keeps, NextHostSeq_keeps. }
  intros env w3 He. apply snapshotEnvelope_frame in He as [Hh3 _].
  destruct (push_kept (uuidString id) env ch (w_hub w3)) as [Hc Hq].
  - rewrite Hh3, Hh2, (kept_conns _ _ _ _ Hk1), <-Hid. apply Hs; [done|congruence].
  - split; try done.
Qed.

Lemma pushToHosts_keeps {E} l host ch w :
  Host_ID host ∉ l → sole_channel host ch (w_db w) (w_hub w) →
  kept host ch w ((pushToHosts s l : M World E unit) w).2.
Proof using HA.
  unfold pushToHosts. revert w. induction l as [|id l IH]; intros w Hl Hs; [done|].
  apply not_elem_of_cons in Hl as [Hne Hl]. simpl.
  pose proof (pushSnapshot_keeps (E:=E) id host ch w (not_eq_sym Hne) Hs) as Hk.
  apply (bind_at (kept host ch)); [exact Hk|]. intros u w1 Hr. rewrite Hr in Hk. simpl in Hk.
  apply IH; [done|]. by eapply sole_kept.
Qed.

Lemma pushToHosts_app {E} l1 l2 w :
  (pushToHosts s (l1 ++ l2) : M World E unit) w = (pushToHosts s l1;;; pushToHosts s l2) w.
Proof.
  unfold pushToHosts. revert w. induction l1 as [|id l1 IH]; intros w; [done|]. simpl. unfold bind in *.
  destruct (pushSnapshot s id w) as [[e|[]] w1]; [done|]. apply IH.
Qed.
Lemma pushToHosts_ok {E} l w : ∃ w', (pushToHosts s l : M World E unit) w = (inr tt, w').
Proof.
  unfold pushToHosts. revert w. induction l as [|id l IH]; intros w; [by eexists|]. simpl. unfold bind.
  unfold pushSnapshot at 1, ignore. apply IH.
Qed.
Lemma decides_by_hosts d d' host c env : hosts_only d d' → decides_by d host c env → decides_by d' host c env.
Proof.
  intros Ho Hd fp account e. rewrite (Hd fp account e). by setoid_rewrite (hosts_only_allowed _ _ _ _ Ho).
Qed.

Lemma pool_stable {A} (q : Query A) :
  query_rel (λ d d', Host_ID <$> hosts d' = Host_ID <$> hosts d) q → preserves stable (pool q).
Proof using HA.
  intros Hq w. destruct (pool_frame q w) as [Hh _]. split; rewrite ?Hh; try done.
  unfold pool. rewrite catch_up_alone.
  destruct (q _ _ _) as [e|[a d]] eqn:E; destruct (env_fault _); try done; by apply Hq in E.
Qed.
Lemma pushSnapshot_stable {E} id : preserves stable (pushSnapshot s id : M World E unit).
Proof using HA.
  apply preserves_ignore. apply (preserves_bind _).
  { apply pool_stable. intros now u d a d' Hr. unfold_query Hr. by run_query Hr. }
  intros h0. apply (preserves_bind _).
  { apply (preserves_bind _); [|intros rows; apply (preserves_ret _)].
    apply pool_stable. intros now u d a d' Hr. unfold_query Hr. by run_query Hr. }
  intros snap. apply (preserves_bind _).
  { unfold snapshotEnvelope. cbv zeta. destruct (signer s); [|apply (preserves_ret _)].
    apply (preserves_bind _); [|intros n; apply (preserves_bind _); [by intros w|intros ?; apply (preserves_ret _)]].
    apply pool_stable. intros now u d a d' Hr. unfold_query Hr. run_query Hr. simpl. unfold update_where.
    rewrite <-list_fmap_compose. apply list_fmap_ext. intros i x _. simpl. by case_decide. }
  intros env w. split; [done|]. simpl. unfold push. destruct (conns _ !! _); [|done]. unfold try_send.
  destruct (chans _ !! _); [|done]. by case_decide.
Qed.

(** Each host of the list is sent what it has to decide by. *)
Lemma pushToHosts_delivers {E} seed l host ch q w :
  no_faults → String.length seed = 32%nat → signer s = Some (Identity.GenerateKeyPair seed) →
  db_wf (w_db w) → w_tx w = None → text_keys (w_db w) host → host ∈ hosts (w_db w) →
  Host_LastSeq host < int64_max → reachable host ch q (w_hub w) →
  sole_channel host ch (w_db w) (w_hub w) → NoDup l → Host_ID host ∈ l →
  ∃ env w', (pushToHosts s l : M World E unit) w = (inr tt, w') ∧
    chans (w_hub w') !! ch = Some (q ++ [env]) ∧ hosts_only (w_db w) (w_db w') ∧
    ∀ c, paired (Identity.GenerateKeyPair seed) host c → c_seq (cl_cache c) ≤ Host_LastSeq host →
      decides_by (w_db w') host c env.
Proof using HL HA.
  intros Hf Hlen Hk Hwf Hx Ht Hin Hmax [Hc Hq Hr] Hs Hnd (l1 & l2 & ->)%list_elem_of_split.
  apply NoDup_app in Hnd as (_ & Hd1 & Hnd). apply NoDup_cons in Hnd as [Hd2 _].
  assert (Host_ID host ∉ l1) as Hd1' by (intros Hl; by apply (Hd1 _ Hl), list_elem_of_here).
  destruct (pushToHosts_ok (E:=E) l1 w) as [w1 H1].
  pose proof (pushToHosts_keeps (E:=E) l1 host ch w Hd1' Hs) as K1. rewrite H1 in K1. simpl in K1.
  pose proof (pushToHosts_rel s (E:=E) l1 w) as Hev. rewrite H1 in Hev. apply (effect_alone evolves) in Hev; [|done].
  pose proof (sole_kept _ _ _ _ K1 Hs) as Hs1. destruct K1 as [[Ho1 Hrow1 _] Hc1 Hq1 Hx1].
  destruct (pushSnapshot_delivers (E:=E) seed host ch q w1) as (env & w2 & H2 & Hch & Ho2 & Hdec); try done.
  { by apply (ev_wf _ _ Hev). }
  { congruence. }
  { unfold text_keys in *. rewrite (ho_tables _ _ Ho1). exact Ht. }
  { by apply Hrow1. }
  { split; [by rewrite Hc1|by rewrite Hq1|done]. }
  pose proof (pushSnapshot_stable (E:=E) (Host_ID host) w1) as St. rewrite H2 in St.
  destruct (pushToHosts_ok (E:=E) l2 w2) as [w3 H3].
  pose proof (pushToHosts_keeps (E:=E) l2 host ch w2 Hd2 (sole_stable _ _ _ _ St Hs1)) as K3.
  rewrite H3 in K3. destruct K3 as [[Ho3 _ _] _ Hq3 _]. simpl in Ho3, Hq3. exists env, w3. split_and!.
  - rewrite pushToHosts_app. unfold bind. rewrite H1. unfold pushToHosts at 1. simpl. unfold bind.
    by rewrite H2.
  - by rewrite Hq3.
  - by etrans; [|etrans].
  - intros c Hpair Hseq. apply (decides_by_hosts (w_db w1)); [by etrans|]. by apply Hdec.
Qed.

(** ** Grants on the host or on a group it is in *)

(** The hosts in question and their connections. *)
Record served (host : Host) (ch : nat) (q : list Envelope) (d : DB) (h : Hub) : Prop := {
  sv_text : text_keys d host;
  sv_seq : Host_LastSeq host < int64_max;
  sv_reachable : reachable host ch q h;
  sv_sole : sole_channel host ch d h }.

Lemma served_same host ch q d d' h :
  hosts d' = hosts d → public_keys d' = public_keys d → served host ch q d h → served host ch q d' h.
Proof.
  intros Hh Hk [Ht Hm Hr Hs]. split; [by unfold text_keys; rewrite Hk|done|done|].
  intros x Hx. rewrite Hh in Hx. by apply Hs.
Qed.

Lemma GroupHostIDs_nodup d gid :
  db_wf d → NoDup (GroupResource_ResourceID <$>
    filter (λ m, GroupResource_GroupID m = gid ∧ GroupResource_ResourceKind m = "host") (group_resources d)).
Proof.
  intros Hwf. pose proof (wf_member_key _ Hwf) as Hnd. induction (group_resources d) as [|m l IH]; [constructor|].
  simpl in Hnd. apply NoDup_cons in Hnd as [Hm Hnd]. rewrite filter_cons. case_decide as Hc; [|by apply IH].
  simpl. apply NoDup_cons. split; [|by apply IH]. intros (x & Hx & Hin)%list_elem_of_fmap.
  apply list_elem_of_filter in Hin as [[Hg Hk] Hin]. apply Hm, list_elem_of_fmap. exists x. split; [|done].
  destruct Hc as [Hg' Hk']. unfold GroupResource_key. congruence.
Qed.

(** A change of a grant is pushed to every host the grant reaches. *)
Lemma pushIfHostGrant_delivers {E} seed g host ch q w :
  no_faults → String.length seed = 32%nat → signer s = Some (Identity.GenerateKeyPair seed) →
  db_wf (w_db w) → w_tx w = None → host ∈ hosts (w_db w) → served host ch q (w_db w) (w_hub w) →
  Grant_Permission g = "host.access" → reaches (w_db w) "host" (Host_ID host) g →
  ∃ env w', (pushIfHostGrant s (Grant_Permission g) (Grant_TargetKind g) (Grant_TargetID g) : M World E unit) w
      = (inr tt, w') ∧
    chans (w_hub w') !! ch = Some (q ++ [env]) ∧ hosts_only (w_db w) (w_db w') ∧
    ∀ c, paired (Identity.GenerateKeyPair seed) host c → c_seq (cl_cache c) ≤ Host_LastSeq host →
      decides_by (w_db w') host c env.
Proof using HL HA.
  intros Hf Hlen Hk Hwf Hx Hin [Ht Hmax Hre Hsole] Hp Hr. unfold pushIfHostGrant.
  rewrite Hp, bool_decide_true by done. simpl. destruct Hr as [[Hkind Htgt]|[Hkind Htgt]]; rewrite Hkind.
  - rewrite decide_True, Htgt by done. apply (pushToHosts_delivers seed [Host_ID host]); try done.
    + apply NoDup_singleton.
    + by apply list_elem_of_here.
  - rewrite decide_False, decide_True by done. apply opt_in_spec in Htgt as (gid & -> & Hgid).
    set (ids := GroupResource_ResourceID <$> filter (λ m, GroupResource_GroupID m = gid ∧
      GroupResource_ResourceKind m = "host") (group_resources (w_db w))).
    assert (pool (GroupHostIDs gid) w = (inr ids, with_db (w_db w) (step w))) as Hpool by by apply pool_ok.
    unfold bind at 1, attempt. rewrite Hpool.
    apply (pushToHosts_delivers seed ids host ch q (with_db (w_db w) (step w))); try done.
    + by apply GroupHostIDs_nodup.
    + unfold groups_of in Hgid. apply list_elem_of_fmap in Hgid as (m & -> & [[Hmk Hmr] Hm]%list_elem_of_filter).
      apply list_elem_of_fmap. exists m. split; [done|]. apply list_elem_of_filter. done.
Qed.

(** ** Revoking a grant *)

Definition revoked_in (id : uuid) (d : DB) : Prop :=
  ∃ g, g ∈ grants d ∧ Grant_ID g = id ∧ is_Some (Grant_RevokedAt g).

Lemma wp_revoke_delivers seed auth r g host ch q d h w :
  no_faults → String.length seed = 32%nat → signer s = Some (Identity.GenerateKeyPair seed) →
  db_wf d → host ∈ hosts d → served host ch q d h →
  g ∈ grants d → parseUUID (URLParam r "id") = Some (Grant_ID g) →
  Grant_Permission g = "host.access" → reaches d "host" (Host_ID host) g → no_tx d h w →
  wp (handleRevokeGrant s auth r) w (λ resp _, error_status resp)
    (λ _ w', ∃ env, chans (w_hub w') !! ch = Some (q ++ [env]) ∧ revoked_in (Grant_ID g) (w_db w') ∧
       ∀ c, paired (Identity.GenerateKeyPair seed) host c → c_seq (cl_cache c) ≤ Host_LastSeq host →
         decides_by (w_db w') host c env).
Proof using HL HA.
  intros Hf Hlen Hk Hwf Hin Hsv Hg Hid Hp Hr Hw. unfold handleRevokeGrant.
  repeat (first [eapply wp_auditGrant; [eassumption|intros ? ? []|intros ? ? ? ? ?] | wp_step]; cbv beta zeta; try done).
  match goal with Hq : RevokeGrant _ _ _ _ = _ |- _ =>
    pose proof (RevokeGrant_ev _ _ _ _ _ _ Hq) as Hev; apply RevokeGrant_inr in Hq as (g0 & Hg0 & Hid0 & Hl & -> & ->) end.
  assert (g0 = g) as ->.
  { apply (unique_key Grant_ID (grants d)); [apply (wf_grant_id _ Hwf)|done|done|congruence]. }
  match goal with Hw3 : no_tx (logged ?a ?d1) h ?w3, Hlog : evolves ?d1 _ |- context [set_Grant_RevokedAt ?o g] =>
    destruct Hw3 as [Hdb Hx Hh]; pose proof (ev_wf _ _ Hlog (ev_wf _ _ Hev Hwf)) as Hwf3;
    destruct (pushIfHostGrant_delivers (E:=Response) seed (set_Grant_RevokedAt o g) host ch q w3)
      as (env & w4 & Hrun & Hch & Hho & Hdec);
    [done..|by rewrite Hdb|done|by rewrite Hdb|rewrite Hdb, Hh; by apply (served_same _ _ _ d)|done|by rewrite Hdb|] end.
  unfold wp at 1. rewrite Hrun. apply wp_ret. exists env. split; [exact Hch|]. split; [|exact Hdec].
  simpl. rewrite (ho_tables _ _ Hho). unfold revoked_in. simpl. rewrite Hdb. simpl. eexists. split; [apply elem_of_update_where; by exists g|].
  rewrite decide_True by (split; [congruence|done]). simpl. split; [done|by eexists].
Qed.

(** C3: a revocation reaches the hosts.  If DELETE /grants/{id} succeeds for a
    grant of [host.access], the database answers and no other request commits
    while it is served, the grant is revoked, and every host the grant was on,
    itself or as a member of its group, that is connected with room in its queue
    has one more envelope queued.  An agent of the host whose last applied
    number is not above the host's counter and that processes the envelope
    authorizes a key for an account if and only if the key's owner still has
    access by the grants that are left.  (Both conditions are needed:
    [Interleaving.older_snapshot_undoes_a_revocation] and
    [DaemonProps.reenrolled_daemon_ignores_low_snapshots].) *)
Theorem revocations_reach_the_host seed auth r g host ch q w resp w' :
  no_faults → String.length seed = 32%nat → signer s = Some (Identity.GenerateKeyPair seed) →
  db_wf (w_db w) → w_tx w = None → host ∈ hosts (w_db w) → served host ch q (w_db w) (w_hub w) →
  g ∈ grants (w_db w) → parseUUID (URLParam r "id") = Some (Grant_ID g) →
  Grant_Permission g = "host.access" → reaches (w_db w) "host" (Host_ID host) g →
  serve (handleRevokeGrant s auth r) w = (resp, w') → resp_status resp < 400 →
  ∃ env, chans (w_hub w') !! ch = Some (q ++ [env]) ∧ revoked_in (Grant_ID g) (w_db w') ∧
    ∀ c, paired (Identity.GenerateKeyPair seed) host c → c_seq (cl_cache c) ≤ Host_LastSeq host →
      decides_by (w_db w') host c env.
Proof using HL HA.
  intros Hf Hlen Hk Hwf Hx Hin Hsv Hg Hid Hp Hr Hs Hst.
  eapply wp_serve in Hs; [|by apply (wp_revoke_delivers seed auth r g host ch q (w_db w) (w_hub w) w)].
  destruct Hs as [He|Hq]; [|done]. unfold error_status in He. lia.
Qed.

(** ** Creating a grant *)

(** What a host is sent once a change is committed. *)
Definition sent (seed : bytes) (host : Host) (ch : nat) (q : list Envelope) (w' : World) : Prop :=
  ∃ env, chans (w_hub w') !! ch = Some (q ++ [env]) ∧
    ∀ c, paired (Identity.GenerateKeyPair seed) host c → c_seq (cl_cache c) ≤ Host_LastSeq host →
      decides_by (w_db w') host c env.

Lemma pushIfHostGrant_ok p k x w :
  ∃ w', (pushIfHostGrant s p k x : M World Response unit) w = (inr tt, w').
Proof.
  pose proof (pushIfHostGrant_fails s (λ _, False) p k x w) as Hf.
  destruct (pushIfHostGrant s p k x w) as [[e|[]] w']; [|by eexists]. destruct (Hf e w' eq_refl).
Qed.

Lemma wp_create_tail seed g a d h w key v :
  no_faults → String.length seed = 32%nat → signer s = Some (Identity.GenerateKeyPair seed) →
  let d1 := logged a (on_grants (λ l, l ++ [g]) d) in
  db_wf d1 → no_tx d1 h w → live g →
  wp (pushIfHostGrant s (Grant_Permission g) (Grant_TargetKind g) (Grant_TargetID g);;; writeResponse s key v) w
    (λ resp _, error_status resp)
    (λ _ w', ∃ g, live g ∧ g ∈ grants (w_db w') ∧
       ∀ host ch q, Grant_Permission g = "host.access" → reaches d "host" (Host_ID host) g →
         host ∈ hosts d → served host ch q d h → sent seed host ch q w').
Proof using HL HA.
  intros Hf Hlen Hk d1 Hwf [Hdb Hx Hh] Hl.
  destruct (pushIfHostGrant_ok (Grant_Permission g) (Grant_TargetKind g) (Grant_TargetID g) w) as [w1 Hrun].
  pose proof (pushIfHostGrant_counts s (E:=Response) (Grant_Permission g) (Grant_TargetKind g) (Grant_TargetID g) w) as Hc.
  rewrite Hrun in Hc. apply (effect_alone hosts_only) in Hc; [|done]. simpl in Hc.
  apply wp_bind. unfold wp at 1. rewrite Hrun. unfold wp.
  pose proof (writeResponse_quiet s key v w1) as Hq. pose proof (writeResponse_fails s key v w1) as He.
  destruct (writeResponse s key v w1) as [[e|resp] w2]; [by apply (He e w2)|]. destruct Hq as [Hdb2 _ Hh2 _ _].
  simpl in Hdb2, Hh2. exists g. split; [done|]. split.
  { rewrite Hdb2, (ho_tables _ _ Hc), Hdb. simpl. apply elem_of_app. right. by apply list_elem_of_singleton. }
  intros host ch q Hp Hr Hin Hsv. unfold sent. rewrite Hdb2, Hh2.
  destruct (pushIfHostGrant_delivers (E:=Response) seed g host ch q w) as (env & w3 & Hrun3 & Hch & _ & Hdec); try done.
  - by rewrite Hdb.
  - by rewrite Hdb.
  - rewrite Hdb, Hh. by apply (served_same _ _ _ d).
  - by rewrite Hdb.
  - rewrite Hrun in Hrun3. injection Hrun3 as <-. by exists env.
Qed.

Lemma wp_create_delivers seed auth r d h w :
  no_faults → String.length seed = 32%nat → signer s = Some (Identity.GenerateKeyPair seed) →
  db_wf d → no_tx d h w →
  wp (handleCreateGrant s auth r) w (λ resp _, error_status resp)
    (λ _ w', ∃ g, live g ∧ g ∈ grants (w_db w') ∧
       ∀ host ch q, Grant_Permission g = "host.access" → reaches d "host" (Host_ID host) g →
         host ∈ hosts d → served host ch q d h → sent seed host ch q w').
Proof using HL HA.
  intros Hf Hlen Hk Hwf Hw. unfold handleCreateGrant.
  repeat (first [eapply wp_auditGrant; [eassumption|intros ? ? []|intros ? ? ? ? ?]
    | lazymatch goal with |- wp (bind (pushIfHostGrant _ _ _ _) _) _ _ _ => fail | _ => wp_step end];
    cbv beta zeta; try done).
  all: match goal with Hq : CreateGrant _ _ _ _ _ _ _ _ = _, Hlog : evolves _ (logged ?a _) |- _ =>
    pose proof (ev_wf _ _ Hlog (ev_wf _ _ (CreateGrant_ev _ _ _ _ _ _ _ _ _ _ Hq) Hwf));
    apply CreateGrant_inr in Hq as (_ & _ & _ & _ & _ & _ & Hl & ->); by eapply wp_create_tail end.
Qed.

(** A new grant reaches the hosts.  If POST /grants succeeds and the database
    answers, a live grant is stored, and if it gives [host.access] every host
    it is on, itself or as a member of its group, that is connected with room
    in its queue is sent what makes its agent decide by the grants there are. *)
Theorem created_grants_reach_the_host seed auth r w resp w' :
  no_faults → String.length seed = 32%nat → signer s = Some (Identity.GenerateKeyPair seed) →
  db_wf (w_db w) → w_tx w = None →
  serve (handleCreateGrant s auth r) w = (resp, w') → resp_status resp < 400 →
  ∃ g, live g ∧ g ∈ grants (w_db w') ∧
    ∀ host ch q, Grant_Permission g = "host.access" → reaches (w_db w) "host" (Host_ID host) g →
      host ∈ hosts (w_db w) → served host ch q (w_db w) (w_hub w) → sent seed host ch q w'.
Proof using HL HA.
  intros Hf Hlen Hk Hwf Hx Hs Hst.
  eapply wp_serve in Hs; [|by apply (wp_create_delivers seed auth r (w_db w) (w_hub w) w)].
  destruct Hs as [He|Hq]; [unfold error_status in He; lia|done].
Qed.

(** ** Removing a user *)

Definition could_access (d : DB) (id : uuid) (host : Host) : Prop :=
  host ∈ hosts d ∧ holds d id "host.access" (TResource "host" (Host_ID host)).

Lemma grantedHosts_run {E} id w :
  no_faults → ∃ l w1, (grantedHosts id : M World E _) w = (inr l, w1) ∧ quiet w w1 ∧ NoDup l ∧
    ∀ host, could_access (w_db w) id host → Host_ID host ∈ l.
Proof using HA.
  intros Hf. unfold grantedHosts, bind, attempt.
  destruct (pool (UserGrantedHostIDs id) w) as [r w1] eqn:Hp.
  pose proof (pool_quiet (UserGrantedHostIDs id) ltac:(solve_reads) w) as Hq. rewrite Hp in Hq. simpl in Hq.
  unfold pool in Hp. rewrite catch_up_alone, Hf in Hp. unfold UserGrantedHostIDs, select in Hp. simplify_eq/=.
  eexists _, _. split; [done|]. split; [done|]. split; [apply NoDup_remove_dups|].
  intros host [Hin Hh]. apply holds_resource_iff, list.Exists_exists in Hh as (g & Hg & Hu & Hp & Hl & Hr).
  apply elem_of_remove_dups, list_elem_of_bind. exists host. split; [|done].
  apply list_elem_of_bind. exists g. split; [by apply list_elem_of_singleton|]. apply list_elem_of_filter. done.
Qed.

Definition told (seed : bytes) (id : uuid) (d : DB) (h : Hub) (w' : World) : Prop :=
  ∀ host ch q, could_access d id host → served host ch q d h → sent seed host ch q w'.

Lemma wp_remove_delivers seed auth r d h w :
  no_faults → String.length seed = 32%nat → signer s = Some (Identity.GenerateKeyPair seed) →
  db_wf d → no_tx d h w →
  wp (handleRemoveUser s auth r) w (λ resp _, error_status resp)
    (λ _ w', ∃ id now, parseUUID (URLParam r "id") = Some id ∧ hosts_only (remove_user id now d) (w_db w') ∧
       told seed id d h w').
Proof using HL HA.
  intros Hf Hlen Hk Hwf Hw. unfold handleRemoveUser.
  wp_step. eapply wp_targetUser; [eassumption|done|]. intros id w1 Hid Hself Hw1.
  apply wp_bind. unfold wp at 1. destruct (grantedHosts_run (E:=Response) id w1 Hf) as (l & w2 & -> & Hq & Hnd & Hl).
  pose proof (no_tx_quiet _ _ _ _ Hq Hw1) as Hw2. rewrite (no_tx_db _ _ _ Hw1) in Hl.
  repeat (wp_step; cbv beta zeta; try done).
  match goal with
  | Q1 : SetUserStatus _ _ _ _ _ = _, Q2 : DeleteUserIdentities _ _ _ _ = _, Q3 : RevokeAllUserGrants _ _ _ _ = _,
    Q4 : RevokeAllUserSessions _ _ _ _ = _, Hw7 : no_tx _ h ?w7 |- wp (pushToHosts _ _) ?w7 _ _ =>
      pose proof (ev_wf _ _ (RevokeAllUserSessions_ev _ _ _ _ _ _ Q4) (ev_wf _ _ (RevokeAllUserGrants_ev _ _ _ _ _ _ Q3)
        (ev_wf _ _ (DeleteUserIdentities_ev _ _ _ _ _ _ Q2) (ev_wf _ _ (SetUserStatus_ev _ _ _ _ _ _ _ Q1) Hwf)))) as Hwf7;
      invert_query Q4; invert_query Q3; invert_query Q2; invert_query Q1; revert Hwf7; destruct Hw7 as [Hdb7 Hx7 Hh7];
      destruct (pushToHosts_ok (E:=Response) l w7) as [w8 Hrun];
      pose proof (pushToHosts_counts s (E:=Response) l w7) as Hcnt
  end.
  rewrite <-Hdb7. intros Hwf7. rewrite Hrun in Hcnt. apply (effect_alone hosts_only) in Hcnt; [|done].
  unfold wp at 1. rewrite Hrun. apply wp_ret. exists id, now. split; [done|]. split.
  { change (w_db (with_tx None w8)) with (w_db w8). by rewrite Hdb7 in Hcnt. }
  intros host ch q Hacc [Ht Hmax Hre Hsole]. pose proof (Hl host Hacc) as Hin. destruct Hacc as [Hhost _].
  destruct (pushToHosts_delivers (E:=Response) seed l host ch q w7) as (env & w9 & Hrun9 & Hch & _ & Hdec); try done.
  - by rewrite Hdb7.
  - by rewrite Hdb7.
  - by rewrite Hh7.
  - by rewrite Hdb7, Hh7.
  - rewrite Hrun in Hrun9. injection Hrun9 as <-. by exists env.
Qed.

(** C22: removing a user shuts them out.  If DELETE /users/{id} succeeds, the
    database answers and no other request commits while it is served, nothing of
    the user's access is left in the database, and every host they had access to
    that is connected with room in its queue has one more envelope queued.  An
    agent of the host whose last applied number is not above the host's counter
    and that processes the envelope decides by the grants that are left and
    authorizes no key of the user. *)
Theorem removed_users_are_shut_out seed auth r w resp w' :
  no_faults → String.length seed = 32%nat → signer s = Some (Identity.GenerateKeyPair seed) →
  db_wf (w_db w) → w_tx w = None →
  serve (handleRemoveUser s auth r) w = (resp, w') → resp_status resp < 400 →
  ∃ id, parseUUID (URLParam r "id") = Some id ∧ no_access (w_db w') id ∧
    ∀ host ch q, could_access (w_db w) id host → served host ch q (w_db w) (w_hub w) →
      ∃ env, chans (w_hub w') !! ch = Some (q ++ [env]) ∧
        ∀ c, paired (Identity.GenerateKeyPair seed) host c → c_seq (cl_cache c) ≤ Host_LastSeq host →
          decides_by (w_db w') host c env ∧
          ∀ fp account e, authorize (cl_cache (dispatch env c).2) fp account = Some e →
            ∃ pk, e = entry_of host pk ∧ PublicKey_UserID pk ≠ id.
Proof using HL HA.
  intros Hf Hlen Hk Hwf Hx Hs Hst.
  eapply wp_serve in Hs; [|by apply (wp_remove_delivers seed auth r (w_db w) (w_hub w) w)].
  destruct Hs as [He|(id & now & Hid & Ho & Htold)]; [unfold error_status in He; lia|].
  pose proof (remove_user_no_access _ _ _ _ Ho) as Hno. exists id. split_and!; [done..|].
  intros host ch q Hacc Hsv. destruct (Htold host ch q Hacc Hsv) as (env & Hch & Hdec). exists env. split; [done|].
  intros c Hp Hseq. split; [by apply Hdec|]. intros fp account e (pk & Ha & _ & _ & ->)%(Hdec c Hp Hseq).
  exists pk. split; [done|]. by apply (lo_keys _ _ (na_locked _ _ Hno) (Host_ID host)).
Qed.
End delivery.

(** ** Witness *)

(** The demo deployment with alice's access granted on the host itself. *)
Definition direct_world : World :=
  with_hub (register (uuidString host_id) 0 (make_chan newHub).2)
    (initial_world (on_grants (λ _, [demo_grant 11%N alice_id "host.access" "host" (Some host_id)]) demo_db)).
Definition revoke_direct : Response * World :=
  serve (handleRevokeGrant demo_server admin_auth (demo_request "" [("id", uuidString 11%N)] JNull)) direct_world.

Lemma direct_world_wf : db_wf (w_db direct_world).
Proof.
  constructor; unfold references, may_reference, host_seq_ok; apply (bool_decide_unpack _); vm_compute; exact I.
Qed.

Lemma direct_served : served demo_host 0 [] (w_db direct_world) (w_hub direct_world).
Proof.
  split.
  - exact demo_text_keys.
  - reflexivity.
  - split; [vm_compute; reflexivity|vm_compute; reflexivity|vm_compute; lia].
  - assert (Forall (λ h', Host_ID h' = Host_ID demo_host) (hosts (w_db direct_world))) as Hall
      by (apply (bool_decide_unpack _); vm_compute; exact I).
    intros h' Hin Hne. rewrite Forall_forall in Hall. destruct (Hne (Hall _ Hin)).
Qed.

Lemma revocations_reach_the_host_witness :
  ∃ env, chans (w_hub revoke_direct.2) !! 0%nat = Some [env] ∧
    decides_by (w_db revoke_direct.2) demo_host web_daemon env.
Proof.
  destruct revoke_direct as [resp w'] eqn:Hr.
  destruct (revocations_reach_the_host demo_server (zeros 32) admin_auth
    (demo_request "" [("id", uuidString 11%N)] JNull)
    (demo_grant 11%N alice_id "host.access" "host" (Some host_id)) demo_host 0 [] direct_world resp w')
    as (env & Hch & _ & Hdec).
  - intros t. reflexivity.
  - reflexivity.
  - exact demo_server_signer.
  - exact direct_world_wf.
  - reflexivity.
  - apply (bool_decide_unpack _). vm_compute. exact I.
  - exact direct_served.
  - apply (bool_decide_unpack _). vm_compute. exact I.
  - vm_compute. reflexivity.
  - reflexivity.
  - apply (bool_decide_unpack _). vm_compute. exact I.
  - exact Hr.
  - assert (resp_status revoke_direct.1 < 400) as Hs by (vm_compute; reflexivity).
    rewrite Hr in Hs. exact Hs.
  - exists env. split; [exact Hch|]. apply Hdec; [exact web_paired|vm_compute; discriminate].
Defined.

(** Alice is removed while the host is connected. *)
Definition remove_alice : Response * World :=
  serve (handleRemoveUser demo_server admin_auth on_alice) direct_world.

Lemma removed_users_are_shut_out_witness :
  no_access (w_db remove_alice.2) alice_id ∧
  ∃ env, chans (w_hub remove_alice.2) !! 0%nat = Some [env] ∧
    decides_by (w_db remove_alice.2) demo_host web_daemon env.
Proof.
  destruct remove_alice as [resp w'] eqn:Hr.
  destruct (removed_users_are_shut_out demo_server (zeros 32) admin_auth on_alice direct_world resp w')
    as (id & Hid & Hno & Htold).
  - intros t. reflexivity.
  - reflexivity.
  - exact demo_server_signer.
  - exact direct_world_wf.
  - reflexivity.
  - exact Hr.
  - assert (resp_status remove_alice.1 < 400) as Hs by (vm_compute; reflexivity).
    rewrite Hr in Hs. exact Hs.
  - vm_compute in Hid. injection Hid as <-. split; [exact Hno|].
    destruct (Htold demo_host 0%nat []) as (env & Hch & Hdec).
    + split; [apply (bool_decide_unpack _); vm_compute; exact I|].
      apply holds_resource_iff. apply (bool_decide_unpack _). vm_compute. exact I.
    + exact direct_served.
    + exists env. split; [exact Hch|]. apply Hdec; [exact web_paired|vm_compute; discriminate].
Defined.
