(* ===== verification/Wire.v ===== *)
(** Messages as they travel: an [Envelope] ([internal/protocol/protocol.go])
    as the JSON text of a websocket message, with the read limits of both
    sides ([connectAndServe] of [internal/daemon/client.go]; the library's
    default in [internal/controlplane/daemon_ws.go]), and the read loops on
    frames.

    [Data] is a [json.RawMessage]: marshalling copies the payload's text into
    the message, unmarshalling takes its bytes out again, so a signature over
    them still verifies.  The library's frames are a parameter. *)
From S2P Require Import Prelude Text Base64 Json Protocol Crypto Schema Evolve QAccess World Http Grants Sets Link Daemon Demo Scenario Runs DaemonProps Agent AgentProps GrantProps EndToEnd Trail.

(** ** Parameters *)

(** [json_raw text name]: what a [json.RawMessage] field is set to, the bytes
    of the last member of that name of the object [text]. *)
Class RawText := json_raw : string → string → option string.
Class RawTextLaws `{JsonText, RawText} : Prop :=
  json_raw_print : ∀ o name, json_valid (JObj o) = true →
    json_raw (json_print (JObj o)) name = json_print <$> last (members name o).

(** [wsjson] over [coder/websocket]: the message that carries a JSON text, and
    the text of a message. *)
Class WsJson := {
  ws_frame : bytes → bytes;
  ws_text : bytes → bytes;
  ws_default_limit : Z                 (* of a connection without [SetReadLimit] *) }.
Class WsJsonLaws `{WsJson} : Prop := ws_text_frame : ∀ t, ws_text (ws_frame t) = t.

(** [maxReadBytes] *)
Definition maxReadBytes : Z := 2 ^ 20.

Section wire.
Context `{JsonText, RawText, WsJson}.

(** ** Envelopes as JSON *)

(** [data], [seq] and [sig] are left out when empty; marshalling fails if
    [Data] is not JSON. *)
Definition Envelope_text (env : Envelope) : option string :=
  data ← (if decide (Envelope_Data env = "") then Some []
          else (λ j, [("data", j)]) <$> json_parse (Envelope_Data env));
  Some (json_print (JObj ([("type", JStr (Envelope_Type env))] ++ data ++
    (if decide (Envelope_Seq env = 0) then [] else [("seq", JInt (Envelope_Seq env))]) ++
    (if decide (Envelope_Sig env = "") then []
     else [("sig", JStr (EncodeToString StdEncoding (Envelope_Sig env)))])))).

Definition Envelope_of_text (text : string) : option Envelope :=
  unmarshal (as_struct {| Envelope_Type := ""; Envelope_Data := ""; Envelope_Seq := 0; Envelope_Sig := "" |}
    (λ o, t ← decode_field as_string "" "type" o; n ← decode_field as_uint64 0 "seq" o;
          s ← decode_field as_bytes "" "sig" o;
          Some {| Envelope_Type := t; Envelope_Data := default "" (json_raw text "data");
                  Envelope_Seq := n; Envelope_Sig := s |})) text.

(** ** [wsjson.Write], [wsjson.Read] *)

Definition wsWrite (env : Envelope) : error + bytes :=
  match Envelope_text env with Some t => inr (ws_frame t) | None => inl (ErrMsg "json") end.
(** A message over the limit closes the connection. *)
Definition wsRead (limit : Z) (frame : bytes) : error + Envelope :=
  if decide (Z.of_nat (String.length frame) ≤ limit)
  then match Envelope_of_text (ws_text frame) with Some env => inr env | None => inl (ErrMsg "json") end
  else inl (ErrConn "message too big").

(** ** Messages survive *)

(** What [NewEnvelope], [signed_envelope] and the pings make. *)
Record wire_ok (env : Envelope) : Prop := {
  wire_type : valid_text (Envelope_Type env) = true;
  wire_data : Envelope_Data env = "" ∨ ∃ j, json_valid j = true ∧ Envelope_Data env = json_print j;
  wire_seq : 0 ≤ Envelope_Seq env < 2 ^ 64 }.

(** The members of a message, and how they read back. *)
Definition wire_members (env : Envelope) (data : list (string * json)) : list (string * json) :=
  [("type", JStr (Envelope_Type env))] ++ data ++
  (if decide (Envelope_Seq env = 0) then [] else [("seq", JInt (Envelope_Seq env))]) ++
  (if decide (Envelope_Sig env = "") then []
   else [("sig", JStr (EncodeToString StdEncoding (Envelope_Sig env)))]).
Lemma wire_members_valid env data :
  wire_ok env → json_valid (JObj data) = true → json_valid (JObj (wire_members env data)) = true.
Proof.
  intros [Ht _ _] Hd. unfold wire_members. cbn [json_valid] in *.
  rewrite !forallb_app, Hd. cbn [forallb fst snd json_valid]. rewrite Ht.
  do 2 case_decide; cbn [forallb fst snd json_valid]; rewrite ?EncodeToString_valid; done.
Qed.

Context `{!JsonTextLaws, !RawTextLaws, !WsJsonLaws}.

#[local] Arguments as_bytes : simpl never.
#[local] Arguments EncodeToString : simpl never.

Lemma wire_read env data :
  wire_ok env → (data = [] ∧ Envelope_Data env = "" ∨
                 ∃ j, data = [("data", j)] ∧ json_valid j = true ∧ Envelope_Data env = json_print j) →
  Envelope_of_text (json_print (JObj (wire_members env data))) = Some env.
Proof.
  intros Hok Hdata. destruct env as [ty da n sg].
  assert (json_valid (JObj data) = true) as Hv.
  { destruct Hdata as [[-> _]|(j & -> & Hj & _)]; [done|]. simpl. by rewrite Hj. }
  pose proof (wire_members_valid _ _ Hok Hv) as Hw.
  unfold Envelope_of_text. rewrite unmarshal_print, json_raw_print by done.
  destruct Hok as [_ _ Hn]. simpl in Hn. unfold wire_members.
  destruct Hdata as [[-> Hda]|(j & -> & Hj & Hda)]; simpl in Hda; subst da;
    cbn [Envelope_Type Envelope_Seq Envelope_Sig];
    destruct (decide (n = 0)) as [->|]; destruct (decide (sg = "")) as [->|]; json_decode;
    rewrite ?as_bytes_roundtrip; json_decode; try rewrite decide_True by done; json_decode; done.
Qed.

Lemma Envelope_survives env : wire_ok env → ∃ t, Envelope_text env = Some t ∧ Envelope_of_text t = Some env.
Proof.
  intros Hok. unfold Envelope_text. destruct (decide (Envelope_Data env = "")) as [Hd|Hd].
  - eexists. split; [reflexivity|]. apply (wire_read env []); auto.
  - destruct (wire_data _ Hok) as [|(j & Hj & Hp)]; [done|]. rewrite Hp, json_parse_print by done.
    eexists. split; [reflexivity|]. apply (wire_read env [("data", j)]); eauto.
Qed.

(** A message is read as it was written, if it is not too long. *)
Lemma wsRead_wsWrite env limit :
  wire_ok env → ∃ f, wsWrite env = inr f ∧
    wsRead limit f = if decide (Z.of_nat (String.length f) ≤ limit) then inr env else inl (ErrConn "message too big").
Proof.
  intros (t & Ht & Hr)%Envelope_survives. exists (ws_frame t). unfold wsWrite, wsRead.
  rewrite Ht, ws_text_frame, Hr. by split.
Qed.

Lemma NewEnvelope_wire t payload :
  valid_text t = true → (∀ j, payload = Some j → json_valid j = true) → wire_ok (NewEnvelope t payload).
Proof. intros Ht Hp. destruct payload as [j|]; split; simpl; eauto; lia. Qed.

(** How many messages come before the first that is too long. *)
Fixpoint fitting (limit : Z) (frames : list bytes) : nat :=
  match frames with
  | [] => 0
  | f :: rest => if decide (Z.of_nat (String.length f) ≤ limit) then S (fitting limit rest) else 0
  end.
Definition carried (envs : list Envelope) (frames : list bytes) : Prop :=
  Forall2 (λ env f, wire_ok env ∧ wsWrite env = inr f) envs frames.

Lemma wsRead_carried env f limit :
  wire_ok env → wsWrite env = inr f →
  wsRead limit f = if decide (Z.of_nat (String.length f) ≤ limit) then inr env else inl (ErrConn "message too big").
Proof.
  intros Hok Hw. destruct (wsRead_wsWrite env limit Hok) as (f' & Hw' & Hr).
  rewrite Hw in Hw'. injection Hw' as <-. exact Hr.
Qed.
End wire.

(** ** The read loops on frames *)

Section loops.
Context `{Platform, RawText, WsJson, Disk}.

(** [Client.readLoop] *)
Fixpoint readLoopFrames (frames : list bytes) : M Client error unit :=
  match frames with
  | [] => ret tt
  | f :: rest =>
      match wsRead maxReadBytes f with
      | inl e => throw e
      | inr env => dispatch env;;; readLoopFrames rest
      end
  end.

(** [Server.readDaemon] *)
Fixpoint readDaemonFrames {E} (host : Host) (frames : list bytes) : M World E unit :=
  match frames with
  | [] => ret tt
  | f :: rest =>
      match wsRead ws_default_limit f with
      | inl _ => ret tt
      | inr env => readEnvelope host env;;; readDaemonFrames host rest
      end
  end.

Context `{!PlatformLaws, !RawTextLaws, !WsJsonLaws}.

Lemma bind_bind {S E A B C} (m : M S E A) (k : A → M S E B) (k' : B → M S E C) s :
  bind (bind m k) k' s = bind m (λ a, bind (k a) k') s.
Proof. unfold bind. by destruct (m s) as [[e|a] s1]. Qed.

(** The daemon's loop handles the messages up to the first that is too long,
    which ends the connection. *)
Lemma readLoopFrames_carried envs frames c :
  carried envs frames →
  readLoopFrames frames c =
    (readLoop (take (fitting maxReadBytes frames) envs);;;
     if decide (fitting maxReadBytes frames = length frames) then ret tt
     else throw (ErrConn "message too big")) c.
Proof.
  intros Hc. revert c. induction Hc as [|env f envs frames [Hok Hw] Hc IH]; intros c; [done|].
  cbn [readLoopFrames fitting]. rewrite (wsRead_carried env f) by done.
  destruct (decide (Z.of_nat (String.length f) ≤ maxReadBytes)); [|done].
  cbn [take readLoop length]. rewrite bind_bind. unfold bind at 1 2.
  destruct (dispatch env c) as [[e|[]] c1]; [done|]. rewrite IH.
  unfold bind. destruct (readLoop _ c1) as [[e|[]] c2]; [done|]. by do 2 case_decide; try lia.
Qed.
Lemma readDaemonFrames_carried {E} host envs frames w :
  carried envs frames →
  readDaemonFrames host frames w =
    (readDaemon host (take (fitting ws_default_limit frames) envs) : M World E unit) w.
Proof.
  intros Hc. unfold readDaemon. revert w. induction Hc as [|env f envs frames [Hok Hw] Hc IH]; intros w; [done|].
  cbn [readDaemonFrames fitting]. rewrite (wsRead_carried env f) by done.
  destruct (decide (Z.of_nat (String.length f) ≤ ws_default_limit)); [|done]. cbn [take foreach].
  unfold bind. destruct (readEnvelope host env w) as [[e|[]] w1]; [done|]. apply IH.
Qed.

(** The loops on frames are the loops on messages: whatever was written, each
    side reads it as it was written, in order, up to the first message that is
    too long for it, which ends the connection. *)
Theorem frames_carry_messages envs frames :
  carried envs frames →
  (∀ c, readLoopFrames frames c =
     (readLoop (take (fitting maxReadBytes frames) envs);;;
      if decide (fitting maxReadBytes frames = length frames) then ret tt
      else throw (ErrConn "message too big")) c) ∧
  (∀ E host w, readDaemonFrames host frames w =
     (readDaemon host (take (fitting ws_default_limit frames) envs) : M World E unit) w).
Proof. intros Hc. split; intros; [by apply readLoopFrames_carried|by apply readDaemonFrames_carried]. Qed.

(** What each part of the program sends can be carried. *)
Lemma reports_wire log rd :
  login_legible log → read_legible rd → wire_ok (access_report log) ∧ wire_ok (read_report rd).
Proof. intros [Hl _] [Hr _]. split; apply NewEnvelope_wire; [done| |done|]; by intros j [= <-]. Qed.

Context `{!Alone} (s : Server).

Lemma publish_wire kp host w env w' :
  signer s = Some kp → text_keys (w_db w) host → publish s host w = (inr env, w') → wire_ok env.
Proof.
  intros Hk Ht Hr. unfold publish in Hr. apply bind_inr in Hr as (snap & w1 & Hb & Hr).
  apply buildSnapshot_entries in Hb as [_ He].
  destruct (snapshotEnvelope_inr s _ _ _ _ _ _ Hk Hr) as (n & Hty & Hd & Hn & _).
  split; [by rewrite Hty|right|rewrite Hn; apply to_uint64_range].
  exists (Snapshot_json snap). split; [|done]. eapply snapshot_valid; [done|]. intros e. apply He.
Qed.

(** C7: a snapshot crosses the wire with its signature.  What the control plane
    publishes for a host (no other request committing meanwhile) is always
    written as a message.  If the message is within the read limit of a mebibyte,
    a daemon of the host whose last applied number is not above the host's
    counter reads it, finds the signature good, and then lets a key in on an
    account exactly when the grants say so; if it is longer, the connection ends
    and the daemon goes on with what it had.  (A daemon enrolled again as
    another host may have a higher number and ignores the message.) *)
Theorem snapshots_cross_the_wire seed host w env w' c :
  String.length seed = 32%nat → signer s = Some (Identity.GenerateKeyPair seed) →
  db_wf (w_db w) → text_keys (w_db w) host → paired (Identity.GenerateKeyPair seed) host c →
  (∀ h, h ∈ hosts (w_db w) → Host_ID h = Host_ID host → c_seq (cl_cache c) ≤ Host_LastSeq h) →
  publish s host w = (inr env, w') →
  ∃ f, wsWrite env = inr f ∧
    (Z.of_nat (String.length f) ≤ maxReadBytes → ∀ fp account e,
       authorize (cl_cache (readLoopFrames [f] c).2) fp account = Some e ↔
       ∃ pk, allowed_key (w_db w) (Host_ID host) pk ∧ PublicKey_Fingerprint pk = fp ∧
             account ∈ Host_Accounts host ∧ e = entry_of host pk) ∧
    (maxReadBytes < Z.of_nat (String.length f) →
       readLoopFrames [f] c = (inl (ErrConn "message too big"), c)).
Proof.
  intros Hlen Hk Hwf Ht Hpair Hseq Hr. pose proof (publish_wire _ _ _ _ _ Hk Ht Hr) as Hok.
  destruct (wsRead_wsWrite env maxReadBytes Hok) as (f & Hw & Hrd). exists f. split; [done|].
  split; intros Hf; cbn [readLoopFrames]; rewrite Hrd.
  - rewrite decide_True by done. intros fp account e.
    rewrite <-(published_decides s seed host w env w' c fp account e) by done.
    unfold bind. by destruct (dispatch env c) as [[er|[]] c1].
  - by rewrite decide_False by lia.
Qed.
End loops.

(** ** Witness: the demo host's snapshot as a message *)

(** Raw members are printed again; a message ends with a newline. *)
#[export] Instance demo_raw : RawText | 100 := λ text name,
  match json_parse text with
  | Some (JObj o) => json_print <$> last (members name o)
  | _ => None
  end.
#[export] Instance demo_raw_laws : RawTextLaws | 100.
Proof. intros o name Hv. unfold json_raw, demo_raw. by rewrite json_parse_print. Qed.
#[export] Instance demo_wsjson : WsJson | 100 :=
  {| ws_frame t := t +:+ newline; ws_text f := btake (String.length f - 1) f; ws_default_limit := 32768 |}.
#[export] Instance demo_wsjson_laws : WsJsonLaws | 100.
Proof.
  intros t. unfold ws_text, ws_frame, demo_wsjson. rewrite string_length_app. by apply btake_app; simpl; lia.
Qed.

Definition demo_frame : error + bytes :=
  match publish demo_server demo_host demo_world with (inr env, _) => wsWrite env | (inl e, _) => inl e end.
Lemma demo_frame_fits :
  match demo_frame with inr f => (Z.of_nat (String.length f) <=? maxReadBytes) = true | inl _ => False end.
Proof. vm_compute. reflexivity. Qed.

Lemma snapshots_cross_the_wire_witness :
  ∃ env w' f, publish demo_server demo_host demo_world = (inr env, w') ∧ wsWrite env = inr f ∧
    Z.of_nat (String.length f) ≤ maxReadBytes ∧
    authorize (cl_cache (readLoopFrames [f] web_daemon).2) "SHA256:fp" "deploy" =
      Some (entry_of demo_host demo_key).
Proof.
  destruct (publish demo_server demo_host demo_world) as [[e|env] w'] eqn:Hr;
    [vm_compute in Hr; discriminate Hr|].
  destruct (snapshots_cross_the_wire demo_server (zeros 32) demo_host demo_world env w' web_daemon)
    as (f & Hw & Hfit & _).
  - reflexivity.
  - exact demo_server_signer.
  - exact demo_db_wf.
  - exact demo_text_keys.
  - exact web_paired.
  - intros h Hh _. revert h Hh. apply (proj1 (Forall_forall _ _)). apply (bool_decide_unpack _).
    vm_compute. exact I.
  - exact Hr.
  - assert (Z.of_nat (String.length f) ≤ maxReadBytes) as Hf.
    { pose proof demo_frame_fits as Hd. unfold demo_frame in Hd. rewrite Hr, Hw in Hd. by apply Z.leb_le. }
    exists env, w', f. split; [reflexivity|]. split; [exact Hw|]. split; [exact Hf|].
    apply (Hfit Hf). exists demo_key. split; [exact demo_key_allowed|].
    split; [reflexivity|]. split; [|reflexivity]. apply (bool_decide_unpack _). vm_compute. exact I.
Defined.

