(* ===== verification/Lifecycle.v ===== *)
(** A host's life, end to end over HTTP: the enrollment request the daemon
    posts is the one the control plane handles, the daemon that starts from
    the files it then wrote is accepted as the new host, and the decommission
    request it signs revokes the host. *)
From Stdlib Require Import Ascii.
From S2P Require Import Prelude Text Base64 Json Protocol Crypto Schema Evolve QUsers QAccess World Http Perms Grants Accounts Auth Hosts Link Router Daemon Demo Scenario Runs DaemonProps EndToEnd AuthProps AuditProps HostTools.

#[local] Arguments EncodeToString : simpl never.
#[local] Arguments as_bytes : simpl never.

(** ** Messages and files *)

Lemma EnrollRequest_roundtrip r : EnrollRequest_of_json (EnrollRequest_json r) = Some r.
Proof.
  destruct r as [t h p e m i]. unfold EnrollRequest_json, EnrollRequest_of_json. simpl.
  case_decide; subst; json_decode; done.
Qed.
Lemma EnrollResponse_roundtrip r : EnrollResponse_of_json (EnrollResponse_json r) = Some r.
Proof. destruct r as [h k]. unfold EnrollResponse_of_json. json_decode. done. Qed.
Lemma EnrollResponse_valid r :
  valid_text (EnrollResponse_HostID r) = true →
  valid_text (EnrollResponse_SigningPublicKey r) = true → json_valid (EnrollResponse_json r) = true.
Proof. destruct r as [h k]. simpl. by intros -> ->. Qed.
Lemma DaemonConfig_valid c :
  valid_text (dc_ControlPlane c) = true → valid_text (dc_HostID c) = true →
  valid_text (dc_SigningPublicKey c) = true → json_valid (DaemonConfig_json c) = true.
Proof. destruct c as [u h k]. simpl. by intros -> -> ->. Qed.
Lemma DaemonConfig_roundtrip c : DaemonConfig_of_json (DaemonConfig_json c) = Some c.
Proof. destruct c as [u h k]. unfold DaemonConfig_of_json. json_decode. done. Qed.
Lemma DecommissionRequest_roundtrip `{TimeFormat, !TimeFormatLaws} r :
  time_in_range (DecommissionRequest_At r) →
  DecommissionRequest_of_json (DecommissionRequest_json r) = Some r.
Proof.
  destruct r as [t g]. simpl. intros Ht. unfold DecommissionRequest_of_json. json_decode.
  rewrite time_parse_print by done. json_decode. by rewrite as_bytes_roundtrip.
Qed.

Lemma time_char_ascii c : time_char c = true → is_ascii c = true.
Proof. by destruct c as [[] [] [] [] [] [] [] []]; vm_compute. Qed.
Lemma DecommissionRequest_valid `{TimeFormat, !TimeFormatLaws} r :
  time_in_range (DecommissionRequest_At r) → json_valid (DecommissionRequest_json r) = true.
Proof.
  destruct r as [t g]. simpl. intros Ht. rewrite EncodeToString_valid, andb_true_r.
  apply ascii_valid. eapply Forall_impl; [by apply time_print_chars|]. apply time_char_ascii.
Qed.

Section files.
Context `{JsonText, !JsonTextLaws, TimeFormat, Crypto, !CryptoLaws, Disk}.

Lemma atomicWrite_disk path data c c' :
  atomicWrite path data c = (inr tt, c') → cl_disk c' = <[path := data]> (cl_disk c).
Proof. unfold atomicWrite. destruct (disk_fault _); [done|]. by intros [= <-]. Qed.

(** The request a daemon posts. *)
Definition enrollRequest (mID : string) (seed encKey : bytes) (token hostname : string) (c : Client) :
    EnrollRequest :=
  {| EnrollRequest_Token := token; EnrollRequest_Hostname := hostname;
     EnrollRequest_PublicKey := Identity.PublicKey (Identity.GenerateKeyPair seed);
     EnrollRequest_EncryptionKey := Hybrid.PublicKey encKey; EnrollRequest_MachineID := mID;
     EnrollRequest_PriorHostID :=
       match LoadConfig (cl_disk c) with inr cfg => dc_HostID cfg | inl _ => "" end |}.

(** The files a successful enrollment leaves. *)
Lemma Enroll_files mID seed encKey post cp token hostname c c1 :
  Enroll mID seed encKey post cp token hostname c = (inr tt, c1) →
  ∃ resp, post (enrollRequest mID seed encKey token hostname c) = inr resp ∧
    cl_disk c1 =
      <[configFile := json_print (DaemonConfig_json
          {| dc_ControlPlane := cp; dc_HostID := EnrollResponse_HostID resp;
             dc_SigningPublicKey := EnrollResponse_SigningPublicKey resp |})]>
      (<[encryptionFile := Hybrid.PrivateKey encKey]>
      (<[identityFile := Identity.PrivateKey (Identity.GenerateKeyPair seed)]> (cl_disk c))).
Proof.
  unfold Enroll. case_decide; [done|]. destruct (post _) as [e|resp] eqn:Hp; [done|]. intros Hrun.
  exists resp. split; [done|].
  apply bind_inr in Hrun as ([] & ca & Ha & Hrun). apply bind_inr in Hrun as ([] & cb & Hb & Hc).
  apply atomicWrite_disk in Ha, Hb, Hc. by rewrite Hc, Hb, Ha.
Qed.

(** The daemon that starts from them. *)
Lemma enrolled_daemon_starts disk cfg seed cache version :
  String.length seed = 32%nat → json_valid (DaemonConfig_json cfg) = true →
  LoadCache disk = inr cache →
  disk !! configFile = Some (json_print (DaemonConfig_json cfg)) →
  disk !! identityFile = Some (Identity.PrivateKey (Identity.GenerateKeyPair seed)) →
  ∃ c2, cmdRun disk version = inr c2 ∧ cl_cfg c2 = cfg ∧
    cl_identity c2 = Identity.GenerateKeyPair seed ∧ cl_version c2 = version.
Proof.
  intros Hs Hv Hc Hcfg Hid. unfold cmdRun. rewrite Hc.
  assert (LoadConfig disk = inr cfg) as ->.
  { unfold LoadConfig, readFile. by rewrite Hcfg, unmarshal_print, DaemonConfig_roundtrip. }
  assert (LoadIdentity disk = inr (Identity.GenerateKeyPair seed)) as ->.
  { unfold LoadIdentity, readFile. by rewrite Hid, Identity.LoadKeyPair_PrivateKey. }
  rewrite Hid. by eexists.
Qed.
End files.

(** ** Enrollment *)

(** The request a POST with a JSON body makes. *)
Definition post_request (params : string → string) (body : bytes) : Request :=
  {| URLParam := params; r_query _ := ""; r_body := body; r_authorization := "" |}.

(** A control plane at [base] whose handler at [path] answers a POST; at any
    other URL the answer is 404. *)
Definition posts_to (base path : string) (answer : bytes → Response) (url : string) (body : bytes) :
    error + Response :=
  inr (if decide (url = TrimRight base "/"%char +:+ path) then answer body
       else httpError "404 page not found" StatusNotFound).

Section enrollment.
Context `{Platform, !Alone, !PlatformLaws, Disk} (s : Server).

(** A POST /enroll that answers 200 enrolled a host, and says so. *)
Lemma handleEnroll_ok params req w resp w' :
  json_valid (EnrollRequest_json req) = true →
  serve (handleEnroll s (post_request params (json_print (EnrollRequest_json req)))) w = (resp, w') →
  resp_status resp = StatusOK →
  ∃ hid, enroll req w = (inr hid, w') ∧
    resp = writeJSON (EnrollResponse_json {| EnrollResponse_HostID := hid;
                        EnrollResponse_SigningPublicKey := signingPublicKey s |}).
Proof.
  intros Hv Hr Hst. unfold serve, handleEnroll in Hr. simpl r_body in Hr.
  rewrite decode_stream_print, EnrollRequest_roundtrip in Hr by done. simpl in Hr.
  unfold bind at 1 in Hr. simpl in Hr. unfold require, bind at 1 in Hr.
  destruct (negb _); simpl in Hr; [|injection Hr as <- <-; done].
  unfold bind, onerr in Hr. destruct (enroll req w) as [[e|hid] w1] eqn:He; simpl in Hr.
  - injection Hr as <- <-. by repeat case_decide.
  - injection Hr as <- <-. by exists hid.
Qed.

(** The control plane at [cp], in the state [w]: POST /enroll. *)
Definition enroll_http (cp : string) (w : World) : string → bytes → error + Response :=
  posts_to cp "/enroll" (λ body, (serve (handleEnroll s (post_request (λ _, "") body)) w).1).

Lemma signingPublicKey_valid : valid_text (signingPublicKey s) = true.
Proof. unfold signingPublicKey. destruct (signer s); [apply EncodeToString_valid|done]. Qed.

(** C20: a daemon that enrolls over HTTP is accepted afterwards.  If [custosd
    enroll] succeeds against a control plane, the control plane has a new
    host with the daemon's keys, the daemon starts from the files the
    command wrote and trusts the control plane's signing key, and, when the
    database answers, it completes the handshake as exactly that host. *)
Theorem enrolled_daemons_are_accepted mID seed encKey cp token hostname version c c1 cache w resp w' :
  let req := enrollRequest mID seed encKey token hostname c in
  String.length seed = 32%nat → json_valid (EnrollRequest_json req) = true →
  valid_text cp = true → valid_text version = true → LoadCache (cl_disk c) = inr cache →
  w_tx w = None → db_wf (w_db w) → env_fault (S (w_tick w')) = NoFault →
  serve (handleEnroll s (post_request (λ _, "") (json_print (EnrollRequest_json req)))) w = (resp, w') →
  Enroll mID seed encKey (postEnroll (enroll_http cp w) cp) cp token hostname c = (inr tt, c1) →
  ∃ host c2 w2, host ∈ hosts (w_db w') ∧ (Host_ID host ∉ Host_ID <$> hosts (w_db w)) ∧
    Host_EncryptionKey host = Hybrid.PublicKey encKey ∧
    cmdRun (cl_disk c1) version = inr c2 ∧
    dc_SigningPublicKey (cl_cfg c2) = signingPublicKey s ∧
    authenticateDaemon (daemon_peer c2) w' = (inr (host, version), w2).
Proof.
  intros req Hseed Hv Hcp Hver Hcache Hx Hwf Hf Hserve Hen.
  pose proof (Enroll_keeps_cache _ _ _ _ _ _ _ _ _ Hen) as Hkeep.
  apply Enroll_files in Hen as (out & Hpost & Hdisk). fold req in Hpost.
  unfold postEnroll, enroll_http, posts_to in Hpost. cbv zeta in Hpost.
  rewrite (decide_True (P := TrimRight cp _ +:+ _ = _)), Hserve in Hpost by done. cbn [fst] in Hpost.
  destruct (decide (resp_status resp ≠ StatusOK)) as [|Hst%dec_stable]; [done|].
  destruct (handleEnroll_ok _ _ _ _ _ Hv Hserve Hst) as (hid & He & ->).
  pose proof (enroll_rel req w) as Hrel. rewrite He in Hrel.
  pose proof (effect_alone _ _ _ Hx Hrel) as Hev.
  apply enroll_inr in He
    as [(tok & host & now & _ & _ & _ & -> & [t Ht] & Hact & Hkey & Henc & _ & Hnew & Hdb) _].
  unfold writeJSON, newline in Hpost. cbn [resp_body] in Hpost.
  rewrite decode_stream_line, EnrollResponse_roundtrip in Hpost
    by (apply EnrollResponse_valid; [apply uuidString_valid|apply signingPublicKey_valid]).
  injection Hpost as <-. cbn [EnrollResponse_HostID EnrollResponse_SigningPublicKey] in Hdisk.
  set (dcfg := {| dc_ControlPlane := cp; dc_HostID := uuidString (Host_ID host);
                  dc_SigningPublicKey := signingPublicKey s |}) in Hdisk.
  destruct (enrolled_daemon_starts (cl_disk c1) dcfg seed cache version) as (c2 & Hrun & Hcfg & Hid & Hv2).
  - done.
  - apply DaemonConfig_valid; [exact Hcp|apply uuidString_valid|apply signingPublicKey_valid].
  - by rewrite Hkeep.
  - by rewrite Hdisk, lookup_insert_eq.
  - rewrite Hdisk, !lookup_insert_ne by done. by rewrite lookup_insert_eq.
  - assert (host ∈ hosts (w_db w')) as Hin by (rewrite Hdb; simpl; set_solver).
    destruct (authenticateDaemon_completes seed host c2 w') as [w2 Hauth]; try done.
    + by apply Hev.
    + rewrite Ht. apply env_uuid_wf.
    + by rewrite Hcfg.
    + by rewrite Hv2.
    + exists host, c2, w2. rewrite Hv2 in Hauth. by rewrite Hcfg.
Qed.
End enrollment.

(** ** Decommissioning *)

Section decommission.
Context `{Platform, !Alone, !PlatformLaws} (s : Server).

Lemma GetHostByID_ok host now u d :
  db_wf d → host ∈ hosts d → GetHostByID (Host_ID host) now u d = inr (host, d).
Proof.
  intros Hwf Hin. unfold GetHostByID, select_one.
  rewrite (first_row_unique _ Host_ID _ host); [done|apply (wf_host_id _ Hwf)|done|done|].
  intros y Hy. exact Hy.
Qed.

(** Revoking frees the machine id. *)
Lemma revoked_machines id l :
  active_machines (update_where (λ h, Host_ID h = id) (set_Host_Status "revoked") l)
    `sublist_of` active_machines l.
Proof.
  induction l as [|h l IH]; [done|]. unfold update_where. rewrite fmap_cons. simpl.
  unfold active_machines in *. simpl. case_decide; simpl.
  - unfold active_machine at 1. simpl. destruct (active_machine h); [by apply sublist_cons|done].
  - destruct (active_machine h); [by apply sublist_skip|done].
Qed.
Lemma SetHostStatus_revoked_ok host now u d :
  db_wf d → host ∈ hosts d →
  ∃ n d', SetHostStatus (Host_ID host) "revoked" now u d = inr (n, d') ∧ n ≠ 0 ∧
    d' = on_hosts (update_where (λ h, Host_ID h = Host_ID host) (set_Host_Status "revoked")) d.
Proof.
  intros Hwf Hin. do 2 eexists. split_and!; [| |reflexivity].
  - unfold SetHostStatus, check. rewrite decide_True by (left; set_solver).
    rewrite decide_True; [reflexivity|].
    eapply sublist_NoDup; [apply (wf_host_machine _ Hwf)|apply revoked_machines].
  - unfold count_where.
    assert (host ∈ filter (λ h, Host_ID h = Host_ID host) (hosts d)) as Hm
      by by apply list_elem_of_filter.
    destruct (filter _ _); [by apply elem_of_nil in Hm|done].
Qed.

Lemma snapshotEnvelope_ok host snap w :
  no_faults → db_wf (w_db w) → host ∈ hosts (w_db w) → Host_LastSeq host < int64_max →
  ∃ env w', snapshotEnvelope s (Host_ID host) snap w = (inr env, w').
Proof.
  intros Hf Hwf Hin Hmax. unfold snapshotEnvelope. destruct (signer s) as [kp|]; [|by do 2 eexists].
  do 2 eexists. apply bind_inr. do 2 eexists. split; [|reflexivity].
  apply pool_ok; [apply Hf|]. by apply NextHostSeq_ok.
Qed.

(** Revoking a host goes through when the database answers. *)
Lemma revokeHost_ok host w :
  no_faults → db_wf (w_db w) → host ∈ hosts (w_db w) → Host_LastSeq host < int64_max →
  ∃ w', revokeHost s (Host_ID host) w = (inr tt, w').
Proof.
  intros Hf Hwf Hin Hmax.
  destruct (SetHostStatus_revoked_ok host (env_now (w_tick w)) (env_uuid (w_tick w)) (w_db w))
    as (n & d' & Hq & Hn & Hd); [done..|].
  destruct (snapshotEnvelope_ok (set_Host_Status "revoked" host) {| Snapshot_Entries := [] |}
    (with_db d' (step w))) as (env & w1 & He); [done| | |done|].
  - simpl. by apply (SetHostStatus_ev _ _ _ _ _ _ Hq).
  - simpl. rewrite Hd. simpl. apply elem_of_update_where. exists host. by rewrite decide_True.
  - eexists. unfold revokeHost. apply bind_inr. exists n, (with_db d' (step w)).
    split; [by apply pool_ok|]. apply bind_inr. exists tt, (with_db d' (step w)).
    split; [by rewrite decide_False|]. apply bind_inr. exists env, w1. by split.
Qed.

Definition clock_agrees (at_ : Z) (w : World) : Prop :=
  ∀ t, (w_tick w ≤ t ≤ w_tick w + 3)%nat → at_ - 5 * minute ≤ env_now t ≤ at_ + 5 * minute.

Lemma staleRequest_fresh {E} at_ w0 w :
  at_ ≠ time_zero → clock_agrees at_ w0 → w_tick w = S (w_tick w0) →
  ∃ w', (staleRequest at_ : M World E bool) w = (inr false, w') ∧ quiet w w'.
Proof.
  intros Hz Hn Hw. unfold staleRequest. rewrite decide_False by done.
  pose proof (Hn (w_tick w)). pose proof (Hn (S (w_tick w))). eexists. split.
  - apply bind_inr. do 2 eexists. split; [reflexivity|]. rewrite decide_False by lia.
    apply bind_inr. do 2 eexists. split; [reflexivity|]. simpl. by rewrite bool_decide_false by lia.
  - by split.
Qed.

(** The handler on the request of an active host. *)
Definition decommission_request (hostID : string) (body : bytes) : Request :=
  post_request (λ _, hostID) body.

(** The control plane at [cp], in the state [w]: POST /hosts/{id}/decommission
    for the id [hostID]. *)
Definition decommission_http (cp hostID : string) (w : World) : string → bytes → error + Response :=
  posts_to cp ("/hosts/" +:+ hostID +:+ "/decommission")
    (λ body, (serve (handleDecommissionHost s (decommission_request hostID body)) w).1).

Lemma decommission_run seed host now w :
  no_faults → db_wf (w_db w) → String.length seed = 32%nat →
  host ∈ hosts (w_db w) → uuid_wf (Host_ID host) → Host_Status host = "active" →
  Host_LastSeq host < int64_max →
  Host_IdentityKey host = Identity.PublicKey (Identity.GenerateKeyPair seed) →
  time_in_range now → now ≠ time_zero →
  clock_agrees now w →
  let id := uuidString (Host_ID host) in
  ∃ w1 w2, quiet w w1 ∧ revokeHost s (Host_ID host) w1 = (inr tt, w2) ∧
    handleDecommissionHost s (decommission_request id (json_print (DecommissionRequest_json
      (decommissionRequest (Identity.GenerateKeyPair seed) id now)))) w = (inr noContent, w2).
Proof.
  intros Hf Hwf Hseed Hin Hu Hact Hmax Hkey Ht Hz Hn id.
  set (req := decommissionRequest _ _ _).
  set (wa := with_db (w_db w) (step w)).
  assert (pool (GetHostByID (Host_ID host)) w = (inr host, wa)) as Hget.
  { apply pool_ok; [apply Hf|]. by apply GetHostByID_ok. }
  assert (quiet w wa) as Hqa by (by split).
  destruct (staleRequest_fresh (E := Response) now w wa Hz Hn) as (wb & Hstale & Hqb); [done|].
  assert (quiet w wb) as Hq by (by etrans).
  destruct (revokeHost_ok host wb) as [w2 Hrev]; [done|by rewrite (quiet_db _ _ Hq)..|done|].
  exists wb, w2. split; [done|]. split; [done|]. unfold handleDecommissionHost.
  apply bind_inr. exists (Host_ID host), w. split.
  { simpl. unfold parseUUID. subst id. by rewrite uuid_scan_print. }
  apply bind_inr. exists host, wa. split; [unfold onerr; by rewrite Hget|].
  apply bind_inr. exists tt, wa. split; [by rewrite bool_decide_true|].
  apply bind_inr. exists req, wa. split.
  { cbn [r_body decommission_request post_request].
    rewrite decode_stream_print, DecommissionRequest_roundtrip; [done|done|].
    apply DecommissionRequest_valid. done. }
  apply bind_inr. exists false, wb. split; [exact Hstale|].
  apply bind_inr. exists tt, wb. split; [done|].
  apply bind_inr. exists tt, wb. split.
  { rewrite Hkey. cbn [DecommissionRequest_At DecommissionRequest_Signature req decommissionRequest].
    by rewrite Identity.Verify_Sign. }
  apply bind_inr. exists tt, w2. split; [|done]. unfold onerr. by rewrite Hrev.
Qed.

(** C32: a host can retire itself.  When the database answers and the clocks
    agree within five minutes, the request [custosd uninstall] signs with the
    host's key is accepted, the command succeeds, and the host is revoked: no
    daemon is accepted as it any more.  No other
    request commits meanwhile. *)
Theorem decommission_requests_revoke_the_host seed host disk dcfg now w resp w' :
  no_faults → w_tx w = None → db_wf (w_db w) → String.length seed = 32%nat →
  host ∈ hosts (w_db w) → uuid_wf (Host_ID host) → Host_Status host = "active" →
  Host_LastSeq host < int64_max →
  Host_IdentityKey host = Identity.PublicKey (Identity.GenerateKeyPair seed) →
  LoadConfig disk = inr dcfg → dc_HostID dcfg = uuidString (Host_ID host) →
  LoadIdentity disk = inr (Identity.GenerateKeyPair seed) →
  time_in_range now → now ≠ time_zero →
  clock_agrees now w →
  serve (handleDecommissionHost s (decommission_request (dc_HostID dcfg)
    (json_print (DecommissionRequest_json
      (decommissionRequest (Identity.GenerateKeyPair seed) (dc_HostID dcfg) now))))) w = (resp, w') →
  Decommission (decommission_http (dc_ControlPlane dcfg) (dc_HostID dcfg) w) now disk = inr tt ∧
  ∀ peer h v w2, authenticateDaemon peer w' = (inr (h, v), w2) → Host_ID h ≠ Host_ID host.
Proof.
  intros Hf Hx Hwf Hseed Hin Hu Hact Hmax Hkey Hcfg Hid Hident Ht Hz Hn Hserve.
  destruct (decommission_run seed host now w) as (w1 & w2 & Hq & Hrev & Hrun); [done..|].
  rewrite <-Hid in Hrun. unfold serve in Hserve. rewrite Hrun in Hserve. injection Hserve as <- <-.
  split.
  - unfold Decommission. rewrite Hcfg, Hident. unfold decommission_http, posts_to, decommissionURL.
    rewrite (decide_True (P := TrimRight _ _ +:+ _ = _)) by done. unfold serve. rewrite Hrun. done.
  - intros peer h v w3 Ha. pose proof (revokeHost_rel s (Host_ID host) w1) as Hrel. rewrite Hrev in Hrel.
    pose proof (revokeHost_inr s _ _ _ Hrev)
      as (purge & d1 & wb & Hev & Hdb & Htx & _ & (h1 & Hh1 & Hi1 & Hs1) & _ & wc & He & ->).
    assert (w_tx w1 = None) as Hx1 by (by rewrite (quiet_tx _ _ Hq)).
    rewrite <-Hi1. eapply (revoked_never_authenticates d1 h1); [done|done| | |exact Ha].
    + pose proof (purge_rel s (Host_ID host) wb) as Hr.
      rewrite He in Hr. rewrite <-Hdb. apply (effect_alone evolves wb wc); [congruence|exact Hr].
    + apply (effect_alone evolves) in Hrel; [|done]. apply Hrel. by rewrite (quiet_db _ _ Hq).
Qed.
End decommission.

(** ** Witnesses *)

(** A machine that was never enrolled, and one that is the demo host. *)
Definition fresh_host : Client :=
  {| cl_cfg := {| dc_ControlPlane := ""; dc_HostID := ""; dc_SigningPublicKey := "" |};
     cl_identity := demo_kp; cl_cache := {| c_seq := 0; c_entries := ∅ |}; cl_secrets := None;
     cl_disk := ∅; cl_version := "v1"; cl_upgrading := false; cl_upgrades := []; cl_sent := [];
     cl_writes := 0 |}.
Definition demo_seed : bytes := Eval vm_compute in pad32 "seed".
Definition demo_enrollment : (error + unit) * Client :=
  Enroll "m2" demo_seed (zeros 32) (postEnroll (enroll_http demo_server "https://cp/" (auth_world None)) "https://cp/")
    "https://cp/" "enrolltoken" "db.local" fresh_host.
Definition demo_enroll_post : Response * World :=
  serve (handleEnroll demo_server (post_request (λ _, "") (json_print (EnrollRequest_json
    (enrollRequest "m2" demo_seed (zeros 32) "enrolltoken" "db.local" fresh_host))))) (auth_world None).

Lemma enrolled_daemons_are_accepted_witness :
  ∃ host c2 w2, cmdRun (cl_disk demo_enrollment.2) "v1" = inr c2 ∧
    authenticateDaemon (daemon_peer c2) demo_enroll_post.2 = (inr (host, "v1"), w2).
Proof.
  destruct (enrolled_daemons_are_accepted demo_server "m2" demo_seed (zeros 32) "https://cp/"
    "enrolltoken" "db.local" "v1" fresh_host demo_enrollment.2 {| c_seq := 0; c_entries := ∅ |}
    (auth_world None) demo_enroll_post.1 demo_enroll_post.2)
    as (host & c2 & w2 & _ & _ & _ & Hrun & _ & Hauth).
  - reflexivity.
  - vm_compute. reflexivity.
  - reflexivity.
  - reflexivity.
  - vm_compute. reflexivity.
  - reflexivity.
  - apply auth_db_wf.
  - reflexivity.
  - apply surjective_pairing.
  - apply injective_projections; [vm_compute; reflexivity|reflexivity].
  - exists host, c2, w2. split; [exact Hrun|exact Hauth].
Defined.

Definition demo_dcfg : DaemonConfig :=
  {| dc_ControlPlane := "https://cp/"; dc_HostID := uuidString host_id; dc_SigningPublicKey := "" |}.
Definition demo_disk : gmap string bytes :=
  {[ configFile := json_print (DaemonConfig_json demo_dcfg); identityFile := Identity.PrivateKey demo_kp ]}.
Lemma decommission_requests_revoke_the_host_witness :
  Decommission (decommission_http demo_server "https://cp/" (uuidString host_id) demo_world)
    (env_now 0) demo_disk = inr tt.
Proof.
  refine (proj1 (decommission_requests_revoke_the_host demo_server (zeros 32) demo_host demo_disk
    demo_dcfg (env_now 0) demo_world _ _ _ _ _ _ _ _ _ _ _ _ _ _ _ _ _ (surjective_pairing _))).
  - by intros t.
  - reflexivity.
  - exact demo_db_wf.
  - reflexivity.
  - apply (bool_decide_unpack _). vm_compute. exact I.
  - reflexivity.
  - reflexivity.
  - reflexivity.
  - reflexivity.
  - vm_compute. reflexivity.
  - reflexivity.
  - vm_compute. reflexivity.
  - vm_compute. split; congruence.
  - vm_compute. discriminate.
  - intros t Ht. assert (t = 0 ∨ t = 1 ∨ t = 2 ∨ t = 3)%nat as Hc by (unfold demo_world, initial_world in Ht; simpl in Ht; lia).
    destruct Hc as [->|[->|[->| ->]]]; vm_compute; split; discriminate.
Defined.
