(* ===== verification/SignIn.v ===== *)
(** Signing in: the right password on an unlocked account opens a session
    whose access token passes the middleware, and an admin made by
    [custos create-admin] gets in with the password the command reported. *)
From S2P Require Import Prelude Text Base64 Json Protocol Crypto Password Schema Evolve QUsers QAccess QSecrets World Http Perms Grants Accounts Auth Daemon Commands Runs Demo Scenario AuthProps AuditProps.

Section signin.
Context `{HP : Platform, HA : !Alone, HL : !PlatformLaws}.

(** The ids and tokens drawn from now on are not in use. *)
Definition fresh_draws (w : World) : Prop := ∀ t, (w_tick w ≤ t)%nat →
  let hash := HashToken (EncodeToString RawURLEncoding (env_rand t 32)) in
  (env_uuid t ∉ Session_ID <$> sessions (w_db w)) ∧
  (env_uuid t ∉ AccessToken_ID <$> access_tokens (w_db w)) ∧
  (hash ∉ Session_TokenHash <$> sessions (w_db w)) ∧
  (hash ∉ AccessToken_TokenHash <$> access_tokens (w_db w)).

(** The session and the token a completed sign-in of [user] adds to [d]:
    valid from [issued] and [opened] on for their lifetimes. *)
Record signed_in (user sid : uuid) (key : option bytes) (tokens : tokenPair) (opened issued : Z)
    (d d' : DB) : Prop := {
  si_users : users d' = users d;
  si_access : ∃ tid at1 at2,
    (sid ∉ Session_ID <$> sessions d) ∧
    (HashToken (AccessToken_ tokens) ∉ AccessToken_TokenHash <$> access_tokens d) ∧
    sessions d' = sessions d ++
      [{| Session_ID := sid; Session_UserID := user;
          Session_TokenHash := HashToken (RefreshToken_ tokens); Session_ClientPublicKey := key;
          Session_CreatedAt := at1; Session_ExpiresAt := pg_time (opened + refreshTTL);
          Session_RevokedAt := None |}] ∧
    access_tokens d' = access_tokens d ++
      [{| AccessToken_ID := tid; AccessToken_SessionID := sid;
          AccessToken_TokenHash := HashToken (AccessToken_ tokens);
          AccessToken_ExpiresAt := pg_time (issued + accessTTL); AccessToken_CreatedAt := at2 |}];
  si_token : AccessToken_ tokens ≠ "" }.

Lemma CreateSession_ok u hash key exp now id d :
  id ∉ Session_ID <$> sessions d → hash ∉ Session_TokenHash <$> sessions d →
  u ∈ User_ID <$> users d →
  CreateSession u hash key exp now id d =
    let row := {| Session_ID := id; Session_UserID := u; Session_TokenHash := hash;
                  Session_ClientPublicKey := key; Session_CreatedAt := now;
                  Session_ExpiresAt := pg_time exp; Session_RevokedAt := None |} in
    inr (row, on_sessions (λ l, l ++ [row]) d).
Proof. intros H1 H2 H3. unfold CreateSession. by rewrite !check_ok. Qed.

Lemma CreateAccessToken_ok sid hash exp now id d :
  id ∉ AccessToken_ID <$> access_tokens d → hash ∉ AccessToken_TokenHash <$> access_tokens d →
  sid ∈ Session_ID <$> sessions d →
  CreateAccessToken sid hash exp now id d =
    let row := {| AccessToken_ID := id; AccessToken_SessionID := sid;
                  AccessToken_TokenHash := hash; AccessToken_ExpiresAt := pg_time exp;
                  AccessToken_CreatedAt := now |} in
    inr (row, on_access_tokens (λ l, l ++ [row]) d).
Proof. intros H1 H2 H3. unfold CreateAccessToken. by rewrite !check_ok. Qed.

Lemma encoded_not_empty e b : b ≠ "" → EncodeToString e b ≠ "".
Proof.
  intros Hb He. pose proof (DecodeString_EncodeToString e b) as Hd. rewrite He in Hd.
  apply Hb. by injection Hd as <-.
Qed.

(** Minting a token in a transaction whose view holds the session. *)
Lemma mintAccessToken_completes sid d now w :
  let raw := EncodeToString RawURLEncoding (env_rand (w_tick w) 32) in
  let row := {| AccessToken_ID := env_uuid (2 + w_tick w); AccessToken_SessionID := sid;
                AccessToken_TokenHash := HashToken raw;
                AccessToken_ExpiresAt := pg_time (env_now (1 + w_tick w) + accessTTL);
                AccessToken_CreatedAt := now |} in
  no_faults → viewing d now w → AccessToken_ID row ∉ AccessToken_ID <$> access_tokens d →
  HashToken raw ∉ AccessToken_TokenHash <$> access_tokens d → sid ∈ Session_ID <$> sessions d →
  ∃ w', mintAccessToken sid w = (inr raw, w') ∧
    viewing (on_access_tokens (λ l, l ++ [row]) d) now w' ∧ w_db w' = w_db w.
Proof using HP HA.
  intros raw row Hf Hv Hid Hraw Hsid.
  destruct (inTx_ok (CreateAccessToken sid (HashToken raw) (env_now (1 + w_tick w) + accessTTL))
    (step (step w)) row d (on_access_tokens (λ l, l ++ [row]) d) now) as (w' & Hrun & Hv' & Hd' & _);
    [apply Hf|exact Hv|by apply CreateAccessToken_ok|].
  exists w'. split; [|done]. unfold mintAccessToken. apply bind_inr. do 2 eexists. split; [reflexivity|].
  cbv beta iota. apply bind_inr. do 2 eexists. split; [reflexivity|].
  apply bind_inr. do 2 eexists. split; [exact Hrun|]. done.
Qed.

(** [openSession] goes through when the database answers. *)
Lemma openSession_completes id key w :
  no_faults → fresh_draws w → Identity_UserID id ∈ User_ID <$> users (w_db w) →
  ∃ tokens sid k k' w', openSession id key w = (inr tokens, w') ∧
    (w_tick w ≤ k)%nat ∧ (w_tick w ≤ k')%nat ∧
    signed_in (Identity_UserID id) sid key tokens (env_now k) (env_now k') (w_db w) (w_db w').
Proof using HL HA.
  intros Hf Hfresh Hu. set (t := w_tick w).
  destruct (Hfresh (3 + t)%nat) as (Hs & _); [lia|]. destruct (Hfresh (1 + t)%nat) as (_ & _ & Hsh & _); [lia|].
  destruct (Hfresh (6 + t)%nat) as (_ & Ha & _); [lia|]. destruct (Hfresh (4 + t)%nat) as (_ & _ & _ & Hah); [lia|].
  destruct (Begin_run w (Hf _)) as (w1 & Hb & Hv1 & Hd1 & Ht1). fold t in Ht1.
  edestruct (inTx_ok (CreateSession (Identity_UserID id)
    (HashToken (EncodeToString RawURLEncoding (env_rand (w_tick w1) 32))) key
    (env_now (S (w_tick w1)) + refreshTTL)) (step (step w1))) as (w2 & Hcs & Hv2 & _ & Ht2);
    [apply Hf|exact Hv1|simpl; rewrite Ht1; by apply CreateSession_ok|].
  simpl in Ht2. rewrite Ht1 in Ht2.
  edestruct (mintAccessToken_completes (env_uuid (3 + t)) _ _ w2 Hf Hv2) as (w3 & Hmint & Hv3 & _);
    rewrite ?Ht2; [exact Ha|exact Hah| |].
  { simpl. rewrite fmap_app. apply elem_of_app. right. apply list_elem_of_here. }
  edestruct (inTx_ok (TouchIdentityLogin (Identity_ID id)) w3) as (w4 & Hti & Hv4 & _);
    [apply Hf|exact Hv3|reflexivity|].
  do 5 eexists. split.
  - unfold openSession. apply bind_inr. do 2 eexists. split; [exact Hb|].
    unfold deferRollback. erewrite (proj2 (bind_inr _ _ _ _ _)); [reflexivity|].
    do 2 eexists. split; [reflexivity|]. cbv beta iota.
    apply bind_inr. do 2 eexists. split; [reflexivity|].
    apply bind_inr. do 2 eexists. split; [exact Hcs|].
    apply bind_inr. do 2 eexists. split; [exact Hmint|].
    apply bind_inr. do 2 eexists. split; [unfold ignore; rewrite Hti; reflexivity|].
    apply bind_inr. do 2 eexists. split; [|reflexivity]. eapply Commit_ok; [apply Hf|exact Hv4].
  - rewrite Ht1, Ht2. split_and!; [| |split; simpl; [done| |]].
    3: { do 3 eexists. split_and!; [exact Hs|exact Hah|reflexivity|reflexivity]. }
    3: { apply encoded_not_empty. intros He. apply (f_equal String.length) in He.
         by rewrite env_rand_length in He. }
    all: simpl; lia.
Qed.

(** The right password on an unlocked account signs in. *)
Lemma login_completes req id hash w :
  no_faults → fresh_draws w → db_wf (w_db w) → id ∈ identities (w_db w) →
  Identity_Provider id = "password" → Identity_ExternalID id = login_Email req →
  (∀ t, Identity_LockedUntil id = Some t → t ≤ env_now (S (w_tick w))) →
  Identity_PasswordHash id = Some hash → Password.Verify hash (login_Password req) = inr true →
  ∃ tokens sid k k' w', login req w = (inr tokens, w') ∧
    (w_tick w ≤ k)%nat ∧ (w_tick w ≤ k')%nat ∧
    signed_in (Identity_UserID id) sid (login_ClientPublicKey req) tokens (env_now k) (env_now k')
      (w_db w) (w_db w').
Proof using HL HA.
  intros Hf Hfresh Hwf Hin Hp He Hl Hh Hv. set (w1 := with_db (w_db w) (step w)).
  assert (∃ w2, (locked id : IO bool) w1 = (inr false, w2) ∧ w_db w2 = w_db w ∧
                (w_tick w ≤ w_tick w2)%nat) as (w2 & Hlock & Hd2 & Ht2).
  { by apply unlocked_passes. }
  set (reset := ResetLoginFailures (Identity_ID id) (env_now (w_tick w2)) (env_uuid (w_tick w2)) (w_db w)).
  assert (∃ d3, reset = inr (tt, d3) ∧ users d3 = users (w_db w) ∧ sessions d3 = sessions (w_db w) ∧
                access_tokens d3 = access_tokens (w_db w)) as (d3 & Hreset & Hu3 & Hs3 & Ha3)
    by (eexists; split; [reflexivity|done]).
  set (w3 := with_db d3 (step w2)).
  destruct (openSession_completes id (login_ClientPublicKey req) w3) as (tokens & sid & k & k' & w' & Hr & Hk & Hk' & Hsi).
  - done.
  - intros t Ht. simpl in *. rewrite Hs3, Ha3. apply Hfresh. lia.
  - simpl. rewrite Hu3. pose proof (wf_identity_user _ Hwf) as Href. unfold references in Href.
    rewrite Forall_forall in Href. by apply Href.
  - exists tokens, sid, k, k', w'. simpl in Hk, Hk'. split_and!; [|lia|lia|].
    + unfold login. apply bind_inr. exists id, w1. split.
      { unfold onerr. by erewrite (pool_ok _ w); [|done|by apply GetIdentity_ok]. }
      apply bind_inr. exists false, w2. split; [done|]. apply bind_inr. exists tt, w2. split; [done|].
      rewrite Hh, Hv. apply bind_inr. exists tt, w3. split; [|done].
      unfold ignore. rewrite (pool_ok _ w2 tt d3); [done|done|]. by rewrite Hd2.
    + destruct Hsi as [Hus (tid & a1 & a2 & H1 & H2 & H3 & H4) Ht]. simpl in *.
      rewrite Hs3, Ha3, Hu3 in *. split; [done| |done]. by exists tid, a1, a2.
Qed.

(** ** The middleware *)

(** The sign-in is still good in [d]: its session is not revoked and the user
    is active. *)
Record still_in (user : User) (sid : uuid) (d : DB) : Prop := {
  sti_session : ∀ x, x ∈ sessions d → Session_ID x = sid → Session_RevokedAt x = None;
  sti_user : ∀ u, u ∈ users d → User_ID u = User_ID user → User_Status u = "active" }.

(** The rows a sign-in leaves, in any later database. *)
Lemma signed_in_later user sid key tokens opened issued d d2 d3 :
  signed_in (User_ID user) sid key tokens opened issued d d2 → user ∈ users d → evolves d2 d3 →
  (∃ t, t ∈ access_tokens d3 ∧ AccessToken_SessionID t = sid ∧
     AccessToken_TokenHash t = HashToken (AccessToken_ tokens) ∧
     AccessToken_ExpiresAt t = pg_time (issued + accessTTL)) ∧
  (∃ x, x ∈ sessions d3 ∧ Session_ID x = sid ∧ Session_UserID x = User_ID user ∧
     Session_ExpiresAt x = pg_time (opened + refreshTTL)) ∧
  (∃ u, u ∈ users d3 ∧ User_ID u = User_ID user ∧ User_Role u = User_Role user).
Proof.
  intros [Hu (tid & a1 & a2 & _ & _ & Hs & Ha) _] Hin Hev. split_and!.
  - edestruct (ev_access_tokens _ _ Hev) as (t & Ht & <-);
      [rewrite Ha; apply elem_of_app; right; by apply list_elem_of_singleton|]. by eexists.
  - edestruct (ev_sessions _ _ Hev) as (x & Hx & Hid & Huid & Hexp & _);
      [rewrite Hs; apply elem_of_app; right; by apply list_elem_of_singleton|].
    simpl in Hid, Huid, Hexp. by exists x.
  - rewrite <-Hu in Hin. destruct (ev_users _ _ Hev _ Hin) as (u & Hin' & Hid & _ & Hrole). by exists u.
Qed.

Lemma signed_in_still user sid key tokens opened issued d d2 :
  signed_in (User_ID user) sid key tokens opened issued d d2 → db_wf d → user ∈ users d →
  User_Status user = "active" → still_in user sid d2.
Proof.
  intros [Hu (tid & a1 & a2 & Hsid & _ & Hs & _) _] Hwf Hin Hact. split.
  - intros x. rewrite Hs. intros [Hx|Hx%list_elem_of_singleton]%elem_of_app Hid; [|by subst x].
    destruct Hsid. rewrite <-Hid. by apply list_elem_of_fmap_2.
  - intros u. rewrite Hu. intros Huin Hid.
    by rewrite (unique_key User_ID (users d) u user (wf_user_id _ Hwf) Huin Hin Hid).
Qed.

(** Who the caller of a signed-in request is. *)
Lemma signed_in_context user sid key tokens opened issued d d2 d3 u now :
  signed_in (User_ID user) sid key tokens opened issued d d2 → user ∈ users d →
  evolves d2 d3 → db_wf d3 → still_in user sid d3 →
  now < pg_time (opened + refreshTTL) → now < pg_time (issued + accessTTL) →
  ∃ row, GetAccessContext (HashToken (AccessToken_ tokens)) now u d3 = inr (row, d3) ∧
    GetAccessContextRow_SessionID row = sid ∧
    GetAccessContextRow_UserID row = User_ID user ∧ GetAccessContextRow_Role row = User_Role user ∧
    GetAccessContextRow_Status row = "active".
Proof.
  intros Hsi Hin Hev Hwf [Hrev Hact] Ho Hi.
  destruct (signed_in_later _ _ _ _ _ _ _ _ _ Hsi Hin Hev)
    as ((t & Ht & Hts & Hth & Hte) & (x & Hx & Hxi & Hxu & Hxe) & (v & Hv & Hvi & Hvr)).
  unfold GetAccessContext, select_one, access_contexts.
  rewrite (filter_unique _ AccessToken_TokenHash _ t); cycle 1.
  { by apply wf_access_token_token. } { done. } { split; [done|lia]. } { intros y [Hy _]. congruence. }
  rewrite bind_singleton, (filter_unique _ Session_ID _ x); cycle 1.
  { by apply wf_session_id. } { done. } { split_and!; [congruence|by apply Hrev|lia]. }
  { intros y [Hy _]. congruence. }
  rewrite bind_singleton, (filter_unique _ User_ID _ v); cycle 1.
  { by apply wf_user_id. } { done. } { congruence. } { intros y Hy. congruence. }
  eexists. split; [reflexivity|]. simpl. split_and!; auto.
Qed.

(** A request with the access token of an active admin reaches its handler. *)
Lemma requireAdmin_passes user sid key tokens opened issued d d2 w next r :
  signed_in (User_ID user) sid key tokens opened issued d d2 → user ∈ users d →
  evolves d2 (w_db w) → db_wf (w_db w) → still_in user sid (w_db w) →
  User_Role user = "admin" → env_fault (w_tick w) = NoFault →
  env_now (w_tick w) < pg_time (opened + refreshTTL) → env_now (w_tick w) < pg_time (issued + accessTTL) →
  bearerToken r = AccessToken_ tokens →
  ∃ auth, requireAdmin next r w = next auth r (with_db (w_db w) (step w)) ∧
    auth_SessionID auth = sid ∧ auth_UserID auth = User_ID user ∧ auth_Role auth = "admin".
Proof.
  intros Hsi Hin Hev Hwf Hst Hrole Hf Ho Hi Hb.
  destruct (signed_in_context user sid key tokens opened issued d d2 (w_db w) (env_uuid (w_tick w))
    (env_now (w_tick w))) as (row & Hq & Hsid & Hu & Hr & Hs); [done..|].
  eexists. split.
  - unfold requireAdmin, requireAuth. rewrite Hb. unfold bind at 1, require at 1.
    rewrite bool_decide_false by apply (si_token _ _ _ _ _ _ _ _ Hsi). simpl. unfold bind at 1, onerr.
    rewrite (pool_ok _ w row (w_db w)) by done. unfold bind, require.
    rewrite bool_decide_true by congruence. simpl. rewrite bool_decide_true by congruence. reflexivity.
  - simpl. split_and!; congruence.
Qed.

(** ** Creating an admin *)

Lemma CreateAdmin_inr email hash w w' :
  CreateAdmin email hash w = (inr tt, w') →
  ∃ user id, users (w_db w') = users (w_db w) ++ [user] ∧
    identities (w_db w') = identities (w_db w) ++ [id] ∧
    User_Email user = email ∧ User_Role user = "admin" ∧ User_Status user = "active" ∧
    Identity_UserID id = User_ID user ∧ Identity_Provider id = "password" ∧
    Identity_ExternalID id = email ∧ Identity_PasswordHash id = Some hash ∧
    Identity_LockedUntil id = None.
Proof.
  intros Hr. unfold CreateAdmin in Hr. apply bind_inr in Hr as ([] & w1 & Hb & Hr).
  apply Begin_viewing in Hb as (Hv1 & _ & _). apply deferRollback_inr in Hr as (wz & Hr & ->).
  apply bind_inr in Hr as (user & w2 & Hcu & Hr). apply onerr_inr_inv in Hcu; [|throwing_branch].
  eapply inTx_inr in Hcu as (d2 & Hcu & Hv2 & _); [|exact Hv1]. invert_query Hcu.
  apply bind_inr in Hr as (id & w3 & Hci & Hr). apply onerr_inr_inv in Hci; [|throwing_branch].
  eapply inTx_inr in Hci as (d3 & Hci & Hv3 & _); [|exact Hv2]. invert_query Hci.
  apply Commit_inr in Hr as (d4 & now4 & Hv4 & ->).
  destruct (viewing_functional _ _ _ _ _ Hv3 Hv4) as [-> _]. do 2 eexists. simpl.
  split; [reflexivity|]. split; [reflexivity|]. done.
Qed.

Lemma cmdCreateAdmin_inr email pw dbURL w password w1 :
  cmdCreateAdmin email pw dbURL w = (inr password, w1) →
  (pw ≠ "" → password = pw) ∧
  ∃ salt wa, CreateAdmin email (Password.Hash salt password) wa = (inr tt, w1) ∧ quiet w wa.
Proof.
  intros Hr. unfold cmdCreateAdmin in Hr. do 2 (case_decide; [done|]).
  apply bind_inr in Hr as (plain & wp & Hpw & Hr). apply bind_inr in Hr as ([] & wc & Hc & Hr).
  apply bind_inr in Hr as ([] & wx & Ha & Hret). injection Hret as -> ->.
  assert (quiet w wp ∧ (pw ≠ "" → password = pw)) as [Hqp Hpass].
  { case_decide; unfold randomPassword, bind, randBytes, ret in Hpw; simplify_eq/=; split; done. }
  assert (quiet wp wc) as Hqc by (unfold Connect in Hc; case_match; by simplify_eq/=).
  split; [done|]. apply bind_inr in Ha as (hash & wa & Hh & Ha).
  apply bind_inr in Hh as (salt & ws & [= <- <-] & [= <- <-]).
  eexists _, _. split; [exact Ha|]. etransitivity; [exact Hqp|]. etransitivity; [exact Hqc|]. done.
Qed.

(** ** Claims *)

(** C40: the first admin gets in.  When [custos create-admin] succeeds, the
    password it was given, or reports, signs the new user in at once if the
    database answers and the drawn ids and tokens are new.  From then on,
    whatever is committed in between, as long as the session is not revoked and
    the user stays active, the admin middleware passes every request that
    carries the access token and finds the database answering, within the
    lifetimes of the token and of the session (to the microsecond), and names
    the caller as that user, an admin, in that session.  No other
    request commits meanwhile. *)
Theorem created_admins_can_sign_in email pw dbURL key w password w1 :
  no_faults → w_tx w = None → db_wf (w_db w) →
  cmdCreateAdmin email pw dbURL w = (inr password, w1) → fresh_draws w1 →
  (pw ≠ "" → password = pw) ∧
  ∃ user tokens sid k k' w2,
    users (w_db w1) = users (w_db w) ++ [user] ∧ User_Email user = email ∧
    login {| login_Email := email; login_Password := password; login_ClientPublicKey := key |} w1 =
      (inr tokens, w2) ∧ (w_tick w1 ≤ k)%nat ∧ (w_tick w1 ≤ k')%nat ∧ still_in user sid (w_db w2) ∧
    ∀ next r w3, evolves (w_db w2) (w_db w3) → still_in user sid (w_db w3) →
      bearerToken r = AccessToken_ tokens →
      env_now (w_tick w3) < pg_time (env_now k + refreshTTL) →
      env_now (w_tick w3) < pg_time (env_now k' + accessTTL) →
      ∃ auth, requireAdmin next r w3 = next auth r (with_db (w_db w3) (step w3)) ∧
        auth_SessionID auth = sid ∧ auth_UserID auth = User_ID user ∧ auth_Role auth = "admin".
Proof using HL HA.
  intros Hf Htx Hwf Hc Hfresh. apply cmdCreateAdmin_inr in Hc as (Hpw & salt & wa & Hadmin & Hq).
  split; [done|]. assert (db_wf (w_db w1) ∧ w_tx w1 = None) as [Hwf1 Htx1].
  { pose proof (CreateAdmin_rel email (Password.Hash salt password) wa) as Hrel. rewrite Hadmin in Hrel.
    split; [|by apply Hrel; rewrite (quiet_tx _ _ Hq)].
    apply effect_alone in Hrel; [|apply _|by rewrite (quiet_tx _ _ Hq)].
    eapply ev_wf; [exact Hrel|]. by rewrite (quiet_db _ _ Hq). }
  apply CreateAdmin_inr in Hadmin as (user & id & Hus & Hids & He & Hrole & Hst & Hiu & Hp & Hx & Hh & Hl).
  rewrite (quiet_db _ _ Hq) in Hus.
  assert (user ∈ users (w_db w1)) as Hin by (rewrite Hus; apply elem_of_app; right; apply list_elem_of_here).
  destruct (login_completes {| login_Email := email; login_Password := password; login_ClientPublicKey := key |}
    id (Password.Hash salt password) w1) as (tokens & sid & k & k' & w2 & Hr & Hk & Hk' & Hsi); try done.
  - rewrite Hids. apply elem_of_app. right. apply list_elem_of_here.
  - by rewrite Hl.
  - simpl. rewrite Password.Verify_Hash_eq. by rewrite bool_decide_true.
  - assert (db_wf (w_db w2)) as Hwf2.
    { pose proof (login_rel {| login_Email := email; login_Password := password; login_ClientPublicKey := key |} w1)
        as Hrel. rewrite Hr in Hrel. apply effect_alone in Hrel; [|apply _|done]. by eapply ev_wf. }
    exists user, tokens, sid, k, k', w2. split_and!; [done..| |].
    + rewrite Hiu in Hsi. by eapply signed_in_still.
    + rewrite Hiu in Hsi. simpl in Hsi. intros next r w3 Hev Hst3 Hb Hn Hn'.
      eapply requireAdmin_passes; try done. by apply (ev_wf _ _ Hev).
Qed.
End signin.

(** ** Witnesses *)

Lemma created_admins_can_sign_in_witness :
  ∃ password w1, cmdCreateAdmin "root@x" "" "postgres://db" (initial_world empty_db) = (inr password, w1) ∧
    ∃ tokens w2, login {| login_Email := "root@x"; login_Password := password;
                          login_ClientPublicKey := None |} w1 = (inr tokens, w2).
Proof.
  assert (match cmdCreateAdmin "root@x" "" "postgres://db" (initial_world empty_db) with
          | (inr _, w) => sessions (w_db w) = [] ∧ access_tokens (w_db w) = []
          | _ => False
          end) as Hempty by (vm_compute; split; reflexivity).
  destruct (cmdCreateAdmin "root@x" "" "postgres://db" (initial_world empty_db)) as [[e|password] w1] eqn:Hr.
  - destruct Hempty.
  - destruct Hempty as [Hs Ha]. exists password, w1. split; [reflexivity|].
    destruct (created_admins_can_sign_in "root@x" "" "postgres://db" None (initial_world empty_db) password w1)
      as [_ (user & tokens & sid & k & k' & w2 & _ & _ & Hl & _)].
    + intros t. reflexivity.
    + reflexivity.
    + apply empty_db_wf.
    + exact Hr.
    + intros t _. rewrite Hs, Ha. split_and!; apply not_elem_of_nil.
    + exists tokens, w2. exact Hl.
Defined.
