(* ===== verification/CommandProps.v ===== *)
(** What the small commands show and leave: [custosd status] prints the
    connection state the agent last wrote, and the daemon's sockets have the
    mode they were given. *)
From Stdlib Require Import Ascii.
From S2P Require Import Prelude Text Base64 Json Protocol Crypto World Http Daemon Agent Fs Demo Commands Lifecycle.

Section status.
Context `{Platform, !Alone, !PlatformLaws, Disk}.

Definition status_ok (st : LiveStatus) : Prop :=
  0 ≤ LastSeq st < 2 ^ 64 ∧ time_in_range (UpdatedAt st).

Lemma LiveStatus_roundtrip st :
  status_ok st → LiveStatus_of_json (LiveStatus_json st) = Some st.
Proof.
  destruct st as [b n t]. intros [Hn Ht]. simpl in *. unfold LiveStatus_of_json. json_decode.
  rewrite decide_True by done. json_decode. rewrite time_parse_print by done. by json_decode.
Qed.
Lemma LiveStatus_valid st : status_ok st → json_valid (LiveStatus_json st) = true.
Proof.
  destruct st as [b n t]. intros [_ Ht]. simpl in *. rewrite andb_true_r.
  apply ascii_valid. eapply Forall_impl; [by apply time_print_chars|]. apply time_char_ascii.
Qed.

Lemma group_fields (a b c d x y : string) :
  a +:+ b +:+ c +:+ d +:+ x +:+ y = (a +:+ b +:+ c +:+ d) +:+ x +:+ y.
Proof. by rewrite !string_app_assoc. Qed.

(** The files after a status that was written. *)
Lemma writeStatus_disk connected at_ c :
  disk_fault (cl_writes c) = None →
  let st := {| Connected := connected; LastSeq := Seq (cl_cache c); UpdatedAt := at_ |} in
  cl_disk (writeStatus connected at_ c) = <[statusFile := json_print (LiveStatus_json st)]> (cl_disk c).
Proof. intros Hf. unfold writeStatus, SaveStatus, Daemon.atomicWrite. by rewrite Hf. Qed.

(** [custosd status] on an enrolled host shows the connection state the agent
    last wrote, and how long ago it was written. *)
Theorem status_shows_the_recorded_state connected at_ now version dir update c cfg :
  disk_fault (cl_writes c) = None → 0 ≤ Seq (cl_cache c) < 2 ^ 64 → time_in_range at_ →
  is_Some (cl_disk c !! identityFile) → LoadConfig (cl_disk c) = inr cfg →
  ∃ before after,
    cmdStatus version dir now None (inr (cl_disk (writeStatus connected at_ c), update)) =
      inr (before +:+ field "cp connection:"
             ((if connected : bool then "connected" else "disconnected") +:+ " (updated " +:+
              duration_string (round_seconds (now - at_)) +:+ " ago)") +:+ after).
Proof.
  intros Hf Hseq Ht [key Hkey] Hcfg. rewrite writeStatus_disk by done.
  set (st := {| Connected := connected; LastSeq := Seq (cl_cache c); UpdatedAt := at_ |}).
  set (disk := <[statusFile := _]> _).
  assert (LoadStatus disk = inr st) as Hst.
  { unfold LoadStatus, readFile, disk. rewrite lookup_insert_eq.
    assert (status_ok st) as Hok by done.
    by rewrite unmarshal_print, LiveStatus_roundtrip by auto using LiveStatus_valid. }
  assert (LoadConfig disk = inr cfg) as Hcfg'.
  { rewrite <-Hcfg. unfold LoadConfig, readFile, disk. by rewrite lookup_insert_ne. }
  unfold cmdStatus, EnrollmentError. unfold disk at 1. rewrite lookup_insert_ne, Hkey, Hcfg' by done.
  unfold connection_line. rewrite Hst.
  eexists _, _. f_equal. apply group_fields.
Qed.
End status.

Section sockets.
Context `{SysEnv}.

(** A socket the daemon listens on has the mode it was given, and making it
    touches no other file, whatever call fails. *)
Theorem sockets_have_their_mode path mode s :
  wp (listenSocket path mode) s (λ _, same_but [path] s)
    (λ _ s', same_but [path] s s' ∧ sys_files s' !! path = Some {| f_data := ""; f_mode := mode |}).
Proof.
  unfold listenSocket. apply wp_bind.
  apply (wp_mono _ _ (λ _, same_but [path] s) _ (λ _, same_but [path] s)); [|done|].
  { apply wp_onerr, wp_Remove; [|done]. intros e s1 R1. case_decide; [by apply wp_ret|by apply wp_throw]. }
  intros _ s1 R1. apply wp_bind. unfold wp at 1, syscall.
  destruct (sys_fault _); [etrans; [exact R1|apply same_but_bump]|].
  destruct (sys_files s1 !! path) eqn:Hp; [etrans; [exact R1|apply same_but_bump]|].
  set (s2 := set_files _ _).
  assert (same_but [path] s s2) as R2.
  { etrans; [exact R1|]. apply same_but_files. intros q Hq. apply lookup_insert_ne. set_solver. }
  apply wp_onerr, wp_Chmod.
  - intros e s3 R3. unfold wp, bind, ignore, throw. etrans; [exact R2|]. etrans; [exact R3|].
    apply (Remove_same path s3).
  - intros _ s3 R3 [Hd Hm]. split; [by etrans|].
    unfold data_at, s2 in Hd. simpl in Hd. rewrite lookup_insert_eq in Hd.
    destruct (sys_files s3 !! path) as [[d m]|]; simplify_eq/=. done.
Qed.
End sockets.
