(* ===== verification/Startup.v ===== *)
(** [custosd run] on a host: [cmdRun] of [cmd/daemon/run.go] from the opened
    store to the running client and its exit, [hardenMemory]
    ([cmd/daemon/harden_{linux,other}.go]) and the peer credentials behind
    [callerIs] ([internal/daemon/peer_{linux,other}.go]).

    [Daemon.cmdRun] says which state a daemon starts with, from the contents of
    its state directory.  Here the command runs call by call on the file
    system, each call subject to failure, and is shown to start with that
    state. *)
From stdpp Require Import pretty.
From S2P Require Import Prelude Text Base64 Json Protocol Crypto World Http Daemon Agent Fs Update HostTools Commands Cli Demo DaemonProps CommandProps.

(** ** Memory *)

(** What the kernel keeps of the daemon's memory: whether it may reach swap,
    be dumped, or end in a core file. *)
Record Mem := { mem_locked : bool; mem_dumpable : bool; mem_cores : bool }.
(** A process as the kernel starts it. *)
Definition freshMem : Mem := {| mem_locked := false; mem_dumpable := true; mem_cores := true |}.

(** The outcomes of [mlockall], [prctl] and [setrlimit]. *)
Record MemCalls := { Mlockall : option error; Prctl : option error; Setrlimit : option error }.

(** Each call is tried; a failure is logged. *)
Definition hardenMemory (k : MemCalls) (m : Mem) : Mem :=
  let m := match Mlockall k with
           | None => {| mem_locked := true; mem_dumpable := mem_dumpable m; mem_cores := mem_cores m |}
           | Some _ => m end in
  let m := match Prctl k with
           | None => {| mem_locked := mem_locked m; mem_dumpable := false; mem_cores := mem_cores m |}
           | Some _ => m end in
  match Setrlimit k with
  | None => {| mem_locked := mem_locked m; mem_dumpable := mem_dumpable m; mem_cores := false |}
  | Some _ => m
  end.
(** Off Linux it does nothing. *)
Definition hardenMemory_other (m : Mem) : Mem := m.

(** A protection holds once its call succeeded, and none is taken back. *)
Theorem hardening_protects k m :
  (Mlockall k = None → mem_locked (hardenMemory k m) = true) ∧
  (Prctl k = None → mem_dumpable (hardenMemory k m) = false) ∧
  (Setrlimit k = None → mem_cores (hardenMemory k m) = false) ∧
  (mem_locked m = true → mem_locked (hardenMemory k m) = true) ∧
  (mem_dumpable m = false → mem_dumpable (hardenMemory k m) = false) ∧
  (mem_cores m = false → mem_cores (hardenMemory k m) = false).
Proof. destruct k as [[|] [|] [|]], m; by split_and!. Qed.

(** ** Peer credentials *)

(** A connection as [peerUID] sees it: whether it is a unix one, and what
    [SyscallConn], [Control] and [getsockopt(SO_PEERCRED)] return. *)
Record PeerConn := {
  pc_unix : bool; pc_raw : option error; pc_control : option error; pc_cred : error + N }.

Definition peerUID (conn : PeerConn) : error + N :=
  if negb (pc_unix conn) then inl (ErrMsg "not a unix connection") else
  match pc_raw conn, pc_control conn with
  | Some e, _ | None, Some e => inl e
  | None, None => pc_cred conn
  end.
Definition peerUID_other (conn : PeerConn) : error + N :=
  inl (ErrMsg "peer credentials unsupported on this platform").

(** ** The command *)

(** The process: the host, its memory, and the secret store once it exists,
    with the protections its memory had when it was made. *)
Record Proc := { pr_sys : Sys; pr_mem : Mem; pr_secrets : option (SecretStore * Mem) }.

Definition onSys {E A} (m : M Sys E A) : M Proc E A := λ p,
  let '(r, s) := m (pr_sys p) in
  (r, {| pr_sys := s; pr_mem := pr_mem p; pr_secrets := pr_secrets p |}).
Definition onMem {E} (f : Mem → Mem) : M Proc E unit := modify (λ p,
  {| pr_sys := pr_sys p; pr_mem := f (pr_mem p); pr_secrets := pr_secrets p |}).
Definition newStore {E} (ss : SecretStore) : M Proc E unit := modify (λ p,
  {| pr_sys := pr_sys p; pr_mem := pr_mem p; pr_secrets := Some (ss, pr_mem p) |}).

(** What [NewClient] is called with. *)
Record Started := {
  st_cfg : DaemonConfig; st_id : Identity.KeyPair; st_cache : Cache; st_secrets : SecretStore;
  st_updateDir : string }.

Definition mode_0660 : Z := 6 * 64 + 6 * 8.

Section run.
Context `{Platform, SysEnv} (memcalls : MemCalls) (join : string → string → string).

(** [os.ReadFile] of a file of the store, and what its loader makes of it. *)
Definition fromFile {A} (dir name : string) (load : gmap string bytes → error + A) : M Sys error A :=
  data <- ReadFile (dir, name);;
  match load {[name := data]} with inl e => throw e | inr a => ret a end.
(** [LoadCache]: a missing file is an empty cache. *)
Definition fromCache (dir : string) : M Sys error Cache :=
  r <- attempt (ReadFile (dir, cacheFile));;
  match r with
  | inl e => if decide (e = ErrNotExist) then ret {| c_seq := 0; c_entries := ∅ |} else throw e
  | inr data => match LoadCache {[cacheFile := data]} with inl e => throw e | inr c => ret c end
  end.

(** [cmdRun] up to [client.Run]; [fatal] is an error, and leaves what was made
    so far: [os.Exit] runs no deferred call. *)
Definition startDaemon (dir : string) (socket secretSocket : Path) : M Proc error Started :=
  store <- onSys (OpenStore dir);;
  enrolled <- attempt (onSys (Stat (store, identityFile)));;
  match enrolled with
  | inl _ => throw (ErrMsg "run: not enrolled; run `custosd enroll` first")
  | inr _ =>
      cfg <- onSys (fromFile store configFile LoadConfig);;
      id <- onSys (fromFile store identityFile LoadIdentity);;
      cache <- onSys (fromCache store);;
      r <- attempt (onSys (fromFile store encryptionFile LoadEncryptionKey));;
      let encKey := match r with inr k => Some k | inl _ => None end in
      onMem (hardenMemory memcalls);;;
      onSys (listenSocket socket mode_0600);;;
      onSys (listenSocket secretSocket mode_0660);;;
      let secrets := NewSecretStore encKey in
      newStore secrets;;;
      ret {| st_cfg := cfg; st_id := id; st_cache := cache; st_secrets := secrets;
             st_updateDir := join dir "update" |}
  end.

(** The rest of [cmdRun], once [client.Run] returned: the exit status, and the
    deferred [Close] of both listeners, which removes their files, unless
    [fatal] ended the process. *)
Definition finishDaemon (restart : bool) (err : option error) (cancelled : bool)
    (socket secretSocket : Path) : M Proc error Z :=
  let status := runStatus restart err cancelled in
  if decide (status = 0) then
    ignore (onSys (Remove secretSocket));;; ignore (onSys (Remove socket));;; ret status
  else ret status.

(** The client of a started daemon, whose store shows the files [disk]. *)
Definition NewClient (disk : gmap string bytes) (version : string) (st : Started) : Client :=
  {| cl_cfg := st_cfg st; cl_identity := st_id st; cl_cache := st_cache st;
     cl_secrets := Some (st_secrets st); cl_disk := disk; cl_version := version;
     cl_upgrading := false; cl_upgrades := []; cl_sent := []; cl_writes := 0 |}.
End run.

(** ** Rules *)

Lemma wp_onSys {E A} (m : M Sys E A) p (Qe : E → Proc → Prop) (Qo : A → Proc → Prop) :
  wp m (pr_sys p)
    (λ e s, Qe e {| pr_sys := s; pr_mem := pr_mem p; pr_secrets := pr_secrets p |})
    (λ a s, Qo a {| pr_sys := s; pr_mem := pr_mem p; pr_secrets := pr_secrets p |}) →
  wp (onSys m) p Qe Qo.
Proof. unfold wp, onSys. by destruct (m (pr_sys p)) as [[e|a] s]. Qed.
Lemma wp_onMem {E} f p (Qe : E → Proc → Prop) (Qo : unit → Proc → Prop) :
  Qo tt {| pr_sys := pr_sys p; pr_mem := f (pr_mem p); pr_secrets := pr_secrets p |} →
  wp (onMem f) p Qe Qo.
Proof. done. Qed.

Section loads.
Context `{Platform, SysEnv} (dir : string) (disk : gmap string bytes).

Lemma load_config_file data : disk !! configFile = Some data → LoadConfig {[configFile := data]} = LoadConfig disk.
Proof. intros Hd. unfold LoadConfig, readFile. by rewrite Hd, lookup_singleton_eq. Qed.
Lemma load_identity_file data : disk !! identityFile = Some data → LoadIdentity {[identityFile := data]} = LoadIdentity disk.
Proof. intros Hd. unfold LoadIdentity, readFile. by rewrite Hd, lookup_singleton_eq. Qed.
Lemma load_key_file data :
  disk !! encryptionFile = Some data → LoadEncryptionKey {[encryptionFile := data]} = LoadEncryptionKey disk.
Proof. intros Hd. unfold LoadEncryptionKey, readFile. by rewrite Hd, lookup_singleton_eq. Qed.
Lemma load_cache_file data : disk !! cacheFile = Some data → LoadCache {[cacheFile := data]} = LoadCache disk.
Proof. intros Hd. unfold LoadCache. by rewrite Hd, lookup_singleton_eq. Qed.

Lemma shows_same s s' : same_but [] s s' → shows dir disk s → shows dir disk s'.
Proof. intros [Hs _] Hd name Hn. unfold data_at. rewrite Hs by set_solver. by apply Hd. Qed.

(** A loader that succeeds read what the store shows. *)
Lemma wp_fromFile {A} name (load : gmap string bytes → error + A) s (Qe : error → Sys → Prop) Qo :
  shows dir disk s → HasPrefix name ".tmp-" = false →
  (∀ data, disk !! name = Some data → load {[name := data]} = load disk) →
  (∀ e s1, same_but [] s s1 → Qe e s1) →
  (∀ a s1, same_but [] s s1 → load disk = inr a → is_Some (disk !! name) → Qo a s1) →
  wp (fromFile dir name load) s Qe Qo.
Proof.
  intros Hs Hn Hl He Ho. unfold fromFile. apply wp_bind, wp_ReadFile; [done|].
  intros data s1 R Hd. rewrite (Hs _ Hn) in Hd. specialize (Hl _ Hd).
  destruct (load {[name := data]}) as [e|a] eqn:Hr; [by apply wp_throw, He|].
  apply wp_ret, Ho; [done|by rewrite <-Hl|by eexists].
Qed.
(** A missing file is not read as anything else. *)
Lemma ReadFile_missing p s e s1 :
  ReadFile p s = (inl e, s1) → e = ErrNotExist → sys_fault (sys_tick s) ≠ Some ErrNotExist →
  data_at p s = None.
Proof.
  unfold ReadFile, syscall, data_at. destruct (sys_fault _) as [f|] eqn:Hf; [intros [= <- _] ->; done|].
  by destruct (sys_files s !! p).
Qed.
Lemma wp_fromCache s (Qe : error → Sys → Prop) Qo :
  (∀ n, sys_fault n ≠ Some ErrNotExist) → shows dir disk s →
  (∀ e s1, same_but [] s s1 → Qe e s1) →
  (∀ c s1, same_but [] s s1 → LoadCache disk = inr c → Qo c s1) →
  wp (fromCache dir) s Qe Qo.
Proof.
  intros Hf Hs He Ho. unfold fromCache. apply wp_bind, wp_attempt. unfold wp at 1.
  pose proof (ReadFile_same (dir, cacheFile) s) as R.
  destruct (ReadFile (dir, cacheFile) s) as [[e|data] s1] eqn:Hr; simpl in R.
  - case_decide as Hne; [|by apply wp_throw, He]. apply wp_ret, Ho; [done|].
    pose proof (ReadFile_missing _ _ _ _ Hr Hne (Hf _)) as Hd. rewrite Hs in Hd by done.
    unfold LoadCache. by rewrite Hd.
  - apply ReadFile_data in Hr. rewrite Hs in Hr by done. rewrite (load_cache_file _ Hr).
    destruct (LoadCache disk) as [e|c] eqn:Hc; [by apply wp_throw, He|by apply wp_ret, Ho].
Qed.
End loads.

(** ** Starting *)

Section start.
Context `{Platform, SysEnv} (memcalls : MemCalls) (join : string → string → string).
Context (dir : string) (socket secretSocket : Path) (disk : gmap string bytes) (version : string).
#[local] Abbreviation store := (if decide (dir = "") then DefaultDir else dir).
#[local] Abbreviation start := (startDaemon memcalls join dir socket secretSocket).

(** The daemon without its encryption key: machine secrets are disabled. *)
Definition without_key (c : Client) : Client :=
  {| cl_cfg := cl_cfg c; cl_identity := cl_identity c; cl_cache := cl_cache c;
     cl_secrets := Some (NewSecretStore None); cl_disk := cl_disk c; cl_version := cl_version c;
     cl_upgrading := cl_upgrading c; cl_upgrades := cl_upgrades c; cl_sent := cl_sent c;
     cl_writes := cl_writes c |}.

(** The protections of the calls that succeeded; a call that failed protects
    from nothing, and the daemon starts all the same. *)
Record protected (m : Mem) : Prop := {
  pm_swap : Mlockall memcalls = None → mem_locked m = true;
  pm_dump : Prctl memcalls = None → mem_dumpable m = false;
  pm_core : Setrlimit memcalls = None → mem_cores m = false }.

(** The daemon is up: both sockets have their modes, the memory had its
    protections when the secret store was made, and its state is the one on
    disk, less the encryption key if that could not be read. *)
Definition up (st : Started) (p' : Proc) : Prop :=
  sys_files (pr_sys p') !! socket = Some {| f_data := ""; f_mode := mode_0600 |} ∧
  sys_files (pr_sys p') !! secretSocket = Some {| f_data := ""; f_mode := mode_0660 |} ∧
  (∃ m, pr_secrets p' = Some (st_secrets st, m) ∧ protected m) ∧ protected (pr_mem p') ∧
  ∃ c, cmdRun disk version = inr c ∧
    (NewClient disk version st = c ∨ NewClient disk version st = without_key c).

Lemma hardened_protected m : protected (hardenMemory memcalls m).
Proof. destruct (hardening_protects memcalls m) as (? & ? & ? & _). by split. Qed.

(** What the loads and the failing calls leave. *)
Definition loading (p p' : Proc) : Prop :=
  same_but [] (pr_sys p) (pr_sys p') ∧ pr_mem p' = pr_mem p ∧ pr_secrets p' = pr_secrets p.

(** The two sockets, after the loads. *)
Lemma wp_listen p (st : Started) :
  socket ≠ secretSocket →
  wp (onMem (hardenMemory memcalls);;; onSys (listenSocket socket mode_0600);;;
      onSys (listenSocket secretSocket mode_0660);;; newStore (st_secrets st);;; ret st) p
    (λ _ p', same_but [socket; secretSocket] (pr_sys p) (pr_sys p') ∧ pr_secrets p' = pr_secrets p)
    (λ st' p', same_but [socket; secretSocket] (pr_sys p) (pr_sys p') ∧ st' = st ∧
       sys_files (pr_sys p') !! socket = Some {| f_data := ""; f_mode := mode_0600 |} ∧
       sys_files (pr_sys p') !! secretSocket = Some {| f_data := ""; f_mode := mode_0660 |} ∧
       (∃ m, pr_secrets p' = Some (st_secrets st, m) ∧ protected m) ∧ protected (pr_mem p')).
Proof.
  intros Hne.
  assert (∀ s1 s2 q, q ∈ [socket; secretSocket] → same_but [q] s1 s2 → same_but [socket; secretSocket] s1 s2) as Hw.
  { intros s1 s2 q Hq Hs. eapply same_outside_weaken; [exact Hs|]. by intros k ->%list_elem_of_singleton. }
  apply wp_bind, wp_onMem, wp_bind, wp_onSys. simpl.
  eapply wp_mono; [apply sockets_have_their_mode| |].
  { intros e s1 R1. split; [|done]. apply (Hw _ _ socket); [set_solver|done]. }
  intros u s1 [R1 F1]. apply wp_bind, wp_onSys. simpl.
  eapply wp_mono; [apply sockets_have_their_mode| |].
  { intros e s2 R2. split; [|done]. etrans; [apply (Hw _ _ socket); [set_solver|done]|].
    apply (Hw _ _ secretSocket); [set_solver|done]. }
  intros u' s2 [R2 F2]. unfold wp, bind, newStore, modify, ret. simpl. split_and!; try done.
  - etrans; [apply (Hw _ _ socket); [set_solver|done]|]. apply (Hw _ _ secretSocket); [set_solver|done].
  - rewrite <-F1. apply R2. by intros ?%list_elem_of_singleton.
  - eexists. split; [done|apply hardened_protected].
  - apply hardened_protected.
Qed.

Lemma only_sockets s1 s2 : same_but [] s1 s2 → same_but [socket; secretSocket] s1 s2.
Proof. intros Hx. eapply same_outside_weaken; [exact Hx|]. by intros q ?%elem_of_nil. Qed.

Lemma wp_up p s cfg id idf cache key :
  socket ≠ secretSocket → same_but [] (pr_sys p) s → LoadConfig disk = inr cfg →
  disk !! identityFile = Some idf → LoadIdentity disk = inr id → LoadCache disk = inr cache →
  key = None ∨ LoadEncryptionKey disk = inr (default "" key) ∧ is_Some key →
  let st := {| st_cfg := cfg; st_id := id; st_cache := cache; st_secrets := NewSecretStore key;
               st_updateDir := join dir "update" |} in
  wp (onMem (hardenMemory memcalls);;; onSys (listenSocket socket mode_0600);;;
      onSys (listenSocket secretSocket mode_0660);;; newStore (st_secrets st);;; ret st)
    {| pr_sys := s; pr_mem := pr_mem p; pr_secrets := pr_secrets p |}
    (λ _ p', same_but [socket; secretSocket] (pr_sys p) (pr_sys p') ∧ pr_secrets p' = pr_secrets p)
    (λ st p', same_but [socket; secretSocket] (pr_sys p) (pr_sys p') ∧ up st p').
Proof.
  intros Hne R6 Hcfg Hidf Hid Hcache Hkey st. apply only_sockets in R6. eapply wp_mono; [by apply wp_listen| |].
  - intros e p' [R Hsec]. split; [by etrans|done].
  - intros st' p' (R & -> & F1 & F2 & Hsec & Hm). split; [by etrans|].
    split_and!; try done. unfold cmdRun. rewrite Hidf, Hcfg, Hid, Hcache. eexists. split; [done|].
    destruct Hkey as [->|[Hk [k ->]]]; [by right|left]. by rewrite Hk.
Qed.

(** Every file but the sockets is as it was, and there is no secret store
    unless the daemon is up. *)
Lemma wp_startDaemon p :
  (∀ n, sys_fault n ≠ Some ErrNotExist) → shows store disk (pr_sys p) → socket ≠ secretSocket →
  wp start p
    (λ _ p', same_but [socket; secretSocket] (pr_sys p) (pr_sys p') ∧ pr_secrets p' = pr_secrets p)
    (λ st p', same_but [socket; secretSocket] (pr_sys p) (pr_sys p') ∧ up st p').
Proof.
  intros Hf Hs Hne.
  pose proof only_sockets as Hw. unfold startDaemon, OpenStore. cbv zeta. apply wp_bind, wp_onSys, wp_bind, wp_nop; [by auto|].
  intros [] s1 R1. apply wp_ret, wp_bind, wp_attempt, wp_onSys, wp_Stat.
  { intros e s2 R2. apply wp_throw. split; [|done]. apply Hw. by etrans. }
  intros [] s2 R2. assert (same_but [] (pr_sys p) s2) as R2' by by etrans. clear R1 R2.
  apply wp_bind, wp_onSys, (wp_fromFile store disk); [by eapply shows_same|done|apply load_config_file|..].
  { intros e s3 R3. split; [|done]. apply Hw. by etrans. }
  intros cfg s3 R3 Hcfg _. assert (same_but [] (pr_sys p) s3) as R3' by by etrans. clear R2' R3.
  apply wp_bind, wp_onSys, (wp_fromFile store disk); [by eapply shows_same|done|apply load_identity_file|..].
  { intros e s4 R4. split; [|done]. apply Hw. by etrans. }
  intros id s4 R4 Hid [idf Hidf]. assert (same_but [] (pr_sys p) s4) as R4' by by etrans. clear R3' R4.
  apply wp_bind, wp_onSys, (wp_fromCache store disk); [done|by eapply shows_same|..].
  { intros e s5 R5. split; [|done]. apply Hw. by etrans. }
  intros cache s5 R5 Hcache. assert (same_but [] (pr_sys p) s5) as R5' by by etrans. clear R4' R5.
  apply wp_bind, wp_attempt, wp_onSys, (wp_fromFile store disk);
    [by eapply shows_same|done|apply load_key_file|..].
  - intros e s6 R6. apply (wp_up p s6 cfg id idf cache None); [done|by etrans|done..|by left].
  - intros k s6 R6 Hk _. apply (wp_up p s6 cfg id idf cache (Some k)); [done|by etrans|done..|].
    right. split; [done|by eexists].
Qed.

(** *** When no call fails *)

Section quiet.
Context (no_fault : ∀ n, sys_fault n = None).

Lemma ReadFile_quiet q s :
  ReadFile q s = (match data_at q s with Some d => inr d | None => inl ErrNotExist end, bump s).
Proof.
  unfold ReadFile, syscall, data_at. rewrite no_fault. destruct (sys_files s !! q); [|done].
  by destruct s.
Qed.
Lemma fromFile_quiet {A} d0 name (load : gmap string bytes → error + A) s :
  shows d0 disk s → HasPrefix name ".tmp-" = false →
  (∀ data, disk !! name = Some data → load {[name := data]} = load disk) →
  (disk !! name = None → load disk = inl ErrNotExist) →
  fromFile d0 name load s = (load disk, bump s).
Proof.
  intros Hs Hn Hl Hmiss. unfold fromFile, bind. rewrite ReadFile_quiet, Hs by done.
  destruct (disk !! name) as [data|]; [|by rewrite Hmiss]. rewrite (Hl data) by done.
  by destruct (load disk).
Qed.
Lemma fromCache_quiet d0 s : shows d0 disk s → fromCache d0 s = (LoadCache disk, bump s).
Proof.
  intros Hs. unfold fromCache, bind, attempt. rewrite ReadFile_quiet, Hs by done.
  destruct (disk !! cacheFile) as [data|] eqn:Hd.
  - rewrite (load_cache_file _ _ Hd). by destruct (LoadCache disk).
  - rewrite decide_True by done. unfold LoadCache. by rewrite Hd.
Qed.
(** A socket can be bound whatever an earlier run left at its path. *)
Lemma listenSocket_quiet path mode s : ∃ s', listenSocket path mode s = (inr tt, s').
Proof.
  unfold listenSocket, onerr, bind at 1, Remove, syscall. rewrite no_fault.
  assert (∀ s1, sys_files s1 !! path = None → ∃ s',
    (syscall (λ m, match m !! path with
                   | Some _ => inl ErrExist
                   | None => inr (tt, <[path := {| f_data := ""; f_mode := mode_0755 |}]> m)
                   end);;;
     (Chmod path mode <!> λ e, ignore (Remove path);;; throw e)) s1 = (inr tt, s')) as Hrest.
  { intros s1 Hn. unfold bind, syscall at 1. rewrite no_fault, Hn. unfold onerr, Chmod, syscall.
    rewrite no_fault. simpl. rewrite lookup_insert_eq. by eexists. }
  destruct (sys_files s !! path) as [f|] eqn:Hp; simpl.
  - apply Hrest. apply lookup_delete_eq.
  - apply Hrest. exact Hp.
Qed.

Definition at_sys (s : Sys) (p : Proc) : Proc :=
  {| pr_sys := s; pr_mem := pr_mem p; pr_secrets := pr_secrets p |}.
Lemma bind_onSys {A B} (m : M Sys error A) (k : A → M Proc error B) p r s :
  m (pr_sys p) = (r, s) →
  bind (onSys m) k p = match r with inl e => (inl e, at_sys s p) | inr a => k a (at_sys s p) end.
Proof. intros Hm. unfold bind, onSys. rewrite Hm. by destruct r. Qed.
Lemma bind_attempt_onSys {A B} (m : M Sys error A) (k : error + A → M Proc error B) p r s :
  m (pr_sys p) = (r, s) → bind (attempt (onSys m)) k p = k r (at_sys s p).
Proof. intros Hm. unfold bind, attempt, onSys. by rewrite Hm. Qed.

Lemma OpenStore_quiet d0 s :
  OpenStore d0 s = (inr (if decide (d0 = "") then DefaultDir else d0), set_files (sys_files s) (bump s)).
Proof. unfold OpenStore, bind, nop_call, syscall. by rewrite no_fault. Qed.
Lemma Stat_quiet q s :
  Stat q s = (match data_at q s with Some _ => inr tt | None => inl ErrNotExist end, bump s).
Proof.
  unfold Stat, syscall, data_at. rewrite no_fault. destruct (sys_files s !! q); [|done]. by destruct s.
Qed.
Lemma shows_bump d0 s : shows d0 disk s → shows d0 disk (bump s).
Proof. done. Qed.

(** Sockets can always be bound, so starting does not fail after the loads. *)
Lemma listening_quiet p (st : Started) :
  ∃ p', (onMem (hardenMemory memcalls);;; onSys (listenSocket socket mode_0600);;;
         onSys (listenSocket secretSocket mode_0660);;; newStore (st_secrets st);;; ret st) p
        = (inr st, p').
Proof.
  unfold bind at 1, onMem, modify. set (p1 := {| pr_sys := _ |}).
  destruct (listenSocket_quiet socket mode_0600 (pr_sys p1)) as [s1 H1].
  rewrite (bind_onSys _ _ _ _ _ H1).
  destruct (listenSocket_quiet secretSocket mode_0660 (pr_sys (at_sys s1 p1))) as [s2 H2].
  rewrite (bind_onSys _ _ _ _ _ H2). by eexists.
Qed.

Lemma start_quiet p :
  shows store disk (pr_sys p) →
  match (start p).1, cmdRun disk version with
  | inr st, inr c => NewClient disk version st = c
  | inl _, inl _ => True
  | _, _ => False
  end.
Proof.
  intros Hs. unfold startDaemon. rewrite (bind_onSys _ _ _ _ _ (OpenStore_quiet _ _)).
  rewrite (bind_attempt_onSys _ _ _ _ _ (Stat_quiet _ _)). unfold cmdRun.
  change (data_at (store, identityFile) (pr_sys (at_sys _ p))) with (data_at (store, identityFile) (pr_sys p)).
  rewrite (Hs identityFile) by done. destruct (disk !! identityFile) as [idf|] eqn:Hidf; [|done].
  erewrite bind_onSys; [|apply fromFile_quiet; [exact Hs|done|apply load_config_file|]];
    [|intros Hn; unfold LoadConfig, readFile; by rewrite Hn].
  destruct (LoadConfig disk) as [e|cfg]; [done|].
  erewrite bind_onSys; [|apply fromFile_quiet; [exact Hs|done|apply load_identity_file|]]; [|congruence].
  destruct (LoadIdentity disk) as [e|id]; [done|].
  erewrite bind_onSys by (apply fromCache_quiet; exact Hs). destruct (LoadCache disk) as [e|cache]; [done|].
  erewrite bind_attempt_onSys; [|apply fromFile_quiet; [exact Hs|done|apply load_key_file|]];
    [|intros Hn; unfold LoadEncryptionKey, readFile; by rewrite Hn].
  cbv zeta. set (st := {| st_cfg := cfg; st_id := id; st_cache := cache; st_secrets := _; st_updateDir := _ |}).
  match goal with |- match (_ ?q).1 with _ => _ end => destruct (listening_quiet q st) as [p' Hl] end.
  unfold st in Hl |- *. cbn [st_secrets] in Hl. by rewrite Hl.
Qed.
End quiet.

(** C13: [custosd run] starts with the state on disk, and with nothing else.
    Whatever calls fail, it ends with every file but its sockets as it was and
    no new secret store, or it is up: both sockets have the mode that keeps others
    out, memory already had every protection whose own system call succeeded
    when the store for secrets was made (hardening is best effort: a failing
    mlockall, prctl or setrlimit leaves that protection off), and its
    configuration, identity and cache are those of the state directory (the
    encryption key is left out only if it could not be loaded).  If no call
    fails it starts exactly when the state directory can be loaded, whatever an
    earlier run left at the sockets' paths. *)
Theorem run_starts_with_the_stored_state p :
  (∀ n, sys_fault n ≠ Some ErrNotExist) → shows store disk (pr_sys p) → socket ≠ secretSocket →
  wp start p
    (λ _ p', same_but [socket; secretSocket] (pr_sys p) (pr_sys p') ∧ pr_secrets p' = pr_secrets p)
    (λ st p', same_but [socket; secretSocket] (pr_sys p) (pr_sys p') ∧ up st p') ∧
  ((∀ n, sys_fault n = None) →
     match (start p).1, cmdRun disk version with
     | inr st, inr c => NewClient disk version st = c
     | inl _, inl _ => True
     | _, _ => False
     end).
Proof. intros Hf Hs Hne. split; [by apply wp_startDaemon|]. intros Hq. by apply start_quiet. Qed.
End start.

(** ** Ending *)

Section finish.
Context `{SysEnv}.

(** A regular end removes both sockets, if no call fails; [fatal] removes
    nothing. *)
Theorem finish_closes_the_sockets restart err cancelled socket secretSocket p r p' :
  finishDaemon restart err cancelled socket secretSocket p = (r, p') →
  same_but [socket; secretSocket] (pr_sys p) (pr_sys p') ∧
  r = inr (runStatus restart err cancelled) ∧
  (runStatus restart err cancelled ≠ 0 → p' = p) ∧
  (runStatus restart err cancelled = 0 → (∀ n, sys_fault n = None) →
     sys_files (pr_sys p') !! socket = None ∧ sys_files (pr_sys p') !! secretSocket = None).
Proof.
  unfold finishDaemon. case_decide as Hst; [|by intros [= <- <-]].
  unfold bind, ignore, onSys. intros Hr.
  pose proof (Remove_same secretSocket (pr_sys p)) as R1.
  destruct (Remove secretSocket (pr_sys p)) as [r1 s1] eqn:E1. simpl in Hr, R1.
  pose proof (Remove_same socket s1) as R2.
  destruct (Remove socket s1) as [r2 s2] eqn:E2. simpl in Hr, R2. injection Hr as <- <-. simpl.
  split_and!; [|done|done|].
  - etrans; (eapply same_outside_weaken; [eassumption|]); intros q ->%list_elem_of_singleton; set_solver.
  - intros _ Hf.
    assert (∀ q s t s', Remove q s = (t, s') → sys_files s' !! q = None ∧ ∀ k, sys_files s !! k = None → sys_files s' !! k = None) as Hrm.
    { intros q s t s'. unfold Remove, syscall. rewrite Hf. destruct (sys_files s !! q) eqn:Hq; intros [= _ <-]; simpl.
      - split; [apply lookup_delete_eq|]. intros k Hk. rewrite lookup_delete_None. by right.
      - by split. }
    destruct (Hrm _ _ _ _ E1) as [H1' _], (Hrm _ _ _ _ E2) as [H2' Hk]. auto.
Qed.
End finish.

(** ** Peers *)

(** A set that is scoped to a user is served only over a unix connection whose
    peer the kernel says has the uid that user's name resolves to. *)
Theorem scoped_sets_need_the_peer `{Platform} conn lookup input ss now values log :
  handleSecret (callerIs (peerUID conn) lookup) input ss now = (Some (SecretOK values), log) →
  ∃ line o, read_line input = Some line ∧ ss_sets ss !! TrimSpace line = Some o ∧ values = os_values o ∧
    (os_asUser o = "" ∨
     ∃ uid, pc_unix conn = true ∧ pc_cred conn = inr uid ∧ lookup (os_asUser o) = inr (pretty uid)).
Proof.
  intros (line & o & Hl & Ho & -> & Hu & _)%handleSecret_scoped. exists line, o. split_and!; try done.
  destruct Hu as [Hu|Hc]; [by left|right]. unfold callerIs, peerUID in Hc.
  destruct (pc_unix conn); simpl in Hc; [|done].
  destruct (pc_raw conn); [done|]. destruct (pc_control conn); [done|].
  destruct (pc_cred conn) as [|uid]; [done|]. destruct (lookup _) as [|u] eqn:Hu; [done|].
  apply bool_decide_eq_true in Hc as ->. by exists uid.
Qed.
(** Off Linux such a set is served to nobody. *)
Theorem scoped_sets_stay_shut `{Platform} conn lookup input ss now values log :
  handleSecret (callerIs (peerUID_other conn) lookup) input ss now = (Some (SecretOK values), log) →
  ∃ line o, ss_sets ss !! TrimSpace line = Some o ∧ os_asUser o = "" ∧ values = os_values o.
Proof.
  intros (line & o & _ & Ho & -> & [Hu|Hc] & _)%handleSecret_scoped; [by exists line, o|done].
Qed.

(** ** Witnesses: an enrolled host, with a socket left by a crash *)

Definition enrolled_disk : gmap string bytes := cl_disk demo_reenrolled.2.
Definition enrolled_files : gmap (string * string) File :=
  kmap (pair DefaultDir) ((λ d, {| f_data := d; f_mode := mode_0600 |}) <$> enrolled_disk).
Definition stale_socket : string * string := ("/run", "custosd.sock").
Definition secret_socket : string * string := ("/run/custos", "secrets.sock").
Definition enrolled_host : Proc :=
  {| pr_sys := {| sys_files := <[stale_socket := {| f_data := ""; f_mode := mode_0600 |}]> enrolled_files;
                  sys_sshd := None; sys_tick := 0 |};
     pr_mem := freshMem; pr_secrets := None |}.
Definition memcalls_ok : MemCalls := {| Mlockall := None; Prctl := None; Setrlimit := None |}.
Definition slash_join (a b : string) : string := a +:+ "/" +:+ b.

Lemma enrolled_host_shows : shows DefaultDir enrolled_disk (pr_sys enrolled_host).
Proof.
  intros name _. unfold data_at, enrolled_host, enrolled_files. cbn [pr_sys sys_files].
  rewrite lookup_insert_ne by discriminate.
  rewrite (lookup_kmap _ _ name), lookup_fmap. by destruct (enrolled_disk !! name).
Qed.

Lemma run_starts_with_the_stored_state_witness :
  match (startDaemon memcalls_ok slash_join "" stale_socket secret_socket enrolled_host).1,
        cmdRun enrolled_disk "v1" with
  | inr st, inr c => NewClient enrolled_disk "v1" st = c ∧ st_updateDir st = "/update"
  | _, _ => False
  end.
Proof.
  destruct (run_starts_with_the_stored_state memcalls_ok slash_join "" stale_socket secret_socket
    enrolled_disk "v1" enrolled_host) as [_ Hq].
  - intros n. discriminate.
  - exact enrolled_host_shows.
  - discriminate.
  - specialize (Hq (λ _, eq_refl)).
    destruct (startDaemon memcalls_ok slash_join "" stale_socket secret_socket enrolled_host).1
      as [e|st] eqn:Hst; [vm_compute in Hst; discriminate Hst|].
    destruct (cmdRun enrolled_disk "v1") as [e|c] eqn:Hc; [destruct Hq|].
    split; [exact Hq|]. vm_compute in Hst. injection Hst as <-. reflexivity.
Defined.
