(* ===== verification/CryptoProps.v ===== *)
(** The cryptographic building blocks: signed bytes determine what they sign,
    and a sealed message opens for its recipient. *)
From Stdlib Require Import Ascii.
From S2P Require Import Prelude Text Base64 Json Protocol Crypto Http Demo.

(** The two tags differ, so the bytes do. *)
Lemma tags_differ h1 h2 s1 s2 d1 d2 :
  SnapshotSigningInput h1 s1 d1 ≠ SecretSetsSigningInput h2 s2 d2.
Proof.
  unfold SnapshotSigningInput, SecretSetsSigningInput, signingInput, snapshotSigTag, setsSigTag.
  intros Heq. simpl in Heq. discriminate Heq.
Qed.

(** C38: the bytes signed for a message determine it: equal bytes mean the same
    kind of message, the same host, the same sequence number and the same
    data, so what was signed as one message cannot be read as another. *)
Theorem signed_bytes_determine_the_message h1 h2 s1 s2 d1 d2 :
  Z.of_nat (String.length h1) < 2 ^ 16 → Z.of_nat (String.length h2) < 2 ^ 16 →
  0 ≤ s1 < 2 ^ 64 → 0 ≤ s2 < 2 ^ 64 →
  (SnapshotSigningInput h1 s1 d1 = SnapshotSigningInput h2 s2 d2 ↔ h1 = h2 ∧ s1 = s2 ∧ d1 = d2) ∧
  (SecretSetsSigningInput h1 s1 d1 = SecretSetsSigningInput h2 s2 d2 ↔ h1 = h2 ∧ s1 = s2 ∧ d1 = d2) ∧
  SnapshotSigningInput h1 s1 d1 ≠ SecretSetsSigningInput h2 s2 d2.
Proof.
  intros Hh1 Hh2 Hs1 Hs2. split_and!; [..|apply tags_differ].
  - split; [by apply signingInput_fields|by intros (-> & -> & ->)].
  - split; [by apply signingInput_fields|by intros (-> & -> & ->)].
Qed.

Section hybrid.
Context `{Crypto, !CryptoLaws}.

(** A message sealed to a public key opens, with the private key it
    belongs to, to the message: sealing succeeds unless the key agreement
    yields the low-order point, and then opening succeeds. *)
Theorem sealed_messages_open_for_their_recipient sk eph nonce p shared :
  String.length sk = Hybrid.keySize → String.length eph = Hybrid.keySize →
  String.length nonce = gcmNonceSize → x25519_shared eph (x25519_public sk) = Some shared →
  ∃ sealed, Hybrid.Seal eph nonce (x25519_public sk) p = inr sealed ∧
            Hybrid.Open sk sealed = inr p.
Proof.
  intros Hsk He Hn Hsh.
  destruct (Hybrid.Seal eph nonce (x25519_public sk) p) as [e|sealed] eqn:Hs.
  - exfalso. unfold Hybrid.Seal in Hs.
    rewrite bool_decide_true, Hsh in Hs by apply x25519_public_length. done.
  - exists sealed. split; [done|]. by eapply Hybrid.Open_Seal.
Qed.
End hybrid.

(** ** Witnesses *)

Lemma signed_bytes_determine_the_message_witness :
  SnapshotSigningInput "h1" 3 "data" ≠ SnapshotSigningInput "h1" 4 "data" ∧
  SnapshotSigningInput "h1" 3 "data" ≠ SecretSetsSigningInput "h1" 3 "data".
Proof.
  split.
  - intros Heq. apply (signed_bytes_determine_the_message "h1" "h1" 3 4 "data" "data") in Heq;
      [|vm_compute; reflexivity|vm_compute; reflexivity|lia|lia].
    destruct Heq as (_ & Heq & _). discriminate Heq.
  - apply (signed_bytes_determine_the_message "h1" "h1" 3 3 "data" "data");
      [vm_compute; reflexivity|vm_compute; reflexivity|lia|lia].
Defined.

Lemma sealed_messages_open_for_their_recipient_witness :
  ∃ sealed, Hybrid.Seal (zeros 32) (zeros 12) (x25519_public (zeros 32)) "hello" = inr sealed ∧
            Hybrid.Open (zeros 32) sealed = inr "hello".
Proof.
  apply (sealed_messages_open_for_their_recipient (zeros 32) (zeros 32) (zeros 12) "hello" (zeros 32));
    reflexivity.
Defined.
