(* ===== verification/System.v ===== *)
(** The whole system under attack: control planes' requests interleave, the
    network delivers to an agent whatever it likes (lost, repeated, reordered,
    made-up messages, on any connection), and the one thing it cannot do is
    sign.  Even so a host lets a key in only if the key's owner held access to
    it.

    The state is what the server has signed so far and the agent.  A request,
    served with its own clock, faults and commits of others in between, adds
    what it signs; the databases it sees are points of one history.  The agent
    takes any step of [agent_step]. *)
From S2P Require Import Prelude Text Base64 Json Protocol Crypto Schema Evolve QUsers QAccess QSecrets World Http Perms Grants Accounts Hosts Sets Upgrades Link Router Daemon Runs Demo Scenario SystemProps GrantProps DaemonProps EndToEnd Interleaving Agent AgentProps CryptoProps.

(** The columns hold values of their types: texts are UTF-8, ids are uuids. *)
Definition key_text (pk : PublicKey) : bool :=
  valid_text (PublicKey_KeyType pk) && valid_text (PublicKey_KeyBlob pk) &&
  valid_text (PublicKey_Fingerprint pk).
Record typed (d : DB) : Prop := {
  typed_keys : Forall (λ pk, key_text pk = true) (public_keys d);
  typed_accounts : Forall (λ h, forallb valid_text (Host_Accounts h) = true) (hosts d);
  typed_ids : Forall (λ h, uuid_wf (Host_ID h)) (hosts d) }.

Record Sys := { sys_signed : list bytes; sys_agent : Agent }.

(** [P] with another oracle: two requests differ in it only. *)
Definition with_env (P : Platform) (E : Env) : Platform := {|
  platform_env := E; platform_json := @platform_json P; platform_time := @platform_time P;
  platform_crypto := @platform_crypto P; platform_collation := @platform_collation P;
  platform_match := @platform_match P |}.

Section system.
Context `{P : Platform, PL : !PlatformLaws, Disk} (s : Server)
  (http_get : nat → string → error + (Z * bytes)) (d0 : DB).

(** Nobody but the server signs: a snapshot that verifies was signed by it. *)
Definition unforged (signed : list bytes) (cfg : DaemonConfig) (env : Envelope) : Prop :=
  0 ≤ Envelope_Seq env < 2 ^ 64 ∧
  ∀ snap, signed_snapshot cfg env snap →
    SnapshotSigningInput (dc_HostID cfg) (Envelope_Seq env) (Envelope_Data env) ∈ signed.

Definition at_history (d : DB) : Prop := history s http_get d0 d ∧ typed d.

Inductive sys_step (x : Sys) : Sys → Prop :=
  | sys_serve (E : Env) w w' :
      w_tx w = None → w_changes w = [] → w_signed w = [] →
      cp_step (H:=with_env P E) s http_get w w' → (∀ d, d ∈ visited w' → at_history d) →
      sys_step x {| sys_signed := sys_signed x ++ w_signed w'; sys_agent := sys_agent x |}
  | sys_act ev a' :
      agent_step (sys_agent x) ev a' →
      (∀ i env, ev = Received i env →
         unforged (sys_signed x) (cl_cfg (ag_client (sys_agent x))) env) →
      sys_step x {| sys_signed := sys_signed x; sys_agent := a' |}.

(** The entry of a key whose owner held access, with the host's accounts. *)
Definition granted_entry (hostID : string) (e : AccessEntry) : Prop :=
  ∃ ds id, (∀ d, d ∈ ds → at_history d) ∧ uuidString id = hostID ∧ listed ds id e.

Record sys_inv (cfg : DaemonConfig) (x : Sys) : Prop := {
  si_signed msg : msg ∈ sys_signed x → ∃ ds, (∀ d, d ∈ ds → at_history d) ∧ vouched ds msg;
  si_cfg : cl_cfg (ag_client (sys_agent x)) = cfg;
  si_cache : running (sys_agent x) → ∀ fp e,
    c_entries (cl_cache (ag_client (sys_agent x))) !! fp = Some e →
    AccessEntry_Fingerprint e = fp ∧ granted_entry (dc_HostID cfg) e }.

(** ** The server signs the truth *)

Lemma served_vouched (E : Env) w w' msg :
  w_signed w = [] → cp_step (H:=with_env P E) s http_get w w' → msg ∈ w_signed w' →
  vouched (visited w') msg.
Proof.
  intros Hw Hs Hm. apply cp_step_effect in Hs as [_ _ _ _ Hok].
  assert (signed_ok w') as Hall by (apply Hok; unfold signed_ok; by rewrite Hw; constructor).
  unfold signed_ok in Hall. rewrite Forall_forall in Hall. by apply Hall.
Qed.

Lemma entry_fields_valid u t b f l :
  valid_text u = true → valid_text t = true → valid_text b = true → valid_text f = true →
  forallb valid_text l = true → entry_valid (Build_AccessEntry u t b f l) = true.
Proof.
  intros Hu Ht Hb Hf Hl. unfold entry_valid. simpl. rewrite Hu, Ht, Hb, Hf. simpl.
  rewrite andb_true_r. induction l as [|a l IH]; [done|]. simpl in *.
  apply andb_prop in Hl as [-> Hl]. by apply IH.
Qed.
Lemma listed_valid ds id e : (∀ d, d ∈ ds → at_history d) → listed ds id e → entry_valid e = true.
Proof.
  intros Hds (host & d & row & (dh & Hdh & Hhost) & _ & Hd & Hrow & ->).
  apply elem_of_host_access_rows in Hrow as (pk & (Hpk & _) & ->).
  destruct (Hds _ Hd) as [_ [Hk _ _]], (Hds _ Hdh) as [_ [_ Ha _]].
  rewrite Forall_forall in Hk. rewrite Forall_forall in Ha. apply Hk in Hpk. apply Ha in Hhost.
  unfold key_text in Hpk. apply andb_prop in Hpk as [[H1 H2]%andb_prop H3].
  by apply entry_fields_valid; [apply uuidString_valid|..].
Qed.

(** A snapshot that verifies at the agent is one the server signed for this
    host, and lists what the server listed. *)
Lemma signed_snapshot_granted hostID cfg x env snap e :
  dc_HostID cfg = uuidString hostID →
  (∀ msg, msg ∈ sys_signed x → ∃ ds, (∀ d, d ∈ ds → at_history d) ∧ vouched ds msg) →
  unforged (sys_signed x) cfg env → signed_snapshot cfg env snap → e ∈ Snapshot_Entries snap →
  granted_entry (dc_HostID cfg) e.
Proof.
  intros Hid Hsig [Hseq Hun] Hs He. destruct (Hsig _ (Hun _ Hs)) as (ds & Hds & Hv).
  destruct Hs as (_ & _ & Hu). rewrite Hid in Hv.
  destruct Hv as [id n sn Hn Hmsg Hl|host n data Hmsg]; [|by apply tags_differ in Hmsg].
  apply signingInput_fields in Hmsg as (Hh & _ & Hd); [|rewrite length_uuidString; lia..|done|done].
  rewrite Hd, unmarshal_print, Snapshot_roundtrip in Hu.
  - injection Hu as <-. exists ds, id. rewrite Hid. auto.
  - apply snapshot_json_valid, Forall_forall. intros e' He'. eapply listed_valid; [exact Hds|auto].
Qed.

Lemma sys_inv_step hostID cfg x y :
  dc_SigningPublicKey cfg ≠ "" → dc_HostID cfg = uuidString hostID →
  sys_step x y → sys_inv cfg x → sys_inv cfg y.
Proof.
  intros Hk Hid Hstep [Hsig Hcfg Hcache]. destruct Hstep as [E w w' _ _ Hw Hs Hh|ev a' Hs Hun].
  - split; simpl; [|done..]. intros msg [Hm|Hm]%elem_of_app; [auto|].
    exists (visited w'). split; [done|]. by eapply served_vouched.
  - apply agent_step_cache in Hs as (Hr & Hcfg' & Hc); [|by rewrite Hcfg].
    split; simpl; [done|congruence|]. intros Hr' fp e He.
    destruct Hc as [Hsame _|Hno|Hnone|i env snap -> Hs Happ].
    + rewrite Hsame in He. auto.
    + done.
    + by rewrite Hnone, lookup_empty in He.
    + rewrite Happ in He. apply index_entries_elem in He as [He Hfp]. split; [done|].
      rewrite Hcfg in Hs. eapply signed_snapshot_granted; [done|exact Hsig| |exact Hs|exact He].
      rewrite <-Hcfg. by eapply Hun.
Qed.

Lemma sys_inv_reachable hostID c x :
  dc_SigningPublicKey (cl_cfg c) ≠ "" → dc_HostID (cl_cfg c) = uuidString hostID →
  c_entries (cl_cache c) = ∅ →
  rtc sys_step {| sys_signed := []; sys_agent := startAgent c |} x → sys_inv (cl_cfg c) x.
Proof.
  intros Hk Hid Hc Hsteps.
  assert (sys_inv (cl_cfg c) {| sys_signed := []; sys_agent := startAgent c |}) as Hinv.
  { split; simpl; [by intros msg ?%elem_of_nil|done|]. intros _ fp e. by rewrite Hc, lookup_empty. }
  revert Hinv. induction Hsteps as [|x y z Hstep _ IH]; [done|]. intros Hx.
  apply IH. by eapply sys_inv_step.
Qed.

(** C2: no access without a grant.  Whatever requests are served and however
    they interleave, whatever database calls, disk writes and connections
    fail, and whatever a network that cannot sign delivers to a host's agent:
    if the agent, started with an empty cache, lets a key in on an account,
    then at some committed state the key belonged to an active user who held
    [host.access] on this host, and the account was one of the host's at some
    committed state. *)
Theorem access_needs_a_grant hostID c x fp account e :
  dc_SigningPublicKey (cl_cfg c) ≠ "" → dc_HostID (cl_cfg c) = uuidString hostID → uuid_wf hostID →
  c_entries (cl_cache c) = ∅ →
  rtc sys_step {| sys_signed := []; sys_agent := startAgent c |} x → running (sys_agent x) →
  authorize (cl_cache (ag_client (sys_agent x))) fp account = Some e →
  ∃ d d' pk host, history s http_get d0 d ∧ history s http_get d0 d' ∧
    allowed_key d hostID pk ∧ PublicKey_Fingerprint pk = fp ∧
    host ∈ hosts d' ∧ Host_ID host = hostID ∧ account ∈ Host_Accounts host ∧ e = entry_of host pk.
Proof using PL.
  intros Hk Hid Hu Hc Hsteps Hr Ha. destruct (sys_inv_reachable hostID c x) as [_ _ Hcache]; [done..|].
  unfold authorize, Lookup in Ha. destruct (c_entries _ !! fp) as [e'|] eqn:He; [|done].
  case_decide as Hacc; [|done]. injection Ha as ->.
  destruct (Hcache Hr fp e He) as (Hfp & ds & id & Hds & Hi & host & d & row & (d' & Hd' & Hin) & Hhid & Hd & Hrow & Heq).
  apply elem_of_host_access_rows in Hrow as (pk & Hpk & ->).
  destruct (Hds d Hd) as [Hh _], (Hds d' Hd') as [Hh' [_ _ Hids]].
  assert (id = hostID) as ->.
  { rewrite Forall_forall in Hids. apply Hids in Hin. rewrite Hhid in Hin. rewrite Hid in Hi.
    apply (f_equal uuid_scan) in Hi. rewrite !uuid_scan_print in Hi by done. by injection Hi. }
  subst e. by exists d, d', pk, host.
Qed.
End system.

(** ** Witness *)

(** The host is refreshed, its agent connects and receives the snapshot. *)
Definition refreshed : World := demo_serve (User_ PostHostRefresh) (by_admin host_id) connected.
Definition refreshed_envelope : Envelope :=
  default (NewEnvelope TypePing None) (head (default [] (chans (w_hub refreshed) !! 0%nat))).
Definition sys_start : Sys := {| sys_signed := []; sys_agent := startAgent web_daemon |}.
Definition sys_served : Sys :=
  {| sys_signed := w_signed refreshed; sys_agent := startAgent web_daemon |}.
Definition sys_dialled : Sys :=
  {| sys_signed := w_signed refreshed; sys_agent := serveLink 0 (startAgent web_daemon) |}.
Definition sys_received : Sys :=
  {| sys_signed := w_signed refreshed;
     sys_agent := let '(r, c) := receive refreshed_envelope (ag_client (sys_agent sys_dialled)) in
       on_link 0 (set_reader r newLink) (set_client c (sys_agent sys_dialled)) |}.

Lemma refreshed_at_history d : d ∈ visited refreshed → at_history demo_server demo_get demo_db d.
Proof.
  intros Hd. split.
  - apply (step_visits_history demo_server demo_get connected refreshed); [|done|done|apply step_request|done].
    intros t f d' h Hf. rewrite alone in Hf. discriminate Hf.
  - revert d Hd. apply (Forall_forall typed).
    assert (Forall (λ d, Forall (λ pk, key_text pk = true) (public_keys d) ∧
      Forall (λ h, forallb valid_text (Host_Accounts h) = true) (hosts d) ∧
      Forall (λ h, (Host_ID h < 2 ^ 128)%N) (hosts d)) (visited refreshed)) as Hall
      by (apply (bool_decide_unpack _); vm_compute; exact I).
    eapply Forall_impl; [exact Hall|]. intros d (? & ? & ?). by split.
Qed.

Lemma sys_received_reachable : rtc (sys_step demo_server demo_get demo_db) sys_start sys_received.
Proof.
  eapply rtc_l; [|eapply rtc_l; [|apply rtc_once]].
  - apply (sys_serve demo_server demo_get demo_db sys_start platform_env connected refreshed);
      [reflexivity|reflexivity|reflexivity|apply step_request|exact refreshed_at_history].
  - apply (sys_act demo_server demo_get demo_db sys_served (Dialled (wsURL (cl_cfg web_daemon))
      (match authenticate web_daemon demo_challenge with inr e => e | inl _ => demo_challenge end))
      (serveLink 0 (startAgent web_daemon))); [|by intros i env].
    apply (step_dial (startAgent web_daemon) demo_challenge _ 0); [reflexivity|vm_compute; reflexivity].
  - apply (sys_act demo_server demo_get demo_db sys_dialled (Received 0 refreshed_envelope)).
    + destruct (receive refreshed_envelope (ag_client (sys_agent sys_dialled))) as [r c] eqn:Hr.
      apply (step_read _ 0 newLink); [reflexivity|reflexivity|exact Hr|exact I].
    + intros i env [= _ <-]. split; [vm_compute; split; [discriminate|reflexivity]|]. intros snap _.
      apply (bool_decide_unpack _). vm_compute. exact I.
Qed.

Lemma access_needs_a_grant_witness :
  authorize (cl_cache (ag_client (sys_agent sys_received))) "SHA256:fp" "deploy" =
    Some (entry_of demo_host demo_key) ∧
  ∃ d pk, history demo_server demo_get demo_db d ∧ allowed_key d host_id pk ∧
    PublicKey_Fingerprint pk = "SHA256:fp".
Proof.
  assert (authorize (cl_cache (ag_client (sys_agent sys_received))) "SHA256:fp" "deploy" =
    Some (entry_of demo_host demo_key)) as Ha by (vm_compute; reflexivity).
  split; [exact Ha|].
  destruct (access_needs_a_grant demo_server demo_get demo_db host_id web_daemon sys_received
    "SHA256:fp" "deploy" (entry_of demo_host demo_key)) as (d & d' & pk & host & Hd & _ & Hpk & Hfp & _).
  - vm_compute. discriminate.
  - reflexivity.
  - reflexivity.
  - reflexivity.
  - exact sys_received_reachable.
  - vm_compute. exact I.
  - exact Ha.
  - exists d, pk. split; [exact Hd|]. split; [exact Hpk|exact Hfp].
Defined.
